(* ===== verification/_CoqProject ===== *)
-Q . S2P
Prelude.v
Effects.v
GoStrings.v
Encoding.v
CommandLine.v
NetURL.v
Types.v
Api.v
ContainerRuntime.v
Finalizers.v
GoTemplate.v
SDK.v
ProviderConfig.v
CloudProvider.v
Generator.v
Ignition.v
OSCResources.v
Bootstrap.v
Admission.v
Sha256.v
OSPController.v
DiffLog.v
OSCController.v
Panics.v
Availability.v
Interruption.v
Convergence.v
Progress.v
System.v
Interference.v
Gate.v
Freshness.v
Upgrade.v
GoHeap.v
DeepCopy.v
Aliasing.v
TestUtil.v
Main.v
Startup.v
