(* ===== verification/Prelude.v ===== *)
(** * Operating System Manager: a verification development

    The Operating System Manager (OSM) turns a MachineDeployment and an
    OperatingSystemProfile (OSP) into an OperatingSystemConfig (OSC) and two
    secrets of user data, from which new machines are provisioned.  This library
    models its Go code and proves what makes it correct.

    ** The program

    - [cmd/osm-controller] reads the flags and starts two controllers;
      [cmd/webhook] serves the admission webhooks.
    - [pkg/controllers/osp] keeps the embedded default profiles in the cluster.
    - [pkg/controllers/osc] reconciles a MachineDeployment: it fetches and checks
      the profile, rotates an outdated OSC with its secrets, makes the bootstrap
      kubeconfig ([pkg/bootstrap], [pkg/clusterinfo]), generates the OSC
      ([resources], which uses [pkg/containerruntime] and [pkg/cloudprovider]),
      and generates the secrets ([pkg/generator]).  When the MachineDeployment
      is deleted it cleans up and then drops its finalizer ([pkg/kubernetes]).
    - [pkg/admission] holds the webhooks: an OSC is immutable, a profile changes
      only with its version, and a MachineDeployment gets a default profile.

    The workers of a controller share little memory: the registry credentials
    that the OSC controller stores in a field of its reconciler, the profiles of
    the cache, into which the generation writes, and the settings of the library
    that logs differences.  Everything else goes through the API server, which
    other clients write too.

    ** Files

    Shared by all parts:
    - [Prelude]: Go errors as data ([error], [IsNotFound]), the [result] type
      (value, error or panic) and its monad.
    - [Effects]: finite programs over an effect signature.  [run p t r] says that
      [p] may make the calls and see the answers of the trace [t] and return [r];
      [interp] runs a program against a handler.  [all_calls] and [calls_when]
      are the program logic for what a program writes.
    - [GoStrings], [Encoding], [NetURL], [Sha256], [GoTemplate]: the parts of the
      Go standard library the source uses, executable: strings and numbers,
      base64, hex and JSON of a string map, query strings, SHA-256, and the
      fragment of [text/template] that the source's own templates use.
    - [CommandLine]: Go's [flag] package, the parser and its grammar, and what a
      command line means for a table of documented options ([means]).
    - [GoHeap]: memory.  Pointers, slices and maps on a heap, programs over it,
      and what it means for a copy to be independent of its original.
    - [Types]: [pkg/crd/osm/v1alpha1] and the Kubernetes objects, as values.
    - [Api]: the effects (client calls to two clusters, events, clock, random
      strings, the credentials field), the laws of an API server, and
      [MemStore], a server that satisfies them.
    - [Availability]: when calls succeed, and triples of total correctness.
      [achieves hr P p Q] says that from any state with [P], the program [p] returns
      a value and leaves a state with [Q]; a rule for each way programs are built.
    - [Interruption]: programs that are cut off between two calls.  [always h P p s]
      says that [P] holds after any number of calls of [p]; again a rule for each
      way programs are built.
    - [SDK]: the interfaces to the machine-controller SDK and other libraries.

    The components, each with the definitions named after the Go functions:
    - [ContainerRuntime]: [flags.go], [config.go], [containerruntime.go] and
      [containerd.go].
    - [Finalizers]: [pkg/kubernetes/helper.go].
    - [ProviderConfig]: [pkg/providerconfig], a module per operating system.
    - [CloudProvider]: [pkg/cloudprovider], a module per provider, and the
      escaping of [pkg/util/ini].
    - [Generator]: [pkg/generator], with both templates of the source verbatim,
      and the text of cloud-init; [Ignition]: the text of Flatcar.
    - [OSCResources]: [pkg/controllers/osc/resources].
    - [Bootstrap]: [pkg/bootstrap] and [pkg/clusterinfo].
    - [Admission]: the three webhooks; modules [osc_validation],
      [osp_validation] and [md_mutation].
    - [OSPController]: [osp_controller.go] and the generated reconcilers of
      [pkg/resources/reconciling].
    - [OSCController]: [osc_controller.go].
    - [DiffLog]: the handler of [reconciling/init.go] that logs differences.
    - [DeepCopy]: the generated deep copies, over [GoHeap].
    - [Main]: the checks of [cmd/osm-controller/main.go] that need only the
      options, up to the two reconcilers ([setup]); and the modules [log],
      [predicate] and [funcmap] for the packages of these names, INI durations
      and the CA certificate lookup.
    - [TestUtil]: the golden files of [pkg/test/util/helper.go].
    - [Startup]: the flags and [main] of both binaries, with the calls to
      controller-runtime as effects; [register.go] and the [Add] functions.

    Components together:
    - [Panics]: a whole reconciliation, for the absence of nil dereferences.
    - [Convergence]: reconciliations one after another against a server.
    - [Progress]: from which states a reconciliation or a clean-up succeeds.
    - [System]: any number of reconciliations at once, with crashes and other
      clients, as a step relation.
    - [Interference]: one worker among the others and other clients: what it
      leaves behind when nobody touches what it owns.
    - [Gate]: the API server behind the webhooks of [Admission], again a server.
    - [Freshness]: the life of a profile, edited behind the webhooks while its
      machine deployment is reconciled again and again, with success, with an
      error, or cut off in the middle.
    - [Upgrade]: the profile controller of a new release, then the config
      controller, behind the webhooks.
    - [Aliasing]: the two places where the generation writes into a Go structure
      that may be shared, against the pure definitions of [OSCResources].

    ** Conventions

    A Go function that can fail returns a [result]; a nil dereference or an
    assignment to a nil map is [Panic].  A function that takes a context and a
    client is a program of [io (ApiE R) A], where [R] is the type of the
    credentials field.  A pointer is an [option], a map a [gmap]; where nil and
    empty differ it is an [option] of a [gmap].  Iteration over a Go map goes
    through the interface [MapRange], which only promises some permutation of
    the entries, so the theorems hold for every order.  Times are nanoseconds.
    Where it matters which memory two structures share, a function is a program of
    [GoHeap.M] instead, and a view reads the value of [Types] out of the memory.

    ** Theorems

    - Many reconciliations (C1-C8).  [no_orphans] is an invariant of [System] by
      rule induction: what a controller generates always has a machine deployment
      with the finalizer.  Reads may be stale, but do not go back to a finalizer that
      was released; the generated names of machine deployments differ, and nobody
      else takes the finalizer away or creates the generated objects.  [concurrent_reconciliation] says what a
      worker leaves that succeeds among others, [user_data_follows_profile] that
      user data is that of the current profile through histories of edits and of
      reconciliations that succeed, fail or are cut off, and
      [upgrade_reaches_machines] that the profiles of a new release get there.
      These two assume that versions do not come back, that nobody else makes the
      config, its annotations or its secrets, that no finalizer holds them back, and
      that no reconciliation starts [half_rotated]: with the config gone and one of
      its secrets still there, as a rotation leaves them that fails halfway.  From
      there the controller keeps outdated user data ([half_rotated_keeps_secret]).
      [Reconcile_succeeds] and [cleanup_succeeds] say when one gets through at all:
      the first when profile, bootstrap data and machine specification are usable,
      the second whatever is left of what was generated, unless somebody else put
      finalizers on it.  [finalizer_released_last]
      is about the order of a deletion, and [reconcile_fixpoint] says that
      reconciliations after a success change nothing.
    - One reconciliation (C9-C16): the exact successful runs of the rotation, which
      changes it detects (all but collisions of SHA-256), what is written (tokens
      of other machine deployments are not), the contracts of the creation of a
      config and of a secret, and when nothing panics.  C14 and C15 are about
      behaviour to know of: edge deployments that cannot be rotated, and names that
      collide across namespaces.  The statements over [run] hold for any answers of
      the servers, those over [interp] for a server with the laws of [ApiServerLaws].
    - Webhooks (C17-C19): histories of updates by rule induction, and the mutation.
    - Controllers and webhooks together (C20-C23): a reconciliation passes through
      the webhooks unchanged, except that the release of a machine deployment whose
      provider specification cannot be read is refused for ever; a profile version
      that comes back is not noticed; the default profiles are accepted.
    - Memory (C24, C25): what is written into a shared profile, and that deep copies
      share nothing with their originals.
    - Credentials (C26, C27): the calls behind a bootstrap token, the kubeconfig.
    - Generation (C28-C32): the texts of both kinds of user data, the files of a
      machine as executed templates with their data, the kubelet settings with
      their 32-bit bounds.
    - Profiles (C33, C34): what a run of the controller writes, what is loaded.
    - Container runtime and cloud configuration (C35, C36): registry hosts, and
      escaping that printable values cannot break out of.
    - Start-up (C37-C40): the exact calls of a controller that starts, the options
      it refuses, what its command lines set ([osm_options] is the table of the
      documented options), and the settings of the difference log.

    There are more theorems than properties: convergence to a current config
    ([reconcile_converges], [reconcile_refreshes]), the finalizers as a set, the
    parameters of registry mirrors, the host files, the texts of the cloud
    configurations, the feature gates, the check of a profile against its machine
    deployment ([checkOSP_spec]), and that the profile which the webhook names by
    default is one that the controller loads ([default_profile_is_loaded]).

    Each property with hypotheses has a witness beside it, on data of a module
    [Demo] where every interface is a concrete function.

    ** Bounds and fuel

    Two kinds of recursion take fuel.  [GoStrings.trim_left] removes at least
    one byte per step and gets the length of the string; [trim_left_done] shows
    that nothing is left to strip.  The lexer and the parsers of [GoTemplate] get
    the length of the text or the number of tokens; more fuel does not change
    their answer ([Parse_fuel]).  The parser of command lines, the interpreters of
    programs and the schedules of [System] are structural.  [kubelet] integers are
    bounded by their 32 bits ([getKubeletConfigs_bounds]), the worker count by 64
    ([ParseInt0_bounds]).

    ** Interfaces

    Code outside the repository is an argument: the API servers, the SDK's
    decoding and variable resolution, sprig, the YAML, TOML and Ignition
    encoders, [url.Parse], semver, IP addresses and durations, the embedded file
    system, the quoted values that gcfg reads ([ini.QuotedValues]), the ensure loop
    of [k8c.io/reconciler] ([ReconcilingLaws]), the deep
    copies of Kubernetes types, [deep.Equal], and controller-runtime's managers
    ([Runtime]).  Laws state documented behaviour only.  The laws of an API server
    come in classes, each of them asked for only where it is used: [ApiServerLaws]
    (what is read is what was written), [NamedServer], [DeletionLaws],
    [ContentLaws] (what is stored is what was sent, up to the metadata that the
    server sets) and [AtomicWrites] (a write without an answer was done or was not).
    [Availability] adds when its calls succeed: a write of a new object, an update of
    the version that is stored.  [MemStore] satisfies all of them; [Gate.gated] keeps
    [ApiServerLaws], [NamedServer], [DeletionLaws] and [AtomicWrites], so the theorems
    over servers hold behind the webhooks too.  [CalmLibs] says that libraries return
    errors and do not panic.

    ** Not modelled

    What happens inside managers, caches, probes, the webhook server and zap; log
    lines, usage texts of flags and signals; the logger of the tests.  The cache
    behind a client appears as freedom of the answers in a trace. *)

From stdpp Require Export base list strings gmap sorting.
From Stdlib Require Export ZArith Lia Ascii String.
#[global] Open Scope string_scope.
#[global] Open Scope list_scope.

(** ** Go errors

    An [error] value keeps the format string of the source and its arguments,
    so a definition reads like the [fmt.Errorf] call it models.  [Wrapf] is a
    format that ends in [%w]: the chain of wrapped errors is what
    [kerrors.IsNotFound] walks ([errors.As]). *)

Inductive StatusReason : Type :=
| ReasonNotFound
| ReasonAlreadyExists
| ReasonConflict
| ReasonOther (r : string).

Inductive error : Type :=
| Errorf (format : string) (args : list string)
| Wrapf (format : string) (args : list string) (wrapped : error)
| StatusError (reason : StatusReason) (msg : string)
| LibError (fn arg why : string).

#[export] Instance StatusReason_eq_dec : EqDecision StatusReason.
Proof. solve_decision. Defined.

#[export] Instance error_eq_dec : EqDecision error.
Proof. solve_decision. Defined.

(** [kerrors.IsNotFound]: the first API status in the chain decides. *)
Fixpoint IsNotFound (e : error) : bool :=
  match e with
  | StatusError ReasonNotFound _ => true
  | StatusError _ _ => false
  | Wrapf _ _ e' => IsNotFound e'
  | Errorf _ _ | LibError _ _ _ => false
  end.

(** ** Results: a Go call returns a value, returns an error, or panics *)

Inductive result (A : Type) : Type :=
| Ok (a : A)
| Err (e : error)
| Panic (why : string).
Arguments Ok {A} a.
Arguments Err {A} e.
Arguments Panic {A} why.

Definition bindR {A B} (m : result A) (f : A -> result B) : result B :=
  match m with
  | Ok a => f a
  | Err e => Err e
  | Panic w => Panic w
  end.

(** [if err != nil { return fmt.Errorf("... %w", ..., err) }] *)
Definition wrapR {A} (format : string) (args : list string) (m : result A) : result A :=
  match m with
  | Err e => Err (Wrapf format args e)
  | _ => m
  end.

Definition is_ok {A} (m : result A) : bool :=
  match m with Ok _ => true | _ => false end.

Definition ok_value {A} (m : result A) : option A :=
  match m with Ok a => Some a | _ => None end.

(** A Go pointer dereference. *)
Definition deref {A} (what : string) (p : option A) : result A :=
  match p with
  | Some a => Ok a
  | None => Panic what
  end.

Declare Scope osm_scope.
Delimit Scope osm_scope with osm.
#[global] Open Scope osm_scope.

Notation "'let!' x ':=' m 'in' k" := (bindR m (fun x => k))
  (at level 10, x pattern, m at level 100, k at level 200) : osm_scope.

(** ** Inversion of results *)

Lemma bindR_Ok {A B} (m : result A) (f : A -> result B) b :
  bindR m f = Ok b <-> exists a, m = Ok a /\ f a = Ok b.
Proof. destruct m; cbn; split; intros; destruct_and?; naive_solver. Qed.

Lemma bindR_Err {A B} (m : result A) (f : A -> result B) e :
  bindR m f = Err e <-> m = Err e \/ exists a, m = Ok a /\ f a = Err e.
Proof. destruct m; cbn; split; intros; destruct_and?; naive_solver. Qed.

Lemma wrapR_Ok {A} fmt args (m : result A) a :
  wrapR fmt args m = Ok a <-> m = Ok a.
Proof. destruct m; cbn; split; intros; destruct_and?; naive_solver. Qed.

Lemma wrapR_Err {A} fmt args (m : result A) e :
  wrapR fmt args m = Err e <-> exists e', m = Err e' /\ e = Wrapf fmt args e'.
Proof. destruct m; cbn; split; intros; destruct_and?; naive_solver. Qed.

Lemma wrapR_Panic {A} fmt args (m : result A) w :
  wrapR fmt args m = Panic w <-> m = Panic w.
Proof. destruct m; cbn; split; intros; destruct_and?; naive_solver. Qed.

Lemma IsNotFound_Wrapf fmt args e : IsNotFound (Wrapf fmt args e) = IsNotFound e.
Proof. reflexivity. Qed.

(** Evaluating whether a result is [Ok], and not the value. *)
Lemma ok_default {A} (m : result A) (d : A) : is_ok m = true -> m = Ok (default d (ok_value m)).
Proof. by destruct m. Qed.

Lemma is_ok_Ok {A} (m : result A) : is_ok m = true <-> exists a, m = Ok a.
Proof. destruct m; cbn; split; try done; [by eexists|by intros []..]. Qed.

Lemma is_ok_bindR {A B} (m : result A) (f : A -> result B) :
  is_ok (bindR m f) = true <-> exists a, m = Ok a /\ is_ok (f a) = true.
Proof. destruct m; cbn; split; try done; naive_solver. Qed.

Lemma is_ok_wrapR {A} fmt args (m : result A) : is_ok (wrapR fmt args m) = is_ok m.
Proof. by destruct m. Qed.

(** ** Results that are not a panic *)

Definition no_panic {A} (m : result A) : Prop :=
  match m with Panic _ => False | _ => True end.

Lemma no_panic_bindR {A B} (m : result A) (f : A -> result B) :
  no_panic m -> (forall a, m = Ok a -> no_panic (f a)) -> no_panic (bindR m f).
Proof. destruct m; cbn; auto. Qed.

Lemma no_panic_wrapR {A} fmt args (m : result A) : no_panic m -> no_panic (wrapR fmt args m).
Proof. by destruct m. Qed.

Lemma no_panic_deref {A} what (p : option A) : p <> None -> no_panic (deref what p).
Proof. by destruct p. Qed.

(** A function of a library that does not panic. *)
Definition never_panics {A B} (f : A -> result B) : Prop := forall a, no_panic (f a).

Create HintDb osm discriminated.
(** Lemmas [no_panic (f ..)], by the head [f]. *)
Create HintDb calm discriminated.
Create Rewrite HintDb osm.
#[export] Hint Rewrite @bindR_Ok @wrapR_Ok @bindR_Err @wrapR_Err : osm.

(** One step of a proof that a result is not a panic: through binds and wraps, and
    a case for every branch; what is left are calls with a lemma in [calm]. *)
Ltac calm_step :=
  match goal with
  | |- no_panic (bindR _ _) => apply no_panic_bindR; [|intros]
  | |- no_panic (wrapR _ _ _) => apply no_panic_wrapR
  | |- True => exact I
  | |- no_panic (Ok _) => exact I
  | |- no_panic (Err _) => exact I
  | H : never_panics ?f |- no_panic (?f _) => apply H
  | |- no_panic _ => solve [auto 2 with calm nocore]
  | |- no_panic (if ?x then _ else _) => destruct x eqn:?
  | |- no_panic (match ?x with _ => _ end) => destruct x eqn:?
  end.
Ltac calm := repeat calm_step.

(** Case analysis on every [match] of a hypothesis, closing the impossible
    branches: the workhorse for "if it returned [Ok], then ...". *)
Ltac split_match H :=
  match type of H with
  | context [match ?x with _ => _ end] =>
      let E := fresh "E" in destruct x eqn:E; simplify_eq/=; try discriminate
  end.

Ltac inv_ok H := repeat (first [ progress simplify_eq/= | split_match H ]).

(** Split a conjunction-shaped [Ok] hypothesis produced by [let!] chains. *)
Ltac inv_bind H :=
  repeat first
    [ rewrite bindR_Ok in H; let x := fresh "x" in let Hx := fresh "Hx" in
      destruct H as (x & Hx & H); rewrite ?wrapR_Ok in Hx
    | rewrite wrapR_Ok in H ];
  simplify_eq/=.
