(* ===== verification/Effects.v ===== *)
(** * Programs with effects, their traces and their interpretation

    The controllers call an API server, a clock and a random source.  A
    controller is a finite program over an effect signature [E]; an answer may
    be anything, so a statement over all traces of a program covers failing
    calls and interference by other writers between two calls.  [interp] runs
    the same program against a handler (a concrete server). *)

From S2P Require Import Prelude.

Inductive prog (E : Type -> Type) (A : Type) : Type :=
| Ret (a : A)
| Vis {X : Type} (e : E X) (k : X -> prog E A).
Arguments Ret {E A} a.
Arguments Vis {E A X} e k.

Fixpoint bind {E A B} (m : prog E A) (f : A -> prog E B) : prog E B :=
  match m with
  | Ret a => f a
  | Vis e k => Vis e (fun x => bind (k x) f)
  end.

Definition trigger {E X} (e : E X) : prog E X := Vis e Ret.

Notation "'do' x '<-' m ';' k" := (bind m (fun x => k))
  (at level 10, x pattern, m at level 100, k at level 200) : osm_scope.

(** Programs that return an error: [do!] is the early return of
    [if err != nil { return err }]. *)
Abbreviation io E A := (prog E (result A)).

Definition bindIO {E A B} (m : io E A) (f : A -> io E B) : io E B :=
  bind m (fun r =>
    match r with
    | Ok a => f a
    | Err e => Ret (Err e)
    | Panic w => Ret (Panic w)
    end).

Definition wrapIO {E A} (format : string) (args : list string) (m : io E A) : io E A :=
  bind m (fun r => Ret (wrapR format args r)).

Definition pureIO {E A} (r : result A) : io E A := Ret r.

Notation "'do!' x '<-' m ';' k" := (bindIO m (fun x => k))
  (at level 10, x pattern, m at level 100, k at level 200) : osm_scope.

(** ** Traces *)

(** One observed call with its answer. *)
Inductive obs (E : Type -> Type) : Type :=
| Obs {X : Type} (e : E X) (answer : X).
Arguments Obs {E X} e answer.

(** [run m t a]: the program can make exactly the calls of [t], in that order,
    receive those answers and return [a].  Every answer is possible. *)
Fixpoint run {E A} (m : prog E A) (t : list (obs E)) (a : A) : Prop :=
  match m with
  | Ret b => t = [] /\ a = b
  | Vis e k =>
      match t with
      | [] => False
      | o :: t' => exists x, o = Obs e x /\ run (k x) t' a
      end
  end.

(** Interpretation against a handler: a server with a state. *)
Fixpoint interp {E A S} (h : forall X, E X -> S -> X * S) (m : prog E A) (s : S) : A * S :=
  match m with
  | Ret a => (a, s)
  | Vis e k => let '(x, s') := h _ e s in interp h (k x) s'
  end.


(** The trace against a handler. *)
Fixpoint trace {E A S} (h : forall X, E X -> S -> X * S) (m : prog E A) (s : S) : list (obs E) :=
  match m with
  | Ret _ => []
  | Vis e k => let '(x, s') := h _ e s in Obs e x :: trace h (k x) s'
  end.

Section Traces.
Context {E : Type -> Type}.
Implicit Types t : list (obs E).

Lemma run_bind {A B} (m : prog E A) (f : A -> prog E B) t b :
  run (bind m f) t b <->
  exists t1 t2 a, t = t1 ++ t2 /\ run m t1 a /\ run (f a) t2 b.
Proof.
  revert t. induction m as [a|X e k IH]; intros t; cbn.
  - split; [intros H; by exists [], t, a|]. by intros (t1 & t2 & a' & -> & [-> ->] & H).
  - destruct t as [|o t].
    + split; [done|]. intros ([|o t1] & t2 & a & ? & H & _); [done|discriminate].
    + split.
      * intros (x & -> & (t1 & t2 & a & -> & Hm & Hf)%IH).
        exists (Obs e x :: t1), t2, a. naive_solver.
      * intros ([|o' t1] & t2 & a & Heq & Hm & Hf); [done|].
        injection Heq as <- ->. destruct Hm as (x & -> & Hm).
        exists x. split; [done|]. apply IH. by exists t1, t2, a.
Qed.

Lemma run_bindIO {A B} (m : io E A) (f : A -> io E B) t b :
  run (bindIO m f) t b <->
  exists t1 t2 r, t = t1 ++ t2 /\ run m t1 r /\
    match r with
    | Ok a => run (f a) t2 b
    | Err e => t2 = [] /\ b = Err e
    | Panic w => t2 = [] /\ b = Panic w
    end.
Proof.
  unfold bindIO. rewrite run_bind.
  split; intros (t1 & t2 & [a|e|w] & H); exists t1, t2; eexists; exact H.
Qed.

Lemma run_wrapIO {A} fmt args (m : io E A) t b :
  run (wrapIO fmt args m) t b <-> exists r, run m t r /\ b = wrapR fmt args r.
Proof.
  unfold wrapIO. rewrite run_bind. cbn. split.
  - intros (t1 & t2 & r & -> & Hm & -> & ->). rewrite app_nil_r. eauto.
  - intros (r & Hm & ->). exists t, [], r. by rewrite app_nil_r.
Qed.

(** A run in which the first call answered and the rest of the program went on. *)
Lemma run_trigger {X} (e : E X) t x : run (trigger e) t x <-> t = [Obs e x].
Proof.
  cbn. destruct t as [|o t]; [naive_solver|]. split.
  - by intros (y & -> & -> & ->).
  - intros [= -> ->]. by exists x.
Qed.

Lemma run_bindIO_Ok {A B} (m : io E A) (f : A -> io E B) t b :
  run (bindIO m f) t (Ok b) <->
  exists t1 t2 a, t = t1 ++ t2 /\ run m t1 (Ok a) /\ run (f a) t2 (Ok b).
Proof.
  rewrite run_bindIO. split.
  - intros (t1 & t2 & [a|e|w] & -> & H1 & H2); [eauto 7|by destruct H2..].
  - intros (t1 & t2 & a & -> & H1 & H2). by exists t1, t2, (Ok a).
Qed.

Lemma run_wrapIO_Ok {A} fmt args (m : io E A) t b : run (wrapIO fmt args m) t (Ok b) <-> run m t (Ok b).
Proof.
  rewrite run_wrapIO. split; [|intros H; by exists (Ok b)].
  intros (r & Hm & Hr). symmetry in Hr. by apply wrapR_Ok in Hr as ->.
Qed.

Lemma run_pureIO {A} (r : result A) t b : run (pureIO r : io E A) t b <-> t = [] /\ r = b.
Proof. cbn. naive_solver. Qed.

(** Every program has a run: controllers cannot get stuck or diverge. *)
Lemma run_trace {A S} (h : forall X, E X -> S -> X * S) (m : prog E A) s :
  run m (trace h m s) (interp h m s).1.
Proof.
  revert s. induction m as [a|X e k IH]; intros s; cbn; [done|].
  destruct (h X e s) as [x s']. exists x. by split.
Qed.

Lemma interp_bind {A B S} (h : forall X, E X -> S -> X * S) (m : prog E A) (f : A -> prog E B) s :
  interp h (bind m f) s = let '(a, s') := interp h m s in interp h (f a) s'.
Proof.
  revert s. induction m as [a|X e k IH]; intros s; cbn; [done|].
  destruct (h X e s) as [x s']. apply IH.
Qed.

Lemma interp_bindIO {A B S} (h : forall X, E X -> S -> X * S) (m : io E A) (f : A -> io E B) s :
  interp h (bindIO m f) s =
  match interp h m s with
  | (Ok a, s') => interp h (f a) s'
  | (Err e, s') => (Err e, s')
  | (Panic w, s') => (Panic w, s')
  end.
Proof. unfold bindIO. rewrite interp_bind. by destruct (interp h m s) as [[] s']. Qed.

Lemma interp_wrapIO {A S} (h : forall X, E X -> S -> X * S) fmt args (m : io E A) s :
  interp h (wrapIO fmt args m) s =
  (wrapR fmt args (interp h m s).1, (interp h m s).2).
Proof. unfold wrapIO. rewrite interp_bind. by destruct (interp h m s). Qed.

Lemma interp_bindIO_Ok {A B S} (h : forall X, E X -> S -> X * S) (m : io E A) (f : A -> io E B) s b s' :
  interp h (bindIO m f) s = (Ok b, s') <->
  exists a s1, interp h m s = (Ok a, s1) /\ interp h (f a) s1 = (Ok b, s').
Proof. rewrite interp_bindIO. destruct (interp h m s) as [[a|e|w] s1]; naive_solver. Qed.

Lemma interp_wrapIO_Ok {A S} (h : forall X, E X -> S -> X * S) fmt args (m : io E A) s b s' :
  interp h (wrapIO fmt args m) s = (Ok b, s') <-> interp h m s = (Ok b, s').
Proof. rewrite interp_wrapIO. destruct (interp h m s) as [[a|e|w] s1]; cbn; naive_solver. Qed.

Lemma interp_trigger {X S} (h : forall X, E X -> S -> X * S) (e : E X) s : interp h (trigger e) s = h _ e s.
Proof. cbn. by destruct (h X e s). Qed.

Lemma interp_bind_trigger {X A S} (h : forall X, E X -> S -> X * S) (e : E X) (f : X -> prog E A) s :
  interp h (bind (trigger e) f) s = interp h (f (h _ e s).1) (h _ e s).2.
Proof. cbn. by destruct (h X e s). Qed.

(** A property of every call of a program that holds whatever the answers. *)
Fixpoint all_calls {A} (P : forall X, E X -> Prop) (m : prog E A) : Prop :=
  match m with
  | Ret _ => True
  | Vis e k => P _ e /\ forall x, all_calls P (k x)
  end.

Lemma all_calls_bind {A B} (P : forall X, E X -> Prop) (m : prog E A) (f : A -> prog E B) :
  all_calls P m -> (forall a, all_calls P (f a)) -> all_calls P (bind m f).
Proof.
  induction m as [a|X e k IH]; cbn; [naive_solver|].
  intros [He Hk] Hf. split; [done|]. intros x. by apply IH.
Qed.

Lemma all_calls_bindIO {A B} (P : forall X, E X -> Prop) (m : io E A) (f : A -> io E B) :
  all_calls P m -> (forall a, all_calls P (f a)) -> all_calls P (bindIO m f).
Proof. intros Hm Hf. apply all_calls_bind; [done|]. intros [a|e|w]; cbn; auto. Qed.

Lemma all_calls_wrapIO {A} (P : forall X, E X -> Prop) fmt args (m : io E A) :
  all_calls P m -> all_calls P (wrapIO fmt args m).
Proof. intros Hm. apply all_calls_bind; [done|]. intros r. exact I. Qed.

Lemma all_calls_mono {A} (P Q : forall X, E X -> Prop) (m : prog E A) :
  (forall X (e : E X), P X e -> Q X e) -> all_calls P m -> all_calls Q m.
Proof. intros HPQ. induction m as [a|X e k IH]; cbn; naive_solver. Qed.

(** [all_calls] is a statement about every trace. *)
Lemma all_calls_run {A} (P : forall X, E X -> Prop) (m : prog E A) t a :
  all_calls P m -> run m t a -> Forall (fun o => match o with Obs e _ => P _ e end) t.
Proof.
  revert t. induction m as [b|X e k IH]; intros t; cbn.
  - by intros _ [-> _].
  - destruct t as [|o t]; [done|]. intros [He Hk] (x & -> & Hr). constructor; eauto.
Qed.

(** A run that makes a call which [m] never makes got past [m]. *)
Lemma run_bindIO_past {A B} (P : forall X, E X -> Prop) (m : io E A) (f : A -> io E B) t b :
  run (bindIO m f) t b -> all_calls (fun X e => ~ P X e) m ->
  Exists (fun o => match o with Obs e _ => P _ e end) t ->
  exists t1 t2 a, t = t1 ++ t2 /\ run m t1 (Ok a) /\ run (f a) t2 b /\
    Exists (fun o => match o with Obs e _ => P _ e end) t2.
Proof.
  rewrite run_bindIO. intros (t1 & t2 & r & -> & Hm & Hf) Hall [Hex|Hex]%Exists_app.
  - exfalso. pose proof (all_calls_run _ _ _ _ Hall Hm) as Hno. rewrite Forall_forall in Hno.
    apply Exists_exists in Hex as ([X e x] & Hin & He). by apply (Hno _ Hin).
  - destruct r as [a|e|w]; [by exists t1, t2, a|by destruct Hf as [-> _]; inversion Hex..].
Qed.

Lemma run_bind_past {A X} (P : forall X, E X -> Prop) (e : E X) (f : X -> prog E A) t b :
  run (bind (trigger e) f) t b -> ~ P X e ->
  Exists (fun o => match o with Obs e _ => P _ e end) t ->
  exists x t2, t = Obs e x :: t2 /\ run (f x) t2 b /\ Exists (fun o => match o with Obs e _ => P _ e end) t2.
Proof.
  rewrite run_bind. intros (t1 & t2 & x & -> & ->%run_trigger & Hf) He [Hex|Hex]%Exists_app.
  - by apply Exists_cons in Hex as [?|?%Exists_nil].
  - by exists x, t2.
Qed.

(** The same for the runs in which every answer satisfies [Q]. *)
Fixpoint calls_when {A} (Q : forall X, E X -> X -> Prop) (P : forall X, E X -> Prop) (m : prog E A) : Prop :=
  match m with
  | Ret _ => True
  | Vis e k => P _ e /\ forall x, Q _ e x -> calls_when Q P (k x)
  end.

Lemma calls_when_bind {A B} Q (P : forall X, E X -> Prop) (m : prog E A) (f : A -> prog E B) :
  calls_when Q P m -> (forall a, calls_when Q P (f a)) -> calls_when Q P (bind m f).
Proof.
  induction m as [a|X e k IH]; cbn; [naive_solver|].
  intros [He Hk] Hf. split; [done|]. intros x Hx. apply IH; auto.
Qed.

Lemma calls_when_bindIO {A B} Q (P : forall X, E X -> Prop) (m : io E A) (f : A -> io E B) :
  calls_when Q P m -> (forall a, calls_when Q P (f a)) -> calls_when Q P (bindIO m f).
Proof. intros Hm Hf. apply calls_when_bind; [done|]. intros [a|e|w]; cbn; auto. Qed.

Lemma calls_when_wrapIO {A} Q (P : forall X, E X -> Prop) fmt args (m : io E A) :
  calls_when Q P m -> calls_when Q P (wrapIO fmt args m).
Proof. intros Hm. apply calls_when_bind; [done|]. intros r. exact I. Qed.

Lemma calls_when_pure {A B} Q (P : forall X, E X -> Prop) fmt args (m : result A) (f : A -> io E B) :
  (forall a, m = Ok a -> calls_when Q P (f a)) ->
  calls_when Q P (bindIO (wrapIO fmt args (pureIO m)) f).
Proof. destruct m; cbn; auto. Qed.

Lemma all_calls_when {A} Q (P P' : forall X, E X -> Prop) (m : prog E A) :
  (forall X (e : E X), P X e -> P' X e) -> all_calls P m -> calls_when Q P' m.
Proof. intros HP. induction m as [a|X e k IH]; cbn; naive_solver. Qed.

Lemma all_calls_of_when {A} (P : forall X, E X -> Prop) (m : prog E A) :
  calls_when (fun _ _ _ => True) P m -> all_calls P m.
Proof. induction m as [a|X e k IH]; cbn; naive_solver. Qed.

Lemma calls_when_run {A} Q (P : forall X, E X -> Prop) (m : prog E A) t a :
  calls_when Q P m -> run m t a -> Forall (fun o => match o with Obs e x => Q _ e x end) t ->
  Forall (fun o => match o with Obs e _ => P _ e end) t.
Proof.
  revert t. induction m as [b|X e k IH]; intros t; cbn.
  - by intros _ [-> _].
  - destruct t as [|o t]; [done|]. intros [He Hk] (x & -> & Hr) [HQ HQs]%Forall_cons.
    constructor; eauto.
Qed.

Lemma calls_when_weaken {A} (Q Q' : forall X, E X -> X -> Prop) (P P' : forall X, E X -> Prop) (m : prog E A) :
  (forall X (e : E X) x, Q' X e x -> Q X e x) -> (forall X (e : E X), P X e -> P' X e) ->
  calls_when Q P m -> calls_when Q' P' m.
Proof. intros HQ HP. induction m as [a|X e k IH]; cbn; naive_solver. Qed.

(** What a program returns in the runs in which every answer satisfies [Q]. *)
Fixpoint returns {A} (Q : forall X, E X -> X -> Prop) (Post : A -> Prop) (m : prog E A) : Prop :=
  match m with
  | Ret a => Post a
  | Vis e k => forall x, Q _ e x -> returns Q Post (k x)
  end.

Definition on_ok {A} (Post : A -> Prop) (r : result A) : Prop :=
  match r with Ok a => Post a | _ => True end.

Lemma calls_when_bindIO_returns {A B} Q (P : forall X, E X -> Prop) (Post : A -> Prop) (m : io E A)
    (f : A -> io E B) :
  calls_when Q P m -> returns Q (on_ok Post) m -> (forall a, Post a -> calls_when Q P (f a)) ->
  calls_when Q P (bindIO m f).
Proof.
  intros Hm Hr Hf. unfold bindIO. induction m as [[a|e|w]|X e k IH]; cbn in *; [by apply Hf|done..|].
  destruct Hm as [He Hk]. split; [done|]. intros x Hx. apply IH; auto.
Qed.

(** A property of every call together with the calls and answers before it. *)
Fixpoint ordered {A} (P : list (obs E) -> forall X, E X -> Prop) (history : list (obs E)) (m : prog E A) : Prop :=
  match m with
  | Ret _ => True
  | Vis e k => P history _ e /\ forall x, ordered P (history ++ [Obs e x]) (k x)
  end.

Lemma ordered_run {A} P history (m : prog E A) t1 X (e : E X) x t2 a :
  ordered P history m -> run m (t1 ++ Obs e x :: t2) a -> P (history ++ t1) _ e.
Proof.
  revert t1 history. induction m as [b|Y e' k IH]; intros t1 history Ho Hr; cbn in *.
  - destruct Hr as [Ht _]. by destruct t1.
  - destruct Ho as [He Hk]. destruct t1 as [|o t1]; cbn in Hr.
    + destruct Hr as (y & Ho & _). rewrite app_nil_r.
      assert (forall o, Obs e' y = o -> match o with Obs e _ => P history _ e end) as H by (by intros ? <-).
      exact (H _ (eq_sym Ho)).
    + destruct Hr as (y & -> & Hr). specialize (IH y t1 _ (Hk y) Hr). by rewrite <- app_assoc in IH.
Qed.

Lemma all_calls_ordered_after {A} (P : list (obs E) -> forall X, E X -> Prop) (P' : forall X, E X -> Prop) history
    (m : prog E A) :
  (forall later X (e : E X), P' X e -> P (history ++ later) X e) -> all_calls P' m -> ordered P history m.
Proof.
  intros HP. rewrite <- (app_nil_r history). generalize (@nil (obs E)) as later.
  induction m as [a|X e k IH]; intros later; cbn; [done|]. intros [He Hk]. split; [by apply HP|].
  intros x. rewrite <- app_assoc. by apply IH.
Qed.

Lemma all_calls_ordered {A} (P : list (obs E) -> forall X, E X -> Prop) (P' : forall X, E X -> Prop) history
    (m : prog E A) :
  (forall h X (e : E X), P' X e -> P h X e) -> all_calls P' m -> ordered P history m.
Proof. intros HP. apply all_calls_ordered_after. intros later X e. apply HP. Qed.

Lemma ordered_and {A} (P Q : list (obs E) -> forall X, E X -> Prop) history (m : prog E A) :
  ordered P history m -> ordered Q history m -> ordered (fun h X e => P h X e /\ Q h X e) history m.
Proof. revert history. induction m as [a|X e k IH]; intros history; cbn; naive_solver. Qed.

(** A call that a handler answers without changing a part [f] of the state
    leaves [f] alone along the whole program. *)
Lemma interp_frame {A S T} (h : forall X, E X -> S -> X * S) (f : S -> T)
    (P : forall X, E X -> Prop) (m : prog E A) s :
  (forall X (e : E X) s, P X e -> f (h X e s).2 = f s) ->
  all_calls P m -> f (interp h m s).2 = f s.
Proof.
  intros Hf. revert s. induction m as [a|X e k IH]; intros s; cbn; [done|].
  intros [He Hk]. specialize (Hf X e s He). destruct (h X e s) as [x s']. cbn in Hf.
  rewrite IH by done. done.
Qed.

(** The same against a handler whose answers satisfy [Q] in the states of an
    invariant [I], for the calls a program makes on such answers. *)
Lemma interp_frame_when {A S T} (h : forall X, E X -> S -> X * S) (f : S -> T) (I : S -> Prop)
    (Q : forall X, E X -> X -> Prop) (P : forall X, E X -> Prop) (m : prog E A) s :
  (forall X (e : E X) s, I s -> I (h X e s).2 /\ Q X e (h X e s).1) ->
  (forall X (e : E X) s, P X e -> f (h X e s).2 = f s) ->
  I s -> calls_when Q P m -> f (interp h m s).2 = f s.
Proof.
  intros HI Hf. revert s. induction m as [a|X e k IH]; intros s Hs; cbn; [done|].
  intros [He Hk]. specialize (Hf X e s He). destruct (HI X e s Hs) as [HI' HQ].
  destruct (h X e s) as [x s']. cbn in *. rewrite IH by auto. done.
Qed.

Lemma trace_answers {A S} (h : forall X, E X -> S -> X * S) (I : S -> Prop) (Q : forall X, E X -> X -> Prop)
    (m : prog E A) s :
  (forall X (e : E X) s, I s -> I (h X e s).2 /\ Q X e (h X e s).1) -> I s ->
  Forall (fun o => match o with Obs e x => Q _ e x end) (trace h m s).
Proof.
  intros HI. revert s. induction m as [a|X e k IH]; intros s Hs; cbn; [constructor|].
  destruct (HI X e s Hs) as [HI' HQ]. destruct (h X e s) as [x s']. constructor; [done|]. by apply IH.
Qed.

(** An invariant of the handler that the calls of a program keep: it holds at
    the end, and every call of the run is one the program may make. *)
Lemma interp_calls_when {A S} (h : forall X, E X -> S -> X * S) (I : S -> Prop)
    (Q : forall X, E X -> X -> Prop) (P : forall X, E X -> Prop) (m : prog E A) s :
  (forall X (e : E X) s, I s -> Q X e (h X e s).1) ->
  (forall X (e : E X) s, I s -> P X e -> I (h X e s).2) ->
  I s -> calls_when Q P m ->
  I (interp h m s).2 /\ Forall (fun o => match o with Obs e _ => P _ e end) (trace h m s).
Proof.
  intros HQ HI. revert s. induction m as [a|X e k IH]; intros s Hs; cbn; [by repeat constructor|].
  intros [He Hk]. specialize (HI X e s Hs He). specialize (HQ X e s Hs).
  destruct (h X e s) as [x s']. cbn in *. destruct (IH x s' HI (Hk x HQ)) as [H1 H2]. by repeat constructor.
Qed.

(** Two handlers that answer the calls of a program alike, one on the image of
    the state of the other. *)
Lemma interp_agree {A S T} (h : forall X, E X -> S -> X * S) (h' : forall X, E X -> T -> X * T) (f : S -> T)
    (P : forall X, E X -> Prop) (m : prog E A) s :
  (forall X (e : E X) s, P X e -> h' X e (f s) = ((h X e s).1, f (h X e s).2)) -> all_calls P m ->
  interp h' m (f s) = ((interp h m s).1, f (interp h m s).2) /\ trace h' m (f s) = trace h m s.
Proof.
  intros Hh. revert s. induction m as [a|X e k IH]; intros s; cbn; [done|].
  intros [He Hk]. rewrite (Hh X e s He). destruct (h X e s) as [x s']. cbn.
  destruct (IH x s' (Hk x)) as [-> ->]. done.
Qed.

Lemma interp_invariant {A S} (h : forall X, E X -> S -> X * S) (I : S -> Prop) (m : prog E A) s :
  (forall X (e : E X) s, I s -> I (h X e s).2) -> I s -> I (interp h m s).2.
Proof.
  intros HI. revert s. induction m as [a|X e k IH]; intros s Hs; cbn; [done|].
  specialize (HI X e s Hs). destruct (h X e s) as [x s']. by apply IH.
Qed.
End Traces.

(** ** Runs that do not panic

    [safe Q P m]: as long as every answer satisfies [Q], [m] does not panic, and a
    value it returns satisfies [P].  An error is always allowed. *)

Definition yields {A} (P : A -> Prop) (r : result A) : Prop :=
  match r with Ok a => P a | Err _ => True | Panic _ => False end.

Lemma yields_no_panic {A} (P : A -> Prop) (r : result A) : yields P r -> no_panic r.
Proof. by destruct r. Qed.

Lemma yields_wrapR {A} (P : A -> Prop) fmt args (r : result A) : yields P r -> yields P (wrapR fmt args r).
Proof. by destruct r. Qed.

Section Safe.
Context {E : Type -> Type} (Q : forall X, E X -> X -> Prop).

Definition safe {A} (P : A -> Prop) (m : io E A) : Prop := returns Q (yields P) m.

Lemma safe_Ret {A} (P : A -> Prop) (r : result A) : yields P r -> safe P (Ret r).
Proof. done. Qed.

Lemma safe_trigger {X} (P : X -> Prop) (e : E (result X)) :
  (forall x, Q _ e x -> yields P x) -> safe P (trigger e).
Proof. done. Qed.

Lemma safe_bind_trigger {X A} (P : A -> Prop) (e : E X) (k : X -> io E A) :
  (forall x, Q _ e x -> safe P (k x)) -> safe P (bind (trigger e) k).
Proof. done. Qed.

Lemma safe_bind {A B} (P : A -> Prop) (P' : B -> Prop) (m : io E A) (f : result A -> io E B) :
  safe P m -> (forall a, P a -> safe P' (f (Ok a))) -> (forall e, safe P' (f (Err e))) -> safe P' (bind m f).
Proof.
  unfold safe. intros Hm Hok Herr. induction m as [[a|e|w]|X e k IH]; cbn in *; [by apply Hok|apply Herr|done|].
  intros x Hx. apply IH, Hm, Hx.
Qed.

Lemma safe_bindIO {A B} (P : A -> Prop) (P' : B -> Prop) (m : io E A) (f : A -> io E B) :
  safe P m -> (forall a, P a -> safe P' (f a)) -> safe P' (bindIO m f).
Proof. intros Hm Hf. by apply (safe_bind P). Qed.

(** When nothing about the value matters to what follows. *)
Lemma safe_seq {A B} (P : B -> Prop) (m : io E A) (f : A -> io E B) :
  safe (fun _ => True) m -> (forall a, safe P (f a)) -> safe P (bindIO m f).
Proof. intros Hm Hf. by apply (safe_bindIO (fun _ => True)). Qed.

Lemma safe_pure {A} (r : result A) : no_panic r -> safe (fun _ => True) (pureIO r).
Proof. by destruct r. Qed.

Lemma safe_wrapIO {A} (P : A -> Prop) fmt args (m : io E A) : safe P m -> safe P (wrapIO fmt args m).
Proof. intros Hm. by apply (safe_bind P). Qed.

Lemma safe_mono {A} (P P' : A -> Prop) (m : io E A) : (forall a, P a -> P' a) -> safe P m -> safe P' m.
Proof.
  unfold safe. intros HP. induction m as [[a|e|w]|X e k IH]; cbn; auto.
Qed.

(** [safe] is a statement about every trace. *)
Lemma safe_run {A} (P : A -> Prop) (m : io E A) t r :
  safe P m -> run m t r -> Forall (fun o => match o with Obs e x => Q _ e x end) t -> yields P r.
Proof.
  unfold safe. revert t. induction m as [b|X e k IH]; intros t; cbn.
  - by intros Hb [_ ->] _.
  - destruct t as [|o t]; [done|]. intros Hk (x & -> & Hr) [Hx Ht]%Forall_cons. eauto.
Qed.
End Safe.

#[export] Hint Rewrite @run_bind @run_bindIO @run_wrapIO @run_trigger : osm.
#[export] Hint Resolve all_calls_bind all_calls_bindIO all_calls_wrapIO : osm.

(** ** Following a run step by step

    [run_step H] takes the next call of the program in [H]: the trace starts
    with that call and some answer.  [run_steps H] goes on until the program
    ends or branches on an answer. *)

Ltac run_reduce H :=
  unfold bindIO, wrapIO, pureIO, trigger in H; cbn [bind run wrapR bindR] in H.
Ltac run_step H :=
  run_reduce H;
  match type of H with
  | match ?t with [] => False | _ => _ end =>
      let o := fresh "o" in let t' := fresh "t" in let x := fresh "x" in
      destruct t as [|o t']; [destruct H|]; destruct H as (x & -> & H)
  | _ = [] /\ _ = _ => let Hr := fresh "Hr" in destruct H as [-> Hr]; try discriminate Hr; simplify_eq
  | exists _, _ => let x := fresh "x" in destruct H as (x & -> & H)
  end.
Ltac run_steps H := repeat run_step H; try run_reduce H.

(** One call that may be made, then the rest of the program. *)
Ltac calls_step :=
  match goal with
  | |- all_calls _ (bindIO _ _) => apply all_calls_bindIO; [|intros]
  | |- all_calls _ (bind _ _) => apply all_calls_bind; [|intros]
  | |- all_calls _ (wrapIO _ _ _) => apply all_calls_wrapIO
  | |- all_calls _ (pureIO _) => exact I
  | |- all_calls _ (Ret _) => exact I
  | |- all_calls _ (trigger _) => split; [|intros; exact I]
  | |- all_calls _ (match ?x with _ => _ end) => destruct x
  | |- all_calls _ (if ?x then _ else _) => destruct x
  end.

Ltac calls_when_step :=
  match goal with
  | |- calls_when _ _ (bindIO _ _) => apply calls_when_bindIO; [|intros]
  | |- calls_when _ _ (bind (trigger _) _) => split; [|intros ? ?; cbn [bind]]
  | |- calls_when _ _ (bind _ _) => apply calls_when_bind; [|intros]
  | |- calls_when _ _ (wrapIO _ _ _) => apply calls_when_wrapIO
  | |- calls_when _ _ (pureIO _) => exact I
  | |- calls_when _ _ (Ret _) => exact I
  | |- calls_when _ _ (trigger _) => split; [|intros; exact I]
  | |- calls_when _ _ (match ?x with _ => _ end) => destruct x
  | |- calls_when _ _ (if ?x then _ else _) => destruct x
  end.
