(* ===== verification/GoStrings.v ===== *)
(** * The parts of Go's [strings], [strconv] and [sort] the program uses

    A Go string is a sequence of bytes: [string] with one [ascii] per byte.
    Separators are single bytes in every call of the source. *)

From S2P Require Import Prelude.
From stdpp Require Export pretty.

Definition NL : string := String "010" EmptyString.
(** A double quote, which a string literal cannot hold. *)
Definition DQ : string := String "034" EmptyString.

(** The source's raw literals hold double quotes and no backtick; the
    literals of this development hold backticks for the double quotes. *)
Fixpoint raw (s : string) : string :=
  match s with
  | EmptyString => EmptyString
  | String c s' => String (if ascii_dec c "096" then "034"%char else c) (raw s')
  end.

(** ** Splitting and joining *)

(** [strings.Split(s, sep)] (and [SplitSeq]) for a one-byte [sep]. *)
Fixpoint Split (s : string) (sep : ascii) : list string :=
  match s with
  | EmptyString => [EmptyString]
  | String c s' =>
      if ascii_dec c sep then EmptyString :: Split s' sep
      else match Split s' sep with
           | x :: l => String c x :: l
           | [] => [String c EmptyString]
           end
  end.

(** [strings.SplitN(s, sep, 2)]: cut at the first separator. *)
Fixpoint SplitN2 (s : string) (sep : ascii) : list string :=
  match s with
  | EmptyString => [EmptyString]
  | String c s' =>
      if ascii_dec c sep then [EmptyString; s']
      else match SplitN2 s' sep with
           | x :: l => String c x :: l
           | [] => [String c EmptyString]
           end
  end.

(** [strings.SplitAfter(s, sep)]: the separator stays at the end of its piece. *)
Fixpoint SplitAfter (s : string) (sep : ascii) : list string :=
  match s with
  | EmptyString => [EmptyString]
  | String c s' =>
      if ascii_dec c sep then String c EmptyString :: SplitAfter s' sep
      else match SplitAfter s' sep with
           | x :: l => String c x :: l
           | [] => [String c EmptyString]
           end
  end.

Fixpoint Join (l : list string) (sep : string) : string :=
  match l with
  | [] => EmptyString
  | [x] => x
  | x :: l' => x +:+ sep +:+ Join l' sep
  end.

(** A byte occurs in a string. *)
Fixpoint Contains (s : string) (c : ascii) : bool :=
  match s with
  | EmptyString => false
  | String d s' => if ascii_dec d c then true else Contains s' c
  end.

(** Every byte satisfies [p]. *)
Fixpoint all_bytes (p : ascii -> bool) (s : string) : bool :=
  match s with EmptyString => true | String c s' => p c && all_bytes p s' end.

(** [strings.HasPrefix(s, p)] *)
Definition HasPrefix (s p : string) : bool := String.prefix p s.

(** The rest of [s] after the prefix [p], if [s] has it. *)
Fixpoint strip_prefix (p s : string) : option string :=
  match p, s with
  | EmptyString, _ => Some s
  | String a p', String b s' => if ascii_dec a b then strip_prefix p' s' else None
  | String _ _, EmptyString => None
  end.

(** [strings.TrimPrefix(s, p)] *)
Definition TrimPrefix (s p : string) : string := default s (strip_prefix p s).

(** [strings.TrimSuffix(s, p)] *)
Definition TrimSuffix (s p : string) : string :=
  match strip_prefix (String.rev p) (String.rev s) with
  | Some r => String.rev r
  | None => s
  end.

(** [strings.ReplaceAll(s, old, new)] for a non-empty [old]: matches are
    found left to right and do not overlap.  [skip] counts the bytes of a
    match still to be dropped. *)
Fixpoint replace_go (skip : nat) (s old new : string) : string :=
  match s with
  | EmptyString => EmptyString
  | String c s' =>
      match skip with
      | S n => replace_go n s' old new
      | O =>
          if String.prefix old s
          then new +:+ replace_go (String.length old - 1) s' old new
          else String c (replace_go 0 s' old new)
      end
  end.
Definition ReplaceAll (s old new : string) : string := replace_go 0 s old new.

(** [strings.ToLower] on ASCII letters (the callers compare with ASCII words). *)
Definition lower_byte (c : ascii) : ascii :=
  let n := nat_of_ascii c in
  if (65 <=? n)%nat && (n <=? 90)%nat then ascii_of_nat (n + 32) else c.
Fixpoint ToLower (s : string) : string :=
  match s with
  | EmptyString => EmptyString
  | String c s' => String (lower_byte c) (ToLower s')
  end.

(** ** [strings.TrimSpace]

    The UTF-8 encodings of the runes for which [unicode.IsSpace] holds. *)
Definition bytes (l : list nat) : string :=
  fold_right (fun n s => String (ascii_of_nat n) s) EmptyString l.

Definition space_runes : list string :=
  Eval vm_compute in
  map bytes
    ([[9]; [10]; [11]; [12]; [13]; [32]; [194; 133]; [194; 160]; [225; 154; 128]]
       ++ map (fun n => [226; 128; 128 + n]) (seq 0 11)
       ++ [[226; 128; 168]; [226; 128; 169]; [226; 128; 175]; [226; 129; 159]; [227; 128; 128]]).

Fixpoint strip_any (ps : list string) (s : string) : option string :=
  match ps with
  | [] => None
  | p :: ps' => match strip_prefix p s with Some r => Some r | None => strip_any ps' s end
  end.

(** Every rune has at least one byte, so the length is fuel enough. *)
Fixpoint trim_left (fuel : nat) (ps : list string) (s : string) : string :=
  match fuel with
  | O => s
  | S n => match strip_any ps s with Some r => trim_left n ps r | None => s end
  end.

Definition TrimLeftSpace (s : string) : string := trim_left (String.length s) space_runes s.
Definition TrimRightSpace (s : string) : string :=
  String.rev (trim_left (String.length s) (map String.rev space_runes) (String.rev s)).
Definition TrimSpace (s : string) : string := TrimRightSpace (TrimLeftSpace s).

(** ** [strconv] *)

Definition ParseBool (s : string) : result bool :=
  if bool_decide (s ∈ ["1"; "t"; "T"; "true"; "TRUE"; "True"]) then Ok true
  else if bool_decide (s ∈ ["0"; "f"; "F"; "false"; "FALSE"; "False"]) then Ok false
  else Err (LibError "strconv.ParseBool" s "invalid syntax").

Definition FormatBool (b : bool) : string := if b then "true" else "false".

Definition Itoa (z : Z) : string := pretty z.

Definition digit_value (c : ascii) : option Z :=
  let n := nat_of_ascii c in
  if (48 <=? n)%nat && (n <=? 57)%nat then Some (Z.of_nat n - 48)%Z else None.

Fixpoint digits_value (acc : Z) (s : string) : option Z :=
  match s with
  | EmptyString => Some acc
  | String c s' =>
      match digit_value c with
      | Some d => digits_value (acc * 10 + d)%Z s'
      | None => None
      end
  end.

(** [strconv.ParseInt(s, 10, bits)]: an optional sign and decimal digits; the
    value must fit in a signed integer of [bits] bits. *)
Definition ParseInt10 (s : string) (bits : Z) : result Z :=
  let syntax := Err (LibError "strconv.ParseInt" s "invalid syntax") in
  let range := Err (LibError "strconv.ParseInt" s "value out of range") in
  let '(neg, body) :=
    match s with
    | String "+" s' => (false, s')
    | String "-" s' => (true, s')
    | _ => (false, s)
    end in
  match body with
  | EmptyString => syntax
  | _ =>
      match digits_value 0 body with
      | None => syntax
      | Some n =>
          let cutoff := (2 ^ (bits - 1))%Z in
          if neg then (if (n <=? cutoff)%Z then Ok (- n)%Z else range)
          else (if (n <? cutoff)%Z then Ok n else range)
      end
  end.

(** [int32(x)]: conversion to a 32-bit signed integer. *)
Definition to_int32 (z : Z) : Z := ((z + 2 ^ 31) mod 2 ^ 32 - 2 ^ 31)%Z.

(** [sort.Strings]: byte-wise lexicographic order. *)
Definition sort_Strings (l : list string) : list string := merge_sort String.le l.

(** ** Lemmas *)

Lemma append_assoc (a b c : string) : (a +:+ b) +:+ c = a +:+ (b +:+ c).
Proof. induction a as [|x a IH]; [done|]. change (String x ((a +:+ b) +:+ c) = String x (a +:+ (b +:+ c))). by rewrite IH. Qed.

Lemma append_nil_r (a : string) : a +:+ EmptyString = a.
Proof. induction a as [|x a IH]; [done|]. change (String x (a +:+ "") = String x a). by rewrite IH. Qed.

Lemma append_cons x (a b : string) : String x a +:+ b = String x (a +:+ b).
Proof. done. Qed.

Lemma append_nil_l (b : string) : EmptyString +:+ b = b.
Proof. done. Qed.

Lemma length_append (a b : string) :
  String.length (a +:+ b) = (String.length a + String.length b)%nat.
Proof. induction a as [|x a IH]; [done|]. rewrite append_cons. cbn. by rewrite IH. Qed.

#[export] Instance append_inj_l (b : string) : Inj (=) (=) (fun a => a +:+ b).
Proof.
  intros a1. induction a1 as [|x a1 IH]; intros [|y a2] H; [done|..].
  - apply (f_equal String.length) in H. rewrite append_cons, append_nil_l in H. cbn in H.
    rewrite length_append in H. lia.
  - apply (f_equal String.length) in H. rewrite append_cons, append_nil_l in H. cbn in H.
    rewrite length_append in H. lia.
  - rewrite !append_cons in H. injection H as -> H. f_equal. by apply IH.
Qed.

#[export] Hint Rewrite append_assoc append_nil_r append_nil_l append_cons length_append : osm.

Lemma rev_app_spec (a b : string) : String.rev_app a b = String.rev a +:+ b.
Proof.
  unfold String.rev. revert b. induction a as [|x a IH]; intros b; cbn; [done|].
  rewrite (IH (String x b)), (IH (String x EmptyString)), append_assoc. done.
Qed.

Lemma rev_cons x (a : string) : String.rev (String x a) = String.rev a +:+ String x EmptyString.
Proof. unfold String.rev at 1. cbn. apply rev_app_spec. Qed.

Lemma rev_append (a b : string) : String.rev (a +:+ b) = String.rev b +:+ String.rev a.
Proof.
  induction a as [|x a IH]; [by rewrite append_nil_r|].
  rewrite append_cons, !rev_cons, IH. by rewrite append_assoc.
Qed.

Lemma rev_involutive (a : string) : String.rev (String.rev a) = a.
Proof. induction a as [|x a IH]; [done|]. rewrite rev_cons, rev_append, IH. done. Qed.

Lemma length_rev (a : string) : String.length (String.rev a) = String.length a.
Proof. induction a as [|x a IH]; [done|]. rewrite rev_cons, length_append, IH. cbn. lia. Qed.

Lemma strip_prefix_Some p s r : strip_prefix p s = Some r <-> s = p +:+ r.
Proof.
  revert s. induction p as [|a p IH]; intros s; cbn; [naive_solver|].
  destruct s as [|b s]; [split; [done|]; rewrite append_cons; done|].
  destruct (ascii_dec a b) as [->|Hne]; rewrite append_cons.
  - rewrite IH. naive_solver.
  - naive_solver.
Qed.

Lemma strip_prefix_app p r : strip_prefix p (p +:+ r) = Some r.
Proof. by apply strip_prefix_Some. Qed.

Lemma prefix_spec p s : String.prefix p s = true <-> exists r, s = p +:+ r.
Proof.
  revert s. induction p as [|a p IH]; intros [|b s]; cbn.
  - split; [intros _; by exists EmptyString|done].
  - split; [intros _; by exists (String b s)|done].
  - split; [done|]. intros [r H]. by rewrite append_cons in H.
  - destruct (ascii_dec a b) as [->|Hne].
    + rewrite IH. split; intros [r H]; exists r; rewrite append_cons in *; [by rewrite H|by injection H].
    + split; [done|]. intros [r H]. rewrite append_cons in H. by simplify_eq.
Qed.

Lemma Contains_app a b c : Contains (a +:+ b) c = Contains a c || Contains b c.
Proof.
  induction a as [|x a IH]; [done|]. rewrite append_cons. cbn.
  by destruct (ascii_dec x c).
Qed.

(** *** Split and Join *)

Lemma all_bytes_app p (a b : string) : all_bytes p (a +:+ b) = all_bytes p a && all_bytes p b.
Proof. induction a as [|c a IH]; [done|]. rewrite append_cons. cbn. by rewrite IH, andb_assoc. Qed.

Lemma all_bytes_Contains p s c : all_bytes p s = true -> p c = false -> Contains s c = false.
Proof.
  intros Hs Hc. induction s as [|d s IH]; [done|]. cbn in *.
  apply andb_true_iff in Hs as [Hd Hs]. destruct (ascii_dec d c); [congruence|auto].
Qed.

Lemma all_bytes_Join p l sep :
  all_bytes p sep = true -> Forall (fun x => all_bytes p x = true) l -> all_bytes p (Join l sep) = true.
Proof.
  intros Hsep. induction 1 as [|x l Hx Hl IH]; [done|]. cbn [Join].
  destruct l; [done|]. by rewrite !all_bytes_app, Hx, Hsep, IH.
Qed.

Lemma Split_not_nil s sep : Split s sep <> [].
Proof. destruct s as [|c s]; cbn; [done|]. by repeat case_match. Qed.

Lemma Join_Split s sep : Join (Split s sep) (String sep EmptyString) = s.
Proof.
  induction s as [|c s IH]; [done|]. cbn [Split].
  pose proof (Split_not_nil s sep) as Hne.
  destruct (ascii_dec c sep) as [->|Hc].
  - destruct (Split s sep) as [|x l] eqn:E; [done|]. cbn [Join] in *.
    rewrite IH. done.
  - destruct (Split s sep) as [|x l] eqn:E; [done|].
    destruct l as [|y l]; cbn [Join] in *; [by rewrite IH|].
    by rewrite append_cons, IH.
Qed.

Lemma Split_no_sep s sep : Contains s sep = false -> Split s sep = [s].
Proof.
  induction s as [|c s IH]; cbn; [done|]. destruct (ascii_dec c sep); [done|].
  intros H. by rewrite IH.
Qed.

Lemma Split_app_sep a s sep :
  Contains a sep = false -> Split (a +:+ String sep s) sep = a :: Split s sep.
Proof.
  induction a as [|c a IH]; cbn [Contains].
  - intros _. rewrite append_nil_l. cbn. by destruct (ascii_dec sep sep).
  - destruct (ascii_dec c sep) eqn:E; [done|]. intros H. rewrite append_cons. cbn [Split].
    rewrite E, IH by done. done.
Qed.

Lemma Split_Join l sep :
  l <> [] -> Forall (fun x => Contains x sep = false) l ->
  Split (Join l (String sep EmptyString)) sep = l.
Proof.
  intros Hne Hl. induction Hl as [|x l Hx Hl IH]; [done|].
  destruct l as [|y l]; [by apply Split_no_sep|].
  change (Join (x :: y :: l) (String sep "")) with
    (x +:+ String sep (Join (y :: l) (String sep ""))).
  rewrite Split_app_sep, IH by done. done.
Qed.

(** Every piece of [Split] is free of the separator. *)
Lemma Split_pieces s sep : Forall (fun x => Contains x sep = false) (Split s sep).
Proof.
  induction s as [|c s IH]; cbn; [by constructor|].
  destruct (ascii_dec c sep) eqn:E; [by constructor|].
  destruct (Split s sep) as [|x l]; [repeat constructor; cbn; by rewrite E|].
  inversion IH; subst. constructor; [cbn; by rewrite E|done].
Qed.

Lemma SplitN2_no_sep s sep : Contains s sep = false -> SplitN2 s sep = [s].
Proof.
  induction s as [|c s IH]; cbn; [done|]. destruct (ascii_dec c sep); [done|].
  intros H. by rewrite IH.
Qed.

Lemma SplitN2_cut a s sep :
  Contains a sep = false -> SplitN2 (a +:+ String sep s) sep = [a; s].
Proof.
  induction a as [|c a IH]; cbn [Contains].
  - intros _. rewrite append_nil_l. cbn. by destruct (ascii_dec sep sep).
  - destruct (ascii_dec c sep) eqn:E; [done|]. intros H. rewrite append_cons. cbn [SplitN2].
    rewrite E, IH by done. done.
Qed.

Lemma SplitN2_spec s sep :
  (Contains s sep = false /\ SplitN2 s sep = [s]) \/
  exists a b, s = a +:+ String sep b /\ Contains a sep = false /\ SplitN2 s sep = [a; b].
Proof.
  induction s as [|c s IH]; [by left|]. cbn. destruct (ascii_dec c sep) as [->|Hc] eqn:E.
  - right. exists EmptyString, s. done.
  - destruct IH as [[H ->]|(a & b & -> & Ha & ->)]; [by left|].
    right. exists (String c a), b. split_and!; [done| cbn; by rewrite E |done].
Qed.

(** *** TrimSpace *)

Lemma strip_any_Some ps s r :
  strip_any ps s = Some r -> exists p, p ∈ ps /\ s = p +:+ r.
Proof.
  induction ps as [|p ps IH]; cbn; [done|].
  destruct (strip_prefix p s) as [r'|] eqn:E.
  - intros [= ->]. apply strip_prefix_Some in E. exists p. split; [by left|done].
  - intros (q & Hq & ->)%IH. exists q. split; [by right|done].
Qed.

Lemma strip_any_None ps s :
  strip_any ps s = None <-> forall p r, p ∈ ps -> s <> p +:+ r.
Proof.
  induction ps as [|p ps IH]; cbn.
  - split; [intros _ p r Hp; by apply not_elem_of_nil in Hp|done].
  - destruct (strip_prefix p s) as [r'|] eqn:E.
    + apply strip_prefix_Some in E. split; [done|]. intros H. destruct (H p r'); [by left|done].
    + rewrite IH. split.
      * intros H q r [->|Hq]%elem_of_cons; [|by apply H].
        intros Hs. apply strip_prefix_Some in Hs. congruence.
      * intros H q r Hq. apply H. by right.
Qed.

Definition no_empty (ps : list string) : Prop := Forall (fun p => p <> EmptyString) ps.

Lemma strip_any_length ps s r :
  no_empty ps -> strip_any ps s = Some r -> (String.length r < String.length s)%nat.
Proof.
  intros Hne (p & Hp & ->)%strip_any_Some.
  rewrite length_append. apply (proj1 (Forall_forall _ _) Hne) in Hp.
  destruct p; [done|]. cbn. lia.
Qed.

(** With enough fuel nothing can be stripped from the result. *)
Lemma trim_left_done fuel ps s :
  no_empty ps -> (String.length s <= fuel)%nat -> strip_any ps (trim_left fuel ps s) = None.
Proof.
  intros Hne. revert s. induction fuel as [|n IH]; intros s Hs; cbn.
  - destruct (strip_any ps s) as [r|] eqn:E; [|done].
    apply strip_any_length in E; [lia|done].
  - destruct (strip_any ps s) as [r|] eqn:E; [|done].
    apply IH. apply strip_any_length in E; [lia|done].
Qed.

Lemma trim_left_id fuel ps s : strip_any ps s = None -> trim_left fuel ps s = s.
Proof. destruct fuel; cbn; [done|]. by intros ->. Qed.

(** The result is a suffix. *)
Lemma trim_left_suffix fuel ps s : exists p, s = p +:+ trim_left fuel ps s.
Proof.
  revert s. induction fuel as [|n IH]; intros s; cbn; [by exists EmptyString|].
  destruct (strip_any ps s) as [r|] eqn:E; [|by exists EmptyString].
  apply strip_any_Some in E as (p & _ & ->). destruct (IH r) as [q Hq].
  exists (p +:+ q). rewrite append_assoc. by rewrite <-Hq.
Qed.

Lemma space_runes_no_empty : no_empty space_runes /\ no_empty (map String.rev space_runes).
Proof. split; repeat constructor; discriminate. Qed.

(** [s] neither begins nor ends with a space rune. *)
Definition trimmed (s : string) : Prop :=
  strip_any space_runes s = None /\ strip_any (map String.rev space_runes) (String.rev s) = None.

Lemma TrimSpace_trimmed s : trimmed (TrimSpace s).
Proof.
  destruct space_runes_no_empty as [H1 H2].
  unfold trimmed, TrimSpace, TrimRightSpace. rewrite rev_involutive. split.
  - set (l := TrimLeftSpace s).
    assert (Hl : strip_any space_runes l = None) by (by apply trim_left_done).
    destruct (trim_left_suffix (String.length l) (map String.rev space_runes) (String.rev l)) as [p Hp].
    apply strip_any_None. intros q r Hq Heq.
    assert (Hlq : l = (q +:+ r) +:+ String.rev p).
    { rewrite <-Heq, <-rev_append, <-Hp. by rewrite rev_involutive. }
    rewrite append_assoc in Hlq. by apply (proj1 (strip_any_None _ _) Hl q (r +:+ String.rev p)).
  - apply trim_left_done; [done|]. by rewrite length_rev.
Qed.

Lemma TrimSpace_id s : trimmed s -> TrimSpace s = s.
Proof.
  intros [H1 H2]. unfold TrimSpace, TrimRightSpace, TrimLeftSpace.
  rewrite (trim_left_id _ _ s) by done. rewrite trim_left_id by done. apply rev_involutive.
Qed.

Lemma TrimSpace_idemp s : TrimSpace (TrimSpace s) = TrimSpace s.
Proof. apply TrimSpace_id, TrimSpace_trimmed. Qed.

(** *** Integers *)

Lemma ParseInt10_bounds s bits z :
  (0 < bits)%Z -> ParseInt10 s bits = Ok z -> (- 2 ^ (bits - 1) <= z < 2 ^ (bits - 1))%Z.
Proof.
  intros Hb. unfold ParseInt10.
  assert (0 < 2 ^ (bits - 1))%Z by (apply Z.pow_pos_nonneg; lia).
  assert (Hd : forall s acc n, (0 <= acc)%Z -> digits_value acc s = Some n -> (0 <= n)%Z).
  { clear. induction s as [|c s IH]; intros acc n Hacc; cbn; [by intros [= <-]|].
    unfold digit_value. destruct ((48 <=? _)%nat && _) eqn:E; [|done].
    apply andb_true_iff in E as [E1%Nat.leb_le _]. intros H%IH; [done|]. lia. }
  destruct (match s with String "+" _ => _ | _ => _ end) as [neg body].
  destruct body as [|c body]; [done|].
  destruct (digits_value 0 (String c body)) as [n|] eqn:En; [|done].
  apply Hd in En; [|done].
  destruct neg; (destruct (_ : bool) eqn:E in |- *); intros [= <-];
    rewrite ?Z.leb_le, ?Z.ltb_lt in E; lia.
Qed.

Lemma to_int32_id z : (- 2 ^ 31 <= z < 2 ^ 31)%Z -> to_int32 z = z.
Proof. intros H. unfold to_int32. rewrite Z.mod_small by lia. lia. Qed.

Lemma ParseBool_FormatBool b : ParseBool (FormatBool b) = Ok b.
Proof. by destruct b. Qed.

(** *** Sorting *)

Lemma sort_Strings_perm l : sort_Strings l ≡ₚ l.
Proof. apply merge_sort_Permutation. Qed.

Lemma sort_Strings_sorted l : StronglySorted String.le (sort_Strings l).
Proof. apply StronglySorted_merge_sort; apply _. Qed.

(** Iteration order does not survive a sort. *)
Lemma sort_Strings_canonical l1 l2 : l1 ≡ₚ l2 -> sort_Strings l1 = sort_Strings l2.
Proof.
  intros H. apply (StronglySorted_unique String.le); [apply sort_Strings_sorted..|].
  by rewrite !sort_Strings_perm.
Qed.

Lemma elem_of_sort_Strings x l : x ∈ sort_Strings l <-> x ∈ l.
Proof. by rewrite sort_Strings_perm. Qed.

#[export] Hint Resolve TrimSpace_trimmed sort_Strings_sorted : osm.

(** *** Decimal round trip *)

Lemma pretty_N_go_app x s : pretty_N_go x s = pretty_N_go x EmptyString +:+ s.
Proof.
  revert s. induction (N.lt_wf_0 x) as [x _ IH]; intros s.
  destruct (decide (x = 0)%N) as [->|Hx]; [by rewrite !pretty_N_go_0|].
  rewrite (pretty_N_go_step x s), (pretty_N_go_step x EmptyString) by lia.
  assert (Hlt : (x `div` 10 < x)%N) by (apply N.div_lt; lia).
  rewrite (IH _ Hlt (String _ s)), (IH _ Hlt (String _ EmptyString)).
  by rewrite append_assoc.
Qed.

Lemma digits_value_app acc a b :
  digits_value acc (a +:+ b) =
  match digits_value acc a with Some v => digits_value v b | None => None end.
Proof.
  revert acc. induction a as [|c a IH]; intros acc; [done|].
  rewrite append_cons. cbn. destruct (digit_value c); [apply IH|done].
Qed.

Lemma digit_value_pretty (d : N) : (d < 10)%N -> digit_value (pretty_N_char d) = Some (Z.of_N d).
Proof.
  intros H. assert (d = 0 \/ d = 1 \/ d = 2 \/ d = 3 \/ d = 4 \/ d = 5 \/ d = 6 \/ d = 7 \/ d = 8 \/ d = 9)%N
    as Hd by lia. by decompose [or] Hd; subst.
Qed.

Lemma digits_value_pretty_go x : digits_value 0 (pretty_N_go x EmptyString) = Some (Z.of_N x).
Proof.
  induction (N.lt_wf_0 x) as [x _ IH].
  destruct (decide (x = 0)%N) as [->|Hx]; [done|].
  rewrite pretty_N_go_step, pretty_N_go_app, digits_value_app by lia.
  rewrite IH by (apply N.div_lt; lia). cbn.
  rewrite digit_value_pretty by (apply N.mod_lt; lia).
  f_equal. rewrite N2Z.inj_div, N2Z.inj_mod by lia.
  pose proof (Z.div_mod (Z.of_N x) 10). lia.
Qed.

Lemma digits_value_pretty (x : N) : digits_value 0 (pretty x) = Some (Z.of_N x).
Proof.
  unfold pretty, pretty_N. case_decide; [by subst|]. apply digits_value_pretty_go.
Qed.

(** No decimal rendering of a natural number starts with a sign or is empty. *)
Lemma pretty_N_head (x : N) : exists c s, pretty x = String c s /\ is_Some (digit_value c).
Proof.
  pose proof (digits_value_pretty x) as H.
  destruct (pretty x) as [|c s] eqn:E.
  - exfalso. unfold pretty, pretty_N in E. case_decide; [done|].
    pose proof (digits_value_pretty_go x) as Hg. rewrite E in Hg. cbn in Hg. injection Hg. lia.
  - exists c, s. split; [done|]. cbn in H. destruct (digit_value c); [by eexists|done].
Qed.

Lemma ParseInt10_unsigned c s n bits :
  is_Some (digit_value c) -> digits_value 0 (String c s) = Some n ->
  (n < 2 ^ (bits - 1))%Z -> ParseInt10 (String c s) bits = Ok n.
Proof.
  intros [d Hd] Hv Hn. unfold ParseInt10.
  assert (Hm : (match String c s with String "+" s' => (false, s') | String "-" s' => (true, s')
                | _ => (false, String c s) end) = (false, String c s)).
  { unfold digit_value in Hd. destruct c as [[] [] [] [] [] [] [] []]; try done; cbn in Hd; done. }
  rewrite Hm, Hv. by apply Z.ltb_lt in Hn as ->.
Qed.

Lemma ParseInt10_negative s n bits :
  s <> EmptyString -> digits_value 0 s = Some n ->
  (n <= 2 ^ (bits - 1))%Z -> ParseInt10 (String "-" s) bits = Ok (- n)%Z.
Proof.
  intros Hs Hv Hn. unfold ParseInt10. cbn iota beta. rewrite Hv.
  destruct s as [|c s]; [done|]. by apply Z.leb_le in Hn as ->.
Qed.

Lemma ParseInt10_Itoa z bits :
  (0 < bits)%Z -> (- 2 ^ (bits - 1) <= z < 2 ^ (bits - 1))%Z -> ParseInt10 (Itoa z) bits = Ok z.
Proof.
  intros Hb Hz. unfold Itoa, pretty, pretty_Z. destruct z as [|p|p].
  - apply ParseInt10_unsigned; [by eexists|done|lia].
  - change (pretty p) with (pretty (N.pos p)).
    destruct (pretty_N_head (N.pos p)) as (c & s & Hp & Hd).
    pose proof (digits_value_pretty (N.pos p)) as Hv. rewrite Hp in *.
    by apply ParseInt10_unsigned; [..|lia].
  - change (pretty p) with (pretty (N.pos p)).
    destruct (pretty_N_head (N.pos p)) as (c & s & Hp & Hd).
    pose proof (digits_value_pretty (N.pos p)) as Hv.
    rewrite append_cons, append_nil_l, (ParseInt10_negative _ (Z.of_N (N.pos p))); [done|by rewrite Hp|done|lia].
Qed.

Lemma Itoa_inj z1 z2 : Itoa z1 = Itoa z2 -> z1 = z2.
Proof. apply (inj pretty). Qed.

(** The keys of a Go map in sorted order: the loop
    [for k := range m { keys = append(keys, k) }; sort.Strings(keys)]. *)
Definition sorted_keys {V} (m : gmap string V) : list string :=
  sort_Strings (map fst (map_to_list m)).

Lemma elem_of_sorted_keys {V} (m : gmap string V) k : k ∈ sorted_keys m <-> is_Some (m !! k).
Proof.
  unfold sorted_keys. rewrite elem_of_sort_Strings. split.
  - intros ([k' v] & -> & Hkv)%list_elem_of_fmap. exists v. by apply elem_of_map_to_list.
  - intros [v Hv]. apply list_elem_of_fmap. exists (k, v). split; [done|]. by apply elem_of_map_to_list.
Qed.

Lemma NoDup_sorted_keys {V} (m : gmap string V) : NoDup (sorted_keys m).
Proof. unfold sorted_keys. rewrite sort_Strings_perm. apply NoDup_fst_map_to_list. Qed.

#[export] Hint Resolve NoDup_sorted_keys : osm.

(** ** Ranging over maps *)

(** The order in which Go's [range] visits a map is not specified: one
    permutation of the entries. *)
Class MapRange := {
  range {V} (m : gmap string V) : list (string * V);
  range_perm {V} (m : gmap string V) : range m ≡ₚ map_to_list m
}.

Section Ranges.
Context `{MapRange} {V : Type}.
Implicit Types m : gmap string V.

Lemma NoDup_range m : NoDup (range m).*1.
Proof. rewrite range_perm. apply NoDup_fst_map_to_list. Qed.

Lemma elem_of_range m k v : (k, v) ∈ range m <-> m !! k = Some v.
Proof. rewrite range_perm. apply elem_of_map_to_list. Qed.

(** A loop over a map that writes one entry per key. *)
Lemma range_loop {W} (f : V -> W) m k :
  list_to_map (M := gmap string W) (rev (map (fun p => (p.1, f p.2)) (range m))) !! k = f <$> m !! k.
Proof.
  set (l := rev _).
  assert (forall v, (k, v) ∈ l <-> exists x, m !! k = Some x /\ v = f x) as Hl.
  { intros v. unfold l. rewrite list_elem_of_In, <- in_rev, in_map_iff. split.
    - intros ([k' x] & [= -> <-] & Hx%list_elem_of_In%elem_of_range). by exists x.
    - intros (x & Hx & ->). exists (k, x). split; [done|]. by apply list_elem_of_In, elem_of_range. }
  assert (NoDup l.*1) as Hnd.
  { change (NoDup (map fst (rev (map (fun p => (p.1, f p.2)) (range m))))). rewrite List.map_rev, List.map_map. cbn. rewrite <- Permutation_rev. apply NoDup_range. }
  destruct (m !! k) as [x|] eqn:Hm; cbn.
  - apply elem_of_list_to_map; [done|]. apply Hl. by exists x.
  - apply not_elem_of_list_to_map. intros ([k' v] & -> & Hv)%list_elem_of_fmap. cbn in Hm.
    apply Hl in Hv as (x & ? & _). congruence.
Qed.
End Ranges.
