(* ===== verification/Encoding.v ===== *)
(** * Encodings of Go's standard library the program uses

    [encoding/base64] (StdEncoding), [encoding/hex] and the part of
    [encoding/json] that writes a [map[string]string]: the annotations of a
    MachineDeployment are hashed in that form. *)

From S2P Require Import Prelude GoStrings.

Definition byte_values (s : string) : list N := map N_of_ascii (list_ascii_of_string s).
Definition of_byte_values (l : list N) : string := string_of_list_ascii (map ascii_of_N l).

Lemma of_byte_values_byte_values s : of_byte_values (byte_values s) = s.
Proof.
  unfold of_byte_values, byte_values. rewrite map_map.
  rewrite (map_ext _ (fun x => x)) by apply ascii_N_embedding.
  rewrite map_id. apply string_of_list_ascii_of_string.
Qed.

Lemma byte_values_bound s : Forall (fun n => (n < 256)%N) (byte_values s).
Proof.
  unfold byte_values. apply List.Forall_map, List.Forall_forall. intros c _. apply N_ascii_bounded.
Qed.

(** ** base64 *)

Definition b64_char (n : N) : ascii :=
  if (n <? 26)%N then ascii_of_N (65 + n)
  else if (n <? 52)%N then ascii_of_N (71 + n)
  else if (n <? 62)%N then ascii_of_N (n - 4)
  else if (n =? 62)%N then "+"%char else "/"%char.

Definition b64_value (c : ascii) : option N :=
  let n := N_of_ascii c in
  if (65 <=? n)%N && (n <=? 90)%N then Some (n - 65)%N
  else if (97 <=? n)%N && (n <=? 122)%N then Some (n - 71)%N
  else if (48 <=? n)%N && (n <=? 57)%N then Some (n + 4)%N
  else if (n =? 43)%N then Some 62%N
  else if (n =? 47)%N then Some 63%N
  else None.

Fixpoint b64_encode (l : list N) : list ascii :=
  match l with
  | a :: b :: c :: l' =>
      b64_char (a / 4) :: b64_char ((a mod 4) * 16 + b / 16) ::
      b64_char ((b mod 16) * 4 + c / 64) :: b64_char (c mod 64) :: b64_encode l'
  | [a; b] =>
      [b64_char (a / 4); b64_char ((a mod 4) * 16 + b / 16); b64_char ((b mod 16) * 4); "="%char]
  | [a] => [b64_char (a / 4); b64_char ((a mod 4) * 16); "="%char; "="%char]
  | [] => []
  end.

(** [base64.StdEncoding.EncodeToString] *)
Definition EncodeToString (s : string) : string :=
  string_of_list_ascii (b64_encode (byte_values s)).

(** Groups of four; padding only at the end.  The decoder is not strict: the
    unused low bits of a padded group are dropped. *)
Fixpoint b64_decode (l : list ascii) : option (list N) :=
  match l with
  | [] => Some []
  | c1 :: c2 :: c3 :: c4 :: l' =>
      v1 ← b64_value c1; v2 ← b64_value c2;
      if ascii_dec c3 "=" then
        if ascii_dec c4 "=" then
          match l' with [] => Some [(v1 * 4 + v2 / 16) mod 256]%N | _ => None end
        else None
      else
        v3 ← b64_value c3;
        if ascii_dec c4 "=" then
          match l' with
          | [] => Some [(v1 * 4 + v2 / 16) mod 256; (v2 * 16 + v3 / 4) mod 256]%N
          | _ => None
          end
        else
          v4 ← b64_value c4; r ← b64_decode l';
          Some ((v1 * 4 + v2 / 16) mod 256 :: (v2 * 16 + v3 / 4) mod 256 :: (v3 * 64 + v4) mod 256 :: r)%N
  | _ => None
  end.

Definition is_newline (c : ascii) : bool :=
  if ascii_dec c "010" then true else if ascii_dec c "013" then true else false.

(** [base64.StdEncoding.DecodeString]: carriage returns and line feeds are
    ignored wherever they stand. *)
Definition DecodeString (s : string) : result string :=
  match b64_decode (List.filter (fun c => negb (is_newline c)) (list_ascii_of_string s)) with
  | Some l => Ok (of_byte_values l)
  | None => Err (LibError "base64.StdEncoding.DecodeString" s "illegal base64 data")
  end.

Lemma N_lt_list (P : N -> Prop) (n : nat) :
  Forall P (map N.of_nat (seq 0 n)) -> forall m, (m < N.of_nat n)%N -> P m.
Proof.
  intros H m Hm. apply (proj1 (List.Forall_forall P _)) with (x := m) in H; [done|].
  apply in_map_iff. exists (N.to_nat m). split; [lia|]. apply in_seq. lia.
Qed.

Lemma b64_value_char n : (n < 64)%N ->
  b64_value (b64_char n) = Some n /\ b64_char n <> "="%char /\ is_newline (b64_char n) = false.
Proof.
  revert n. apply (N_lt_list (fun n => b64_value (b64_char n) = Some n /\ b64_char n <> "="%char
    /\ is_newline (b64_char n) = false) 64).
  repeat (constructor; [vm_compute; split_and!; [done|discriminate|done]|]). constructor.
Qed.

Lemma list_ind3 {A} (P : list A -> Prop) :
  P [] -> (forall a, P [a]) -> (forall a b, P [a; b]) ->
  (forall a b c l, P l -> P (a :: b :: c :: l)) -> forall l, P l.
Proof.
  intros H0 H1 H2 H3 l. enough (P l /\ (forall a, P (a :: l)) /\ (forall a b, P (a :: b :: l))) by tauto.
  induction l as [|x l (IH1 & IH2 & IH3)]; naive_solver.
Qed.

Lemma b64_no_newline l :
  Forall (fun n => (n < 256)%N) l ->
  List.filter (fun c => negb (is_newline c)) (b64_encode l) = b64_encode l.
Proof.
  induction l as [|a|a b|a b c l IH] using list_ind3; intros Hl;
    repeat match goal with H : Forall _ (_ :: _) |- _ => apply Forall_cons in H as [? H] end;
    cbn [b64_encode List.filter];
    repeat match goal with |- context [is_newline (b64_char ?e)] =>
      rewrite (proj2 (proj2 (b64_value_char e ltac:(zify; Z.to_euclidean_division_equations; lia)))) end;
    cbn [negb]; try done.
  by rewrite IH.
Qed.

Lemma b64_decode_encode l :
  Forall (fun n => (n < 256)%N) l -> b64_decode (b64_encode l) = Some l.
Proof.
  induction l as [|a|a b|a b c l IH] using list_ind3; intros Hl;
    repeat match goal with H : Forall _ (_ :: _) |- _ => apply Forall_cons in H as [? H] end;
    cbn [b64_encode b64_decode]; [done|..];
    repeat match goal with |- context [b64_value (b64_char ?e)] =>
      rewrite (proj1 (b64_value_char e ltac:(zify; Z.to_euclidean_division_equations; lia)));
      cbn [mbind option_bind] end;
    repeat match goal with |- context [ascii_dec (b64_char ?e) "="] =>
      destruct (ascii_dec (b64_char e) "="%char) as [Heq|_];
      [by destruct (b64_value_char e ltac:(zify; Z.to_euclidean_division_equations; lia)) as (_ & [] & _)|] end;
    cbn.
  - do 2 f_equal. zify; Z.to_euclidean_division_equations; lia.
  - do 2 f_equal; [|f_equal]; zify; Z.to_euclidean_division_equations; lia.
  - rewrite IH by done. cbn. do 2 f_equal; [|f_equal; [|f_equal]];
      zify; Z.to_euclidean_division_equations; lia.
Qed.

Lemma DecodeString_EncodeToString s : DecodeString (EncodeToString s) = Ok s.
Proof.
  unfold DecodeString, EncodeToString. rewrite list_ascii_of_string_of_list_ascii.
  pose proof (byte_values_bound s) as Hb.
  by rewrite b64_no_newline, b64_decode_encode, of_byte_values_byte_values.
Qed.

(** ** hex *)

Definition hex_digit (n : N) : ascii :=
  if (n <? 10)%N then ascii_of_N (48 + n) else ascii_of_N (87 + n).

(** [hex.EncodeToString] *)
Fixpoint hex_EncodeToString (s : string) : string :=
  match s with
  | EmptyString => EmptyString
  | String c s' =>
      String (hex_digit (N_of_ascii c / 16))
        (String (hex_digit (N_of_ascii c mod 16)) (hex_EncodeToString s'))
  end.

Lemma hex_digit_inj a b : (a < 16)%N -> (b < 16)%N -> hex_digit a = hex_digit b -> a = b.
Proof.
  revert a. apply (N_lt_list (fun a => (b < 16)%N -> hex_digit a = hex_digit b -> a = b) 16).
  repeat (constructor; [intros Hb; revert b Hb;
    apply (N_lt_list (fun b => hex_digit _ = hex_digit b -> _ = b) 16);
    repeat (constructor; [vm_compute; congruence|]); constructor|]).
  constructor.
Qed.

#[export] Instance hex_EncodeToString_inj : Inj (=) (=) hex_EncodeToString.
Proof.
  intros s1. induction s1 as [|c1 s1 IH]; intros [|c2 s2]; cbn; [done..|].
  intros [= H1 H2 Hs]. pose proof (N_ascii_bounded c1). pose proof (N_ascii_bounded c2).
  apply hex_digit_inj in H1; [|zify; Z.to_euclidean_division_equations; lia..].
  apply hex_digit_inj in H2; [|zify; Z.to_euclidean_division_equations; lia..].
  f_equal; [|by apply IH].
  rewrite <-(ascii_N_embedding c1), <-(ascii_N_embedding c2). f_equal.
  rewrite (N.div_mod (N_of_ascii c1) 16), (N.div_mod (N_of_ascii c2) 16) by lia. congruence.
Qed.

(** ** JSON strings *)

Definition in_range (lo hi : N) (c : ascii) : bool :=
  ((lo <=? N_of_ascii c) && (N_of_ascii c <=? hi))%N.
Definition cont_byte (c : ascii) : bool := in_range 128 191 c.

(** Number of bytes of the valid UTF-8 encoding at the head of [s], 0 if the
    head is not a valid encoding ([utf8.DecodeRune] gives [RuneError]). *)
Definition utf8_width (s : string) : nat :=
  match s with
  | EmptyString => 0
  | String c1 s1 =>
      if in_range 0 127 c1 then 1
      else match s1 with
      | EmptyString => 0
      | String c2 s2 =>
          if in_range 194 223 c1 && cont_byte c2 then 2
          else match s2 with
          | EmptyString => 0
          | String c3 s3 =>
              let second3 :=
                if in_range 224 224 c1 then in_range 160 191 c2
                else if in_range 237 237 c1 then in_range 128 159 c2
                else in_range 225 239 c1 && cont_byte c2 in
              if second3 && cont_byte c3 then 3
              else match s3 with
              | EmptyString => 0
              | String c4 _ =>
                  let second4 :=
                    if in_range 240 240 c1 then in_range 144 191 c2
                    else if in_range 244 244 c1 then in_range 128 143 c2
                    else in_range 241 243 c1 && cont_byte c2 in
                  if second4 && cont_byte c3 && cont_byte c4 then 4 else 0
              end
          end
      end
  end.

Definition u_escape (hi lo : N) : string :=
  bytes [92; 117; 48; 48] +:+ String (hex_digit hi) (String (hex_digit lo) EmptyString).

(** What [encoding/json] writes for an ASCII byte ([appendString] with
    [escapeHTML]). *)
Definition json_ascii (c : ascii) : string :=
  let n := N_of_ascii c in
  if (n =? 34)%N then bytes [92; 34]
  else if (n =? 92)%N then bytes [92; 92]
  else if (n =? 8)%N then bytes [92; 98]
  else if (n =? 12)%N then bytes [92; 102]
  else if (n =? 10)%N then bytes [92; 110]
  else if (n =? 13)%N then bytes [92; 114]
  else if (n =? 9)%N then bytes [92; 116]
  else if (n <? 32)%N || (n =? 60)%N || (n =? 62)%N || (n =? 38)%N
  then u_escape (n / 16) (n mod 16)
  else String c EmptyString.

Definition LS : string := Eval vm_compute in bytes [226; 128; 168].
Definition PS : string := Eval vm_compute in bytes [226; 128; 169].

(** The body of a JSON string.  [emit] says what to do with the next bytes:
    copy them (the rest of a multi-byte rune), drop them (the rest of an
    escaped separator), or look at a new rune.  [Copy n] and [Drop n] are
    about the next [n + 1] bytes. *)
Inductive emit := Fresh | Copy (n : nat) | Drop (n : nat).

Fixpoint json_body (m : emit) (s : string) : string :=
  match s with
  | EmptyString => EmptyString
  | String c s' =>
      match m with
      | Copy (S n) => String c (json_body (Copy n) s')
      | Copy 0 => String c (json_body Fresh s')
      | Drop (S n) => json_body (Drop n) s'
      | Drop 0 => json_body Fresh s'
      | Fresh =>
          match utf8_width s with
          | 0 => "\ufffd" +:+ json_body Fresh s'
          | 1 => json_ascii c +:+ json_body Fresh s'
          | S (S w) =>
              if String.prefix LS s then "\u2028" +:+ json_body (Drop 1) s'
              else if String.prefix PS s then "\u2029" +:+ json_body (Drop 1) s'
              else String c (json_body (Copy w) s')
          end
      end
  end.

(** [json.Marshal] of a string. *)
Definition json_string (s : string) : string := DQ +:+ json_body Fresh s +:+ DQ.

(** [json.Marshal] of a [map[string]string]: keys in byte order; [null] for a
    nil map. *)
Definition json_member (kv : string * string) : string :=
  json_string kv.1 +:+ ":" +:+ json_string kv.2.

Definition sorted_members (m : gmap string string) : list (string * string) :=
  omap (fun k => v ← m !! k; Some (k, v)) (sorted_keys m).

Definition json_map (m : option (gmap string string)) : string :=
  match m with
  | None => "null"
  | Some m => "{" +:+ Join (map json_member (sorted_members m)) "," +:+ "}"
  end.

Example json_map_ex :
  json_map (Some {[ "b" := "1<2"; "a" := "x" ]})
  = raw "{`a`:`x`,`b`:`1\u003c2`}".
Proof. vm_compute. reflexivity. Qed.

(** *** Reading a JSON string back *)

Fixpoint valid_from (skip : nat) (s : string) : bool :=
  match s with
  | EmptyString => (skip =? 0)%nat
  | String c s' =>
      match skip with
      | S n => cont_byte c && valid_from n s'
      | O => match utf8_width s with O => false | S w => valid_from w s' end
      end
  end.

(** [utf8.ValidString] *)
Definition valid_utf8 (s : string) : bool := valid_from 0 s.

Definition unhex (c : ascii) : N :=
  let n := N_of_ascii c in if (n <? 58)%N then (n - 48)%N else (n - 87)%N.

Definition cons_read (t : string) (o : option (string * string)) : option (string * string) :=
  '(s, r) ← o; Some (t +:+ s, r).

(** Read up to the closing quote, undoing the escapes of [json_body]. *)
Fixpoint json_read (s : string) : option (string * string) :=
  match s with
  | EmptyString => None
  | String c s' =>
      if ascii_dec c "034" then Some (EmptyString, s')
      else if ascii_dec c "092" then
        match s' with
        | String "034" t => cons_read DQ (json_read t)
        | String "092" t => cons_read (bytes [92]) (json_read t)
        | String "b" t => cons_read (bytes [8]) (json_read t)
        | String "f" t => cons_read (bytes [12]) (json_read t)
        | String "n" t => cons_read (bytes [10]) (json_read t)
        | String "r" t => cons_read (bytes [13]) (json_read t)
        | String "t" t => cons_read (bytes [9]) (json_read t)
        | String "u" (String "2" (String _ (String _ (String h t)))) =>
            cons_read (if ascii_dec h "8" then LS else PS) (json_read t)
        | String "u" (String _ (String _ (String h1 (String h2 t)))) =>
            cons_read (String (ascii_of_N (unhex h1 * 16 + unhex h2)) EmptyString) (json_read t)
        | _ => None
        end
      else cons_read (String c EmptyString) (json_read s')
  end.

Lemma json_read_ascii c X :
  in_range 0 127 c = true ->
  json_read (json_ascii c +:+ X) = cons_read (String c EmptyString) (json_read X).
Proof.
  destruct c as [[] [] [] [] [] [] [] []]; intros H; first [discriminate H | reflexivity].
Qed.

Lemma json_read_high c X :
  in_range 0 127 c = false ->
  json_read (String c X) = cons_read (String c EmptyString) (json_read X).
Proof.
  destruct c as [[] [] [] [] [] [] [] []]; intros H; try (vm_compute in H; discriminate H);
    reflexivity.
Qed.

Lemma utf8_width_1 c s : utf8_width (String c s) = 1%nat -> in_range 0 127 c = true.
Proof. cbn. repeat case_match; congruence. Qed.

Lemma utf8_width_2 c s n : utf8_width (String c s) = S (S n) -> in_range 0 127 c = false.
Proof. cbn. repeat case_match; congruence. Qed.

Lemma cont_byte_high c : cont_byte c = true -> in_range 0 127 c = false.
Proof.
  unfold cont_byte, in_range. rewrite andb_true_iff, andb_false_iff, !N.leb_le, !N.leb_gt. lia.
Qed.

Fixpoint str_drop (n : nat) (s : string) : string :=
  match n, s with
  | S n', String _ s' => str_drop n' s'
  | _, _ => s
  end.

Definition tail_mode (m : emit) : nat :=
  match m with Fresh => 0 | Copy n | Drop n => S n end.
Definition mode_result (m : emit) (s : string) : string :=
  match m with Drop n => str_drop (S n) s | _ => s end.

Lemma cons_read_Some t s r : cons_read t (Some (s, r)) = Some (t +:+ s, r).
Proof. done. Qed.

Lemma json_read_LS X : json_read ("\u2028" +:+ X) = cons_read LS (json_read X).
Proof. reflexivity. Qed.
Lemma json_read_PS X : json_read ("\u2029" +:+ X) = cons_read PS (json_read X).
Proof. reflexivity. Qed.

Lemma width_LS t : utf8_width (LS +:+ t) = 3%nat.
Proof. reflexivity. Qed.
Lemma width_PS t : utf8_width (PS +:+ t) = 3%nat.
Proof. reflexivity. Qed.

Lemma json_read_body s m X :
  valid_from (tail_mode m) s = true ->
  json_read (json_body m s +:+ DQ +:+ X) = Some (mode_result m s, X).
Proof.
  revert m. induction s as [|c s IH]; intros m Hv.
  - destruct m as [|[|n]|[|n]]; try done.
  - destruct m as [|[|n]|[|n]]; cbn [tail_mode mode_result json_body] in *.
    + cbn [valid_from] in Hv.
      destruct (utf8_width (String c s)) as [|[|w]] eqn:Hw; [done|..].
      * apply utf8_width_1 in Hw. rewrite append_assoc, json_read_ascii by done.
        by rewrite (IH Fresh).
      * pose proof (utf8_width_2 _ _ _ Hw) as Hc.
        destruct (String.prefix LS (String c s)) eqn:HL; [|destruct (String.prefix PS (String c s)) eqn:HP].
        { apply prefix_spec in HL as [t Ht]. rewrite Ht, width_LS in Hw. injection Hw as <-.
          rewrite append_assoc, json_read_LS, (IH (Drop 1)) by done. rewrite cons_read_Some.
          rewrite Ht. injection Ht as _ ->. done. }
        { apply prefix_spec in HP as [t Ht]. rewrite Ht, width_PS in Hw. injection Hw as <-.
          rewrite append_assoc, json_read_PS, (IH (Drop 1)) by done. rewrite cons_read_Some.
          rewrite Ht. injection Ht as _ ->. done. }
        rewrite append_cons, json_read_high by done. by rewrite (IH (Copy w)).
    + cbn [valid_from] in Hv. apply andb_true_iff in Hv as [Hc Hv].
      rewrite append_cons, json_read_high by (by apply cont_byte_high). by rewrite (IH Fresh).
    + cbn [valid_from] in Hv. apply andb_true_iff in Hv as [Hc Hv].
      rewrite append_cons, json_read_high by (by apply cont_byte_high). by rewrite (IH (Copy n)).
    + cbn [valid_from] in Hv. apply andb_true_iff in Hv as [Hc Hv]. by rewrite (IH Fresh).
    + cbn [valid_from] in Hv. apply andb_true_iff in Hv as [Hc Hv]. by rewrite (IH (Drop n)).
Qed.

(** JSON strings are uniquely readable: no valid string's encoding is a prefix
    of another's. *)
Lemma json_string_prefix_free s1 s2 r1 r2 :
  valid_utf8 s1 = true -> valid_utf8 s2 = true ->
  json_string s1 +:+ r1 = json_string s2 +:+ r2 -> s1 = s2 /\ r1 = r2.
Proof.
  intros H1 H2 H. unfold json_string in H. rewrite !append_assoc in H.
  apply (inj (String.append DQ)) in H.
  pose proof (json_read_body s1 Fresh r1 H1) as E1.
  pose proof (json_read_body s2 Fresh r2 H2) as E2.
  rewrite H in E1. cbn [mode_result] in *. rewrite E1 in E2. by simplify_eq.
Qed.

(** *** Injectivity of the map encoding *)

Definition valid_map (m : gmap string string) : Prop :=
  map_Forall (fun k v => valid_utf8 k = true /\ valid_utf8 v = true) m.

Lemma json_member_prefix_free kv1 kv2 r1 r2 :
  valid_utf8 kv1.1 = true -> valid_utf8 kv1.2 = true ->
  valid_utf8 kv2.1 = true -> valid_utf8 kv2.2 = true ->
  json_member kv1 +:+ r1 = json_member kv2 +:+ r2 -> kv1 = kv2 /\ r1 = r2.
Proof.
  destruct kv1 as [k1 v1], kv2 as [k2 v2]; cbn. intros ???? H. unfold json_member in H; cbn in H.
  rewrite !append_assoc in H.
  apply json_string_prefix_free in H as [-> H]; [|done..].
  apply (inj (String.append ":")) in H.
  by apply json_string_prefix_free in H as [-> ->].
Qed.

Lemma json_member_head kv : exists t, json_member kv = String "034" t.
Proof. eexists. reflexivity. Qed.

Definition valid_pair (kv : string * string) : Prop :=
  valid_utf8 kv.1 = true /\ valid_utf8 kv.2 = true.

Lemma json_members_inj l1 l2 :
  Forall valid_pair l1 -> Forall valid_pair l2 ->
  Join (map json_member l1) "," +:+ "}" = Join (map json_member l2) "," +:+ "}" -> l1 = l2.
Proof.
  intros H1. revert l2. induction H1 as [|kv1 l1 [Hk1 Hv1] Hl1 IH]; intros l2 H2 H.
  - destruct l2 as [|kv l2]; [done|]. exfalso. destruct (json_member_head kv) as [t Ht].
    cbn in H. destruct l2; cbn in H; rewrite ?append_assoc, Ht, append_nil_l, append_cons in H; done.
  - destruct H2 as [|kv2 l2 [Hk2 Hv2] Hl2].
    { exfalso. destruct (json_member_head kv1) as [t Ht].
      destruct l1; cbn in H; rewrite ?append_assoc, Ht, append_nil_l, append_cons in H; done. }
    specialize (IH l2 Hl2).
    destruct l1 as [|kv1' l1], l2 as [|kv2' l2]; cbn [map Join] in *; rewrite ?append_assoc in H;
      apply json_member_prefix_free in H as [-> H]; try done.
    apply (inj (String.append ",")) in H. f_equal. by apply IH.
Qed.

Lemma sorted_members_perm m : sorted_members m ≡ₚ map_to_list m.
Proof.
  unfold sorted_members, sorted_keys. rewrite sort_Strings_perm.
  assert (H : forall l, (forall k v, (k, v) ∈ l -> m !! k = Some v) ->
    omap (λ k, v ← m !! k; Some (k, v)) (map fst l) = l).
  { induction l as [|[k v] l IH]; intros Hl; [done|]. cbn.
    rewrite (Hl k v) by left. cbn. f_equal. apply IH. intros k' v' ?. apply Hl. by right. }
  rewrite H; [done|]. intros k v. by rewrite elem_of_map_to_list.
Qed.

Lemma sorted_members_inj m1 m2 : sorted_members m1 = sorted_members m2 -> m1 = m2.
Proof.
  intros H. apply map_eq. intros k. apply option_eq. intros v.
  rewrite <-!elem_of_map_to_list, <-!sorted_members_perm, H. done.
Qed.

Lemma sorted_members_valid m : valid_map m -> Forall valid_pair (sorted_members m).
Proof.
  intros Hm. apply Forall_forall. intros [k v] Hkv.
  rewrite sorted_members_perm, elem_of_map_to_list in Hkv. by apply Hm.
Qed.

Lemma json_map_inj m1 m2 :
  valid_map (default ∅ m1) -> valid_map (default ∅ m2) -> json_map m1 = json_map m2 -> m1 = m2.
Proof.
  destruct m1 as [m1|], m2 as [m2|]; cbn [default json_map]; intros H1 H2 H;
    [|by rewrite append_cons in H..|done].
  f_equal. apply sorted_members_inj.
  apply json_members_inj; [by apply sorted_members_valid..|].
  by apply (inj (String.append "{")) in H.
Qed.

(** ** [encoding/json] on structs

    Decoding into and encoding of the program's structs are interfaces: the
    correspondence of struct tags and JSON members is the package's. *)
Class JsonUnmarshal (A : Type) := json_Unmarshal : string -> result A.
Class JsonMarshal (A : Type) := json_Marshal : A -> result string.

(** Documented: what [Marshal] writes, [Unmarshal] reads back. *)
Class JsonRoundTrip (A : Type) `{JsonUnmarshal A, JsonMarshal A} :=
  json_Unmarshal_Marshal : forall (a : A) s, json_Marshal a = Ok s -> json_Unmarshal s = Ok a.
