(* ===== verification/CommandLine.v ===== *)
(** * Command lines: Go's [flag] package

    Both binaries describe their options by variables of an options structure,
    registered in [flag.CommandLine].  A flag is modelled by what setting it does
    to the state [O] that those variables make up.  The grammar of the accepted
    command lines is stated apart from the parser, and [Parse_spec] relates them. *)

From S2P Require Import Prelude GoStrings.

(** ** [strconv.ParseInt(s, 0, strconv.IntSize)], 64 bits

    Base 0: the prefix of the text chooses the base, and underscores may separate
    digits as in Go literals. *)

Definition lower_digit (c : ascii) : option Z :=
  let n := nat_of_ascii (lower_byte c) in
  if ((48 <=? n) && (n <=? 57))%nat then Some (Z.of_nat n - 48)%Z
  else if ((97 <=? n) && (n <=? 122))%nat then Some (Z.of_nat n - 97 + 10)%Z
  else None.

Definition prefix_base (s : string) : Z * string :=
  match s with
  | String "0" (String c (String _ _ as rest)) =>
      if ascii_dec (lower_byte c) "b" then (2%Z, rest)
      else if ascii_dec (lower_byte c) "o" then (8%Z, rest)
      else if ascii_dec (lower_byte c) "x" then (16%Z, rest)
      else (8%Z, String c rest)
  | String "0" rest => (8%Z, rest)
  | _ => (10%Z, s)
  end.

Inductive uint_result := UintOk (n : Z) | UintSyntax | UintRange.

(** The digits: a number above [2^64 - 1] stops the loop. *)
Fixpoint uint_digits (base : Z) (n : Z) (s : string) : uint_result :=
  match s with
  | EmptyString => UintOk n
  | String "_" s' => uint_digits base n s'
  | String c s' =>
      match lower_digit c with
      | Some d =>
          if (base <=? d)%Z then UintSyntax
          else if (2 ^ 64 <=? n * base + d)%Z then UintRange
          else uint_digits base (n * base + d)%Z s'
      | None => UintSyntax
      end
  end.

(** [underscoreOK]: the state is the kind of the last byte, as in the source of
    the package: ["^"] at the start, ["0"] a digit, ["_"], ["!"] anything else. *)
Fixpoint underscores_separate (hex : bool) (i : ascii) (s : string) : bool :=
  match s with
  | EmptyString => negb (bool_decide (i = "_"%char))
  | String c s' =>
      let n := nat_of_ascii (lower_byte c) in
      if ((48 <=? n) && (n <=? 57))%nat || hex && ((97 <=? n) && (n <=? 102))%nat
      then underscores_separate hex "0" s'
      else if ascii_dec c "_" then bool_decide (i = "0"%char) && underscores_separate hex "_" s'
      else negb (bool_decide (i = "_"%char)) && underscores_separate hex "!" s'
  end.
Definition underscoreOK (s : string) : bool :=
  match s with
  | String "0" (String c rest) =>
      let c := lower_byte c in
      if bool_decide (c = "b"%char) || bool_decide (c = "o"%char) || bool_decide (c = "x"%char)
      then underscores_separate (bool_decide (c = "x"%char)) "0" rest
      else underscores_separate false "^" s
  | _ => underscores_separate false "^" s
  end.

Definition ParseUint0 (s : string) : uint_result :=
  if decide (s = "") then UintSyntax
  else
    let '(base, digits) := prefix_base s in
    match uint_digits base 0 digits with
    | UintOk n => if Contains s "_" && negb (underscoreOK s) then UintSyntax else UintOk n
    | r => r
    end.

Definition ParseInt0 (s : string) : result Z :=
  let '(neg, digits) :=
    match s with
    | String "+" s' => (false, s')
    | String "-" s' => (true, s')
    | _ => (false, s)
    end in
  let range := Err (LibError "strconv.ParseInt" s "value out of range") in
  let cutoff := (2 ^ 63)%Z in
  match ParseUint0 digits with
  | UintSyntax => Err (LibError "strconv.ParseInt" s "invalid syntax")
  | UintRange => range
  | UintOk n =>
      if neg then if (cutoff <? n)%Z then range else Ok (- n)%Z
      else if (cutoff <=? n)%Z then range else Ok n
  end.

(** ** The flag set *)

Section FlagSet.
Context {O : Type}.

(** A registered flag: its value takes an argument unless it is a boolean,
    [Flag_Init] is what registering it does to the variable behind it, and
    [Flag_Set] stores a text there. *)
Record Flag := {
  Flag_Name : string;
  IsBoolFlag : bool;
  Flag_Init : O -> O;
  Flag_Set : string -> O -> result O
}.
Abbreviation FlagSet := (gmap string Flag).

(** [fs.Var]: a bad or a repeated name is a panic. *)
Definition FlagSet_Var (f : Flag) (fs : FlagSet) : result FlagSet :=
  let name := Flag_Name f in
  if HasPrefix name "-" then Panic "flag begins with -"
  else if Contains name "=" then Panic "flag contains ="
  else match fs !! name with
       | Some _ => Panic "flag redefined"
       | None => Ok (<[name := f]> fs)
       end.

Definition StringVar (set : string -> O -> O) (name value : string) : Flag :=
  {| Flag_Name := name; IsBoolFlag := false; Flag_Init := set value; Flag_Set s o := Ok (set s o) |}.
Definition BoolVar (set : bool -> O -> O) (name : string) (value : bool) : Flag :=
  {| Flag_Name := name; IsBoolFlag := true; Flag_Init := set value;
     Flag_Set s o := let! b := ParseBool s in Ok (set b o) |}.
Definition IntVar (set : Z -> O -> O) (name : string) (value : Z) : Flag :=
  {| Flag_Name := name; IsBoolFlag := false; Flag_Init := set value;
     Flag_Set s o := let! n := ParseInt0 s in Ok (set n o) |}.
Definition Var (set : string -> O -> result O) (name : string) : Flag :=
  {| Flag_Name := name; IsBoolFlag := false; Flag_Init o := o; Flag_Set := set |}.

Fixpoint register (l : list Flag) (fs : FlagSet) (o : O) : result (FlagSet * O) :=
  match l with
  | [] => Ok (fs, o)
  | f :: l' => let! fs := FlagSet_Var f fs in register l' fs (Flag_Init f o)
  end.

(** ** Parsing *)

(** What an argument is, by its first bytes. *)
Inductive token := NotAFlag | Terminator | BadSyntax | Named (name : string) (value : option string).

Definition name_and_value (text : string) : token :=
  match text with
  | EmptyString | String "-" _ | String "=" _ => BadSyntax
  | _ =>
      match SplitN2 text "=" with
      | [name; value] => Named name (Some value)
      | _ => Named text None
      end
  end.

Definition classify (s : string) : token :=
  match s with
  | String "-" (String "-" EmptyString) => Terminator
  | String "-" (String "-" text) => name_and_value text
  | String "-" (String _ _ as text) => name_and_value text
  | _ => NotAFlag
  end.

(** [fs.Parse]: the options after the arguments, and the arguments that are left. *)
Fixpoint Parse (fs : FlagSet) (args : list string) (o : O) : result (O * list string) :=
  match args with
  | [] => Ok (o, [])
  | s :: args' =>
      match classify s with
      | NotAFlag => Ok (o, args)
      | Terminator => Ok (o, args')
      | BadSyntax => Err (Errorf "bad flag syntax: %s" [s])
      | Named name value =>
          match fs !! name with
          | None =>
              if decide (name = "help" \/ name = "h") then Err (Errorf "flag: help requested" [])
              else Err (Errorf "flag provided but not defined: -%s" [name])
          | Some f =>
              if IsBoolFlag f then
                let! o := wrapR "invalid boolean flag %s: %v" [name] (Flag_Set f (default "true" value) o) in
                Parse fs args' o
              else
                match value, args' with
                | Some value, _ =>
                    let! o := wrapR "invalid value %q for flag -%s: %v" [value; name] (Flag_Set f value o) in
                    Parse fs args' o
                | None, value :: args'' =>
                    let! o := wrapR "invalid value %q for flag -%s: %v" [value; name] (Flag_Set f value o) in
                    Parse fs args'' o
                | None, [] => Err (Errorf "flag needs an argument: -%s" [name])
                end
          end
      end
  end.

(** ** The grammar of command lines *)

(** The three ways to set a flag, each with one dash or with two. *)
Inductive setting :=
| Assign (dashes : bool) (name value : string)
| Following (dashes : bool) (name value : string)
| Switch (dashes : bool) (name : string).

Definition dash (two : bool) : string := if two then "--" else "-".
Definition spell (x : setting) : list string :=
  match x with
  | Assign two name value => [dash two +:+ name +:+ "=" +:+ value]
  | Following two name value => [dash two +:+ name; value]
  | Switch two name => [dash two +:+ name]
  end.

Definition set_of (x : setting) : string * string :=
  match x with
  | Assign _ name value | Following _ name value => (name, value)
  | Switch _ name => (name, "true")
  end.

(** A setting of a registered flag in a form that suits it. *)
Definition proper (fs : FlagSet) (x : setting) : Prop :=
  match fs !! (set_of x).1 with
  | None => False
  | Some f =>
      match x with
      | Assign _ _ _ => True
      | Following _ _ _ => IsBoolFlag f = false
      | Switch _ _ => IsBoolFlag f = true
      end
  end.

Fixpoint apply_settings (fs : FlagSet) (l : list (string * string)) (o : O) : option O :=
  match l with
  | [] => Some o
  | (name, value) :: l' =>
      match fs !! name with
      | None => None
      | Some f => ok_value (Flag_Set f value o) ≫= apply_settings fs l'
      end
  end.

(** The end of the flags: a first argument that is not one, or two dashes. *)
Definition ends (tail rest : list string) : Prop :=
  tail = "--" :: rest \/ tail = rest /\ match rest with [] => True | s :: _ => classify s = NotAFlag end.

(** No name is empty, starts with a dash or contains an equals sign. *)
Definition speakable (name : string) : Prop := name_and_value name = Named name None.
Definition well_named (fs : FlagSet) : Prop := map_Forall (fun name _ => speakable name) fs.

(** ** What a command line means

    An option as its documentation describes it: its name, its default, and what
    becomes of its value with every setting; it knows of no other option. *)
Record Described := {
  d_name : string;
  d_bool : bool;
  d_type : Type;
  d_default : d_type;
  d_step : d_type -> string -> result d_type;
  d_get : O -> d_type
}.

Fixpoint steps {A} (step : A -> string -> result A) (a : A) (values : list string) : result A :=
  match values with
  | [] => Ok a
  | v :: values' => let! a := step a v in steps step a values'
  end.

(** The values given to one option, in order. *)
Definition values_of (name : string) (l : list setting) : list string :=
  map snd (filter (fun p => p.1 = name) (map set_of l)).

(** A setting of one of the options, in a form that suits it. *)
Definition suits (options : list Described) (x : setting) : Prop :=
  exists d, d ∈ options /\ d_name d = (set_of x).1 /\
    match x with
    | Assign _ _ _ => True
    | Following _ _ _ => d_bool d = false
    | Switch _ _ => d_bool d = true
    end.

(** The arguments are settings of options up to an end of the flags, and every
    option has the value that its settings make of its default. *)
Definition means (options : list Described) (args : list string) (o : O) (rest : list string) : Prop :=
  exists l tail, args = concat (map spell l) ++ tail /\ Forall (suits options) l /\ ends tail rest /\
    Forall (fun d => steps (d_step d) (d_default d) (values_of (d_name d) l) = Ok (d_get d o)) options.

(** A registered flag does to its option what the description says, and leaves the
    others alone. *)
Definition implements (options : list Described) (f : Flag) (d : Described) : Prop :=
  Flag_Name f = d_name d /\ IsBoolFlag f = d_bool d /\
  forall v o,
    match d_step d (d_get d o) v with
    | Ok a => exists o', Flag_Set f v o = Ok o' /\ d_get d o' = a /\
        Forall (fun d' => d_name d' <> d_name d -> d_get d' o' = d_get d' o) options
    | _ => is_ok (Flag_Set f v o) = false
    end.
End FlagSet.
Arguments Flag : clear implicits.
Arguments Described : clear implicits.
Abbreviation FlagSet O := (gmap string (Flag O)).

(** ** Properties *)

Lemma lower_digit_nonneg c d : lower_digit c = Some d -> (0 <= d)%Z.
Proof.
  unfold lower_digit. cbv zeta.
  destruct ((48 <=? _)%nat && _) eqn:E1; [apply andb_true_iff in E1 as [?%Nat.leb_le _]; intros [= <-]; lia|].
  destruct ((97 <=? _)%nat && _) eqn:E2; [apply andb_true_iff in E2 as [?%Nat.leb_le _]; intros [= <-]; lia|done].
Qed.

Lemma uint_digits_cons base n c s :
  uint_digits base n (String c s) =
  if ascii_dec c "_" then uint_digits base n s
  else match lower_digit c with
       | Some d => if (base <=? d)%Z then UintSyntax else if (2 ^ 64 <=? n * base + d)%Z then UintRange
                   else uint_digits base (n * base + d)%Z s
       | None => UintSyntax
       end.
Proof. by destruct c as [[] [] [] [] [] [] [] []]. Qed.

Lemma uint_digits_bounds base n s m :
  (0 <= base)%Z -> (0 <= n < 2 ^ 64)%Z -> uint_digits base n s = UintOk m -> (0 <= m < 2 ^ 64)%Z.
Proof.
  intros Hb. revert n. induction s as [|c s IH]; intros n Hn; [by intros [= <-]|].
  rewrite uint_digits_cons. destruct (ascii_dec c "_"); [by apply IH|].
  destruct (lower_digit c) as [d|] eqn:Hd; [apply lower_digit_nonneg in Hd|done].
  destruct (base <=? d)%Z; [done|]. destruct (Z.leb_spec (2 ^ 64) (n * base + d)); [done|].
  apply IH. split; [nia|done].
Qed.

Lemma prefix_base_nonneg s : (0 <= (prefix_base s).1)%Z.
Proof. unfold prefix_base. repeat case_match; cbn; lia. Qed.

(** A worker count is an [int] of 64 bits. *)
Lemma ParseInt0_bounds s z : ParseInt0 s = Ok z -> (- 2 ^ 63 <= z < 2 ^ 63)%Z.
Proof.
  assert (forall t n, ParseUint0 t = UintOk n -> (0 <= n)%Z) as Hpos.
  { intros t n. unfold ParseUint0. destruct (decide _); [done|].
    pose proof (prefix_base_nonneg t) as Hb. destruct (prefix_base t) as [base ds].
    destruct (uint_digits base 0 ds) as [m| |] eqn:Hm; [|done..].
    apply uint_digits_bounds in Hm; [|done|lia]. destruct (_ && _); [done|]. intros [= <-]. lia. }
  unfold ParseInt0.
  destruct (match s with String "+" s' => _ | _ => _ end) as [neg digits].
  destruct (ParseUint0 digits) as [n| |] eqn:Hn; [apply Hpos in Hn|done..].
  destruct neg; [destruct (Z.ltb_spec (2 ^ 63) n)|destruct (Z.leb_spec (2 ^ 63) n)]; intros; simplify_eq; lia.
Qed.

Section Grammar.
Context {O : Type}.
Implicit Types fs : FlagSet O.

(** The texts that name a flag without its value. *)
Lemma speakable_spec name :
  speakable name <-> exists c s, name = String c s /\ c <> "-"%char /\ Contains name "=" = false.
Proof.
  unfold speakable, name_and_value.
  destruct name as [|c s]; [split; [done|naive_solver]|].
  destruct (SplitN2_spec (String c s) "=") as [[Hno ->]|(a & b & Heq & Ha & ->)].
  - split; [|by intros (? & ? & [= <- _] & Hc & _); destruct c as [[] [] [] [] [] [] [] []]].
    intros H. exists c, s. split_and!; [done| |done]. by intros ->.
  - split; [|intros (? & ? & _ & _ & Hno); rewrite Heq, Contains_app in Hno; cbn in Hno; by rewrite orb_true_r in Hno].
    intros H. exfalso. by destruct c as [[] [] [] [] [] [] [] []].
Qed.

Lemma name_and_value_assign name value :
  speakable name -> name_and_value (name +:+ "=" +:+ value) = Named name (Some value).
Proof.
  rewrite speakable_spec. intros (c & s & -> & Hc & Hno).
  change ("=" +:+ value) with (String "=" value).
  pose proof (SplitN2_cut (String c s) value "=" Hno) as Hcut. rewrite append_cons in *.
  unfold name_and_value. rewrite Hcut.
  by destruct c as [[] [] [] [] [] [] [] []].
Qed.

Lemma name_and_value_inv text name value :
  name_and_value text = Named name value ->
  speakable name /\ text = match value with None => name | Some v => name +:+ "=" +:+ v end.
Proof.
  intros Ht. assert (exists c s, text = String c s /\ c <> "-"%char /\ c <> "="%char) as (c & s & -> & Hd & He).
  { destruct text as [|c s]; [done|]. exists c, s. split; [done|]. by split; intros ->. }
  assert (name_and_value (String c s) =
    match SplitN2 (String c s) "=" with [n; v] => Named n (Some v) | _ => Named (String c s) None end) as Hn
    by (by unfold name_and_value; destruct c as [[] [] [] [] [] [] [] []]).
  rewrite Hn in Ht. rewrite speakable_spec.
  destruct (SplitN2_spec (String c s) "=") as [[Hno Hs]|(a & b & Heq & Ha & Hs)]; rewrite Hs in Ht; simplify_eq.
  - split; [|done]. by exists c, s.
  - rewrite Heq. split; [|done]. destruct name as [|c' a]; [by injection Heq|].
    injection Heq as -> _. by exists c', a.
Qed.

Lemma classify_dash two text :
  (exists c s, text = String c s /\ c <> "-"%char) -> classify (dash two +:+ text) = name_and_value text.
Proof.
  intros (c & s & -> & Hc). destruct two; [by destruct c as [[] [] [] [] [] [] [] []]|].
  by destruct c as [[] [] [] [] [] [] [] []].
Qed.

Lemma name_and_value_ends text : name_and_value text <> Terminator.
Proof.
  destruct text as [|c s]; [done|].
  assert (forall p : list string, match p with [n; v] => Named n (Some v) | _ => Named (String c s) None end
    <> Terminator) as Hp by (by intros [|n [|v []]]).
  destruct c as [[] [] [] [] [] [] [] []]; try apply Hp; done.
Qed.

Lemma dash_byte s : classify s <> NotAFlag -> exists c s', s = String "-" (String c s').
Proof.
  destruct s as [|c1 s]; [done|]. intros Hs.
  assert (c1 = "-"%char) as -> by (by destruct c1 as [[] [] [] [] [] [] [] []]).
  destruct s as [|c s]; [done|]. by exists c, s.
Qed.

Lemma classify_terminator s : classify s = Terminator -> s = "--".
Proof.
  intros Hs. destruct (dash_byte s) as (c & s' & ->); [by rewrite Hs|].
  destruct (ascii_dec c "-") as [->|Hc].
  - destruct s' as [|c s']; [done|]. by destruct (name_and_value_ends (String c s') Hs).
  - exfalso. apply (name_and_value_ends (String c s')). by destruct c as [[] [] [] [] [] [] [] []].
Qed.

Lemma classify_inv s name value :
  classify s = Named name value ->
  exists two, s = dash two +:+ match value with None => name | Some v => name +:+ "=" +:+ v end /\ speakable name.
Proof.
  intros Hs.
  assert (exists two text, s = dash two +:+ text /\ name_and_value text = Named name value)
    as (two & text & -> & [Hn ->]%name_and_value_inv); [|by exists two].
  destruct (dash_byte s) as (c2 & s' & ->); [by rewrite Hs|]. rename s' into s.
  destruct (ascii_dec c2 "-") as [->|Hc].
  - exists true, s. split; [done|]. by destruct s.
  - exists false, (String c2 s). split; [done|]. by destruct c2 as [[] [] [] [] [] [] [] []].
Qed.

Lemma spelled_ends tail rest : ends tail rest -> forall fs o, @Parse O fs tail o = Ok (o, rest).
Proof.
  intros [->|[-> Hrest]] fs o; [done|]. destruct rest as [|s rest]; [done|]. cbn [Parse]. by rewrite Hrest.
Qed.

(** One flag at the front, however it is spelled. *)
Lemma Parse_setting fs x args o :
  well_named fs -> proper fs x ->
  Parse fs (spell x ++ args) o =
  match fs !! (set_of x).1 with
  | Some f =>
      let! o := (if IsBoolFlag f then wrapR "invalid boolean flag %s: %v" [(set_of x).1] else
                 wrapR "invalid value %q for flag -%s: %v" [(set_of x).2; (set_of x).1])
                  (Flag_Set f (set_of x).2 o) in
      Parse fs args o
  | None => Err (Errorf "" [])
  end.
Proof.
  intros Hfs Hx. unfold proper in Hx. destruct (fs !! (set_of x).1) as [f|] eqn:Hf; [|done].
  pose proof (Hfs _ _ Hf) as Hname. pose proof (proj1 (speakable_spec _) Hname) as (c & s & Heq & Hc & _).
  destruct x as [two name value|two name value|two name]; cbn [set_of fst snd spell app] in *; cbn [Parse].
  - rewrite classify_dash; [|rewrite Heq, append_cons; eauto].
    rewrite name_and_value_assign by done. rewrite Hf. by destruct (IsBoolFlag f).
  - rewrite classify_dash by eauto. by rewrite Hname, Hf, Hx.
  - rewrite classify_dash by eauto. by rewrite Hname, Hf, Hx.
Qed.

Lemma Parse_complete fs l tail rest o o' :
  well_named fs -> Forall (proper fs) l -> apply_settings fs (map set_of l) o = Some o' -> ends tail rest ->
  Parse fs (concat (map spell l) ++ tail) o = Ok (o', rest).
Proof.
  intros Hfs Hl. revert o. induction Hl as [|x l Hx Hl IH]; intros o Hset Hends; cbn in *.
  - simplify_eq. by apply spelled_ends.
  - rewrite <- app_assoc, Parse_setting by done. destruct (set_of x) as [name value]. cbn.
    destruct (fs !! name) as [f|]; [|done].
    destruct (Flag_Set f value o) as [o1|e|w]; [|done..]. destruct (IsBoolFlag f); by apply IH.
Qed.

(** A command line that the grammar derives, with its effect. *)
Definition derives fs (args : list string) (o o' : O) (rest : list string) : Prop :=
  exists l tail, args = concat (map spell l) ++ tail /\ Forall (proper fs) l /\
    apply_settings fs (map set_of l) o = Some o' /\ ends tail rest.

Lemma derives_setting fs x f o o1 o' args rest :
  proper fs x -> fs !! (set_of x).1 = Some f -> Flag_Set f (set_of x).2 o = Ok o1 ->
  derives fs args o1 o' rest -> derives fs (spell x ++ args) o o' rest.
Proof.
  intros Hx Hf Hset (l & tail & -> & Hl & Happly & Hends). exists (x :: l), tail.
  split_and!; [by cbn; rewrite <- app_assoc|by constructor| |done].
  cbn. destruct (set_of x) as [name value]. cbn in *. by rewrite Hf, Hset.
Qed.

Lemma derives_ends fs args o rest : ends args rest -> derives fs args o o rest.
Proof. intros Hends. by exists [], args. Qed.

Lemma Parse_sound fs args o o' rest : Parse fs args o = Ok (o', rest) -> derives fs args o o' rest.
Proof.
  revert o. induction args as [args IH] using (induction_ltof1 _ (@length _)). unfold ltof in IH.
  intros o. destruct args as [|s args]; cbn [Parse].
  { intros [= -> <-]. apply derives_ends. by right. }
  destruct (classify s) as [| | |name value] eqn:Hs.
  - intros [= -> <-]. apply derives_ends. by right.
  - intros [= -> <-]. apply derives_ends. left. by rewrite (classify_terminator _ Hs).
  - done.
  - destruct (classify_inv _ _ _ Hs) as (two & -> & _).
    destruct (fs !! name) as [f|] eqn:Hf; [|by destruct (decide _)].
    assert (forall x, (set_of x).1 = name -> fs !! (set_of x).1 = Some f) as Hget by (by intros x ->).
    destruct (IsBoolFlag f) eqn:Hb; [|destruct value as [value|]; [|destruct args as [|value args]; [done|]]];
      intros Hp; inv_bind Hp.
    + destruct value as [value|].
      * apply (derives_setting fs (Assign two name value) f _ x); [by unfold proper; rewrite Hget|by apply Hget|done|].
        by apply IH; [cbn; lia|].
      * apply (derives_setting fs (Switch two name) f _ x); [by unfold proper; rewrite Hget|by apply Hget|done|].
        by apply IH; [cbn; lia|].
    + apply (derives_setting fs (Assign two name value) f _ x); [by unfold proper; rewrite Hget|by apply Hget|done|].
      by apply IH; [cbn; lia|].
    + apply (derives_setting fs (Following two name value) f _ x); [by unfold proper; rewrite Hget|by apply Hget|done|].
      by apply IH; [cbn; lia|].
Qed.
(** What is registered, and that it can be set. *)
Lemma register_lookup l fs0 o0 fs o name f :
  register l fs0 o0 = Ok (fs, o) -> fs !! name = Some f <-> (f ∈ l /\ Flag_Name f = name) \/ fs0 !! name = Some f.
Proof.
  revert fs0 o0. induction l as [|g l IH]; intros fs0 o0; cbn [register].
  { intros [= -> ->]. rewrite elem_of_nil. naive_solver. }
  intros Hr. apply bindR_Ok in Hr as (fs1 & Hv & Hr). rewrite (IH _ _ Hr), elem_of_cons.
  unfold FlagSet_Var in Hv. repeat case_match; simplify_eq.
  rewrite lookup_insert_Some. split; [naive_solver|].
  intros [[[->|Hin] <-]|Hf]; [by right; left|by left|right; right]. split; [congruence|done].
Qed.

(** The registrations that do not panic. *)
Definition registrable (name : string) : bool := negb (HasPrefix name "-") && negb (Contains name "=").
Definition after_register (l : list (Flag O)) (fs : FlagSet O) : FlagSet O :=
  fold_left (fun fs f => <[Flag_Name f := f]> fs) l fs.

Lemma register_ok l fs o :
  Forall (fun name => registrable name = true) (map Flag_Name l) -> NoDup (map Flag_Name l) ->
  (forall name, name ∈ map Flag_Name l -> fs !! name = None) ->
  register l fs o = Ok (after_register l fs, fold_left (fun o f => Flag_Init f o) l o).
Proof.
  revert fs o. induction l as [|f l IH]; intros fs o; cbn [map register]; [done|].
  rewrite Forall_cons, NoDup_cons. intros [Hf Hl] [Hnew Hdup] Hfs.
  unfold registrable in Hf. apply andb_true_iff in Hf as [Hp%negb_true_iff Hc%negb_true_iff].
  unfold FlagSet_Var. rewrite Hp, Hc, Hfs by (by apply elem_of_cons; left). cbn.
  apply IH; [done..|]. intros name Hname. rewrite lookup_insert_ne by (by intros Heq; apply Hnew; rewrite Heq).
  apply Hfs. by apply elem_of_cons; right.
Qed.

Lemma register_well_named l o0 fs o :
  register l ∅ o0 = Ok (fs, o) -> Forall (fun f => speakable (Flag_Name f)) l -> well_named fs.
Proof.
  intros Hr Hl name f Hf. apply (register_lookup _ _ _ _ _ name f Hr) in Hf as [[Hin <-]|Hf]; [|by rewrite lookup_empty in Hf].
  rewrite Forall_forall in Hl. by apply Hl.
Qed.

(** The parser accepts what the grammar derives, with the same effect. *)
Lemma Parse_iff fs args o o' rest :
  well_named fs -> Parse fs args o = Ok (o', rest) <-> derives fs args o o' rest.
Proof.
  intros Hfs. split; [apply Parse_sound|]. intros (l & tail & -> & Hl & Happly & Hends). by apply Parse_complete.
Qed.

(** *** Options that are described *)

Variable options : list (Described O).
Hypothesis Hdistinct : NoDup (map d_name options).
(** What the descriptions say of a state is all there is to it. *)
Hypothesis Hcomplete : forall o o', Forall (fun d => d_get d o = d_get d o') options -> o = o'.

Record implemented fs : Prop := {
  only_described name f : fs !! name = Some f -> exists d, d ∈ options /\ d_name d = name /\ implements options f d;
  all_described d : d ∈ options -> exists f, fs !! d_name d = Some f /\ implements options f d
}.

Lemma same_option d d' : d ∈ options -> d' ∈ options -> d_name d = d_name d' -> d = d'.
Proof.
  intros (i & Hi)%list_elem_of_lookup (j & Hj)%list_elem_of_lookup Hn.
  assert (i = j) as ->; [|congruence].
  apply (NoDup_lookup (map d_name options) i j (d_name d)); [done|by rewrite list_lookup_fmap, Hi|].
  by rewrite list_lookup_fmap, Hj, Hn.
Qed.

Lemma values_of_cons name x l :
  values_of name (x :: l) = if decide ((set_of x).1 = name) then (set_of x).2 :: values_of name l else values_of name l.
Proof. unfold values_of. cbn [map]. rewrite filter_cons. by destruct (decide _). Qed.

Lemma suits_proper fs x : implemented fs -> suits options x <-> proper fs x.
Proof.
  intros [Honly Hall]. unfold suits, proper. split.
  - intros (d & Hd & Hn & Hx). destruct (Hall d Hd) as (f & Hf & _ & Hb & _). rewrite <- Hn, Hf, Hb. by destruct x.
  - destruct (fs !! _) as [f|] eqn:Hf; [|done]. destruct (Honly _ _ Hf) as (d & Hd & Hn & _ & Hb & _). exists d.
    by rewrite <- Hb.
Qed.

(** Setting the flags one after another, option by option. *)
Lemma apply_settings_described fs l o o' :
  implemented fs -> Forall (suits options) l ->
  apply_settings fs (map set_of l) o = Some o' <->
  Forall (fun d => steps (d_step d) (d_get d o) (values_of (d_name d) l) = Ok (d_get d o')) options.
Proof.
  intros Hfs Hl. revert o. induction Hl as [|x l (d & Hd & Hn & _) _ IH]; intros o.
  - cbn. split; [intros [= ->]; by apply Forall_true|]. intros Hall. f_equal. apply Hcomplete.
    eapply Forall_impl; [exact Hall|]. by intros d [= ?].
  - destruct (all_described fs Hfs d Hd) as (f & Hf & _ & _ & Hset). specialize (Hset (set_of x).2 o).
    cbn [map apply_settings]. destruct (set_of x) as [name v] eqn:Hx. cbn [fst snd] in *. subst name. rewrite Hf.
    assert (is_ok (d_step d (d_get d o) v) = false -> is_ok (Flag_Set f v o) = false ->
      ok_value (Flag_Set f v o) ≫= apply_settings fs (map set_of l) = Some o' <->
      Forall (fun d => steps (d_step d) (d_get d o) (values_of (d_name d) (x :: l)) = Ok (d_get d o')) options) as not_set.
    { intros Hs Hf'. split; [by destruct (Flag_Set f v o)|]. rewrite Forall_forall. intros Hall. specialize (Hall d Hd).
      rewrite values_of_cons, Hx, decide_True in Hall by done. cbn [steps snd] in Hall. by destruct (d_step d _ _). }
    destruct (d_step d (d_get d o) v) as [a|e|w] eqn:Hstep.
    + destruct Hset as (o1 & -> & Ha & Hothers). cbn [ok_value mbind option_bind]. rewrite IH, !Forall_forall. rewrite Forall_forall in Hothers.
      apply forall_proper; intros d'. apply forall_proper; intros Hd'. rewrite values_of_cons, Hx. cbn [fst snd].
      destruct (decide (d_name d = d_name d')) as [Hsame|Hne].
      * pose proof (same_option d d' Hd Hd' Hsame) as <-. cbn. by rewrite Hstep, Ha.
      * by rewrite Hothers by (try done; by apply not_eq_sym).
    + by apply not_set.
    + by apply not_set.
Qed.

(** The parser accepts the command lines that mean something, with what they mean. *)
Lemma Parse_means fs args o o' rest :
  well_named fs -> implemented fs -> Forall (fun d => d_get d o = d_default d) options ->
  Parse fs args o = Ok (o', rest) <-> means options args o' rest.
Proof.
  intros Hnames Hfs Hdefault. rewrite Parse_iff by done. unfold derives, means.
  assert (forall l, Forall (fun d => steps (d_step d) (d_default d) (values_of (d_name d) l) = Ok (d_get d o')) options <->
    Forall (fun d => steps (d_step d) (d_get d o) (values_of (d_name d) l) = Ok (d_get d o')) options) as Hd.
  { intros l. rewrite Forall_forall in Hdefault. rewrite !Forall_forall.
    apply forall_proper; intros d. apply forall_proper; intros Hin. by rewrite Hdefault. }
  assert (forall l, Forall (suits options) l <-> Forall (proper fs) l) as Hsuits
    by (intros l; apply Forall_iff; intros x; by apply suits_proper).
  split; intros (l & tail & Ha & Hl & Hrest); exists l, tail.
  - destruct Hrest as [Happly Hends]. split_and!; [done|by apply Hsuits|done|]. apply Hd.
    by apply (apply_settings_described fs); [|apply Hsuits|].
  - destruct Hrest as [Hends Hsteps]. split_and!; [done|by apply Hsuits| |done].
    apply apply_settings_described; [done..|]. by apply Hd.
Qed.
End Grammar.
