(* ===== verification/NetURL.v ===== *)
(** * [net/url]: query strings, and the URL type the program relies on

    Query strings are modelled: [ParseQuery], [Values.Has]/[Get]/[Del]/[Encode],
    [QueryEscape] and [QueryUnescape].  The splitting of a URL into its parts
    is the interface [NetURL]: the program calls [url.Parse], reads [Host],
    [Hostname()], [Port()] and [RawQuery], writes [RawQuery], and prints. *)

From S2P Require Import Prelude GoStrings Encoding.

Class NetURL := {
  URL : Type;
  url_Parse : string -> result URL;
  url_Host : URL -> string;
  url_Hostname : URL -> string;
  url_Port : URL -> string;
  url_RawQuery : URL -> string;
  url_set_RawQuery : string -> URL -> URL;
  url_String : URL -> string
}.

Module url.

(** ** Escaping *)

Definition unreserved (c : ascii) : bool :=
  let n := N_of_ascii c in
  ((48 <=? n) && (n <=? 57) || (65 <=? n) && (n <=? 90) || (97 <=? n) && (n <=? 122)
   || (n =? 45) || (n =? 95) || (n =? 46) || (n =? 126))%N.

(** Upper-case hexadecimal digits. *)
Definition upperhex (n : N) : ascii :=
  if (n <? 10)%N then ascii_of_N (48 + n) else ascii_of_N (55 + n).

Definition escape_byte (c : ascii) : string :=
  if unreserved c then String c EmptyString
  else if ascii_dec c " " then "+"
  else String "%" (String (upperhex (N_of_ascii c / 16))
         (String (upperhex (N_of_ascii c mod 16)) EmptyString)).

(** [url.QueryEscape] *)
Fixpoint QueryEscape (s : string) : string :=
  match s with
  | EmptyString => EmptyString
  | String c s' => escape_byte c +:+ QueryEscape s'
  end.

Definition hex_value (c : ascii) : option N :=
  let n := N_of_ascii c in
  if ((48 <=? n) && (n <=? 57))%N then Some (n - 48)%N
  else if ((97 <=? n) && (n <=? 102))%N then Some (n - 87)%N
  else if ((65 <=? n) && (n <=? 70))%N then Some (n - 55)%N
  else None.

Fixpoint unescape (s : string) : option string :=
  match s with
  | EmptyString => Some EmptyString
  | String c s' =>
      if ascii_dec c "%" then
        match s' with
        | String h1 (String h2 t) =>
            v1 ← hex_value h1; v2 ← hex_value h2; r ← unescape t;
            Some (String (ascii_of_N (v1 * 16 + v2)) r)
        | _ => None
        end
      else if ascii_dec c "+" then (r ← unescape s'; Some (String " " r))
      else (r ← unescape s'; Some (String c r))
  end.

(** [url.QueryUnescape] *)
Definition QueryUnescape (s : string) : result string :=
  match unescape s with
  | Some r => Ok r
  | None => Err (LibError "url.QueryUnescape" s "invalid URL escape")
  end.

(** ** Values *)

Abbreviation Values := (gmap string (list string)).

Definition Has (v : Values) (k : string) : bool := bool_decide (is_Some (v !! k)).
Definition Get (v : Values) (k : string) : string :=
  match v !! k with Some (x :: _) => x | _ => "" end.
Definition Del (v : Values) (k : string) : Values := delete k v.
Definition add (v : Values) (k x : string) : Values := <[k := default [] (v !! k) ++ [x]]> v.

(** [strings.Cut(s, "=")] *)
Definition cut_eq (s : string) : string * string :=
  match SplitN2 s "=" with [k; v] => (k, v) | _ => (s, "") end.

(** One round of the loop of [parseQuery]: the map so far and the first error. *)
Definition parse_pair (acc : Values * option error) (piece : string) : Values * option error :=
  let '(m, err) := acc in
  if Contains piece ";" then
    (m, Some (LibError "url.ParseQuery" piece "invalid semicolon separator in query"))
  else if decide (piece = "") then acc
  else
    let '(key, value) := cut_eq piece in
    match unescape key with
    | None => (m, Some (default (LibError "url.ParseQuery" key "invalid URL escape") err))
    | Some key' =>
        match unescape value with
        | None => (m, Some (default (LibError "url.ParseQuery" value "invalid URL escape") err))
        | Some value' => (add m key' value', err)
        end
    end.

(** [url.ParseQuery]; it returns what it could parse and the first error. *)
Definition ParseQuery (q : string) : Values * option error :=
  fold_left parse_pair (Split q "&") (∅, None).

(** [Values.Encode]: keys sorted, values in their order. *)
Definition encode_pair (k x : string) : string := QueryEscape k +:+ "=" +:+ QueryEscape x.
Definition encode_pieces (v : Values) : list string :=
  flat_map (fun k => map (encode_pair k) (default [] (v !! k))) (sorted_keys v).
Definition Encode (v : Values) : string := Join (encode_pieces v) "&".

Section URLs.
Context `{NetURL}.

(** [u.Query()] drops the error of [ParseQuery]. *)
Definition Query (u : URL) : Values := (ParseQuery (url_RawQuery u)).1.
End URLs.

(** ** Round trips *)

Lemma hex_value_upperhex n : (n < 16)%N -> hex_value (upperhex n) = Some n.
Proof.
  revert n. apply (N_lt_list (fun n => hex_value (upperhex n) = Some n) 16).
  repeat (constructor; [reflexivity|]). constructor.
Qed.

Lemma unescape_escape_byte c s :
  unescape (escape_byte c +:+ s) = (r ← unescape s; Some (String c r)).
Proof.
  destruct c as [[] [] [] [] [] [] [] []]; reflexivity.
Qed.

Lemma unescape_QueryEscape s : unescape (QueryEscape s) = Some s.
Proof.
  induction s as [|c s IH]; [done|]. cbn [QueryEscape].
  by rewrite unescape_escape_byte, IH.
Qed.

Lemma QueryUnescape_QueryEscape s : QueryUnescape (QueryEscape s) = Ok s.
Proof. unfold QueryUnescape. by rewrite unescape_QueryEscape. Qed.

Definition query_safe (s : string) : Prop :=
  Contains s "&" = false /\ Contains s ";" = false /\ Contains s "=" = false.

Lemma QueryEscape_safe s : query_safe (QueryEscape s).
Proof.
  unfold query_safe. induction s as [|c s (H1 & H2 & H3)]; [done|]. cbn [QueryEscape].
  rewrite !Contains_app, H1, H2, H3, !orb_false_r.
  destruct c as [[] [] [] [] [] [] [] []]; split_and!; reflexivity.
Qed.

Lemma cut_eq_encode_pair k x : cut_eq (encode_pair k x) = (QueryEscape k, QueryEscape x).
Proof.
  unfold cut_eq, encode_pair. destruct (QueryEscape_safe k) as (_ & _ & Hk).
  change ("=" +:+ QueryEscape x) with (String "=" (QueryEscape x)).
  by rewrite SplitN2_cut.
Qed.

Lemma encode_pair_safe k x :
  Contains (encode_pair k x) "&" = false /\ Contains (encode_pair k x) ";" = false /\
  encode_pair k x <> "".
Proof.
  destruct (QueryEscape_safe k) as (H1 & H2 & _), (QueryEscape_safe x) as (H3 & H4 & _).
  unfold encode_pair. rewrite !Contains_app, H1, H2, H3, H4. split_and!; [done..|].
  intros Heq%(f_equal String.length). rewrite !length_append in Heq. cbn in Heq. lia.
Qed.

Lemma parse_pair_encode m err k x :
  parse_pair (m, err) (encode_pair k x) = (add m k x, err).
Proof.
  unfold parse_pair. destruct (encode_pair_safe k x) as (_ & -> & Hne).
  rewrite decide_False by done. by rewrite cut_eq_encode_pair, !unescape_QueryEscape.
Qed.

Lemma fold_encode_values k xs m err :
  fold_left parse_pair (map (encode_pair k) xs) (m, err) =
  (match xs with [] => m | _ => <[k := default [] (m !! k) ++ xs]> m end, err).
Proof.
  revert m. induction xs as [|x xs IH]; intros m; [done|].
  cbn [map fold_left]. rewrite parse_pair_encode, IH. f_equal.
  unfold add. destruct xs as [|y xs]; [done|].
  rewrite lookup_insert_eq, insert_insert_eq. cbn. by rewrite <-app_assoc.
Qed.

Lemma fold_encode_keys (v : Values) ks m err :
  NoDup ks -> (forall k, k ∈ ks -> m !! k = None) -> (forall k, v !! k <> Some []) ->
  exists m', fold_left parse_pair
      (flat_map (fun k => map (encode_pair k) (default [] (v !! k))) ks) (m, err) = (m', err) /\
    forall k, m' !! k = if decide (k ∈ ks) then v !! k else m !! k.
Proof.
  intros Hnd. revert m. induction Hnd as [|k ks Hk Hnd IH]; intros m Hm Hv.
  { exists m. split; [done|]. intros k. by rewrite decide_False by (apply not_elem_of_nil). }
  cbn [flat_map]. rewrite fold_left_app, fold_encode_values.
  set (m1 := match default [] (v !! k) with [] => m | _ => <[k:=default [] (m !! k) ++ default [] (v !! k)]> m end).
  assert (Hm1 : forall k', m1 !! k' = if decide (k' = k) then v !! k' else m !! k').
  { intros k'. unfold m1. pose proof (Hv k). destruct (v !! k) as [[|x xs]|] eqn:E; [done|..]; cbn.
    - rewrite (Hm k) by left. cbn. rewrite lookup_insert. repeat case_decide; congruence.
    - case_decide; [subst|done]. rewrite E. apply Hm. by left. }
  destruct (IH m1) as (m' & -> & Hm').
  { intros k' Hk'. rewrite Hm1, decide_False by congruence. apply Hm. by right. }
  { done. }
  exists m'. split; [done|]. intros k'. rewrite Hm', Hm1.
  repeat case_decide; subst; try done; try (by rewrite elem_of_cons in *; naive_solver).
Qed.

Lemma encode_pieces_safe (v : Values) : Forall (fun p => Contains p "&" = false) (encode_pieces v).
Proof.
  apply List.Forall_forall. intros p (k & _ & (x & <- & _)%in_map_iff)%in_flat_map.
  apply encode_pair_safe.
Qed.

(** An encoded query is made of unreserved bytes, '%', '+', '=' and '&'. *)
Definition query_byte (c : ascii) : bool :=
  unreserved c || bool_decide (c ∈ ["%"; "+"; "="; "&"]%char).

Lemma QueryEscape_bytes s : all_bytes query_byte (QueryEscape s) = true.
Proof.
  induction s as [|c s IH]; [done|]. cbn [QueryEscape]. rewrite all_bytes_app, IH.
  destruct c as [[] [] [] [] [] [] [] []]; reflexivity.
Qed.

Lemma Encode_bytes (v : Values) : all_bytes query_byte (Encode v) = true.
Proof.
  apply all_bytes_Join; [done|]. apply List.Forall_forall.
  intros p (k & _ & (x & <- & _)%in_map_iff)%in_flat_map.
  unfold encode_pair. by rewrite !all_bytes_app, !QueryEscape_bytes.
Qed.

(** Encoding and parsing a query gives the values back.  A key with no value
    leaves no trace in an encoded query. *)
Lemma ParseQuery_Encode (v : Values) :
  (forall k, v !! k <> Some []) -> ParseQuery (Encode v) = (v, None).
Proof.
  intros Hv. unfold ParseQuery, Encode.
  destruct (fold_encode_keys v (sorted_keys v) ∅ None)
    as (m' & Hf & Hm'); [apply NoDup_sorted_keys|done|done|].
  assert (m' = v) as ->.
  { apply map_eq. intros k. rewrite Hm'. case_decide as Hk; [done|].
    rewrite elem_of_sorted_keys, <-eq_None_not_Some in Hk. by rewrite Hk. }
  destruct (encode_pieces v) as [|p ps] eqn:E.
  - unfold encode_pieces in E. rewrite E in Hf. cbn in *. by simplify_eq.
  - rewrite <-E, Split_Join; [done|by rewrite E|apply encode_pieces_safe].
Qed.

(** Deleting a key from a query and encoding the rest leaves every other
    parameter as it was. *)
Lemma ParseQuery_Encode_Del (q k : string) :
  let v := (ParseQuery q).1 in
  (forall k', v !! k' <> Some []) ->
  ParseQuery (Encode (Del v k)) = (delete k v, None).
Proof.
  intros v Hv. apply ParseQuery_Encode. intros k'. unfold Del.
  rewrite lookup_delete. case_decide; [done|]. apply Hv.
Qed.

(** [ParseQuery] never yields a key without a value. *)
Lemma ParseQuery_no_empty q k : (ParseQuery q).1 !! k <> Some [].
Proof.
  unfold ParseQuery.
  assert (H0 : forall k, (∅ : Values) !! k <> Some []) by done.
  revert H0. generalize (∅ : Values) (@None error).
  induction (Split q "&") as [|p ps IH]; intros m err Hm; [apply Hm|].
  cbn [fold_left]. destruct (parse_pair (m, err) p) as [m1 err1] eqn:E.
  apply IH. unfold parse_pair in E.
  destruct (Contains p ";"); simplify_eq/=; [done|].
  destruct (decide (p = "")); simplify_eq/=; [done|].
  destruct (cut_eq p) as [key value].
  destruct (unescape key) as [key'|]; simplify_eq/=; [|done].
  destruct (unescape value) as [value'|]; simplify_eq/=; [|done].
  intros k'. unfold add. rewrite lookup_insert. case_decide; [|apply Hm].
  by destruct (default [] (m !! key')).
Qed.
End url.

(** Documented behaviour of [net/url]: [RawQuery] is a field of the URL, and
    printing a parsed URL with another encoded query gives a URL that parses to
    that query and the same host. *)
Class NetURLLaws `{NetURL} := {
  url_RawQuery_set q u : url_RawQuery (url_set_RawQuery q u) = q;
  url_Parse_String s u v :
    url_Parse s = Ok u ->
    exists u', url_Parse (url_String (url_set_RawQuery (url.Encode v) u)) = Ok u' /\
      url_RawQuery u' = url.Encode v /\ url_Host u' = url_Host u
}.

(** ** A splitter for evaluating the model

    Cuts off the fragment at the first '#' and the query at the first '?'; the
    host is what stands between "//" and the next '/', less the user
    information.  Percent-encoding and the validation of ports are left out. *)
Module SplitURL.

Record t := { pre : string; query : string; fragment : option string }.

Definition cut (s : string) (sep : ascii) : string * option string :=
  match SplitN2 s sep with [a; b] => (a, Some b) | _ => (s, None) end.

Definition control (c : ascii) : bool :=
  let n := N_of_ascii c in ((n <? 32) || (n =? 127))%N.
Fixpoint has_control (s : string) : bool :=
  match s with EmptyString => false | String c s' => control c || has_control s' end.

Definition Parse (s : string) : result t :=
  if has_control s then Err (LibError "url.Parse" s "invalid control character in URL")
  else
    let '(u, frag) := cut s "#" in
    let '(p, q) := cut u "?" in
    if HasPrefix p ":" then Err (LibError "url.Parse" s "missing protocol scheme")
    else Ok {| pre := p; query := default "" q; fragment := frag |}.

(** What follows the first "//". *)
Fixpoint after_slashes (s : string) : option string :=
  match s with
  | EmptyString => None
  | String c s' => match strip_prefix "//" s with Some r => Some r | None => after_slashes s' end
  end.

Definition Host (u : t) : string :=
  match after_slashes (pre u) with
  | Some r => List.last (Split (fst (cut r "/")) "@") ""
  | None => ""
  end.
Definition Hostname (u : t) : string := fst (cut (Host u) ":").
Definition Port (u : t) : string := default "" (snd (cut (Host u) ":")).
Definition set_RawQuery (q : string) (u : t) : t :=
  {| pre := pre u; query := q; fragment := fragment u |}.
Definition to_String (u : t) : string :=
  pre u +:+ (if decide (query u = "") then "" else "?" +:+ query u)
    +:+ match fragment u with Some f => "#" +:+ f | None => "" end.

#[export] Instance splitter : NetURL :=
  {| URL := t; url_Parse := Parse; url_Host := Host; url_Hostname := Hostname; url_Port := Port;
     url_RawQuery := query; url_set_RawQuery := set_RawQuery; url_String := to_String |}.

Lemma has_control_app a b : has_control (a +:+ b) = has_control a || has_control b.
Proof.
  induction a as [|c a IH]; [done|]. rewrite append_cons. cbn. by rewrite IH, orb_assoc.
Qed.

Lemma cut_none s sep : Contains s sep = false -> cut s sep = (s, None).
Proof. intros H. unfold cut. by rewrite SplitN2_no_sep. Qed.

Lemma cut_app a s sep : Contains a sep = false -> cut (a +:+ String sep s) sep = (a, Some s).
Proof. intros H. unfold cut. by rewrite SplitN2_cut. Qed.

Lemma cut_spec s sep a o :
  cut s sep = (a, o) ->
  Contains a sep = false /\ s = a +:+ match o with Some b => String sep b | None => "" end.
Proof.
  unfold cut. pose proof (SplitN2_spec s sep) as Hs.
  destruct (SplitN2 s sep) as [|x [|y [|z l]]] eqn:E; intros [= <- <-];
    rewrite ?append_nil_r; naive_solver.
Qed.

Lemma query_no_control s : all_bytes url.query_byte s = true -> has_control s = false.
Proof.
  induction s as [|c s IH]; [done|]. cbn. intros [Hc Hs]%andb_true_iff.
  rewrite (IH Hs), orb_false_r. revert Hc.
  destruct c as [[] [] [] [] [] [] [] []]; reflexivity || discriminate.
Qed.

(** The parts of a parsed URL. *)
Lemma Parse_parts s u :
  Parse s = Ok u ->
  Contains (pre u) "#" = false /\ Contains (pre u) "?" = false /\
  has_control (pre u) = false /\ HasPrefix (pre u) ":" = false /\
  has_control (default "" (fragment u)) = false.
Proof.
  unfold Parse. destruct (has_control s) eqn:Hc; [done|].
  destruct (cut s "#") as [u0 frag] eqn:E1, (cut u0 "?") as [p q] eqn:E2.
  destruct (HasPrefix p ":") eqn:Hp; intros [= <-]; cbn.
  apply cut_spec in E1 as [H1 ->], E2 as [H2 ->].
  rewrite !has_control_app in Hc. rewrite Contains_app in H1.
  apply orb_false_iff in Hc as [[? ?]%orb_false_iff Hf]. apply orb_false_iff in H1 as [? ?].
  split_and!; try done. by destruct frag; cbn in Hf.
Qed.

#[export] Instance splitter_laws : NetURLLaws.
Proof.
  split; [done|]. intros s u v Hu. apply Parse_parts in Hu as (H1 & H2 & H3 & H4 & H5).
  pose proof (url.Encode_bytes v) as Hq. set (q := url.Encode v) in *. clearbody q.
  exists (set_RawQuery q u). split; [|by split].
  cbn. unfold to_String, Parse. cbn [pre query fragment set_RawQuery].
  set (qs := if decide (q = "") then "" else "?" +:+ q).
  assert (Hqs : has_control qs = false /\ Contains qs "#" = false).
  { clear -Hq. unfold qs. destruct (decide _); [done|].
    split; [exact (query_no_control q Hq)|].
    apply (all_bytes_Contains url.query_byte q "#"); done. }
  destruct Hqs as [Hqs1 Hqs2].
  assert (has_control match fragment u with Some f => "#" +:+ f | None => "" end = false) as Hf
    by (destruct (fragment u); done).
  rewrite !has_control_app, H3, Hqs1, Hf. cbn [orb].
  assert (cut (pre u +:+ qs +:+ match fragment u with Some f => "#" +:+ f | None => "" end) "#"
          = (pre u +:+ qs, fragment u)) as ->.
  { rewrite <-append_assoc. assert (Contains (pre u +:+ qs) "#" = false)
      by (by rewrite Contains_app, H1, Hqs2).
    destruct (fragment u); [by apply cut_app|]. rewrite append_nil_r. by apply cut_none. }
  assert (cut (pre u +:+ qs) "?" = (pre u, if decide (q = "") then None else Some q)) as ->.
  { unfold qs. destruct (decide _); [rewrite append_nil_r; by apply cut_none|by apply cut_app]. }
  rewrite H4. unfold set_RawQuery. by destruct (decide (q = "")) as [->|].
Qed.
End SplitURL.
