(* ===== verification/Types.v ===== *)
(** * Data model: the CRDs of [pkg/crd/osm/v1alpha1] and the Kubernetes
    objects the controllers read and write.

    Go string types stay [string] (any value can arrive from the API server);
    the constants of the source are definitions.  A Go pointer is an [option].
    A Go map is a [gmap]; where the code or an encoding tells a nil map from an
    empty one it is an [option] of a [gmap].  Types of the machine-controller
    SDK and of the Kubernetes API carry the fields the program uses. *)

From S2P Require Import Prelude GoStrings.

(** ** [common_types.go] *)

Abbreviation OperatingSystem := string.
Definition OperatingSystemFlatcar : OperatingSystem := "flatcar".
Definition OperatingSystemRHEL : OperatingSystem := "rhel".
Definition OperatingSystemUbuntu : OperatingSystem := "ubuntu".
Definition OperatingSystemAmazonLinux2 : OperatingSystem := "amzn2".
Definition OperatingSystemRockyLinux : OperatingSystem := "rockylinux".

Abbreviation CloudProvider := string.
Definition CloudProviderAlibaba : CloudProvider := "alibaba".
Definition CloudProviderAnexia : CloudProvider := "anexia".
Definition CloudProviderAWS : CloudProvider := "aws".
Definition CloudProviderAzure : CloudProvider := "azure".
Definition CloudProviderBaremetal : CloudProvider := "baremetal".
Definition CloudProviderDigitalocean : CloudProvider := "digitalocean".
Definition CloudProviderEdge : CloudProvider := "edge".
Definition CloudProviderExternal : CloudProvider := "external".
Definition CloudProviderFake : CloudProvider := "fake".
Definition CloudProviderGoogle : CloudProvider := "gce".
Definition CloudProviderHetzner : CloudProvider := "hetzner".
Definition CloudProviderKubeVirt : CloudProvider := "kubevirt".
Definition CloudProviderLinode : CloudProvider := "linode".
Definition CloudProviderNutanix : CloudProvider := "nutanix".
Definition CloudProviderOpenNebula : CloudProvider := "opennebula".
Definition CloudProviderOpenstack : CloudProvider := "openstack".
Definition CloudProviderScaleway : CloudProvider := "scaleway".
Definition CloudProviderVMwareCloudDirector : CloudProvider := "vmware-cloud-director".
Definition CloudProviderVsphere : CloudProvider := "vsphere".

Abbreviation ContainerRuntime := string.
Definition ContainerRuntimeDocker : ContainerRuntime := "docker".
Definition ContainerRuntimeContainerd : ContainerRuntime := "containerd".

Abbreviation ProvisioningUtility := string.
Definition ProvisioningUtilityCloudInit : ProvisioningUtility := "cloud-init".
Definition ProvisioningUtilityIgnition : ProvisioningUtility := "ignition".

(** [runtime.RawExtension]: [Raw] is nil or bytes. *)
Record RawExtension := { Raw : option string }.

Record CloudProviderSpec := {
  CloudProviderSpec_Name : CloudProvider;
  CloudProviderSpec_Spec : RawExtension
}.

Record DropIn := { DropIn_Name : string; DropIn_Content : string }.

Record Unit := {
  Unit_Name : string;
  Unit_Enable : option bool;
  Unit_Mask : option bool;
  Unit_Content : option string;
  Unit_DropIns : list DropIn
}.

Record FileContentInline := { Inline_Encoding : string; Inline_Data : string }.
Record FileContent := { Inline : option FileContentInline }.

(** [Permissions] is an [int32]. *)
Record File := {
  File_Path : string;
  File_Permissions : Z;
  File_Content : FileContent
}.

Record ContainerRuntimeSpec := {
  ContainerRuntimeSpec_Name : ContainerRuntime;
  ContainerRuntimeSpec_Files : list File;
  ContainerRuntimeSpec_Templates : gmap string string
}.

Record CloudInitModule := {
  BootCMD : list string;
  RHSubscription : gmap string string;
  RunCMD : list string;
  YumRepos : gmap string (gmap string string);
  YumRepoDir : string
}.
Definition empty_CloudInitModule : CloudInitModule :=
  {| BootCMD := []; RHSubscription := ∅; RunCMD := []; YumRepos := ∅; YumRepoDir := "" |}.

(** ** Object metadata *)

Record NamespacedName := { NN_Namespace : string; NN_Name : string }.

(** [DeletionTimestamp] is nil or a time; the annotations map is nil or a map. *)
Record ObjectMeta := {
  Name : string;
  Namespace : string;
  Annotations : option (gmap string string);
  Labels : gmap string string;
  Finalizers : list string;
  DeletionTimestamp : option Z
}.
Definition object_meta (name namespace : string) : ObjectMeta :=
  {| Name := name; Namespace := namespace; Annotations := None; Labels := ∅;
     Finalizers := []; DeletionTimestamp := None |}.
Definition key_of (m : ObjectMeta) : NamespacedName :=
  {| NN_Namespace := Namespace m; NN_Name := Name m |}.
Definition with_annotations (a : option (gmap string string)) (m : ObjectMeta) : ObjectMeta :=
  {| Name := Name m; Namespace := Namespace m; Annotations := a; Labels := Labels m;
     Finalizers := Finalizers m; DeletionTimestamp := DeletionTimestamp m |}.
Definition with_finalizers (l : list string) (m : ObjectMeta) : ObjectMeta :=
  {| Name := Name m; Namespace := Namespace m; Annotations := Annotations m; Labels := Labels m;
     Finalizers := l; DeletionTimestamp := DeletionTimestamp m |}.

(** Reading a Go map: the zero value when the key, or the map, is missing. *)
Definition map_get (m : option (gmap string string)) (k : string) : string :=
  default "" (m ≫= lookup k).

(** ** [operatingsystemprofile_types.go] *)

Record OSPConfig := {
  SupportedContainerRuntimes : list ContainerRuntimeSpec;
  OSPConfig_Templates : gmap string string;
  OSPConfig_Units : list Unit;
  OSPConfig_Files : list File;
  OSPConfig_CloudInitModules : option CloudInitModule
}.

Record OperatingSystemProfileSpec := {
  OSP_OSName : OperatingSystem;
  OSP_OSVersion : string;
  OSP_Version : string;
  SupportedCloudProviders : list CloudProviderSpec;
  OSP_BootstrapConfig : OSPConfig;
  OSP_ProvisioningConfig : OSPConfig;
  OSP_ProvisioningUtility : ProvisioningUtility
}.

Record OperatingSystemProfile := {
  OSP_Meta : ObjectMeta;
  OSP_Spec : OperatingSystemProfileSpec
}.

(** ** [operatingsystemconfig_types.go] *)

Record OSCConfig := {
  OSCConfig_Units : list Unit;
  OSCConfig_Files : list File;
  UserSSHKeys : list string;
  OSCConfig_CloudInitModules : option CloudInitModule
}.

Record OperatingSystemConfigSpec := {
  OSC_OSName : OperatingSystem;
  OSC_OSVersion : string;
  OSC_CloudProvider : CloudProviderSpec;
  OSC_BootstrapConfig : OSCConfig;
  OSC_ProvisioningConfig : OSCConfig;
  OSC_ProvisioningUtility : ProvisioningUtility
}.

Record OperatingSystemConfig := {
  OSC_Meta : ObjectMeta;
  OSC_Spec : OperatingSystemConfigSpec
}.

(** ** Kubernetes objects *)

(** Secret data: reads do not tell a nil map from an empty one, and neither
    does the API, so [Data] is a map. *)
Record Secret := {
  Secret_Meta : ObjectMeta;
  Secret_Type : string;
  Secret_Immutable : option bool;
  Secret_Data : gmap string string
}.
Definition zero_Secret : Secret :=
  {| Secret_Meta := object_meta "" ""; Secret_Type := ""; Secret_Immutable := None;
     Secret_Data := ∅ |}.

Record ConfigMap := { ConfigMap_Meta : ObjectMeta; ConfigMap_Data : gmap string string }.

(** [Secrets] of a ServiceAccount: the names of the referenced secrets. *)
Record ServiceAccount := { SA_Meta : ObjectMeta; SA_Secrets : list string }.

Record EndpointPort := { EndpointPort_Name : option string; EndpointPort_Port : option Z }.
Record Endpoint := { Endpoint_Ready : option bool; Endpoint_Addresses : list string }.
Record EndpointSlice := {
  Slice_Ports : list EndpointPort;
  Slice_Endpoints : list Endpoint
}.

(** [clientcmdapi.Config] *)
Record Cluster := { Server : string; CertificateAuthorityData : string }.
Record AuthInfo := { AuthInfo_Token : string }.
Record KContext := { Context_Cluster : string; Context_AuthInfo : string }.
Record Kubeconfig := {
  Kind : string;
  APIVersion : string;
  Clusters : gmap string (option Cluster);
  AuthInfos : gmap string AuthInfo;
  Contexts : gmap string KContext;
  CurrentContext : string
}.

(** ** Machine deployments (machine-controller SDK)

    [ProviderSpec.Value] is a pointer to a [RawExtension]. *)
Record MachineDeployment := {
  MD_Meta : ObjectMeta;
  MD_ProviderSpec_Value : option RawExtension;
  MD_Versions_Kubelet : string
}.
Definition MD_Name (md : MachineDeployment) : string := Name (MD_Meta md).
Definition MD_Namespace (md : MachineDeployment) : string := Namespace (MD_Meta md).
Definition MD_Annotations (md : MachineDeployment) : option (gmap string string) :=
  Annotations (MD_Meta md).
Definition with_MD_Meta (m : ObjectMeta) (md : MachineDeployment) : MachineDeployment :=
  {| MD_Meta := m; MD_ProviderSpec_Value := MD_ProviderSpec_Value md;
     MD_Versions_Kubelet := MD_Versions_Kubelet md |}.

(** ** Decidable equality: [apiequality.Semantic.DeepEqual] is decided on these *)

#[export] Instance RawExtension_eq_dec : EqDecision RawExtension.
Proof. solve_decision. Defined.
#[export] Instance CloudProviderSpec_eq_dec : EqDecision CloudProviderSpec.
Proof. solve_decision. Defined.
#[export] Instance DropIn_eq_dec : EqDecision DropIn.
Proof. solve_decision. Defined.
#[export] Instance Unit_eq_dec : EqDecision Unit.
Proof. solve_decision. Defined.
#[export] Instance FileContentInline_eq_dec : EqDecision FileContentInline.
Proof. solve_decision. Defined.
#[export] Instance FileContent_eq_dec : EqDecision FileContent.
Proof. solve_decision. Defined.
#[export] Instance File_eq_dec : EqDecision File.
Proof. solve_decision. Defined.
#[export] Instance ContainerRuntimeSpec_eq_dec : EqDecision ContainerRuntimeSpec.
Proof. solve_decision. Defined.
#[export] Instance CloudInitModule_eq_dec : EqDecision CloudInitModule.
Proof. solve_decision. Defined.
#[export] Instance OSPConfig_eq_dec : EqDecision OSPConfig.
Proof. solve_decision. Defined.
#[export] Instance OperatingSystemProfileSpec_eq_dec : EqDecision OperatingSystemProfileSpec.
Proof. solve_decision. Defined.
#[export] Instance OSCConfig_eq_dec : EqDecision OSCConfig.
Proof. solve_decision. Defined.
#[export] Instance OperatingSystemConfigSpec_eq_dec : EqDecision OperatingSystemConfigSpec.
Proof. solve_decision. Defined.
#[export] Instance ObjectMeta_eq_dec : EqDecision ObjectMeta.
Proof. solve_decision. Defined.
#[export] Instance NamespacedName_eq_dec : EqDecision NamespacedName.
Proof. solve_decision. Defined.
#[export] Instance Secret_eq_dec : EqDecision Secret.
Proof. solve_decision. Defined.
#[export] Instance ConfigMap_eq_dec : EqDecision ConfigMap.
Proof. solve_decision. Defined.
#[export] Instance ServiceAccount_eq_dec : EqDecision ServiceAccount.
Proof. solve_decision. Defined.
#[export] Instance OperatingSystemConfig_eq_dec : EqDecision OperatingSystemConfig.
Proof. solve_decision. Defined.
#[export] Instance OperatingSystemProfile_eq_dec : EqDecision OperatingSystemProfile.
Proof. solve_decision. Defined.
#[export] Instance MachineDeployment_eq_dec : EqDecision MachineDeployment.
Proof. solve_decision. Defined.

#[export] Program Instance NamespacedName_countable : Countable NamespacedName :=
  inj_countable' (fun k => (NN_Namespace k, NN_Name k))
    (fun p => {| NN_Namespace := p.1; NN_Name := p.2 |}) _.
Next Obligation. by intros []. Qed.
