(* ===== verification/Api.v ===== *)
(** * The calls the controllers make

    [ApiE] is every effect of the program: calls of a controller-runtime client
    to an API server, events of the recorder, the clock, the random source, and
    the one field of the reconciler that is written after start-up.  The servers
    are not modelled: a trace may hold any answer, and [ApiServer] states the
    documented behaviour of a server as laws on a handler for the theorems that
    need one.  [MemStore] is a server that satisfies them. *)

From S2P Require Import Prelude GoStrings Types Effects.

(** [Reconciler.Client] and [Reconciler.workerClient]: one or two clusters. *)
Inductive client := ControlClient | WorkerClient.

Inductive kind :=
| KMachineDeployment
| KOperatingSystemProfile
| KOperatingSystemConfig
| KSecret
| KConfigMap
| KServiceAccount.

#[export] Instance client_eq_dec : EqDecision client.
Proof. solve_decision. Defined.
#[export] Instance kind_eq_dec : EqDecision kind.
Proof. solve_decision. Defined.

Definition obj (k : kind) : Type :=
  match k with
  | KMachineDeployment => MachineDeployment
  | KOperatingSystemProfile => OperatingSystemProfile
  | KOperatingSystemConfig => OperatingSystemConfig
  | KSecret => Secret
  | KConfigMap => ConfigMap
  | KServiceAccount => ServiceAccount
  end.

#[export] Instance obj_eq_dec k : EqDecision (obj k).
Proof. destruct k; apply _. Defined.

Definition meta_of {k} : obj k -> ObjectMeta :=
  match k return obj k -> ObjectMeta with
  | KMachineDeployment => MD_Meta
  | KOperatingSystemProfile => OSP_Meta
  | KOperatingSystemConfig => OSC_Meta
  | KSecret => Secret_Meta
  | KConfigMap => ConfigMap_Meta
  | KServiceAccount => SA_Meta
  end.

(** [o.SetX(...)] of the metadata accessors. *)
Definition map_meta {k} (f : ObjectMeta -> ObjectMeta) : obj k -> obj k :=
  match k return obj k -> obj k with
  | KMachineDeployment => fun o => with_MD_Meta (f (MD_Meta o)) o
  | KOperatingSystemProfile => fun o => {| OSP_Meta := f (OSP_Meta o); OSP_Spec := OSP_Spec o |}
  | KOperatingSystemConfig => fun o => {| OSC_Meta := f (OSC_Meta o); OSC_Spec := OSC_Spec o |}
  | KSecret => fun o => {| Secret_Meta := f (Secret_Meta o); Secret_Type := Secret_Type o;
                           Secret_Immutable := Secret_Immutable o; Secret_Data := Secret_Data o |}
  | KConfigMap => fun o => {| ConfigMap_Meta := f (ConfigMap_Meta o); ConfigMap_Data := ConfigMap_Data o |}
  | KServiceAccount => fun o => {| SA_Meta := f (SA_Meta o); SA_Secrets := SA_Secrets o |}
  end.

(** The object a client call is about. *)
Record ref := { ref_client : client; ref_kind : kind; ref_key : NamespacedName }.

#[export] Instance ref_eq_dec : EqDecision ref.
Proof. solve_decision. Defined.

(** [R] is the type of the reconciler's mutable field. *)
Inductive ApiE (R : Type) : Type -> Type :=
| Get (c : client) (k : kind) (n : NamespacedName) : ApiE R (result (obj k))
| Create (c : client) (k : kind) (o : obj k) : ApiE R (result unit)
| Update (c : client) (k : kind) (o : obj k) : ApiE R (result (obj k))
| Delete (c : client) (k : kind) (n : NamespacedName) : ApiE R (result unit)
| ListSecrets (c : client) (namespace label value : string) : ApiE R (result (list Secret))
| ListEndpointSlices (c : client) (namespace label value : string) : ApiE R (result (list EndpointSlice))
| RecordEvent (o : NamespacedName) (eventtype reason : string) (e : error) : ApiE R unit
| Now : ApiE R Z
| RandString (n : nat) : ApiE R string
| LoadField : ApiE R R
| StoreField (r : R) : ApiE R unit.
Arguments Get {R} c k n.
Arguments Create {R} c k o.
Arguments Update {R} c k o.
Arguments Delete {R} c k n.
Arguments ListSecrets {R} c namespace label value.
Arguments ListEndpointSlices {R} c namespace label value.
Arguments RecordEvent {R} o eventtype reason e.
Arguments Now {R}.
Arguments RandString {R} n.
Arguments LoadField {R}.
Arguments StoreField {R} r.

(** ** What a call writes *)

Inductive write :=
| WCreate (r : ref)
| WUpdate (r : ref)
| WDelete (r : ref).

#[export] Instance write_eq_dec : EqDecision write.
Proof. solve_decision. Defined.

Definition ref_of (c : client) (k : kind) (o : obj k) : ref :=
  {| ref_client := c; ref_kind := k; ref_key := key_of (meta_of o) |}.

Definition writes {R X} (e : ApiE R X) : option write :=
  match e with
  | Create c k o => Some (WCreate (ref_of c k o))
  | Update c k o => Some (WUpdate (ref_of c k o))
  | Delete c k n => Some (WDelete {| ref_client := c; ref_kind := k; ref_key := n |})
  | _ => None
  end.

(** The call is in the set [P] of permitted writes, or writes nothing. *)
Definition only_writes (P : write -> Prop) {R} (X : Type) (e : ApiE R X) : Prop :=
  match writes e with Some w => P w | None => True end.

Definition obs_writes {R} (o : obs (ApiE R)) : option write :=
  match o with Obs e _ => writes e end.

Lemma only_writes_mono (P P' : write -> Prop) {R} (X : Type) (e : ApiE R X) :
  (forall w, P w -> P' w) -> only_writes P X e -> only_writes P' X e.
Proof. unfold only_writes. destruct (writes e); auto. Qed.

(** The calls of a trace that write. *)
Definition is_write {R} (o : obs (ApiE R)) : Prop := is_Some (obs_writes o).
#[export] Instance is_write_dec {R} (o : obs (ApiE R)) : Decision (is_write o).
Proof. unfold is_write. apply _. Defined.

(** A delete of [r] that the server answered with success or not-found. *)
Definition deleted {R} (r : ref) (o : obs (ApiE R)) : Prop :=
  match o with
  | @Obs _ X e a =>
      match e in ApiE _ X return X -> Prop with
      | Delete c k n => fun a =>
          {| ref_client := c; ref_kind := k; ref_key := n |} = r /\
          match a with Ok _ => True | Err e => IsNotFound e = true | Panic _ => False end
      | _ => fun _ => False
      end a
  end.

(** ** Answers *)

(** Every answer of a read is what was asked for, and an update returns the
    object that was written. *)
Definition honest {R : Type} (X : Type) (e : ApiE R X) : X -> Prop :=
  match e in ApiE _ X return X -> Prop with
  | Get c k n => on_ok (fun o => key_of (meta_of o) = n)
  | Update c k o => on_ok (fun o' => key_of (meta_of o') = key_of (meta_of o))
  | ListSecrets c namespace label value => on_ok (Forall (fun s => Namespace (Secret_Meta s) = namespace))
  | _ => fun _ => True
  end.

Definition honest_obs {R} (o : obs (ApiE R)) : Prop := match o with Obs e x => honest _ e x end.

(** ** Servers *)

Definition write_ref (w : write) : ref :=
  match w with WCreate r | WUpdate r | WDelete r => r end.

(** A server answers the calls and keeps the objects of one or two clusters:
    the clients may point at the same one. *)
Class ApiServer (R S : Type) := {
  cluster_of : client -> bool;
  handle : forall X, ApiE R X -> S -> X * S;
  stored : S -> bool -> forall k, NamespacedName -> option (obj k)
}.

Definition touches {R S : Type} `{ApiServer R S} (cl : bool) (k : kind) (n : NamespacedName) (w : write) : Prop :=
  cluster_of (ref_client (write_ref w)) = cl /\ ref_kind (write_ref w) = k /\ ref_key (write_ref w) = n.

(** The documented behaviour of the API, for reads that are not stale: what is
    stored is what [Get] returns; a creation that succeeds has stored what it was
    given, unless a mutating webhook may rewrite it, which is the case for
    machine deployments; no call changes an object it does not name.  A server
    may refuse a write for reasons of its own. *)
Class ApiServerLaws (R S : Type) `{ApiServer R S} := {
  Get_ok s c k n o s' : handle _ (Get c k n) s = (Ok o, s') -> stored s (cluster_of c) k n = Some o;
  Get_err s c k n e s' : handle _ (Get c k n) s = (Err e, s') -> IsNotFound e = true ->
    stored s (cluster_of c) k n = None;
  Get_stored s c k n o : stored s (cluster_of c) k n = Some o -> (handle _ (Get c k n) s).1 = Ok o;
  Create_ok s c k o s' : k <> KMachineDeployment -> handle _ (Create c k o) s = (Ok tt, s') ->
    stored s (cluster_of c) k (key_of (meta_of o)) = None /\
    stored s' (cluster_of c) k (key_of (meta_of o)) = Some o;
  Delete_ok s c k n s' : handle _ (Delete c k n) s = (Ok tt, s') ->
    (forall o, stored s (cluster_of c) k n = Some o -> Finalizers (meta_of o) = []) ->
    stored s' (cluster_of c) k n = None;
  Delete_err s c k n e s' : handle _ (Delete c k n) s = (Err e, s') -> IsNotFound e = true ->
    stored s' (cluster_of c) k n = None;
  handle_frame X (e : ApiE R X) s cl k n :
    (forall w, writes e = Some w -> ~ touches cl k n w) ->
    stored (handle _ e s).2 cl k n = stored s cl k n
}.

(** In a [valid] state every object is stored under its name, so the answers
    are honest. *)
Class NamedServer (R S : Type) `{ApiServer R S} := {
  valid : S -> Prop;
  valid_step X (e : ApiE R X) s : valid s -> valid (handle _ e s).2;
  valid_answer X (e : ApiE R X) s : valid s -> honest _ e (handle _ e s).1
}.

(** What a write can do to the object it names, whether it is acknowledged or
    not: an update stores the finalizers it was given, unless none is left and
    the object goes; a deletion removes the object or marks it. *)
Class DeletionLaws (R S : Type) `{ApiServer R S} := {
  Update_effect s c k o a s' : handle _ (Update c k o) s = (a, s') ->
    (is_ok a = false /\
     stored s' (cluster_of c) k (key_of (meta_of o)) = stored s (cluster_of c) k (key_of (meta_of o))) \/
    (exists o', stored s' (cluster_of c) k (key_of (meta_of o)) = Some o' /\
       Finalizers (meta_of o') = Finalizers (meta_of o)) \/
    (Finalizers (meta_of o) = [] /\ stored s' (cluster_of c) k (key_of (meta_of o)) = None);
  Delete_effect s c k n a s' : handle _ (Delete c k n) s = (a, s') ->
    (is_ok a = false /\ stored s' (cluster_of c) k n = stored s (cluster_of c) k n) \/
    (forall o, stored s' (cluster_of c) k n = Some o -> DeletionTimestamp (meta_of o) <> None)
}.

(** The objects are the same but for their metadata. *)
Definition same_content {k} (o o' : obj k) : Prop := map_meta (fun _ => meta_of o') o = o'.

(** What an object holds besides its metadata changes by updates only, and is
    what the update that stored it gave; an update that succeeds has stored it. *)
Class ContentLaws (R S : Type) `{ApiServer R S} := {
  Create_content s c k o a s' old : handle _ (Create c k o) s = (a, s') ->
    stored s (cluster_of c) k (key_of (meta_of o)) = Some old ->
    stored s' (cluster_of c) k (key_of (meta_of o)) = Some old;
  Update_content s c k o a s' new : handle _ (Update c k o) s = (a, s') ->
    stored s' (cluster_of c) k (key_of (meta_of o)) = Some new ->
    (is_ok a = false /\ stored s (cluster_of c) k (key_of (meta_of o)) = Some new) \/ same_content o new;
  Delete_content s c k n a s' new : handle _ (Delete c k n) s = (a, s') ->
    stored s' (cluster_of c) k n = Some new ->
    exists old, stored s (cluster_of c) k n = Some old /\ same_content old new
}.

Lemma same_content_refl {k} (o : obj k) : same_content o o.
Proof. by destruct k, o. Qed.
Lemma same_content_osp (o o' : OperatingSystemProfile) :
  same_content (k := KOperatingSystemProfile) o o' -> OSP_Spec o = OSP_Spec o'.
Proof. by intros <-. Qed.
Lemma same_content_osc (o o' : OperatingSystemConfig) :
  same_content (k := KOperatingSystemConfig) o o' -> OSC_Spec o = OSC_Spec o'.
Proof. by intros <-. Qed.

Section Servers.
Context {R S : Type} `{ApiServerLaws R S}.

Lemma handle_stored X (e : ApiE R X) s x s' cl k n :
  handle _ e s = (x, s') -> (forall w, writes e = Some w -> ~ touches cl k n w) ->
  stored s' cl k n = stored s cl k n.
Proof. intros He Hw. by rewrite <- (handle_frame X e s cl k n Hw), He. Qed.

Lemma Get_found s c k n o got s' :
  stored s (cluster_of c) k n = Some o -> handle _ (Get c k n) s = (got, s') -> got = Ok o.
Proof. intros Ho Hg. pose proof (Get_stored s c k n o Ho) as Hf. by rewrite Hg in Hf. Qed.

Lemma Get_frame s c k n got s' :
  handle _ (Get c k n) s = (got, s') -> forall cl k' n', stored s' cl k' n' = stored s cl k' n'.
Proof. intros Hg cl k' n'. by apply (handle_stored _ (Get c k n) s got s' cl k' n' Hg). Qed.

Lemma honest_answer `{!NamedServer R S} X (e : ApiE R X) s x s' :
  valid s -> handle _ e s = (x, s') -> honest X e x /\ valid s'.
Proof.
  intros Hs He. pose proof (valid_answer X e s Hs) as Ha. pose proof (valid_step X e s Hs) as Hv.
  by rewrite He in Ha, Hv.
Qed.

(** A program all of whose writes are elsewhere leaves an object alone. *)
Lemma interp_stored {A} (P : write -> Prop) cl k n (m : prog (ApiE R) A) s :
  all_calls (only_writes P) m -> (forall w, P w -> ~ touches cl k n w) ->
  stored (interp handle m s).2 cl k n = stored s cl k n.
Proof.
  intros Hm HP. apply (interp_frame handle (fun s => stored s cl k n) (only_writes P)); [|done].
  intros X e s' He. apply handle_frame. intros w Hw. apply HP. unfold only_writes in He. by rewrite Hw in He.
Qed.

(** The same for the writes a program makes on honest answers. *)
Lemma interp_stored_honest `{!NamedServer R S} {A} (P : write -> Prop) cl k n (m : prog (ApiE R) A) s :
  valid s -> calls_when honest (only_writes P) m -> (forall w, P w -> ~ touches cl k n w) ->
  stored (interp handle m s).2 cl k n = stored s cl k n.
Proof.
  intros Hs Hm HP.
  apply (interp_frame_when handle (fun s => stored s cl k n) valid honest (only_writes P)); [..|done|done].
  - intros X e s' Hs'. split; [by apply valid_step|by apply valid_answer].
  - intros X e s' He. apply handle_frame. intros w Hw. apply HP. unfold only_writes in He. by rewrite Hw in He.
Qed.

Lemma trace_honest `{!NamedServer R S} {A} (m : prog (ApiE R) A) s :
  valid s -> Forall honest_obs (trace handle m s).
Proof.
  apply (trace_answers handle valid (fun X (e : ApiE R X) => honest X e)).
  intros X e s' Hs'. split; [by apply valid_step|by apply valid_answer].
Qed.

Lemma interp_valid `{!NamedServer R S} {A} (m : prog (ApiE R) A) s a s' :
  valid s -> interp handle m s = (a, s') -> valid s'.
Proof.
  intros Hs Hi. pose proof (interp_invariant handle valid m s) as Hv. rewrite Hi in Hv.
  apply Hv; [|done]. intros X e s0. apply valid_step.
Qed.
End Servers.

(** ** A server in memory *)

Module MemStore.

(** The objects of every kind, the endpoint slices of the API server, the field
    of the reconciler, the clock and the random strings to come. *)
Record store (R : Type) := {
  objects : forall k, gmap (bool * NamespacedName) (obj k);
  slices : list EndpointSlice;
  field : R;
  clock : Z;
  randoms : list string
}.
Arguments objects {R}.
Arguments slices {R}.
Arguments field {R}.
Arguments clock {R}.
Arguments randoms {R}.

Definition put {R} (cl : bool) (k : kind) (n : NamespacedName) (o : option (obj k)) (s : store R) : store R :=
  {| objects := fun k' =>
       match decide (k = k') with
       | left e => eq_rect k (fun k' => gmap (bool * NamespacedName) (obj k'))
                     (partial_alter (fun _ => o) (cl, n) (objects s k)) k' e
       | right _ => objects s k'
       end;
     slices := slices s; field := field s; clock := clock s; randoms := randoms s |}.

Definition marked {k} : obj k -> obj k :=
  map_meta (fun m => {| Name := Name m; Namespace := Namespace m; Annotations := Annotations m;
                        Labels := Labels m; Finalizers := Finalizers m; DeletionTimestamp := Some 0%Z |}).

(** Label selectors match on one label; an object with finalizers is marked. *)
Definition handler {R} (clusters : client -> bool) (X : Type) (e : ApiE R X) : store R -> X * store R :=
  match e in ApiE _ X return store R -> X * store R with
  | Get c k n => fun s =>
      (match objects s k !! (clusters c, n) with
       | Some o => Ok o
       | None => Err (StatusError ReasonNotFound (NN_Name n))
       end, s)
  | Create c k o => fun s =>
      let n := key_of (meta_of o) in
      match objects s k !! (clusters c, n) with
      | Some _ => (Err (StatusError ReasonAlreadyExists (NN_Name n)), s)
      | None => (Ok tt, put (clusters c) k n (Some o) s)
      end
  | Update c k o => fun s =>
      let n := key_of (meta_of o) in
      match objects s k !! (clusters c, n) with
      | None => (Err (StatusError ReasonNotFound (NN_Name n)), s)
      | Some _ =>
          (Ok o, put (clusters c) k n
                   (if decide (DeletionTimestamp (meta_of o) <> None /\ Finalizers (meta_of o) = [])
                    then None else Some o) s)
      end
  | Delete c k n => fun s =>
      match objects s k !! (clusters c, n) with
      | None => (Err (StatusError ReasonNotFound (NN_Name n)), s)
      | Some o => (Ok tt, put (clusters c) k n
                            (if decide (Finalizers (meta_of o) = []) then None else Some (marked o)) s)
      end
  | ListSecrets c ns label value => fun s =>
      (Ok (map snd (filter (fun p => p.1.1 = clusters c /\ NN_Namespace p.1.2 = ns /\
                                     Labels (Secret_Meta p.2) !! label = Some value)
                      (map_to_list (objects s KSecret)))), s)
  | ListEndpointSlices c ns label value => fun s => (Ok (slices s), s)
  | RecordEvent _ _ _ _ => fun s => (tt, s)
  | Now => fun s => (clock s, s)
  | RandString n => fun s =>
      (hd "" (randoms s), {| objects := objects s; slices := slices s; field := field s; clock := clock s;
                             randoms := tl (randoms s) |})
  | LoadField => fun s => (field s, s)
  | StoreField r => fun s =>
      (tt, {| objects := objects s; slices := slices s; field := r; clock := clock s; randoms := randoms s |})
  end.

(** The worker cluster is another cluster than the one the controller runs in. *)
#[export] Instance server {R} : ApiServer R (store R) :=
  {| cluster_of c := bool_decide (c = WorkerClient);
     handle := handler (fun c => bool_decide (c = WorkerClient));
     stored s cl k n := objects s k !! (cl, n) |}.

Lemma put_eq {R} cl k n o (s : store R) : objects (put cl k n o s) k !! (cl, n) = o.
Proof.
  cbn. destruct (decide (k = k)) as [e|]; [|done].
  rewrite (proof_irrel e eq_refl). cbn. by rewrite lookup_partial_alter_eq.
Qed.

Lemma put_ne {R} cl k n o (s : store R) cl' k' n' :
  ~ (cl = cl' /\ k = k' /\ n = n') -> objects (put cl k n o s) k' !! (cl', n') = objects s k' !! (cl', n').
Proof.
  intros Hne. cbn. destruct (decide (k = k')) as [<-|]; [|done]. cbn.
  rewrite lookup_partial_alter_ne; [done|]. naive_solver.
Qed.

#[export] Instance server_laws {R} : ApiServerLaws R (store R).
Proof.
  split.
  - intros s c k n o s' Hg. cbn in *. by destruct (objects s k !! _); simplify_eq.
  - intros s c k n e s' Hg _. cbn in *. by destruct (objects s k !! _); simplify_eq.
  - intros s c k n o Ho. cbn in *. by rewrite Ho.
  - intros s c k o s' _ Hc. cbn [handle server handler] in Hc. cbn [stored server cluster_of].
    destruct (objects s k !! _) eqn:E; simplify_eq. split; [done|]. apply put_eq.
  - intros s c k n s' Hd Hf. cbn [handle server handler] in Hd. cbn [stored server cluster_of] in *.
    destruct (objects s k !! _) as [o|] eqn:E; [|done].
    rewrite decide_True in Hd by auto. simplify_eq. apply put_eq.
  - intros s c k n e s' Hd _. cbn [handle server handler] in Hd. cbn [stored server cluster_of].
    by destruct (objects s k !! _) eqn:E; simplify_eq.
  - intros X e s cl k n Hw. cbn [stored server handle].
    destruct e; cbn [handler snd writes] in *; try done;
      repeat case_match; cbn [snd]; try done; apply put_ne; apply (Hw _ eq_refl).
Qed.

#[export] Instance deletion_laws {R} : DeletionLaws R (store R).
Proof.
  split.
  - intros s c k o a s' Hu. cbn [handle server handler] in Hu. cbn [stored server cluster_of].
    destruct (objects s k !! _) eqn:E; simplify_eq; [|left; by rewrite E].
    right. destruct (decide (DeletionTimestamp (meta_of o) <> None /\ _)) as [[]|]; [right|left; exists o]; by rewrite put_eq.
  - intros s c k n a s' Hd. cbn [handle server handler] in Hd. cbn [stored server cluster_of].
    destruct (objects s k !! _) as [o|] eqn:E; simplify_eq; [|left; by rewrite E].
    right. intros o'. destruct (decide (Finalizers (meta_of o) = [])); rewrite put_eq; intros Ho'; simplify_eq. by destruct k.
Qed.

#[export] Instance content_laws {R} : ContentLaws R (store R).
Proof.
  split.
  - intros s c k o a s' old Hc. cbn [handle server handler] in Hc. cbn [stored server cluster_of]. intros Ho.
    rewrite Ho in Hc. by simplify_eq.
  - intros s c k o a s' new Hu. cbn [handle server handler] in Hu. cbn [stored server cluster_of].
    destruct (objects s k !! _) eqn:E; simplify_eq; [|intros Hn; left; congruence].
    destruct (decide (DeletionTimestamp (meta_of o) <> None /\ _)); rewrite put_eq; intros Hn; simplify_eq.
    right. apply same_content_refl.
  - intros s c k n a s' new Hd. cbn [handle server handler] in Hd. cbn [stored server cluster_of].
    destruct (objects s k !! _) as [o|] eqn:E; simplify_eq; [|intros Hn; congruence].
    destruct (decide (Finalizers (meta_of o) = [])); rewrite put_eq; intros Hn; simplify_eq.
    exists o. split; [done|]. by destruct k, o.
Qed.

Definition well_named {R} (s : store R) : Prop :=
  forall k cl n o, objects s k !! (cl, n) = Some o -> key_of (meta_of o) = n.

Lemma put_well_named {R} cl k n o (s : store R) :
  well_named s -> (forall o', o = Some o' -> key_of (meta_of o') = n) -> well_named (put cl k n o s).
Proof.
  intros Hs Ho k' cl' n' o' Hl. destruct (decide ((cl, n) = (cl', n'))) as [[= <- <-]|Hne].
  - destruct (decide (k = k')) as [<-|Hk].
    + rewrite put_eq in Hl. by apply Ho.
    + rewrite put_ne in Hl by naive_solver. by eapply Hs.
  - rewrite put_ne in Hl by naive_solver. by eapply Hs.
Qed.

Lemma key_of_marked {k} (o : obj k) : key_of (meta_of (marked o)) = key_of (meta_of o).
Proof. by destruct k. Qed.

#[export] Instance named_server {R} : NamedServer R (store R).
Proof.
  refine {| valid := well_named |}.
  - intros X e s Hs. destruct e; cbn [handle server handler]; try done; repeat case_match; cbn [snd]; try done;
      apply put_well_named; try done; intros o' Ho'; simplify_eq; try done.
    rewrite key_of_marked. by eapply Hs.
  - intros X e s Hs. destruct e; cbn [handle server handler honest]; try done; repeat case_match; cbn [fst on_ok]; try done.
    + by eapply Hs.
    + apply Forall_map, Forall_forall. intros [[cl n] o] Hin. apply list_elem_of_filter in Hin as [(_ & Hns & _) Hin].
      apply elem_of_map_to_list in Hin. pose proof (Hs KSecret cl n o Hin) as Hkey.
      cbn in *. by rewrite <- Hns, <- Hkey.
Defined.
End MemStore.
