(* ===== verification/ContainerRuntime.v ===== *)
(** * Container runtime configuration ([pkg/containerruntime])

    [flags.go], [config.go], [containerruntime.go] and [containerd.go]: the
    mirror flag, the options, the registry host files under
    [/etc/containerd/certs.d] and the containerd configuration.  The TOML
    encoder and the splitting of URLs are interfaces. *)

From S2P Require Import Prelude GoStrings Encoding NetURL Types Effects Api.

(** ** [flags.go] *)

Abbreviation RegistryMirrorsFlags := (gmap string (list string)).

Definition RegistryMirrorsFlags_Set (fl : RegistryMirrorsFlags) (val : string)
    : result RegistryMirrorsFlags :=
  match SplitN2 val "=" with
  | [key; value] => Ok (<[key := default [] (fl !! key) ++ [value]]> fl)
  | _ => Err (Errorf "should have exactly 1 =" [])
  end.

(** [fmt.Sprintf("%s", result)] of a slice: brackets and spaces. *)
Definition RegistryMirrorsFlags_String (fl : RegistryMirrorsFlags) : string :=
  let result := flat_map (fun registryName =>
    map (fun mirror => registryName +:+ "=" +:+ mirror) (default [] (fl !! registryName)))
    (sorted_keys fl) in
  "[" +:+ Join result " " +:+ "]".

(** ** [containerruntime.go] *)

Record AuthConfig := {
  Username : string;
  Password : string;
  Auth : string;
  IdentityToken : string
}.

Record Containerd := {
  insecureRegistries : list string;
  registryMirrors : gmap string (list string);
  sandboxImage : string;
  registryCredentials : gmap string AuthConfig;
  version : string;
  deviceOwnershipFromSecurityContext : bool
}.
Definition zero_Containerd : Containerd :=
  {| insecureRegistries := []; registryMirrors := ∅; sandboxImage := "";
     registryCredentials := ∅; version := ""; deviceOwnershipFromSecurityContext := false |}.

Record Config := {
  Config_Containerd : option Containerd;
  InsecureRegistries : list string;
  RegistryMirrors : gmap string (list string);
  RegistryCredentials : gmap string AuthConfig;
  SandboxImage : string;
  ContainerLogMaxFiles : string;
  ContainerLogMaxSize : string;
  ContainerdVersion : string;
  DeviceOwnershipFromSecurityContext : bool
}.
Definition zero_Config : Config :=
  {| Config_Containerd := None; InsecureRegistries := []; RegistryMirrors := ∅;
     RegistryCredentials := ∅; SandboxImage := ""; ContainerLogMaxFiles := "";
     ContainerLogMaxSize := ""; ContainerdVersion := "";
     DeviceOwnershipFromSecurityContext := false |}.

Definition containerdName : string := "containerd".

Abbreviation Opt := (Config -> Config).

Definition withInsecureRegistries (registries : list string) : Opt := fun cfg =>
  {| Config_Containerd := Config_Containerd cfg; InsecureRegistries := registries;
     RegistryMirrors := RegistryMirrors cfg; RegistryCredentials := RegistryCredentials cfg;
     SandboxImage := SandboxImage cfg; ContainerLogMaxFiles := ContainerLogMaxFiles cfg;
     ContainerLogMaxSize := ContainerLogMaxSize cfg; ContainerdVersion := ContainerdVersion cfg;
     DeviceOwnershipFromSecurityContext := DeviceOwnershipFromSecurityContext cfg |}.

Definition withRegistryMirrors (mirrors : gmap string (list string)) : Opt := fun cfg =>
  {| Config_Containerd := Config_Containerd cfg; InsecureRegistries := InsecureRegistries cfg;
     RegistryMirrors := mirrors; RegistryCredentials := RegistryCredentials cfg;
     SandboxImage := SandboxImage cfg; ContainerLogMaxFiles := ContainerLogMaxFiles cfg;
     ContainerLogMaxSize := ContainerLogMaxSize cfg; ContainerdVersion := ContainerdVersion cfg;
     DeviceOwnershipFromSecurityContext := DeviceOwnershipFromSecurityContext cfg |}.

Definition withSandboxImage (image : string) : Opt := fun cfg =>
  {| Config_Containerd := Config_Containerd cfg; InsecureRegistries := InsecureRegistries cfg;
     RegistryMirrors := RegistryMirrors cfg; RegistryCredentials := RegistryCredentials cfg;
     SandboxImage := image; ContainerLogMaxFiles := ContainerLogMaxFiles cfg;
     ContainerLogMaxSize := ContainerLogMaxSize cfg; ContainerdVersion := ContainerdVersion cfg;
     DeviceOwnershipFromSecurityContext := DeviceOwnershipFromSecurityContext cfg |}.

Definition withContainerdVersion (v : string) : Opt := fun cfg =>
  {| Config_Containerd := Config_Containerd cfg; InsecureRegistries := InsecureRegistries cfg;
     RegistryMirrors := RegistryMirrors cfg; RegistryCredentials := RegistryCredentials cfg;
     SandboxImage := SandboxImage cfg; ContainerLogMaxFiles := ContainerLogMaxFiles cfg;
     ContainerLogMaxSize := ContainerLogMaxSize cfg; ContainerdVersion := v;
     DeviceOwnershipFromSecurityContext := DeviceOwnershipFromSecurityContext cfg |}.

Definition withDeviceOwnershipFromSecurityContext (b : bool) : Opt := fun cfg =>
  {| Config_Containerd := Config_Containerd cfg; InsecureRegistries := InsecureRegistries cfg;
     RegistryMirrors := RegistryMirrors cfg; RegistryCredentials := RegistryCredentials cfg;
     SandboxImage := SandboxImage cfg; ContainerLogMaxFiles := ContainerLogMaxFiles cfg;
     ContainerLogMaxSize := ContainerLogMaxSize cfg; ContainerdVersion := ContainerdVersion cfg;
     DeviceOwnershipFromSecurityContext := b |}.

(** The field writes of [prepareContainerRuntimeConfig] and of the reconciler. *)
Definition with_log_limits (size files : string) (cfg : Config) : Config :=
  {| Config_Containerd := Config_Containerd cfg; InsecureRegistries := InsecureRegistries cfg;
     RegistryMirrors := RegistryMirrors cfg; RegistryCredentials := RegistryCredentials cfg;
     SandboxImage := SandboxImage cfg; ContainerLogMaxFiles := files;
     ContainerLogMaxSize := size; ContainerdVersion := ContainerdVersion cfg;
     DeviceOwnershipFromSecurityContext := DeviceOwnershipFromSecurityContext cfg |}.
Definition with_credentials (creds : gmap string AuthConfig) (cfg : Config) : Config :=
  {| Config_Containerd := Config_Containerd cfg; InsecureRegistries := InsecureRegistries cfg;
     RegistryMirrors := RegistryMirrors cfg; RegistryCredentials := creds;
     SandboxImage := SandboxImage cfg; ContainerLogMaxFiles := ContainerLogMaxFiles cfg;
     ContainerLogMaxSize := ContainerLogMaxSize cfg; ContainerdVersion := ContainerdVersion cfg;
     DeviceOwnershipFromSecurityContext := DeviceOwnershipFromSecurityContext cfg |}.

(** [get(_, opts...)]: the options are applied in order. *)
Definition get (name : string) (opts : list Opt) : Config :=
  fold_left (fun cfg o => o cfg) opts
    {| Config_Containerd := Some zero_Containerd; InsecureRegistries := []; RegistryMirrors := ∅;
       RegistryCredentials := ∅; SandboxImage := ""; ContainerLogMaxFiles := "";
       ContainerLogMaxSize := ""; ContainerdVersion := "";
       DeviceOwnershipFromSecurityContext := false |}.

Definition Config_String (cfg : Config) : string := containerdName.

Definition Config_Engine (cfg : Config) : Containerd :=
  {| insecureRegistries := InsecureRegistries cfg;
     registryMirrors := RegistryMirrors cfg;
     sandboxImage := SandboxImage cfg;
     registryCredentials := RegistryCredentials cfg;
     version := ContainerdVersion cfg;
     deviceOwnershipFromSecurityContext := DeviceOwnershipFromSecurityContext cfg |}.

(** ** [config.go] *)

Record Opts := {
  Opts_ContainerRuntime : string;
  Opts_ContainerdVersion : string;
  Opts_InsecureRegistries : string;
  Opts_RegistryMirrors : string;
  Opts_RegistryCredentialsSecret : string;
  Opts_PauseImage : string;
  Opts_ContainerdRegistryMirrors : RegistryMirrorsFlags;
  Opts_DeviceOwnershipFromSecurityContext : bool
}.

(** The byte class of [registryMirrorRegexp]: letters, digits, dot, dash. *)
Definition registry_byte (c : ascii) : bool :=
  let n := N_of_ascii c in
  ((48 <=? n) && (n <=? 57) || (65 <=? n) && (n <=? 90) || (97 <=? n) && (n <=? 122)
   || (n =? 46) || (n =? 45))%N.

(** Submatches of [registryMirrorRegexp]: the class excludes '=', so the
    first group ends at the first '='; [.] stops at a newline. *)
Definition registryMirrorRegexp (s : string) : option (string * string) :=
  match SplitN2 s "=" with
  | [reg; rest] =>
      if all_bytes registry_byte reg && negb (bool_decide (reg = ""))
      then Some (reg, hd "" (Split rest "010")) else None
  | _ => None
  end.

Section Build.
Context `{NetURL}.

(** [for registry := range strings.SplitSeq(..) { TrimSpace; skip empty; append }] *)
Definition parse_insecure_registries (s : string) : list string :=
  List.filter (fun r => negb (bool_decide (r = ""))) (map TrimSpace (Split s ",")).

(** One round of the mirror loop of [BuildConfig]. *)
Definition add_mirror (mirrors : RegistryMirrorsFlags) (mirror : string) : result RegistryMirrorsFlags :=
  let trimmedMirror := TrimSpace mirror in
  if decide (trimmedMirror = "") then Ok mirrors
  else
    let '(registry, trimmedMirror) :=
      match registryMirrorRegexp trimmedMirror with
      | Some (r, m) => (r, m)
      | None => ("docker.io", trimmedMirror)
      end in
    let trimmedMirror :=
      if HasPrefix trimmedMirror "http" then trimmedMirror else "https://" +:+ trimmedMirror in
    let! _ := wrapR "incorrect mirror provided: %w" [] (url_Parse trimmedMirror) in
    Ok (<[registry := default [] (mirrors !! registry) ++ [trimmedMirror]]> mirrors).

Definition add_mirrors (mirrors : RegistryMirrorsFlags) (l : list string) : result RegistryMirrorsFlags :=
  fold_left (fun acc mirror => let! m := acc in add_mirror m mirror) l (Ok mirrors).

Definition BuildConfig (opts : Opts) : result Config :=
  let insecureRegistries := parse_insecure_registries (Opts_InsecureRegistries opts) in
  let! mirrors := add_mirrors (Opts_ContainerdRegistryMirrors opts)
                    (Split (Opts_RegistryMirrors opts) ",") in
  let! _ :=
    (if decide (Opts_RegistryCredentialsSecret opts = "") then Ok tt
     else if decide (length (Split (Opts_RegistryCredentialsSecret opts) "/") = 2) then Ok tt
     else Err (Errorf "-node-registry-credentials-secret is in incorrect format %q, should be in 'namespace/secretname'"
                 [Opts_RegistryCredentialsSecret opts])) in
  Ok (get (Opts_ContainerRuntime opts)
        [ withInsecureRegistries insecureRegistries;
          withRegistryMirrors mirrors;
          withSandboxImage (Opts_PauseImage opts);
          withContainerdVersion (Opts_ContainerdVersion opts);
          withDeviceOwnershipFromSecurityContext (Opts_DeviceOwnershipFromSecurityContext opts) ]).
End Build.

(** [DockerCfgJSON.Auths] *)
Record DockerCfgJSON := { Auths : gmap string AuthConfig }.

Section Credentials.
Context `{MapRange, JsonUnmarshal DockerCfgJSON, JsonUnmarshal AuthConfig} {R : Type}.

(** The loop over the data of an opaque secret. *)
Definition add_credential (acc : result (gmap string AuthConfig)) (entry : string * string)
    : result (gmap string AuthConfig) :=
  let '(registry, data) := entry in
  let! creds := acc in
  let! regCred := wrapR "failed to unmarshal registry credentials: %w" [] (json_Unmarshal data) in
  Ok (<[registry := regCred]> creds).

Definition read_credentials (credsSecret : Secret) : result (gmap string AuthConfig) :=
  if decide (Secret_Type credsSecret = "kubernetes.io/dockerconfigjson") then
    let! regCred := wrapR "failed to unmarshal registry credentials: %w" []
                      (json_Unmarshal (default "" (Secret_Data credsSecret !! ".dockerconfigjson"))) in
    Ok (Auths regCred)
  else fold_left add_credential (range (Secret_Data credsSecret)) (Ok ∅).

Definition GetContainerdAuthConfig (c : client) (registryCredentialsSecret : string)
    : io (ApiE R) (gmap string AuthConfig) :=
  match SplitN2 registryCredentialsSecret "/" with
  | [ns; name] =>
      do! credsSecret <- wrapIO "failed to retrieve registry credentials secret object: %w" []
        (trigger (Get c KSecret {| NN_Namespace := ns; NN_Name := name |}));
      pureIO (read_credentials credsSecret)
  | _ => pureIO (Ok ∅)
  end.
End Credentials.

(** ** [containerd.go] *)

Record containerdRegistryConfig := { Registry_Auth : option AuthConfig }.
Record containerdCRIRegistry := {
  ConfigPath : string;
  Configs : gmap string containerdRegistryConfig
}.
Record containerdPinnedImages := { Sandbox : string }.
Record containerdCRIImagesPlugin := {
  DiscardUnpackedLayers : bool;
  PinnedImages : option containerdPinnedImages;
  Registry : containerdCRIRegistry
}.
Record containerdCRICNIConfig := { BinDirs : list string; ConfDir : string }.
Record containerdCRIRunOptions := { SystemdCgroup : bool }.
Record containerdCRIRuntime := { RuntimeType : string; Options : containerdCRIRunOptions }.
Record containerdCRISettings := { Runtimes : gmap string containerdCRIRuntime }.
Record containerdCRIRuntimePlugin := {
  Plugin_Containerd : containerdCRISettings;
  Plugin_DeviceOwnershipFromSecurityContext : bool;
  CNI : containerdCRICNIConfig
}.
Record containerdMetrics := { Address : string }.

(** The values of the [Plugins] map. *)
Inductive containerdPlugin :=
| ImagesPlugin (p : containerdCRIImagesPlugin)
| RuntimePlugin (p : containerdCRIRuntimePlugin).

Record containerdConfigManifest := {
  Manifest_Version : Z;
  Metrics : containerdMetrics;
  Plugins : gmap string containerdPlugin
}.

Record hostEntryConfig := {
  Capabilities : list string;
  SkipVerify : bool;
  OverridePath : bool
}.
Record hostsTomlConfig := {
  hosts_Server : string;
  Host : gmap string hostEntryConfig
}.

#[export] Instance hostEntryConfig_eq_dec : EqDecision hostEntryConfig.
Proof. solve_decision. Defined.

(** [toml.Encoder] with [Indent = ""]. *)
Class Toml := {
  Encode_manifest : containerdConfigManifest -> result string;
  Encode_hosts : hostsTomlConfig -> result string
}.

Record registryEndpoint := { endpoint_url : string; overridePath : bool }.
Record registryHostConfig := { endpoints : list registryEndpoint; insecure : bool }.
Definition zero_registryHostConfig : registryHostConfig := {| endpoints := []; insecure := false |}.

#[export] Instance registryEndpoint_eq_dec : EqDecision registryEndpoint.
Proof. solve_decision. Defined.
#[export] Instance registryHostConfig_eq_dec : EqDecision registryHostConfig.
Proof. solve_decision. Defined.

Definition ConfigFileName : string := "/etc/containerd/config.toml".
Definition AuthConfigFileName : string := "".
Definition Containerd_String (eng : Containerd) : string := containerdName.
Definition Containerd_AuthConfig (eng : Containerd) : result string := Ok "".
Definition KubeletFlags : list string :=
  ["--container-runtime-endpoint=unix:///run/containerd/containerd.sock"].

(** [strings.IndexByte(registry, '/')] *)
Fixpoint registryHost (registry : string) : string :=
  match registry with
  | EmptyString => EmptyString
  | String c s => if ascii_dec c "/" then EmptyString else String c (registryHost s)
  end.

Section Engine.
Context `{NetURL, MapRange, Toml}.

(** The host under which the credentials of [registry] are filed. *)
Definition credential_host (registry : string) : string :=
  match url_Parse registry with
  | Ok u => if decide (url_Host u = "") then registry else url_Host u
  | _ => registry
  end.

Definition credential_configs (creds : gmap string AuthConfig) : gmap string containerdRegistryConfig :=
  fold_left (fun m (entry : string * AuthConfig) =>
    <[credential_host entry.1 := {| Registry_Auth := Some entry.2 |}]> m) (range creds) ∅.

Definition manifest (eng : Containerd) : containerdConfigManifest :=
  let criRegistry :=
    {| ConfigPath := "/etc/containerd/certs.d"; Configs := credential_configs (registryCredentials eng) |} in
  let criImagesPlugin :=
    {| DiscardUnpackedLayers := false;
       PinnedImages := if decide (sandboxImage eng = "") then None
                       else Some {| Sandbox := sandboxImage eng |};
       Registry := criRegistry |} in
  let criRuntimePlugin :=
    {| Plugin_DeviceOwnershipFromSecurityContext := deviceOwnershipFromSecurityContext eng;
       Plugin_Containerd := {| Runtimes := {[ "runc" :=
         {| RuntimeType := "io.containerd.runc.v2"; Options := {| SystemdCgroup := true |} |} ]} |};
       CNI := {| BinDirs := ["/opt/cni/bin"]; ConfDir := "/etc/cni/net.d" |} |} in
  {| Manifest_Version := 3;
     Metrics := {| Address := "127.0.0.1:1338" |};
     Plugins := {[ "io.containerd.cri.v1.images" := ImagesPlugin criImagesPlugin;
                   "io.containerd.cri.v1.runtime" := RuntimePlugin criRuntimePlugin ]} |}.

Definition Containerd_Config (eng : Containerd) : result string := Encode_manifest (manifest eng).

Definition stripKubermaticParam (mirrorURL : string) : string :=
  match url_Parse mirrorURL with
  | Ok parsedURL =>
      let query := url.Query parsedURL in
      if negb (url.Has query "kubermatic") then mirrorURL
      else url_String (url_set_RawQuery (url.Encode (url.Del query "kubermatic")) parsedURL)
  | _ => mirrorURL
  end.

(** The [override_path] of the nested query: the zero value when a step fails. *)
Definition mirror_overridePath (mirrorURL : string) : bool :=
  match url_Parse mirrorURL with
  | Ok parsedURL =>
      let query := url.Query parsedURL in
      if url.Has query "kubermatic" then
        match url.QueryUnescape (url.Get query "kubermatic") with
        | Ok kubermaticParams =>
            match url.ParseQuery kubermaticParams with
            | (kubermaticValues, None) =>
                default false (ok_value (ParseBool (url.Get kubermaticValues "override_path")))
            | _ => false
            end
        | _ => false
        end
      else false
  | _ => false
  end.

Definition mirror_endpoint (mirrorURL : string) : registryEndpoint :=
  {| endpoint_url := stripKubermaticParam mirrorURL; overridePath := mirror_overridePath mirrorURL |}.

(** One round of each loop of [buildRegistryHostConfigs]. *)
Definition set_mirrors (configs : gmap string registryHostConfig) (entry : string * list string)
    : gmap string registryHostConfig :=
  let '(registryName, mirrorURLs) := entry in
  let regCfg := default zero_registryHostConfig (configs !! registryName) in
  <[registryName := {| endpoints := map mirror_endpoint mirrorURLs; insecure := insecure regCfg |}]> configs.

Definition set_insecure (configs : gmap string registryHostConfig) (registryName : string)
    : gmap string registryHostConfig :=
  let regCfg := default zero_registryHostConfig (configs !! registryName) in
  <[registryName := {| endpoints := endpoints regCfg; insecure := true |}]> configs.

Definition buildRegistryHostConfigs (eng : Containerd) : gmap string registryHostConfig :=
  let configs := {[ "docker.io" :=
    {| endpoints := [{| endpoint_url := "https://registry-1.docker.io"; overridePath := false |}];
       insecure := false |} ]} in
  let configs := fold_left set_mirrors (range (registryMirrors eng)) configs in
  fold_left set_insecure (insecureRegistries eng) configs.

(** The directory and the server of a registry. *)
Definition registry_dir (registryName : string) : string :=
  let d := registryHost registryName in
  if bool_decide (d = "*" \/ d = "_default") then "_default" else d.

Definition registry_server (registryName : string) : string :=
  let d := registryHost registryName in
  if decide (d = "docker.io") then "https://registry-1.docker.io"
  else if bool_decide (d = "*" \/ d = "_default") then "" else registryName.

Definition pull_resolve : list string := ["pull"; "resolve"].

Definition hosts_toml (registryName : string) (regCfg : registryHostConfig) : hostsTomlConfig :=
  let serverURL := registry_server registryName in
  let host := fold_left (fun m endpoint =>
    <[endpoint_url endpoint := {| Capabilities := pull_resolve;
        SkipVerify := insecure regCfg; OverridePath := overridePath endpoint |}]> m)
    (endpoints regCfg) (∅ : gmap string hostEntryConfig) in
  {| hosts_Server := serverURL;
     Host := if decide (endpoints regCfg = []) then
               if insecure regCfg
               then <[serverURL := {| Capabilities := pull_resolve; SkipVerify := insecure regCfg;
                                      OverridePath := false |}]> host
               else host
             else host |}.

Definition hosts_path (registryName : string) : string :=
  "/etc/containerd/certs.d/" +:+ registry_dir registryName +:+ "/hosts.toml".

(** "no mirrors and not insecure" *)
Definition skipped (regCfg : registryHostConfig) : bool :=
  bool_decide (endpoints regCfg = []) && negb (insecure regCfg).

Definition host_file (registryName : string) (regCfg : registryHostConfig) : result string :=
  let! buf := wrapR "encoding hosts.toml for %s: %w" [registryName]
                (Encode_hosts (hosts_toml registryName regCfg)) in
  Ok (ReplaceAll buf ("[host]" +:+ NL) "").

Definition add_host_file (configs : gmap string registryHostConfig)
    (acc : result (gmap string string)) (registryName : string) : result (gmap string string) :=
  let! result := acc in
  let regCfg := default zero_registryHostConfig (configs !! registryName) in
  if skipped regCfg then Ok result
  else
    let! output := host_file registryName regCfg in
    Ok (<[hosts_path registryName := output]> result).

Definition RegistryHostConfigs (eng : Containerd) : result (gmap string string) :=
  let configs := buildRegistryHostConfigs eng in
  fold_left (add_host_file configs) (sorted_keys configs) (Ok ∅).
End Engine.

(** ** Properties of the host files *)

Section EngineProps.
Context `{NetURL, MapRange, Toml}.

Lemma range_lookup {V} (m : gmap string V) k v : (k, v) ∈ range m <-> m !! k = Some v.
Proof. by rewrite range_perm, elem_of_map_to_list. Qed.

Lemma NoDup_range_keys {V} (m : gmap string V) : NoDup (range m).*1.
Proof. rewrite range_perm. apply NoDup_fst_map_to_list. Qed.

Lemma fold_set_mirrors l configs name :
  NoDup l.*1 ->
  fold_left set_mirrors l configs !! name =
  match (list_to_map l : gmap string (list string)) !! name with
  | Some urls => Some {| endpoints := map mirror_endpoint urls;
                         insecure := default false (insecure <$> configs !! name) |}
  | None => configs !! name
  end.
Proof.
  revert configs. induction l as [|[k urls] l IH]; intros configs; [done|].
  cbn [fold_left fmap list_fmap list_to_map foldr]. intros [Hk Hl]%NoDup_cons.
  cbn [fst] in Hk. rewrite IH by done. unfold set_mirrors. cbn [uncurry].
  destruct (decide (k = name)) as [->|Hne].
  - rewrite !lookup_insert_eq. rewrite not_elem_of_list_to_map_1 by done.
    destruct (configs !! name) as [[]|]; done.
  - by rewrite !lookup_insert_ne.
Qed.

Lemma fold_set_insecure l configs name :
  fold_left set_insecure l configs !! name =
  if decide (name ∈ l)
  then Some {| endpoints := default [] (endpoints <$> configs !! name); insecure := true |}
  else configs !! name.
Proof.
  revert configs. induction l as [|k l IH]; intros configs; [done|].
  cbn [fold_left]. rewrite IH. unfold set_insecure. clear IH.
  destruct (decide (k = name)) as [->|Hne].
  - rewrite lookup_insert_eq, (decide_True (P := name ∈ name :: l)) by left.
    destruct (decide _); destruct (configs !! name) as [[]|]; done.
  - rewrite lookup_insert_ne by done.
    destruct (decide (name ∈ l)); [rewrite decide_True|rewrite decide_False]; try done.
    + by right.
    + rewrite elem_of_cons. naive_solver.
Qed.

Lemma list_to_map_range {V} (m : gmap string V) : list_to_map (range m) = m.
Proof.
  rewrite <-(list_to_map_to_list m) at 2.
  apply list_to_map_proper; [apply NoDup_range_keys|apply range_perm].
Qed.
End EngineProps.

(** The endpoints a registry has before the insecure registries are read. *)
Definition default_endpoints (name : string) : list registryEndpoint :=
  if decide (name = "docker.io")
  then [{| endpoint_url := "https://registry-1.docker.io"; overridePath := false |}] else [].

(** C35: what [buildRegistryHostConfigs] computes, registry by registry:
    configured mirrors replace the default of docker.io, a registry is insecure
    exactly when it is listed as insecure, docker.io always has an entry, and
    no other registry appears.  The order in which Go visits the mirror map
    does not matter. *)
Theorem buildRegistryHostConfigs_lookup `{NetURL, MapRange} (eng : Containerd) (name : string) :
  buildRegistryHostConfigs eng !! name =
  match registryMirrors eng !! name with
  | Some urls => Some {| endpoints := map mirror_endpoint urls;
                         insecure := bool_decide (name ∈ insecureRegistries eng) |}
  | None =>
      if decide (name = "docker.io" \/ name ∈ insecureRegistries eng)
      then Some {| endpoints := default_endpoints name;
                   insecure := bool_decide (name ∈ insecureRegistries eng) |}
      else None
  end.
Proof.
  unfold buildRegistryHostConfigs, default_endpoints.
  rewrite fold_set_insecure, fold_set_mirrors by apply NoDup_range_keys.
  rewrite list_to_map_range.
  assert (forall (f : registryHostConfig), ({[ "docker.io" := f ]} : gmap _ _) !! name =
    if decide (name = "docker.io") then Some f else None) as Hs.
  { intros f. destruct (decide _) as [->|]; [done|]. by rewrite lookup_singleton_ne. }
  rewrite Hs. clear Hs.
  destruct (registryMirrors eng !! name) as [urls|]; cbn;
    destruct (decide (name ∈ insecureRegistries eng)) as [Hi|Hi];
    rewrite ?(bool_decide_true _ Hi), ?(bool_decide_false _ Hi);
    destruct (decide (name = "docker.io")) as [Hd|Hd]; cbn;
    try (destruct (decide _)); naive_solver.
Qed.

(** The registries that get a file, in the order in which the files are made. *)
Definition written (configs : gmap string registryHostConfig) (names : list string) : list string :=
  filter (fun n => skipped (default zero_registryHostConfig (configs !! n)) = false) names.

Section HostFiles.
Context `{NetURL, MapRange, Toml}.
Variable configs : gmap string registryHostConfig.
Let cfg_of n := default zero_registryHostConfig (configs !! n).

Lemma fold_add_host_file_err l acc :
  (forall r, acc <> Ok r) -> fold_left (add_host_file configs) l acc = acc.
Proof.
  induction l as [|n l IH]; [done|]. intros Hacc. cbn [fold_left].
  assert (add_host_file configs acc n = acc) as -> by (destruct acc; naive_solver). auto.
Qed.

Lemma fold_add_host_file_ok l :
  (forall n, n ∈ written configs l -> is_ok (host_file n (cfg_of n)) = true) <->
  is_ok (fold_left (add_host_file configs) l (Ok ∅)) = true.
Proof.
  generalize (∅ : gmap string string). induction l as [|n l IH]; intros files.
  { cbn. split; [done|]. by intros _ n ?%elem_of_nil. }
  cbn [fold_left]. unfold written. rewrite filter_cons. cbn [bindR add_host_file].
  fold (cfg_of n). destruct (skipped (cfg_of n)) eqn:Es; cbn [bindR].
  - rewrite decide_False by done. apply IH.
  - rewrite decide_True by done. destruct (host_file n (cfg_of n)) as [c|e|w] eqn:Ef; cbn [bindR].
    + rewrite <-(IH (<[hosts_path n:=c]> files)). split.
      * intros Hall m Hm. apply Hall. by right.
      * intros Hall m [->|Hm]%elem_of_cons; [by rewrite Ef|by apply Hall].
    + rewrite fold_add_host_file_err by done. split; [|done].
      intros Hall. specialize (Hall n (list_elem_of_here _ _)). by rewrite Ef in Hall.
    + rewrite fold_add_host_file_err by done. split; [|done].
      intros Hall. specialize (Hall n (list_elem_of_here _ _)). by rewrite Ef in Hall.
Qed.

(** The file at a path is that of the last registry that maps to the path. *)
Lemma fold_add_host_file_lookup l files path content :
  fold_left (add_host_file configs) l (Ok ∅) = Ok files ->
  files !! path = Some content <->
  exists l1 n l2, written configs l = l1 ++ n :: l2 /\ hosts_path n = path /\
    Forall (fun m => hosts_path m <> path) l2 /\ host_file n (cfg_of n) = Ok content.
Proof.
  revert files. induction l as [|n l IH] using rev_ind; intros files.
  { cbn. intros [= <-]. split; [done|]. by intros ([]&?&?&?&_). }
  rewrite fold_left_app. cbn [fold_left].
  destruct (fold_left _ l (Ok ∅)) as [files0|e|w] eqn:E; cbn [add_host_file bindR]; [|done..].
  fold (cfg_of n). specialize (IH files0 eq_refl). unfold written in *. rewrite filter_app.
  cbn [filter list_filter]. destruct (skipped (cfg_of n)) eqn:Es.
  - intros [= <-]. rewrite decide_False, app_nil_r by (fold (cfg_of n); by rewrite Es). done.
  - destruct (host_file n (cfg_of n)) as [c|e|w] eqn:Ef; cbn; [|done..]. intros [= <-].
    rewrite decide_True by done. destruct (decide (hosts_path n = path)) as [Hp|Hp].
    + rewrite Hp, lookup_insert_eq. split.
      * intros [= <-]. eexists _, n, []. split_and!; done.
      * intros (l1 & m & l2 & Heq & _ & Hl2 & Hm).
        destruct l2 as [|z l2 _] using rev_ind.
        -- apply app_inj_tail in Heq as [_ <-]. congruence.
        -- rewrite app_comm_cons, app_assoc in Heq. apply app_inj_tail in Heq as [_ <-].
           apply Forall_app in Hl2 as [_ Hz]. by inversion Hz.
    + rewrite lookup_insert_ne, IH by done. split.
      * intros (l1 & m & l2 & -> & ? & ? & ?). exists l1, m, (l2 ++ [n]).
        rewrite Forall_app, <-app_assoc. split_and!; try done. by repeat constructor.
      * intros (l1 & m & l2 & Heq & ? & Hl2 & ?).
        destruct l2 as [|z l2 _] using rev_ind.
        -- apply app_inj_tail in Heq as [_ <-]. congruence.
        -- rewrite app_comm_cons, app_assoc in Heq. apply app_inj_tail in Heq as [-> _].
           apply Forall_app in Hl2 as [Hl2 _]. exists l1, m, l2. done.
Qed.
End HostFiles.

Lemma registryHost_no_slash s : Contains (registryHost s) "/" = false.
Proof.
  induction s as [|c s IH]; [done|]. cbn. destruct (ascii_dec c "/") eqn:E; [done|].
  cbn. by rewrite E.
Qed.

Lemma registry_dir_no_slash s : Contains (registry_dir s) "/" = false.
Proof. unfold registry_dir. case_bool_decide; [done|]. apply registryHost_no_slash. Qed.

(** the files of [RegistryHostConfigs]: one per directory, in
    /etc/containerd/certs.d/<dir>/hosts.toml with a directory name that holds
    no slash; when several registries share a directory the content is that of
    the last one in byte order; a registry without mirrors that is not insecure
    has no file. *)
Theorem RegistryHostConfigs_files `{NetURL, MapRange, Toml} (eng : Containerd) files
    (Hok : RegistryHostConfigs eng = Ok files) (path content : string) :
  let configs := buildRegistryHostConfigs eng in
  let cfg_of n := default zero_registryHostConfig (configs !! n) in
  files !! path = Some content <->
  exists l1 n l2, written configs (sorted_keys configs) = l1 ++ n :: l2 /\
    Forall (fun m => hosts_path m <> path) l2 /\ host_file n (cfg_of n) = Ok content /\
    path = "/etc/containerd/certs.d/" +:+ registry_dir n +:+ "/hosts.toml" /\
    Contains (registry_dir n) "/" = false.
Proof.
  cbn zeta. rewrite (fold_add_host_file_lookup _ _ _ _ _ Hok). split.
  - intros (l1 & n & l2 & ? & <- & ? & ?). exists l1, n, l2.
    split_and!; try done. apply registry_dir_no_slash.
  - intros (l1 & n & l2 & ? & ? & ? & -> & _). by exists l1, n, l2.
Qed.

(** ** The sideband parameter *)

Lemma Has_delete_same (v : url.Values) k : url.Has (delete k v) k = false.
Proof. unfold url.Has. rewrite lookup_delete_eq. apply bool_decide_false. by intros [? ?]. Qed.

Lemma Query_Del_no_empty `{NetURL} u k k' : url.Del (url.Query u) k !! k' <> Some [].
Proof.
  unfold url.Del. rewrite lookup_delete. case_decide; [done|]. apply url.ParseQuery_no_empty.
Qed.

(** [stripKubermaticParam] removes the kubermatic parameter and nothing
    else: the result parses, with every other query parameter and the host of
    the mirror, the parameter is gone, and stripping again changes nothing. *)
Theorem stripKubermaticParam_spec `{NetURLLaws} (mirrorURL : string) (u : URL)
    (Hparse : url_Parse mirrorURL = Ok u) :
  (exists u', url_Parse (stripKubermaticParam mirrorURL) = Ok u' /\
     url.Query u' = delete "kubermatic" (url.Query u) /\
     url.Has (url.Query u') "kubermatic" = false /\ url_Host u' = url_Host u) /\
  stripKubermaticParam (stripKubermaticParam mirrorURL) = stripKubermaticParam mirrorURL.
Proof.
  assert (exists u', url_Parse (stripKubermaticParam mirrorURL) = Ok u' /\
     url.Query u' = delete "kubermatic" (url.Query u) /\ url_Host u' = url_Host u)
    as (u' & Hp & Hq & Hh).
  { unfold stripKubermaticParam. rewrite Hparse.
    destruct (url.Has (url.Query u) "kubermatic") eqn:Hhas; cbn [negb].
    - destruct (url_Parse_String mirrorURL u (url.Del (url.Query u) "kubermatic") Hparse)
        as (u' & Hp & Hq & Hh).
      exists u'. split_and!; [done| |done]. unfold url.Query at 1. rewrite Hq.
      by rewrite url.ParseQuery_Encode by apply Query_Del_no_empty.
    - exists u. split_and!; [done| |done]. rewrite delete_id; [done|].
      apply eq_None_not_Some. by apply bool_decide_eq_false in Hhas. }
  assert (url.Has (url.Query u') "kubermatic" = false) as Hhas
    by (rewrite Hq; apply Has_delete_same).
  split; [by exists u'|].
  unfold stripKubermaticParam at 1. by rewrite Hp, Hhas.
Qed.

(** ** Start-up flags *)

Definition mirror_ok `{NetURL} (m : string) : Prop :=
  HasPrefix m "http" = true /\ is_ok (url_Parse m) = true.

(** What the mirror loop keeps: earlier mirrors stay in front, every new one
    has a scheme and parses. *)
Definition extends_mirrors `{NetURL} (m0 m : RegistryMirrorsFlags) : Prop :=
  forall reg, exists new, default [] (m !! reg) = default [] (m0 !! reg) ++ new /\
    Forall mirror_ok new.

#[export] Instance extends_mirrors_preorder `{NetURL} : PreOrder extends_mirrors.
Proof.
  split.
  - intros m reg. exists []. by rewrite app_nil_r.
  - intros m0 m1 m2 H1 H2 reg. destruct (H1 reg) as (n1 & E1 & F1), (H2 reg) as (n2 & E2 & F2).
    exists (n1 ++ n2). rewrite E2, E1, <-app_assoc. split; [done|]. by apply Forall_app.
Qed.

Lemma HasPrefix_http m :
  HasPrefix (if HasPrefix m "http" then m else "https://" +:+ m) "http" = true.
Proof.
  destruct (HasPrefix m "http") eqn:E; [done|]. apply prefix_spec. by exists ("s://" +:+ m).
Qed.

Lemma add_mirror_extends `{NetURL} m mirror m' :
  add_mirror m mirror = Ok m' -> extends_mirrors m m'.
Proof.
  unfold add_mirror. destruct (decide _); [by intros [= <-]|].
  set (rm := match registryMirrorRegexp _ with Some _ => _ | None => _ end).
  destruct rm as [registry trimmed]. intros Hm. inv_bind Hm. intros reg.
  rewrite lookup_insert. destruct (decide (registry = reg)) as [->|].
  - eexists. split; [reflexivity|]. repeat constructor; [apply HasPrefix_http|].
    by rewrite Hx.
  - exists []. by rewrite app_nil_r.
Qed.

Lemma add_mirrors_err `{NetURL} l (acc : result RegistryMirrorsFlags) :
  (forall m, acc <> Ok m) ->
  fold_left (fun acc mirror => let! m := acc in add_mirror m mirror) l acc = acc.
Proof. induction l as [|n l IH]; [done|]. intros Hacc. cbn. destruct acc; naive_solver. Qed.

Lemma add_mirrors_extends `{NetURL} m l m' :
  add_mirrors m l = Ok m' -> extends_mirrors m m'.
Proof.
  unfold add_mirrors. revert m. induction l as [|x l IH]; intros m; cbn [fold_left bindR].
  { by intros [= <-]. }
  destruct (add_mirror m x) as [m1|e|w] eqn:E.
  - intros H1. transitivity m1; [by eapply add_mirror_extends|by apply IH].
  - by rewrite add_mirrors_err.
  - by rewrite add_mirrors_err.
Qed.

Lemma parse_insecure_registries_spec s r :
  r ∈ parse_insecure_registries s <-> r <> "" /\ exists p, p ∈ Split s "," /\ r = TrimSpace p.
Proof.
  unfold parse_insecure_registries. rewrite list_elem_of_In, filter_In, in_map_iff.
  rewrite negb_true_iff, bool_decide_eq_false. setoid_rewrite list_elem_of_In. naive_solver.
Qed.

(** [BuildConfig]: an accepted configuration holds the mirrors of the
    repeated flag in front, and behind them only mirrors with a scheme that
    parse as URLs; its insecure registries are the trimmed, non-empty pieces of
    the flag; the credentials reference is empty or namespace/name; the other
    options are copied and no credentials are set. *)
Theorem BuildConfig_spec `{NetURL} (opts : Opts) (cfg : Config) (Hok : BuildConfig opts = Ok cfg) :
  extends_mirrors (Opts_ContainerdRegistryMirrors opts) (RegistryMirrors cfg) /\
  (forall r, r ∈ InsecureRegistries cfg <->
     r <> "" /\ exists p, p ∈ Split (Opts_InsecureRegistries opts) "," /\ r = TrimSpace p) /\
  (Opts_RegistryCredentialsSecret opts = "" \/
   length (Split (Opts_RegistryCredentialsSecret opts) "/") = 2) /\
  SandboxImage cfg = Opts_PauseImage opts /\
  ContainerdVersion cfg = Opts_ContainerdVersion opts /\
  DeviceOwnershipFromSecurityContext cfg = Opts_DeviceOwnershipFromSecurityContext opts /\
  RegistryCredentials cfg = ∅.
Proof.
  unfold BuildConfig in Hok. inv_bind Hok. split_and!; try reflexivity; cbn.
  - by eapply add_mirrors_extends.
  - intros r. apply parse_insecure_registries_spec.
  - destruct (decide _) as [->|]; [by left|]. destruct (decide _); [by right|done].
Qed.

(** ** Evaluation on concrete inputs *)

Module Demo.

#[export] Existing Instances SplitURL.splitter SplitURL.splitter_laws.
#[export] Instance entries : MapRange := {| range V m := map_to_list m; range_perm V m := reflexivity _ |}.

(** A stand-in for the encoder that shows the server and the host keys. *)
#[export] Instance toml : Toml :=
  {| Encode_manifest m := Ok (Address (Metrics m));
     Encode_hosts h := Ok ("server=" +:+ hosts_Server h +:+ NL +:+ "[host]" +:+ NL
       +:+ Join (sorted_keys (Host h)) ",") |}.

Definition engine : Containerd :=
  {| insecureRegistries := ["r.io:5000"];
     registryMirrors := {[ "quay.io/a" := ["https://m.io/v2?kubermatic=override_path%3Dtrue&x=1"] ]};
     sandboxImage := ""; registryCredentials := ∅; version := "";
     deviceOwnershipFromSecurityContext := false |}.

Definition files : gmap string string := default ∅ (ok_value (RegistryHostConfigs engine)).

Definition opts : Opts :=
  {| Opts_ContainerRuntime := "containerd"; Opts_ContainerdVersion := "2.0";
     Opts_InsecureRegistries := " a.io , ,b.io"; Opts_RegistryMirrors := "m.io,r.io=http://x.io";
     Opts_RegistryCredentialsSecret := "ns/creds"; Opts_PauseImage := "pause";
     Opts_ContainerdRegistryMirrors := {[ "docker.io" := ["https://first.io"] ]};
     Opts_DeviceOwnershipFromSecurityContext := true |}.

Definition config : Config := default zero_Config (ok_value (BuildConfig opts)).
End Demo.
Import Demo.

Lemma RegistryHostConfigs_files_witness :
  RegistryHostConfigs Demo.engine = Ok Demo.files /\
  Demo.files !! "/etc/containerd/certs.d/quay.io/hosts.toml"
    = Some ("server=quay.io/a" +:+ NL +:+ "https://m.io/v2?x=1") /\
  (exists l1 n l2, written (buildRegistryHostConfigs Demo.engine)
      (sorted_keys (buildRegistryHostConfigs Demo.engine)) = l1 ++ n :: l2 /\
    Forall (fun m => hosts_path m <> "/etc/containerd/certs.d/quay.io/hosts.toml") l2 /\
    host_file n (default zero_registryHostConfig (buildRegistryHostConfigs Demo.engine !! n))
      = Ok ("server=quay.io/a" +:+ NL +:+ "https://m.io/v2?x=1") /\
    "/etc/containerd/certs.d/quay.io/hosts.toml" =
      "/etc/containerd/certs.d/" +:+ registry_dir n +:+ "/hosts.toml" /\
    Contains (registry_dir n) "/" = false).
Proof.
  assert (RegistryHostConfigs Demo.engine = Ok Demo.files) as Hok
    by (apply ok_default; vm_compute; reflexivity).
  split; [exact Hok|]. split; [vm_compute; reflexivity|].
  apply (RegistryHostConfigs_files Demo.engine Demo.files Hok). vm_compute. reflexivity.
Defined.

Lemma stripKubermaticParam_spec_witness :
  exists u, url_Parse "https://m.io/v2?kubermatic=override_path%3Dtrue&x=1" = Ok u /\
  (exists u', url_Parse (stripKubermaticParam "https://m.io/v2?kubermatic=override_path%3Dtrue&x=1") = Ok u' /\
     url.Query u' = delete "kubermatic" (url.Query u) /\
     url.Has (url.Query u') "kubermatic" = false /\ url_Host u' = url_Host u).
Proof.
  eexists. split; [vm_compute; reflexivity|].
  eapply stripKubermaticParam_spec. vm_compute. reflexivity.
Defined.

Lemma BuildConfig_spec_witness :
  BuildConfig Demo.opts = Ok Demo.config /\
  extends_mirrors (Opts_ContainerdRegistryMirrors Demo.opts) (RegistryMirrors Demo.config) /\
  RegistryMirrors Demo.config !! "docker.io" = Some ["https://first.io"; "https://m.io"].
Proof.
  assert (BuildConfig Demo.opts = Ok Demo.config) as Hok
    by (apply ok_default; vm_compute; reflexivity).
  split; [exact Hok|]. split; [apply (BuildConfig_spec _ _ Hok)|vm_compute; reflexivity].
Defined.
