(* ===== verification/Finalizers.v ===== *)
(** * Finalizers ([pkg/kubernetes/helper.go])

    The helpers work on a [sets.String] of the Kubernetes API machinery: the
    interface [StringSet], with the package's documented behaviour as laws and
    a [gset] as an instance. *)

From S2P Require Import Prelude GoStrings Types.

Class StringSet := {
  String_set : Type;
  NewString : list string -> String_set;
  Insert : String_set -> list string -> String_set;
  Set_Delete : String_set -> list string -> String_set;
  HasAll : String_set -> list string -> bool;
  List : String_set -> list string
}.

(** [List] is the sorted contents of the set. *)
Class StringSetLaws `{StringSet} := {
  elem_of_NewString l x : x ∈ List (NewString l) <-> x ∈ l;
  elem_of_Insert s l x : x ∈ List (Insert s l) <-> x ∈ List s \/ x ∈ l;
  elem_of_Set_Delete s l x : x ∈ List (Set_Delete s l) <-> x ∈ List s /\ x ∉ l;
  HasAll_spec s l : HasAll s l = true <-> forall x, x ∈ l -> x ∈ List s;
  NoDup_List s : NoDup (List s);
  List_sorted s : StronglySorted String.le (List s)
}.

#[export] Instance gset_StringSet : StringSet :=
  {| String_set := gset string;
     NewString l := list_to_set l;
     Insert s l := s ∪ list_to_set l;
     Set_Delete s l := s ∖ list_to_set l;
     HasAll s l := forallb (fun x => bool_decide (x ∈ s)) l;
     List s := sort_Strings (elements s) |}.

#[export] Instance gset_StringSetLaws : StringSetLaws.
Proof.
  split; cbn; intros; rewrite ?elem_of_sort_Strings, ?elem_of_elements.
  - by rewrite elem_of_list_to_set.
  - set_solver.
  - set_solver.
  - rewrite forallb_forall. setoid_rewrite bool_decide_eq_true.
    setoid_rewrite <-list_elem_of_In. setoid_rewrite elem_of_sort_Strings. set_solver.
  - rewrite sort_Strings_perm. apply NoDup_elements.
  - apply sort_Strings_sorted.
Qed.

Section Helpers.
Context `{StringSet}.

Definition HasFinalizer (o : ObjectMeta) (names : list string) : bool :=
  HasAll (NewString (Finalizers o)) names.

Definition AddFinalizer (obj : ObjectMeta) (finalizers : list string) : ObjectMeta :=
  with_finalizers (List (Insert (NewString (Finalizers obj)) finalizers)) obj.

Definition RemoveFinalizer (obj : ObjectMeta) (toRemove : list string) : ObjectMeta :=
  with_finalizers (List (Set_Delete (NewString (Finalizers obj)) toRemove)) obj.
End Helpers.

Section Laws.
Context `{StringSetLaws}.
Implicit Types o : ObjectMeta.

Lemma elem_of_AddFinalizer o l x :
  x ∈ Finalizers (AddFinalizer o l) <-> x ∈ Finalizers o \/ x ∈ l.
Proof. cbn. by rewrite elem_of_Insert, elem_of_NewString. Qed.

Lemma elem_of_RemoveFinalizer o l x :
  x ∈ Finalizers (RemoveFinalizer o l) <-> x ∈ Finalizers o /\ x ∉ l.
Proof. cbn. by rewrite elem_of_Set_Delete, elem_of_NewString. Qed.

Lemma HasFinalizer_spec o l :
  HasFinalizer o l = true <-> forall x, x ∈ l -> x ∈ Finalizers o.
Proof. unfold HasFinalizer. rewrite HasAll_spec. by setoid_rewrite elem_of_NewString. Qed.

Lemma HasFinalizer_singleton o f : HasFinalizer o [f] = true <-> f ∈ Finalizers o.
Proof. rewrite HasFinalizer_spec. set_solver. Qed.

Lemma HasFinalizer_Remove o f : HasFinalizer (RemoveFinalizer o [f]) [f] = false.
Proof.
  apply not_true_is_false. rewrite HasFinalizer_singleton, elem_of_RemoveFinalizer. set_solver.
Qed.

Lemma HasFinalizer_Add o f : HasFinalizer (AddFinalizer o [f]) [f] = true.
Proof. rewrite HasFinalizer_singleton, elem_of_AddFinalizer. set_solver. Qed.

(** Two sorted lists without duplicates and with the same elements are equal. *)
Lemma List_canonical s1 s2 : (forall x, x ∈ List s1 <-> x ∈ List s2) -> List s1 = List s2.
Proof.
  intros Hx. apply (StronglySorted_unique String.le).
  - apply List_sorted.
  - apply List_sorted.
  - apply NoDup_Permutation; [apply NoDup_List..|done].
Qed.

Lemma AddFinalizer_idemp o l : AddFinalizer (AddFinalizer o l) l = AddFinalizer o l.
Proof.
  unfold AddFinalizer at 1 3, with_finalizers. f_equal. apply List_canonical. intros x.
  rewrite !elem_of_Insert, !elem_of_NewString, elem_of_AddFinalizer. tauto.
Qed.

(** Adding a finalizer an object does not have and removing it again leaves
    the finalizers as a set. *)
Lemma RemoveFinalizer_Add o f x :
  f ∉ Finalizers o -> x ∈ Finalizers (RemoveFinalizer (AddFinalizer o [f]) [f]) <-> x ∈ Finalizers o.
Proof. rewrite elem_of_RemoveFinalizer, elem_of_AddFinalizer. set_solver. Qed.

(** finalizers are kept as a set: adding yields the union and removing the
    difference, sorted and without duplicates; an object has what was added and
    not what was removed, adding again changes nothing, and only the finalizers
    of the object change. *)
Theorem finalizers_spec o (l : list string) :
  (forall x, x ∈ Finalizers (AddFinalizer o l) <-> x ∈ Finalizers o \/ x ∈ l) /\
  (forall x, x ∈ Finalizers (RemoveFinalizer o l) <-> x ∈ Finalizers o /\ x ∉ l) /\
  HasFinalizer (AddFinalizer o l) l = true /\
  (forall f, f ∈ l -> HasFinalizer (RemoveFinalizer o l) [f] = false) /\
  AddFinalizer (AddFinalizer o l) l = AddFinalizer o l /\
  NoDup (Finalizers (RemoveFinalizer o l)) /\
  StronglySorted String.le (Finalizers (RemoveFinalizer o l)) /\
  with_finalizers (Finalizers o) (AddFinalizer o l) = o /\
  with_finalizers (Finalizers o) (RemoveFinalizer o l) = o.
Proof.
  split_and!.
  - apply elem_of_AddFinalizer.
  - apply elem_of_RemoveFinalizer.
  - rewrite HasFinalizer_spec. intros x Hx. rewrite elem_of_AddFinalizer. by right.
  - intros f Hf. apply not_true_is_false.
    rewrite HasFinalizer_singleton, elem_of_RemoveFinalizer. tauto.
  - apply AddFinalizer_idemp.
  - apply NoDup_List.
  - apply List_sorted.
  - by destruct o.
  - by destruct o.
Qed.
End Laws.

#[export] Hint Rewrite @HasFinalizer_Remove @HasFinalizer_Add using assumption : osm.

(** The helpers on an object with two finalizers, over the [gset] instance. *)
Module Demo.
Definition meta : ObjectMeta := with_finalizers ["foregroundDeletion"; "cleanup"] (object_meta "md" "ns").
End Demo.

Lemma finalizers_spec_witness :
  Finalizers (RemoveFinalizer Demo.meta ["cleanup"]) = ["foregroundDeletion"] /\
  StronglySorted String.le (Finalizers (RemoveFinalizer Demo.meta ["cleanup"])) /\
  AddFinalizer (AddFinalizer Demo.meta ["osm"]) ["osm"] = AddFinalizer Demo.meta ["osm"].
Proof.
  split; [vm_compute; reflexivity|].
  destruct (finalizers_spec Demo.meta ["cleanup"]) as (_ & _ & _ & _ & _ & _ & Hsorted & _).
  destruct (finalizers_spec Demo.meta ["osm"]) as (_ & _ & _ & _ & Hadd & _).
  split; [exact Hsorted|exact Hadd].
Defined.
