(* ===== verification/GoTemplate.v ===== *)
(** * [text/template]: the fragment the program's own templates use

    Lexing with trim markers and comments; [if], [else], [range], [with] and
    [end]; pipelines of fields, variables, literals, parentheses and functions.
    The templates of the source are parsed by [Parse] as they are written and
    executed on a value that mirrors the Go struct.  Functions of a template
    are a parameter of [Execute]; the built-in [eq], [ne], [or] and [len] are
    here. *)

From S2P Require Import Prelude GoStrings.

(** ** Lexing *)

Inductive piece :=
| Text (s : string)
| Action (body : string).

Definition is_space (c : ascii) : bool := bool_decide (c ∈ [" "; "009"; "010"; "013"]%char).

Fixpoint trim_left_ws (s : string) : string :=
  match s with
  | String c s' => if is_space c then trim_left_ws s' else s
  | EmptyString => EmptyString
  end.
Definition trim_right_ws (s : string) : string := String.rev (trim_left_ws (String.rev s)).

(** Cut [s] at the first occurrence of [p]. *)
Fixpoint cut_at (p s : string) : option (string * string) :=
  match strip_prefix p s with
  | Some r => Some (EmptyString, r)
  | None =>
      match s with
      | EmptyString => None
      | String c s' => '(a, b) ← cut_at p s'; Some (String c a, b)
      end
  end.

(** The body of an action up to the right delimiter, outside string literals. *)
Fixpoint cut_action (quoted : bool) (s : string) : option (string * string) :=
  match s with
  | EmptyString => None
  | String c s' =>
      match (if quoted then None else strip_prefix "}}" s) with
      | Some r => Some (EmptyString, r)
      | None =>
          let q := if ascii_dec c "034" then negb quoted else quoted in
          '(a, b) ← cut_action q s'; Some (String c a, b)
      end
  end.

(** "{{- " : the left trim marker is a dash and a space. *)
Definition left_marker (s : string) : bool * string :=
  match s with
  | String "-" (String c s') => if is_space c then (true, s') else (false, s)
  | _ => (false, s)
  end.

(** " -}}" : the right trim marker is a space and a dash. *)
Definition right_marker (body : string) : bool * string :=
  match String.rev body with
  | String "-" (String c r) => if is_space c then (true, String.rev r) else (false, body)
  | _ => (false, body)
  end.

Definition comment_end (s : string) : option (bool * string) :=
  match strip_prefix " -}}" s with
  | Some r => Some (true, r)
  | None => match strip_prefix "}}" s with Some r => Some (false, r) | None => None end
  end.

(** Every round drops at least the two bytes of a delimiter, so the length is
    fuel enough. *)
Fixpoint lex (fuel : nat) (trim : bool) (s : string) : option (list piece) :=
  match fuel with
  | O => None
  | S fuel' =>
      let s := if trim then trim_left_ws s else s in
      match cut_at "{{" s with
      | None => Some [Text s]
      | Some (text, rest) =>
          let '(ltrim, rest) := left_marker rest in
          let text := if ltrim then trim_right_ws text else text in
          match strip_prefix "/*" rest with
          | Some c =>
              '(_, after) ← cut_at "*/" c;
              '(rtrim, after) ← comment_end after;
              ps ← lex fuel' rtrim after;
              Some (Text text :: ps)
          | None =>
              '(body, after) ← cut_action false rest;
              let '(rtrim, body) := right_marker body in
              ps ← lex fuel' rtrim after;
              Some (Text text :: Action body :: ps)
          end
      end
  end.

Inductive token :=
| TWord (s : string)
| TStr (s : string)
| TPipe | TOpen | TClose | TComma | TAssign.

Definition word_byte (c : ascii) : bool :=
  negb (is_space c) && negb (bool_decide (c ∈ ["034"; "|"; "("; ")"; ","; ":"; "="]%char)).

Definition push_word (w : string) (ts : list token) : list token :=
  if decide (w = "") then ts else TWord (String.rev w) :: ts.

(** [w] is the word being read, reversed; [q] the literal being read, if any. *)
Fixpoint tokens (w : string) (q : option string) (s : string) : list token :=
  match s with
  | EmptyString => push_word w []
  | String c s' =>
      match q with
      | Some l =>
          if ascii_dec c "034" then TStr (String.rev l) :: tokens "" None s'
          else tokens "" (Some (String c l)) s'
      | None =>
          if word_byte c then tokens (String c w) None s'
          else push_word w
            (if ascii_dec c "034" then tokens "" (Some "") s'
             else if ascii_dec c "|" then TPipe :: tokens "" None s'
             else if ascii_dec c "(" then TOpen :: tokens "" None s'
             else if ascii_dec c ")" then TClose :: tokens "" None s'
             else if ascii_dec c "," then TComma :: tokens "" None s'
             else if ascii_dec c ":" then TAssign :: tokens "" None s'
             else tokens "" None s')
      end
  end.

(** ** Syntax *)

Inductive operand :=
| OField (chain : list string)
| OVar (name : string) (chain : list string)
| OStr (s : string)
| OInt (z : Z)
| OBool (b : bool)
| OFunc (name : string)
| OParen (cmds : list (list operand)).

Abbreviation pipeline := (list (list operand)).

Inductive node :=
| NText (s : string)
| NAction (p : pipeline)
| NIf (p : pipeline) (body els : list node)
| NRange (vars : list string) (p : pipeline) (body els : list node)
| NWith (p : pipeline) (body els : list node).

(** An integer literal: a leading 0 makes it octal. *)
Fixpoint octal (acc : Z) (s : string) : option Z :=
  match s with
  | EmptyString => Some acc
  | String c s' => d ← digit_value c; if (d <? 8)%Z then octal (acc * 8 + d)%Z s' else None
  end.
Definition int_literal (s : string) : option Z :=
  match s with
  | String "0" (String c s') => octal 0 (String c s')
  | _ => digits_value 0 s
  end.

Definition word_operand (w : string) : option operand :=
  match w with
  | String "." EmptyString => Some (OField [])
  | String "." r => Some (OField (Split r "."))
  | String "$" _ => match Split w "." with v :: chain => Some (OVar v chain) | [] => None end
  | String c _ =>
      if digit_value c then OInt <$> int_literal w
      else if decide (w = "true") then Some (OBool true)
      else if decide (w = "false") then Some (OBool false)
      else Some (OFunc w)
  | EmptyString => None
  end.

(** [cmd] is the command being read, reversed; [done] the commands before it. *)
Fixpoint parse_pipe (fuel : nat) (done : pipeline) (cmd : list operand) (ts : list token)
    : option (pipeline * list token) :=
  match fuel with
  | O => None
  | S n =>
      let close := rev (rev cmd :: done) in
      match ts with
      | [] => Some (close, [])
      | TClose :: _ => Some (close, ts)
      | TPipe :: ts' => parse_pipe n (rev cmd :: done) [] ts'
      | TOpen :: ts' =>
          match parse_pipe n [] [] ts' with
          | Some (p, TClose :: ts'') => parse_pipe n done (OParen p :: cmd) ts''
          | _ => None
          end
      | TStr s :: ts' => parse_pipe n done (OStr s :: cmd) ts'
      | TWord w :: ts' => o ← word_operand w; parse_pipe n done (o :: cmd) ts'
      | _ => None
      end
  end.

Definition pipe_of (ts : list token) : option pipeline :=
  match parse_pipe (S (length ts)) [] [] ts with Some (p, []) => Some p | _ => None end.

Definition range_of (ts : list token) : option (list string * pipeline) :=
  match ts with
  | TWord k :: TComma :: TWord v :: TAssign :: ts' => p ← pipe_of ts'; Some ([k; v], p)
  | TWord v :: TAssign :: ts' => p ← pipe_of ts'; Some ([v], p)
  | _ => p ← pipe_of ts; Some ([], p)
  end.

Inductive terminator := AtEnd | AtElse | AtEOF.

(** What an action is, by its first word. *)
Inductive action := AEnd | AElse | AIf (ts : list token) | AWith (ts : list token) | ARange (ts : list token)
| APipe (ts : list token).
Definition action_of (ts : list token) : action :=
  match ts with
  | [TWord "end"] => AEnd
  | [TWord "else"] => AElse
  | TWord "if" :: ts => AIf ts
  | TWord "with" :: ts => AWith ts
  | TWord "range" :: ts => ARange ts
  | ts => APipe ts
  end.

(** A block up to its [end], and the nodes after it, with [parse] for the parts. *)
Definition block (parse : list piece -> option (list node * terminator * list piece))
    (ps : list piece) (mk : list node -> list node -> node) : option (list node * terminator * list piece) :=
  '(body, t, rest) ← parse ps;
  '(els, t', rest') ← (match t with AtElse => parse rest | _ => Some ([], t, rest) end);
  match t' with
  | AtEnd => '(tl, t'', rest'') ← parse rest'; Some (mk body els :: tl, t'', rest'')
  | _ => None
  end.

Fixpoint parse_nodes (fuel : nat) (ps : list piece) : option (list node * terminator * list piece) :=
  match fuel with
  | O => None
  | S n =>
      match ps with
      | [] => Some ([], AtEOF, [])
      | Text s :: ps' => '(tl, t, rest) ← parse_nodes n ps'; Some (NText s :: tl, t, rest)
      | Action body :: ps' =>
          match action_of (tokens "" None body) with
          | AEnd => Some ([], AtEnd, ps')
          | AElse => Some ([], AtElse, ps')
          | AIf ts => p ← pipe_of ts; block (parse_nodes n) ps' (NIf p)
          | AWith ts => p ← pipe_of ts; block (parse_nodes n) ps' (NWith p)
          | ARange ts => '(vars, p) ← range_of ts; block (parse_nodes n) ps' (NRange vars p)
          | APipe ts => p ← pipe_of ts;
                  '(tl, t, rest) ← parse_nodes n ps'; Some (NAction p :: tl, t, rest)
          end
      end
  end.

(** [template.New(..).Parse(text)] *)
Definition Parse (text : string) : option (list node) :=
  ps ← lex (S (String.length text)) false text;
  match parse_nodes (S (length ps)) ps with
  | Some (ns, AtEOF, []) => Some ns
  | _ => None
  end.

(** ** Values and execution *)

(** A map value lists its entries in the order of their keys, which is the
    order [range] visits them in. *)
Inductive value :=
| VString (s : string)
| VBool (b : bool)
| VInt (z : Z)
| VPtr (p : option value)
| VList (l : list value)
| VMap (l : list (string * value))
| VStruct (l : list (string * value)).

(** [template.IsTrue] *)
Definition truth (v : value) : bool :=
  match v with
  | VString s => negb (bool_decide (s = ""))
  | VBool b => b
  | VInt z => negb (z =? 0)%Z
  | VPtr p => bool_decide (is_Some p)
  | VList l => negb (bool_decide (length l = 0))
  | VMap l => negb (bool_decide (length l = 0))
  | VStruct _ => true
  end.

Definition exec_error {A} (what : string) : result A :=
  Err (LibError "template.Execute" what "can't evaluate").

(** Printing follows pointers. *)
Fixpoint print (v : value) : result string :=
  match v with
  | VString s => Ok s
  | VBool b => Ok (FormatBool b)
  | VInt z => Ok (Itoa z)
  | VPtr (Some v') => print v'
  | VPtr None => Ok "<nil>"
  | _ => exec_error "composite value"
  end.

Fixpoint assoc {A} (k : string) (l : list (string * A)) : option A :=
  match l with
  | [] => None
  | (k', a) :: l' => if decide (k = k') then Some a else assoc k l'
  end.

Fixpoint get_field (f : string) (v : value) : result value :=
  match v with
  | VStruct l | VMap l => match assoc f l with Some x => Ok x | None => exec_error f end
  | VPtr (Some v') => get_field f v'
  | VPtr None => Err (LibError "template.Execute" f "nil pointer evaluating")
  | _ => exec_error f
  end.

Definition get_chain (chain : list string) (v : value) : result value :=
  fold_left (fun acc f => let! x := acc in get_field f x) chain (Ok v).

(** [eq] and [ne] on basic kinds. *)
Definition basic_eq (a b : value) : result bool :=
  match a, b with
  | VString x, VString y => Ok (bool_decide (x = y))
  | VBool x, VBool y => Ok (Bool.eqb x y)
  | VInt x, VInt y => Ok (x =? y)%Z
  | _, _ => Err (LibError "template.Execute" "eq" "incompatible types for comparison")
  end.

Definition builtin (name : string) (args : list value) : option (result value) :=
  match name, args with
  | "eq", [a; b] => Some (let! r := basic_eq a b in Ok (VBool r))
  | "ne", [a; b] => Some (let! r := basic_eq a b in Ok (VBool (negb r)))
  | "or", [a] => Some (Ok a)
  | "or", [a; b] => Some (Ok (if truth a then a else b))
  | "len", [VList l] => Some (Ok (VInt (Z.of_nat (length l))))
  | "len", [VString s] => Some (Ok (VInt (Z.of_nat (String.length s))))
  | _, _ => None
  end.

Section Exec.
Variable funcs : string -> list value -> result value.

Definition call (name : string) (args : list value) : result value :=
  match builtin name args with Some r => r | None => funcs name args end.

Definition env := list (string * value).

(** Commands of a pipeline: the value of one is the last argument of the next. *)
Section Pipes.
Variable eval_operand : operand -> result value.

Fixpoint eval_args (l : list operand) : result (list value) :=
  match l with
  | [] => Ok []
  | o :: l' => let! v := eval_operand o in let! vs := eval_args l' in Ok (v :: vs)
  end.

Definition eval_cmd (cmd : list operand) (final : option value) : result value :=
  match cmd with
  | OFunc f :: args => let! vs := eval_args args in call f (vs ++ from_option (fun v => [v]) [] final)
  | [o] => match final with None => eval_operand o | Some _ => exec_error "non-function in pipeline" end
  | _ => exec_error "command"
  end.

Fixpoint eval_cmds (p : pipeline) (final : option value) : result value :=
  match p with
  | [] => match final with Some v => Ok v | None => exec_error "empty pipeline" end
  | c :: p' => let! v := eval_cmd c final in eval_cmds p' (Some v)
  end.
End Pipes.

(** Parentheses nest at most once in the templates of the program: the first
    argument bounds the depth. *)
Fixpoint eval_operand (depth : nat) (vars : env) (dot : value) (o : operand) : result value :=
  match o with
  | OField chain => get_chain chain dot
  | OVar v chain =>
      match assoc v vars with Some x => get_chain chain x | None => exec_error v end
  | OStr s => Ok (VString s)
  | OInt z => Ok (VInt z)
  | OBool b => Ok (VBool b)
  | OFunc f => call f []
  | OParen p =>
      match depth with
      | S d => eval_cmds (eval_operand d vars dot) p None
      | O => exec_error "parentheses"
      end
  end.

Definition eval (vars : env) (dot : value) (p : pipeline) : result value :=
  eval_cmds (eval_operand 4 vars dot) p None.

(** The variables of a [range] clause: one holds the element, two the index or
    the key and the element. *)
Definition bind_vars (names : list string) (k v : value) (vars : env) : env :=
  match names with
  | [a] => (a, v) :: vars
  | [a; b] => (a, k) :: (b, v) :: vars
  | _ => vars
  end.

(** The pairs a [range] visits. *)
Fixpoint elements_of (v : value) : result (list (value * value)) :=
  match v with
  | VList l => Ok (imap (fun i x => (VInt (Z.of_nat i), x)) l)
  | VMap l => Ok (map (fun kv => (VString kv.1, kv.2)) l)
  | VPtr (Some v') => elements_of v'
  | _ => Err (LibError "template.Execute" "range" "can't iterate over")
  end.

Fixpoint concat_results {A} (f : A -> result string) (l : list A) : result string :=
  match l with
  | [] => Ok ""
  | x :: l' => let! a := f x in let! b := concat_results f l' in Ok (a +:+ b)
  end.

Fixpoint exec (n : node) (vars : env) (dot : value) : result string :=
  let exec_list := fix exec_list (ns : list node) (vars : env) (dot : value) : result string :=
    match ns with
    | [] => Ok ""
    | n' :: ns' => let! a := exec n' vars dot in let! b := exec_list ns' vars dot in Ok (a +:+ b)
    end in
  match n with
  | NText s => Ok s
  | NAction p => let! v := eval vars dot p in print v
  | NIf p body els =>
      let! v := eval vars dot p in
      if truth v then exec_list body vars dot else exec_list els vars dot
  | NWith p body els =>
      let! v := eval vars dot p in
      if truth v then exec_list body vars v else exec_list els vars dot
  | NRange names p body els =>
      let! v := eval vars dot p in
      let! l := elements_of v in
      match l with
      | [] => exec_list els vars dot
      | _ => concat_results (fun kv => exec_list body (bind_vars names kv.1 kv.2 vars) kv.2) l
      end
  end.

Fixpoint exec_nodes (ns : list node) (vars : env) (dot : value) : result string :=
  match ns with
  | [] => Ok ""
  | n :: ns' => let! a := exec n vars dot in let! b := exec_nodes ns' vars dot in Ok (a +:+ b)
  end.

(** [tmpl.Execute(buf, data)]: [$] is the data. *)
Definition Execute (ns : list node) (data : value) : result string :=
  exec_nodes ns [("$", data)] data.
End Exec.

(** [template.New(..).Funcs(funcs).Parse(text)] and [Execute]. *)
Definition parse_error (text : string) : error :=
  LibError "template.Parse" text "malformed template".
Definition parsed (text : string) : result (list node) :=
  match Parse text with Some ns => Ok ns | None => Err (parse_error text) end.

(** ** Equations *)

Section Equations.
Variable funcs : string -> list value -> result value.

Lemma exec_list_nodes ns vars dot :
  (fix exec_list (ns : list node) (vars : env) (dot : value) : result string :=
     match ns with
     | [] => Ok ""
     | n' :: ns' => let! a := exec funcs n' vars dot in let! b := exec_list ns' vars dot in Ok (a +:+ b)
     end) ns vars dot = exec_nodes funcs ns vars dot.
Proof. revert vars dot. induction ns as [|n ns IH]; intros; cbn; [done|]. by rewrite IH. Qed.

Lemma concat_results_ext {A} (f g : A -> result string) l :
  (forall x, f x = g x) -> concat_results f l = concat_results g l.
Proof. intros Hfg. induction l as [|x l IH]; cbn; [done|]. by rewrite Hfg, IH. Qed.

(** The body of a [range] that never fails. *)
Lemma concat_results_ok {A} (f : A -> result string) (g : A -> string) l :
  (forall x, x ∈ l -> f x = Ok (g x)) -> concat_results f l = Ok (Join (map g l) "").
Proof.
  induction l as [|x l IH]; cbn; intros Hf; [done|].
  rewrite Hf by left. rewrite IH by (intros; apply Hf; by right). cbn.
  destruct l; cbn; [by rewrite append_nil_r|done].
Qed.

Lemma exec_NIf p body els vars dot :
  exec funcs (NIf p body els) vars dot =
  let! v := eval funcs vars dot p in exec_nodes funcs (if truth v then body else els) vars dot.
Proof.
  cbn. destruct (eval funcs vars dot p) as [v|e|w]; cbn; [|done..].
  destruct (truth v); apply exec_list_nodes.
Qed.

Lemma exec_NWith p body els vars dot :
  exec funcs (NWith p body els) vars dot =
  let! v := eval funcs vars dot p in
  if truth v then exec_nodes funcs body vars v else exec_nodes funcs els vars dot.
Proof.
  cbn. destruct (eval funcs vars dot p) as [v|e|w]; cbn; [|done..].
  destruct (truth v); apply exec_list_nodes.
Qed.

Lemma exec_NRange names p body els vars dot :
  exec funcs (NRange names p body els) vars dot =
  let! v := eval funcs vars dot p in
  let! l := elements_of v in
  match l with
  | [] => exec_nodes funcs els vars dot
  | _ => concat_results (fun kv => exec_nodes funcs body (bind_vars names kv.1 kv.2 vars) kv.2) l
  end.
Proof.
  cbn. destruct (eval funcs vars dot p) as [v|e|w]; cbn; [|done..].
  destruct (elements_of v) as [l|e|w]; cbn; [|done..]. destruct l; [apply exec_list_nodes|].
  apply concat_results_ext. intros kv. apply exec_list_nodes.
Qed.

(** A [range] without [else] over elements whose bodies never fail. *)
Lemma exec_range_ok names p body vars dot v l (g : value * value -> string) :
  eval funcs vars dot p = Ok v -> elements_of v = Ok l ->
  (forall kv, kv ∈ l -> exec_nodes funcs body (bind_vars names kv.1 kv.2 vars) kv.2 = Ok (g kv)) ->
  exec funcs (NRange names p body []) vars dot = Ok (Join (map g l) "").
Proof.
  intros Hv Hl Hg. rewrite exec_NRange, Hv. cbn. rewrite Hl. cbn.
  rewrite (concat_results_ok _ g) by done. by destruct l.
Qed.

(** A [range] over a list: the elements' texts in order. *)
Lemma exec_range_list {A} (f : A -> value) (g : A -> string) names p body vars dot xs :
  eval funcs vars dot p = Ok (VList (map f xs)) ->
  (forall i x, x ∈ xs ->
     exec_nodes funcs body (bind_vars names (VInt i) (f x) vars) (f x) = Ok (g x)) ->
  exec funcs (NRange names p body []) vars dot = Ok (Join (map g xs) "").
Proof.
  intros Hp Hbody. rewrite exec_NRange, Hp. cbn [bindR elements_of].
  assert (forall h, concat_results (fun kv => exec_nodes funcs body (bind_vars names kv.1 kv.2 vars) kv.2)
    (imap (fun i x => (VInt (Z.of_nat (h i)), x)) (map f xs)) = Ok (Join (map g xs) "")) as Hall.
  { clear Hp. induction xs as [|x xs IH]; intros h; [done|]. cbn.
    rewrite Hbody by left. cbn. change (fun i => ?k) with (fun i : nat => k).
    specialize (IH (fun i y Hy => Hbody i y (list_elem_of_further _ _ _ Hy)) (fun i => h (S i))).
    unfold compose. cbn in IH |- *. rewrite IH. cbn.
    destruct xs; cbn; [by rewrite append_nil_r|done]. }
  specialize (Hall (fun i => i)). cbn in Hall |- *. rewrite Hall. by destruct xs.
Qed.

(** A [range] over a map, given by its sorted keys. *)
Lemma exec_range_map (f : string -> value) (g : string -> string) names p body vars dot ks :
  eval funcs vars dot p = Ok (VMap (map (fun k => (k, f k)) ks)) ->
  (forall k, k ∈ ks ->
     exec_nodes funcs body (bind_vars names (VString k) (f k) vars) (f k) = Ok (g k)) ->
  exec funcs (NRange names p body []) vars dot = Ok (Join (map g ks) "").
Proof.
  intros Hp Hbody. rewrite exec_NRange, Hp. cbn [bindR elements_of].
  rewrite map_map. cbn [fst snd].
  assert (concat_results (fun kv => exec_nodes funcs body (bind_vars names kv.1 kv.2 vars) kv.2)
    (map (fun k => (VString k, f k)) ks) = Ok (Join (map g ks) "")) as Hall.
  { clear Hp. induction ks as [|k ks IH]; [done|]. cbn.
    rewrite Hbody by left. cbn. rewrite IH by (intros; apply Hbody; by right). cbn.
    destruct ks; cbn; [by rewrite append_nil_r|done]. }
  rewrite Hall. by destruct ks.
Qed.

(** Node by node. *)
Lemma exec_nodes_ok ns texts vars dot :
  Forall2 (fun n t => exec funcs n vars dot = Ok t) ns texts ->
  exec_nodes funcs ns vars dot = Ok (Join texts "").
Proof.
  induction 1 as [|n t ns texts Hn _ IH]; [done|]. cbn. rewrite Hn, IH. cbn.
  destruct texts; cbn; [by rewrite append_nil_r|done].
Qed.

Lemma exec_NIf_ok p body vars dot v t :
  eval funcs vars dot p = Ok v ->
  (truth v = true -> exec_nodes funcs body vars dot = Ok t) ->
  exec funcs (NIf p body []) vars dot = Ok (if truth v then t else "").
Proof. intros Hv Hb. rewrite exec_NIf, Hv. cbn. destruct (truth v); [by apply Hb|done]. Qed.

Lemma exec_NWith_ok p body vars dot v t :
  eval funcs vars dot p = Ok v ->
  (truth v = true -> exec_nodes funcs body vars v = Ok t) ->
  exec funcs (NWith p body []) vars dot = Ok (if truth v then t else "").
Proof. intros Hv Hb. rewrite exec_NWith, Hv. cbn. destruct (truth v); [by apply Hb|done]. Qed.
End Equations.

(** ** Fuel

    More fuel than [Parse] gives to the lexer and the parsers does not change what
    they return: a template that is rejected is malformed. *)

Lemma strip_prefix_length p s r : strip_prefix p s = Some r -> String.length s = String.length p + String.length r.
Proof. intros ->%strip_prefix_Some. apply length_append. Qed.

Lemma cut_at_length p s a b : cut_at p s = Some (a, b) -> String.length p + String.length b <= String.length s.
Proof.
  revert a. induction s as [|c s IH]; intros a; cbn [cut_at]; destruct (strip_prefix p _) as [r|] eqn:Hp; intros Hc;
    simplify_eq; try (apply strip_prefix_length in Hp; lia).
  destruct (cut_at p s) as [[a' b']|]; simplify_eq/=. specialize (IH a' eq_refl). lia.
Qed.

Lemma cut_action_length q s a b : cut_action q s = Some (a, b) -> 2 + String.length b <= String.length s.
Proof.
  revert q a. induction s as [|c s IH]; intros q a; cbn [cut_action]; [done|].
  destruct (if q then None else strip_prefix "}}" (String c s)) as [r|] eqn:Hp; intros Hc; simplify_eq.
  - destruct q; [done|]. apply strip_prefix_length in Hp. cbn in *. lia.
  - destruct (cut_action _ s) as [[a' b']|] eqn:Hs; simplify_eq/=. apply IH in Hs. lia.
Qed.

Lemma trim_left_ws_length s : String.length (trim_left_ws s) <= String.length s.
Proof. induction s as [|c s IH]; cbn; [done|]. destruct (is_space c); cbn; lia. Qed.

Lemma left_marker_length s : String.length (left_marker s).2 <= String.length s.
Proof. unfold left_marker. repeat case_match; cbn; lia. Qed.

Lemma comment_end_length s b r : comment_end s = Some (b, r) -> String.length r <= String.length s.
Proof.
  unfold comment_end. destruct (strip_prefix " -}}" s) eqn:E1; [|destruct (strip_prefix "}}" s) eqn:E2];
    intros; simplify_eq; [apply strip_prefix_length in E1|apply strip_prefix_length in E2]; lia.
Qed.

Lemma lex_fuel n m trim s : String.length s < n -> String.length s < m -> lex n trim s = lex m trim s.
Proof.
  revert m trim s. induction n as [|n IH]; intros m trim s Hn Hm; [lia|]. destruct m as [|m]; [lia|]. cbn [lex].
  pose proof (trim_left_ws_length s) as Ht. set (s' := if trim then trim_left_ws s else s).
  assert (String.length s' <= String.length s) as Hs' by (by destruct trim).
  destruct (cut_at "{{" s') as [[text rest]|] eqn:Hc; [|done]. apply cut_at_length in Hc. cbn in Hc.
  pose proof (left_marker_length rest) as Hl. destruct (left_marker rest) as [ltrim rest']. cbn in Hl.
  destruct (strip_prefix "/*" rest') as [c|] eqn:Hp.
  - apply strip_prefix_length in Hp. cbn in Hp.
    destruct (cut_at "*/" c) as [[a after]|] eqn:Ha; [|done]. apply cut_at_length in Ha. cbn in Ha |- *.
    destruct (comment_end after) as [[rtrim after']|] eqn:He; [|done]. apply comment_end_length in He. cbn.
    by rewrite (IH m) by lia.
  - destruct (cut_action false rest') as [[body after]|] eqn:Ha; [|done]. apply cut_action_length in Ha. cbn.
    destruct (right_marker body) as [rtrim body']. by rewrite (IH m) by lia.
Qed.

Lemma parse_pipe_length n done cmd ts p rest :
  parse_pipe n done cmd ts = Some (p, rest) -> length rest <= length ts.
Proof.
  revert done cmd ts p rest. induction n as [|n IH]; intros dn cmd ts p rest; cbn [parse_pipe]; [done|].
  destruct ts as [|[w|l| | | | |] ts]; intros Hp; simplify_eq/=; try done.
  - destruct (word_operand w); simplify_eq/=. apply IH in Hp. lia.
  - apply IH in Hp. lia.
  - apply IH in Hp. lia.
  - destruct (parse_pipe n [] [] ts) as [[q [|[] ts']]|] eqn:Hq; simplify_eq. apply IH in Hq, Hp. cbn in Hq. lia.
Qed.

Lemma parse_pipe_fuel n m done cmd ts :
  length ts < n -> length ts < m -> parse_pipe n done cmd ts = parse_pipe m done cmd ts.
Proof.
  revert m done cmd ts. induction n as [|n IH]; intros m dn cmd ts Hn Hm; [lia|]. destruct m as [|m]; [lia|].
  destruct ts as [|[w|l| | | | |] ts]; cbn [parse_pipe length] in *; try done; try (apply IH; lia).
  - destruct (word_operand w); [apply IH; lia|done].
  - rewrite (IH m) by lia. destruct (parse_pipe m [] [] ts) as [[q [|[] ts']]|] eqn:Hq; try done.
    apply parse_pipe_length in Hq. cbn in Hq. apply IH; lia.
Qed.

(** A parser of nodes does not give back more than it was given. *)
Definition consumes (parse : list piece -> option (list node * terminator * list piece)) : Prop :=
  forall ps ns t rest, parse ps = Some (ns, t, rest) -> length rest <= length ps.

Lemma block_consumes parse mk : consumes parse -> consumes (fun ps => block parse ps mk).
Proof.
  intros Hparse ps ns t rest. unfold block.
  destruct (parse ps) as [[[body t1] rest1]|] eqn:H1; intros Hb; simplify_eq/=. apply Hparse in H1.
  destruct (match t1 with AtElse => parse rest1 | _ => Some ([], t1, rest1) end)
    as [[[els t2] rest2]|] eqn:H2; simplify_eq/=.
  assert (length rest2 <= length rest1) as H2' by (destruct t1; simplify_eq; try lia; by apply Hparse in H2).
  destruct t2; [|done..]. destruct (parse rest2) as [[[tl t3] rest3]|] eqn:H3; simplify_eq/=.
  apply Hparse in H3. lia.
Qed.

Lemma block_ext parse parse' ps mk :
  consumes parse -> (forall ps', length ps' <= length ps -> parse ps' = parse' ps') ->
  block parse ps mk = block parse' ps mk.
Proof.
  intros Hparse Heq. unfold block. rewrite <- (Heq ps) by done.
  destruct (parse ps) as [[[body t1] rest1]|] eqn:H1; [|done]. apply Hparse in H1. cbn.
  assert ((match t1 with AtElse => parse rest1 | _ => Some ([], t1, rest1) end) =
          (match t1 with AtElse => parse' rest1 | _ => Some ([], t1, rest1) end)) as Helse
    by (destruct t1; [done|by apply Heq|done]).
  rewrite <- Helse.
  destruct (match t1 with AtElse => parse rest1 | _ => Some ([], t1, rest1) end)
    as [[[els t2] rest2]|] eqn:H2; [|done]. cbn.
  assert (length rest2 <= length rest1) as H2' by (destruct t1; simplify_eq; [lia|by apply Hparse in H2|lia]).
  destruct t2; [|done..]. by rewrite (Heq rest2) by lia.
Qed.

Lemma parse_nodes_consumes n : consumes (parse_nodes n).
Proof.
  induction n as [|n IH]; intros ps ns t rest; [done|]. cbn [parse_nodes].
  destruct ps as [|[s|body] ps]; [by intros [= <- <- <-]|..].
  - destruct (parse_nodes n ps) as [[[tl t1] r1]|] eqn:H1; intros; simplify_eq/=. apply IH in H1. lia.
  - assert (forall mk, block (parse_nodes n) ps mk = Some (ns, t, rest) -> length rest <= length (Action body :: ps))
      as Hblock by (intros mk Hb; apply (block_consumes _ mk IH) in Hb; cbn; lia).
    destruct (action_of _) as [| |ts|ts|ts|ts]; intros Hp; simplify_eq/=; try lia.
    + destruct (pipe_of ts); [|done]. by eapply Hblock.
    + destruct (pipe_of ts); [|done]. by eapply Hblock.
    + destruct (range_of ts) as [[vars p]|]; [|done]. by eapply Hblock.
    + destruct (pipe_of ts); [|done]. cbn in Hp.
      destruct (parse_nodes n ps) as [[[tl t1] r1]|] eqn:H1; simplify_eq/=. apply IH in H1. lia.
Qed.

Lemma parse_nodes_fuel n m ps : length ps < n -> length ps < m -> parse_nodes n ps = parse_nodes m ps.
Proof.
  revert m ps. induction n as [|n IH]; intros m ps Hn Hm; [lia|]. destruct m as [|m]; [lia|]. cbn [parse_nodes].
  destruct ps as [|[s|body] ps]; cbn in Hn, Hm; [done|by rewrite (IH m) by lia|].
  assert (forall mk, block (parse_nodes n) ps mk = block (parse_nodes m) ps mk) as Hblock
    by (intros mk; apply block_ext; [apply parse_nodes_consumes|intros; apply IH; lia]).
  destruct (action_of _) as [| |ts|ts|ts|ts]; try done.
  - destruct (pipe_of ts); [apply Hblock|done].
  - destruct (pipe_of ts); [apply Hblock|done].
  - destruct (range_of ts) as [[vars p]|]; [apply Hblock|done].
  - destruct (pipe_of ts); [|done]. cbn. by rewrite (IH m) by lia.
Qed.

(** The whole of [Parse]: any fuel above the lengths gives its answer. *)
Lemma Parse_fuel text n m :
  String.length text < n ->
  (forall ps, lex n false text = Some ps -> length ps < m) ->
  (ps ← lex n false text;
   match parse_nodes m ps with Some (ns, AtEOF, []) => Some ns | _ => None end) = Parse text.
Proof.
  intros Hn Hm. unfold Parse. rewrite (lex_fuel n (S (String.length text))) in * by lia.
  destruct (lex (S (String.length text)) false text) as [ps|]; [|done]. cbn.
  rewrite (parse_nodes_fuel m (S (length ps))); [done|by apply Hm|lia].
Qed.
