(* ===== verification/SDK.v ===== *)
(** * Interfaces to the code the program calls

    The machine-controller SDK, the semver library, the resolver of
    configuration variables, the environment of the process and the template
    functions of sprig: each a class of the operations the program uses. *)

From S2P Require Import Prelude GoStrings Types GoTemplate.

(** [k8c.io/machine-controller/sdk]: types and constants. *)
Class SDK := {
  (** [providerconfig.ConfigVarString] and [ConfigVarBool] *)
  ConfigVarString : Type;
  ConfigVarString_Value : ConfigVarString -> string;
  ConfigVarBool : Type;
  (** [providerconfig.NetworkConfig]; its methods accept a nil receiver *)
  NetworkConfig : Type;
  GetIPFamily : option NetworkConfig -> string;
  IsStaticIPConfig : option NetworkConfig -> bool;
  (** [providerconfig.OperatingSystem] *)
  OS_AmazonLinux2 : string;
  OS_Flatcar : string;
  OS_RHEL : string;
  OS_Ubuntu : string;
  OS_RockyLinux : string;
  (** [bootstrap.CloudConfigSecretNamePattern] applied with [fmt.Sprintf],
      [bootstrap.CloudInitSettingsNamespace], [bootstrap.BootstrapCloudConfig],
      [bootstrap.MachineDeploymentRevision] *)
  CloudConfigSecretName : string -> string -> string -> string;
  CloudInitSettingsNamespace : string;
  BootstrapCloudConfig : string;
  MachineDeploymentRevision : string;
  (** [providerconfig.CloudProviderAnexia] *)
  SDK_CloudProviderAnexia : string;
  (** [common]: the annotation of a machine deployment that holds its revision,
      and the kubelet settings in annotations *)
  RevisionAnnotation : string;
  KubeletConfigAnnotationPrefixV1 : string;
  KubeReservedKubeletConfig : string;
  SystemReservedKubeletConfig : string;
  EvictionHardKubeletConfig : string;
  MaxPodsKubeletConfig : string;
  ContainerLogMaxSizeKubeletConfig : string;
  ContainerLogMaxFilesKubeletConfig : string;
  ImageGCHighThresholdPercent : string;
  ImageGCLowThresholdPercent : string;
  ImageMinimumGCAge : string;
  ImageMaximumGCAge : string
}.

(** [providerconfig.Config]: the fields the program reads. *)
Record ProviderConfig `{SDK} := {
  PC_SSHPublicKeys : list string;
  PC_CloudProvider : string;
  PC_CloudProviderSpec : RawExtension;
  PC_OperatingSystem : string;
  PC_OperatingSystemSpec : RawExtension;
  PC_Network : option NetworkConfig;
  PC_OverwriteCloudConfig : option string
}.

(** A Go call that returns a value next to its error. *)
Definition checked {A} (p : A * option error) : result A :=
  match p.2 with None => Ok p.1 | Some e => Err e end.

(** [providerconfig.ConfigVarResolver].  Its answers are fixed while one
    configuration is generated. *)
Class ConfigVarResolver `{SDK} := {
  GetStringValue : ConfigVarString -> string * option error;
  GetStringValueOrEnv : ConfigVarString -> string -> string * option error;
  GetBoolValue : ConfigVarBool -> bool * bool * option error;
  GetBoolValueOrEnv : ConfigVarBool -> string -> bool * option error
}.

(** [github.com/Masterminds/semver/v3] *)
Class Semver := {
  Version : Type;
  NewVersion : string -> result Version;
  Version_String : Version -> string;
  (** [NewConstraint(c)] and [Check(v)] *)
  Constraint_Check : string -> Version -> bool
}.

(** [os.Getenv] *)
Class Environment := Getenv : string -> string.

(** [sprig.TxtFuncMap()] *)
Class Sprig := sprig : string -> list value -> result value.

(** ** Values for evaluating the model

    Stand-ins that satisfy the interfaces: variables are their own values, a
    version is a pair of a major and a minor number. *)
Module DemoSDK.

#[export] Instance sdk : SDK := {|
  ConfigVarString := string; ConfigVarString_Value s := s; ConfigVarBool := bool;
  NetworkConfig := bool; GetIPFamily _ := "IPv4"; IsStaticIPConfig n := default false n;
  OS_AmazonLinux2 := "amzn2"; OS_Flatcar := "flatcar"; OS_RHEL := "rhel"; OS_Ubuntu := "ubuntu";
  OS_RockyLinux := "rockylinux";
  CloudConfigSecretName name ns kind := name +:+ "-" +:+ ns +:+ "-" +:+ kind +:+ "-config";
  CloudInitSettingsNamespace := "cloud-init-settings";
  BootstrapCloudConfig := "bootstrap";
  MachineDeploymentRevision := "k8c.io/machine-deployment-revision";
  SDK_CloudProviderAnexia := "anexia";
  RevisionAnnotation := "machinedeployment.clusters.k8s.io/revision";
  KubeletConfigAnnotationPrefixV1 := "v1.kubelet-config.machine-controller.kubermatic.io";
  KubeReservedKubeletConfig := "KubeReserved"; SystemReservedKubeletConfig := "SystemReserved";
  EvictionHardKubeletConfig := "EvictionHard"; MaxPodsKubeletConfig := "MaxPods";
  ContainerLogMaxSizeKubeletConfig := "ContainerLogMaxSize";
  ContainerLogMaxFilesKubeletConfig := "ContainerLogMaxFiles";
  ImageGCHighThresholdPercent := "ImageGCHighThresholdPercent";
  ImageGCLowThresholdPercent := "ImageGCLowThresholdPercent";
  ImageMinimumGCAge := "ImageMinimumGCAge"; ImageMaximumGCAge := "ImageMaximumGCAge" |}.

#[export] Instance resolver : ConfigVarResolver := {|
  GetStringValue s := (s, None);
  GetStringValueOrEnv s _ := (s, None);
  GetBoolValue b := (b, true, None);
  GetBoolValueOrEnv b _ := (b, None) |}.

(** "1.30.x" is a version; the only constraint the program checks itself is
    [>= 1.29]. *)
Definition parse_version (s : string) : result (Z * Z) :=
  match Split (TrimPrefix s "v") "." with
  | major :: minor :: _ =>
      let! a := ParseInt10 major 32 in let! b := ParseInt10 minor 32 in Ok (a, b)
  | _ => Err (LibError "semver.NewVersion" s "invalid semantic version")
  end.
#[export] Instance semver : Semver := {|
  Version := Z * Z;
  NewVersion := parse_version;
  Version_String v := Itoa v.1 +:+ "." +:+ Itoa v.2 +:+ ".0";
  Constraint_Check _ v := (29 <=? v.2)%Z |}.

#[export] Instance environment : Environment := fun _ => "".

#[export] Instance sprig_functions : Sprig := fun name args =>
  if decide (name = "semverCompare") then Ok (VBool true)
  else if decide (name = "default") then
    match args with
    | [VString d; VString s] => Ok (VString (if decide (s = "") then d else s))
    | _ => Err (LibError "sprig" name "wrong type")
    end
  else if decide (name = "indent") then
    match args with
    | [VInt n; VString s] =>
        let pad := String.concat "" (repeat " " (Z.to_nat n)) in
        Ok (VString (pad +:+ ReplaceAll s NL (NL +:+ pad)))
    | _ => Err (LibError "sprig" name "wrong type")
    end
  else Err (LibError "sprig" name "function not defined").
End DemoSDK.
