(* ===== verification/ProviderConfig.v ===== *)
(** * Operating-system settings of a machine ([pkg/providerconfig])

    One [Config] per operating system with its [DefaultConfig] and
    [LoadConfig]; the five packages share the shape of their loader, which the
    section [Load] states once. *)

From S2P Require Import Prelude GoStrings Encoding Types.

Section Load.
Context {Config : Type} `{JsonUnmarshal Config, JsonMarshal Config} (zero : Config).

(** [DefaultConfig]: a missing specification becomes the JSON of the zero
    [Config]; the error of [Marshal] is dropped. *)
Definition default_config (operatingSystemSpec : RawExtension) : RawExtension :=
  match Raw operatingSystemSpec with
  | None => {| Raw := ok_value (json_Marshal zero) |}
  | Some _ => operatingSystemSpec
  end.

Definition load_config (r : RawExtension) : result Config :=
  json_Unmarshal (default "" (Raw (default_config r))).

Lemma load_config_missing `{!JsonRoundTrip Config} :
  is_ok (json_Marshal zero) = true -> load_config {| Raw := None |} = Ok zero.
Proof.
  unfold load_config, default_config. cbn. destruct (json_Marshal zero) eqn:E; [|done..].
  intros _. cbn. by eapply json_Unmarshal_Marshal.
Qed.

Lemma load_config_present raw : load_config {| Raw := Some raw |} = json_Unmarshal raw.
Proof. reflexivity. Qed.
End Load.

(** [pkg/providerconfig/common.go] *)
Module common.
Record Config := { DistUpgradeOnBoot : bool }.
Definition zero : Config := {| DistUpgradeOnBoot := false |}.
Definition DefaultConfig `{JsonMarshal Config} : RawExtension -> RawExtension := default_config zero.
Definition LoadConfig `{JsonUnmarshal Config, JsonMarshal Config} : RawExtension -> result Config :=
  load_config zero.
End common.

Module amzn2.
Record Config := { DistUpgradeOnBoot : bool }.
Definition zero : Config := {| DistUpgradeOnBoot := false |}.
Definition DefaultConfig `{JsonMarshal Config} : RawExtension -> RawExtension := default_config zero.
Definition LoadConfig `{JsonUnmarshal Config, JsonMarshal Config} : RawExtension -> result Config :=
  load_config zero.
End amzn2.

Module rockylinux.
Record Config := { DistUpgradeOnBoot : bool }.
Definition zero : Config := {| DistUpgradeOnBoot := false |}.
Definition DefaultConfig `{JsonMarshal Config} : RawExtension -> RawExtension := default_config zero.
Definition LoadConfig `{JsonUnmarshal Config, JsonMarshal Config} : RawExtension -> result Config :=
  load_config zero.
End rockylinux.

Module ubuntu.
Record Config := { DistUpgradeOnBoot : bool }.
Definition zero : Config := {| DistUpgradeOnBoot := false |}.
Definition DefaultConfig `{JsonMarshal Config} : RawExtension -> RawExtension := default_config zero.
Definition LoadConfig `{JsonUnmarshal Config, JsonMarshal Config} : RawExtension -> result Config :=
  load_config zero.
End ubuntu.

Module flatcar.
Definition Ignition : string := "ignition".
Definition CloudInit : string := "cloud-init".
Record Config := {
  DisableAutoUpdate : bool;
  DisableLocksmithD : bool;
  DisableUpdateEngine : bool;
  ProvisioningUtility : string
}.
Definition zero : Config :=
  {| DisableAutoUpdate := false; DisableLocksmithD := false; DisableUpdateEngine := false;
     ProvisioningUtility := "" |}.
Definition DefaultConfig `{JsonMarshal Config} : RawExtension -> RawExtension := default_config zero.
Definition LoadConfig `{JsonUnmarshal Config, JsonMarshal Config} : RawExtension -> result Config :=
  load_config zero.
End flatcar.

Module rhel.
Record Config := {
  DistUpgradeOnBoot : bool;
  RHELSubscriptionManagerUser : string;
  RHELSubscriptionManagerPassword : string;
  RHSMOfflineToken : string;
  AttachSubscription : bool;
  RHELUseSatelliteServer : bool;
  RHELSatelliteServer : string;
  RHELOrganizationName : string;
  RHELActivationKey : string
}.
Definition zero : Config :=
  {| DistUpgradeOnBoot := false; RHELSubscriptionManagerUser := "";
     RHELSubscriptionManagerPassword := ""; RHSMOfflineToken := ""; AttachSubscription := false;
     RHELUseSatelliteServer := false; RHELSatelliteServer := ""; RHELOrganizationName := "";
     RHELActivationKey := "" |}.
Definition DefaultConfig `{JsonMarshal Config} : RawExtension -> RawExtension := default_config zero.
Definition LoadConfig `{JsonUnmarshal Config, JsonMarshal Config} : RawExtension -> result Config :=
  load_config zero.

Definition RHSubscription (config : Config) : gmap string string :=
  if RHELUseSatelliteServer config then
    {[ "org" := RHELOrganizationName config;
       "activation-key" := RHELActivationKey config;
       "server-hostname" := RHELSatelliteServer config;
       "rhsm-baseurl" := "https://" +:+ RHELSatelliteServer config +:+ "/pulp/repos" ]}
  else
    {[ "username" := RHELSubscriptionManagerUser config;
       "password" := RHELSubscriptionManagerPassword config;
       "auto-attach" := FormatBool (AttachSubscription config) ]}.

(** The two ways to subscribe never mix: with a satellite server the user and
    the password of the subscription manager are not part of the map. *)
Lemma RHSubscription_keys config k :
  is_Some (RHSubscription config !! k) <->
  k ∈ (if RHELUseSatelliteServer config
       then ["org"; "activation-key"; "server-hostname"; "rhsm-baseurl"]
       else ["username"; "password"; "auto-attach"]).
Proof.
  unfold RHSubscription. destruct (RHELUseSatelliteServer config);
    rewrite !lookup_insert_is_Some, lookup_singleton_is_Some, !elem_of_cons, elem_of_nil;
    repeat match goal with |- context [?a = k] => rewrite (eq_comm a k) end;
    naive_solver congruence.
Qed.
End rhel.
