(* ===== verification/CloudProvider.v ===== *)
(** * Cloud configuration of the kubelet ([pkg/cloudprovider], [pkg/util/ini])

    One module per provider with its [getConfig] and [ToString]; the templates
    are the source's, parsed and executed by [GoTemplate]. *)

From S2P Require Import Prelude GoStrings Encoding NetURL Types GoTemplate SDK.

(** ** [ini.Escape]

    [strings.NewReplacer] with one-byte patterns replaces byte by byte. *)
Module ini.
Fixpoint escaper_Replace (s : string) : string :=
  match s with
  | EmptyString => EmptyString
  | String c s' =>
      (if ascii_dec c "\" then "\\"
       else if ascii_dec c "034" then "\" +:+ DQ
       else String c EmptyString) +:+ escaper_Replace s'
  end.

Definition Escape (s : string) : string := DQ +:+ escaper_Replace s +:+ DQ.

(** What the kubelet's parser, [gopkg.in/gcfg.v1], documents of a quoted value, from
    behind its opening quote to the end: printable characters stand for themselves
    except backslashes and quotes, which are escaped by a backslash, and a quote ends
    the value.  Nothing is said of other bytes: a line break, for one, is an error. *)
Definition printable (c : ascii) : bool := (32 <=? nat_of_ascii c)%nat && (nat_of_ascii c <=? 126)%nat.
Class QuotedValues := quoted_value : string -> option (string * string).
Class QuotedValuesLaws `{QuotedValues} : Prop := {
  quoted_end rest : quoted_value (String "034" rest) = Some (EmptyString, rest);
  quoted_backslash s v rest : quoted_value s = Some (v, rest) ->
    quoted_value (String "\" (String "\" s)) = Some (String "\" v, rest);
  quoted_quote s v rest : quoted_value s = Some (v, rest) ->
    quoted_value (String "\" (String "034" s)) = Some (String "034" v, rest);
  quoted_plain c s v rest : printable c = true -> c <> "\"%char -> c <> "034"%char ->
    quoted_value s = Some (v, rest) -> quoted_value (String c s) = Some (String c v, rest)
}.

(** Distinct values have distinct escapes, whatever their bytes are. *)
Lemma escaper_Replace_inj s1 s2 : escaper_Replace s1 = escaper_Replace s2 -> s1 = s2.
Proof.
  revert s2. induction s1 as [|c1 s1 IH]; intros [|c2 s2]; cbn [escaper_Replace]; [done|..].
  - by repeat destruct (ascii_dec _ _).
  - by repeat destruct (ascii_dec _ _).
  - intros Heq. assert (c1 = c2 /\ escaper_Replace s1 = escaper_Replace s2) as [-> Hs]; [|by rewrite (IH s2 Hs)].
    revert Heq. repeat destruct (ascii_dec _ _); subst; cbn; intros; simplify_eq; done.
Qed.

Lemma quoted_value_escaped `{QuotedValuesLaws} s rest :
  forallb printable (list_ascii_of_string s) = true ->
  quoted_value (escaper_Replace s +:+ String "034" rest) = Some (s, rest).
Proof.
  induction s as [|c s IH]; cbn [list_ascii_of_string forallb escaper_Replace]; [intros _; apply quoted_end|].
  intros [Hc Hs]%andb_true_iff. specialize (IH Hs). rewrite append_assoc.
  destruct (ascii_dec c "\") as [->|H1]; [|destruct (ascii_dec c "034") as [->|H2]].
  - by apply quoted_backslash.
  - by apply quoted_quote.
  - by apply quoted_plain.
Qed.

(** C36: a parser of quoted values that documents what gcfg documents gets a printable value back from what is escaped, and goes on behind it, whatever follows: no value can break out of its quotes; and distinct values, of any bytes, have distinct escapes *)
Theorem Escape_spec `{QuotedValuesLaws} :
  (forall s rest, forallb printable (list_ascii_of_string s) = true ->
     exists body, Escape s +:+ rest = String "034" body /\ quoted_value body = Some (s, rest)) /\
  Inj (=) (=) Escape.
Proof.
  split.
  - intros s rest Hs. exists (escaper_Replace s +:+ String "034" rest). split; [|by apply quoted_value_escaped].
    unfold Escape, DQ. by rewrite !append_assoc.
  - unfold Escape, DQ. intros s1 s2 Heq. apply escaper_Replace_inj. cbn in Heq. injection Heq as Heq.
    by apply (inj (fun a => a +:+ String "034" EmptyString)) in Heq.
Qed.

Module Demo.
(** A parser with these laws that refuses everything else. *)
Fixpoint scan (s : string) : option (string * string) :=
  match s with
  | String c s' =>
      if ascii_dec c "034" then Some (EmptyString, s')
      else if ascii_dec c "\" then
        match s' with
        | String c' s'' =>
            if ascii_dec c' "\" then '(v, r) ← scan s''; Some (String c' v, r)
            else if ascii_dec c' "034" then '(v, r) ← scan s''; Some (String c' v, r)
            else None
        | EmptyString => None
        end
      else if printable c then '(v, r) ← scan s'; Some (String c v, r) else None
  | EmptyString => None
  end.
#[export] Instance quoted : QuotedValues := scan.
#[export] Instance quoted_laws : QuotedValuesLaws.
Proof.
  split; unfold quoted_value, quoted; [done|intros s v rest Hs; cbn; by rewrite Hs..|].
  intros c s v rest Hc Hb Hq Hs. cbn. destruct (ascii_dec c "034"); [done|]. destruct (ascii_dec c "\"); [done|].
  by rewrite Hc, Hs.
Qed.
Definition password : string := "p\ss" +:+ DQ +:+ "w rd".
End Demo.

Lemma Escape_spec_witness :
  forallb printable (list_ascii_of_string Demo.password) = true /\
  exists body, Escape Demo.password +:+ "]" = String "034" body /\
    quoted_value (QuotedValues := Demo.quoted) body = Some (Demo.password, "]").
Proof.
  assert (forallb printable (list_ascii_of_string Demo.password) = true) as Hp by (vm_compute; reflexivity).
  split; [exact Hp|]. apply (@Escape_spec Demo.quoted Demo.quoted_laws). exact Hp.
Defined.
End ini.

(** ** What the providers share *)

Section Common.
Context `{SDK, Sprig}.

(** [sprig.TxtFuncMap()] with [iniEscape]. *)
Definition ini_funcs (name : string) (args : list value) : result value :=
  if decide (name = "iniEscape") then
    match args with
    | [VString s] => Ok (VString (ini.Escape s))
    | _ => Err (LibError "template.Execute" "iniEscape" "wrong type for value")
    end
  else sprig name args.

(** [template.New(..).Funcs(funcMap).Parse(tpl)] and [Execute]. *)
Definition render (tpl : string) (data : value) : result string :=
  let! nodes := wrapR "failed to parse the cloud config template: %w" [] (parsed tpl) in
  wrapR "failed to execute cloud config template: %w" [] (Execute ini_funcs nodes data).

Lemma render_parsed tpl ns data :
  Parse tpl = Some ns ->
  render tpl data = wrapR "failed to execute cloud config template: %w" [] (Execute ini_funcs ns data).
Proof. unfold render, parsed. by intros ->. Qed.

Definition unmarshal_spec {A} `{JsonUnmarshal A} (pconfig : ProviderConfig) : result A :=
  match Raw (PC_CloudProviderSpec pconfig) with
  | None => Err (Errorf "CloudProviderSpec in the MachineDeployment cannot be empty" [])
  | Some raw => wrapR "failed to unmarshal CloudProviderSpec: %w" [] (json_Unmarshal raw)
  end.

(** The body of every [GetCloudConfig]. *)
Definition get_cloud_config {A} (getConfig : result A) (ToString : A -> result string) : result string :=
  let! c := wrapR "failed to parse config: %w" [] getConfig in
  wrapR "failed to convert cloud-config to string: %w" [] (ToString c).
End Common.

(** ** AWS *)

Module aws.
Record RawConfig `{SDK} := {
  AvailabilityZone : ConfigVarString;
  VpcID : ConfigVarString;
  Raw_SubnetID : ConfigVarString
}.
Record GlobalOpts := { Zone : string; VPC : string; SubnetID : string }.
Record CloudConfig := { Global : GlobalOpts }.

Definition cloudConfigTpl : string := raw "[global]
Zone={{ .Global.Zone | iniEscape }}
VPC={{ .Global.VPC | iniEscape }}
SubnetID={{ .Global.SubnetID | iniEscape }}
".

Definition to_value (cc : CloudConfig) : value :=
  VStruct [("Global", VStruct [("Zone", VString (Zone (Global cc)));
    ("VPC", VString (VPC (Global cc))); ("SubnetID", VString (SubnetID (Global cc)))])].

Definition ToString `{Sprig} (cc : CloudConfig) : result string := render cloudConfigTpl (to_value cc).

Section Config.
Context `{ConfigVarResolver, !JsonUnmarshal RawConfig, Sprig}.

Definition getConfig (pconfig : ProviderConfig) : result CloudConfig :=
  let! rawConfig := unmarshal_spec pconfig in
  let! zone := checked (GetStringValue (AvailabilityZone rawConfig)) in
  let! vpc := checked (GetStringValue (VpcID rawConfig)) in
  let! subnet := checked (GetStringValue (Raw_SubnetID rawConfig)) in
  Ok {| Global := {| Zone := zone; VPC := vpc; SubnetID := subnet |} |}.

Definition GetCloudConfig (pconfig : ProviderConfig) : result string :=
  get_cloud_config (getConfig pconfig) ToString.
End Config.
End aws.

(** ** GCE *)

Module gce.
Record RawConfig `{SDK} := {
  ServiceAccount : ConfigVarString;
  Raw_Zone : ConfigVarString;
  Network : ConfigVarString;
  Subnetwork : ConfigVarString;
  Tags : list string;
  Raw_MultiZone : ConfigVarBool;
  Raw_Regional : ConfigVarBool
}.
Record GlobalOpts := {
  ProjectID : string;
  LocalZone : string;
  NetworkName : string;
  SubnetworkName : string;
  MultiZone : bool;
  Regional : bool;
  NodeTags : list string
}.
Record CloudConfig := { Global : GlobalOpts }.

Definition cloudConfigTemplate : string := raw "[global]
project-id = {{ .Global.ProjectID | iniEscape }}
local-zone = {{ .Global.LocalZone | iniEscape }}
network-name = {{ .Global.NetworkName | iniEscape }}
subnetwork-name = {{ .Global.SubnetworkName | iniEscape }}
multizone = {{ .Global.MultiZone }}
regional = {{ .Global.Regional }}
{{ range .Global.NodeTags }}node-tags = {{ . | iniEscape }}
{{end}}".

Definition to_value (cc : CloudConfig) : value :=
  let g := Global cc in
  VStruct [("Global", VStruct [("ProjectID", VString (ProjectID g)); ("LocalZone", VString (LocalZone g));
    ("NetworkName", VString (NetworkName g)); ("SubnetworkName", VString (SubnetworkName g));
    ("MultiZone", VBool (MultiZone g)); ("Regional", VBool (Regional g));
    ("NodeTags", VList (map VString (NodeTags g)))])].

Definition ToString `{Sprig} (cc : CloudConfig) : result string := render cloudConfigTemplate (to_value cc).

Section Config.
Context `{ConfigVarResolver, !JsonUnmarshal RawConfig, !JsonUnmarshal (gmap string string), Sprig}.

Definition getProjectID (rawConfig : RawConfig) : result string :=
  let! serviceAccount := wrapR "cannot retrieve service account: %w" []
    (checked (GetStringValueOrEnv (ServiceAccount rawConfig) "GOOGLE_SERVICE_ACCOUNT")) in
  let! sa := wrapR "failed to decode base64 service account: %w" [] (DecodeString serviceAccount) in
  let! sam := wrapR "failed unmarshalling service account: %w" [] (json_Unmarshal sa) in
  Ok (default "" (sam !! "project_id")).

Definition getConfig (pconfig : ProviderConfig) : result CloudConfig :=
  let! rawConfig := unmarshal_spec pconfig in
  let! _ := getProjectID rawConfig in
  let! zone := wrapR "cannot retrieve zone: %w" [] (checked (GetStringValue (Raw_Zone rawConfig))) in
  let! multiZone := wrapR "failed to retrieve multizone: %w" []
    (checked (let '(b, _, e) := GetBoolValue (Raw_MultiZone rawConfig) in (b, e))) in
  let! regional := wrapR "failed to retrieve regional: %w" []
    (checked (let '(b, _, e) := GetBoolValue (Raw_Regional rawConfig) in (b, e))) in
  let! network := wrapR "cannot retrieve network: %w" [] (checked (GetStringValue (Network rawConfig))) in
  let! subnetwork := wrapR "cannot retrieve subnetwork: %w" []
    (checked (GetStringValue (Subnetwork rawConfig))) in
  let! projectID := getProjectID rawConfig in
  Ok {| Global := {| ProjectID := projectID; LocalZone := zone; NetworkName := network;
          SubnetworkName := subnetwork; MultiZone := multiZone; Regional := regional;
          NodeTags := Tags rawConfig |} |}.

Definition GetCloudConfig (pconfig : ProviderConfig) : result string :=
  get_cloud_config (getConfig pconfig) ToString.
End Config.
End gce.

(** ** Azure *)

Module azure.
Definition AzureCloudProvider : string := "AZUREPUBLICCLOUD".

Record RawConfig `{SDK} := {
  Raw_SubscriptionID : ConfigVarString;
  Raw_TenantID : ConfigVarString;
  ClientID : ConfigVarString;
  ClientSecret : ConfigVarString;
  Raw_Location : ConfigVarString;
  Raw_ResourceGroup : ConfigVarString;
  VNetResourceGroup : ConfigVarString;
  Raw_VNetName : ConfigVarString;
  Raw_SubnetName : ConfigVarString;
  Raw_LoadBalancerSku : ConfigVarString;
  Raw_RouteTableName : ConfigVarString;
  AvailabilitySet : ConfigVarString;
  AssignAvailabilitySet : option bool;
  Raw_SecurityGroupName : ConfigVarString
}.

Record CloudConfig := {
  Cloud : string;
  TenantID : string;
  SubscriptionID : string;
  AADClientID : string;
  AADClientSecret : string;
  ResourceGroup : string;
  Location : string;
  VNetName : string;
  SubnetName : string;
  RouteTableName : string;
  SecurityGroupName : string;
  PrimaryAvailabilitySetName : string;
  VnetResourceGroup : string;
  UseInstanceMetadata : bool;
  LoadBalancerSku : string
}.

Definition ToString `{JsonMarshal CloudConfig} (cc : CloudConfig) : result string :=
  wrapR "failed to unmarshal config: %w" [] (json_Marshal cc).

Section Config.
Context `{ConfigVarResolver, !JsonUnmarshal RawConfig, !JsonMarshal CloudConfig}.

(** The availability set is used unless it is switched off or empty. *)
Definition primary_availability_set (assign : option bool) (availabilitySet : string) : string :=
  if bool_decide (assign = None) && negb (bool_decide (availabilitySet = "")) ||
     default false assign && negb (bool_decide (availabilitySet = ""))
  then availabilitySet else "".

Definition getConfig (pconfig : ProviderConfig) : result CloudConfig :=
  let! raw := unmarshal_spec pconfig in
  let field name r := wrapR ("failed to get the value of " +:+ DQ +:+ name +:+ DQ +:+ " field, error = %w") []
                        (checked r) in
  let! tenantID := field "tenantID" (GetStringValueOrEnv (Raw_TenantID raw) "AZURE_TENANT_ID") in
  let! subscriptionID :=
    field "subscriptionID" (GetStringValueOrEnv (Raw_SubscriptionID raw) "AZURE_SUBSCRIPTION_ID") in
  let! clientID := field "clientID" (GetStringValueOrEnv (ClientID raw) "AZURE_CLIENT_ID") in
  let! clientSecret := field "clientSecret" (GetStringValueOrEnv (ClientSecret raw) "AZURE_CLIENT_SECRET") in
  let! resourceGroup := field "resourceGroup" (GetStringValue (Raw_ResourceGroup raw)) in
  let! location := field "location" (GetStringValue (Raw_Location raw)) in
  let! vnetName := field "vnetName" (GetStringValue (Raw_VNetName raw)) in
  let! subnetName := field "subnetName" (GetStringValue (Raw_SubnetName raw)) in
  let! routeTableName := field "routeTableName" (GetStringValue (Raw_RouteTableName raw)) in
  let! securityGroupName := field "securityGroupName" (GetStringValue (Raw_SecurityGroupName raw)) in
  let! vnetResourceGroup := field "vnetResourceGroup" (GetStringValue (VNetResourceGroup raw)) in
  let! loadBalancerSku := field "loadBalancerSku" (GetStringValue (Raw_LoadBalancerSku raw)) in
  let! availabilitySet := field "availabilitySet" (GetStringValue (AvailabilitySet raw)) in
  Ok {| Cloud := AzureCloudProvider; TenantID := tenantID; SubscriptionID := subscriptionID;
        AADClientID := clientID; AADClientSecret := clientSecret; ResourceGroup := resourceGroup;
        Location := location; VNetName := vnetName; SubnetName := subnetName;
        RouteTableName := routeTableName; SecurityGroupName := securityGroupName;
        PrimaryAvailabilitySetName := primary_availability_set (AssignAvailabilitySet raw) availabilitySet;
        VnetResourceGroup := vnetResourceGroup; UseInstanceMetadata := true;
        LoadBalancerSku := loadBalancerSku |}.

Definition GetCloudConfig (pconfig : ProviderConfig) : result string :=
  get_cloud_config (getConfig pconfig) ToString.
End Config.
End azure.

(** ** KubeVirt *)

Module kubevirt.
Record RawConfig `{SDK} := { Auth_Kubeconfig : ConfigVarString }.
Record GlobalOpts := { Kubeconfig : string; Namespace : string }.
Record CloudConfig := { Global : GlobalOpts }.

(** [yaml.Marshal] of [gopkg.in/yaml.v3] *)
Class Yaml := yaml_Marshal : CloudConfig -> result string.

Definition ToString `{Yaml} (cc : CloudConfig) : result string := yaml_Marshal cc.

Section Config.
Context `{ConfigVarResolver, !JsonUnmarshal RawConfig, Yaml, Environment}.

Definition getNamespace : string :=
  let ns := Getenv "POD_NAMESPACE" in
  if decide (ns = "") then "kube-system" else ns.

(** A kubeconfig given inline must be base64; one from the environment or a
    secret is decoded when it is and used as it is otherwise. *)
Definition getKubeconfig (rawConfig : RawConfig) : result string :=
  let inline := ConfigVarString_Value (Auth_Kubeconfig rawConfig) in
  if decide (inline = "") then
    let! kubeconfig := wrapR ("failed to get value of " +:+ DQ +:+ "kubeconfig" +:+ DQ +:+ " field: %w") []
      (checked (GetStringValueOrEnv (Auth_Kubeconfig rawConfig) "KUBEVIRT_KUBECONFIG")) in
    Ok (default kubeconfig (ok_value (DecodeString kubeconfig)))
  else
    wrapR "failed to decode base64 encoded kubeconfig. Expected value is a base64 encoded Kubeconfig in JSON or YAML format: %w" []
      (DecodeString inline).

Definition getConfig (pconfig : ProviderConfig) : result CloudConfig :=
  let! rawConfig := unmarshal_spec pconfig in
  let! kubeconfig := getKubeconfig rawConfig in
  Ok {| Global := {| Kubeconfig := kubeconfig; Namespace := getNamespace |} |}.

Definition GetCloudConfig (pconfig : ProviderConfig) : result string :=
  get_cloud_config (getConfig pconfig) ToString.
End Config.
End kubevirt.

(** ** OpenStack *)

Module openstack.
Record RawConfig `{SDK} := {
  IdentityEndpoint : ConfigVarString;
  Raw_Username : ConfigVarString;
  Raw_Password : ConfigVarString;
  Raw_ApplicationCredentialID : ConfigVarString;
  Raw_ApplicationCredentialSecret : ConfigVarString;
  Raw_DomainName : ConfigVarString;
  Raw_ProjectName : ConfigVarString;
  Raw_ProjectID : ConfigVarString;
  TenantName : ConfigVarString;
  TenantID : ConfigVarString;
  TokenID : ConfigVarString;
  Raw_Region : ConfigVarString;
  Raw_TrustDevicePath : ConfigVarBool;
  Raw_NodeVolumeAttachLimit : option Z
}.
Record LoadBalancerOpts := { ManageSecurityGroups : bool }.
(** [NodeVolumeAttachLimit] is a [uint]. *)
Record BlockStorageOpts := {
  BSVersion : string;
  TrustDevicePath : bool;
  IgnoreVolumeAZ : bool;
  NodeVolumeAttachLimit : Z
}.
Record GlobalOpts := {
  AuthURL : string;
  Username : string;
  Password : string;
  ApplicationCredentialID : string;
  ApplicationCredentialSecret : string;
  ProjectName : string;
  ProjectID : string;
  DomainName : string;
  Region : string
}.
Record CloudConfig := {
  Global : GlobalOpts;
  LoadBalancer : LoadBalancerOpts;
  BlockStorage : BlockStorageOpts;
  Version : string
}.

Definition cloudConfigTpl : string := raw "[Global]
auth-url    = {{ .Global.AuthURL | iniEscape }}
{{- if .Global.ApplicationCredentialID }}
application-credential-id     = {{ .Global.ApplicationCredentialID | iniEscape }}
application-credential-secret = {{ .Global.ApplicationCredentialSecret | iniEscape }}
{{- else }}
username    = {{ .Global.Username | iniEscape }}
password    = {{ .Global.Password | iniEscape }}
tenant-name = {{ .Global.ProjectName | iniEscape }}
tenant-id   = {{ .Global.ProjectID | iniEscape }}
domain-name = {{ .Global.DomainName | iniEscape }}
{{- end }}
region      = {{ .Global.Region | iniEscape }}

[LoadBalancer]
{{- if semverCompare `~1.9.10 || ~1.10.6 || ~1.11.1 || >=1.12.*` .Version }}
manage-security-groups = {{ .LoadBalancer.ManageSecurityGroups }}
{{- end }}

[BlockStorage]
{{- if semverCompare `>=1.9` .Version }}
ignore-volume-az  = {{ .BlockStorage.IgnoreVolumeAZ }}
{{- end }}
trust-device-path = {{ .BlockStorage.TrustDevicePath }}
bs-version        = {{ default `auto` .BlockStorage.BSVersion | iniEscape }}
{{- if .BlockStorage.NodeVolumeAttachLimit }}
node-volume-attach-limit = {{ .BlockStorage.NodeVolumeAttachLimit }}
{{- end }}
".

Definition to_value (cc : CloudConfig) : value :=
  let g := Global cc in
  let b := BlockStorage cc in
  VStruct [
    ("Global", VStruct [("AuthURL", VString (AuthURL g)); ("Username", VString (Username g));
       ("Password", VString (Password g));
       ("ApplicationCredentialID", VString (ApplicationCredentialID g));
       ("ApplicationCredentialSecret", VString (ApplicationCredentialSecret g));
       ("ProjectName", VString (ProjectName g)); ("ProjectID", VString (ProjectID g));
       ("DomainName", VString (DomainName g)); ("Region", VString (Region g))]);
    ("LoadBalancer", VStruct [("ManageSecurityGroups", VBool (ManageSecurityGroups (LoadBalancer cc)))]);
    ("BlockStorage", VStruct [("BSVersion", VString (BSVersion b));
       ("TrustDevicePath", VBool (TrustDevicePath b)); ("IgnoreVolumeAZ", VBool (IgnoreVolumeAZ b));
       ("NodeVolumeAttachLimit", VInt (NodeVolumeAttachLimit b))]);
    ("Version", VString (Version cc))].

Definition ToString `{Sprig} (cc : CloudConfig) : result string := render cloudConfigTpl (to_value cc).

Section Config.
Context `{ConfigVarResolver, !JsonUnmarshal RawConfig, Sprig}.

(** "if err == nil and the value is not empty, else the tenant" *)
Definition first_of (a b : string * option error) : result string :=
  match a with
  | (v, None) => if decide (v = "") then checked b else Ok v
  | _ => checked b
  end.

Definition getProjectNameOrTenantName (rawConfig : RawConfig) : result string :=
  first_of (GetStringValueOrEnv (Raw_ProjectName rawConfig) "OS_PROJECT_NAME")
           (GetStringValueOrEnv (TenantName rawConfig) "OS_TENANT_NAME").

Definition getProjectIDOrTenantID (rawConfig : RawConfig) : result string :=
  first_of (GetStringValueOrEnv (Raw_ProjectID rawConfig) "OS_PROJECT_ID")
           (GetStringValueOrEnv (TenantID rawConfig) "OS_TENANT_ID").

(** [getConfigAuth] fills the options it is given. *)
Definition getConfigAuth (c : GlobalOpts) (rawConfig : RawConfig) : result GlobalOpts :=
  let field name r := wrapR ("failed to get the value of " +:+ DQ +:+ name +:+ DQ +:+ " field, error = %w") []
                        (checked r) in
  let! credID := field "applicationCredentialID"
    (GetStringValueOrEnv (Raw_ApplicationCredentialID rawConfig) "OS_APPLICATION_CREDENTIAL_ID") in
  if negb (bool_decide (credID = "")) then
    let! credSecret := field "applicationCredentialSecret"
      (GetStringValueOrEnv (Raw_ApplicationCredentialSecret rawConfig) "OS_APPLICATION_CREDENTIAL_SECRET") in
    Ok {| AuthURL := AuthURL c; Username := Username c; Password := Password c;
          ApplicationCredentialID := credID; ApplicationCredentialSecret := credSecret;
          ProjectName := ProjectName c; ProjectID := ProjectID c; DomainName := DomainName c;
          Region := Region c |}
  else
    let! username := field "username" (GetStringValueOrEnv (Raw_Username rawConfig) "OS_USER_NAME") in
    let! password := field "password" (GetStringValueOrEnv (Raw_Password rawConfig) "OS_PASSWORD") in
    let! projectName := wrapR ("failed to get the value of " +:+ DQ +:+ "projectName" +:+ DQ
        +:+ " field or fallback to " +:+ DQ +:+ "tenantName" +:+ DQ +:+ " field, error = %w") []
      (getProjectNameOrTenantName rawConfig) in
    let! projectID := wrapR ("failed to get the value of " +:+ DQ +:+ "projectID" +:+ DQ
        +:+ " or fallback to" +:+ DQ +:+ "tenantID" +:+ DQ +:+ " field, error = %w") []
      (getProjectIDOrTenantID rawConfig) in
    Ok {| AuthURL := AuthURL c; Username := username; Password := password;
          ApplicationCredentialID := credID; ApplicationCredentialSecret := ApplicationCredentialSecret c;
          ProjectName := projectName; ProjectID := projectID; DomainName := DomainName c;
          Region := Region c |}.

Definition getConfig (pconfig : ProviderConfig) (kubeletVersion : string) : result CloudConfig :=
  let! rawConfig := unmarshal_spec pconfig in
  let region := fst (GetStringValueOrEnv (Raw_Region rawConfig) "OS_REGION_NAME") in
  let domainName := fst (GetStringValueOrEnv (Raw_DomainName rawConfig) "OS_DOMAIN_NAME") in
  let! authURL := wrapR ("failed to get the value of " +:+ DQ +:+ "identityEndpoint" +:+ DQ +:+ " field, error = %w") []
    (checked (GetStringValueOrEnv (IdentityEndpoint rawConfig) "OS_AUTH_URL")) in
  let! trustDevicePath :=
    checked (let '(b, _, e) := GetBoolValue (Raw_TrustDevicePath rawConfig) in (b, e)) in
  let! opts := getConfigAuth
    {| AuthURL := authURL; Username := ""; Password := ""; ApplicationCredentialID := "";
       ApplicationCredentialSecret := ""; ProjectName := ""; ProjectID := ""; DomainName := domainName;
       Region := region |} rawConfig in
  Ok {| Global := opts;
        BlockStorage := {| BSVersion := "auto"; TrustDevicePath := trustDevicePath; IgnoreVolumeAZ := true;
                           NodeVolumeAttachLimit := default 0%Z (Raw_NodeVolumeAttachLimit rawConfig) |};
        LoadBalancer := {| ManageSecurityGroups := true |};
        Version := kubeletVersion |}.

Definition GetCloudConfig (pconfig : ProviderConfig) (kubeletVersion : string) : result string :=
  get_cloud_config (getConfig pconfig kubeletVersion) ToString.
End Config.
End openstack.

(** ** vSphere *)

Module vsphere.
Record RawConfig `{SDK} := {
  TemplateVMName : ConfigVarString;
  VMNetName : ConfigVarString;
  Username : ConfigVarString;
  Raw_Password : ConfigVarString;
  VSphereURL : ConfigVarString;
  Raw_Datacenter : ConfigVarString;
  Raw_Cluster : ConfigVarString;
  Raw_Folder : ConfigVarString;
  DatastoreCluster : ConfigVarString;
  Datastore : ConfigVarString;
  AllowInsecure : ConfigVarBool
}.
Record WorkspaceOpts := {
  VCenterIP : string;
  Datacenter : string;
  Folder : string;
  DefaultDatastore : string
}.
Record DiskOpts := { SCSIControllerType : string }.
Record GlobalOpts := {
  User : string;
  Password : string;
  InsecureFlag : bool;
  VCenterPort : string;
  ClusterID : string;
  IPFamily : string
}.
Record VirtualCenterConfig := {
  VC_User : string;
  VC_Password : string;
  VC_VCenterPort : string;
  VC_Datacenters : string;
  VC_IPFamily : string
}.
Record CloudConfig := {
  Global : GlobalOpts;
  Disk : DiskOpts;
  Workspace : WorkspaceOpts;
  VirtualCenter : gmap string VirtualCenterConfig
}.

Definition cloudConfigTpl : string := raw "[Global]
user              = {{ .Global.User | iniEscape }}
password          = {{ .Global.Password | iniEscape }}
port              = {{ .Global.VCenterPort | iniEscape }}
insecure-flag     = {{ .Global.InsecureFlag }}
{{- if .Global.IPFamily }}
ip-family         = {{ .Global.IPFamily | iniEscape }}
{{- end }}

[Disk]
scsicontrollertype = {{ .Disk.SCSIControllerType | iniEscape }}

[Workspace]
server            = {{ .Workspace.VCenterIP | iniEscape }}
datacenter        = {{ .Workspace.Datacenter | iniEscape }}
folder            = {{ .Workspace.Folder | iniEscape }}
default-datastore = {{ .Workspace.DefaultDatastore | iniEscape }}

{{ range $name, $vc := .VirtualCenter }}
[VirtualCenter {{ $name | iniEscape }}]
user = {{ $vc.User | iniEscape }}
password = {{ $vc.Password | iniEscape }}
port = {{ $vc.VCenterPort }}
datacenters = {{ $vc.Datacenters | iniEscape }}
{{- if $vc.IPFamily }}
ip-family = {{ $vc.IPFamily | iniEscape }}
{{- end }}
{{ end }}
".

Definition to_value (cc : CloudConfig) : value :=
  let g := Global cc in
  let w := Workspace cc in
  VStruct [
    ("Global", VStruct [("User", VString (User g)); ("Password", VString (Password g));
       ("InsecureFlag", VBool (InsecureFlag g)); ("VCenterPort", VString (VCenterPort g));
       ("ClusterID", VString (ClusterID g)); ("IPFamily", VString (IPFamily g))]);
    ("Disk", VStruct [("SCSIControllerType", VString (SCSIControllerType (Disk cc)))]);
    ("Workspace", VStruct [("VCenterIP", VString (VCenterIP w)); ("Datacenter", VString (Datacenter w));
       ("Folder", VString (Folder w)); ("DefaultDatastore", VString (DefaultDatastore w))]);
    ("VirtualCenter", VMap (map (fun name => (name,
       VPtr ((fun vc => VStruct [("User", VString (VC_User vc)); ("Password", VString (VC_Password vc));
         ("VCenterPort", VString (VC_VCenterPort vc)); ("Datacenters", VString (VC_Datacenters vc));
         ("IPFamily", VString (VC_IPFamily vc))]) <$> VirtualCenter cc !! name)))
       (sorted_keys (VirtualCenter cc))))].

Definition ToString `{Sprig} (cc : CloudConfig) : result string := render cloudConfigTpl (to_value cc).

Section Config.
Context `{ConfigVarResolver, !JsonUnmarshal RawConfig, Sprig, NetURL}.

Definition getURL (rawConfig : RawConfig) : result URL :=
  let! vsphereURL := checked (GetStringValueOrEnv (VSphereURL rawConfig) "VSPHERE_ADDRESS") in
  let vsphereURL := if HasPrefix vsphereURL "https://" then vsphereURL else "https://" +:+ vsphereURL in
  wrapR "failed to parse '%s' as url: %w" [vsphereURL] (url_Parse vsphereURL).

Definition getConfig (pconfig : ProviderConfig) : result CloudConfig :=
  let! rawConfig := unmarshal_spec pconfig in
  let! vsphereURL := getURL rawConfig in
  let! user := checked (GetStringValueOrEnv (Username rawConfig) "VSPHERE_USERNAME") in
  let! password := checked (GetStringValueOrEnv (Raw_Password rawConfig) "VSPHERE_PASSWORD") in
  let! insecureFlag := checked (GetBoolValueOrEnv (AllowInsecure rawConfig) "VSPHERE_ALLOW_INSECURE") in
  let! clusterID := checked (GetStringValue (Raw_Cluster rawConfig)) in
  let! datacenter := checked (GetStringValue (Raw_Datacenter rawConfig)) in
  let! folder := checked (GetStringValue (Raw_Folder rawConfig)) in
  let! datastore := checked (GetStringValue (Datastore rawConfig)) in
  let! datastoreCluster := checked (GetStringValue (DatastoreCluster rawConfig)) in
  let defaultDatastore := if decide (datastore = "") then datastoreCluster else datastore in
  let workingDir := if decide (folder = "") then "/" +:+ datacenter +:+ "/vm" else folder in
  Ok {| Global := {| User := user; Password := password; InsecureFlag := insecureFlag;
                     VCenterPort := url_Port vsphereURL; ClusterID := clusterID; IPFamily := "" |};
        Disk := {| SCSIControllerType := "pvscsi" |};
        Workspace := {| Datacenter := datacenter; VCenterIP := url_Hostname vsphereURL;
                        DefaultDatastore := defaultDatastore; Folder := workingDir |};
        VirtualCenter := {[ url_Hostname vsphereURL :=
          {| VC_VCenterPort := url_Port vsphereURL; VC_Datacenters := datacenter; VC_User := user;
             VC_Password := password; VC_IPFamily := "" |} ]} |}.

Definition GetCloudConfig (pconfig : ProviderConfig) : result string :=
  get_cloud_config (getConfig pconfig) ToString.
End Config.
End vsphere.

(** ** [cloudprovider.go] *)

(** Everything the dispatch needs. *)
Class CloudLibs `{SDK} := {
  #[global] libs_resolver :: ConfigVarResolver;
  #[global] libs_semver :: Semver;
  #[global] libs_sprig :: Sprig;
  #[global] libs_url :: NetURL;
  #[global] libs_env :: Environment;
  #[global] libs_yaml :: kubevirt.Yaml;
  #[global] libs_aws :: JsonUnmarshal aws.RawConfig;
  #[global] libs_azure :: JsonUnmarshal azure.RawConfig;
  #[global] libs_azure_marshal :: JsonMarshal azure.CloudConfig;
  #[global] libs_gce :: JsonUnmarshal gce.RawConfig;
  #[global] libs_string_map :: JsonUnmarshal (gmap string string);
  #[global] libs_kubevirt :: JsonUnmarshal kubevirt.RawConfig;
  #[global] libs_openstack :: JsonUnmarshal openstack.RawConfig;
  #[global] libs_vsphere :: JsonUnmarshal vsphere.RawConfig
}.

(** "cloud-config is not required for these cloud providers" *)
Definition no_cloud_config : list CloudProvider :=
  [CloudProviderAlibaba; CloudProviderAnexia; CloudProviderDigitalocean; CloudProviderHetzner;
   CloudProviderLinode; CloudProviderScaleway; CloudProviderNutanix; CloudProviderVMwareCloudDirector;
   CloudProviderOpenNebula; CloudProviderEdge; CloudProviderBaremetal].

Section Dispatch.
Context `{CloudLibs}.

Definition provider_cloud_config (pconfig : ProviderConfig) (kubeletVersion : string) : result string :=
  let cloudProvider := PC_CloudProvider pconfig in
  if decide (cloudProvider = CloudProviderAWS) then aws.GetCloudConfig pconfig
  else if decide (cloudProvider = CloudProviderAzure) then azure.GetCloudConfig pconfig
  else if decide (cloudProvider = CloudProviderGoogle) then gce.GetCloudConfig pconfig
  else if decide (cloudProvider = CloudProviderKubeVirt) then kubevirt.GetCloudConfig pconfig
  else if decide (cloudProvider = CloudProviderOpenstack) then openstack.GetCloudConfig pconfig kubeletVersion
  else if decide (cloudProvider = CloudProviderVsphere) then vsphere.GetCloudConfig pconfig
  else if bool_decide (cloudProvider ∈ no_cloud_config) then Ok ""
  else Err (Errorf "unknown cloud provider" []).

Definition GetCloudConfig (external : bool) (pconfig : ProviderConfig) (kubeletVersion : string) : result string :=
  if external then Ok ""
  else
    let! kubeSemVer := wrapR "failed to parse kubelet version: %w" [] (NewVersion kubeletVersion) in
    if Constraint_Check ">= 1.29" kubeSemVer then Ok ""
    else provider_cloud_config pconfig kubeletVersion.

(** The in-tree flag and the out-of-tree flag; the error is always nil. *)
Definition KubeletCloudProviderConfig (cloudProvider : string) (external : bool) : result (bool * bool) :=
  if bool_decide (cloudProvider ∈ [CloudProviderAWS; CloudProviderAzure; CloudProviderGoogle; CloudProviderVsphere])
  then Ok (negb external, external) else Ok (false, external).
End Dispatch.

(** ** What the templates print *)

Definition line (key v : string) : string := NL +:+ key +:+ ini.Escape v.

(** Run the engine on a concrete template and symbolic data, keeping the
    printed pieces folded. *)
Ltac exec_template :=
  lazy -[ini.Escape Itoa FormatBool String.append sprig Z.eqb].
(** Flatten what was printed. *)
Ltac flatten_text :=
  unfold line; rewrite ?append_assoc, ?append_nil_l, ?append_nil_r; reflexivity.

(** the OpenStack configuration as text: with an application credential
    neither user, password, tenant nor domain is written, without one they are;
    every string is escaped; the two version-dependent lines follow
    [semverCompare] and the volume limit is written only when it is not 0. *)
Theorem openstack_ToString `{Sprig} (cc : openstack.CloudConfig) (lb bs : bool)
    (Hlb : sprig "semverCompare" [VString "~1.9.10 || ~1.10.6 || ~1.11.1 || >=1.12.*";
             VString (openstack.Version cc)] = Ok (VBool lb))
    (Hbs : sprig "semverCompare" [VString ">=1.9"; VString (openstack.Version cc)] = Ok (VBool bs))
    (Hdef : forall s, sprig "default" [VString "auto"; VString s]
              = Ok (VString (if decide (s = "") then "auto" else s))) :
  let g := openstack.Global cc in
  let b := openstack.BlockStorage cc in
  openstack.ToString cc = Ok (
    "[Global]" +:+ line "auth-url    = " (openstack.AuthURL g) +:+
    (if decide (openstack.ApplicationCredentialID g = "") then
       line "username    = " (openstack.Username g) +:+
       line "password    = " (openstack.Password g) +:+
       line "tenant-name = " (openstack.ProjectName g) +:+
       line "tenant-id   = " (openstack.ProjectID g) +:+
       line "domain-name = " (openstack.DomainName g)
     else
       line "application-credential-id     = " (openstack.ApplicationCredentialID g) +:+
       line "application-credential-secret = " (openstack.ApplicationCredentialSecret g)) +:+
    line "region      = " (openstack.Region g) +:+ NL +:+ NL +:+ "[LoadBalancer]" +:+
    (if lb then NL +:+ "manage-security-groups = " +:+
       FormatBool (openstack.ManageSecurityGroups (openstack.LoadBalancer cc)) else "") +:+
    NL +:+ NL +:+ "[BlockStorage]" +:+
    (if bs then NL +:+ "ignore-volume-az  = " +:+ FormatBool (openstack.IgnoreVolumeAZ b) else "") +:+
    NL +:+ "trust-device-path = " +:+ FormatBool (openstack.TrustDevicePath b) +:+
    line "bs-version        = " (if decide (openstack.BSVersion b = "") then "auto" else openstack.BSVersion b) +:+
    (if (openstack.NodeVolumeAttachLimit b =? 0)%Z then ""
     else NL +:+ "node-volume-attach-limit = " +:+ Itoa (openstack.NodeVolumeAttachLimit b)) +:+ NL).
Proof.
  destruct cc as [[authURL user pass credID credSecret pname pid dom reg] [msg] [bsv tdp iaz lim] ver].
  cbn in Hlb, Hbs |- *. unfold openstack.ToString.
  erewrite render_parsed by (vm_compute; reflexivity).
  specialize (Hdef bsv). set (bsv' := if decide (bsv = "") then _ else _) in *. clearbody bsv'.
  destruct credID as [|c0 credID]; destruct lb; destruct bs;
    exec_template; rewrite Hlb; exec_template; rewrite Hbs; exec_template; rewrite Hdef;
    exec_template; destruct (lim =? 0)%Z; flatten_text.
Qed.

(** the GCE configuration as text: one [node-tags] line per tag, in
    order, and every string escaped. *)
Theorem gce_ToString `{Sprig} (cc : gce.CloudConfig) :
  let g := gce.Global cc in
  gce.ToString cc = Ok (
    "[global]" +:+ line "project-id = " (gce.ProjectID g) +:+ line "local-zone = " (gce.LocalZone g) +:+
    line "network-name = " (gce.NetworkName g) +:+ line "subnetwork-name = " (gce.SubnetworkName g) +:+
    NL +:+ "multizone = " +:+ FormatBool (gce.MultiZone g) +:+
    NL +:+ "regional = " +:+ FormatBool (gce.Regional g) +:+ NL +:+
    Join (map (fun t => "node-tags = " +:+ ini.Escape t +:+ NL) (gce.NodeTags g)) "").
Proof.
  destruct cc as [[pid zone net subnet mz rg tags]]. cbn. unfold gce.ToString.
  erewrite render_parsed by (vm_compute; reflexivity).
  unfold Execute. cbn [exec_nodes].
  erewrite (exec_range_list _ VString (fun t => "node-tags = " +:+ ini.Escape t +:+ NL));
    [|reflexivity|reflexivity].
  set (tail := Join _ _). exec_template. flatten_text.
Qed.

(** ** What the configurations hold *)

Lemma checked_Ok {A} (p : A * option error) a : checked p = Ok a <-> p = (a, None).
Proof. unfold checked. destruct p as [x [e|]]; cbn; naive_solver. Qed.

(** an OpenStack configuration authenticates in one way: with an
    application credential the user, password, project name and project id stay
    empty; without one the application secret stays empty.  The volume options
    have their fixed values and the version is the kubelet's. *)
Theorem openstack_getConfig_auth `{ConfigVarResolver, !JsonUnmarshal openstack.RawConfig}
    (pconfig : ProviderConfig) (version : string) (cc : openstack.CloudConfig)
    (Hok : openstack.getConfig pconfig version = Ok cc) :
  let g := openstack.Global cc in
  (if decide (openstack.ApplicationCredentialID g = "")
   then openstack.ApplicationCredentialSecret g = ""
   else openstack.Username g = "" /\ openstack.Password g = "" /\
        openstack.ProjectName g = "" /\ openstack.ProjectID g = "") /\
  openstack.BSVersion (openstack.BlockStorage cc) = "auto" /\
  openstack.ManageSecurityGroups (openstack.LoadBalancer cc) = true /\
  openstack.Version cc = version.
Proof.
  cbn. unfold openstack.getConfig, openstack.getConfigAuth in Hok. inv_bind Hok.
  inv_bind Hx2.
  match type of Hx2 with context [bool_decide ?P] => destruct (bool_decide P) eqn:E end;
    cbn [negb] in Hx2; inv_bind Hx2; cbn; split_and!; try done.
  - apply bool_decide_eq_true in E. by rewrite decide_True.
  - apply bool_decide_eq_false in E. by rewrite decide_False.
Qed.

(** a vSphere configuration has one virtual center, the server of its
    workspace, reached with the credentials, port and datacenter of the other
    sections; an empty folder and an empty datastore have been replaced. *)
Theorem vsphere_getConfig_center `{ConfigVarResolver, !JsonUnmarshal vsphere.RawConfig, NetURL}
    (pconfig : ProviderConfig) (cc : vsphere.CloudConfig)
    (Hok : vsphere.getConfig pconfig = Ok cc) :
  let g := vsphere.Global cc in
  let w := vsphere.Workspace cc in
  vsphere.VirtualCenter cc = {[ vsphere.VCenterIP w :=
    {| vsphere.VC_User := vsphere.User g; vsphere.VC_Password := vsphere.Password g;
       vsphere.VC_VCenterPort := vsphere.VCenterPort g; vsphere.VC_Datacenters := vsphere.Datacenter w;
       vsphere.VC_IPFamily := vsphere.IPFamily g |} ]} /\
  vsphere.Folder w <> "" /\ vsphere.IPFamily g = "".
Proof.
  cbn. unfold vsphere.getConfig in Hok. inv_bind Hok. cbn. split_and!; [done| |done].
  destruct (decide _); [|done]. by rewrite append_cons.
Qed.

(** The providers with an in-tree cloud configuration. *)
Definition in_tree_providers : list CloudProvider :=
  [CloudProviderAWS; CloudProviderAzure; CloudProviderGoogle; CloudProviderKubeVirt;
   CloudProviderOpenstack; CloudProviderVsphere].

(** credentials reach a machine's cloud configuration only for an in-tree
    provider and a kubelet older than 1.29: an accepted configuration that is
    not empty means that the provider is not external, that the version parsed
    and is below 1.29, and that the provider is one of six; and a kubelet never
    runs with both an in-tree and an external provider. *)
Theorem GetCloudConfig_nonempty `{CloudLibs} (external : bool) (pconfig : ProviderConfig)
    (version s : string) (Hok : GetCloudConfig external pconfig version = Ok s) (Hs : s <> "") :
  external = false /\
  (exists v, NewVersion version = Ok v /\ Constraint_Check ">= 1.29" v = false) /\
  PC_CloudProvider pconfig ∈ in_tree_providers /\
  provider_cloud_config pconfig version = Ok s /\
  (forall inTree outOfTree, KubeletCloudProviderConfig (PC_CloudProvider pconfig) external = Ok (inTree, outOfTree) ->
     inTree && outOfTree = false).
Proof.
  unfold GetCloudConfig in Hok. destruct external; [by simplify_eq|].
  inv_bind Hok. destruct (Constraint_Check _ x) eqn:Hc; [by simplify_eq|].
  split_and!; [done|by exists x| |done|].
  - unfold provider_cloud_config in Hok. unfold in_tree_providers. set_unfold.
    repeat (destruct (decide _); [by auto 10|]).
    destruct (bool_decide _); simplify_eq.
  - intros i o. unfold KubeletCloudProviderConfig. destruct (bool_decide _); by intros [= <- <-].
Qed.

(** ** Evaluation on concrete inputs *)

Module Demo.
#[export] Existing Instances DemoSDK.sdk DemoSDK.resolver DemoSDK.semver DemoSDK.environment
  DemoSDK.sprig_functions SplitURL.splitter.

#[export] Instance aws_json : JsonUnmarshal aws.RawConfig := fun _ =>
  Ok (@aws.Build_RawConfig DemoSDK.sdk "eu-1a" "vpc-1" "subnet-1").
#[export] Instance azure_json : JsonUnmarshal azure.RawConfig := fun s =>
  Err (LibError "json.Unmarshal" s "unexpected end").
#[export] Instance azure_marshal : JsonMarshal azure.CloudConfig := fun cc => Ok (azure.Location cc).
#[export] Instance gce_json : JsonUnmarshal gce.RawConfig := fun s =>
  Err (LibError "json.Unmarshal" s "unexpected end").
#[export] Instance map_json : JsonUnmarshal (gmap string string) := fun _ => Ok ∅.
#[export] Instance kubevirt_json : JsonUnmarshal kubevirt.RawConfig := fun s =>
  Err (LibError "json.Unmarshal" s "unexpected end").
#[export] Instance openstack_json : JsonUnmarshal openstack.RawConfig := fun _ =>
  Ok (@openstack.Build_RawConfig DemoSDK.sdk "https://id" "user" "pw" "cred" "s3cret" "dom" "proj" "pid"
        "tname" "tid" "tok" "region" true None).
#[export] Instance vsphere_json : JsonUnmarshal vsphere.RawConfig := fun _ =>
  Ok (@vsphere.Build_RawConfig DemoSDK.sdk "tpl" "net" "user" "pw" "vc.io:8443" "dc" "cl" "" "" "ds" true).
#[export] Instance yaml : kubevirt.Yaml := fun cc => Ok (kubevirt.Namespace (kubevirt.Global cc)).
#[export] Instance libs : CloudLibs := {| libs_resolver := DemoSDK.resolver |}.

Definition pconfig (provider : string) : ProviderConfig :=
  {| PC_SSHPublicKeys := []; PC_CloudProvider := provider;
     PC_CloudProviderSpec := {| Raw := Some "spec" |}; PC_OperatingSystem := "ubuntu";
     PC_OperatingSystemSpec := {| Raw := None |}; PC_Network := None; PC_OverwriteCloudConfig := None |}.

Definition no_openstack : openstack.CloudConfig :=
  openstack.Build_CloudConfig (openstack.Build_GlobalOpts "" "" "" "" "" "" "" "" "")
    (openstack.Build_LoadBalancerOpts false) (openstack.Build_BlockStorageOpts "" false false 0) "".
Definition openstack_config : openstack.CloudConfig :=
  default no_openstack (ok_value (openstack.getConfig (pconfig "openstack") "1.28.0")).
Definition vsphere_config : vsphere.CloudConfig :=
  default (vsphere.Build_CloudConfig (vsphere.Build_GlobalOpts "" "" false "" "" "")
             (vsphere.Build_DiskOpts "") (vsphere.Build_WorkspaceOpts "" "" "" "") ∅)
    (ok_value (vsphere.getConfig (pconfig "vsphere"))).
End Demo.
Import Demo.

Lemma openstack_ToString_witness :
  exists s, openstack.ToString Demo.openstack_config = Ok s.
Proof.
  eexists. apply (openstack_ToString Demo.openstack_config true true);
    [vm_compute; reflexivity|vm_compute; reflexivity|intros s; reflexivity].
Defined.

Lemma openstack_getConfig_auth_witness :
  openstack.getConfig (Demo.pconfig "openstack") "1.28.0" = Ok Demo.openstack_config /\
  openstack.ApplicationCredentialID (openstack.Global Demo.openstack_config) = "cred" /\
  openstack.Version Demo.openstack_config = "1.28.0".
Proof.
  assert (openstack.getConfig (Demo.pconfig "openstack") "1.28.0" = Ok Demo.openstack_config) as Hok
    by (apply ok_default; vm_compute; reflexivity).
  split; [exact Hok|]. split; [vm_compute; reflexivity|].
  apply (openstack_getConfig_auth _ _ _ Hok).
Defined.

Lemma vsphere_getConfig_center_witness :
  vsphere.getConfig (Demo.pconfig "vsphere") = Ok Demo.vsphere_config /\
  vsphere.VCenterIP (vsphere.Workspace Demo.vsphere_config) = "vc.io" /\
  vsphere.Folder (vsphere.Workspace Demo.vsphere_config) <> "".
Proof.
  assert (vsphere.getConfig (Demo.pconfig "vsphere") = Ok Demo.vsphere_config) as Hok
    by (apply ok_default; vm_compute; reflexivity).
  split; [exact Hok|]. split; [vm_compute; reflexivity|].
  apply (vsphere_getConfig_center _ _ Hok).
Defined.

Lemma GetCloudConfig_nonempty_witness :
  exists s, GetCloudConfig false (Demo.pconfig "aws") "1.28.3" = Ok s /\
    PC_CloudProvider (Demo.pconfig "aws") ∈ in_tree_providers.
Proof.
  destruct (GetCloudConfig false (Demo.pconfig "aws") "1.28.3") as [s|e|w] eqn:E;
    [|vm_compute in E; discriminate..].
  exists s. split; [reflexivity|].
  apply (GetCloudConfig_nonempty false (Demo.pconfig "aws") "1.28.3" s E).
  intros ->. vm_compute in E. discriminate.
Defined.
