(* ===== verification/Generator.v ===== *)
(** * The user-data generator ([pkg/generator])

    [provisioner.go], [util.go], [template_functions.go], [convertor.go] and
    [generator.go].  The two templates are the source's; the transpiler from
    container-linux configurations to Ignition is an interface. *)

From S2P Require Import Prelude GoStrings Encoding Types GoTemplate SDK ProviderConfig.

(** [jsonutil.StrictUnmarshal] of the SDK, into a [providerconfig.Config]. *)
Class SDKJson `{SDK} := SDK_StrictUnmarshal : string -> result ProviderConfig.

(** [github.com/flatcar/container-linux-config-transpiler/config]: [Parse] with
    [report.IsFatal()] and its text, [Convert] with the entries of its report,
    and [json.Marshal] of the result. *)
Class Transpiler := {
  CLConfig : Type;
  CLAst : Type;
  IgnConfig : Type;
  config_Parse : string -> CLConfig * CLAst * option string;
  config_Convert : CLConfig -> string -> CLAst -> IgnConfig * list string;
  ign_Marshal : IgnConfig -> result string
}.

(** The raw bytes of the provider specification: [Value] may be nil. *)
Definition provider_raw (md : MachineDeployment) : result string :=
  let! value := deref "md.Spec.Template.Spec.ProviderSpec.Value" (MD_ProviderSpec_Value md) in
  Ok (default "" (Raw value)).

(** ** [provisioner.go] *)

Section Provisioner.
Context `{SDKJson, !JsonUnmarshal flatcar.Config, !JsonMarshal flatcar.Config}.

Definition GetProvisioningUtility (osName : OperatingSystem) (md : MachineDeployment)
    : result ProvisioningUtility :=
  if decide (osName = OperatingSystemFlatcar) then
    let! raw := provider_raw md in
    let! providerConfig := wrapR "failed to decode provider configs: %w" [] (SDK_StrictUnmarshal raw) in
    let! config := flatcar.LoadConfig (PC_OperatingSystemSpec providerConfig) in
    if decide (flatcar.ProvisioningUtility config = "") then Ok ProvisioningUtilityIgnition
    else Ok (flatcar.ProvisioningUtility config)
  else Ok ProvisioningUtilityCloudInit.
End Provisioner.

(** ** [util.go] *)

Definition GetServiceName (path : string) : string :=
  let fileName := List.last (Split path "/") "" in
  if decide (List.last (SplitAfter fileName ".") "" = "service") then fileName else "".

(** ** [generator.go] *)

Record fileSpec := {
  fileSpec_Path : string;
  fileSpec_Content : string;
  fileSpec_Encoding : string;
  fileSpec_Permissions : option string
}.
Record dropInSpec := { dropInSpec_Name : string; dropInSpec_Content : string }.
Record unitSpec := {
  unitSpec_Name : string;
  unitSpec_Enable : bool;
  unitSpec_Mask : bool;
  unitSpec_Content : string;
  unitSpec_DropIns : list dropInSpec
}.

(** [template_functions.go] *)
Definition runCMDs (fSpecs : list fileSpec) : list string :=
  filter (fun service => service <> "") (map (fun spec => GetServiceName (fileSpec_Path spec)) fSpecs).

(** The loop over the files: a file without inline content is a nil
    dereference; the octal prefix is added to three digits. *)
Definition file_spec (provisioner : ProvisioningUtility) (file : File) : result fileSpec :=
  let! inline := deref "file.Content.Inline" (Inline (File_Content file)) in
  let content :=
    if bool_decide (Inline_Encoding inline = "b64") && bool_decide (provisioner = ProvisioningUtilityCloudInit)
    then EncodeToString (Inline_Data inline) else Inline_Data inline in
  let permissions := Itoa (File_Permissions file) in
  let permissions := if decide (String.length permissions = 3) then "0" +:+ permissions else permissions in
  Ok {| fileSpec_Path := File_Path file; fileSpec_Content := content;
        fileSpec_Encoding := Inline_Encoding inline; fileSpec_Permissions := Some permissions |}.

Fixpoint file_specs (provisioner : ProvisioningUtility) (l : list File) : result (list fileSpec) :=
  match l with
  | [] => Ok []
  | f :: l' =>
      let! s := file_spec provisioner f in
      let! ss := file_specs provisioner l' in Ok (s :: ss)
  end.

Definition unit_spec (unit : Unit) : unitSpec :=
  {| unitSpec_Name := Unit_Name unit;
     unitSpec_Enable := default false (Unit_Enable unit);
     unitSpec_Mask := default false (Unit_Mask unit);
     unitSpec_Content := default "" (Unit_Content unit);
     unitSpec_DropIns := map (fun d => {| dropInSpec_Name := DropIn_Name d;
                                          dropInSpec_Content := DropIn_Content d |}) (Unit_DropIns unit) |}.

(** [seen] is the set of keys already in the result. *)
Fixpoint dedup_keys (seen : gset string) (keys : list string) : list string :=
  match keys with
  | [] => []
  | key :: keys' =>
      let trimmed := TrimSpace key in
      if decide (trimmed = "") then dedup_keys seen keys'
      else if decide (trimmed ∈ seen) then dedup_keys seen keys'
      else trimmed :: dedup_keys ({[ trimmed ]} ∪ seen) keys'
  end.
Definition deduplicateSSHKeys (keys : list string) : list string := dedup_keys ∅ keys.

Definition cloudInitTemplate : string := raw "#cloud-config
{{- /* Hostname is configured only for the bootstrap configuration */}}
{{- if eq .ConfigurationType `bootstrap` -}}
{{- if ne .CloudProviderName `aws` -}}
{{- /* Never set the hostname on AWS nodes. Kubernetes(kube-proxy) requires the hostname to be the private dns name */}}
{{- /* machine-controller will replace `<MACHINE_NAME>` placeholder with the name of the machine */}}
hostname: <MACHINE_NAME>
{{- end -}}
{{ end }}

{{ if .OSConfig.DistUpgradeOnBoot -}}
package_upgrade: true
package_reboot_if_required: true
{{ end -}}

ssh_pwauth: false

ssh_authorized_keys:
{{ range $_, $key := .UserSSHKeys -}}
- '{{ $key }}'
{{ end -}}

write_files:
{{- range $_, $file := .Files }}
- path: '{{ $file.Path }}'
  permissions: '{{or $file.Permissions 0644}}'
{{- if $file.Encoding }}
  encoding: '{{ $file.Encoding }}'
{{- end }}
  content: |-
{{ $file.Content | indent 4 }}
{{ end }}

{{- /* Hostname is configured only for the bootstrap configuration */}}
{{- if eq .ConfigurationType `bootstrap` -}}
{{ if ne .CloudProviderName `aws` }}
{{- /* Never set the hostname on AWS nodes. Kubernetes(kube-proxy) requires the hostname to be the private dns name */}}
{{- /* machine-controller will replace `<MACHINE_NAME>` placeholder with the name of the machine */}}
- path: /etc/machine-name
  permissions: '0600'
  content: |-
        <MACHINE_NAME>
{{ end }}
{{- end -}}

{{- if .Units -}}
coreos:
  units:
{{- range $_, $unit := .Units }}
  - name: `{{ $unit.Name }}`
    enable: {{or $unit.Enable false}}
    {{ if $unit.Enable -}}
	command: start
	{{- end }}
    mask: {{or $unit.Mask false}}
{{ with $unit.Content }}
    content: |
{{ . | indent 6 }}
{{- end }}
{{ with $unit.DropIns }}
    drop_ins:
{{- range $_, $dropIn := . }}
      - name: `{{ $dropIn.Name }}`
        content: |
{{ $dropIn.Content | indent 10 }}
{{- end }}
{{- end }}
{{- end }}
{{- end }}

{{- if .CloudInitModules -}}
{{ if .CloudInitModules.BootCMD }}
bootcmd:
{{- range $_, $cmd := .CloudInitModules.BootCMD }}
- {{ $cmd }}
{{- end }}
{{ end }}

{{- if .CloudInitModules.RunCMD }}
runcmd:
{{- range $_, $val := .CloudInitModules.RunCMD }}
- {{ $val -}}
{{ end }}
{{ end }}

{{- if .CloudInitModules.RHSubscription }}
rh_subscription:
{{- range $key, $val := .CloudInitModules.RHSubscription }}
    {{ $key }}: {{ $val -}}
{{ end }}
{{ end }}

{{- if .CloudInitModules.YumRepos }}
yum_repos:
{{- range $key, $val := .CloudInitModules.YumRepos }}
    {{ $key }}:
{{- range $prop, $propVal := $val }}
       {{ $prop }}: {{ $propVal }}
{{- end }}
{{- end }}
{{ end }}

{{- if .CloudInitModules.YumRepoDir }}
yum_repo_dir: {{ .CloudInitModules.YumRepoDir }}
{{- end }}
{{- end }}".

Definition ignitionTemplate : string := raw "passwd:
{{- if ne (len .UserSSHKeys) 0 }}
  users:
    - name: core
      ssh_authorized_keys:
        {{range .UserSSHKeys}}- {{.}}
        {{end}}
{{- end }}
storage:
  files:
{{- /* Hostname is configured only for the bootstrap configuration */}}
{{- if eq .ConfigurationType `bootstrap` -}}
{{- if ne .CloudProviderName `aws` -}}
{{- /* Never set the hostname on AWS nodes. Kubernetes(kube-proxy) requires the hostname to be the private dns name */}}
{{- /* machine-controller will replace `<MACHINE_NAME>` placeholder with the name of the machine */}}
  - path: /etc/machine-name
    mode: 0600
    filesystem: root
    contents:
        inline: '<MACHINE_NAME>'
{{ end }}
{{ end }}
{{- range $_, $file := .Files }}
  - path: '{{ $file.Path }}'
    mode: {{or $file.Permissions 0644}}
    filesystem: root
    contents:
        inline: |
{{ $file.Content | indent 10 }}
{{- end }}
systemd:
  units:
{{- range $_, $unit := .Units }}
  - name: {{ $unit.Name }}
    enabled: {{or $unit.Enable false}}
    mask: {{or $unit.Mask false}}
{{ with $unit.Content }}
    contents: |
{{ . | indent 6 }}
{{- end }}
{{ with $unit.DropIns }}
    dropins:
{{- range $_, $dropIn := . }}
      - name: {{ $dropIn.Name }}
        contents: |
{{ $dropIn.Content | indent 10 }}
{{- end }}
{{- end }}
{{- end }}
".

Definition getUserDataTemplate (p : ProvisioningUtility) (mdName cloudProvider : string) : string :=
  if decide (p = ProvisioningUtilityIgnition) then ignitionTemplate
  else if decide (cloudProvider = "edge") then ReplaceAll cloudInitTemplate "<MACHINE_NAME>" mdName
  else cloudInitTemplate.

(** ** The data of the templates *)

Definition file_value (f : fileSpec) : value :=
  VPtr (Some (VStruct [("Path", VString (fileSpec_Path f)); ("Content", VString (fileSpec_Content f));
    ("Encoding", VString (fileSpec_Encoding f));
    ("Permissions", VPtr (VString <$> fileSpec_Permissions f))])).

Definition dropIn_value (d : dropInSpec) : value :=
  VStruct [("Name", VString (dropInSpec_Name d)); ("Content", VString (dropInSpec_Content d))].

Definition unit_value (u : unitSpec) : value :=
  VPtr (Some (VStruct [("Name", VString (unitSpec_Name u)); ("Enable", VBool (unitSpec_Enable u));
    ("Mask", VBool (unitSpec_Mask u)); ("Content", VString (unitSpec_Content u));
    ("DropIns", VList (map dropIn_value (unitSpec_DropIns u)))])).

Definition map_value {A} (f : A -> value) (m : gmap string A) : value :=
  VMap (map (fun k => (k, from_option f (VString "") (m !! k))) (sorted_keys m)).

Definition module_value (m : CloudInitModule) : value :=
  VStruct [("BootCMD", VList (map VString (BootCMD m)));
    ("RHSubscription", map_value VString (RHSubscription m));
    ("RunCMD", VList (map VString (RunCMD m)));
    ("YumRepos", map_value (map_value VString) (YumRepos m));
    ("YumRepoDir", VString (YumRepoDir m))].

Record templateData := {
  data_Files : list fileSpec;
  data_Units : list unitSpec;
  data_UserSSHKeys : list string;
  data_CloudInitModules : option CloudInitModule;
  data_CloudProviderName : string;
  data_OperatingSystem : string;
  data_ConfigurationType : string;
  data_OSConfig : common.Config
}.

Definition data_value (d : templateData) : value :=
  VStruct [("Files", VList (map file_value (data_Files d)));
    ("Units", VList (map unit_value (data_Units d)));
    ("UserSSHKeys", VList (map VString (data_UserSSHKeys d)));
    ("CloudInitModules", VPtr (module_value <$> data_CloudInitModules d));
    ("CloudProviderName", VString (data_CloudProviderName d));
    ("OperatingSystem", VString (data_OperatingSystem d));
    ("ConfigurationType", VString (data_ConfigurationType d));
    ("OSConfig", VStruct [("DistUpgradeOnBoot", VBool (common.DistUpgradeOnBoot (data_OSConfig d)))])].

(** [TxtFuncMap]: the functions of sprig and [runCMDs], which reads the paths. *)
Definition value_path (v : value) : string :=
  match get_field "Path" v with Ok (VString s) => s | _ => "" end.
Definition TxtFuncMap `{Sprig} (name : string) (args : list value) : result value :=
  if decide (name = "runCMDs") then
    match args with
    | [VList l] => Ok (VList (map VString
        (filter (fun service => service <> "") (map (fun v => GetServiceName (value_path v)) l))))
    | _ => Err (LibError "template.Execute" name "wrong type for value")
    end
  else sprig name args.

(** ** [convertor.go] *)

Definition toIgnition `{Transpiler} (s : string) : result string :=
  let '(cfg, ast, fatal) := config_Parse s in
  match fatal with
  | Some report => Err (Errorf "failed to validate coreos cloud config: %s" [report])
  | None =>
      let '(ignCfg, entries) := config_Convert cfg "" ast in
      match entries with
      | [] => wrapR "failed to marshal ignition config: %w" [] (ign_Marshal ignCfg)
      | _ => Err (Errorf "failed to convert container linux config to ignition: %s" entries)
      end
  end.

Class GeneratorLibs `{SDK} := {
  #[global] gen_sdk_json :: SDKJson;
  #[global] gen_flatcar_unmarshal :: JsonUnmarshal flatcar.Config;
  #[global] gen_flatcar_marshal :: JsonMarshal flatcar.Config;
  #[global] gen_common_unmarshal :: JsonUnmarshal common.Config;
  #[global] gen_common_marshal :: JsonMarshal common.Config;
  #[global] gen_sprig :: Sprig;
  #[global] gen_transpiler :: Transpiler
}.

Section Generate.
Context `{GeneratorLibs}.

(** The text a template prints for the data, before the conversion. *)
Definition user_data (provisioner : ProvisioningUtility) (mdName : string) (d : templateData) : result string :=
  let! tmpl := wrapR "failed to parse user-data template: %w" []
    (parsed (getUserDataTemplate provisioner mdName (data_CloudProviderName d))) in
  Execute TxtFuncMap tmpl (data_value d).

Definition Generate (config : OSCConfig) (provisioningUtility : ProvisioningUtility)
    (operatingSystem : OperatingSystem) (cloudProvider : CloudProvider) (md : MachineDeployment)
    (secretType : string) : result string :=
  let! provisioner := wrapR "failed to determine provisioning utility: %w" []
    (GetProvisioningUtility operatingSystem md) in
  if negb (bool_decide (provisioningUtility = "")) && negb (bool_decide (provisioner = provisioningUtility))
  then Err (Errorf "specified provisioning utility %q is not supported by the OperatingSystemConfig"
              [provisioningUtility])
  else
    let! files := file_specs provisioner (OSCConfig_Files config) in
    let units := map unit_spec (OSCConfig_Units config) in
    let! raw := provider_raw md in
    let! providerConfig := wrapR "failed to decode provider configs: %w" [] (SDK_StrictUnmarshal raw) in
    let! osConfig := common.LoadConfig (PC_OperatingSystemSpec providerConfig) in
    let! buf := user_data provisioner (MD_Name md)
      {| data_Files := files; data_Units := units;
         data_UserSSHKeys := deduplicateSSHKeys (UserSSHKeys config);
         data_CloudInitModules := OSCConfig_CloudInitModules config;
         data_CloudProviderName := cloudProvider;
         data_OperatingSystem := operatingSystem;
         data_ConfigurationType := secretType;
         data_OSConfig := osConfig |} in
    if decide (provisioner = ProvisioningUtilityCloudInit) then Ok buf else toIgnition buf.
End Generate.

(** ** SSH keys *)

Definition normalized (keys : list string) : list string :=
  filter (fun k => k <> "") (map TrimSpace keys).

Lemma dedup_keys_spec seen keys :
  dedup_keys seen keys `sublist_of` normalized keys /\
  NoDup (dedup_keys seen keys) /\
  (forall k, k ∈ dedup_keys seen keys <-> k ∈ normalized keys /\ k ∉ seen).
Proof.
  revert seen. induction keys as [|key keys IH]; intros seen.
  { cbn. split_and!; [done|constructor|set_solver]. }
  unfold normalized in *. cbn [map dedup_keys]. rewrite filter_cons.
  destruct (decide (TrimSpace key = "")) as [He|He].
  { rewrite decide_False by (intros Hn; by apply Hn). apply IH. }
  rewrite (decide_True (P := TrimSpace key <> "")) by done. destruct (decide (TrimSpace key ∈ seen)) as [Hs|Hs].
  - destruct (IH seen) as (H1 & H2 & H3). split_and!; [by constructor|done|].
    intros k. rewrite H3. set_solver.
  - destruct (IH ({[TrimSpace key]} ∪ seen)) as (H1 & H2 & H3). split_and!.
    + by constructor.
    + constructor; [|done]. rewrite H3. set_solver.
    + intros k. rewrite elem_of_cons, H3.
      destruct (decide (k = TrimSpace key)); set_solver.
Qed.

Lemma normalized_elem keys k :
  k ∈ normalized keys <-> k <> "" /\ exists key, key ∈ keys /\ k = TrimSpace key.
Proof. unfold normalized. rewrite list_elem_of_filter, list_elem_of_fmap. naive_solver. Qed.

(** Deduplicating what is normalized and has no duplicates changes nothing. *)
Lemma dedup_keys_id seen keys :
  NoDup keys -> (forall k, k ∈ keys -> k ∉ seen /\ k <> "" /\ TrimSpace k = k) ->
  dedup_keys seen keys = keys.
Proof.
  intros Hnd. revert seen. induction Hnd as [|k keys Hk Hnd IH]; intros seen Hall; [done|].
  destruct (Hall k) as (H1 & H2 & H3); [by left|]. cbn. rewrite H3.
  rewrite !decide_False by done. f_equal. apply IH. intros k' Hk'.
  destruct (Hall k') as (? & ? & ?); [by right|]. split_and!; set_solver.
Qed.

(** Reading more keys only appends. *)
Lemma dedup_keys_app seen l1 l2 :
  exists seen', dedup_keys seen (l1 ++ l2) = dedup_keys seen l1 ++ dedup_keys seen' l2.
Proof.
  revert seen. induction l1 as [|k l1 IH]; intros seen; [by exists seen|]. cbn.
  destruct (decide (TrimSpace k = "")); [apply IH|]. destruct (decide (TrimSpace k ∈ seen)); [apply IH|].
  destruct (IH ({[TrimSpace k]} ∪ seen)) as [seen' ->]. by exists seen'.
Qed.

(** [deduplicateSSHKeys] keeps the trimmed, non-empty keys, each once, in
    the order of their first occurrence (more keys only append to the result);
    doing it again changes nothing. *)
Theorem deduplicateSSHKeys_spec (keys : list string) :
  deduplicateSSHKeys keys `sublist_of` normalized keys /\
  NoDup (deduplicateSSHKeys keys) /\
  (forall k, k ∈ deduplicateSSHKeys keys <-> k <> "" /\ exists key, key ∈ keys /\ k = TrimSpace key) /\
  (forall l1 l2, keys = l1 ++ l2 -> deduplicateSSHKeys l1 `prefix_of` deduplicateSSHKeys keys) /\
  deduplicateSSHKeys (deduplicateSSHKeys keys) = deduplicateSSHKeys keys.
Proof.
  unfold deduplicateSSHKeys. destruct (dedup_keys_spec ∅ keys) as (H1 & H2 & H3).
  split_and!; [done|done| | |].
  - intros k. rewrite H3, normalized_elem. set_solver.
  - intros l1 l2 ->. destruct (dedup_keys_app ∅ l1 l2) as [seen' ->]. by eexists.
  - apply dedup_keys_id; [done|]. intros k (Hk & _)%H3.
    apply normalized_elem in Hk as (Hne & key & _ & ->).
    split_and!; [set_solver|done|apply TrimSpace_idemp].
Qed.

(** ** What the cloud-init template prints

    The text is stated piece by piece; [concat_map f l] is the texts of the
    elements of a list one after the other. *)

Definition concat_map {A} (f : A -> string) (l : list A) : string := Join (map f l) "".
Definition is_nil {A} (l : list A) : bool := match l with [] => true | _ => false end.

Section CloudInitText.
(** [indent] of sprig *)
Variable indent : Z -> string -> string.

Definition file_text (f : fileSpec) : string :=
  NL +:+ "- path: '" +:+ fileSpec_Path f +:+ "'" +:+ NL +:+
  "  permissions: '" +:+ default "420" (fileSpec_Permissions f) +:+ "'" +:+
  (if bool_decide (fileSpec_Encoding f = "") then ""
   else NL +:+ "  encoding: '" +:+ fileSpec_Encoding f +:+ "'") +:+ NL +:+
  "  content: |-" +:+ NL +:+ indent 4 (fileSpec_Content f) +:+ NL.

(** The machine sets its hostname itself only while bootstrapping, and never
    on AWS. *)
Definition sets_hostname (d : templateData) : bool :=
  bool_decide (data_ConfigurationType d = "bootstrap") && negb (bool_decide (data_CloudProviderName d = "aws")).

Definition hostname_text (d : templateData) : string :=
  if sets_hostname d then NL +:+ "hostname: <MACHINE_NAME>" else "".

Definition machine_name_text (d : templateData) : string :=
  if sets_hostname d then
    NL +:+ "- path: /etc/machine-name" +:+ NL +:+ "  permissions: '0600'" +:+ NL +:+ "  content: |-" +:+ NL +:+
    "        <MACHINE_NAME>" +:+ NL
  else "".

Definition drop_in_text (d : dropInSpec) : string :=
  NL +:+ "      - name: " +:+ DQ +:+ dropInSpec_Name d +:+ DQ +:+ NL +:+ "        content: |" +:+ NL +:+
  indent 10 (dropInSpec_Content d).

Definition unit_text (u : unitSpec) : string :=
  NL +:+ "  - name: " +:+ DQ +:+ unitSpec_Name u +:+ DQ +:+ NL +:+
  "    enable: " +:+ FormatBool (unitSpec_Enable u) +:+ NL +:+
  "    " +:+ (if unitSpec_Enable u then "command: start" else "") +:+ NL +:+
  "    mask: " +:+ FormatBool (unitSpec_Mask u) +:+ NL +:+
  (if bool_decide (unitSpec_Content u = "") then ""
   else NL +:+ "    content: |" +:+ NL +:+ indent 6 (unitSpec_Content u)) +:+ NL +:+
  (if is_nil (unitSpec_DropIns u) then ""
   else NL +:+ "    drop_ins:" +:+ concat_map drop_in_text (unitSpec_DropIns u)).

Definition units_text (us : list unitSpec) : string :=
  if is_nil us then "" else "coreos:" +:+ NL +:+ "  units:" +:+ concat_map unit_text us.

Definition commands_text (title : string) (cmds : list string) : string :=
  if is_nil cmds then ""
  else NL +:+ title +:+ concat_map (fun c => NL +:+ "- " +:+ c) cmds +:+ NL.

Definition entry_text (pad : string) (m : gmap string string) (k : string) : string :=
  NL +:+ pad +:+ k +:+ ": " +:+ default "" (m !! k).

Definition subscription_text (m : gmap string string) : string :=
  if is_nil (sorted_keys m) then ""
  else NL +:+ "rh_subscription:" +:+ concat_map (entry_text "    " m) (sorted_keys m) +:+ NL.

Definition repo_text (m : gmap string (gmap string string)) (k : string) : string :=
  let repo := default ∅ (m !! k) in
  NL +:+ "    " +:+ k +:+ ":" +:+ concat_map (entry_text "       " repo) (sorted_keys repo).

Definition repos_text (m : gmap string (gmap string string)) : string :=
  if is_nil (sorted_keys m) then ""
  else NL +:+ "yum_repos:" +:+ concat_map (repo_text m) (sorted_keys m) +:+ NL.

Definition modules_text (o : option CloudInitModule) : string :=
  match o with
  | None => ""
  | Some m =>
      commands_text "bootcmd:" (BootCMD m) +:+ commands_text "runcmd:" (RunCMD m) +:+
      subscription_text (RHSubscription m) +:+ repos_text (YumRepos m) +:+
      (if bool_decide (YumRepoDir m = "") then "" else NL +:+ "yum_repo_dir: " +:+ YumRepoDir m)
  end.

Definition cloud_init_text (d : templateData) : string :=
  "#cloud-config" +:+ hostname_text d +:+ NL +:+ NL +:+
  (if common.DistUpgradeOnBoot (data_OSConfig d)
   then "package_upgrade: true" +:+ NL +:+ "package_reboot_if_required: true" +:+ NL else "") +:+
  "ssh_pwauth: false" +:+ NL +:+ NL +:+ "ssh_authorized_keys:" +:+ NL +:+
  concat_map (fun k => "- '" +:+ k +:+ "'" +:+ NL) (data_UserSSHKeys d) +:+
  "write_files:" +:+ concat_map file_text (data_Files d) +:+ machine_name_text d +:+
  units_text (data_Units d) +:+ modules_text (data_CloudInitModules d).
End CloudInitText.

Definition cloudInitNodes : list node := Eval vm_compute in default [] (Parse cloudInitTemplate).
Lemma Parse_cloudInitTemplate : Parse cloudInitTemplate = Some cloudInitNodes.
Proof. vm_compute. reflexivity. Qed.

Ltac exec_user_data :=
  lazy -[Itoa FormatBool String.append sprig sorted_keys lookup gmap_lookup map_value].
Ltac flatten_user_data :=
  rewrite ?append_assoc, ?append_nil_l, ?append_nil_r; reflexivity.

Lemma truth_list {A} (f : A -> value) l : truth (VList (map f l)) = negb (is_nil l).
Proof. by destruct l. Qed.
Lemma truth_keys (f : string -> value) ks : truth (VMap (map (fun k => (k, f k)) ks)) = negb (is_nil ks).
Proof. by destruct ks. Qed.
Lemma if_negb {A} (b : bool) (x y : A) : (if negb b then x else y) = if b then y else x.
Proof. by destruct b. Qed.

(** Run the nodes of a body on symbolic data; [indent] stays folded.  [Hindent] is the
    equation of sprig's [indent]. *)
Ltac run_body Hindent :=
  exec_user_data; repeat (rewrite Hindent; exec_user_data); flatten_user_data.

(** Each node of a list in turn; [special] handles the blocks. *)
Ltac node_by_node Hindent special :=
  eapply exec_nodes_ok;
  repeat (eapply List.Forall2_cons;
          [first [special | exec_user_data; repeat (rewrite Hindent; exec_user_data); reflexivity]|]);
  apply List.Forall2_nil.

(** The body of a [range] or another block of a template. *)
Definition range_body (n : node) : list string * list node :=
  match n with NRange names _ body _ => (names, body) | _ => ([], []) end.
Definition body_of (n : node) : list node :=
  match n with NIf _ body _ | NWith _ body _ => body | _ => [] end.

Section CloudInit.
Context `{Sprig} (indent : Z -> string -> string).
Hypothesis Hindent : forall n s, sprig "indent" [VInt n; VString s] = Ok (VString (indent n s)).

Definition exec_range_body (n : node) (k v : value) (vars : env) : result string :=
  exec_nodes TxtFuncMap (range_body n).2 (bind_vars (range_body n).1 k v vars) v.

Definition files_node : node := Eval vm_compute in nth 8 cloudInitNodes (NText "").
Definition units_node : node := Eval vm_compute in nth 13 cloudInitNodes (NText "").
Definition modules_node : node := Eval vm_compute in nth 15 cloudInitNodes (NText "").

Lemma exec_file i f vars :
  exec_range_body files_node i (file_value f) vars = Ok (file_text indent f).
Proof using Hindent.
  destruct f as [path content enc perms]. destruct perms as [perms|], enc as [|c enc]; run_body Hindent.
Qed.

Definition drop_ins_node : node :=
  Eval vm_compute in nth 1 (body_of (nth 11 (range_body (nth 1 (body_of units_node) (NText ""))).2 (NText ""))) (NText "").

Lemma exec_drop_in i dr vars :
  exec_range_body drop_ins_node i (dropIn_value dr) vars = Ok (drop_in_text indent dr).
Proof using Hindent. destruct dr as [name content]. run_body Hindent. Qed.

Definition unit_node : node := Eval vm_compute in nth 1 (body_of units_node) (NText "").

Lemma exec_drop_ins dot vars drops :
  assoc "$unit" vars = Some dot -> get_field "DropIns" dot = Ok (VList (map dropIn_value drops)) ->
  exec TxtFuncMap (nth 11 (range_body unit_node).2 (NText "")) vars dot =
  Ok (if negb (is_nil drops) then NL +:+ "    drop_ins:" +:+ concat_map (drop_in_text indent) drops else "").
Proof using Hindent.
  intros Hu Hd. rewrite <-(truth_list dropIn_value).
  eapply exec_NWith_ok.
  - cbn. rewrite Hu. cbn. by rewrite Hd.
  - intros _. eapply eq_trans.
    + node_by_node Hindent ltac:(eapply (exec_range_list _ dropIn_value (drop_in_text indent));
        [reflexivity|intros; apply exec_drop_in]).
    + cbn [Join]. unfold concat_map. flatten_user_data.
Qed.

Lemma exec_unit i u vars :
  exec_range_body unit_node i (unit_value u) vars = Ok (unit_text indent u).
Proof using Hindent.
  destruct u as [name en mask content drops]. unfold exec_range_body.
  destruct en, mask, content as [|c content];
    (eapply eq_trans;
     [node_by_node Hindent ltac:(eapply (exec_drop_ins _ _ drops); reflexivity)
     |cbn [Join]; unfold unit_text; cbn [unitSpec_Name unitSpec_Enable unitSpec_Mask
        unitSpec_Content unitSpec_DropIns]; rewrite if_negb; flatten_user_data]).
Qed.

Lemma exec_units d :
  exec TxtFuncMap units_node [("$", data_value d)] (data_value d) = Ok (units_text indent (data_Units d)).
Proof using Hindent.
  unfold units_text. rewrite <-(if_negb (is_nil _)), <-(truth_list unit_value).
  eapply exec_NIf_ok; [reflexivity|]. intros _. eapply eq_trans.
  - node_by_node Hindent ltac:(eapply (exec_range_list _ unit_value (unit_text indent));
      [reflexivity|intros; apply exec_unit]).
  - cbn [Join]. unfold concat_map. flatten_user_data.
Qed.

Lemma truth_map_value {A} (f : A -> value) m : truth (map_value f m) = negb (is_nil (sorted_keys m)).
Proof. apply truth_keys. Qed.

(** The ranges of the modules. *)
Lemma exec_commands_range v cmds vars dot p :
  v <> "$_" ->
  eval TxtFuncMap vars dot p = Ok (VList (map VString cmds)) ->
  exec TxtFuncMap (NRange ["$_"; v] p [NText (NL +:+ "- "); NAction [[OVar v []]]; NText ""] []) vars dot
  = Ok (concat_map (fun c => NL +:+ "- " +:+ c) cmds).
Proof.
  intros Hv Hp. eapply exec_range_list; [exact Hp|]. intros i c _. cbn.
  rewrite decide_False by done. rewrite decide_True by done. cbn. by rewrite append_nil_r.
Qed.

Lemma exec_entries_range k v m vars dot p pad :
  k <> v ->
  eval TxtFuncMap vars dot p = Ok (map_value VString m) ->
  exec TxtFuncMap (NRange [k; v] p
    [NText (NL +:+ pad); NAction [[OVar k []]]; NText ": "; NAction [[OVar v []]]; NText ""] []) vars dot
  = Ok (concat_map (entry_text pad m) (sorted_keys m)).
Proof.
  intros Hkv Hp. eapply exec_range_map; [exact Hp|]. intros x _. unfold entry_text. cbn.
  rewrite (decide_True (P := k = k)) by done. cbn.
  rewrite (decide_False (P := v = k)) by done. rewrite (decide_True (P := v = v)) by done. cbn.
  destruct (m !! x); cbn; by rewrite ?append_assoc, ?append_nil_r.
Qed.

Lemma exec_repos_range m vars dot :
  eval TxtFuncMap vars dot [[OField ["CloudInitModules"; "YumRepos"]]] = Ok (map_value (map_value VString) m) ->
  exec TxtFuncMap (nth 1 (body_of (nth 7 (body_of modules_node) (NText ""))) (NText "")) vars dot
  = Ok (concat_map (repo_text m) (sorted_keys m)).
Proof.
  intros Hp. cbn [nth body_of modules_node]. eapply exec_range_map; [exact Hp|].
  intros k Hk. unfold repo_text. apply elem_of_sorted_keys in Hk as [repo Hrepo].
  rewrite Hrepo. cbn [from_option default id].
  eapply eq_trans; [eapply exec_nodes_ok;
    repeat (eapply List.Forall2_cons;
      [first [eapply (exec_entries_range _ _ repo _ _ _ "       "); [done|reflexivity] | reflexivity]|]);
    apply List.Forall2_nil|].
  cbn [Join]. flatten_user_data.
Qed.

(** The block of a module, or a text. *)
Local Ltac range_step m :=
  lazymatch goal with
  | |- exec _ (NRange ["$_"; _] _ _ _) _ _ = _ =>
      eapply exec_commands_range; [done|reflexivity]
  | |- exec _ (NRange _ [[OField [_; "RHSubscription"]]] _ _) _ _ = _ =>
      eapply (exec_entries_range _ _ (RHSubscription m) _ _ _ "    "); [done|reflexivity]
  | |- exec _ (NRange _ _ _ _) _ _ = _ => eapply (exec_repos_range (YumRepos m)); reflexivity
  | |- _ => reflexivity
  end.
Local Ltac modules_step m :=
  lazymatch goal with
  | |- exec _ (NIf _ _ _) _ _ = _ =>
      eapply exec_NIf_ok; [reflexivity|intros _; eapply exec_nodes_ok;
        repeat (eapply List.Forall2_cons; [range_step m|]); apply List.Forall2_nil]
  | |- _ => reflexivity
  end.

Lemma exec_modules d :
  exec TxtFuncMap modules_node [("$", data_value d)] (data_value d)
  = Ok (modules_text (data_CloudInitModules d)).
Proof.
  destruct d as [files units keys [m|] cp os ct oc]; [|reflexivity].
  set (dot := data_value _) in *. set (vars := [("$", dot)]) in *.
  eapply eq_trans; [eapply exec_NIf_ok; [reflexivity|intros _]|].
  { eapply exec_nodes_ok.
    repeat (eapply List.Forall2_cons; [modules_step m|]).
    apply List.Forall2_nil. }
  cbn [data_CloudInitModules fmap option_fmap option_map modules_text].
  rewrite !truth_list, !truth_map_value, !if_negb. cbn [truth].
  unfold commands_text, subscription_text, repos_text. rewrite if_negb. cbn [Join].
  rewrite bool_decide_eq_true_2 by done. flatten_user_data.
Qed.

(** "bootstrap" and not AWS: two nested conditions, and a text [after] the inner one. *)
Lemma exec_bootstrap_block texts body d vars after :
  Forall2 (fun n t => exec TxtFuncMap n vars (data_value d) = Ok t) body texts ->
  exec TxtFuncMap
    (NIf [[OFunc "eq"; OField ["ConfigurationType"]; OStr "bootstrap"]]
       [NText ""; NIf [[OFunc "ne"; OField ["CloudProviderName"]; OStr "aws"]] body []; NText after] [])
    vars (data_value d) =
  Ok (if bool_decide (data_ConfigurationType d = "bootstrap")
      then (if sets_hostname d then Join texts "" else "") +:+ after else "").
Proof.
  intros Hb. eapply eq_trans.
  { eapply exec_NIf_ok; [reflexivity|intros _]. eapply exec_nodes_ok.
    eapply List.Forall2_cons; [reflexivity|]. eapply List.Forall2_cons;
      [eapply exec_NIf_ok; [reflexivity|intros _; by eapply exec_nodes_ok]|].
    eapply List.Forall2_cons; [reflexivity|]. apply List.Forall2_nil. }
  unfold sets_hostname. cbn [truth Join].
  destruct (bool_decide (data_ConfigurationType d = _)); cbn [andb]; [|done].
  rewrite append_nil_l. done.
Qed.

Lemma exec_cloud_init d :
  Execute TxtFuncMap cloudInitNodes (data_value d) = Ok (cloud_init_text indent d).
Proof using Hindent.
  unfold Execute. eapply eq_trans.
  { eapply exec_nodes_ok. unfold cloudInitNodes.
    do 2 (eapply List.Forall2_cons; [reflexivity|]).
    eapply List.Forall2_cons; [eapply (exec_bootstrap_block [""; ""; NL +:+ "hostname: <MACHINE_NAME>"]);
      by repeat constructor|].
    eapply List.Forall2_cons; [reflexivity|].
    eapply List.Forall2_cons; [eapply exec_NIf_ok; [reflexivity|intros _; reflexivity]|].
    eapply List.Forall2_cons; [reflexivity|].
    eapply List.Forall2_cons; [eapply (exec_range_list _ VString (fun k => "- '" +:+ k +:+ "'" +:+ NL));
      [reflexivity|intros; reflexivity]|].
    eapply List.Forall2_cons; [reflexivity|].
    eapply List.Forall2_cons; [eapply (exec_range_list _ file_value (file_text indent));
      [reflexivity|intros; apply exec_file]|].
    do 2 (eapply List.Forall2_cons; [reflexivity|]).
    eapply List.Forall2_cons; [eapply (exec_bootstrap_block [""; ""; _]);
      by repeat constructor|].
    eapply List.Forall2_cons; [reflexivity|].
    eapply List.Forall2_cons; [apply (exec_units d)|].
    eapply List.Forall2_cons; [reflexivity|].
    eapply List.Forall2_cons; [apply (exec_modules d)|].
    eapply List.Forall2_cons; [reflexivity|]. apply List.Forall2_nil. }
  unfold cloud_init_text, concat_map, hostname_text, machine_name_text, sets_hostname.
  cbn [Join truth]. destruct (bool_decide (data_ConfigurationType d = _)), (bool_decide (data_CloudProviderName d = _)),
    (common.DistUpgradeOnBoot (data_OSConfig d)); flatten_user_data.
Qed.
End CloudInit.

Lemma user_data_cloud_init `{GeneratorLibs} (indent : Z -> string -> string)
    (Hindent : forall n s, sprig "indent" [VInt n; VString s] = Ok (VString (indent n s)))
    (mdName : string) (d : templateData) (Hedge : data_CloudProviderName d <> "edge") :
  user_data ProvisioningUtilityCloudInit mdName d = Ok (cloud_init_text indent d).
Proof.
  unfold user_data, getUserDataTemplate, parsed.
  rewrite decide_False by done. rewrite decide_False by done.
  rewrite Parse_cloudInitTemplate. cbn [wrapR bindR]. by apply exec_cloud_init.
Qed.

(** C28: what [Generate] returns for an operating system other than flatcar and
    a provider other than edge: the text [cloud_init_text], that is the header,
    the upgrade flags, one line per deduplicated key, one entry per file with
    its path, permissions, encoding and indented content, the units and the
    modules; the hostname placeholder appears exactly when bootstrapping
    outside AWS. *)
Theorem Generate_cloud_init `{GeneratorLibs} (indent : Z -> string -> string)
    (Hindent : forall n s, sprig "indent" [VInt n; VString s] = Ok (VString (indent n s)))
    (config : OSCConfig) (utility os cp secretType : string) (md : MachineDeployment)
    (raw : string) (pc : ProviderConfig) (osConfig : common.Config) (files : list fileSpec)
    (Hos : os <> OperatingSystemFlatcar)
    (Hutility : utility = "" \/ utility = ProvisioningUtilityCloudInit)
    (Hedge : cp <> CloudProviderEdge)
    (Hraw : provider_raw md = Ok raw) (Hpc : SDK_StrictUnmarshal raw = Ok pc)
    (Hload : common.LoadConfig (PC_OperatingSystemSpec pc) = Ok osConfig)
    (Hfiles : file_specs ProvisioningUtilityCloudInit (OSCConfig_Files config) = Ok files) :
  Generate config utility os cp md secretType =
  Ok (cloud_init_text indent
    {| data_Files := files; data_Units := map unit_spec (OSCConfig_Units config);
       data_UserSSHKeys := deduplicateSSHKeys (UserSSHKeys config);
       data_CloudInitModules := OSCConfig_CloudInitModules config;
       data_CloudProviderName := cp; data_OperatingSystem := os;
       data_ConfigurationType := secretType; data_OSConfig := osConfig |}).
Proof.
  unfold Generate, GetProvisioningUtility. rewrite decide_False by done. cbn [wrapR bindR].
  assert (negb (bool_decide (utility = "")) &&
    negb (bool_decide (ProvisioningUtilityCloudInit = utility)) = false) as -> by (by destruct Hutility as [->| ->]).
  rewrite Hfiles. cbn [bindR]. rewrite Hraw. cbn [bindR]. rewrite Hpc. cbn [wrapR bindR].
  rewrite Hload. cbn [bindR]. rewrite (user_data_cloud_init indent) by done. cbn [bindR].
  by rewrite decide_True.
Qed.

(** ** Files *)

(** What the loop over the files makes of one inline file. *)
Definition file_spec_of (provisioner : ProvisioningUtility) (path : string) (perms : Z)
    (inline : FileContentInline) : fileSpec :=
  {| fileSpec_Path := path;
     fileSpec_Content :=
       if bool_decide (Inline_Encoding inline = "b64") && bool_decide (provisioner = ProvisioningUtilityCloudInit)
       then EncodeToString (Inline_Data inline) else Inline_Data inline;
     fileSpec_Encoding := Inline_Encoding inline;
     fileSpec_Permissions := Some (if decide (String.length (Itoa perms) = 3) then "0" +:+ Itoa perms else Itoa perms) |}.

Lemma file_spec_inline p f inline :
  Inline (File_Content f) = Some inline ->
  file_spec p f = Ok (file_spec_of p (File_Path f) (File_Permissions f) inline).
Proof. unfold file_spec. by intros ->. Qed.

(** C30: the files of a machine survive the generator: it keeps their number
    and order and their paths, and for cloud-init decoding a base64 file gives
    its data back while every other file is written as it is; one file without
    inline content and the generator panics. *)
Theorem file_specs_spec (p : ProvisioningUtility) (l : list File) :
  match file_specs p l with
  | Ok specs =>
      Forall2 (fun f s =>
        exists inline, Inline (File_Content f) = Some inline /\
          fileSpec_Path s = File_Path f /\ fileSpec_Encoding s = Inline_Encoding inline /\
          (if bool_decide (Inline_Encoding inline = "b64" /\ p = ProvisioningUtilityCloudInit)
           then DecodeString (fileSpec_Content s) = Ok (Inline_Data inline)
           else fileSpec_Content s = Inline_Data inline)) l specs
  | Err _ => False
  | Panic _ => Exists (fun f => Inline (File_Content f) = None) l
  end.
Proof.
  induction l as [|f l IH]; [by constructor|]. cbn [file_specs].
  destruct (Inline (File_Content f)) as [inline|] eqn:Ef.
  - rewrite (file_spec_inline _ _ _ Ef). cbn [bindR].
    destruct (file_specs p l) as [specs|e|w]; cbn [bindR]; [|done|by constructor 2].
    constructor; [|done]. exists inline. split_and!; try done. cbn.
    rewrite bool_decide_and. destruct (_ && _); [apply DecodeString_EncodeToString|done].
  - unfold file_spec. rewrite Ef. by constructor 1.
Qed.

(** ** Evaluation on concrete inputs *)

Module Demo.
#[export] Existing Instances DemoSDK.sdk DemoSDK.sprig_functions.

Definition pc : ProviderConfig :=
  {| PC_SSHPublicKeys := []; PC_CloudProvider := "azure"; PC_CloudProviderSpec := {| Raw := None |};
     PC_OperatingSystem := "ubuntu"; PC_OperatingSystemSpec := {| Raw := Some "{}" |};
     PC_Network := None; PC_OverwriteCloudConfig := None |}.
#[export] Instance sdk_json : SDKJson := fun _ => Ok pc.
#[export] Instance flatcar_json : JsonUnmarshal flatcar.Config := fun _ => Ok flatcar.zero.
#[export] Instance flatcar_marshal : JsonMarshal flatcar.Config := fun _ => Ok "{}".
#[export] Instance common_json : JsonUnmarshal common.Config := fun _ =>
  Ok {| common.DistUpgradeOnBoot := true |}.
#[export] Instance common_marshal : JsonMarshal common.Config := fun _ => Ok "{}".
#[export] Instance transpiler : Transpiler :=
  {| CLConfig := string; CLAst := unit; IgnConfig := string; config_Parse s := (s, tt, None);
     config_Convert c _ _ := (c, []); ign_Marshal s := Ok s |}.
#[export] Instance libs : GeneratorLibs := {| gen_sdk_json := sdk_json |}.

Definition body : string := "    #!/bin/bash
    set -xeuo pipefail
    cloud-init clean
    cloud-init init
    systemctl start provision.service".
Definition inline_file (path : string) : File :=
  {| File_Path := path; File_Permissions := 700;
     File_Content := {| Inline := Some {| Inline_Encoding := ""; Inline_Data := body |} |} |}.
Definition config : OSCConfig :=
  {| OSCConfig_Units := [];
     OSCConfig_Files := [inline_file "/opt/bin/test.service"; inline_file "/opt/bin/setup.service"];
     UserSSHKeys := ["ssh-rsa AAAAB3NzaC1yc2EAAAADAQABAAABgQDR3"; "ssh-rsa AAAAB3NzaC1yc2EAAAADAQABAAABgQDR4"];
     OSCConfig_CloudInitModules := Some
       {| BootCMD := ["echo hello-world"; "echo hello-osm"];
          RHSubscription := {[ "username" := "test_username"; "password" := "test_password" ]};
          RunCMD := ["systemctl restart test.service"; "systemctl restart setup.service"; "systemctl daemon-reload"];
          YumRepos := ∅; YumRepoDir := "" |} |}.
Definition md : MachineDeployment :=
  {| MD_Meta := object_meta "md-1" "kube-system"; MD_ProviderSpec_Value := Some {| Raw := Some "{}" |};
     MD_Versions_Kubelet := "1.30.0" |}.
Definition indent (n : Z) (s : string) : string :=
  let pad := String.concat "" (repeat " " (Z.to_nat n)) in pad +:+ ReplaceAll s NL (NL +:+ pad).
Definition files : list fileSpec :=
  default [] (ok_value (file_specs ProvisioningUtilityCloudInit (OSCConfig_Files config))).
End Demo.
Import Demo.

(** The expected user data of the first case of [generator_test.go]. *)
Example Generate_ubuntu :
  Generate Demo.config "cloud-init" "ubuntu" "azure" Demo.md "provisioning" = Ok (raw "#cloud-config

package_upgrade: true
package_reboot_if_required: true
ssh_pwauth: false

ssh_authorized_keys:
- 'ssh-rsa AAAAB3NzaC1yc2EAAAADAQABAAABgQDR3'
- 'ssh-rsa AAAAB3NzaC1yc2EAAAADAQABAAABgQDR4'
write_files:
- path: '/opt/bin/test.service'
  permissions: '0700'
  content: |-
        #!/bin/bash
        set -xeuo pipefail
        cloud-init clean
        cloud-init init
        systemctl start provision.service

- path: '/opt/bin/setup.service'
  permissions: '0700'
  content: |-
        #!/bin/bash
        set -xeuo pipefail
        cloud-init clean
        cloud-init init
        systemctl start provision.service

bootcmd:
- echo hello-world
- echo hello-osm

runcmd:
- systemctl restart test.service
- systemctl restart setup.service
- systemctl daemon-reload

rh_subscription:
    password: test_password
    username: test_username
").
Proof. vm_compute. reflexivity. Qed.

Lemma Generate_cloud_init_witness :
  Generate Demo.config "" "ubuntu" "aws" Demo.md "bootstrap" =
  Ok (cloud_init_text Demo.indent
    {| data_Files := Demo.files; data_Units := map unit_spec (OSCConfig_Units Demo.config);
       data_UserSSHKeys := deduplicateSSHKeys (UserSSHKeys Demo.config);
       data_CloudInitModules := OSCConfig_CloudInitModules Demo.config;
       data_CloudProviderName := "aws"; data_OperatingSystem := "ubuntu";
       data_ConfigurationType := "bootstrap"; data_OSConfig := {| common.DistUpgradeOnBoot := true |} |}).
Proof.
  apply (Generate_cloud_init Demo.indent) with (raw := "{}") (pc := Demo.pc).
  - intros n s. vm_compute. reflexivity.
  - discriminate.
  - left. reflexivity.
  - discriminate.
  - reflexivity.
  - reflexivity.
  - reflexivity.
  - vm_compute. reflexivity.
Defined.
