(* ===== verification/Ignition.v ===== *)
(** * User data of Flatcar: the ignition template as text

    [pkg/generator] prints a Container Linux Config for Flatcar and hands it to the
    transpiler.  This file relates the template to the text it prints, character by
    character, the way [Generator] does for cloud-init. *)

From S2P Require Import Prelude GoStrings Types GoTemplate SDK ProviderConfig Generator.

Section IgnitionText.
(** [indent] of sprig *)
Variable indent : Z -> string -> string.

(** The users are left out when there is no key. *)
Definition users_text (keys : list string) : string :=
  if is_nil keys then ""
  else NL +:+ "  users:" +:+ NL +:+ "    - name: core" +:+ NL +:+ "      ssh_authorized_keys:" +:+ NL +:+
       "        " +:+ concat_map (fun k => "- " +:+ k +:+ NL +:+ "        ") keys.

Definition machine_name_file : string :=
  NL +:+ "  - path: /etc/machine-name" +:+ NL +:+ "    mode: 0600" +:+ NL +:+ "    filesystem: root" +:+ NL +:+
  "    contents:" +:+ NL +:+ "        inline: '<MACHINE_NAME>'" +:+ NL.
Definition ign_machine_name_text (d : templateData) : string :=
  if bool_decide (data_ConfigurationType d = "bootstrap") then
    (if bool_decide (data_CloudProviderName d = "aws") then "" else machine_name_file) +:+ NL
  else "".

Definition ign_file_text (f : fileSpec) : string :=
  NL +:+ "  - path: '" +:+ fileSpec_Path f +:+ "'" +:+ NL +:+
  "    mode: " +:+ default "420" (fileSpec_Permissions f) +:+ NL +:+
  "    filesystem: root" +:+ NL +:+ "    contents:" +:+ NL +:+ "        inline: |" +:+ NL +:+
  indent 10 (fileSpec_Content f).

Definition ign_drop_in_text (d : dropInSpec) : string :=
  NL +:+ "      - name: " +:+ dropInSpec_Name d +:+ NL +:+ "        contents: |" +:+ NL +:+
  indent 10 (dropInSpec_Content d).

Definition ign_unit_text (u : unitSpec) : string :=
  NL +:+ "  - name: " +:+ unitSpec_Name u +:+ NL +:+
  "    enabled: " +:+ FormatBool (unitSpec_Enable u) +:+ NL +:+
  "    mask: " +:+ FormatBool (unitSpec_Mask u) +:+ NL +:+
  (if bool_decide (unitSpec_Content u = "") then ""
   else NL +:+ "    contents: |" +:+ NL +:+ indent 6 (unitSpec_Content u)) +:+ NL +:+
  (if is_nil (unitSpec_DropIns u) then ""
   else NL +:+ "    dropins:" +:+ concat_map ign_drop_in_text (unitSpec_DropIns u)).

Definition ignition_text (d : templateData) : string :=
  "passwd:" +:+ users_text (data_UserSSHKeys d) +:+ NL +:+ "storage:" +:+ NL +:+ "  files:" +:+
  ign_machine_name_text d +:+ concat_map ign_file_text (data_Files d) +:+ NL +:+
  "systemd:" +:+ NL +:+ "  units:" +:+ concat_map ign_unit_text (data_Units d) +:+ NL.
End IgnitionText.

Definition ignitionNodes : list node := Eval vm_compute in default [] (Parse ignitionTemplate).
Lemma Parse_ignitionTemplate : Parse ignitionTemplate = Some ignitionNodes.
Proof. vm_compute. reflexivity. Qed.

Section Ignition.
Context `{Sprig} (indent : Z -> string -> string).
Hypothesis Hindent : forall n s, sprig "indent" [VInt n; VString s] = Ok (VString (indent n s)).

Definition ign_files_node : node := Eval vm_compute in nth 6 ignitionNodes (NText "").
Definition ign_units_node : node := Eval vm_compute in nth 8 ignitionNodes (NText "").
Definition ign_drop_ins_node : node :=
  Eval vm_compute in nth 1 (body_of (nth 9 (range_body ign_units_node).2 (NText ""))) (NText "").

Lemma exec_ign_file i f vars :
  exec_range_body ign_files_node i (file_value f) vars = Ok (ign_file_text indent f).
Proof using Hindent. destruct f as [path content enc perms]. destruct perms as [perms|]; run_body Hindent. Qed.

Lemma exec_ign_drop_in i dr vars :
  exec_range_body ign_drop_ins_node i (dropIn_value dr) vars = Ok (ign_drop_in_text indent dr).
Proof using Hindent. destruct dr as [name content]. run_body Hindent. Qed.

Lemma exec_ign_drop_ins dot vars drops :
  assoc "$unit" vars = Some dot -> get_field "DropIns" dot = Ok (VList (map dropIn_value drops)) ->
  exec TxtFuncMap (nth 9 (range_body ign_units_node).2 (NText "")) vars dot =
  Ok (if negb (is_nil drops) then NL +:+ "    dropins:" +:+ concat_map (ign_drop_in_text indent) drops else "").
Proof using Hindent.
  intros Hu Hd. rewrite <-(truth_list dropIn_value).
  eapply exec_NWith_ok.
  - cbn. rewrite Hu. cbn. by rewrite Hd.
  - intros _. eapply eq_trans.
    + node_by_node Hindent ltac:(eapply (exec_range_list _ dropIn_value (ign_drop_in_text indent));
        [reflexivity|intros; apply exec_ign_drop_in]).
    + cbn [Join]. unfold concat_map. flatten_user_data.
Qed.

Lemma exec_ign_unit i u vars :
  exec_range_body ign_units_node i (unit_value u) vars = Ok (ign_unit_text indent u).
Proof using Hindent.
  destruct u as [name en mask content drops]. unfold exec_range_body.
  destruct en, mask, content as [|c content];
    (eapply eq_trans;
     [node_by_node Hindent ltac:(eapply (exec_ign_drop_ins _ _ drops); reflexivity)
     |cbn [Join]; unfold ign_unit_text; cbn [unitSpec_Name unitSpec_Enable unitSpec_Mask
        unitSpec_Content unitSpec_DropIns]; rewrite if_negb; flatten_user_data]).
Qed.

(** [ne (len .UserSSHKeys) 0] *)
Lemma some_keys (keys : list string) :
  negb (Z.of_nat (length (map VString keys)) =? 0)%Z = negb (is_nil keys).
Proof. by destruct keys. Qed.

Lemma exec_ignition d : Execute TxtFuncMap ignitionNodes (data_value d) = Ok (ignition_text indent d).
Proof using Hindent.
  unfold Execute. eapply eq_trans.
  { eapply exec_nodes_ok. unfold ignitionNodes.
    eapply List.Forall2_cons; [reflexivity|].
    eapply List.Forall2_cons; [eapply exec_NIf_ok; [reflexivity|intros _]|].
    { eapply exec_nodes_ok. eapply List.Forall2_cons; [reflexivity|].
      eapply List.Forall2_cons; [eapply (exec_range_list _ VString (fun k => "- " +:+ k +:+ NL +:+ "        "));
        [reflexivity|intros; reflexivity]|].
      eapply List.Forall2_cons; [reflexivity|]. apply List.Forall2_nil. }
    do 2 (eapply List.Forall2_cons; [reflexivity|]).
    eapply List.Forall2_cons; [eapply (exec_bootstrap_block [""; ""; machine_name_file]); by repeat constructor|].
    eapply List.Forall2_cons; [reflexivity|].
    eapply List.Forall2_cons; [eapply (exec_range_list _ file_value (ign_file_text indent));
      [reflexivity|intros; apply exec_ign_file]|].
    eapply List.Forall2_cons; [reflexivity|].
    eapply List.Forall2_cons; [eapply (exec_range_list _ unit_value (ign_unit_text indent));
      [reflexivity|intros; apply exec_ign_unit]|].
    eapply List.Forall2_cons; [reflexivity|]. apply List.Forall2_nil. }
  unfold ignition_text, users_text, concat_map, ign_machine_name_text, sets_hostname. cbn [Join truth].
  rewrite some_keys, if_negb.
  destruct (is_nil (data_UserSSHKeys d)), (bool_decide (data_ConfigurationType d = "bootstrap")),
    (bool_decide (data_CloudProviderName d = "aws")); flatten_user_data.
Qed.
End Ignition.

Lemma user_data_ignition `{GeneratorLibs} (indent : Z -> string -> string)
    (Hindent : forall n s, sprig "indent" [VInt n; VString s] = Ok (VString (indent n s)))
    (mdName : string) (d : templateData) :
  user_data ProvisioningUtilityIgnition mdName d = Ok (ignition_text indent d).
Proof.
  unfold user_data, getUserDataTemplate, parsed. rewrite decide_True by done.
  rewrite Parse_ignitionTemplate. cbn [wrapR bindR]. by apply exec_ignition.
Qed.

(** C29: what [Generate] returns for Flatcar provisioned by ignition, on any provider: the transpiled [ignition_text], that is the keys of the core user if there is one, the machine-name file when bootstrapping outside AWS, one entry per file and per unit with their indented contents; an error of the transpiler is the result *)
Theorem Generate_ignition `{GeneratorLibs} (indent : Z -> string -> string)
    (Hindent : forall n s, sprig "indent" [VInt n; VString s] = Ok (VString (indent n s)))
    (config : OSCConfig) (utility cp secretType : string) (md : MachineDeployment)
    (raw : string) (pc : ProviderConfig) (fc : flatcar.Config) (osConfig : common.Config) (files : list fileSpec)
    (Hutility : utility = "" \/ utility = ProvisioningUtilityIgnition)
    (Hraw : provider_raw md = Ok raw) (Hpc : SDK_StrictUnmarshal raw = Ok pc)
    (Hflatcar : flatcar.LoadConfig (PC_OperatingSystemSpec pc) = Ok fc)
    (Hignition : flatcar.ProvisioningUtility fc = "" \/ flatcar.ProvisioningUtility fc = ProvisioningUtilityIgnition)
    (Hload : common.LoadConfig (PC_OperatingSystemSpec pc) = Ok osConfig)
    (Hfiles : file_specs ProvisioningUtilityIgnition (OSCConfig_Files config) = Ok files) :
  Generate config utility OperatingSystemFlatcar cp md secretType =
  toIgnition (ignition_text indent
    {| data_Files := files; data_Units := map unit_spec (OSCConfig_Units config);
       data_UserSSHKeys := deduplicateSSHKeys (UserSSHKeys config);
       data_CloudInitModules := OSCConfig_CloudInitModules config;
       data_CloudProviderName := cp; data_OperatingSystem := OperatingSystemFlatcar;
       data_ConfigurationType := secretType; data_OSConfig := osConfig |}).
Proof.
  assert (GetProvisioningUtility OperatingSystemFlatcar md = Ok ProvisioningUtilityIgnition) as Hgp.
  { unfold GetProvisioningUtility. rewrite decide_True by done. rewrite Hraw. cbn [bindR].
    rewrite Hpc. cbn [wrapR bindR]. rewrite Hflatcar. cbn [bindR].
    destruct (decide _) as [|Hne]; [done|]. destruct Hignition as [Hi|Hi]; [by destruct Hne|by rewrite Hi]. }
  unfold Generate. rewrite Hgp. cbn [wrapR bindR].
  assert (negb (bool_decide (utility = "")) &&
    negb (bool_decide (ProvisioningUtilityIgnition = utility)) = false) as -> by (by destruct Hutility as [->| ->]).
  rewrite Hfiles. cbn [bindR]. rewrite Hraw. cbn [bindR]. rewrite Hpc. cbn [wrapR bindR].
  rewrite Hload. cbn [bindR]. rewrite (user_data_ignition indent) by done. cbn [bindR].
  by rewrite decide_False.
Qed.

(** ** Evaluation on concrete inputs *)

Module Demo.
#[export] Existing Instances DemoSDK.sdk DemoSDK.sprig_functions Generator.Demo.libs.

Definition data : templateData :=
  {| data_Files := default [] (ok_value (file_specs ProvisioningUtilityIgnition (OSCConfig_Files Generator.Demo.config)));
     data_Units := []; data_UserSSHKeys := UserSSHKeys Generator.Demo.config;
     data_CloudInitModules := OSCConfig_CloudInitModules Generator.Demo.config;
     data_CloudProviderName := "aws"; data_OperatingSystem := OperatingSystemFlatcar;
     data_ConfigurationType := "bootstrap"; data_OSConfig := {| common.DistUpgradeOnBoot := true |} |}.
End Demo.
Import Demo.

Lemma Generate_ignition_witness :
  Generate Generator.Demo.config "" OperatingSystemFlatcar "aws" Generator.Demo.md "bootstrap" =
  toIgnition (ignition_text Generator.Demo.indent Demo.data).
Proof.
  apply (Generate_ignition Generator.Demo.indent) with (raw := "{}") (pc := Generator.Demo.pc) (fc := flatcar.zero).
  - intros n s. vm_compute. reflexivity.
  - left. reflexivity.
  - reflexivity.
  - reflexivity.
  - reflexivity.
  - left. reflexivity.
  - reflexivity.
  - vm_compute. reflexivity.
Defined.
