(* ===== verification/OSCResources.v ===== *)
(** * Generation of operating system configs ([pkg/controllers/osc/resources])

    [operating_system_config.go] and [secrets.go], with
    [pkg/util/json.StrictUnmarshal] and [pkg/util/kubeconfig]: from a machine
    deployment, a profile and the flags of the controller to the
    [OperatingSystemConfig].  The templates of a profile are arbitrary input
    for Go's template engine with sprig's functions: the interface
    [OSPTemplates]. *)

From S2P Require Import Prelude GoStrings Encoding NetURL Types GoTemplate SDK.
From S2P Require Import Effects Api ContainerRuntime ProviderConfig CloudProvider Generator.

(** ** Interfaces *)

(** [json.Decoder.Decode] into a [providerconfig.Config], with or without
    [DisallowUnknownFields]. *)
Class JsonDecoder `{SDK} := json_Decode : bool -> string -> result ProviderConfig.

(** [net.ParseIP] and [IP.String] *)
Class NetIP := { IP : Type; ParseIP : string -> option IP; IP_String : IP -> string }.

(** [time.ParseDuration], in nanoseconds. *)
Class Durations := ParseDuration : string -> result Z.

(** [clientcmd.Write] *)
Class Clientcmd := {
  clientcmd_Write : Kubeconfig -> result string;
  clientcmd_Load : string -> result Kubeconfig
}.

(** [pkg/util/json]: only the first JSON value of the buffer is decoded. *)
Definition StrictUnmarshal `{JsonDecoder} (buf : string) : result ProviderConfig := json_Decode true buf.

(** [pkg/util/kubeconfig] *)
Definition StringifyKubeconfig `{Clientcmd} (kubeconfig : Kubeconfig) : result string :=
  wrapR "error writing kubeconfig: %w" [] (clientcmd_Write kubeconfig).

(** ** Constants *)

Definition ProvisioningCloudConfig : string := "provisioning".
(** [fmt.Sprintf(OperatingSystemConfigNamePattern, name, namespace)] *)
Definition OperatingSystemConfigName (name namespace : string) : string :=
  name +:+ "-" +:+ namespace +:+ "-config".
Definition MachineDeploymentOSPAnnotation : string := "k8c.io/operating-system-profile".
Definition MachineDeploymentOSPNamespaceAnnotation : string := "k8c.io/operating-system-profile-namespace".
Definition defaultFilePermissions : Z := 644.

(** ** The data of the templates *)

Record kubeletConfig := {
  KubeReserved : option (gmap string string);
  SystemReserved : option (gmap string string);
  EvictionHard : option (gmap string string);
  MaxPods : option Z;
  KC_ContainerLogMaxSize : option string;
  KC_ContainerLogMaxFiles : option string;
  KC_ImageGCHighThresholdPercent : option Z;
  KC_ImageGCLowThresholdPercent : option Z;
  KC_ImageMinimumGCAge : option Z;
  KC_ImageMaximumGCAge : option Z
}.
Definition zero_kubeletConfig : kubeletConfig :=
  {| KubeReserved := None; SystemReserved := None; EvictionHard := None; MaxPods := None;
     KC_ContainerLogMaxSize := None; KC_ContainerLogMaxFiles := None;
     KC_ImageGCHighThresholdPercent := None; KC_ImageGCLowThresholdPercent := None;
     KC_ImageMinimumGCAge := None; KC_ImageMaximumGCAge := None |}.

Record operatingSystemConfig := {
  AmazonLinuxConfig : amzn2.Config;
  FlatcarConfig : flatcar.Config;
  RhelConfig : rhel.Config;
  UbuntuConfig : ubuntu.Config;
  RockyLinuxConfig : rockylinux.Config
}.
Definition zero_operatingSystemConfig : operatingSystemConfig :=
  {| AmazonLinuxConfig := amzn2.zero; FlatcarConfig := flatcar.zero; RhelConfig := rhel.zero;
     UbuntuConfig := ubuntu.zero; RockyLinuxConfig := rockylinux.zero |}.

Record bootstrapConfig := {
  Token : string;
  ServerURL : string;
  SecretName : string;
  BootstrapKubeconfigSecretName : string
}.

Record filesData `{SDK, NetIP} := {
  KubeVersion : string;
  KubeletConfiguration : string;
  KubeletSystemdUnit : string;
  BootstrapKubeconfig : string;
  InTreeCCMAvailable : bool;
  CNIVersion : string;
  ClusterDNSIPs : list IP;
  KubernetesCACert : string;
  HostCACert : string;
  ServerAddress : string;
  fd_CloudConfig : string;
  fd_ContainerRuntime : string;
  CloudProviderName : string;
  fd_NetworkConfig : option NetworkConfig;
  ExternalCloudProvider : bool;
  InitialTaints : string;
  HTTPProxy : option string;
  NoProxy : option string;
  ContainerRuntimeConfig : string;
  ContainerRuntimeAuthConfig : string;
  KubeletFeatureGates : gmap string bool;
  fd_RHSubscription : gmap string string;
  NetworkIPFamily : string;
  PauseImage : string;
  fd_kubeletConfig : kubeletConfig;
  fd_operatingSystemConfig : operatingSystemConfig;
  fd_bootstrapConfig : bootstrapConfig
}.

(** [template.New(name).Funcs(fm.ExtraTxtFuncMap()).Parse(text)], a further
    [Parse] into the same template, and [Execute]. *)
Class OSPTemplates `{SDK, NetIP} := {
  OSPTemplate : Type;
  osp_Parse : string -> string -> result OSPTemplate;
  osp_ParseMore : OSPTemplate -> string -> result OSPTemplate;
  osp_Execute : OSPTemplate -> filesData -> result string
}.

Class ResourceLibs `{SDK} := {
  #[global] res_cloud :: CloudLibs;
  #[global] res_ranges :: MapRange;
  #[global] res_toml :: Toml;
  #[global] res_decoder :: JsonDecoder;
  #[global] res_ip :: NetIP;
  #[global] res_durations :: Durations;
  #[global] res_clientcmd :: Clientcmd;
  #[global] res_templates :: OSPTemplates;
  #[global] res_amzn2 :: JsonUnmarshal amzn2.Config;
  #[global] res_amzn2_marshal :: JsonMarshal amzn2.Config;
  #[global] res_flatcar :: JsonUnmarshal flatcar.Config;
  #[global] res_flatcar_marshal :: JsonMarshal flatcar.Config;
  #[global] res_rhel :: JsonUnmarshal rhel.Config;
  #[global] res_rhel_marshal :: JsonMarshal rhel.Config;
  #[global] res_ubuntu :: JsonUnmarshal ubuntu.Config;
  #[global] res_ubuntu_marshal :: JsonMarshal ubuntu.Config;
  #[global] res_rocky :: JsonUnmarshal rockylinux.Config;
  #[global] res_rocky_marshal :: JsonMarshal rockylinux.Config
}.

(** ** Kubelet settings in annotations *)

Definition getKeyValueMap (value : string) (kvDelimiter : ascii) : gmap string string :=
  fold_left (fun res pair =>
    match SplitN2 pair kvDelimiter with
    | [k; v] => <[k := v]> res
    | _ => res
    end) (Split value ",") ∅.

Section Kubelet.
Context `{SDK, MapRange, Durations}.

Definition add_kubelet_setting (configs : gmap string string) (entry : string * string) : gmap string string :=
  let '(name, value) := entry in
  if HasPrefix name KubeletConfigAnnotationPrefixV1 then
    match SplitN2 name "/" with
    | [_; key] => <[key := value]> configs
    | _ => configs
    end
  else configs.

Definition getKubeletConfigMap (annotations : option (gmap string string)) : gmap string string :=
  fold_left add_kubelet_setting (range (default ∅ annotations)) ∅.

(** [if val, ok := kubeletConfigs[key]; ok { parse }] *)
Definition parse_setting {A} (configs : gmap string string) (key : string) (parse : string -> result A)
    : result (option A) :=
  match configs !! key with
  | None => Ok None
  | Some val => let! a := parse val in Ok (Some a)
  end.

Definition parse_int32 (fmt val : string) : result Z :=
  let! mp := wrapR fmt [] (ParseInt10 val 32) in Ok (to_int32 mp).

Definition getKubeletConfigs (annotations : option (gmap string string)) : result kubeletConfig :=
  let configs := getKubeletConfigMap annotations in
  if decide (configs = ∅) then Ok zero_kubeletConfig
  else
    let! maxPods := parse_setting configs MaxPodsKubeletConfig (parse_int32 "parsing maxPods: %w") in
    let! high := parse_setting configs ImageGCHighThresholdPercent
      (parse_int32 "parsing imageGCHighThresholdPercent: %w") in
    let! low := parse_setting configs ImageGCLowThresholdPercent
      (parse_int32 "parsing imageGCLowThresholdPercent: %w") in
    let! minAge := parse_setting configs ImageMinimumGCAge
      (fun val => wrapR "parsing imageMinimumGCAge: %w" [] (ParseDuration val)) in
    let! maxAge := parse_setting configs ImageMaximumGCAge
      (fun val => wrapR "parsing imageMaximumGCAge: %w" [] (ParseDuration val)) in
    Ok {| KubeReserved := (fun val => getKeyValueMap val "=") <$> configs !! KubeReservedKubeletConfig;
          SystemReserved := (fun val => getKeyValueMap val "=") <$> configs !! SystemReservedKubeletConfig;
          EvictionHard := (fun val => getKeyValueMap val "<") <$> configs !! EvictionHardKubeletConfig;
          MaxPods := maxPods;
          KC_ContainerLogMaxSize := configs !! ContainerLogMaxSizeKubeletConfig;
          KC_ContainerLogMaxFiles := configs !! ContainerLogMaxFilesKubeletConfig;
          KC_ImageGCHighThresholdPercent := high;
          KC_ImageGCLowThresholdPercent := low;
          KC_ImageMinimumGCAge := minAge;
          KC_ImageMaximumGCAge := maxAge |}.
End Kubelet.

(** ** The steps of [GenerateOperatingSystemConfig] *)

Section Resources.
Context `{ResourceLibs}.

Definition parseProviderConfig (md : MachineDeployment) : result ProviderConfig :=
  let! raw := provider_raw md in
  if decide (raw = "") then Err (Errorf "providerSpec cannot be empty" [])
  else wrapR "failed to decode provider configs: %w" [] (StrictUnmarshal raw).

(** A non-empty setting overrides the flag. *)
Definition override (setting : option string) (current : string) : string :=
  match setting with
  | Some v => if decide (v = "") then current else v
  | None => current
  end.

(** The configuration, the (empty) auth configuration and the host files. *)
Definition prepareContainerRuntimeConfig (md : MachineDeployment) (cfg : Config)
    : result (string * string * gmap string string) :=
  let! kubeletConfigs := getKubeletConfigs (MD_Annotations md) in
  let cfg := with_log_limits
    (override (KC_ContainerLogMaxSize kubeletConfigs) (ContainerLogMaxSize cfg))
    (override (KC_ContainerLogMaxFiles kubeletConfigs) (ContainerLogMaxFiles cfg)) cfg in
  let crEngine := Config_Engine cfg in
  let! crConfig := wrapR "failed to generate container runtime config: %w" [] (Containerd_Config crEngine) in
  let! crAuthConfig := wrapR "failed to generate container runtime auth config: %w" []
                         (Containerd_AuthConfig crEngine) in
  let! registryHostConfigs := wrapR "failed to generate registry host configs: %w" []
                                (RegistryHostConfigs crEngine) in
  Ok (crConfig, crAuthConfig, registryHostConfigs).

(** The first key that [range] yields, or the empty string. *)
Definition first_key {V} (m : gmap string V) : string :=
  match range m with (k, _) :: _ => k | [] => "" end.

(** [config.Clusters[clusterName].Server]: a missing or nil cluster is a nil
    dereference. *)
Definition cluster_server (config : Kubeconfig) : result string :=
  let! cluster := deref "Clusters[clusterName].Server" (mjoin (Clusters config !! first_key (Clusters config))) in
  Ok (Server cluster).

Definition prepareBootstrapConfig (md : MachineDeployment) (bootstrapKubeconfig : Kubeconfig)
    (bootstrapKubeconfigSecretName apiServerToken : string) : result (bootstrapConfig * string) :=
  let! bootstrapKubeconfigString := StringifyKubeconfig bootstrapKubeconfig in
  let provisioningSecretName := CloudConfigSecretName (MD_Name md) (MD_Namespace md) ProvisioningCloudConfig in
  let! serverURL := cluster_server bootstrapKubeconfig in
  Ok ({| Token := apiServerToken; SecretName := provisioningSecretName; ServerURL := serverURL;
         BootstrapKubeconfigSecretName := bootstrapKubeconfigSecretName |}, bootstrapKubeconfigString).

Definition prepareCloudProviderConfig (providerConfig : ProviderConfig) (kubeletVersion : string)
    (externalCloudProvider : bool) : result (string * bool * bool) :=
  let! (inTreeCCM, external) :=
    KubeletCloudProviderConfig (PC_CloudProvider providerConfig) externalCloudProvider in
  let! cloudConfig :=
    match PC_OverwriteCloudConfig providerConfig with
    | Some c => Ok c
    | None => wrapR "failed to fetch cloud-config: %w" [] (GetCloudConfig external providerConfig kubeletVersion)
    end in
  Ok (cloudConfig, inTreeCCM, external).

Definition formatKubeletVersion (version : string) : result string :=
  let! kubeletVersion := wrapR "invalid kubelet version: %w" [] (NewVersion version) in
  let kubeletVersionStr := Version_String kubeletVersion in
  Ok (if HasPrefix kubeletVersionStr "v" then kubeletVersionStr else "v" +:+ kubeletVersionStr).

Definition setOperatingSystemConfig (os : string) (operatingSystemSpec : RawExtension)
    : result operatingSystemConfig :=
  let z := zero_operatingSystemConfig in
  if decide (os = OS_AmazonLinux2) then
    let! config := amzn2.LoadConfig operatingSystemSpec in
    Ok {| AmazonLinuxConfig := config; FlatcarConfig := FlatcarConfig z; RhelConfig := RhelConfig z;
          UbuntuConfig := UbuntuConfig z; RockyLinuxConfig := RockyLinuxConfig z |}
  else if decide (os = OS_Flatcar) then
    let! config := flatcar.LoadConfig operatingSystemSpec in
    Ok {| AmazonLinuxConfig := AmazonLinuxConfig z; FlatcarConfig := config; RhelConfig := RhelConfig z;
          UbuntuConfig := UbuntuConfig z; RockyLinuxConfig := RockyLinuxConfig z |}
  else if decide (os = OS_RHEL) then
    let! config := rhel.LoadConfig operatingSystemSpec in
    Ok {| AmazonLinuxConfig := AmazonLinuxConfig z; FlatcarConfig := FlatcarConfig z; RhelConfig := config;
          UbuntuConfig := UbuntuConfig z; RockyLinuxConfig := RockyLinuxConfig z |}
  else if decide (os = OS_Ubuntu) then
    let! config := ubuntu.LoadConfig operatingSystemSpec in
    Ok {| AmazonLinuxConfig := AmazonLinuxConfig z; FlatcarConfig := FlatcarConfig z; RhelConfig := RhelConfig z;
          UbuntuConfig := config; RockyLinuxConfig := RockyLinuxConfig z |}
  else if decide (os = OS_RockyLinux) then
    let! config := rockylinux.LoadConfig operatingSystemSpec in
    Ok {| AmazonLinuxConfig := AmazonLinuxConfig z; FlatcarConfig := FlatcarConfig z; RhelConfig := RhelConfig z;
          UbuntuConfig := UbuntuConfig z; RockyLinuxConfig := config |}
  else Err (Errorf "unknown OperatingSystem" []).

(** [if len(s) > 0 { data.X = &s }] *)
Definition nonempty (s : string) : option string := if decide (s = "") then None else Some s.

Definition buildFilesData (kubeletVersionStr : string) (clusterDNSIPs : list IP) (caCert hostCACert : string)
    (inTreeCCM : bool) (cloudConfig containerRuntime : string) (providerConfig : ProviderConfig)
    (external : bool) (initialTaints crConfig crAuthConfig : string)
    (kubeletFeatureGates : gmap string bool) (bootstrapKubeconfigString : string) (bc : bootstrapConfig)
    (nodeHTTPProxy nodeNoProxy sandboxImage : string) (annotations : option (gmap string string))
    : result filesData :=
  let! kubeletConfigs := getKubeletConfigs annotations in
  let networkIPFamily := GetIPFamily (PC_Network providerConfig) in
  if IsStaticIPConfig (PC_Network providerConfig)
     && negb (bool_decide (PC_OperatingSystem providerConfig = OS_Flatcar))
  then Err (Errorf "static IP config is not supported with: %s" [PC_OperatingSystem providerConfig])
  else
    let! osConfig := wrapR "failed to add operating system spec: %w" []
      (setOperatingSystemConfig (PC_OperatingSystem providerConfig) (PC_OperatingSystemSpec providerConfig)) in
    Ok {| KubeVersion := kubeletVersionStr;
          KubeletConfiguration := ""; KubeletSystemdUnit := ""; CNIVersion := ""; ServerAddress := "";
          fd_RHSubscription := ∅;
          ClusterDNSIPs := clusterDNSIPs;
          KubernetesCACert := caCert;
          HostCACert := hostCACert;
          InTreeCCMAvailable := inTreeCCM;
          fd_CloudConfig := cloudConfig;
          fd_ContainerRuntime := containerRuntime;
          CloudProviderName := PC_CloudProvider providerConfig;
          ExternalCloudProvider := external;
          InitialTaints := initialTaints;
          ContainerRuntimeConfig := crConfig;
          ContainerRuntimeAuthConfig := crAuthConfig;
          KubeletFeatureGates := kubeletFeatureGates;
          fd_kubeletConfig := kubeletConfigs;
          BootstrapKubeconfig := bootstrapKubeconfigString;
          fd_bootstrapConfig := bc;
          NetworkIPFamily := networkIPFamily;
          PauseImage := sandboxImage;
          HTTPProxy := nonempty nodeHTTPProxy;
          NoProxy := nonempty nodeNoProxy;
          fd_NetworkConfig := PC_Network providerConfig;
          fd_operatingSystemConfig := osConfig |}.

(** The modules of one section with the subscription set. *)
Definition with_RHSubscription (sub : gmap string string) (o : option CloudInitModule) : CloudInitModule :=
  let m := default empty_CloudInitModule o in
  {| BootCMD := BootCMD m; RHSubscription := sub; RunCMD := RunCMD m; YumRepos := YumRepos m;
     YumRepoDir := YumRepoDir m |}.

Definition with_modules (m : option CloudInitModule) (c : OSPConfig) : OSPConfig :=
  {| SupportedContainerRuntimes := SupportedContainerRuntimes c;
     OSPConfig_Templates := OSPConfig_Templates c; OSPConfig_Units := OSPConfig_Units c;
     OSPConfig_Files := OSPConfig_Files c; OSPConfig_CloudInitModules := m |}.

(** [configureRHELSubscription] writes into the profile it is given. *)
Definition configureRHELSubscription (providerConfig : ProviderConfig) (osp : OperatingSystemProfileSpec)
    (data : filesData) : OperatingSystemProfileSpec :=
  if negb (bool_decide (PC_OperatingSystem providerConfig = OS_RHEL)) then osp
  else
    let rhSubscription := rhel.RHSubscription (RhelConfig (fd_operatingSystemConfig data)) in
    let set c := with_modules
      (Some (with_RHSubscription rhSubscription (OSPConfig_CloudInitModules c))) c in
    {| OSP_OSName := OSP_OSName osp; OSP_OSVersion := OSP_OSVersion osp; OSP_Version := OSP_Version osp;
       SupportedCloudProviders := SupportedCloudProviders osp;
       OSP_BootstrapConfig := set (OSP_BootstrapConfig osp);
       OSP_ProvisioningConfig := set (OSP_ProvisioningConfig osp);
       OSP_ProvisioningUtility := OSP_ProvisioningUtility osp |}.

(** ** Rendering the files of a profile *)

Definition selectAdditionalFiles (config : OSPConfig) (containerRuntime : string) : list File :=
  match List.find (fun cr => bool_decide (ContainerRuntimeSpec_Name cr = containerRuntime))
          (SupportedContainerRuntimes config) with
  | Some cr => ContainerRuntimeSpec_Files cr
  | None => []
  end.

(** The templates of the runtime, overridden by those of the section. *)
Definition templatesToRender (config : OSPConfig) (containerRuntime : string) : gmap string string :=
  OSPConfig_Templates config ∪
  match List.find (fun cr => bool_decide (ContainerRuntimeSpec_Name cr = containerRuntime))
          (SupportedContainerRuntimes config) with
  | Some cr => ContainerRuntimeSpec_Templates cr
  | None => ∅
  end.

Definition addTemplatingSequence (templateName template : string) : string :=
  NL +:+ "{{- define " +:+ DQ +:+ templateName +:+ DQ +:+ " }}" +:+ NL +:+ template +:+ NL +:+ "{{- end }}".

(** One round of the rendering loop. *)
Definition render_template (d : filesData) (name t : string) : result string :=
  let! tmpl := wrapR "failed to parse OSP template [%s]: %w" [name] (osp_Parse name t) in
  let! buff := osp_Execute tmpl d in
  Ok (addTemplatingSequence name buff).

Fixpoint render_templates (d : filesData) (l : list (string * string)) : result (list string) :=
  match l with
  | [] => Ok []
  | (name, t) :: l' =>
      let! x := render_template d name t in
      let! xs := render_templates d l' in Ok (x :: xs)
  end.

Definition selectAdditionalTemplates (config : OSPConfig) (containerRuntime : string) (d : filesData)
    : result (list string) :=
  render_templates d (range (templatesToRender config containerRuntime)).

(** [for _, at := range additionalTemplates { tmpl, err = tmpl.Parse(at) }] *)
Fixpoint parse_more (tmpl : OSPTemplate) (additionalTemplates : list string) : result OSPTemplate :=
  match additionalTemplates with
  | [] => Ok tmpl
  | t :: l => let! tmpl' := osp_ParseMore tmpl t in parse_more tmpl' l
  end.

(** One file: a file without inline content is a nil dereference. *)
(** The copy of a file with the rendered text. *)
Definition populated (file : File) (inline : FileContentInline) (buff : string) : File :=
  {| File_Path := File_Path file;
     File_Permissions := if (File_Permissions file =? 0)%Z then defaultFilePermissions
                         else File_Permissions file;
     File_Content := {| Inline := Some {| Inline_Encoding := Inline_Encoding inline; Inline_Data := buff |} |} |}.

Definition populateFile (additionalTemplates : list string) (d : filesData) (file : File) : result File :=
  let! inline := deref "file.Content.Inline.Data" (Inline (File_Content file)) in
  let! tmpl := wrapR "failed to parse OSP file [%s] template: %w" [File_Path file]
                 (osp_Parse (File_Path file) (Inline_Data inline)) in
  let! tmpl := parse_more tmpl additionalTemplates in
  let! buff := osp_Execute tmpl d in
  Ok (populated file inline buff).

Fixpoint populateFilesList (files : list File) (additionalTemplates : list string) (d : filesData)
    : result (list File) :=
  match files with
  | [] => Ok []
  | file :: files' =>
      let! pfile := populateFile additionalTemplates d file in
      let! pfiles := populateFilesList files' additionalTemplates d in Ok (pfile :: pfiles)
  end.

Definition renderedFiles (config : OSPConfig) (containerRuntime : string) (data : filesData)
    : result (list File) :=
  let files := OSPConfig_Files config ++ selectAdditionalFiles config containerRuntime in
  let! additionalTemplates := wrapR "failed to add OSP templates: %w" []
    (selectAdditionalTemplates config containerRuntime data) in
  wrapR "failed to populate OSP file template: %w" [] (populateFilesList files additionalTemplates data).

Definition host_config_file (registryHostConfigs : gmap string string) (path : string) : File :=
  {| File_Path := path; File_Permissions := 600;
     File_Content := {| Inline := Some {| Inline_Encoding := "";
       Inline_Data := default "" (registryHostConfigs !! path) |} |} |}.

Definition injectRegistryHostConfigs (files : list File) (registryHostConfigs : gmap string string) : list File :=
  files ++ map (host_config_file registryHostConfigs) (sorted_keys registryHostConfigs).

Definition renderOSPFiles (osp : OperatingSystemProfileSpec) (containerRuntime : string) (data : filesData)
    (registryHostConfigs : gmap string string) : result (list File * list File) :=
  let! bootstrapping := wrapR "failed to render bootstrapping file templates: %w" []
    (renderedFiles (OSP_BootstrapConfig osp) containerRuntime data) in
  let! provisioning := wrapR "failed to render provisioning file templates: %w" []
    (renderedFiles (OSP_ProvisioningConfig osp) containerRuntime data) in
  Ok (bootstrapping,
      if decide (registryHostConfigs = ∅) then provisioning
      else injectRegistryHostConfigs provisioning registryHostConfigs).

(** The provisioning utility is filled in by the controller. *)
Definition buildOSCSpec (ospOriginal osp : OperatingSystemProfileSpec) (providerConfig : ProviderConfig)
    (renderedBootstrappingFiles renderedProvisioningFiles : list File) : OperatingSystemConfigSpec :=
  {| OSC_OSName := OSP_OSName ospOriginal;
     OSC_OSVersion := OSP_OSVersion ospOriginal;
     OSC_CloudProvider := {| CloudProviderSpec_Name := PC_CloudProvider providerConfig;
                             CloudProviderSpec_Spec := PC_CloudProviderSpec providerConfig |};
     OSC_BootstrapConfig :=
       {| OSCConfig_Units := OSPConfig_Units (OSP_BootstrapConfig ospOriginal);
          OSCConfig_Files := renderedBootstrappingFiles;
          UserSSHKeys := PC_SSHPublicKeys providerConfig;
          OSCConfig_CloudInitModules := OSPConfig_CloudInitModules (OSP_BootstrapConfig osp) |};
     OSC_ProvisioningConfig :=
       {| OSCConfig_Units := OSPConfig_Units (OSP_ProvisioningConfig ospOriginal);
          OSCConfig_Files := renderedProvisioningFiles;
          UserSSHKeys := PC_SSHPublicKeys providerConfig;
          OSCConfig_CloudInitModules := OSPConfig_CloudInitModules (OSP_ProvisioningConfig osp) |};
     OSC_ProvisioningUtility := "" |}.

(** The flags of the controller that a generated config depends on. *)
Record Flags := {
  fl_namespace : string;
  fl_caCert : string;
  fl_hostCACert : string;
  fl_clusterDNSIPs : list IP;
  fl_containerRuntime : string;
  fl_externalCloudProvider : bool;
  fl_initialTaints : string;
  fl_nodeHTTPProxy : string;
  fl_nodeNoProxy : string;
  fl_kubeletFeatureGates : gmap string bool
}.

Definition GenerateOperatingSystemConfig (md : MachineDeployment) (osp : OperatingSystemProfile)
    (bootstrapKubeconfig : Kubeconfig) (bootstrapKubeconfigSecretName apiServerToken oscName : string)
    (flags : Flags) (containerRuntimeConfig : Config) : result OperatingSystemConfig :=
  let ospOriginal := OSP_Spec osp in
  let! providerConfig := parseProviderConfig md in
  let! (crConfig, crAuthConfig, registryHostConfigs) :=
    prepareContainerRuntimeConfig md containerRuntimeConfig in
  let! (bc, bootstrapKubeconfigString) :=
    prepareBootstrapConfig md bootstrapKubeconfig bootstrapKubeconfigSecretName apiServerToken in
  let! (cloudConfig, inTreeCCM, external) :=
    prepareCloudProviderConfig providerConfig (MD_Versions_Kubelet md) (fl_externalCloudProvider flags) in
  let! kubeletVersionStr := formatKubeletVersion (MD_Versions_Kubelet md) in
  let! data := buildFilesData kubeletVersionStr (fl_clusterDNSIPs flags) (fl_caCert flags)
    (fl_hostCACert flags) inTreeCCM cloudConfig (fl_containerRuntime flags) providerConfig external
    (fl_initialTaints flags) crConfig crAuthConfig (fl_kubeletFeatureGates flags)
    bootstrapKubeconfigString bc (fl_nodeHTTPProxy flags) (fl_nodeNoProxy flags)
    (SandboxImage containerRuntimeConfig) (MD_Annotations md) in
  let ospSpec := configureRHELSubscription providerConfig (OSP_Spec osp) data in
  let! (renderedBootstrappingFiles, renderedProvisioningFiles) :=
    renderOSPFiles ospSpec (fl_containerRuntime flags) data registryHostConfigs in
  Ok {| OSC_Meta := object_meta oscName (fl_namespace flags);
        OSC_Spec := buildOSCSpec ospOriginal ospSpec providerConfig
                      renderedBootstrappingFiles renderedProvisioningFiles |}.
End Resources.

(** ** [secrets.go] *)

Definition GenerateCloudConfigSecret (name namespace data : string) : Secret :=
  {| Secret_Meta := object_meta name namespace; Secret_Type := "Opaque"; Secret_Immutable := Some true;
     Secret_Data := {[ "cloud-config" := data ]} |}.

(** ** Kubelet settings: bounds and round trip *)

Section KubeletProps.
Context `{SDK, MapRange, Durations}.

Lemma ParseInt10_int32 s n : ParseInt10 s 32 = Ok n -> (- 2 ^ 31 <= n < 2 ^ 31)%Z.
Proof. intros Hn%ParseInt10_bounds; [exact Hn|done]. Qed.

Lemma parse_int32_Ok fmt val n :
  parse_int32 fmt val = Ok n <-> ParseInt10 val 32 = Ok n.
Proof.
  unfold parse_int32. rewrite bindR_Ok. setoid_rewrite wrapR_Ok. split.
  - intros (z & Hz & [= <-]). by rewrite to_int32_id by eauto using ParseInt10_int32.
  - intros Hn. exists n. split; [done|]. by rewrite to_int32_id by eauto using ParseInt10_int32.
Qed.

Lemma parse_setting_Some {A} configs key (parse : string -> result A) a :
  parse_setting configs key parse = Ok (Some a) <->
  exists val, configs !! key = Some val /\ parse val = Ok a.
Proof.
  unfold parse_setting. destruct (configs !! key) as [val|]; [|naive_solver].
  rewrite bindR_Ok. naive_solver.
Qed.

(** An accepted integer setting is the annotation's value, in 32 bits. *)
Lemma parse_setting_int32 configs key fmt n :
  parse_setting configs key (parse_int32 fmt) = Ok (Some n) ->
  (- 2 ^ 31 <= n < 2 ^ 31)%Z /\ exists val, configs !! key = Some val /\ ParseInt10 val 32 = Ok n.
Proof.
  intros (val & Hk & Hp%parse_int32_Ok)%parse_setting_Some. split; [|by exists val].
  by eapply ParseInt10_int32.
Qed.

(** C32: the integer settings read from the annotations are the decimal values
    that are written there and fit in the [int32] they are converted to, so the
    conversion never wraps around; a setting that is absent stays absent. *)
Theorem getKubeletConfigs_bounds (annotations : option (gmap string string)) (c : kubeletConfig)
    (Hok : getKubeletConfigs annotations = Ok c) :
  let configs := getKubeletConfigMap annotations in
  Forall (fun setting : string * option Z =>
    match setting.2 with
    | Some n => (- 2 ^ 31 <= n < 2 ^ 31)%Z /\
        exists val, configs !! setting.1 = Some val /\ ParseInt10 val 32 = Ok n
    | None => configs !! setting.1 = None
    end)
    [(MaxPodsKubeletConfig, MaxPods c);
     (ImageGCHighThresholdPercent, KC_ImageGCHighThresholdPercent c);
     (ImageGCLowThresholdPercent, KC_ImageGCLowThresholdPercent c)].
Proof.
  cbn zeta. unfold getKubeletConfigs in Hok. destruct (decide (getKubeletConfigMap annotations = ∅)) as [He|He].
  { simplify_eq. rewrite He. repeat constructor; cbn; apply lookup_empty. }
  inv_bind Hok.
  assert (forall key fmt (o : option Z),
    parse_setting (getKubeletConfigMap annotations) key (parse_int32 fmt) = Ok o ->
    match o with
    | Some n => (- 2 ^ 31 <= n < 2 ^ 31)%Z /\
        exists val, getKubeletConfigMap annotations !! key = Some val /\ ParseInt10 val 32 = Ok n
    | None => getKubeletConfigMap annotations !! key = None
    end) as Hs.
  { intros key fmt [n|]; [apply parse_setting_int32|]. unfold parse_setting.
    destruct (_ !! key); [|done]. rewrite bindR_Ok. naive_solver. }
  repeat constructor; cbn; eapply Hs; eassumption.
Qed.
End KubeletProps.

(** The text of a map of resources: "k1=v1,k2=v2". *)
Definition key_value_text (delim : ascii) (m : gmap string string) : string :=
  Join (map (fun kv => kv.1 +:+ String delim kv.2) (map_to_list m)) ",".

Lemma getKeyValueMap_fold delim l (acc : gmap string string) :
  NoDup l.*1 -> Forall (fun kv => Contains kv.1 delim = false) l ->
  (forall k, k ∈ l.*1 -> acc !! k = None) ->
  fold_left (fun res pair => match SplitN2 pair delim with [k; v] => <[k := v]> res | _ => res end)
    (map (fun kv : string * string => kv.1 +:+ String delim kv.2) l) acc = list_to_map l ∪ acc.
Proof.
  revert acc. induction l as [|[k v] l IH]; intros acc; cbn.
  { by rewrite (left_id_L ∅ (∪)). }
  intros [Hk Hnd]%NoDup_cons [Hd Hall]%Forall_cons Hacc. cbn in Hd.
  rewrite SplitN2_cut by done. rewrite IH; [|done|done|].
  - rewrite <-insert_union_r by (by apply not_elem_of_list_to_map_1). by rewrite insert_union_l.
  - intros k' Hk'. rewrite lookup_insert_ne by (intros ->; done). apply Hacc. by right.
Qed.

(** [getKeyValueMap] reads back a printed map: keys without the delimiter
    and without commas, values without commas. *)
Theorem getKeyValueMap_roundtrip (delim : ascii) (m : gmap string string)
    (Hdelim : delim <> ","%char)
    (Hsafe : forall k v, m !! k = Some v ->
       Contains k delim = false /\ Contains k "," = false /\ Contains v "," = false) :
  getKeyValueMap (key_value_text delim m) delim = m.
Proof.
  unfold getKeyValueMap, key_value_text.
  assert (Forall (fun kv => Contains kv.1 delim = false /\
            Contains (kv.1 +:+ String delim kv.2) "," = false) (map_to_list m)) as Hall.
  { apply Forall_forall. intros [k v] (H1 & H2 & H3)%elem_of_map_to_list%Hsafe. split; [done|].
    rewrite Contains_app. cbn. rewrite H2, H3. by destruct (ascii_dec delim ","). }
  destruct (map_to_list m) as [|kv l] eqn:E.
  { cbn. symmetry. by apply map_to_list_empty_iff. }
  rewrite <-E in *. rewrite Split_Join.
  - rewrite getKeyValueMap_fold.
    + by rewrite (right_id_L ∅ (∪)), list_to_map_to_list.
    + apply NoDup_fst_map_to_list.
    + eapply Forall_impl; [exact Hall|]. by intros kv' [].
    + intros k _. apply lookup_empty.
  - by rewrite E.
  - apply Forall_map. eapply Forall_impl; [exact Hall|]. by intros kv' [].
Qed.

(** ** The files of a generated config *)

Section GenerateProps.
Context `{ResourceLibs}.

(** A file as rendered: its template, to which the additional templates are added,
    executed on the data. *)
Definition rendered_from (additionalTemplates : list string) (d : filesData) (file pfile : File) : Prop :=
  File_Path pfile = File_Path file /\
  File_Permissions pfile = (if (File_Permissions file =? 0)%Z then 644 else File_Permissions file)%Z /\
  exists inline tmpl tmpl' text, Inline (File_Content file) = Some inline /\
    osp_Parse (File_Path file) (Inline_Data inline) = Ok tmpl /\
    parse_more tmpl additionalTemplates = Ok tmpl' /\ osp_Execute tmpl' d = Ok text /\
    Inline (File_Content pfile) = Some {| Inline_Encoding := Inline_Encoding inline; Inline_Data := text |}.

(** A template of the section or of the runtime, executed and wrapped in its name. *)
Definition template_text (d : filesData) (named : string * string) (text : string) : Prop :=
  exists tmpl body, osp_Parse named.1 named.2 = Ok tmpl /\ osp_Execute tmpl d = Ok body /\
    text = addTemplatingSequence named.1 body.

(** The files of a section and of the selected runtime, in order. *)
Definition section_rendered (c : OSPConfig) (containerRuntime : string) (d : filesData) (pfiles : list File) : Prop :=
  exists additionalTemplates,
    Forall2 (template_text d) (range (templatesToRender c containerRuntime)) additionalTemplates /\
    Forall2 (rendered_from additionalTemplates d) (OSPConfig_Files c ++ selectAdditionalFiles c containerRuntime) pfiles.

Lemma populateFilesList_Ok files ats d pfiles :
  populateFilesList files ats d = Ok pfiles -> Forall2 (rendered_from ats d) files pfiles.
Proof.
  revert pfiles. induction files as [|f files IH]; intros pfiles; cbn.
  { intros [= <-]. constructor. }
  intros Hp. inv_bind Hp. constructor; [|by apply IH]. clear IH Hx0.
  unfold populateFile in Hx. inv_bind Hx. unfold rendered_from. cbn. split_and!; [done..|].
  unfold deref in Hx0. destruct (Inline (File_Content f)); simplify_eq/=. by eexists _, _, _, _.
Qed.

Lemma render_templates_Ok d l ats : render_templates d l = Ok ats -> Forall2 (template_text d) l ats.
Proof.
  revert ats. induction l as [|[name t] l IH]; intros ats; cbn; [intros [= <-]; constructor|].
  intros Hr. inv_bind Hr. constructor; [|by apply IH]. unfold render_template in Hx. inv_bind Hx. by eexists _, _.
Qed.

Lemma renderedFiles_Ok c cr d pfiles : renderedFiles c cr d = Ok pfiles -> section_rendered c cr d pfiles.
Proof.
  unfold renderedFiles. intros Hr. inv_bind Hr. eexists. split; [|by eapply populateFilesList_Ok].
  by apply render_templates_Ok.
Qed.

Lemma inject_empty files : injectRegistryHostConfigs files ∅ = files.
Proof. unfold injectRegistryHostConfigs, sorted_keys. cbn. by rewrite app_nil_r. Qed.

Lemma renderOSPFiles_Ok osp cr d hosts boot prov :
  renderOSPFiles osp cr d hosts = Ok (boot, prov) ->
  section_rendered (OSP_BootstrapConfig osp) cr d boot /\
  exists rendered, prov = rendered ++ map (host_config_file hosts) (sorted_keys hosts) /\
    section_rendered (OSP_ProvisioningConfig osp) cr d rendered.
Proof.
  unfold renderOSPFiles. intros Hr. inv_bind Hr. split; [by apply renderedFiles_Ok|].
  eexists. split; [|by apply renderedFiles_Ok].
  destruct (decide (hosts = ∅)) as [->|]; [|done]. symmetry. apply inject_empty.
Qed.

(** The subscription of a RHEL machine is the only change to a profile: files and
    templates stay. *)
Lemma configureRHEL_rendered pc osp d cr d' pfiles :
  let osp' := configureRHELSubscription pc osp d in
  (section_rendered (OSP_BootstrapConfig osp') cr d' pfiles <-> section_rendered (OSP_BootstrapConfig osp) cr d' pfiles) /\
  (section_rendered (OSP_ProvisioningConfig osp') cr d' pfiles <-> section_rendered (OSP_ProvisioningConfig osp) cr d' pfiles).
Proof. cbn. unfold configureRHELSubscription. by destruct (negb _). Qed.

(** What the templates are given: the settings of the machine deployment, of the
    flags and of the bootstrapping. *)
Record template_data (md : MachineDeployment) (kc : Kubeconfig) (kcName token : string) (fl : Flags) (cfg : Config)
    (pc : ProviderConfig) (d : filesData) : Prop := {
  td_version : formatKubeletVersion (MD_Versions_Kubelet md) = Ok (KubeVersion d);
  td_bootstrap : prepareBootstrapConfig md kc kcName token = Ok (fd_bootstrapConfig d, BootstrapKubeconfig d);
  td_cloud : prepareCloudProviderConfig pc (MD_Versions_Kubelet md) (fl_externalCloudProvider fl) =
    Ok (fd_CloudConfig d, InTreeCCMAvailable d, ExternalCloudProvider d);
  td_provider : CloudProviderName d = PC_CloudProvider pc;
  td_runtime : exists hosts, prepareContainerRuntimeConfig md cfg =
    Ok (ContainerRuntimeConfig d, ContainerRuntimeAuthConfig d, hosts);
  td_runtime_name : fd_ContainerRuntime d = fl_containerRuntime fl;
  td_pause : PauseImage d = SandboxImage cfg;
  td_os : setOperatingSystemConfig (PC_OperatingSystem pc) (PC_OperatingSystemSpec pc) = Ok (fd_operatingSystemConfig d);
  td_kubelet : getKubeletConfigs (MD_Annotations md) = Ok (fd_kubeletConfig d);
  td_gates : KubeletFeatureGates d = fl_kubeletFeatureGates fl;
  td_network : fd_NetworkConfig d = PC_Network pc /\ NetworkIPFamily d = GetIPFamily (PC_Network pc);
  td_dns : ClusterDNSIPs d = fl_clusterDNSIPs fl;
  td_certificates : KubernetesCACert d = fl_caCert fl /\ HostCACert d = fl_hostCACert fl;
  td_taints : InitialTaints d = fl_initialTaints fl;
  td_proxy : HTTPProxy d = nonempty (fl_nodeHTTPProxy fl) /\ NoProxy d = nonempty (fl_nodeNoProxy fl)
}.

(** C31: a generated config has, for the bootstrapping, the files of the
    profile and of the selected container runtime, in order, each with its path
    and encoding, with permissions 644 where none were given, and with the text
    that its template and the additional templates of the section and of the
    runtime make of the settings of the machine deployment, the flags and the
    bootstrapping; for the provisioning, after those, the registry host files in
    the order of their paths with permissions 600; it is named and placed as
    asked, carries the operating system of the profile, the provider and the SSH
    keys of the machine deployment, and leaves the utility to the controller. *)
Theorem GenerateOperatingSystemConfig_files (md : MachineDeployment) (osp : OperatingSystemProfile)
    (kc : Kubeconfig) (kcName token oscName : string) (flags : Flags) (cfg : Config)
    (osc : OperatingSystemConfig)
    (Hok : GenerateOperatingSystemConfig md osp kc kcName token oscName flags cfg = Ok osc) :
  let spec := OSC_Spec osc in
  OSC_Meta osc = object_meta oscName (fl_namespace flags) /\
  OSC_OSName spec = OSP_OSName (OSP_Spec osp) /\ OSC_ProvisioningUtility spec = "" /\
  exists pc d, parseProviderConfig md = Ok pc /\ template_data md kc kcName token flags cfg pc d /\
    section_rendered (OSP_BootstrapConfig (OSP_Spec osp)) (fl_containerRuntime flags) d
      (OSCConfig_Files (OSC_BootstrapConfig spec)) /\
    (exists hosts rendered, RegistryHostConfigs (Config_Engine cfg) = Ok hosts /\
       OSCConfig_Files (OSC_ProvisioningConfig spec)
         = rendered ++ map (host_config_file hosts) (sorted_keys hosts) /\
       section_rendered (OSP_ProvisioningConfig (OSP_Spec osp)) (fl_containerRuntime flags) d rendered) /\
    UserSSHKeys (OSC_BootstrapConfig spec) = PC_SSHPublicKeys pc /\
    UserSSHKeys (OSC_ProvisioningConfig spec) = PC_SSHPublicKeys pc /\
    CloudProviderSpec_Name (OSC_CloudProvider spec) = PC_CloudProvider pc.
Proof.
  unfold GenerateOperatingSystemConfig in Hok. inv_bind Hok.
  destruct x0 as [[crConfig crAuth] hosts]. inv_bind Hok. destruct x0 as [bc kcs]. inv_bind Hok.
  destruct x0 as [[cloudConfig inTree] external]. inv_bind Hok. destruct x2 as [boot prov]. inv_bind Hok.
  match goal with Hr : renderOSPFiles _ _ _ _ = Ok _ |- _ =>
    destruct (renderOSPFiles_Ok _ _ _ _ _ _ Hr) as (Hb & rendered & -> & Hp) end.
  apply configureRHEL_rendered in Hb, Hp. cbn zeta. split_and!; [done..|]. exists x, x1. split; [done|]. split; [|split_and!; [done| |done..]].
  - match goal with Hd : buildFilesData _ _ _ _ _ _ _ _ _ _ _ _ _ _ _ _ _ _ _ = Ok _ |- _ =>
      unfold buildFilesData in Hd; inv_bind Hd; destruct (_ && _); [done|]; inv_bind Hd end.
    split; cbn; try done. by exists hosts.
  - exists hosts, rendered. split_and!; try done.
    match goal with Hc : prepareContainerRuntimeConfig _ _ = Ok _ |- _ =>
      unfold prepareContainerRuntimeConfig in Hc; inv_bind Hc end.
    done.
Qed.

(** rendering a file that has no inline content is a nil dereference: a
    profile with such a file, in front of which every file renders, makes the
    generator panic and not return an error. *)
Theorem populateFilesList_no_inline_panics (l1 l2 : list File) (file : File) (ats : list string)
    (d : filesData) (pfiles : list File)
    (Hbefore : populateFilesList l1 ats d = Ok pfiles)
    (Hnone : Inline (File_Content file) = None) :
  populateFilesList (l1 ++ file :: l2) ats d = Panic "file.Content.Inline.Data".
Proof.
  revert pfiles Hbefore. induction l1 as [|f l1 IH]; intros pfiles Hb; cbn in *.
  - unfold populateFile. by rewrite Hnone.
  - inv_bind Hb. rewrite Hx. cbn. by rewrite (IH _ Hx0).
Qed.
End GenerateProps.

(** ** Evaluation on concrete inputs *)

Module Demo.
#[export] Existing Instances DemoSDK.sdk CloudProvider.Demo.libs ContainerRuntime.Demo.entries
  ContainerRuntime.Demo.toml.

Definition pc : ProviderConfig :=
  {| PC_SSHPublicKeys := ["ssh-rsa AAAA"]; PC_CloudProvider := "aws";
     PC_CloudProviderSpec := {| Raw := Some "spec" |}; PC_OperatingSystem := "ubuntu";
     PC_OperatingSystemSpec := {| Raw := None |}; PC_Network := None; PC_OverwriteCloudConfig := None |}.
#[export] Instance decoder : JsonDecoder := fun _ _ => Ok pc.
#[export] Instance ip : NetIP := {| IP := string; ParseIP s := Some s; IP_String s := s |}.
#[export] Instance durations : Durations := fun s => ParseInt10 s 64.
#[export] Instance clientcmd : Clientcmd :=
  {| clientcmd_Write k := Ok (CurrentContext k);
     clientcmd_Load s := Err (LibError "clientcmd.Load" s "couldn't get version/kind") |}.
(** A template that prints its text, followed by the version of the kubelet. *)
#[export] Instance templates : OSPTemplates :=
  {| OSPTemplate := string; osp_Parse _ t := Ok t; osp_ParseMore t _ := Ok t;
     osp_Execute t d := Ok (t +:+ KubeVersion d) |}.
#[export] Instance amzn2_json : JsonUnmarshal amzn2.Config := fun _ => Ok amzn2.zero.
#[export] Instance amzn2_marshal : JsonMarshal amzn2.Config := fun _ => Ok "{}".
#[export] Instance flatcar_json : JsonUnmarshal flatcar.Config := fun _ => Ok flatcar.zero.
#[export] Instance flatcar_marshal : JsonMarshal flatcar.Config := fun _ => Ok "{}".
#[export] Instance rhel_json : JsonUnmarshal rhel.Config := fun _ => Ok rhel.zero.
#[export] Instance rhel_marshal : JsonMarshal rhel.Config := fun _ => Ok "{}".
#[export] Instance ubuntu_json : JsonUnmarshal ubuntu.Config := fun _ => Ok ubuntu.zero.
#[export] Instance ubuntu_marshal : JsonMarshal ubuntu.Config := fun _ => Ok "{}".
#[export] Instance rocky_json : JsonUnmarshal rockylinux.Config := fun _ => Ok rockylinux.zero.
#[export] Instance rocky_marshal : JsonMarshal rockylinux.Config := fun _ => Ok "{}".
#[export] Instance libs : ResourceLibs := {| res_cloud := CloudProvider.Demo.libs |}.

Definition annotations : option (gmap string string) := Some {[
  "v1.kubelet-config.machine-controller.kubermatic.io/MaxPods" := "222";
  "k8c.io/operating-system-profile" := "osp-ubuntu" ]}.
Definition kubelet_config : kubeletConfig :=
  default zero_kubeletConfig (ok_value (getKubeletConfigs annotations)).

Definition file (path : string) (perms : Z) : File :=
  {| File_Path := path; File_Permissions := perms;
     File_Content := {| Inline := Some {| Inline_Encoding := "b64"; Inline_Data := "data of " +:+ path |} |} |}.
Definition bare_file : File :=
  {| File_Path := "/bare"; File_Permissions := 0; File_Content := {| Inline := None |} |}.
Definition section (l : list File) : OSPConfig :=
  {| SupportedContainerRuntimes := [{| ContainerRuntimeSpec_Name := "containerd";
       ContainerRuntimeSpec_Files := [file "/etc/containerd" 600];
       ContainerRuntimeSpec_Templates := ∅ |}];
     OSPConfig_Templates := ∅; OSPConfig_Units := []; OSPConfig_Files := l;
     OSPConfig_CloudInitModules := None |}.
Definition osp : OperatingSystemProfile :=
  {| OSP_Meta := object_meta "osp-ubuntu" "kube-system";
     OSP_Spec := {| OSP_OSName := "ubuntu"; OSP_OSVersion := "22.04"; OSP_Version := "v1.0.0";
       SupportedCloudProviders := [{| CloudProviderSpec_Name := "aws"; CloudProviderSpec_Spec := {| Raw := None |} |}];
       OSP_BootstrapConfig := section [file "/opt/bin/bootstrap" 0];
       OSP_ProvisioningConfig := section [file "/opt/bin/setup" 0];
       OSP_ProvisioningUtility := "cloud-init" |} |}.
Definition md : MachineDeployment :=
  {| MD_Meta := with_annotations annotations (object_meta "md-1" "kube-system");
     MD_ProviderSpec_Value := Some {| Raw := Some "{}" |}; MD_Versions_Kubelet := "1.30.0" |}.
Definition kubeconfig : Kubeconfig :=
  {| Kind := "Config"; APIVersion := "v1";
     Clusters := {[ "c" := Some {| Server := "https://api:6443"; CertificateAuthorityData := "ca" |} ]};
     AuthInfos := ∅; Contexts := ∅; CurrentContext := "ctx" |}.
Definition flags : Flags :=
  {| fl_namespace := "osm"; fl_caCert := ""; fl_hostCACert := ""; fl_clusterDNSIPs := [];
     fl_containerRuntime := "containerd"; fl_externalCloudProvider := true; fl_initialTaints := "";
     fl_nodeHTTPProxy := ""; fl_nodeNoProxy := ""; fl_kubeletFeatureGates := ∅ |}.
Definition generated : result OperatingSystemConfig :=
  GenerateOperatingSystemConfig md osp kubeconfig "kc" "tok" "md-1-kube-system-config" flags zero_Config.
Definition osc : OperatingSystemConfig :=
  default {| OSC_Meta := object_meta "" ""; OSC_Spec := buildOSCSpec (OSP_Spec osp) (OSP_Spec osp) pc [] [] |}
    (ok_value generated).
Definition data : @filesData DemoSDK.sdk (@res_ip DemoSDK.sdk libs) :=
  {| KubeVersion := "v1.30.0"; KubeletConfiguration := ""; KubeletSystemdUnit := ""; CNIVersion := "";
     ServerAddress := ""; fd_RHSubscription := ∅; BootstrapKubeconfig := ""; InTreeCCMAvailable := false; ClusterDNSIPs := [];
     KubernetesCACert := ""; HostCACert := ""; fd_CloudConfig := ""; fd_ContainerRuntime := "";
     CloudProviderName := ""; fd_NetworkConfig := None; ExternalCloudProvider := true; InitialTaints := "";
     HTTPProxy := None; NoProxy := None; ContainerRuntimeConfig := ""; ContainerRuntimeAuthConfig := "";
     KubeletFeatureGates := ∅; NetworkIPFamily := ""; PauseImage := "";
     fd_kubeletConfig := zero_kubeletConfig; fd_operatingSystemConfig := zero_operatingSystemConfig;
     fd_bootstrapConfig := {| Token := ""; ServerURL := ""; SecretName := "";
                              BootstrapKubeconfigSecretName := "" |} |}.
End Demo.
Import Demo.

Lemma getKubeletConfigs_bounds_witness :
  MaxPods Demo.kubelet_config = Some 222%Z /\
  Forall (fun setting : string * option Z =>
    match setting.2 with
    | Some n => (- 2 ^ 31 <= n < 2 ^ 31)%Z /\
        exists val, getKubeletConfigMap Demo.annotations !! setting.1 = Some val /\ ParseInt10 val 32 = Ok n
    | None => getKubeletConfigMap Demo.annotations !! setting.1 = None
    end)
    [(MaxPodsKubeletConfig, MaxPods Demo.kubelet_config);
     (ImageGCHighThresholdPercent, KC_ImageGCHighThresholdPercent Demo.kubelet_config);
     (ImageGCLowThresholdPercent, KC_ImageGCLowThresholdPercent Demo.kubelet_config)].
Proof.
  split; [vm_compute; reflexivity|].
  apply (getKubeletConfigs_bounds Demo.annotations Demo.kubelet_config).
  apply ok_default. vm_compute. reflexivity.
Defined.

Lemma getKeyValueMap_roundtrip_witness :
  getKeyValueMap (key_value_text "=" {[ "cpu" := "200m"; "memory" := "300Mi" ]}) "="
  = {[ "cpu" := "200m"; "memory" := "300Mi" ]}.
Proof.
  apply (getKeyValueMap_roundtrip "=" {[ "cpu" := "200m"; "memory" := "300Mi" ]}).
  - discriminate.
  - apply (map_Forall_insert_2 (M := gmap string)); [by repeat split|].
    apply map_Forall_singleton. by repeat split.
Defined.

Lemma GenerateOperatingSystemConfig_files_witness :
  Demo.generated = Ok Demo.osc /\
  OSC_Meta Demo.osc = object_meta "md-1-kube-system-config" "osm" /\
  map File_Path (OSCConfig_Files (OSC_ProvisioningConfig (OSC_Spec Demo.osc)))
    = ["/opt/bin/setup"; "/etc/containerd"; "/etc/containerd/certs.d/docker.io/hosts.toml"] /\
  exists d, formatKubeletVersion (MD_Versions_Kubelet Demo.md) = Ok (KubeVersion d) /\
    section_rendered (OSP_BootstrapConfig (OSP_Spec Demo.osp)) "containerd" d
      (OSCConfig_Files (OSC_BootstrapConfig (OSC_Spec Demo.osc))).
Proof.
  assert (Demo.generated = Ok Demo.osc) as Hok by (apply ok_default; vm_compute; reflexivity).
  destruct (GenerateOperatingSystemConfig_files _ _ _ _ _ _ _ _ _ Hok) as (Hmeta & _ & _ & pc & d & _ & Hd & Hb & _).
  split; [exact Hok|]. split; [exact Hmeta|]. split; [vm_compute; reflexivity|].
  exists d. split; [exact (td_version _ _ _ _ _ _ _ _ Hd)|exact Hb].
Defined.

Lemma populateFilesList_no_inline_panics_witness :
  populateFilesList [Demo.file "/a" 600; Demo.bare_file] [] Demo.data = Panic "file.Content.Inline.Data".
Proof.
  eapply (populateFilesList_no_inline_panics [Demo.file "/a" 600] [] Demo.bare_file [] Demo.data);
    reflexivity.
Defined.
