(* ===== verification/Bootstrap.v ===== *)
(** * Bootstrap credentials ([pkg/bootstrap], [pkg/clusterinfo])

    The kubeconfig a kubelet bootstraps with, the bootstrap token behind it,
    and where the address of the API server comes from. *)

From S2P Require Import Prelude GoStrings Encoding NetURL Types SDK Effects Api ContainerRuntime OSCResources.

(** [time.Format(time.RFC3339)] and [time.Parse]; times are nanoseconds. *)
Class RFC3339 := {
  time_Format : Z -> string;
  time_Parse : string -> result Z
}.
(** The layout has no fraction of a second. *)
Class RFC3339Laws `{RFC3339} :=
  time_Parse_Format t : time_Parse (time_Format t) = Ok (t - t mod 1000000000)%Z.

(** [labels.NewRequirement(key, selection.Equals, {value})] validates the value. *)
Class LabelRequirements := NewRequirement : string -> string -> result unit.

Definition minute : Z := 60000000000.
Definition hour : Z := 3600000000000.

Definition NamespaceSystem : string := "kube-system".
Definition NamespacePublic : string := "kube-public".
Definition NamespaceDefault : string := "default".

Definition CloudInitNamespace : string := "cloud-init-settings".
Definition cloudInitGetterSecret : string := "cloud-init-getter-token".
Definition secretTypeBootstrapToken : string := "bootstrap.kubernetes.io/token".
Definition machineDeploymentNameLabelKey : string := "machinedeployment.k8s.io/name".
Definition tokenIDKey : string := "token-id".
Definition tokenSecretKey : string := "token-secret".
Definition expirationKey : string := "expiration".
Definition contextIdentifier : string := "c".

(** [fmt.Sprintf(tokenFormatter, id, secret)] *)
Definition format_token (tokenID tokenSecret : string) : string := tokenID +:+ "." +:+ tokenSecret.

(** [fmt.Sprintf("%s-kubelet-bootstrap-config", name)] *)
Definition bootstrapConfigName (name : string) : string := name +:+ "-kubelet-bootstrap-config".

Definition secret_get (data : gmap string string) (k : string) : string := default "" (data !! k).

Definition with_data (data : gmap string string) (s : Secret) : Secret :=
  {| Secret_Meta := Secret_Meta s; Secret_Type := Secret_Type s; Secret_Immutable := Secret_Immutable s;
     Secret_Data := data |}.

(** ** [cloud_init_settings.go] *)

Definition ExtractAPIServerToken {R} (c : client) : io (ApiE R) string :=
  do! secret <- wrapIO "failed to get %s secrets in namespace %s: %w" [cloudInitGetterSecret; CloudInitNamespace]
    (trigger (Get c KSecret {| NN_Namespace := CloudInitNamespace; NN_Name := cloudInitGetterSecret |}));
  pureIO match Secret_Data secret !! "token" with
         | Some token => Ok token
         | None => Err (Errorf "failed to fetch api server token" [])
         end.

(** ** [clusterinfo/configmap.go] *)

Section ClusterInfo.
Context `{NetIP, Clientcmd} {R : Type}.
Variable c : client.
Variable caCert : string.

Definition getSecurePortFromSlice (ports : list EndpointPort) : option EndpointPort :=
  List.find (fun p => bool_decide (EndpointPort_Name p = Some "https") &&
                      bool_decide (is_Some (EndpointPort_Port p))) ports.

(** [net.JoinHostPort] *)
Definition JoinHostPort (host port : string) : string :=
  if Contains host ":" then "[" +:+ host +:+ "]:" +:+ port else host +:+ ":" +:+ port.

(** The address of an endpoint that can be used, if it can. *)
Definition endpoint_address (endpoint : Endpoint) : option IP :=
  if default false (Endpoint_Ready endpoint) then
    match Endpoint_Addresses endpoint with a :: _ => ParseIP a | [] => None end
  else None.

Definition endpoint_kubeconfig (ip : IP) (port : EndpointPort) : Kubeconfig :=
  let url := "https://" +:+ JoinHostPort (IP_String ip) (Itoa (default 0%Z (EndpointPort_Port port))) in
  {| Kind := "Config"; APIVersion := "v1";
     Clusters := {[ "" := Some {| Server := url; CertificateAuthorityData := caCert |} ]};
     AuthInfos := ∅; Contexts := ∅; CurrentContext := "" |}.

(** The first usable endpoint of a slice with a secure port. *)
Definition slice_kubeconfig (slice : EndpointSlice) : option Kubeconfig :=
  port ← getSecurePortFromSlice (Slice_Ports slice);
  ip ← head (omap endpoint_address (Slice_Endpoints slice));
  Some (endpoint_kubeconfig ip port).

Definition kubeconfig_of_slices (slices : list EndpointSlice) : result Kubeconfig :=
  match slices with
  | [] => Err (Errorf "no endpointslices found for kubernetes service" [])
  | _ =>
      match head (omap slice_kubeconfig slices) with
      | Some k => Ok k
      | None => Err (Errorf "no ready endpoint found in kubernetes endpointslices" [])
      end
  end.

Definition getKubeconfigFromConfigMap : io (ApiE R) Kubeconfig :=
  do! cm <- trigger (Get c KConfigMap {| NN_Namespace := NamespacePublic; NN_Name := "cluster-info" |});
  pureIO match ConfigMap_Data cm !! "kubeconfig" with
         | Some data => clientcmd_Load data
         | None => Err (Errorf "no kubeconfig found in cluster-info configmap" [])
         end.

Definition buildKubeconfigFromEndpointSlice : io (ApiE R) Kubeconfig :=
  do! slices <- wrapIO "failed to list endpointslices: %w" []
    (trigger (ListEndpointSlices c NamespaceDefault "kubernetes.io/service-name" "kubernetes"));
  pureIO (kubeconfig_of_slices slices).

Definition GetKubeconfig : io (ApiE R) Kubeconfig :=
  do r <- getKubeconfigFromConfigMap;
  match r with
  | Err _ => buildKubeconfigFromEndpointSlice
  | _ => Ret r
  end.
End ClusterInfo.

(** ** [kubeconfig.go] *)

Record BootstrapManager := {
  bootstrapTokenServiceAccountName : option NamespacedName;
  overrideBootstrapKubeletAPIServer : string;
  bootstrap_client : client;
  provider_client : client;
  provider_caCert : string
}.

Class BootstrapLibs `{SDK} := {
  #[global] boot_resources :: ResourceLibs;
  #[global] boot_time :: RFC3339;
  #[global] boot_labels :: LabelRequirements
}.

Section Kubeconfigs.
Context `{BootstrapLibs} {R : Type}.
Variable b : BootstrapManager.

Abbreviation api A := (io (ApiE R) A).

(** [clusterContextName] ends up as the last key that [range] visits. *)
Definition last_key {V} (m : gmap string V) : string := List.last (range m).*1 "".

(** [outConfig.Clusters[key].Server = ...] for every key: a nil cluster is a
    nil dereference. *)
Fixpoint override_servers (server : string) (l : list (string * option Cluster))
    : result (list (string * option Cluster)) :=
  match l with
  | [] => Ok []
  | (k, o) :: l' =>
      let! cl := deref "outConfig.Clusters[key].Server" o in
      let! r := override_servers server l' in
      Ok ((k, Some {| Server := server; CertificateAuthorityData := CertificateAuthorityData cl |}) :: r)
  end.

(** The changes [generateKubeconfig] makes to its copy. *)
Definition bootstrap_kubeconfig (override token : string) (info : Kubeconfig) : result Kubeconfig :=
  let clusterContextName := last_key (Clusters info) in
  let cluster := mjoin (Clusters info !! clusterContextName) in
  let clusters := <[contextIdentifier := cluster]> (delete clusterContextName (Clusters info)) in
  let! clusters :=
    (if decide (override = "") then Ok clusters
     else let! l := override_servers override (range clusters) in Ok (list_to_map l)) in
  Ok {| Kind := Kind info; APIVersion := APIVersion info; Clusters := clusters;
        AuthInfos := {[ contextIdentifier := {| AuthInfo_Token := token |} ]};
        Contexts := {[ contextIdentifier :=
          {| Context_Cluster := contextIdentifier; Context_AuthInfo := contextIdentifier |} ]};
        CurrentContext := contextIdentifier |}.

Definition generateKubeconfig (token : string) : api Kubeconfig :=
  do! infoKubeconfig <- GetKubeconfig (provider_client b) (provider_caCert b);
  pureIO (bootstrap_kubeconfig (overrideBootstrapKubeletAPIServer b) token infoKubeconfig).

(** [getAsUnstructured]: the object as the server holds it; turning it into
    JSON and back into its own type is the API machinery's. *)
Definition getAsUnstructured (k : kind) (name : NamespacedName) : api (obj k) :=
  wrapIO "failed to get object: %w" [] (trigger (Get (bootstrap_client b) k name)).

(** The secrets of a service account in turn: the first of the token type. *)
Fixpoint first_token_secret (namespace : string) (secrets : list string) : api string :=
  match secrets with
  | [] => Ret (Err (Errorf "no serviceAccountSecret found" []))
  | name :: secrets' =>
      do! secret <- wrapIO "failed to get serviceAccountSecret: %w" []
        (getAsUnstructured KSecret {| NN_Namespace := namespace; NN_Name := name |});
      if decide (Secret_Type secret = "kubernetes.io/service-account-token")
      then Ret (Ok (secret_get (Secret_Data secret) "token"))
      else first_token_secret namespace secrets'
  end.

Definition getTokenFromServiceAccount (name : NamespacedName) : api string :=
  do! sa <- wrapIO "failed to get serviceAccount %q: %w" [NN_Namespace name +:+ "/" +:+ NN_Name name]
    (getAsUnstructured KServiceAccount name);
  first_token_secret (Namespace (SA_Meta sa)) (SA_Secrets sa).

Definition getSecretIfExists (name : string) : api (option Secret) :=
  do! _ <- pureIO (NewRequirement machineDeploymentNameLabelKey name);
  do! items <- trigger (ListSecrets (bootstrap_client b) NamespaceSystem machineDeploymentNameLabelKey name);
  pureIO match items with
         | [] => Ok None
         | [s] => Ok (Some s)
         | _ => Err (Errorf "expected to find exactly one secret for the given machine name =%s but found %d"
                       [name; Itoa (Z.of_nat (length items))])
         end.

(** [time.Until(expirationTime).Minutes() < 30] *)
Definition near_expiry (now expirationTime : Z) : bool := (expirationTime - now <? 30 * minute)%Z.

Definition updateSecretExpirationAndGetToken (secret : Secret) : api string :=
  let data := Secret_Data secret in
  let token := format_token (secret_get data tokenIDKey) (secret_get data tokenSecretKey) in
  do! expirationTime <- pureIO (time_Parse (secret_get data expirationKey));
  do now <- trigger Now;
  if near_expiry now expirationTime then
    do now' <- trigger Now;
    do! _ <- wrapIO "failed to update secret: %w" []
      (trigger (Update (bootstrap_client b) KSecret
         (with_data (<[expirationKey := time_Format (now' + hour)]> data) secret)));
    Ret (Ok token)
  else Ret (Ok token).

Definition bootstrap_token_secret (name tokenID tokenSecret expiration : string) : Secret :=
  {| Secret_Meta :=
       {| Name := "bootstrap-token-" +:+ tokenID; Namespace := NamespaceSystem; Annotations := None;
          Labels := {[ machineDeploymentNameLabelKey := name ]}; Finalizers := []; DeletionTimestamp := None |};
     Secret_Type := secretTypeBootstrapToken;
     Secret_Immutable := None;
     Secret_Data := {[ "description" := "bootstrap token for " +:+ name;
                       tokenIDKey := tokenID;
                       tokenSecretKey := tokenSecret;
                       expirationKey := expiration;
                       "usage-bootstrap-authentication" := "true";
                       "usage-bootstrap-signing" := "true";
                       "auth-extra-groups" := "system:bootstrappers:machine-controller:default-node-token" ]} |}.

(** The token, and whether the secret existed. *)
Definition createBootstrapToken (name : string) : api (string * bool) :=
  do! existingSecret <- getSecretIfExists name;
  match existingSecret with
  | Some secret =>
      do! token <- wrapIO "failed to update bootstrap token: %w" [] (updateSecretExpirationAndGetToken secret);
      Ret (Ok (token, true))
  | None =>
      do tokenID <- trigger (RandString 6);
      do tokenSecret <- trigger (RandString 16);
      do now <- trigger Now;
      do! _ <- wrapIO "failed to create bootstrap token secret: %w" []
        (trigger (Create (bootstrap_client b) KSecret
           (bootstrap_token_secret name tokenID tokenSecret (time_Format (now + hour)))));
      Ret (Ok (format_token tokenID tokenSecret, false))
  end.

Definition new_bootstrap_config (name configString : string) : Secret :=
  {| Secret_Meta := object_meta (bootstrapConfigName name) CloudInitNamespace; Secret_Type := "";
     Secret_Immutable := None; Secret_Data := {[ "kubeconfig" := configString ]} |}.

Definition CreateBootstrapKubeconfig (name : string) : api (Kubeconfig * string) :=
  do! (token, updated) <-
    match bootstrapTokenServiceAccountName b with
    | Some sa =>
        do! token <- wrapIO "failed to get token from ServiceAccount %s/%s: %w" [NN_Namespace sa; NN_Name sa]
          (getTokenFromServiceAccount sa);
        Ret (Ok (token, false))
    | None => wrapIO "failed to create bootstrap token: %w" [] (createBootstrapToken name)
    end;
  do! outConfig <- generateKubeconfig token;
  do! configString <- pureIO (StringifyKubeconfig outConfig);
  do r <- trigger (Get (bootstrap_client b) KSecret
            {| NN_Namespace := CloudInitNamespace; NN_Name := bootstrapConfigName name |});
  match r with
  | Err err =>
      if IsNotFound err then
        do! _ <- trigger (Create (bootstrap_client b) KSecret (new_bootstrap_config name configString));
        Ret (Ok (outConfig, bootstrapConfigName name))
      else Ret (Err err)
  | Panic w => Ret (Panic w)
  | Ok bootstrapConfig =>
      if (updated : bool) then Ret (Ok (outConfig, bootstrapConfigName name))
      else
        do! _ <- trigger (Update (bootstrap_client b) KSecret
          (with_data {[ "kubeconfig" := configString ]} bootstrapConfig));
        Ret (Ok (outConfig, bootstrapConfigName name))
  end.
End Kubeconfigs.

(** ** The bootstrap token *)

Section TokenProps.
Context `{BootstrapLibs} {R : Type}.
Variable b : BootstrapManager.
Let c := bootstrap_client b.

(** The calls of [createBootstrapToken] that find no secret, and those that
    find one, with the token each returns. *)
Inductive token_calls (name : string) : list (obs (ApiE R)) -> string -> bool -> Prop :=
| new_token tokenID tokenSecret now :
    token_calls name
      [Obs (ListSecrets c NamespaceSystem machineDeploymentNameLabelKey name) (Ok []);
       Obs (RandString 6) tokenID; Obs (RandString 16) tokenSecret; Obs Now now;
       Obs (Create c KSecret (bootstrap_token_secret name tokenID tokenSecret (time_Format (now + hour)))) (Ok tt)]
      (format_token tokenID tokenSecret) false
| valid_token s now expiration :
    time_Parse (secret_get (Secret_Data s) expirationKey) = Ok expiration ->
    near_expiry now expiration = false ->
    token_calls name
      [Obs (ListSecrets c NamespaceSystem machineDeploymentNameLabelKey name) (Ok [s]); Obs Now now]
      (format_token (secret_get (Secret_Data s) tokenIDKey) (secret_get (Secret_Data s) tokenSecretKey)) true
| renewed_token s now now' expiration s' :
    time_Parse (secret_get (Secret_Data s) expirationKey) = Ok expiration ->
    near_expiry now expiration = true ->
    token_calls name
      [Obs (ListSecrets c NamespaceSystem machineDeploymentNameLabelKey name) (Ok [s]); Obs Now now;
       Obs Now now';
       Obs (Update c KSecret (with_data
              (<[expirationKey := time_Format (now' + hour)]> (Secret_Data s)) s)) (Ok s')]
      (format_token (secret_get (Secret_Data s) tokenIDKey) (secret_get (Secret_Data s) tokenSecretKey)) true.

(** C26: in every run, whatever the server answers, a bootstrap token that is
    returned is the one of the single secret labelled with the machine
    deployment, or a fresh one whose secret was just created; an existing
    secret keeps its token and is only written when it expires within thirty
    minutes, and then only its expiration changes, to one hour from then. *)
Theorem createBootstrapToken_calls (name : string) (t : list (obs (ApiE R))) (token : string) (existed : bool)
    (Hrun : run (createBootstrapToken b name) t (Ok (token, existed))) :
  token_calls name t token existed.
Proof.
  unfold createBootstrapToken, getSecretIfExists in Hrun.
  destruct (NewRequirement _ name) as [[]|e|w] eqn:El; run_steps Hrun.
  destruct x as [[|s [|s2 l]]|e|w]; run_steps Hrun.
  - destruct x2 as [[]|e|w]; run_steps Hrun. constructor.
  - unfold updateSecretExpirationAndGetToken in Hrun.
    run_reduce Hrun. destruct (time_Parse _) as [expiration|e|w] eqn:Ep; run_steps Hrun.
    destruct (near_expiry x expiration) eqn:En; run_steps Hrun.
    + destruct x1 as [s'|e|w]; run_steps Hrun. by eapply renewed_token.
    + by eapply valid_token.
Qed.
End TokenProps.

(** renewing helps: one hour from the moment of writing, to the second, is
    not within thirty minutes of it, so the next reconciliation in the
    following twenty-nine minutes does not write the secret again. *)
Theorem renewed_token_not_near_expiry `{RFC3339Laws} (written later : Z)
    (Hlater : (written <= later <= written + 29 * minute)%Z) :
  exists expiration, time_Parse (time_Format (written + hour)) = Ok expiration /\
    near_expiry later expiration = false.
Proof.
  eexists. split; [apply time_Parse_Format|]. unfold near_expiry, hour, minute in *.
  apply Z.ltb_ge.
  pose proof (Z.mod_pos_bound (written + 3600000000000) 1000000000). lia.
Qed.


(** ** The bootstrap kubeconfig *)

Lemma range_singleton `{MapRange} {V} k (v : V) : range ({[ k := v ]} : gmap string V) = [(k, v)].
Proof.
  apply Permutation_singleton_r. rewrite range_perm. by rewrite map_to_list_singleton.
Qed.

Section KubeconfigProps.
Context `{BootstrapLibs}.

Lemma bootstrap_clusters k o : <[contextIdentifier := o]> (delete k ({[ k := o ]} : gmap string (option Cluster)))
  = {[ contextIdentifier := o ]}.
Proof. by rewrite delete_singleton_eq, insert_empty. Qed.

(** Without a cluster a nil cluster is stored under the new name. *)
Lemma bootstrap_kubeconfig_no_cluster (override token : string) (info : Kubeconfig) :
  Clusters info = ∅ ->
  match bootstrap_kubeconfig override token info with
  | Ok kc => override = "" /\ cluster_server kc = Panic "Clusters[clusterName].Server"
  | Err _ => False
  | Panic w => override <> "" /\ w = "outConfig.Clusters[key].Server"
  end.
Proof.
  intros He. unfold bootstrap_kubeconfig. cbv zeta. rewrite He, lookup_empty, delete_empty, insert_empty.
  cbn [mjoin option_join]. destruct (decide (override = "")); cbn.
  - unfold cluster_server, first_key. cbn. by rewrite !insert_empty, range_singleton, lookup_singleton_eq.
  - by rewrite insert_empty, range_singleton.
Qed.

(** C27: from a kubeconfig with one cluster, whatever its name, the bootstrap
    kubeconfig has one cluster, user and context, all named "c" and consistent
    with each other and with the current context; the CA is kept, the server is
    the override when there is one, the user holds the token, and it is the
    server that the generated config is given.  From a kubeconfig without a
    cluster nothing of this comes as an error: it dereferences nil, at once with
    an override and without one when the server is read. *)
Theorem bootstrap_kubeconfig_single (override token k : string) (cl : Cluster) (info : Kubeconfig)
    (Hone : Clusters info = {[ k := Some cl ]}) :
  let server := if decide (override = "") then Server cl else override in
  (exists kc, bootstrap_kubeconfig override token info = Ok kc /\
    Clusters kc = {[ "c" := Some {| Server := server;
                                    CertificateAuthorityData := CertificateAuthorityData cl |} ]} /\
    AuthInfos kc = {[ "c" := {| AuthInfo_Token := token |} ]} /\
    Contexts kc = {[ "c" := {| Context_Cluster := "c"; Context_AuthInfo := "c" |} ]} /\
    CurrentContext kc = "c" /\ Kind kc = Kind info /\ APIVersion kc = APIVersion info /\
    cluster_server kc = Ok server) /\
  (forall empty, Clusters empty = ∅ ->
    match bootstrap_kubeconfig override token empty with
    | Ok kc => override = "" /\ cluster_server kc = Panic "Clusters[clusterName].Server"
    | Err _ => False
    | Panic w => override <> "" /\ w = "outConfig.Clusters[key].Server"
    end).
Proof.
  cbn. split; [|exact (bootstrap_kubeconfig_no_cluster override token)].
  unfold bootstrap_kubeconfig, last_key. rewrite Hone, range_singleton. cbn [fmap list_fmap fst List.last].
  rewrite lookup_singleton_eq. cbn [mjoin option_join]. rewrite bootstrap_clusters, range_singleton.
  unfold contextIdentifier.
  destruct (decide (override = "")) as [He|He]; cbn [bindR override_servers deref list_to_map foldr].
  - eexists. split; [reflexivity|]. cbn. split_and!; try done; [by destruct cl|].
    unfold cluster_server, first_key. cbn. by rewrite range_singleton, lookup_singleton_eq.
  - eexists. split; [reflexivity|]. cbn. rewrite insert_empty. split_and!; try done.
    unfold cluster_server, first_key. cbn. by rewrite range_singleton, lookup_singleton_eq.
Qed.

(** ** What the bootstrap writes *)

(** Creates or updates a secret among the bootstrap tokens or the bootstrap
    kubeconfig of [name], deletes nothing. *)
Definition bootstrap_write (b : BootstrapManager) (name : string) (w : write) : Prop :=
  match w with
  | WCreate r | WUpdate r =>
      ref_client r = bootstrap_client b /\ ref_kind r = KSecret /\
      (NN_Namespace (ref_key r) = NamespaceSystem \/
       ref_key r = {| NN_Namespace := CloudInitNamespace; NN_Name := bootstrapConfigName name |})
  | WDelete _ => False
  end.

Definition kubeconfig_ref (b : BootstrapManager) (name : string) : ref :=
  {| ref_client := bootstrap_client b; ref_kind := KSecret;
     ref_key := {| NN_Namespace := CloudInitNamespace; NN_Name := bootstrapConfigName name |} |}.

(** A new bootstrap token of [name], or another expiration of one that was [listed]. *)
Definition token_write (b : BootstrapManager) (name : string) (listed : Secret -> Prop) {R X} (e : ApiE R X) : Prop :=
  match e with
  | Create c KSecret o => c = bootstrap_client b /\
      exists tokenID tokenSecret expiration, o = bootstrap_token_secret name tokenID tokenSecret expiration
  | Update c KSecret o => c = bootstrap_client b /\
      exists s expiration, listed s /\ o = with_data (<[expirationKey := expiration]> (Secret_Data s)) s
  | _ => False
  end.

(** The calls of the bootstrapping of [name]: all its writes are such tokens and the
    bootstrap kubeconfig. *)
Definition bootstrap_call (b : BootstrapManager) (name : string) (listed : Secret -> Prop) {R} (X : Type)
    (e : ApiE R X) : Prop :=
  forall w, writes e = Some w ->
    token_write b name listed e \/ w = WCreate (kubeconfig_ref b name) \/ w = WUpdate (kubeconfig_ref b name).

(** The token that is found for [name], the only one with its label, is [listed]. *)
Definition lists (b : BootstrapManager) (name : string) (listed : Secret -> Prop) {R} (X : Type) (e : ApiE R X)
    (x : X) : Prop :=
  honest X e x /\
  match e in ApiE _ X return X -> Prop with
  | ListSecrets c namespace label value => fun x => forall s, x = Ok [s] -> c = bootstrap_client b ->
      namespace = NamespaceSystem -> label = machineDeploymentNameLabelKey -> value = name -> listed s
  | _ => fun _ => True
  end x.
End KubeconfigProps.

Section BootstrapWrites.
Context `{BootstrapLibs} {R : Type}.
Variable b : BootstrapManager.

Lemma first_token_secret_calls (P : forall X, ApiE R X -> Prop) ns l :
  (forall k n, P _ (Get (bootstrap_client b) k n)) -> all_calls P (first_token_secret b ns l).
Proof.
  intros HP. induction l as [|name l IH]; [exact I|]. cbn [first_token_secret].
  unfold getAsUnstructured. repeat calls_step; auto.
Qed.

Lemma GetKubeconfig_calls c ca (P : forall X, ApiE R X -> Prop) :
  (forall k n, P _ (Get c k n)) -> (forall ns l v, P _ (ListEndpointSlices c ns l v)) ->
  all_calls P (GetKubeconfig c ca).
Proof.
  intros HG HL. unfold GetKubeconfig, getKubeconfigFromConfigMap, buildKubeconfigFromEndpointSlice.
  repeat calls_step; auto. exact (HG KConfigMap _).
Qed.

(** All its writes are to secrets, whatever the answers. *)
Lemma CreateBootstrapKubeconfig_kind name :
  all_calls (only_writes (fun w => ref_kind (write_ref w) = KSecret)) (CreateBootstrapKubeconfig (R := R) b name).
Proof.
  unfold CreateBootstrapKubeconfig, getTokenFromServiceAccount, createBootstrapToken,
    getSecretIfExists, updateSecretExpirationAndGetToken, generateKubeconfig, getAsUnstructured.
  repeat first [calls_step | apply first_token_secret_calls; intros | apply GetKubeconfig_calls; intros];
    try exact I; done.
Qed.

Lemma getSecretIfExists_returns name listed :
  returns (lists b name listed) (on_ok (fun o => forall s, o = Some s -> listed s)) (getSecretIfExists (R := R) b name).
Proof.
  unfold getSecretIfExists, pureIO. destruct (NewRequirement _ _); [|exact I..]. cbn [bindIO bind trigger returns].
  intros [[|s [|]]|e|w] [_ Hl]; cbn in *; try done. intros s' [= <-]. by apply Hl.
Qed.

Lemma updateSecret_calls name (listed : Secret -> Prop) s :
  listed s ->
  calls_when (lists b name listed) (bootstrap_call b name listed) (updateSecretExpirationAndGetToken (R := R) b s).
Proof.
  intros Hs. unfold updateSecretExpirationAndGetToken. repeat calls_when_step; try done.
  intros w _. left. split; [done|]. by eexists _, _.
Qed.

(** A program without writes. *)
Lemma reads_calls name listed {A} (m : io (ApiE R) A) :
  all_calls (only_writes (fun _ => False)) m -> calls_when (lists b name listed) (bootstrap_call b name listed) m.
Proof.
  apply all_calls_when. intros X e He w Hw. unfold only_writes in He. by rewrite Hw in He.
Qed.

Lemma CreateBootstrapKubeconfig_calls name listed :
  calls_when (lists b name listed) (bootstrap_call b name listed) (CreateBootstrapKubeconfig (R := R) b name).
Proof.
  unfold CreateBootstrapKubeconfig, getTokenFromServiceAccount, createBootstrapToken, generateKubeconfig,
    getAsUnstructured.
  repeat first
    [ match goal with
      | |- calls_when _ _ (bindIO (getSecretIfExists _ _) _) =>
          eapply calls_when_bindIO_returns;
            [unfold getSecretIfExists|apply getSecretIfExists_returns|intros [s|] Hs]
      | |- calls_when _ _ (updateSecretExpirationAndGetToken _ _) => apply updateSecret_calls; by apply Hs
      | |- calls_when _ _ (first_token_secret _ _ _) => apply reads_calls, first_token_secret_calls; intros; exact I
      | |- calls_when _ _ (GetKubeconfig _ _) => apply reads_calls, GetKubeconfig_calls; intros; exact I
      end
    | calls_when_step]; try done; intros w [= <-].
  - left. split; [done|]. by eexists _, _, _.
  - right. right. match goal with H : lists _ _ _ _ _ _ |- _ => destruct H as [Hkey _] end.
    cbn in Hkey. unfold kubeconfig_ref, ref_of. f_equal. f_equal. exact Hkey.
  - right. left. reflexivity.
Qed.

Lemma CreateBootstrapKubeconfig_writes name :
  calls_when honest (only_writes (bootstrap_write b name)) (CreateBootstrapKubeconfig (R := R) b name).
Proof.
  eapply calls_when_weaken; [| |apply (CreateBootstrapKubeconfig_calls name (fun s => Namespace (Secret_Meta s) = NamespaceSystem))].
  - intros X e x Hx. split; [done|]. destruct e; try done. intros s -> _ -> _ _. by apply Forall_inv in Hx.
  - intros X e He. unfold only_writes. destruct (writes e) as [w|] eqn:Hw; [|done].
    destruct (He w Hw) as [Ht|[-> | ->]]; [|cbn; auto..].
    destruct e as [|c [] o|c [] o| | | | | | | |]; try done; injection Hw as <-; destruct Ht as [-> Ht]; cbn.
    + destruct Ht as (? & ? & ? & ->). auto.
    + destruct Ht as (s & ? & Hs & ->). cbn. auto.
Qed.
End BootstrapWrites.

(** ** Evaluation on concrete inputs *)

Module Demo.
#[export] Existing Instances DemoSDK.sdk OSCResources.Demo.libs.

(** Whole seconds in decimal, with a sign. *)
Definition format_seconds (t : Z) : string :=
  let s := (t / 1000000000)%Z in
  String (if (s <? 0)%Z then "-" else "+")%char (pretty (Z.to_N (Z.abs s))).
Definition parse_seconds (s : string) : result Z :=
  match s with
  | String sign digits =>
      match digits_value 0 digits with
      | Some n => Ok ((if ascii_dec sign "-" then - n else n) * 1000000000)%Z
      | None => Err (LibError "time.Parse" s "cannot parse")
      end
  | EmptyString => Err (LibError "time.Parse" s "cannot parse")
  end.
#[export] Instance seconds : RFC3339 := {| time_Format := format_seconds; time_Parse := parse_seconds |}.
#[export] Instance seconds_laws : RFC3339Laws.
Proof.
  intros t. cbn. unfold format_seconds, parse_seconds. rewrite digits_value_pretty.
  pose proof (Z.div_mod t 1000000000). set (s := (t / 1000000000)%Z) in *.
  destruct (s <? 0)%Z eqn:E; cbn; f_equal; lia.
Qed.

#[export] Instance labels : LabelRequirements := fun _ v =>
  if (String.length v <=? 63)%nat then Ok tt else Err (LibError "labels.NewRequirement" v "must be no more than 63 characters").
#[export] Instance libs : BootstrapLibs := {| boot_resources := OSCResources.Demo.libs |}.

Definition manager : BootstrapManager :=
  {| bootstrapTokenServiceAccountName := None; overrideBootstrapKubeletAPIServer := "";
     bootstrap_client := WorkerClient; provider_client := WorkerClient; provider_caCert := "ca" |}.

(** A token secret that expires in ten minutes. *)
Definition old_secret : Secret :=
  bootstrap_token_secret "kube-system-md" "abcdef" "0123456789abcdef" (time_Format (10 * minute)).
Definition renewed_run : list (obs (ApiE unit)) :=
  [Obs (ListSecrets WorkerClient NamespaceSystem machineDeploymentNameLabelKey "kube-system-md") (Ok [old_secret]);
   Obs Now 0%Z; Obs Now 1%Z;
   Obs (Update WorkerClient KSecret (with_data
     (<[expirationKey := time_Format (1 + hour)]> (Secret_Data old_secret)) old_secret)) (Ok old_secret)].
End Demo.
Import Demo.

Lemma createBootstrapToken_calls_witness :
  run (createBootstrapToken Demo.manager "kube-system-md") Demo.renewed_run
    (Ok ("abcdef.0123456789abcdef", true)) /\
  token_calls Demo.manager "kube-system-md" Demo.renewed_run "abcdef.0123456789abcdef" true.
Proof.
  assert (run (createBootstrapToken Demo.manager "kube-system-md") Demo.renewed_run
    (Ok ("abcdef.0123456789abcdef", true))) as Hrun.
  { eexists. split; [reflexivity|]. eexists. split; [reflexivity|]. eexists. split; [reflexivity|].
    eexists. split; [reflexivity|]. split; reflexivity. }
  split; [exact Hrun|]. apply (createBootstrapToken_calls Demo.manager _ _ _ _ Hrun).
Defined.

Lemma renewed_token_not_near_expiry_witness :
  exists expiration, time_Parse (time_Format (0 + hour)) = Ok expiration /\
    near_expiry minute expiration = false.
Proof. apply (renewed_token_not_near_expiry 0 minute). unfold minute. lia. Defined.

Lemma bootstrap_kubeconfig_single_witness :
  exists kc, bootstrap_kubeconfig "" "tok" OSCResources.Demo.kubeconfig = Ok kc /\
    cluster_server kc = Ok "https://api:6443".
Proof.
  destruct (bootstrap_kubeconfig_single "" "tok" "c"
    {| Server := "https://api:6443"; CertificateAuthorityData := "ca" |} OSCResources.Demo.kubeconfig eq_refl)
    as ((kc & Hkc & _ & _ & _ & _ & _ & _ & Hserver) & _).
  exists kc. split; [exact Hkc|exact Hserver].
Defined.
