(* ===== verification/Admission.v ===== *)
(** * Admission webhooks ([pkg/admission])

    The validation of operating system configs and profiles and the mutation of
    machine deployments, each handler from the request to the response.  The
    decoder of requests, the semantic comparison of the API machinery and
    [providerconfig.GetConfig] of the SDK are interfaces. *)

From S2P Require Import Prelude GoStrings Encoding Types SDK ProviderConfig Generator OSCResources.

Inductive Operation := OpCreate | OpUpdate | OpDelete | OpOther (name : string).

(** [admission.Request] *)
Record Request := {
  req_UID : string;
  req_Operation : Operation;
  req_Object : string;
  req_OldObject : string
}.

(** [admission.Response]: a patch carries the two documents it compares. *)
Inductive Response :=
| Allowed (message : string)
| Denied (message : string) (e : error)
| Errored (code : Z) (e : error)
| PatchResponseFromRaw (original current : string)
| Panicked (why : string).

Definition StatusBadRequest : Z := 400.
Definition StatusInternalServerError : Z := 500.

(** [admission.Decoder] *)
Class AdmissionDecoder (A : Type) := {
  Decode : Request -> result A;
  DecodeRaw : string -> result A
}.

(** [apiequality.Semantic.DeepEqual]: nil and empty collections are equal, so
    it is an equivalence coarser than equality. *)
Class DeepEqual (A : Type) := deep_equal : A -> A -> bool.
Class DeepEqualLaws (A : Type) `{DeepEqual A} := {
  deep_equal_refl a : deep_equal a a = true;
  deep_equal_trans a b c : deep_equal a b = true -> deep_equal b c = true -> deep_equal a c = true
}.

Definition operation_name (o : Operation) : string :=
  match o with OpCreate => "CREATE" | OpUpdate => "UPDATE" | OpDelete => "DELETE" | OpOther n => n end.

(** ** [operatingsystemconfig/validation] *)

Module osc_validation.
Section Handler.
Context `{DeepEqual OperatingSystemConfigSpec, AdmissionDecoder OperatingSystemConfig}.

Definition validateUpdate (osc oldOSC : OperatingSystemConfig) : result unit :=
  if deep_equal (OSC_Spec oldOSC) (OSC_Spec osc) then Ok tt
  else Err (Errorf "OperatingSystemConfig is immutable and updates are not allowed" []).

Definition allowed (req : Request) : Response :=
  Allowed ("operatingSystemConfig validation request " +:+ req_UID req +:+ " allowed").

Definition Handle (req : Request) : Response :=
  match req_Operation req with
  | OpUpdate =>
      match Decode req with
      | Ok osc =>
          match DecodeRaw (req_OldObject req) with
          | Ok oldOSC =>
              match validateUpdate osc oldOSC with
              | Ok _ => allowed req
              | Err err => Denied ("operatingSystemConfig validation request " +:+ req_UID req +:+ " denied") err
              | Panic w => Panicked w
              end
          | Err err => Errored StatusBadRequest (Wrapf "error occurred while decoding old osc: %w" [] err)
          | Panic w => Panicked w
          end
      | Err err => Errored StatusBadRequest (Wrapf "error occurred while decoding osc: %w" [] err)
      | Panic w => Panicked w
      end
  | OpCreate | OpDelete => allowed req
  | OpOther n => Errored StatusBadRequest (Errorf "%s not supported on osc resources" [n])
  end.
End Handler.
End osc_validation.

(** ** [operatingsystemprofile/validation] *)

Module osp_validation.
Section Handler.
Context `{DeepEqual OperatingSystemProfileSpec, AdmissionDecoder OperatingSystemProfile}.

Definition validateOperatingSystemProfile (osp : OperatingSystemProfile) : result unit :=
  let spec := OSP_Spec osp in
  if decide (OSP_OSName spec = OperatingSystemFlatcar) then Ok tt
  else if negb (bool_decide (OSPConfig_Units (OSP_BootstrapConfig spec) = []))
       || negb (bool_decide (OSPConfig_Units (OSP_ProvisioningConfig spec) = []))
  then Err (Errorf "OperatingSystemProfile for %s does not support units" [OSP_OSName spec])
  else Ok tt.

Definition validateUpdate (osp oldOSP : OperatingSystemProfile) : result unit :=
  let! _ := validateOperatingSystemProfile osp in
  if deep_equal (OSP_Spec oldOSP) (OSP_Spec osp) then Ok tt
  else if decide (OSP_Version (OSP_Spec osp) = OSP_Version (OSP_Spec oldOSP))
  then Err (Errorf "OperatingSystemProfile is immutable. For updates .spec.version needs to be updated" [])
  else Ok tt.

Definition allowed (req : Request) : Response :=
  Allowed ("operatingSystemProfile validation request " +:+ req_UID req +:+ " allowed").
Definition verdict (req : Request) (r : result unit) : Response :=
  match r with
  | Ok _ => allowed req
  | Err err => Denied ("operatingSystemProfile validation request " +:+ req_UID req +:+ " denied") err
  | Panic w => Panicked w
  end.

Definition Handle (req : Request) : Response :=
  match req_Operation req with
  | OpUpdate =>
      match Decode req with
      | Ok osp =>
          match DecodeRaw (req_OldObject req) with
          | Ok oldOSP => verdict req (validateUpdate osp oldOSP)
          | Err err => Errored StatusBadRequest (Wrapf "error occurred while decoding old osp: %w" [] err)
          | Panic w => Panicked w
          end
      | Err err => Errored StatusBadRequest (Wrapf "error occurred while decoding osp: %w" [] err)
      | Panic w => Panicked w
      end
  | OpCreate =>
      match Decode req with
      | Ok osp => verdict req (validateOperatingSystemProfile osp)
      | Err err => Errored StatusBadRequest (Wrapf "error occurred while decoding osp: %w" [] err)
      | Panic w => Panicked w
      end
  | OpDelete => allowed req
  | OpOther n => Errored StatusBadRequest (Errorf "%s not supported on osp resources" [n])
  end.
End Handler.
End osp_validation.

(** ** [machinedeployment/mutation] *)

(** [providerconfig.GetConfig] of the SDK. *)
Class SDKGetConfig `{SDK} := GetConfig : option RawExtension -> result ProviderConfig.

Module md_mutation.
Section Handler.
Context `{GeneratorLibs, !SDKGetConfig, AdmissionDecoder MachineDeployment, JsonMarshal MachineDeployment}.

(** [md.Annotations[key] = value] on a map that is made when it is nil. *)
Definition annotate (key value : string) (md : MachineDeployment) : MachineDeployment :=
  with_MD_Meta (with_annotations (Some (<[key := value]> (default ∅ (MD_Annotations md)))) (MD_Meta md)) md.

(** Errors of [GetProvisioningUtility] are dropped, a panic is not. *)
Definition anexia_cloud_init (providerConfig : ProviderConfig) (md : MachineDeployment) : result bool :=
  if bool_decide (PC_CloudProvider providerConfig = SDK_CloudProviderAnexia)
     && bool_decide (PC_OperatingSystem providerConfig = OS_Flatcar)
  then
    match GetProvisioningUtility (PC_OperatingSystem providerConfig) md with
    | Ok prov => Ok (bool_decide (prov = ProvisioningUtilityCloudInit))
    | Err _ => Ok false
    | Panic w => Panic w
    end
  else Ok false.

Definition supported_os : list string := [OS_Ubuntu; OS_Flatcar; OS_AmazonLinux2; OS_RockyLinux; OS_RHEL].

Definition MutateMachineDeployment (md : MachineDeployment) : result MachineDeployment :=
  let! providerConfig := wrapR "failed to read MachineDeployment.Spec.Template.Spec.ProviderSpec: %w" []
    (GetConfig (MD_ProviderSpec_Value md)) in
  if decide (map_get (MD_Annotations md) MachineDeploymentOSPAnnotation = "") then
    let! cloudInit := anexia_cloud_init providerConfig md in
    if (cloudInit : bool) then Ok (annotate MachineDeploymentOSPAnnotation "osp-flatcar-cloud-init" md)
    else if bool_decide (PC_OperatingSystem providerConfig ∈ supported_os)
    then Ok (annotate MachineDeploymentOSPAnnotation ("osp-" +:+ PC_OperatingSystem providerConfig) md)
    else Err (Errorf "failed to populate OSP annotation for machinedeployment with unsupported Operating System %s"
                [PC_OperatingSystem providerConfig])
  else Ok md.

Definition mutate_response (req : Request) (md : MachineDeployment) : Response :=
  match MutateMachineDeployment md with
  | Ok md =>
      match json_Marshal md with
      | Ok marshaledMd => PatchResponseFromRaw (req_Object req) marshaledMd
      | Err err => Errored StatusInternalServerError
                     (Wrapf "error occurred while marshalling mutated machinedeployment: %w" [] err)
      | Panic w => Panicked w
      end
  | Err err => Errored StatusInternalServerError
                 (Wrapf "error occurred while mutating machinedeployment: %w" [] err)
  | Panic w => Panicked w
  end.

Definition Handle (req : Request) : Response :=
  match req_Operation req with
  | OpCreate | OpUpdate =>
      match Decode req with
      | Ok md => mutate_response req md
      | Err err => Errored StatusBadRequest (Wrapf "error occurred while decoding reqquest: %w" [] err)
      | Panic w => Panicked w
      end
  | OpDelete => Allowed ("machinedeployment mutation request " +:+ req_UID req
                  +:+ " allowed; mutation is not required for delete request")
  | OpOther n => Errored StatusBadRequest (Errorf "%s not supported on machinedeployment resources" [n])
  end.
End Handler.
End md_mutation.

(** ** Properties *)

Section OSCProps.
Context `{DeepEqualLaws OperatingSystemConfigSpec} `{AdmissionDecoder OperatingSystemConfig}.

Lemma osc_Handle_allowed_update req osc old m :
  req_Operation req = OpUpdate -> Decode req = Ok osc -> DecodeRaw (req_OldObject req) = Ok old ->
  osc_validation.Handle req = Allowed m -> deep_equal (OSC_Spec old) (OSC_Spec osc) = true.
Proof.
  unfold osc_validation.Handle, osc_validation.validateUpdate. intros -> -> ->.
  by destruct (deep_equal _ _).
Qed.

(** The objects one name goes through: it is created with any content and
    updated by requests that the webhook allows. *)
Inductive osc_history (created : OperatingSystemConfig) : OperatingSystemConfig -> Prop :=
| osc_created : osc_history created created
| osc_updated old new req m :
    osc_history created old -> req_Operation req = OpUpdate ->
    Decode req = Ok new -> DecodeRaw (req_OldObject req) = Ok old ->
    osc_validation.Handle req = Allowed m -> osc_history created new.

(** C17: the specification of an OperatingSystemConfig never changes: after any number of updates that the webhook allows it is semantically equal to the one that was created *)
Theorem osc_spec_immutable created current :
  osc_history created current -> deep_equal (OSC_Spec created) (OSC_Spec current) = true.
Proof.
  induction 1 as [|old new req m _ IH Hop Hnew Hold Hm].
  - apply deep_equal_refl.
  - eapply deep_equal_trans; [exact IH|]. by eapply osc_Handle_allowed_update.
Qed.
End OSCProps.

Section OSPProps.
Context `{DeepEqualLaws OperatingSystemProfileSpec} `{AdmissionDecoder OperatingSystemProfile}.

(** Units are written only for the operating system that runs them. *)
Definition units_supported (osp : OperatingSystemProfile) : Prop :=
  OSP_OSName (OSP_Spec osp) = OperatingSystemFlatcar \/
  (OSPConfig_Units (OSP_BootstrapConfig (OSP_Spec osp)) = [] /\
   OSPConfig_Units (OSP_ProvisioningConfig (OSP_Spec osp)) = []).

Lemma validateOperatingSystemProfile_spec osp :
  osp_validation.validateOperatingSystemProfile osp = Ok tt <-> units_supported osp.
Proof.
  unfold osp_validation.validateOperatingSystemProfile, units_supported.
  destruct (decide _); [tauto|]. repeat case_bool_decide; cbn; split; naive_solver.
Qed.

Lemma osp_validateUpdate_spec osp old :
  osp_validation.validateUpdate osp old = Ok tt <->
  units_supported osp /\
  (deep_equal (OSP_Spec old) (OSP_Spec osp) = true \/
   OSP_Version (OSP_Spec osp) <> OSP_Version (OSP_Spec old)).
Proof.
  unfold osp_validation.validateUpdate. rewrite bindR_Ok, <- validateOperatingSystemProfile_spec.
  split.
  - intros ([] & -> & Hd). destruct (deep_equal _ _); [by auto|].
    destruct (decide _); [done|]. by auto.
  - intros [-> Hd]. exists tt. split; [done|].
    destruct (deep_equal _ _); [done|]. destruct Hd; [done|]. by rewrite decide_False.
Qed.

Lemma osp_verdict_allowed req r m :
  osp_validation.verdict req r = Allowed m -> r = Ok tt.
Proof. by destruct r as [[]| |]. Qed.

(** The versions of one profile, the newest first. *)
Inductive osp_history : OperatingSystemProfile -> list OperatingSystemProfile -> Prop :=
| osp_created osp req m :
    req_Operation req = OpCreate -> Decode req = Ok osp ->
    osp_validation.Handle req = Allowed m -> osp_history osp []
| osp_updated old rest new req m :
    osp_history old rest -> req_Operation req = OpUpdate ->
    Decode req = Ok new -> DecodeRaw (req_OldObject req) = Ok old ->
    osp_validation.Handle req = Allowed m -> osp_history new (old :: rest).

(** C18: an OperatingSystemProfile that goes through the webhook has units only for Flatcar, and as long as its version stays the same its specification stays semantically the same *)
Theorem osp_history_versions osp rest :
  osp_history osp rest ->
  Forall units_supported (osp :: rest) /\
  forall recent older earlier, rest = recent ++ earlier :: older ->
    Forall (fun o => OSP_Version (OSP_Spec o) = OSP_Version (OSP_Spec osp)) (recent ++ [earlier]) ->
    deep_equal (OSP_Spec earlier) (OSP_Spec osp) = true.
Proof.
  induction 1 as [osp req m Hop Hosp Hm|old rest new req m _ [IHu IHv] Hop Hnew Hold Hm].
  - revert Hm. unfold osp_validation.Handle. rewrite Hop, Hosp.
    intros Hv%osp_verdict_allowed%validateOperatingSystemProfile_spec.
    split; [by apply Forall_singleton|]. by intros [].
  - revert Hm. unfold osp_validation.Handle. rewrite Hop, Hnew, Hold.
    intros Hv%osp_verdict_allowed%osp_validateUpdate_spec. destruct Hv as [Hu Hd].
    split; [by constructor|]. intros [|o recent] older earlier [= -> ->] Hall.
    + inversion_clear Hall. naive_solver.
    + cbn in Hall. inversion Hall as [|? ? Ho Hrest]; subst.
      destruct Hd as [Hd|Hd]; [|done]. eapply deep_equal_trans; [|exact Hd].
      eapply IHv; [reflexivity|]. by rewrite Ho.
Qed.
End OSPProps.

Section MDProps.
Context `{GeneratorLibs, !SDKGetConfig}.

(** The profile a machine deployment gets when it names none. *)
Definition default_profile (os : OperatingSystem) (profile : string) : Prop :=
  (os ∈ md_mutation.supported_os /\ profile = "osp-" +:+ os) \/
  (os = OS_Flatcar /\ profile = "osp-flatcar-cloud-init").

Lemma annotate_get key value md : map_get (MD_Annotations (md_mutation.annotate key value md)) key = value.
Proof. unfold map_get. cbn. by rewrite lookup_insert_eq. Qed.

Lemma default_profile_named os p : default_profile os p -> p <> "".
Proof. by intros [[_ ->]|[_ ->]]. Qed.

(** The mutation keeps a profile that is named, and otherwise annotates one. *)
Lemma MutateMachineDeployment_Ok md md' :
  md_mutation.MutateMachineDeployment md = Ok md' ->
  exists pc, GetConfig (MD_ProviderSpec_Value md) = Ok pc /\
  ((map_get (MD_Annotations md) MachineDeploymentOSPAnnotation <> "" /\ md' = md) \/
   (map_get (MD_Annotations md) MachineDeploymentOSPAnnotation = "" /\
    exists p, default_profile (PC_OperatingSystem pc) p /\
      md' = md_mutation.annotate MachineDeploymentOSPAnnotation p md)).
Proof.
  unfold md_mutation.MutateMachineDeployment. rewrite bindR_Ok. intros (pc & Hpc & Hmd).
  apply wrapR_Ok in Hpc. exists pc. split; [done|].
  destruct (decide _) as [Hempty|Hset]; [right|left; by simplify_eq]. split; [done|].
  apply bindR_Ok in Hmd as ([] & Hci & Hmd).
  - exists "osp-flatcar-cloud-init". split; [right|by simplify_eq]. split; [|done].
    unfold md_mutation.anexia_cloud_init in Hci. by destruct (bool_decide_reflect (PC_OperatingSystem pc = OS_Flatcar));
      [|rewrite andb_false_r in Hci].
  - case_bool_decide; simplify_eq. eexists. split; [by left|done].
Qed.

(** A machine deployment that names a profile passes unchanged. *)
Lemma MutateMachineDeployment_named md pc :
  map_get (MD_Annotations md) MachineDeploymentOSPAnnotation <> "" ->
  GetConfig (MD_ProviderSpec_Value md) = Ok pc -> md_mutation.MutateMachineDeployment md = Ok md.
Proof.
  intros Hn Hpc. unfold md_mutation.MutateMachineDeployment. rewrite Hpc. cbn. by rewrite decide_False.
Qed.

(** C19: a machine deployment that the mutation accepts names a profile; the name it had is kept, and otherwise it is the default profile of its operating system; no other annotation and no other field changes *)
Theorem MutateMachineDeployment_spec md md' :
  md_mutation.MutateMachineDeployment md = Ok md' ->
  exists pc, GetConfig (MD_ProviderSpec_Value md) = Ok pc /\
  (let profile := map_get (MD_Annotations md) MachineDeploymentOSPAnnotation in
   let profile' := map_get (MD_Annotations md') MachineDeploymentOSPAnnotation in
   profile' <> "" /\
   (profile <> "" -> md' = md) /\
   (profile = "" -> default_profile (PC_OperatingSystem pc) profile' /\
      md' = md_mutation.annotate MachineDeploymentOSPAnnotation profile' md)) /\
  (forall key, key <> MachineDeploymentOSPAnnotation ->
     map_get (MD_Annotations md') key = map_get (MD_Annotations md) key).
Proof.
  intros (pc & Hpc & [[Hset ->]|(Hempty & p & Hp & ->)])%MutateMachineDeployment_Ok;
    exists pc; (split; [done|]); [done|]. cbn zeta. rewrite annotate_get. repeat split; [|done|done|].
  - by destruct Hp as [[_ ->]|[_ ->]].
  - intros key Hkey. unfold map_get. cbn. rewrite lookup_insert_ne by done. by destruct (MD_Annotations md).
Qed.

(** mutating a machine deployment a second time changes nothing *)
Theorem MutateMachineDeployment_idempotent md md' :
  md_mutation.MutateMachineDeployment md = Ok md' -> md_mutation.MutateMachineDeployment md' = Ok md'.
Proof.
  intros (pc & Hpc & [[Hset ->]|(_ & p & Hp%default_profile_named & ->)])%MutateMachineDeployment_Ok;
    apply (MutateMachineDeployment_named _ pc); [done..|by rewrite annotate_get|done].
Qed.
End MDProps.

(** ** Evaluation on concrete inputs *)

Module Demo.
#[export] Existing Instances DemoSDK.sdk Generator.Demo.libs.

#[export] Instance osc_equal : DeepEqual OperatingSystemConfigSpec := fun a b => bool_decide (a = b).
#[export] Instance osc_equal_laws : DeepEqualLaws OperatingSystemConfigSpec.
Proof.
  split; unfold deep_equal, osc_equal; intros *; rewrite ?bool_decide_eq_true; congruence.
Qed.
#[export] Instance osp_equal : DeepEqual OperatingSystemProfileSpec := fun a b => bool_decide (a = b).
#[export] Instance osp_equal_laws : DeepEqualLaws OperatingSystemProfileSpec.
Proof.
  split; unfold deep_equal, osp_equal; intros *; rewrite ?bool_decide_eq_true; congruence.
Qed.

(** A document is the name of the decoded object, whose specification is fixed. *)
Definition osc (name : string) : OperatingSystemConfig :=
  {| OSC_Meta := object_meta name "kube-system"; OSC_Spec := OSC_Spec OSCResources.Demo.osc |}.
#[export] Instance osc_decoder : AdmissionDecoder OperatingSystemConfig :=
  {| Decode req := Ok (osc (req_Object req)); DecodeRaw raw := Ok (osc raw) |}.

(** A document is the version of the decoded profile. *)
Definition osp (version : string) : OperatingSystemProfile :=
  let spec := OSP_Spec OSCResources.Demo.osp in
  {| OSP_Meta := object_meta "osp-ubuntu" "kube-system";
     OSP_Spec := {| OSP_OSName := "ubuntu"; OSP_OSVersion := "22.04"; OSP_Version := version;
       SupportedCloudProviders := []; OSP_BootstrapConfig := OSP_BootstrapConfig spec;
       OSP_ProvisioningConfig := OSP_ProvisioningConfig spec; OSP_ProvisioningUtility := "" |} |}.
#[export] Instance osp_decoder : AdmissionDecoder OperatingSystemProfile :=
  {| Decode req := Ok (osp (req_Object req)); DecodeRaw raw := Ok (osp raw) |}.

Definition request (op : Operation) (object old : string) : Request :=
  {| req_UID := "uid"; req_Operation := op; req_Object := object; req_OldObject := old |}.

#[export] Instance get_config : SDKGetConfig := fun _ => Ok Generator.Demo.pc.
Definition md : MachineDeployment := Generator.Demo.md.
Definition mutated : MachineDeployment :=
  md_mutation.annotate MachineDeploymentOSPAnnotation "osp-ubuntu" md.
End Demo.
Import Demo.

Lemma osc_spec_immutable_witness :
  osc_history (Demo.osc "a") (Demo.osc "b") /\
  deep_equal (OSC_Spec (Demo.osc "a")) (OSC_Spec (Demo.osc "b")) = true.
Proof.
  assert (osc_history (Demo.osc "a") (Demo.osc "b")) as Hh.
  { eapply (osc_updated _ (Demo.osc "a") (Demo.osc "b") (Demo.request OpUpdate "b" "a"));
      [constructor|reflexivity|reflexivity|reflexivity|].
    unfold osc_validation.Handle. cbn. unfold osc_validation.validateUpdate.
    cbn. rewrite deep_equal_refl. reflexivity. }
  split; [exact Hh|]. apply (osc_spec_immutable _ _ Hh).
Defined.

Lemma osp_history_versions_witness :
  osp_history (Demo.osp "v2") [Demo.osp "v1"; Demo.osp "v1"] /\
  Forall units_supported [Demo.osp "v2"; Demo.osp "v1"; Demo.osp "v1"].
Proof.
  assert (osp_history (Demo.osp "v2") [Demo.osp "v1"; Demo.osp "v1"]) as Hh.
  { eapply (osp_updated (Demo.osp "v1") _ (Demo.osp "v2") (Demo.request OpUpdate "v2" "v1"));
      [|reflexivity|reflexivity|reflexivity|vm_compute; reflexivity].
    eapply (osp_updated (Demo.osp "v1") _ (Demo.osp "v1") (Demo.request OpUpdate "v1" "v1"));
      [|reflexivity|reflexivity|reflexivity|vm_compute; reflexivity].
    eapply (osp_created (Demo.osp "v1") (Demo.request OpCreate "v1" ""));
      [reflexivity|reflexivity|vm_compute; reflexivity]. }
  split; [exact Hh|]. apply (osp_history_versions _ _ Hh).
Defined.

Lemma MutateMachineDeployment_spec_witness :
  map_get (MD_Annotations Demo.mutated) MachineDeploymentOSPAnnotation <> "".
Proof.
  destruct (MutateMachineDeployment_spec Demo.md Demo.mutated) as (pc & _ & (H & _) & _);
    [vm_compute; reflexivity|exact H].
Defined.

Lemma MutateMachineDeployment_idempotent_witness :
  md_mutation.MutateMachineDeployment Demo.md = Ok Demo.mutated /\
  md_mutation.MutateMachineDeployment Demo.mutated = Ok Demo.mutated.
Proof.
  assert (md_mutation.MutateMachineDeployment Demo.md = Ok Demo.mutated) as H
    by (vm_compute; reflexivity).
  split; [exact H|apply (MutateMachineDeployment_idempotent Demo.md); exact H].
Defined.
