(* ===== verification/Sha256.v ===== *)
(** * [crypto/sha256]

    [Sum256] of the standard library: the rotation hash of a machine deployment
    is computed with it.  Words are numbers below [2^32], a message is a string
    of bytes; the examples are the test vectors of the standard. *)

From S2P Require Import Prelude GoStrings Encoding.

Definition word_mask : N := 4294967295.
Definition add32 (a b : N) : N := N.land (a + b) word_mask.
Definition rotr (n x : N) : N := N.lor (N.shiftr x n) (N.land (N.shiftl x (32 - n)) word_mask).
Definition not32 (x : N) : N := N.lxor x word_mask.

Definition Ch (x y z : N) : N := N.lxor (N.land x y) (N.land (not32 x) z).
Definition Maj (x y z : N) : N := N.lxor (N.lxor (N.land x y) (N.land x z)) (N.land y z).
Definition Sigma0 (x : N) : N := N.lxor (N.lxor (rotr 2 x) (rotr 13 x)) (rotr 22 x).
Definition Sigma1 (x : N) : N := N.lxor (N.lxor (rotr 6 x) (rotr 11 x)) (rotr 25 x).
Definition sigma0 (x : N) : N := N.lxor (N.lxor (rotr 7 x) (rotr 18 x)) (N.shiftr x 3).
Definition sigma1 (x : N) : N := N.lxor (N.lxor (rotr 17 x) (rotr 19 x)) (N.shiftr x 10).

(** The constants as the standard defines them: the first 32 bits of the
    fractional parts of the cube roots, and of the square roots, of the first
    primes.  [iroot k bits x acc] is the integer [k]-th root of [x], found bit by
    bit from the highest. *)
Fixpoint iroot (k : N) (bits : nat) (x acc : N) : N :=
  match bits with
  | 0 => acc
  | S bits' =>
      let candidate := (acc + 2 ^ N.of_nat bits')%N in
      iroot k bits' x (if (candidate ^ k <=? x)%N then candidate else acc)
  end.
Definition fractional_bits (k p : N) : N := N.land (iroot k 40 (p * 2 ^ (32 * k)) 0) word_mask.

Definition prime (n : N) : bool :=
  forallb (fun d => negb (n mod d =? 0)%N) (map N.of_nat (seq 2 (N.to_nat n - 2))).
Definition primes : list N := filter (fun n => prime n = true) (map N.of_nat (seq 2 310)).

Definition K256 : list N := Eval vm_compute in map (fractional_bits 3) (take 64 primes).
Definition H256 : list N := Eval vm_compute in map (fractional_bits 2) (take 8 primes).

(** The message schedule, the newest word first. *)
Fixpoint schedule (n : nat) (w : list N) : list N :=
  match n with
  | 0 => w
  | S n =>
      let at_ i := nth i w 0%N in
      schedule n (add32 (add32 (sigma1 (at_ 1)) (at_ 6)) (add32 (sigma0 (at_ 14)) (at_ 15)) :: w)
  end.

Definition compress (s : list N) (kw : N * N) : list N :=
  match s with
  | [a; b; c; d; e; f; g; h] =>
      let t1 := add32 (add32 (add32 h (Sigma1 e)) (add32 (Ch e f g) kw.1)) kw.2 in
      let t2 := add32 (Sigma0 a) (Maj a b c) in
      [add32 t1 t2; a; b; c; add32 d t1; e; f; g]
  | _ => s
  end.

Definition block (s : list N) (w : list N) : list N :=
  let ws := rev (schedule 48 (rev w)) in
  zip_with add32 s (fold_left compress (zip K256 ws) s).

(** [n] bytes of a number, the most significant first. *)
Fixpoint be_bytes (n : nat) (x : N) : string :=
  match n with
  | 0 => ""
  | S n => be_bytes n (x / 256) +:+ String (ascii_of_N (x mod 256)) ""
  end.

Definition be_word (a b c d : ascii) : N :=
  (((N_of_ascii a * 256 + N_of_ascii b) * 256 + N_of_ascii c) * 256 + N_of_ascii d)%N.
Fixpoint words (s : string) : list N :=
  match s with
  | String a (String b (String c (String d s'))) => be_word a b c d :: words s'
  | _ => []
  end.
Fixpoint blocks (n : nat) (w : list N) : list (list N) :=
  match n with
  | 0 => []
  | S n => take 16 w :: blocks n (drop 16 w)
  end.

(** A one bit, zeros up to 56 modulo 64 bytes, and the length in bits. *)
Definition padded (s : string) : string :=
  let len := String.length s in
  let zeros := Z.to_nat ((55 - Z.of_nat len) mod 64) in
  s +:+ String (ascii_of_N 128) "" +:+ String.concat "" (repeat (String "000" "") zeros)
    +:+ be_bytes 8 (N.of_nat len * 8).

Definition Sum256 (s : string) : string :=
  let w := words (padded s) in
  String.concat "" (map (be_bytes 4) (fold_left block (blocks (length w / 16) w) H256)).

#[global] Arguments Sum256 : simpl never.

Example Sum256_empty : hex_EncodeToString (Sum256 "") =
  "e3b0c44298fc1c149afbf4c8996fb92427ae41e4649b934ca495991b7852b855".
Proof. vm_compute. reflexivity. Qed.
Example Sum256_abc : hex_EncodeToString (Sum256 "abc") =
  "ba7816bf8f01cfea414140de5dae2223b00361a396177a9cb410ff61f20015ad".
Proof. vm_compute. reflexivity. Qed.
Example Sum256_two_blocks :
  hex_EncodeToString (Sum256 "abcdbcdecdefdefgefghfghighijhijkijkljklmklmnlmnomnopnopq") =
  "248d6a61d20638b8e5c026930c3e6039a33ce45964ff2167f6ecedd419db06c1".
Proof. vm_compute. reflexivity. Qed.
