(* ===== verification/OSPController.v ===== *)
(** * Default operating system profiles ([pkg/controllers/osp])

    [osp_controller.go] with the wrappers of [pkg/resources/reconciling].  The
    embedded file system, the YAML decoder and [k8c.io/reconciler] are
    interfaces; [ReconcilingLaws] states what the last writes. *)

From S2P Require Import Prelude GoStrings Types Effects Api ContainerRuntime.

Definition ospsDefaultDirName : string := "default".

(** [reconciling.ObjectReconciler]: the object that should exist, from the one
    that does (nil when none). *)
Abbreviation ObjectReconciler k := (option (obj k) -> result (obj k)).

(** [deploy/osps.FS] and [yaml.Unmarshal] into an empty profile. *)
Class EmbedFS := {
  FS_ReadDir : string -> result (list string);
  FS_ReadFile : string -> result string;
  yaml_Unmarshal : string -> result OperatingSystemProfile
}.

(** [k8c.io/reconciler/pkg/reconciling] and [pkg/compare.DeepEqual] *)
Class Reconciling (R : Type) := {
  CreateWithNamespace : forall k, ObjectReconciler k -> string -> ObjectReconciler k;
  CreateWithName : forall k, ObjectReconciler k -> string -> ObjectReconciler k;
  EnsureNamedObject : forall k, NamespacedName -> ObjectReconciler k -> client -> obj k -> bool -> io (ApiE R) unit;
  compare_DeepEqual : forall k, obj k -> obj k -> bool
}.

Definition set_name (name : string) (m : ObjectMeta) : ObjectMeta :=
  {| Name := name; Namespace := Namespace m; Annotations := Annotations m; Labels := Labels m;
     Finalizers := Finalizers m; DeletionTimestamp := DeletionTimestamp m |}.
Definition set_namespace (namespace : string) (m : ObjectMeta) : ObjectMeta :=
  {| Name := Name m; Namespace := namespace; Annotations := Annotations m; Labels := Labels m;
     Finalizers := Finalizers m; DeletionTimestamp := DeletionTimestamp m |}.

(** What a run that succeeds writes, when no recreation is asked for: the object
    is read first; when there is none, the one built from the empty one is
    created; otherwise the one that was read is updated if the result differs. *)
Inductive ensured {R} `{Reconciling R} k (n : NamespacedName) (f : ObjectReconciler k) (c : client) (empty : obj k)
    (t : list (obs (ApiE R))) : Prop :=
| ensured_created t1 t2 e o :
    t = t1 ++ Obs (Get c k n) (Err e) :: t2 -> filter is_write t1 = [] -> IsNotFound e = true ->
    f (Some empty) = Ok o -> filter is_write t = [Obs (Create c k o) (Ok tt)] ->
    ensured k n f c empty t
| ensured_existing t1 t2 existing o answer :
    t = t1 ++ Obs (Get c k n) (Ok existing) :: t2 -> filter is_write t1 = [] -> f (Some existing) = Ok o ->
    filter is_write t = (if compare_DeepEqual k o existing then [] else [Obs (Update c k o) (Ok answer)]) ->
    ensured k n f c empty t.

Class ReconcilingLaws (R : Type) `{Reconciling R} := {
  CreateWithNamespace_spec k (f : ObjectReconciler k) ns o r :
    CreateWithNamespace k f ns o = Ok r -> exists r', f o = Ok r' /\ r = map_meta (set_namespace ns) r';
  CreateWithName_spec k (f : ObjectReconciler k) name o r :
    CreateWithName k f name o = Ok r -> exists r', f o = Ok r' /\ r = map_meta (set_name name) r';
  compare_DeepEqual_refl k o : compare_DeepEqual k o o = true;
  compare_DeepEqual_version (o o' : OperatingSystemProfile) :
    compare_DeepEqual KOperatingSystemProfile o o' = true -> OSP_Version (OSP_Spec o) = OSP_Version (OSP_Spec o');
  EnsureNamedObject_ok k n f c empty t :
    run (EnsureNamedObject k n f c empty false) t (Ok tt) -> ensured k n f c empty t
}.

(** ** [zz_generated_reconcile.go] *)

Definition zero_OSPConfig : OSPConfig :=
  {| SupportedContainerRuntimes := []; OSPConfig_Templates := ∅; OSPConfig_Units := [];
     OSPConfig_Files := []; OSPConfig_CloudInitModules := None |}.
Definition zero_OperatingSystemProfile : OperatingSystemProfile :=
  {| OSP_Meta := object_meta "" "";
     OSP_Spec := {| OSP_OSName := ""; OSP_OSVersion := ""; OSP_Version := ""; SupportedCloudProviders := [];
       OSP_BootstrapConfig := zero_OSPConfig; OSP_ProvisioningConfig := zero_OSPConfig;
       OSP_ProvisioningUtility := "" |} |}.
Definition zero_OSCConfig : OSCConfig :=
  {| OSCConfig_Units := []; OSCConfig_Files := []; UserSSHKeys := []; OSCConfig_CloudInitModules := None |}.
Definition zero_OperatingSystemConfig : OperatingSystemConfig :=
  {| OSC_Meta := object_meta "" "";
     OSC_Spec := {| OSC_OSName := ""; OSC_OSVersion := "";
       OSC_CloudProvider := {| CloudProviderSpec_Name := ""; CloudProviderSpec_Spec := {| Raw := None |} |};
       OSC_BootstrapConfig := zero_OSCConfig; OSC_ProvisioningConfig := zero_OSCConfig;
       OSC_ProvisioningUtility := "" |} |}.

(** The name of the object and its reconciler. *)
Abbreviation NamedFactory k := (string * (obj k -> result (obj k)))%type.

Definition ObjectWrapper {k} (empty : obj k) (reconciler : obj k -> result (obj k)) : ObjectReconciler k :=
  fun existing =>
    match existing with
    | Some o => reconciler o
    | None => reconciler empty
    end.
Definition OperatingSystemProfileObjectWrapper := @ObjectWrapper KOperatingSystemProfile zero_OperatingSystemProfile.
Definition OperatingSystemConfigObjectWrapper := @ObjectWrapper KOperatingSystemConfig zero_OperatingSystemConfig.

Section Controller.
Context {R : Type} `{Reconciling R}.

Fixpoint reconcile_named {k} (what : string) (wrapper : (obj k -> result (obj k)) -> ObjectReconciler k) (empty : obj k)
    (namedFactories : list (NamedFactory k)) (namespace : string) (c : client)
    (objectModifiers : list (ObjectReconciler k -> ObjectReconciler k)) : io (ApiE R) unit :=
  match namedFactories with
  | [] => Ret (Ok tt)
  | (name, reconciler) :: namedFactories' =>
      let reconcileObject := wrapper reconciler in
      let reconcileObject := CreateWithNamespace k reconcileObject namespace in
      let reconcileObject := CreateWithName k reconcileObject name in
      let reconcileObject := fold_left (fun f modifier => modifier f) objectModifiers reconcileObject in
      do! _ <- wrapIO ("failed to ensure " +:+ what +:+ " %s/%s: %w") [namespace; name]
        (EnsureNamedObject k {| NN_Namespace := namespace; NN_Name := name |} reconcileObject c empty false);
      reconcile_named what wrapper empty namedFactories' namespace c objectModifiers
  end.

Definition ReconcileOperatingSystemProfiles :=
  reconcile_named "OperatingSystemProfile" OperatingSystemProfileObjectWrapper zero_OperatingSystemProfile.
Definition ReconcileOperatingSystemConfigs :=
  reconcile_named "OperatingSystemConfig" OperatingSystemConfigObjectWrapper zero_OperatingSystemConfig.

(** ** [osp_controller.go] *)

Record Reconciler := {
  defaultOSPs : gmap string OperatingSystemProfile;
  namespace : string
}.

Definition ospReconciler (name : string) (source : OperatingSystemProfile) : NamedFactory KOperatingSystemProfile :=
  (name, fun osp : OperatingSystemProfile =>
    if decide (OSP_Version (OSP_Spec osp) <> OSP_Version (OSP_Spec source))
    then Ok {| OSP_Meta := OSP_Meta osp; OSP_Spec := OSP_Spec source |}
    else Ok osp).

Definition reconcileOSP (r : Reconciler) (name : string) : io (ApiE R) unit :=
  match defaultOSPs r !! name with
  | None => Ret (Ok tt)
  | Some osp =>
      wrapIO "failed to reconcile OSP: %w" []
        (ReconcileOperatingSystemProfiles [ospReconciler name osp] (namespace r) ControlClient [])
  end.

Definition Reconcile (r : Reconciler) (req : NamespacedName) : io (ApiE R) unit :=
  do! _ <- reconcileOSP r (NN_Name req);
  Ret (Ok tt).

(** The predicate of the watch. *)
Definition watched (namespace : string) (o : ObjectMeta) : bool := bool_decide (Namespace o = namespace).
End Controller.

Section Load.
Context `{EmbedFS}.

(** [filepath.Join("default", filename)] for the name of a directory entry,
    which has no separator and is no dot entry. *)
Definition parseOSPFile (filename : string) : result OperatingSystemProfile :=
  let! content := FS_ReadFile (ospsDefaultDirName +:+ "/" +:+ filename) in
  yaml_Unmarshal content.

Definition osp_name (filename : string) : string := ReplaceAll filename ".yaml" "".

Definition load_file (m : result (gmap string OperatingSystemProfile)) (filename : string)
    : result (gmap string OperatingSystemProfile) :=
  let! m := m in
  let! osp := wrapR "failed to read OSP %s: %w" [filename] (parseOSPFile filename) in
  Ok (<[osp_name filename := osp]> m).

Definition loadDefaultOSPs : result (gmap string OperatingSystemProfile) :=
  let! ospDefaultDir := wrapR "failed to read OSPs default directory: %w" [] (FS_ReadDir ospsDefaultDirName) in
  fold_left load_file ospDefaultDir (Ok ∅).

(** The reconciler of [Add] and the requests it starts with: one per profile,
    in the order in which the map is visited; nothing when disabled. *)
Definition Add `{MapRange} (namespace : string) (disableDefaultOSPs : bool)
    : result (option (Reconciler * list NamespacedName)) :=
  if disableDefaultOSPs then Ok None
  else
    let! osps := wrapR "failed to load default OSPs: %w" [] loadDefaultOSPs in
    Ok (Some ({| defaultOSPs := osps; namespace := namespace |},
              map (fun p => {| NN_Namespace := namespace; NN_Name := p.1 |}) (range osps))).
End Load.

(** ** Properties *)

Section ReconcileProps.
Context {R : Type} `{ReconcilingLaws R}.
Variable r : Reconciler.

(** The profile that should be stored, from the embedded one and the one that
    is there. *)
Definition desired (name : string) (source existing : OperatingSystemProfile) : OperatingSystemProfile :=
  {| OSP_Meta := set_name name (set_namespace (namespace r) (OSP_Meta existing));
     OSP_Spec := if decide (OSP_Version (OSP_Spec existing) = OSP_Version (OSP_Spec source))
                 then OSP_Spec existing else OSP_Spec source |}.

Lemma desired_named name source existing o :
  CreateWithName KOperatingSystemProfile
    (CreateWithNamespace KOperatingSystemProfile
       (OperatingSystemProfileObjectWrapper (ospReconciler name source).2) (namespace r)) name (Some existing) = Ok o ->
  o = desired name source existing.
Proof.
  intros (o1 & Ho1 & ->)%CreateWithName_spec.
  apply CreateWithNamespace_spec in Ho1 as (o2 & Ho2 & ->). cbn in Ho2.
  unfold desired. destruct existing. repeat case_decide; simplify_eq; naive_solver.
Qed.

Lemma desired_same name source existing :
  OSP_Version (OSP_Spec existing) = OSP_Version (OSP_Spec source) ->
  key_of (OSP_Meta existing) = {| NN_Namespace := namespace r; NN_Name := name |} ->
  desired name source existing = existing.
Proof.
  intros Hv [= Hns Hn]. unfold desired. rewrite decide_True by done.
  destruct existing as [[] ?]. cbn in *. by subst.
Qed.

(** A run that succeeds, for an embedded profile. *)
Lemma reconcileOSP_ensured name source t :
  defaultOSPs r !! name = Some source -> run (reconcileOSP r name) t (Ok tt) ->
  exists f, (forall existing o, f (Some existing) = Ok o -> o = desired name source existing) /\
    ensured KOperatingSystemProfile {| NN_Namespace := namespace r; NN_Name := name |} f ControlClient
      zero_OperatingSystemProfile t.
Proof.
  unfold reconcileOSP. intros ->.
  rewrite run_wrapIO. intros ([[]|e|w] & Hrun & Heq); [|done..]. clear Heq. cbn -[EnsureNamedObject] in Hrun.
  apply run_bindIO in Hrun as (t1 & t2 & [[]|e|w] & -> & Hrun & Hend); [|naive_solver..].
  destruct Hend as [-> _]. rewrite app_nil_r.
  apply run_wrapIO in Hrun as ([[]|e|w] & Hrun & Heq); [|done..]. clear Heq.
  eexists. split; [|exact (EnsureNamedObject_ok _ _ _ _ _ _ Hrun)]. intros existing o. apply desired_named.
Qed.

Lemma reconcileOSP_writes name source t :
  defaultOSPs r !! name = Some source -> run (reconcileOSP r name) t (Ok tt) ->
  let n := {| NN_Namespace := namespace r; NN_Name := name |} in
  filter is_write t = [Obs (Create ControlClient KOperatingSystemProfile
    (desired name source zero_OperatingSystemProfile)) (Ok tt)] \/
  exists existing answer, Obs (Get ControlClient KOperatingSystemProfile n) (Ok existing) ∈ t /\
    (filter is_write t = [] \/
     filter is_write t = [Obs (Update ControlClient KOperatingSystemProfile
       (desired name source existing)) (Ok answer)]) /\
    (OSP_Version (OSP_Spec existing) = OSP_Version (OSP_Spec source) -> key_of (OSP_Meta existing) = n ->
     filter is_write t = []).
Proof.
  intros Hs Hrun. destruct (reconcileOSP_ensured name source t Hs Hrun) as (f & Hf & [? ? ? o _ _ _ Ho Hw|t1 t2 existing o answer -> _ Ho Hw]).
  - left. by rewrite <- (Hf _ _ Ho).
  - right. exists existing, answer. apply Hf in Ho as ->. split; [set_solver|]. split.
    + destruct (compare_DeepEqual _ _ _); auto.
    + intros Hv Hn. rewrite desired_same in Hw by done. by rewrite compare_DeepEqual_refl in Hw.
Qed.

Lemma desired_version name source existing :
  OSP_Version (OSP_Spec (desired name source existing)) = OSP_Version (OSP_Spec source).
Proof. unfold desired. cbn. by destruct (decide _). Qed.

Lemma desired_outdated name source existing :
  OSP_Version (OSP_Spec existing) <> OSP_Version (OSP_Spec source) ->
  desired name source existing =
    {| OSP_Meta := set_name name (set_namespace (namespace r) (OSP_Meta existing)); OSP_Spec := OSP_Spec source |}.
Proof. intros Hv. unfold desired. by rewrite decide_False. Qed.

(** C33: a run of the profile controller that succeeds makes no call for a name that is not an embedded profile; for an embedded one it reads the profile of that name in the controller's namespace first.  When there is none, it creates it, with the embedded specification if that has a version; when there is one of another version, it replaces the specification, and apart from the name and namespace that it has nothing else; when there is one of the same version, under the name it was asked for, it writes nothing *)
Theorem reconcileOSP_spec name t :
  run (reconcileOSP r name) t (Ok tt) ->
  let n := {| NN_Namespace := namespace r; NN_Name := name |} in
  match defaultOSPs r !! name with
  | None => t = []
  | Some source => exists t1 got t2,
      t = t1 ++ Obs (Get ControlClient KOperatingSystemProfile n) got :: t2 /\ filter is_write t1 = [] /\
      match got with
      | Ok existing => exists answer,
          (OSP_Version (OSP_Spec existing) <> OSP_Version (OSP_Spec source) ->
           filter is_write t = [Obs (Update ControlClient KOperatingSystemProfile
             {| OSP_Meta := set_name name (set_namespace (namespace r) (OSP_Meta existing));
                OSP_Spec := OSP_Spec source |}) (Ok answer)]) /\
          (OSP_Version (OSP_Spec existing) = OSP_Version (OSP_Spec source) -> key_of (OSP_Meta existing) = n ->
           filter is_write t = [])
      | Err e => IsNotFound e = true /\ exists o,
          filter is_write t = [Obs (Create ControlClient KOperatingSystemProfile o) (Ok tt)] /\
          key_of (OSP_Meta o) = n /\ (OSP_Version (OSP_Spec source) <> "" -> OSP_Spec o = OSP_Spec source)
      | Panic _ => False
      end
  end.
Proof.
  intros Hrun. cbn zeta. destruct (defaultOSPs r !! name) as [source|] eqn:Hsource.
  2: { unfold reconcileOSP in Hrun. rewrite Hsource in Hrun. by destruct Hrun as [-> _]. }
  destruct (reconcileOSP_ensured name source t Hsource Hrun)
    as (f & Hf & [t1 t2 e o Ht Hw1 He Ho Hw|t1 t2 existing o answer Ht Hw1 Ho Hw]).
  - exists t1, (Err e), t2. split_and!; [done..|]. exists o. apply Hf in Ho as ->. split_and!; [done..|].
    intros Hv. unfold desired. cbn. by rewrite decide_False by congruence.
  - exists t1, (Ok existing), t2. split_and!; [done..|]. exists answer. apply Hf in Ho as ->. split.
    + intros Hv. rewrite <- desired_outdated by done.
      destruct (compare_DeepEqual _ _ _) eqn:Hc; [|done]. apply compare_DeepEqual_version in Hc.
      by rewrite desired_version in Hc.
    + intros Hv Hn. rewrite desired_same in Hw by done. by rewrite compare_DeepEqual_refl in Hw.
Qed.
End ReconcileProps.

Section LoadProps.
Context `{EmbedFS}.

Lemma load_files_spec files m0 m :
  fold_left load_file files (Ok m0) = Ok m ->
  (forall name, m !! name = m0 !! name \/ exists f, f ∈ files /\ osp_name f = name /\
     exists osp, parseOSPFile f = Ok osp /\ m !! name = Some osp) /\
  (forall f, f ∈ files -> is_Some (m !! osp_name f) /\ is_ok (parseOSPFile f) = true).
Proof.
  revert m0. induction files as [|f files IH]; intros m0 Hm; cbn in Hm.
  - simplify_eq. split; [by left|]. intros f Hf. by apply not_elem_of_nil in Hf.
  - destruct (parseOSPFile f) as [osp|e|w] eqn:Hp; cbn in Hm.
    + apply IH in Hm as [Hn Hf]. split.
      * intros name. destruct (Hn name) as [Heq|(f' & Hf' & ? & ?)].
        -- destruct (decide (osp_name f = name)) as [<-|Hne].
           ++ right. exists f. rewrite Heq, lookup_insert_eq. split; [set_solver|]. eauto.
           ++ left. by rewrite Heq, lookup_insert_ne.
        -- right. exists f'. split; [set_solver|]. eauto.
      * intros f' [->|Hf']%elem_of_cons; [|by apply Hf]. rewrite Hp. split; [|done].
        destruct (Hn (osp_name f)) as [->|(? & _ & _ & ? & _ & ->)]; [|by eexists].
        rewrite lookup_insert_eq. by eexists.
    + exfalso. clear -Hm. induction files; cbn in Hm; auto; discriminate.
    + exfalso. clear -Hm. induction files; cbn in Hm; auto; discriminate.
Qed.

(** C34: the embedded profiles that are loaded are exactly those of the files of the default directory, each under its file name without the extension and equal to what a file of that name decodes to; loading succeeds only when every file decodes *)
Theorem loadDefaultOSPs_spec files m :
  FS_ReadDir ospsDefaultDirName = Ok files -> loadDefaultOSPs = Ok m ->
  (forall name, is_Some (m !! name) <-> exists f, f ∈ files /\ osp_name f = name) /\
  (forall name osp, m !! name = Some osp -> exists f, f ∈ files /\ osp_name f = name /\ parseOSPFile f = Ok osp) /\
  Forall (fun f => is_ok (parseOSPFile f) = true) files.
Proof.
  intros Hdir. unfold loadDefaultOSPs. rewrite Hdir. cbn. intros [Hn Hf]%load_files_spec.
  split; [|split].
  - intros name. split.
    + intros [osp Hosp]. destruct (Hn name) as [Heq|(f & ? & ? & _)]; [|eauto].
      by rewrite Hosp, lookup_empty in Heq.
    + intros (f & Hin & <-). by apply Hf.
  - intros name osp Hosp. destruct (Hn name) as [Heq|(f & ? & ? & osp' & ? & ?)].
    + by rewrite Hosp, lookup_empty in Heq.
    + exists f. naive_solver.
  - apply Forall_forall. intros f Hin. by apply Hf.
Qed.
End LoadProps.

(** ** Evaluation on concrete inputs *)

Module Demo.
(** [EnsureNamedObject] as the library documents it. *)
#[export] Instance reconciling {R} : Reconciling R :=
  {| CreateWithNamespace k f ns o := let! r := f o in Ok (map_meta (set_namespace ns) r);
     CreateWithName k f name o := let! r := f o in Ok (map_meta (set_name name) r);
     compare_DeepEqual k o existing := bool_decide (o = existing);
     EnsureNamedObject k n f c empty recreate :=
       do r <- trigger (Get c k n);
       match r with
       | Err e =>
           if IsNotFound e then
             do! o <- pureIO (f (Some empty));
             do! _ <- trigger (Create c k o); Ret (Ok tt)
           else Ret (Err (Wrapf "failed to get Object: %w" [] e))
       | Panic w => Ret (Panic w)
       | Ok existing =>
           do! o <- pureIO (f (Some existing));
           if bool_decide (o = existing)
           then Ret (Ok tt)
           else do! _ <- trigger (Update c k o); Ret (Ok tt)
       end |}.
#[export] Instance reconciling_laws {R} : ReconcilingLaws R.
Proof.
  split.
  - intros k f ns o r. cbn. rewrite bindR_Ok. naive_solver.
  - intros k f ns o r. cbn. rewrite bindR_Ok. naive_solver.
  - intros k o. by apply bool_decide_eq_true.
  - by intros o o' ->%bool_decide_eq_true.
  - intros k n f c empty t Hrun. cbn in Hrun. destruct t as [|o t]; [done|]. destruct Hrun as (x & -> & Hrun).
    destruct x as [existing|e|w].
    + run_reduce Hrun. destruct (f (Some existing)) as [o|e|w] eqn:Hf; [|run_steps Hrun..].
      destruct (bool_decide (o = existing)) eqn:Heq; run_step Hrun.
      * eapply (ensured_existing _ _ _ _ _ _ [] _ existing o o); [done..|].
        cbn [compare_DeepEqual reconciling]. by rewrite Heq.
      * destruct x as [answer|e|w]; run_steps Hrun.
        eapply (ensured_existing _ _ _ _ _ _ [] _ existing o answer); [done..|].
        cbn [compare_DeepEqual reconciling]. by rewrite Heq.
    + destruct (IsNotFound e) eqn:He; run_reduce Hrun; [|run_steps Hrun].
      destruct (f (Some empty)) as [o|e'|w] eqn:Hf; [|run_steps Hrun..].
      run_step Hrun. destruct x as [[]|e'|w]; run_steps Hrun. by eapply (ensured_created _ _ _ _ _ _ []).
    + run_steps Hrun.
Qed.

(** Two files, whose decoding is their version. *)
Definition profile (version : string) : OperatingSystemProfile :=
  let spec := OSP_Spec zero_OperatingSystemProfile in
  {| OSP_Meta := object_meta "" "";
     OSP_Spec := {| OSP_OSName := "ubuntu"; OSP_OSVersion := "22.04"; OSP_Version := version;
       SupportedCloudProviders := []; OSP_BootstrapConfig := zero_OSPConfig;
       OSP_ProvisioningConfig := zero_OSPConfig; OSP_ProvisioningUtility := "" |} |}.
#[export] Instance files : EmbedFS :=
  {| FS_ReadDir _ := Ok ["osp-rhel.yaml"; "osp-ubuntu.yaml"];
     FS_ReadFile f := Ok "v2";
     yaml_Unmarshal s := Ok (profile s) |}.
Definition loaded : gmap string OperatingSystemProfile :=
  {[ "osp-rhel" := profile "v2"; "osp-ubuntu" := profile "v2" ]}.
Definition controller : Reconciler := {| defaultOSPs := loaded; namespace := "osm" |}.
Definition key : NamespacedName := {| NN_Namespace := "osm"; NN_Name := "osp-ubuntu" |}.
Definition old : OperatingSystemProfile :=
  {| OSP_Meta := with_finalizers ["f"] (object_meta "osp-ubuntu" "osm"); OSP_Spec := OSP_Spec (profile "v1") |}.
Definition updated : OperatingSystemProfile :=
  {| OSP_Meta := OSP_Meta old; OSP_Spec := OSP_Spec (profile "v2") |}.
Definition update_run : list (obs (ApiE unit)) :=
  [Obs (Get ControlClient KOperatingSystemProfile key) (Ok old);
   Obs (Update ControlClient KOperatingSystemProfile updated) (Ok updated)].
Definition profile_read (o : obs (ApiE unit)) : option (result OperatingSystemProfile) :=
  match o with
  | @Obs _ X e a =>
      match e in ApiE _ X return X -> option (result OperatingSystemProfile) with
      | Get _ KOperatingSystemProfile _ => Some
      | _ => fun _ => None
      end a
  end.
End Demo.
Import Demo.

Lemma reconcileOSP_spec_witness :
  run (reconcileOSP Demo.controller "osp-ubuntu") Demo.update_run (Ok tt) /\
  exists answer, filter is_write Demo.update_run =
    [Obs (Update ControlClient KOperatingSystemProfile Demo.updated) (Ok answer)].
Proof.
  assert (run (reconcileOSP Demo.controller "osp-ubuntu") Demo.update_run (Ok tt)) as Hrun.
  { exists (Ok Demo.old). split; [reflexivity|]. exists (Ok Demo.updated). split; [reflexivity|].
    split; reflexivity. }
  split; [exact Hrun|].
  destruct (reconcileOSP_spec Demo.controller "osp-ubuntu" Demo.update_run Hrun) as (t1 & got & t2 & Ht & Hw1 & Hgot).
  assert (got = Ok Demo.old) as ->.
  { apply (f_equal (fun l => omap Demo.profile_read l)) in Ht. rewrite omap_app in Ht. cbn in Ht.
    destruct (omap Demo.profile_read t1) as [|x [|? ?]]; by injection Ht. }
  destruct Hgot as (answer & Hupdate & _). exists answer. apply Hupdate. discriminate.
Defined.

Lemma loadDefaultOSPs_spec_witness :
  loadDefaultOSPs = Ok Demo.loaded /\
  is_Some (Demo.loaded !! "osp-rhel").
Proof.
  assert (loadDefaultOSPs = Ok Demo.loaded) as Hok by (vm_compute; reflexivity).
  split; [exact Hok|].
  assert (FS_ReadDir ospsDefaultDirName = Ok ["osp-rhel.yaml"; "osp-ubuntu.yaml"]) as Hdir by reflexivity.
  apply (loadDefaultOSPs_spec ["osp-rhel.yaml"; "osp-ubuntu.yaml"] Demo.loaded Hdir Hok).
  exists "osp-rhel.yaml". split; [constructor|vm_compute; reflexivity].
Defined.
