(* ===== verification/DiffLog.v ===== *)
(** * The difference log of the reconcilers ([pkg/resources/reconciling/init.go])

    When an object differs from the generated one, the reconcilers call a handler that
    logs the difference.  It compares with [deep.Equal], whose depth and error logging
    are global variables: the handler saves them, sets them, compares and puts them
    back.  The workers of a controller run in parallel, so the accesses to the globals
    are effects and handlers may be interleaved between any two of them. *)

From S2P Require Import Prelude Effects Types.

Section DiffLog.
Context {Obj : Type} (ObjectMeta_of : Obj -> ObjectMeta) (TypeName : Obj -> string).

(** [github.com/go-test/deep]: its globals, and [Equal], which reads them; nil is no
    difference. *)
Record globals := { MaxDepth : Z; LogErrors : bool }.
Context (deep_Equal : globals -> Obj -> Obj -> option (list string)).

Inductive DeepE : Type -> Type :=
| ReadMaxDepth : DeepE Z
| ReadLogErrors : DeepE bool
| WriteMaxDepth (n : Z) : DeepE unit
| WriteLogErrors (b : bool) : DeepE unit
| Equal (a b : Obj) : DeepE (option (list string))
| Debugw (typ namespace name : string) (diff : option (list string)) : DeepE unit.

Definition diff_handler (a b : Obj) : prog DeepE unit :=
  do maxDepth <- trigger ReadMaxDepth;
  do logErrors <- trigger ReadLogErrors;
  do _ <- trigger (WriteMaxDepth 50);
  do _ <- trigger (WriteLogErrors true);
  do diff <- trigger (Equal a b);
  do diff <- match diff with None => trigger (Equal b a) | Some _ => Ret diff end;
  do _ <- trigger (WriteMaxDepth maxDepth);
  do _ <- trigger (WriteLogErrors logErrors);
  trigger (Debugw (TypeName a) (Namespace (ObjectMeta_of a)) (Name (ObjectMeta_of a)) diff).

Definition handle X (e : DeepE X) (g : globals) : X * globals :=
  match e with
  | ReadMaxDepth => (MaxDepth g, g)
  | ReadLogErrors => (LogErrors g, g)
  | WriteMaxDepth n => (tt, {| MaxDepth := n; LogErrors := LogErrors g |})
  | WriteLogErrors b => (tt, {| MaxDepth := MaxDepth g; LogErrors := b |})
  | Equal a b => (deep_Equal g a b, g)
  | Debugw _ _ _ _ => (tt, g)
  end.

(** ** Handlers in parallel

    A schedule names the handler that makes its next access. *)
Definition step_handler (p : prog DeepE unit) (g : globals) : prog DeepE unit * globals :=
  match p with
  | Ret _ => (p, g)
  | Vis e k => let '(x, g') := handle _ e g in (k x, g')
  end.

Fixpoint parallel (schedule : list nat) (ps : list (prog DeepE unit)) (g : globals) : list (prog DeepE unit) * globals :=
  match schedule with
  | [] => (ps, g)
  | i :: schedule' =>
      match ps !! i with
      | None => parallel schedule' ps g
      | Some p => let '(p', g') := step_handler p g in parallel schedule' (<[i := p']> ps) g'
      end
  end.

Definition returned (p : prog DeepE unit) : Prop := match p with Ret _ => True | Vis _ _ => False end.

(** ** Properties *)

(** A handler that runs alone puts the globals back. *)
Lemma diff_handler_alone a b g : (interp handle (diff_handler a b) g).2 = g.
Proof. destruct g as [n e]. unfold diff_handler. cbn. by destruct (deep_Equal _ a b). Qed.

(** Every write of a handler is of the fixed settings or of what it read. *)
Fixpoint writes_within (g : globals) (p : prog DeepE unit) : Prop :=
  match p with
  | Ret _ => True
  | Vis e k =>
      match e in DeepE X return (X -> prog DeepE unit) -> Prop with
      | WriteMaxDepth n => fun k => (n = 50 \/ n = MaxDepth g)%Z /\ writes_within g (k tt)
      | WriteLogErrors b => fun k => (b = true \/ b = LogErrors g) /\ writes_within g (k tt)
      | ReadMaxDepth => fun k => forall n, (n = 50 \/ n = MaxDepth g)%Z -> writes_within g (k n)
      | ReadLogErrors => fun k => forall b, (b = true \/ b = LogErrors g) -> writes_within g (k b)
      | Equal _ _ => fun k => forall d, writes_within g (k d)
      | Debugw _ _ _ _ => fun k => writes_within g (k tt)
      end k
  end.

Definition within (g0 g : globals) : Prop :=
  (MaxDepth g = 50 \/ MaxDepth g = MaxDepth g0)%Z /\ (LogErrors g = true \/ LogErrors g = LogErrors g0).

Lemma step_handler_within g0 p g :
  writes_within g0 p -> within g0 g -> writes_within g0 (step_handler p g).1 /\ within g0 (step_handler p g).2.
Proof.
  destruct p as [u|X e k]; [done|]. destruct e; cbn; intros Hp [Hn Hb]; repeat split; try done; try by apply Hp.
Qed.

Lemma diff_handler_within g0 a b : writes_within g0 (diff_handler a b).
Proof. cbn. intros n Hn l Hl. split; [by left|]. split; [by left|]. intros [d|]; cbn; naive_solver. Qed.

Lemma parallel_within g0 schedule ps g :
  Forall (writes_within g0) ps -> within g0 g ->
  Forall (writes_within g0) (parallel schedule ps g).1 /\ within g0 (parallel schedule ps g).2.
Proof.
  revert ps g. induction schedule as [|i schedule IH]; intros ps g Hps Hg; cbn; [done|].
  destruct (ps !! i) as [p|] eqn:Hi; [|by apply IH].
  rewrite Forall_lookup in Hps. destruct (step_handler_within g0 p g (Hps _ _ Hi) Hg) as [Hp' Hg'].
  destruct (step_handler p g) as [p' g']. apply IH; [|done].
  apply Forall_insert; [by apply Forall_lookup|done].
Qed.

(** Two handlers interleaved: the second one saves the settings of the first one, and
    puts them back last. *)
Lemma diff_handlers_race a1 b1 a2 b2 g :
  exists schedule, let '(ps, g') := parallel schedule [diff_handler a1 b1; diff_handler a2 b2] g in
    Forall returned ps /\ g' = {| MaxDepth := 50; LogErrors := true |}.
Proof.
  exists ([0; 0; 0; 0] ++ [1; 1] ++ repeat 0 6 ++ repeat 1 8)%nat. destruct g as [n e]. cbn.
  destruct (deep_Equal _ a1 b1); cbn; destruct (deep_Equal _ a2 b2); cbn; by repeat constructor.
Qed.

(** C40: the globals of the comparison while handlers log differences: a handler that runs alone puts them back; whatever the number of handlers and the interleaving of their accesses, they are never anything but the initial settings or depth 50 with errors logged; and two handlers that overlap can leave the latter behind for good *)
Theorem diff_handlers_settings (objects : list (Obj * Obj)) schedule g :
  (forall a b, (interp handle (diff_handler a b) g).2 = g) /\
  within g (parallel schedule (map (fun p => diff_handler p.1 p.2) objects) g).2 /\
  (forall a1 b1 a2 b2, exists schedule,
     let '(ps, g') := parallel schedule [diff_handler a1 b1; diff_handler a2 b2] g in
     Forall returned ps /\ g' = {| MaxDepth := 50; LogErrors := true |}).
Proof.
  split_and!; [intros a b; apply diff_handler_alone| |intros; apply diff_handlers_race].
  apply parallel_within; [|by split; right]. apply Forall_forall.
  intros p ([a b] & -> & _)%list_elem_of_fmap. apply diff_handler_within.
Qed.
End DiffLog.
