(* ===== verification/OSCController.v ===== *)
(** * The operating system config controller ([pkg/controllers/osc])

    [osc_controller.go]: from a machine deployment and its profile to the
    [OperatingSystemConfig] and the cloud-config secrets, their rotation and
    their cleanup.  The decoder of provider specifications is an interface. *)

From S2P Require Import Prelude GoStrings Encoding Sha256 Types Finalizers SDK.
From S2P Require Import Effects Api ContainerRuntime ProviderConfig Generator OSCResources Bootstrap.

Definition MachineDeploymentCleanupFinalizer : string := "kubermatic.io/cleanup-operating-system-configs".
Definition OperatingSystemConfigVersionAnnotation : string := "k8c.io/osp-version".
Definition OperatingSystemConfigMDHash : string := "k8c.io/mdannotations-hash".

(** The field of the reconciler that is written while it runs:
    [containerRuntimeConfig.RegistryCredentials]. *)
Abbreviation Credentials := (gmap string AuthConfig).

(** [json.Unmarshal] into a provider configuration of the SDK. *)
Class OSCLibs `{SDK} := {
  #[global] osc_bootstrap :: BootstrapLibs;
  #[global] osc_generator :: GeneratorLibs;
  #[global] osc_dockercfg :: JsonUnmarshal DockerCfgJSON;
  #[global] osc_authconfig :: JsonUnmarshal AuthConfig;
  #[global] osc_providerconfig :: JsonUnmarshal ProviderConfig;
  #[global] osc_sets :: StringSet
}.

Section Controller.
Context `{OSCLibs}.

(** [bootstrap] stands for [bootstrappingManager]; [flags] are the fields that
    [Add] copies and that are only read. *)
Record Reconciler := {
  flags : Flags;
  bootstrap : BootstrapManager;
  nodeRegistryCredentialsSecret : string;
  containerRuntimeConfig : Config
}.

Abbreviation api A := (io (ApiE Credentials) A).

(** ** Names *)

(** The key of the bootstrap token: the name alone when namespace and name are
    too long for a label. *)
Definition machineDeploymentKey (md : MachineDeployment) : string :=
  let key := MD_Namespace md +:+ "-" +:+ MD_Name md in
  if (63 <=? String.length key)%nat then MD_Name md else key.

Definition osc_name (md : MachineDeployment) : string := OperatingSystemConfigName (MD_Name md) (MD_Namespace md).
Definition osc_key (r : Reconciler) (md : MachineDeployment) : NamespacedName :=
  {| NN_Namespace := fl_namespace (flags r); NN_Name := osc_name md |}.
Definition cloud_config_name (md : MachineDeployment) (secretType : string) : string :=
  CloudConfigSecretName (MD_Name md) (MD_Namespace md) secretType.
Definition settings_key (name : string) : NamespacedName :=
  {| NN_Namespace := CloudInitSettingsNamespace; NN_Name := name |}.
Definition script_name (md : MachineDeployment) : string :=
  "edge-provider-script-" +:+ MD_Name md +:+ "-" +:+ MD_Namespace md.

(** ** Rotation annotations *)

Definition calculateAnnotationsHash (annotations : option (gmap string string)) : result string :=
  Ok (hex_EncodeToString (Sum256 (json_map annotations))).

Definition oscRotationAnnotations (revision mdhash ospversion : string) (annotations : option (gmap string string))
    : option (gmap string string) :=
  Some (<[OperatingSystemConfigVersionAnnotation := ospversion]>
       (<[OperatingSystemConfigMDHash := mdhash]>
       (<[MachineDeploymentRevision := revision]> (default ∅ annotations)))).

Definition revision_of (md : MachineDeployment) : string := map_get (MD_Annotations md) RevisionAnnotation.

(** ** Checks *)

Definition validateMachineDeployment (md : MachineDeployment) (osp : OperatingSystemProfile) : result unit :=
  let! raw := provider_raw md in
  let! providerConfig := wrapR "failed to decode provider config: %w" [] (json_Unmarshal (A := ProviderConfig) raw) in
  if decide (OSP_OSName (OSP_Spec osp) <> PC_OperatingSystem providerConfig) then
    Err (Errorf "OperatingSystemProfile %q does not support operating system %q"
           [Name (OSP_Meta osp); PC_OperatingSystem providerConfig])
  else if existsb (fun cp => bool_decide (CloudProviderSpec_Name cp = PC_CloudProvider providerConfig))
            (SupportedCloudProviders (OSP_Spec osp))
  then Ok tt
  else Err (Errorf "OperatingSystemProfile %q does not support cloud provider %q"
              [Name (OSP_Meta osp); PC_CloudProvider providerConfig]).

Definition checkOSP (md : MachineDeployment) (osp : OperatingSystemProfile) : api unit :=
  match validateMachineDeployment md osp with
  | Err err =>
      do _ <- trigger (RecordEvent (key_of (MD_Meta md)) "Warning" "OperatingSystemProfileError" err);
      Ret (Err err)
  | r => Ret r
  end.

(** The watch: machine deployments that name a profile. *)
Definition filterMachineDeploymentPredicate (o : ObjectMeta) : bool :=
  negb (bool_decide (map_get (Annotations o) MachineDeploymentOSPAnnotation = "")).

(** ** Deletion *)

(** [if err := c.Delete(...); err != nil && !kerrors.IsNotFound(err)] *)
Definition delete_if_found (c : client) (k : kind) (n : NamespacedName) (format : string) (args : list string)
    : api unit :=
  do r <- trigger (Delete c k n);
  match r with
  | Err err => if IsNotFound err then Ret (Ok tt) else Ret (Err (Wrapf format args err))
  | _ => Ret r
  end.

Section Deletion.
Variable r : Reconciler.

Definition deleteOperatingSystemConfig (md : MachineDeployment) : api unit :=
  delete_if_found ControlClient KOperatingSystemConfig (osc_key r md)
    "failed to delete OperatingSystemConfig %s: %v against MachineDeployment %w" [osc_name md; MD_Name md].

Definition deleteGeneratedSecrets (md : MachineDeployment) : api unit :=
  let provisioningSecretName := cloud_config_name md ProvisioningCloudConfig in
  let bootstrapSecretName := cloud_config_name md BootstrapCloudConfig in
  let bootstrapConfigName := bootstrapConfigName (machineDeploymentKey md) in
  do! _ <- delete_if_found WorkerClient KSecret (settings_key provisioningSecretName)
    "failed to delete provisioning secret %s against MachineDeployment %s: %w" [provisioningSecretName; MD_Name md];
  do! _ <- delete_if_found WorkerClient KSecret (settings_key bootstrapSecretName)
    "failed to delete bootstrap secret %s against MachineDeployment %s: %w" [bootstrapSecretName; MD_Name md];
  delete_if_found WorkerClient KSecret (settings_key bootstrapConfigName)
    "failed to delete kubelet bootstrap config secret %s against MachineDeployment %s: %w"
    [bootstrapConfigName; MD_Name md].

Definition handleMachineDeploymentCleanup (md : MachineDeployment) : api unit :=
  do! _ <- deleteOperatingSystemConfig md;
  do! _ <- deleteGeneratedSecrets md;
  let md := with_MD_Meta (RemoveFinalizer (MD_Meta md) [MachineDeploymentCleanupFinalizer]) md in
  do! _ <- wrapIO "failed to remove finalizer: %w" [] (trigger (Update WorkerClient KMachineDeployment md));
  Ret (Ok tt).

(** Neither revision, nor profile version, nor annotations have changed. *)
Definition rotation_not_required (md : MachineDeployment) (osp : OperatingSystemProfile)
    (osc : OperatingSystemConfig) (mdhash : string) : bool :=
  let annotations := Annotations (OSC_Meta osc) in
  bool_decide (revision_of md = map_get annotations MachineDeploymentRevision) &&
  bool_decide (OSP_Version (OSP_Spec osp) = map_get annotations OperatingSystemConfigVersionAnnotation) &&
  bool_decide (map_get annotations OperatingSystemConfigMDHash = mdhash).

Definition handleOSCAndSecretsRotation (md : MachineDeployment) (osp : OperatingSystemProfile) : api unit :=
  do got <- trigger (Get ControlClient KOperatingSystemConfig (osc_key r md));
  match got with
  | Err err => if IsNotFound err then Ret (Ok tt) else Ret (Err err)
  | Panic w => Ret (Panic w)
  | Ok osc =>
      do! mdhash <- pureIO (calculateAnnotationsHash (MD_Annotations md));
      if rotation_not_required md osp osc mdhash then Ret (Ok tt)
      else
        do! _ <- wrapIO "failed to delete OperatingSystemConfig %s: %v against MachineDeployment %w"
          [osc_name md; MD_Name md]
          (trigger (Delete ControlClient KOperatingSystemConfig (key_of (OSC_Meta osc))));
        deleteGeneratedSecrets md
  end.
End Deletion.

(** ** Creation *)

Section Creation.
Variable r : Reconciler.

Definition fetchOSP (md : MachineDeployment) : api OperatingSystemProfile :=
  let ospName := map_get (MD_Annotations md) MachineDeploymentOSPAnnotation in
  let ns := map_get (MD_Annotations md) MachineDeploymentOSPNamespaceAnnotation in
  let ospNamespace := if decide (ns = "") then fl_namespace (flags r) else ns in
  do got <- trigger (Get ControlClient KOperatingSystemProfile
                       {| NN_Namespace := ospNamespace; NN_Name := ospName |});
  match got with
  | Err err =>
      if IsNotFound err then Ret (Err (Errorf "OperatingSystemProfile %q not found" [ospName]))
      else Ret (Err (Wrapf "failed to get OperatingSystemProfile %q from namespace %q: %w" [ospName; ospNamespace] err))
  | _ => Ret got
  end.

(** The arguments of [fmt.Sprintf] in [generateEdgeScript]. *)
Definition edge_script (md : MachineDeployment) (token serverURL : string) : string :=
  let bootstrapSecretName := MD_Name md +:+ "-" +:+ MD_Namespace md +:+ "-bootstrap-config" in
  "apt-get update -y" +:+ NL +:+ "apt-get install jq -y" +:+ NL
  +:+ "curl -s -k -v --header 'Authorization: Bearer " +:+ token +:+ "' " +:+ serverURL
  +:+ "/api/v1/namespaces/cloud-init-settings/secrets/" +:+ bootstrapSecretName
  +:+ " | jq '.data[" +:+ DQ +:+ "cloud-config" +:+ DQ +:+ "]' -r| base64 -d > /etc/cloud/cloud.cfg.d/"
  +:+ bootstrapSecretName +:+ ".cfg " +:+ NL
  +:+ "cloud-init --file /etc/cloud/cloud.cfg.d/" +:+ bootstrapSecretName +:+ ".cfg init" +:+ NL
  +:+ "systemctl enable bootstrap.service" +:+ NL +:+ "systemctl restart bootstrap.service" +:+ NL.

Definition script_secret (md : MachineDeployment) (script : string) (secret : Secret) : Secret :=
  {| Secret_Meta := {| Name := script_name md; Namespace := CloudInitNamespace;
       Annotations := Annotations (Secret_Meta secret); Labels := Labels (Secret_Meta secret);
       Finalizers := Finalizers (Secret_Meta secret); DeletionTimestamp := DeletionTimestamp (Secret_Meta secret) |};
     Secret_Type := Secret_Type secret; Secret_Immutable := Secret_Immutable secret;
     Secret_Data := <["fetch-bootstrap-script" := script]> (Secret_Data secret) |}.

Definition generateEdgeScript (md : MachineDeployment) (token : string) (config : Kubeconfig) : api unit :=
  do! serverURL <- pureIO (cluster_server config);
  let script := edge_script md token serverURL in
  do got <- trigger (Get WorkerClient KSecret {| NN_Namespace := CloudInitNamespace; NN_Name := script_name md |});
  do! secret <- pureIO match got with
    | Err err =>
        if IsNotFound err then Ok zero_Secret
        else Err (Wrapf "failed to get %s secret in namespace %s: %w" [script_name md; CloudInitNamespace] err)
    | _ => got
    end;
  trigger (Create WorkerClient KSecret (script_secret md script secret)).

(** The generated config with the annotations and the utility of the profile. *)
Definition annotated_osc (md : MachineDeployment) (osp : OperatingSystemProfile) (mdhash : string)
    (osc : OperatingSystemConfig) : OperatingSystemConfig :=
  let spec := OSC_Spec osc in
  let utility := OSP_ProvisioningUtility (OSP_Spec osp) in
  {| OSC_Meta := with_annotations (oscRotationAnnotations (revision_of md) mdhash (OSP_Version (OSP_Spec osp))
                                     (Annotations (OSC_Meta osc))) (OSC_Meta osc);
     OSC_Spec := {| OSC_OSName := OSC_OSName spec; OSC_OSVersion := OSC_OSVersion spec;
       OSC_CloudProvider := OSC_CloudProvider spec; OSC_BootstrapConfig := OSC_BootstrapConfig spec;
       OSC_ProvisioningConfig := OSC_ProvisioningConfig spec;
       OSC_ProvisioningUtility := if decide (utility = "") then ProvisioningUtilityCloudInit else utility |} |}.

(** What follows the early return for an existing config. *)
Definition create_osc (md : MachineDeployment) (osp : OperatingSystemProfile)
    (bootstrapKubeconfig : Kubeconfig) (bootstrapKubeconfigName : string) : api unit :=
  let oscName := osc_name md in
  let utility := OSP_ProvisioningUtility (OSP_Spec osp) in
  do! provisioner <- wrapIO "failed to determine provisioning utility: %w" []
    (pureIO (GetProvisioningUtility (OSP_OSName (OSP_Spec osp)) md));
  if negb (bool_decide (utility = "")) && negb (bool_decide (provisioner = utility)) then
    Ret (Err (Errorf "specified provisioning utility %q is not supported by the OperatingSystemProfile" [utility]))
  else
    do! _ <-
      (if decide (nodeRegistryCredentialsSecret r <> "") then
         do! registryCredentials <- wrapIO "failed to get containerd auth config: %w" []
           (GetContainerdAuthConfig ControlClient (nodeRegistryCredentialsSecret r));
         do _ <- trigger (StoreField registryCredentials); Ret (Ok tt)
       else Ret (Ok tt));
    do! token <- wrapIO "failed to fetch api-server token: %w" [] (ExtractAPIServerToken WorkerClient);
    do credentials <- trigger LoadField;
    do! osc <- wrapIO "failed to generate %s osc: %w" [oscName]
      (pureIO (GenerateOperatingSystemConfig md osp bootstrapKubeconfig bootstrapKubeconfigName token oscName
                 (flags r) (with_credentials credentials (containerRuntimeConfig r))));
    do! _ <-
      (if decide (CloudProviderSpec_Name (OSC_CloudProvider (OSC_Spec osc)) = "edge") then
         wrapIO "failed to generate edge provider bootstrap script: %w" []
           (generateEdgeScript md token bootstrapKubeconfig)
       else Ret (Ok tt));
    do! mdhash <- pureIO (calculateAnnotationsHash (MD_Annotations md));
    wrapIO "failed to create %s osc: %w" [oscName]
      (trigger (Create ControlClient KOperatingSystemConfig (annotated_osc md osp mdhash osc))).

Definition reconcileOperatingSystemConfigs (md : MachineDeployment) (osp : OperatingSystemProfile) : api unit :=
  do! (bootstrapKubeconfig, bootstrapKubeconfigName) <-
    wrapIO "failed to create bootstrap kubeconfig: %w" []
      (CreateBootstrapKubeconfig (bootstrap r) (machineDeploymentKey md));
  do got <- trigger (Get ControlClient KOperatingSystemConfig (osc_key r md));
  match got with
  | Ok _ => Ret (Ok tt)
  | Err _ => create_osc md osp bootstrapKubeconfig bootstrapKubeconfigName
  | Panic w => Ret (Panic w)
  end.

(** The secret of a cloud config with its rotation annotations. *)
Definition cloud_config_secret (md : MachineDeployment) (secretType provisionData mdhash ospVersion : string)
    : Secret :=
  let secret := GenerateCloudConfigSecret (cloud_config_name md secretType) CloudInitSettingsNamespace provisionData in
  {| Secret_Meta := with_annotations (oscRotationAnnotations (revision_of md) mdhash ospVersion
                                        (Annotations (Secret_Meta secret))) (Secret_Meta secret);
     Secret_Type := Secret_Type secret; Secret_Immutable := Secret_Immutable secret;
     Secret_Data := Secret_Data secret |}.

Definition ensureCloudConfigSecret (config : OSCConfig) (provisioningUtility : ProvisioningUtility)
    (secretType : string) (operatingSystem : OperatingSystem) (cloudProvider : CloudProvider)
    (md : MachineDeployment) (ospVersion : string) : api unit :=
  let secretName := cloud_config_name md secretType in
  do got <- trigger (Get WorkerClient KSecret (settings_key secretName));
  match got with
  | Ok _ => Ret (Ok tt)
  | Panic w => Ret (Panic w)
  | Err _ =>
      do! provisionData <- wrapIO "failed to generate %s data with error: %w" [secretType]
        (pureIO (Generate config provisioningUtility operatingSystem cloudProvider md secretType));
      do! mdhash <- pureIO (calculateAnnotationsHash (MD_Annotations md));
      wrapIO "failed to create %s %s secret: %w" [secretName; secretType]
        (trigger (Create WorkerClient KSecret (cloud_config_secret md secretType provisionData mdhash ospVersion)))
  end.

Definition reconcileSecrets (md : MachineDeployment) (osp : OperatingSystemProfile) : api unit :=
  do! osc <- wrapIO "failed to get OperatingSystemConfigs %q from namespace %q: %w"
    [osc_name md; fl_namespace (flags r)]
    (trigger (Get ControlClient KOperatingSystemConfig (osc_key r md)));
  let spec := OSC_Spec osc in
  let ensure config secretType :=
    ensureCloudConfigSecret config (OSC_ProvisioningUtility spec) secretType (OSC_OSName spec)
      (CloudProviderSpec_Name (OSC_CloudProvider spec)) md (OSP_Version (OSP_Spec osp)) in
  do! _ <- wrapIO "failed to reconcile provisioning config secret: %w" []
    (ensure (OSC_ProvisioningConfig spec) ProvisioningCloudConfig);
  do! _ <- wrapIO "failed to reconcile bootstrapping config secret: %w" []
    (ensure (OSC_BootstrapConfig spec) BootstrapCloudConfig);
  Ret (Ok tt).

(** ** The reconciler *)

Definition reconcile (md : MachineDeployment) : api unit :=
  do! osp <- wrapIO "failed to fetch OperatingSystemProfile: %w" [] (fetchOSP md);
  do! _ <- wrapIO "failed to validate referenced OSP: %w" [] (checkOSP md osp);
  do! _ <- wrapIO "failed to perform rotation for OSC and secrets: %w" [] (handleOSCAndSecretsRotation r md osp);
  do! _ <- wrapIO "failed to reconcile operating system config: %w" [] (reconcileOperatingSystemConfigs md osp);
  do! _ <- wrapIO "failed to reconcile secrets: %w" [] (reconcileSecrets md osp);
  Ret (Ok tt).

(** The machine deployment after the finalizer is added: what the server
    returned when it had to be written. *)
Definition ensure_finalizer (md : MachineDeployment) : api MachineDeployment :=
  if HasFinalizer (MD_Meta md) [MachineDeploymentCleanupFinalizer] then Ret (Ok md)
  else wrapIO "failed to add finalizer: %w" []
         (trigger (Update WorkerClient KMachineDeployment
            (with_MD_Meta (AddFinalizer (MD_Meta md) [MachineDeploymentCleanupFinalizer]) md))).

Definition Reconcile (req : NamespacedName) : api unit :=
  do got <- trigger (Get WorkerClient KMachineDeployment req);
  match got with
  | Err err => if IsNotFound err then Ret (Ok tt) else Ret (Err err)
  | Panic w => Ret (Panic w)
  | Ok machineDeployment =>
      match DeletionTimestamp (MD_Meta machineDeployment) with
      | Some _ =>
          if HasFinalizer (MD_Meta machineDeployment) [MachineDeploymentCleanupFinalizer]
          then handleMachineDeploymentCleanup r machineDeployment
          else Ret (Ok tt)
      | None =>
          do! machineDeployment <- ensure_finalizer machineDeployment;
          reconcile machineDeployment
      end
  end.
End Creation.
End Controller.

(** ** What a reconciliation may write *)

Section Writes.
Context `{OSCLibs}.
Variable r : Reconciler.

Definition osc_ref (md : MachineDeployment) : ref :=
  {| ref_client := ControlClient; ref_kind := KOperatingSystemConfig; ref_key := osc_key r md |}.
Definition secret_ref (name : string) : ref :=
  {| ref_client := WorkerClient; ref_kind := KSecret; ref_key := settings_key name |}.
(** The secrets generated for a machine deployment. *)
Definition generated_secrets (md : MachineDeployment) : list ref :=
  [secret_ref (cloud_config_name md ProvisioningCloudConfig);
   secret_ref (cloud_config_name md BootstrapCloudConfig);
   secret_ref (bootstrapConfigName (machineDeploymentKey md))].
Definition script_ref (md : MachineDeployment) : ref :=
  {| ref_client := WorkerClient; ref_kind := KSecret;
     ref_key := {| NN_Namespace := CloudInitNamespace; NN_Name := script_name md |} |}.
Definition md_ref (n : NamespacedName) : ref :=
  {| ref_client := WorkerClient; ref_kind := KMachineDeployment; ref_key := n |}.

(** What [reconcile] may write for [md] besides the bootstrap credentials: no config
    and no cloud-config secret is ever updated in place. *)
Definition owned_object (md : MachineDeployment) (w : write) : Prop :=
  match w with
  | WCreate x => x = osc_ref md \/ x ∈ take 2 (generated_secrets md) \/ x = script_ref md
  | WDelete x => x = osc_ref md \/ x ∈ generated_secrets md
  | WUpdate _ => False
  end.
Definition owned_write (md : MachineDeployment) (w : write) : Prop :=
  bootstrap_write (bootstrap r) (machineDeploymentKey md) w \/ owned_object md w.

Lemma GenerateOperatingSystemConfig_meta md osp kc kcName token oscName fl cfg osc :
  GenerateOperatingSystemConfig md osp kc kcName token oscName fl cfg = Ok osc ->
  OSC_Meta osc = object_meta oscName (fl_namespace fl).
Proof.
  unfold GenerateOperatingSystemConfig. intros Hg.
  repeat (apply bindR_Ok in Hg as (? & _ & Hg); repeat case_match).
  by simplify_eq.
Qed.

Section Generic.
Variable Q : forall X, ApiE Credentials X -> X -> Prop.
Variable P : forall X, ApiE Credentials X -> Prop.
Variable md : MachineDeployment.
Hypothesis Hbootstrap :
  calls_when Q P (CreateBootstrapKubeconfig (bootstrap r) (machineDeploymentKey md)).
Hypothesis Howned : forall X e, only_writes (owned_object md) X e -> P X e.
Hypothesis Hdelete : forall osc, Q _ (Get ControlClient KOperatingSystemConfig (osc_key r md)) (Ok osc) ->
  P _ (Delete ControlClient KOperatingSystemConfig (key_of (OSC_Meta osc))).

Lemma deleteGeneratedSecrets_writes : calls_when Q P (deleteGeneratedSecrets md).
Proof using Howned.
  clear Hbootstrap Hdelete. unfold deleteGeneratedSecrets, delete_if_found.
  repeat calls_when_step; apply Howned; try exact I; right; set_solver.
Qed.

Lemma handleOSCAndSecretsRotation_writes osp :
  calls_when Q P (handleOSCAndSecretsRotation r md osp).
Proof.
  unfold handleOSCAndSecretsRotation. split; [by apply Howned|]. intros [osc|e|w] HQ; cbn [bind].
  - repeat first [apply deleteGeneratedSecrets_writes | calls_when_step]. by apply Hdelete.
  - by destruct (IsNotFound e).
  - exact I.
Qed.

Lemma generateEdgeScript_writes token kc : calls_when Q P (generateEdgeScript md token kc).
Proof.
  unfold generateEdgeScript. repeat calls_when_step; try exact I; apply Howned; try exact I. right. by right.
Qed.

Lemma create_osc_writes osp kc kcName : calls_when Q P (create_osc r md osp kc kcName).
Proof.
  unfold create_osc, GetContainerdAuthConfig, ExtractAPIServerToken.
  repeat first
    [ apply generateEdgeScript_writes
    | match goal with |- calls_when _ _ (bindIO (wrapIO _ _ (pureIO (GenerateOperatingSystemConfig _ _ _ _ _ _ _ _))) _) =>
        apply calls_when_pure; intros osc Hosc%GenerateOperatingSystemConfig_meta
      end
    | calls_when_step]; try exact I; apply Howned; try exact I.
  left. unfold ref_of. cbn. by rewrite Hosc.
Qed.

Lemma reconcileOperatingSystemConfigs_writes osp :
  calls_when Q P (reconcileOperatingSystemConfigs r md osp).
Proof.
  unfold reconcileOperatingSystemConfigs.
  repeat first
    [ apply create_osc_writes
    | exact Hbootstrap
    | calls_when_step]; by apply Howned.
Qed.

Lemma ensureCloudConfigSecret_writes config utility secretType os cp ospVersion :
  secretType ∈ [ProvisioningCloudConfig; BootstrapCloudConfig] ->
  calls_when Q P (ensureCloudConfigSecret config utility secretType os cp md ospVersion).
Proof.
  intros Hs. unfold ensureCloudConfigSecret. repeat calls_when_step; apply Howned; try exact I.
  right. left. cbn [generated_secrets take].
  apply list_elem_of_In in Hs as [<-|[<-|[]]]; set_solver.
Qed.

Lemma reconcileSecrets_writes osp : calls_when Q P (reconcileSecrets r md osp).
Proof.
  unfold reconcileSecrets.
  repeat first
    [ match goal with |- calls_when _ _ (ensureCloudConfigSecret _ _ _ _ _ _ _) =>
        apply ensureCloudConfigSecret_writes; set_solver
      end
    | calls_when_step]; by apply Howned.
Qed.

Lemma reconcile_writes : calls_when Q P (reconcile r md).
Proof.
  unfold reconcile, fetchOSP, checkOSP.
  repeat first
    [ match goal with
      | |- calls_when _ _ (handleOSCAndSecretsRotation _ _ _) => apply handleOSCAndSecretsRotation_writes
      | |- calls_when _ _ (reconcileOperatingSystemConfigs _ _ _) => apply reconcileOperatingSystemConfigs_writes
      | |- calls_when _ _ (reconcileSecrets _ _ _) => apply reconcileSecrets_writes
      end
    | calls_when_step]; by apply Howned.
Qed.
End Generic.
End Writes.

(** ** Ownership and cleanup *)

Section ReconcileProps.
Context `{OSCLibs}.
Variable r : Reconciler.

(** The machine deployment of a request, for the names made from it. *)
Definition md_of (req : NamespacedName) : MachineDeployment :=
  {| MD_Meta := object_meta (NN_Name req) (NN_Namespace req); MD_ProviderSpec_Value := None; MD_Versions_Kubelet := "" |}.

Lemma key_of_md_of req : key_of (MD_Meta (md_of req)) = req.
Proof. by destruct req. Qed.

Lemma owned_object_key md req w : key_of (MD_Meta md) = req -> owned_object r md w -> owned_object r (md_of req) w.
Proof. by intros <-. Qed.

(** The calls of a reconciliation, from those of the bootstrapping. *)
Lemma Reconcile_calls_for (Q : forall X, ApiE Credentials X -> X -> Prop) (P : forall X, ApiE Credentials X -> Prop) req :
  (forall X e x, Q X e x -> honest X e x) ->
  calls_when Q P (CreateBootstrapKubeconfig (bootstrap r) (machineDeploymentKey (md_of req))) ->
  (forall X e, only_writes (fun w => w = WUpdate (md_ref req) \/ owned_object r (md_of req) w) X e -> P X e) ->
  calls_when Q P (Reconcile r req).
Proof.
  intros HQ Hboot HP.
  assert (forall md', key_of (MD_Meta md') = req -> forall X e, only_writes (owned_object r md') X e -> P X e) as HP'.
  { intros md' Hmd' X e He. apply HP. revert He. apply only_writes_mono. intros w Hw. right. by apply (owned_object_key md'). }
  assert (forall md', key_of (MD_Meta md') = req -> calls_when Q P (reconcile r md')) as Hrec.
  { intros md' Hmd'. apply reconcile_writes; [by revert Hboot; rewrite <- Hmd'|by apply HP'|].
    intros osc Hosc%HQ. cbn in Hosc. apply (HP' md' Hmd'). left. unfold osc_ref. by rewrite <- Hosc. }
  assert (P _ (Get WorkerClient KMachineDeployment req)) as Hget by (by apply HP).
  unfold Reconcile. split; [done|]. intros [md'|e|w] Hmd'%HQ; cbn [bind]; [|by destruct (IsNotFound e)|done].
  cbn in Hmd'. destruct (DeletionTimestamp (MD_Meta md')).
  - destruct (HasFinalizer _ _); [|exact I]. unfold handleMachineDeploymentCleanup, deleteOperatingSystemConfig,
      delete_if_found. repeat first
      [ match goal with |- calls_when _ _ (deleteGeneratedSecrets _) =>
          apply (deleteGeneratedSecrets_writes r); by apply HP' end
      | calls_when_step]; apply HP; [by right; left; rewrite <- Hmd'|left].
    unfold md_ref, ref_of. by rewrite <- Hmd'.
  - unfold ensure_finalizer. destruct (HasFinalizer _ _); [by apply Hrec|]. cbn [bind bindIO wrapIO trigger].
    split; [apply HP; left; unfold md_ref, ref_of; by rewrite <- Hmd'|].
    intros [md2|e|w] Hmd2%HQ; cbn [bind wrapR]; [|exact I..]. cbn in Hmd2. apply Hrec. by rewrite Hmd2.
Qed.

Lemma Reconcile_calls req :
  calls_when honest (only_writes (fun w => w = WUpdate (md_ref req) \/ owned_write r (md_of req) w)) (Reconcile r req).
Proof.
  apply Reconcile_calls_for; [done|..].
  - eapply calls_when_weaken; [done| |apply CreateBootstrapKubeconfig_writes].
    intros X e. apply only_writes_mono. intros w Hw. right. by left.
  - intros X e. apply only_writes_mono. unfold owned_write. naive_solver.
Qed.

(** A call that writes nothing but what is the machine deployment's own. *)
Definition owned_call (req : NamespacedName) (listed : Secret -> Prop) (X : Type) (e : ApiE Credentials X) : Prop :=
  forall w, writes e = Some w ->
    w = WUpdate (md_ref req) \/ owned_object r (md_of req) w \/
    token_write (bootstrap r) (machineDeploymentKey (md_of req)) listed e \/
    w = WCreate (kubeconfig_ref (bootstrap r) (machineDeploymentKey (md_of req))) \/
    w = WUpdate (kubeconfig_ref (bootstrap r) (machineDeploymentKey (md_of req))).

(** C11: whatever the servers answer, as long as a read returns the object it names, a reconciliation writes nothing but the machine deployment itself, its config, its two cloud-config secrets, its edge script, its bootstrap kubeconfig, new bootstrap tokens that are labelled with its name, and the expiration of the one token that it has found by that label; configs and cloud-config secrets are created and deleted, never updated *)
Theorem Reconcile_owned req t res :
  run (Reconcile r req) t res -> Forall honest_obs t ->
  let found s := Obs (ListSecrets (bootstrap_client (bootstrap r)) NamespaceSystem machineDeploymentNameLabelKey
                        (machineDeploymentKey (md_of req))) (Ok [s]) ∈ t in
  Forall (fun o => match o with Obs e _ => owned_call req found _ e end) t.
Proof.
  intros Hrun Hhonest found.
  apply (calls_when_run (lists (bootstrap r) (machineDeploymentKey (md_of req)) found) _ (Reconcile r req) t res); [|done|].
  - apply Reconcile_calls_for; [by intros X e x []|..].
    + eapply calls_when_weaken; [done| |apply CreateBootstrapKubeconfig_calls].
      intros X e He w Hw. do 2 right. by apply He.
    + intros X e He w Hw. unfold only_writes in He. rewrite Hw in He. destruct He; auto.
  - apply Forall_forall. intros [X e x] Hin. rewrite Forall_forall in Hhonest. split; [exact (Hhonest _ Hin)|].
    destruct e; try done. by intros s -> -> -> -> ->.
Qed.

(** The object was deleted, or the server had none. *)
Definition delete_ok (a : result unit) : bool :=
  match a with Ok _ => true | Err e => IsNotFound e | Panic _ => false end.

Lemma delete_if_found_run c k n fmt args t :
  run (delete_if_found c k n fmt args) t (Ok tt) <->
  exists a, delete_ok a = true /\ t = [Obs (Delete c k n) a].
Proof.
  unfold delete_if_found. split.
  - intros Hrun. run_step Hrun. exists x. destruct x as [[]|e|w]; run_reduce Hrun.
    + by destruct Hrun as [-> _].
    + cbn. destruct (IsNotFound e); by destruct Hrun as [-> ?].
    + by destruct Hrun.
  - intros (a & Ha & ->). eexists. split; [done|]. destruct a as [[]|e|w]; cbn in *; [done| |done].
    by rewrite Ha.
Qed.

(** The three secrets, one after the other. *)
Definition secret_deletes (md : MachineDeployment) (t : list (obs (ApiE Credentials))) : Prop :=
  exists a1 a2 a3, delete_ok a1 = true /\ delete_ok a2 = true /\ delete_ok a3 = true /\
    t = [Obs (Delete WorkerClient KSecret (settings_key (cloud_config_name md ProvisioningCloudConfig))) a1;
         Obs (Delete WorkerClient KSecret (settings_key (cloud_config_name md BootstrapCloudConfig))) a2;
         Obs (Delete WorkerClient KSecret (settings_key (bootstrapConfigName (machineDeploymentKey md)))) a3].

Lemma deleteGeneratedSecrets_run md t :
  run (deleteGeneratedSecrets md) t (Ok tt) <-> secret_deletes md t.
Proof.
  unfold deleteGeneratedSecrets, secret_deletes. rewrite run_bindIO. split.
  - intros (t1 & t2 & [[]|e|w] & -> & H1 & H2); [|by destruct H2..].
    apply delete_if_found_run in H1 as (a1 & Ha1 & ->).
    apply run_bindIO in H2 as (t3 & t4 & [[]|e|w] & -> & H2 & H3); [|by destruct H3..].
    apply delete_if_found_run in H2 as (a2 & Ha2 & ->).
    apply delete_if_found_run in H3 as (a3 & Ha3 & ->). by exists a1, a2, a3.
  - intros (a1 & a2 & a3 & Ha1 & Ha2 & Ha3 & ->). eexists [_], [_; _], (Ok tt). split; [done|].
    split; [apply delete_if_found_run; eauto|]. apply run_bindIO. eexists [_], [_], (Ok tt). split; [done|].
    split; apply delete_if_found_run; eauto.
Qed.

Lemma delete_ok_deleted x a :
  delete_ok a = true -> deleted x (Obs (Delete (ref_client x) (ref_kind x) (ref_key x)) a : obs (ApiE Credentials)).
Proof. destruct x, a as [|e|]; cbn; done. Qed.

(** The four objects were deleted, for a machine deployment that was read and
    is marked for deletion. *)
Definition cleaned_up (req : NamespacedName) (t : list (obs (ApiE Credentials))) : Prop :=
  exists md t', t = Obs (Get WorkerClient KMachineDeployment req) (Ok md) :: t' /\
    DeletionTimestamp (MD_Meta md) <> None /\
    forall x, x ∈ osc_ref r md :: generated_secrets md -> Exists (deleted x) t'.

(** The order that is checked at every call. *)
Definition release_order (req : NamespacedName) (t : list (obs (ApiE Credentials))) (X : Type) (e : ApiE Credentials X)
    : Prop :=
  match e with
  | Update _ KMachineDeployment md => MachineDeploymentCleanupFinalizer ∉ Finalizers (MD_Meta md) -> cleaned_up req t
  | _ => True
  end.

Lemma only_writes_release (P : write -> Prop) req h X (e : ApiE Credentials X) :
  (forall x, P (WUpdate x) -> ref_kind x <> KMachineDeployment) ->
  only_writes P X e -> release_order req h X e.
Proof. intros HP He. destruct e as [| |c [] o| | | | | | | |]; cbn in *; try done. by apply HP in He. Qed.

Lemma cleanup_ordered req md :
  DeletionTimestamp (MD_Meta md) <> None ->
  ordered (release_order req) [Obs (Get WorkerClient KMachineDeployment req) (Ok md)]
    (handleMachineDeploymentCleanup r md).
Proof.
  intros Hts. unfold handleMachineDeploymentCleanup, deleteOperatingSystemConfig, deleteGeneratedSecrets,
    delete_if_found, bindIO, wrapIO, trigger. cbn [bind ordered].
  do 4 (split; [exact I|]; intros [[]|?e|?w]; cbn [bind ordered app];
    [|match goal with |- context [IsNotFound ?e] => destruct (IsNotFound e) eqn:? end;
      cbn [bind ordered]; [|exact I]|exact I]).
  all: split; [|by intros [?|?|?]].
  all: intros _; eexists md, _; split; [reflexivity|]; split; [done|]; intros x Hx.
  all: unfold generated_secrets in Hx; rewrite !elem_of_cons in Hx.
  all: destruct Hx as [->|[->|[->|[->|Hx%elem_of_nil]]]]; [| | | |done].
  all: repeat first
    [ by apply Exists_cons_hd; split
    | apply Exists_cons_tl ].
Qed.
End ReconcileProps.

Section CleanupProps.
Context `{OSCLibs, !StringSetLaws}.
Variable r : Reconciler.

(** Past the finalizer, machine deployments are not written. *)
Definition no_machine_deployment (w : write) : Prop :=
  match w with WUpdate x => ref_kind x <> KMachineDeployment | _ => True end.
Lemma reconcile_no_machine_deployment md :
  all_calls (only_writes no_machine_deployment) (reconcile r md).
Proof.
  apply all_calls_of_when. apply reconcile_writes; [| |done].
  - eapply all_calls_when; [|apply CreateBootstrapKubeconfig_kind]. intros X e.
    apply only_writes_mono. intros [x|x|x] Hx; [done| |done]. cbn in *. congruence.
  - intros X e. apply only_writes_mono. by intros [x|x|x].
Qed.

(** C7: in every run, whatever the servers answer, the machine deployment is written without the cleanup finalizer only when it was read marked for deletion and its config and its three secrets have been deleted or were not found before *)
Theorem finalizer_released_last req t1 c md' a t2 res :
  run (Reconcile r req) (t1 ++ Obs (Update c KMachineDeployment md') a :: t2) res ->
  MachineDeploymentCleanupFinalizer ∉ Finalizers (MD_Meta md') ->
  cleaned_up r req t1.
Proof.
  intros Hrun. apply (ordered_run (release_order r req) [] _ _ _ _ _ _ _) in Hrun; [exact Hrun|].
  assert (forall md h, ordered (release_order r req) h (reconcile r md)) as Hrec.
  { intros md h. eapply all_calls_ordered; [|apply reconcile_no_machine_deployment].
    intros h' X e. by apply only_writes_release. }
  unfold Reconcile. split; [exact I|]. intros [md|e|w]; cbn [bind app]; [|by destruct (IsNotFound e)|exact I].
  destruct (DeletionTimestamp (MD_Meta md)) eqn:Hts.
  - destruct (HasFinalizer _ _); [|exact I]. apply cleanup_ordered. by rewrite Hts.
  - unfold ensure_finalizer. destruct (HasFinalizer _ _); [apply Hrec|].
    unfold bindIO, wrapIO, trigger. cbn [bind ordered]. split.
    + intros Hf. exfalso. apply Hf. apply HasFinalizer_singleton, HasFinalizer_Add.
    + intros [md2|e|w]; cbn [wrapR]; [apply Hrec|exact I..].
Qed.
End CleanupProps.

(** ** Rotation *)

Section RotationProps.
Context `{OSCLibs}.
Variable r : Reconciler.

(** The annotations of a config that is current. *)
Definition up_to_date (md : MachineDeployment) (osp : OperatingSystemProfile) (osc : OperatingSystemConfig) : Prop :=
  exists mdhash, calculateAnnotationsHash (MD_Annotations md) = Ok mdhash /\
  map_get (Annotations (OSC_Meta osc)) MachineDeploymentRevision = revision_of md /\
  map_get (Annotations (OSC_Meta osc)) OperatingSystemConfigVersionAnnotation = OSP_Version (OSP_Spec osp) /\
  map_get (Annotations (OSC_Meta osc)) OperatingSystemConfigMDHash = mdhash.

Lemma rotation_not_required_spec md osp osc mdhash :
  calculateAnnotationsHash (MD_Annotations md) = Ok mdhash ->
  rotation_not_required md osp osc mdhash = true <-> up_to_date md osp osc.
Proof.
  intros Hh. unfold rotation_not_required, up_to_date.
  rewrite !andb_true_iff, !bool_decide_eq_true. split.
  - intros [[? ?] ?]. by exists mdhash.
  - intros (h & Hh' & ? & ? & ?). rewrite Hh in Hh'. by injection Hh' as ->.
Qed.

(** The runs of a rotation that succeeds. *)
Inductive rotation_calls (md : MachineDeployment) (osp : OperatingSystemProfile) :
    list (obs (ApiE Credentials)) -> Prop :=
| rotation_no_config e :
    IsNotFound e = true ->
    rotation_calls md osp [Obs (Get ControlClient KOperatingSystemConfig (osc_key r md)) (Err e)]
| rotation_current osc :
    up_to_date md osp osc ->
    rotation_calls md osp [Obs (Get ControlClient KOperatingSystemConfig (osc_key r md)) (Ok osc)]
| rotation_stale osc t :
    ~ up_to_date md osp osc -> secret_deletes md t ->
    rotation_calls md osp
      (Obs (Get ControlClient KOperatingSystemConfig (osc_key r md)) (Ok osc) ::
       Obs (Delete ControlClient KOperatingSystemConfig (key_of (OSC_Meta osc))) (Ok tt) :: t).

Lemma rotation_run md osp t :
  run (handleOSCAndSecretsRotation r md osp) t (Ok tt) -> rotation_calls md osp t.
Proof.
  unfold handleOSCAndSecretsRotation. intros Hrun. run_step Hrun. destruct x as [osc|e|w]; cbn [bind] in Hrun.
  - unfold pureIO, calculateAnnotationsHash in Hrun. cbn [bindIO bind] in Hrun.
    destruct (rotation_not_required _ _ _ _) eqn:Hrot.
    + destruct Hrun as [-> _]. apply rotation_current. by eapply rotation_not_required_spec.
    + run_step Hrun. destruct x as [[]|e|w]; cbn [wrapR] in Hrun; [|by destruct Hrun..].
      apply rotation_stale; [|by apply deleteGeneratedSecrets_run].
      by rewrite <- rotation_not_required_spec, Hrot.
  - destruct (IsNotFound e) eqn:He; [|by destruct Hrun]. destruct Hrun as [-> _]. by apply rotation_no_config.
  - by destruct Hrun.
Qed.

(** C9: a rotation succeeds exactly in these runs: there is no config; or the config carries the revision, the profile version and the annotation hash of the machine deployment, and nothing is written; or one of the three differs, the config is deleted and then its three secrets *)
Theorem rotation_spec md osp t :
  run (handleOSCAndSecretsRotation r md osp) t (Ok tt) <-> rotation_calls md osp t.
Proof.
  split; [apply rotation_run|]. unfold handleOSCAndSecretsRotation.
  intros Hcalls. destruct Hcalls as [e He|osc Hosc|osc t Hosc Ht]; eexists; (split; [reflexivity|]); cbn [bind].
  - by rewrite He.
  - unfold pureIO, calculateAnnotationsHash. cbn [bindIO bind].
    by rewrite (proj2 (rotation_not_required_spec _ _ _ _ eq_refl) Hosc).
  - unfold pureIO, calculateAnnotationsHash. cbn [bindIO bind].
    destruct (rotation_not_required _ _ _ _) eqn:Hrot; [by eapply rotation_not_required_spec in Hrot|].
    exists (Ok tt). split; [reflexivity|]. by apply deleteGeneratedSecrets_run.
Qed.

(** Distinct annotation keys: one of them is a constant of the SDK. *)
Definition rotation_keys : Prop :=
  NoDup [MachineDeploymentRevision; OperatingSystemConfigMDHash; OperatingSystemConfigVersionAnnotation].

Lemma up_to_date_annotated md osp mdhash osc md' osp' :
  rotation_keys -> calculateAnnotationsHash (MD_Annotations md) = Ok mdhash ->
  up_to_date md' osp' (annotated_osc md osp mdhash osc) <->
  revision_of md' = revision_of md /\ OSP_Version (OSP_Spec osp') = OSP_Version (OSP_Spec osp) /\
  calculateAnnotationsHash (MD_Annotations md') = calculateAnnotationsHash (MD_Annotations md).
Proof.
  unfold rotation_keys. rewrite !NoDup_cons, !not_elem_of_cons. intros [(Hrh & Hrv & _) [(Hhv & _) _]] Hh.
  unfold up_to_date, annotated_osc, oscRotationAnnotations, map_get. cbn [OSC_Meta Annotations with_annotations mbind option_bind].
  rewrite lookup_insert_eq, (lookup_insert_ne _ _ MachineDeploymentRevision) by done.
  rewrite (lookup_insert_ne _ _ MachineDeploymentRevision), lookup_insert_eq by done.
  rewrite lookup_insert_ne, lookup_insert_eq by done. cbn [default from_option id].
  rewrite Hh. naive_solver.
Qed.

(** C10: a config generated for a machine deployment and a profile is current for those of another time when, and only when, the revision and the profile version are still the same and the annotations are too, or are written out as another document with the same SHA-256; otherwise it is rotated *)
Theorem rotation_detects_changes md osp mdhash osc md' osp' :
  rotation_keys -> calculateAnnotationsHash (MD_Annotations md) = Ok mdhash ->
  valid_map (default ∅ (MD_Annotations md)) -> valid_map (default ∅ (MD_Annotations md')) ->
  let collision := json_map (MD_Annotations md') <> json_map (MD_Annotations md) /\
                   Sum256 (json_map (MD_Annotations md')) = Sum256 (json_map (MD_Annotations md)) in
  up_to_date md' osp' (annotated_osc md osp mdhash osc) <->
  revision_of md' = revision_of md /\ OSP_Version (OSP_Spec osp') = OSP_Version (OSP_Spec osp) /\
  (MD_Annotations md' = MD_Annotations md \/ collision).
Proof.
  intros Hkeys Hh Hv Hv'. cbn zeta. rewrite up_to_date_annotated by done. unfold calculateAnnotationsHash. split.
  - intros (Hr & Hosp & [= Hhash]). split_and!; [done..|].
    assert (Sum256 (json_map (MD_Annotations md')) = Sum256 (json_map (MD_Annotations md))) as Hsum
      by (by apply (inj hex_EncodeToString)).
    destruct (decide (json_map (MD_Annotations md') = json_map (MD_Annotations md))) as [Hj|Hne]; [left|by right].
    by apply json_map_inj.
  - intros (Hr & Hosp & [->|[_ Hsum]]); [done|]. split_and!; [done..|]. by rewrite Hsum.
Qed.
End RotationProps.

(** ** The checks *)

Section CheckProps.
Context `{OSCLibs}.

(** a machine deployment is accepted exactly when its provider specification decodes, the profile is for its operating system and lists its cloud provider; an error is reported as a warning event on the machine deployment, and nothing else is called *)
Theorem checkOSP_spec md osp t res :
  run (checkOSP md osp) t res ->
  (res = Ok tt <-> exists raw pc, provider_raw md = Ok raw /\ json_Unmarshal raw = Ok pc /\
     OSP_OSName (OSP_Spec osp) = PC_OperatingSystem pc /\
     exists cp, cp ∈ SupportedCloudProviders (OSP_Spec osp) /\ CloudProviderSpec_Name cp = PC_CloudProvider pc) /\
  match res with
  | Err e => t = [Obs (RecordEvent (key_of (MD_Meta md)) "Warning" "OperatingSystemProfileError" e) tt]
  | _ => t = []
  end.
Proof.
  assert (validateMachineDeployment md osp = Ok tt <-> exists raw pc, provider_raw md = Ok raw /\
     json_Unmarshal raw = Ok pc /\ OSP_OSName (OSP_Spec osp) = PC_OperatingSystem pc /\
     exists cp, cp ∈ SupportedCloudProviders (OSP_Spec osp) /\ CloudProviderSpec_Name cp = PC_CloudProvider pc) as Hv.
  { unfold validateMachineDeployment. rewrite bindR_Ok. setoid_rewrite bindR_Ok. setoid_rewrite wrapR_Ok. split.
    - intros (raw & Hraw & pc & Hpc & Hok). exists raw, pc. split_and!; [done..| |].
      + destruct (decide _) as [|Hos]; [done|]. by destruct (decide (OSP_OSName (OSP_Spec osp) = PC_OperatingSystem pc)).
      + destruct (decide _); [done|]. destruct (existsb _ _) eqn:Hex; [|done].
        apply existsb_exists in Hex as (cp & Hin & Hcp%bool_decide_eq_true). exists cp.
        by rewrite list_elem_of_In.
    - intros (raw & pc & Hraw & Hpc & Hos & cp & Hin & Hcp). exists raw. split; [done|]. exists pc. split; [done|].
      rewrite decide_False by auto. replace (existsb _ _) with true; [done|].
      symmetry. apply existsb_exists. exists cp. rewrite <- list_elem_of_In, bool_decide_eq_true. done. }
  unfold checkOSP. rewrite <- Hv. destruct (validateMachineDeployment md osp) as [[]|e|w].
  - by intros [-> ->].
  - intros Hrun. run_step Hrun. destruct x. cbn [bind] in Hrun. by destruct Hrun as [-> ->].
  - by intros [-> ->].
Qed.
End CheckProps.

(** ** Convergence *)

Section Convergence.
Context `{OSCLibs} {S : Type} `{ApiServerLaws Credentials S}.
Variable r : Reconciler.
Variable md : MachineDeployment.
Variable osp : OperatingSystemProfile.

Definition stored_osc (s : S) : option OperatingSystemConfig :=
  stored s (cluster_of ControlClient) KOperatingSystemConfig (osc_key r md).
Definition stored_secret (s : S) (name : string) : option Secret :=
  stored s (cluster_of WorkerClient) KSecret (settings_key name).

Definition writes_secrets (w : write) : Prop := ref_kind (write_ref w) = KSecret.

(** A program that writes only secrets leaves the config alone. *)
Lemma stored_osc_frame {A} (m : prog (ApiE Credentials) A) s :
  all_calls (only_writes writes_secrets) m -> stored_osc (interp handle m s).2 = stored_osc s.
Proof.
  intros Hm.
  refine (interp_stored writes_secrets (cluster_of ControlClient) KOperatingSystemConfig (osc_key r md) m s Hm _).
  intros w Hw (_ & Hk & _).
  unfold writes_secrets in Hw. congruence.
Qed.

Lemma stored_osc_step X (e : ApiE Credentials X) s x s' :
  only_writes writes_secrets X e -> handle _ e s = (x, s') -> stored_osc s' = stored_osc s.
Proof.
  intros He Hh. pose proof (stored_osc_frame (trigger e) s) as Hf. rewrite interp_trigger, Hh in Hf.
  apply Hf. by split.
Qed.

Lemma CreateBootstrapKubeconfig_secrets name :
  all_calls (only_writes writes_secrets) (CreateBootstrapKubeconfig (R := Credentials) (bootstrap r) name).
Proof.
  apply CreateBootstrapKubeconfig_kind.
Qed.

Lemma deleteGeneratedSecrets_secrets : all_calls (only_writes writes_secrets) (deleteGeneratedSecrets md).
Proof. unfold deleteGeneratedSecrets, delete_if_found. repeat calls_step; done. Qed.

Lemma deleteGeneratedSecrets_frame s a s1 :
  interp handle (deleteGeneratedSecrets md) s = (a, s1) -> stored_osc s1 = stored_osc s.
Proof. intros Hi. rewrite <- (stored_osc_frame _ s deleteGeneratedSecrets_secrets). by rewrite Hi. Qed.

Lemma rotation_post s s1 :
  (forall o, stored_osc s = Some o -> key_of (OSC_Meta o) = osc_key r md /\ Finalizers (OSC_Meta o) = []) ->
  interp handle (handleOSCAndSecretsRotation r md osp) s = (Ok tt, s1) ->
  forall osc, stored_osc s1 = Some osc -> up_to_date md osp osc.
Proof.
  intros Hs. unfold handleOSCAndSecretsRotation. rewrite interp_bind_trigger.
  destruct (handle _ _ s) as [got s0] eqn:Hget. cbn [fst snd].
  assert (stored_osc s0 = stored_osc s) as Hs0 by (eapply stored_osc_step; [|exact Hget]; done).
  destruct got as [o|e|w]; [| |done].
  - pose proof (Get_ok s ControlClient KOperatingSystemConfig (osc_key r md) o s0 Hget) as Ho.
    destruct (Hs o Ho) as [Hkey Hfin]. unfold pureIO, calculateAnnotationsHash.
    cbn [bindIO bind]. destruct (rotation_not_required _ _ _ _) eqn:Hrot.
    + intros [= <-] osc. rewrite Hs0. unfold stored_osc. rewrite Ho. intros [= <-].
      by eapply rotation_not_required_spec.
    + intros Hi osc Hosc. exfalso.
      change (interp handle (do! _ <- wrapIO "failed to delete OperatingSystemConfig %s: %v against MachineDeployment %w"
          [osc_name md; MD_Name md] (trigger (Delete ControlClient KOperatingSystemConfig (key_of (OSC_Meta o))));
          deleteGeneratedSecrets md) s0 = (Ok tt, s1)) in Hi.
      apply interp_bindIO_Ok in Hi as ([] & s2 & Hdel & Hi). apply interp_wrapIO_Ok in Hdel.
      rewrite interp_trigger, Hkey in Hdel. unfold stored_osc in Hs0.
      assert (forall o', stored_osc s0 = Some o' -> Finalizers (OSC_Meta o') = []) as Hfin'
        by (intros o' Ho'; unfold stored_osc in *; congruence).
      pose proof (Delete_ok s0 ControlClient KOperatingSystemConfig (osc_key r md) s2 Hdel Hfin') as Hnone.
      apply deleteGeneratedSecrets_frame in Hi. unfold stored_osc in *. congruence.
  - destruct (IsNotFound e) eqn:He; [|done]. intros [= <-] osc. rewrite Hs0.
    unfold stored_osc. by rewrite (Get_err s ControlClient KOperatingSystemConfig (osc_key r md) e s0 Hget He).
Qed.

(** The config was generated for the machine deployment from this profile. *)
Definition made_from (osc : OperatingSystemConfig) : Prop :=
  exists kc kcName token creds generated mdhash,
    GenerateOperatingSystemConfig md osp kc kcName token (osc_name md) (flags r)
      (with_credentials creds (containerRuntimeConfig r)) = Ok generated /\
    calculateAnnotationsHash (MD_Annotations md) = Ok mdhash /\ osc = annotated_osc md osp mdhash generated.

Lemma made_from_up_to_date osc : rotation_keys -> made_from osc -> up_to_date md osp osc.
Proof. intros Hkeys (? & ? & ? & ? & ? & mdhash & _ & Hh & ->). by apply up_to_date_annotated. Qed.

Lemma create_osc_post kc kcName s s1 :
  interp handle (create_osc r md osp kc kcName) s = (Ok tt, s1) ->
  exists osc, made_from osc /\ stored_osc s1 = Some osc.
Proof.
  unfold create_osc.
  rewrite interp_bindIO_Ok. intros (provisioner & s2 & _ & Hi). destruct (_ && _); [done|].
  apply interp_bindIO_Ok in Hi as ([] & s3 & _ & Hi).
  apply interp_bindIO_Ok in Hi as (token & s4 & _ & Hi).
  rewrite interp_bind_trigger in Hi.
  apply interp_bindIO_Ok in Hi as (osc & s5 & Hgen & Hi).
  apply interp_wrapIO_Ok in Hgen. cbn [pureIO interp] in Hgen. injection Hgen as Hgen _.
  pose proof (GenerateOperatingSystemConfig_meta _ _ _ _ _ _ _ _ _ Hgen) as Hosc.
  apply interp_bindIO_Ok in Hi as ([] & s6 & _ & Hi).
  apply interp_bindIO_Ok in Hi as (mdhash & s7 & Hh & Hi). cbn [pureIO interp] in Hh. injection Hh as Hh _.
  apply interp_wrapIO_Ok in Hi. rewrite interp_trigger in Hi.
  exists (annotated_osc md osp mdhash osc). split; [|].
  { eexists kc, kcName, token, _, osc, mdhash. split; [exact Hgen|]. by rewrite <- Hh. }
  destruct (Create_ok s7 ControlClient KOperatingSystemConfig (annotated_osc md osp mdhash osc) s1 ltac:(done) Hi) as [_ Hst].
  cbn [meta_of annotated_osc OSC_Meta] in Hst. rewrite Hosc in Hst. exact Hst.
Qed.

Lemma reconcileOperatingSystemConfigs_post s s1 :
  rotation_keys -> (forall osc, stored_osc s = Some osc -> up_to_date md osp osc) ->
  interp handle (reconcileOperatingSystemConfigs r md osp) s = (Ok tt, s1) ->
  exists osc, stored_osc s1 = Some osc /\ up_to_date md osp osc.
Proof.
  intros Hkeys Hs. unfold reconcileOperatingSystemConfigs. rewrite interp_bindIO_Ok.
  intros ([kc kcName] & s2 & Hboot & Hi). apply interp_wrapIO_Ok in Hboot.
  pose proof (stored_osc_frame _ s (CreateBootstrapKubeconfig_secrets (machineDeploymentKey md))) as Hs2.
  rewrite Hboot in Hs2. cbn [snd] in Hs2.
  rewrite interp_bind_trigger in Hi. destruct (handle _ _ s2) as [got s3] eqn:Hget. cbn [fst snd] in Hi.
  assert (stored_osc s3 = stored_osc s2) as Hs3 by (eapply stored_osc_step; [|exact Hget]; done).
  destruct got as [o|e|w]; [| |done].
  - cbn [interp] in Hi. injection Hi as <-. exists o.
    pose proof (Get_ok s2 ControlClient KOperatingSystemConfig (osc_key r md) o s3 Hget) as Ho.
    change (stored_osc s2 = Some o) in Ho. split; [by rewrite Hs3|]. apply Hs. by rewrite <- Hs2.
  - apply create_osc_post in Hi as (osc & Hmade & Hst). exists osc. split; [done|].
    by apply made_from_up_to_date.
Qed.

Lemma ensureCloudConfigSecret_post config utility secretType os cp ospVersion s s1 name :
  interp handle (ensureCloudConfigSecret config utility secretType os cp md ospVersion) s = (Ok tt, s1) ->
  stored_osc s1 = stored_osc s /\
  is_Some (stored_secret s1 (cloud_config_name md secretType)) /\
  (is_Some (stored_secret s name) -> is_Some (stored_secret s1 name)).
Proof.
  intros Hi.
  assert (stored_osc s1 = stored_osc s) as Hosc.
  { assert (all_calls (only_writes writes_secrets) (ensureCloudConfigSecret config utility secretType os cp md ospVersion))
      as Hc by (unfold ensureCloudConfigSecret; repeat calls_step; done).
    pose proof (stored_osc_frame _ s Hc) as Hf. by rewrite Hi in Hf. }
  split; [exact Hosc|]. clear Hosc. revert Hi. unfold ensureCloudConfigSecret. rewrite interp_bind_trigger.
  destruct (handle _ _ s) as [got s2] eqn:Hget. cbn [fst snd].
  assert (forall n, stored_secret s2 n = stored_secret s n) as Hs2.
  { intros n. refine (handle_stored _ (Get WorkerClient KSecret (settings_key (cloud_config_name md secretType)))
      s got s2 (cluster_of WorkerClient) KSecret (settings_key n) Hget _). done. }
  destruct got as [o|e|w]; [| |done].
  - intros [= <-]. rewrite !Hs2.
    pose proof (Get_ok s WorkerClient KSecret (settings_key (cloud_config_name md secretType)) o s2 Hget) as Ho.
    change (stored_secret s (cloud_config_name md secretType) = Some o) in Ho. rewrite Ho. by split; [eexists|].
  - rewrite interp_bindIO_Ok. intros (data & s3 & Hg & Hi). apply interp_wrapIO_Ok in Hg.
    cbn [pureIO interp] in Hg. injection Hg as _ <-.
    apply interp_bindIO_Ok in Hi as (mdhash & s4 & Hh & Hi). cbn [pureIO interp] in Hh. injection Hh as _ <-.
    apply interp_wrapIO_Ok in Hi. rewrite interp_trigger in Hi.
    set (o := cloud_config_secret _ _ _ _ _) in Hi.
    destruct (Create_ok s2 WorkerClient KSecret o s1 ltac:(done) Hi) as [_ Hst].
    change (stored_secret s1 (cloud_config_name md secretType) = Some o) in Hst.
    split; [by eexists|]. destruct (decide (name = cloud_config_name md secretType)) as [->|Hne]; [by eexists|].
    intros Hname. rewrite <- Hs2 in Hname.
    assert (stored_secret s1 name = stored_secret s2 name) as ->; [|done].
    refine (handle_stored _ (Create WorkerClient KSecret o) s2 _ s1 (cluster_of WorkerClient) KSecret
      (settings_key name) Hi _).
    intros w [= <-] (_ & _ & Hk). cbn in Hk. injection Hk as Hk. by subst.
Qed.

(** The config is current and both cloud configs exist. *)
Definition converged (s : S) : Prop :=
  (exists osc, stored_osc s = Some osc /\ up_to_date md osp osc) /\
  is_Some (stored_secret s (cloud_config_name md ProvisioningCloudConfig)) /\
  is_Some (stored_secret s (cloud_config_name md BootstrapCloudConfig)).

Lemma reconcileSecrets_post s s1 :
  (exists osc, stored_osc s = Some osc /\ up_to_date md osp osc) ->
  interp handle (reconcileSecrets r md osp) s = (Ok tt, s1) -> converged s1.
Proof.
  intros Hosc. unfold reconcileSecrets. rewrite interp_bindIO_Ok. intros (osc & s2 & Hget & Hi).
  apply interp_wrapIO_Ok in Hget. rewrite interp_trigger in Hget.
  assert (stored_osc s2 = stored_osc s) as Hs2 by (eapply stored_osc_step; [|exact Hget]; done).
  apply interp_bindIO_Ok in Hi as ([] & s3 & Hp & Hi). apply interp_wrapIO_Ok in Hp.
  apply interp_bindIO_Ok in Hi as ([] & s4 & Hb & Hi). apply interp_wrapIO_Ok in Hb.
  cbn [interp] in Hi. injection Hi as <-.
  apply (ensureCloudConfigSecret_post _ _ _ _ _ _ _ _ (cloud_config_name md ProvisioningCloudConfig))
    in Hp as (Hp1 & Hp2 & _).
  apply (ensureCloudConfigSecret_post _ _ _ _ _ _ _ _ (cloud_config_name md ProvisioningCloudConfig))
    in Hb as (Hb1 & Hb2 & Hb3).
  split; [|split; [by apply Hb3|done]]. by rewrite Hb1, Hp1, Hs2.
Qed.
End Convergence.

Section ConvergenceProps.
Context `{OSCLibs} {S : Type} `{ApiServerLaws Credentials S}.
Variable r : Reconciler.
Variable md : MachineDeployment.

(** The profile a machine deployment names. *)
Definition profile_key : NamespacedName :=
  let ns := map_get (MD_Annotations md) MachineDeploymentOSPNamespaceAnnotation in
  {| NN_Namespace := if decide (ns = "") then fl_namespace (flags r) else ns;
     NN_Name := map_get (MD_Annotations md) MachineDeploymentOSPAnnotation |}.

Lemma fetchOSP_post (s : S) osp s1 :
  interp handle (fetchOSP r md) s = (Ok osp, s1) ->
  stored s (cluster_of ControlClient) KOperatingSystemProfile profile_key = Some osp /\
  stored_osc r md s1 = stored_osc r md s.
Proof.
  unfold fetchOSP. rewrite interp_bind_trigger. fold profile_key.
  destruct (handle _ _ s) as [got s2] eqn:Hget. cbn [fst snd].
  destruct got as [o|e|w]; cbn [interp]; [|by destruct (IsNotFound e)|done].
  intros [= <- <-]. split.
  - exact (Get_ok s ControlClient KOperatingSystemProfile profile_key o s2 Hget).
  - eapply stored_osc_step; [|exact Hget]. done.
Qed.

(** What a reconciliation that succeeds has achieved. *)
Lemma reconcile_post (s s' : S) :
  rotation_keys ->
  (forall o, stored_osc r md s = Some o -> key_of (OSC_Meta o) = osc_key r md /\ Finalizers (OSC_Meta o) = []) ->
  interp handle (reconcile r md) s = (Ok tt, s') ->
  exists osp, stored s (cluster_of ControlClient) KOperatingSystemProfile profile_key = Some osp /\
    converged r md osp s'.
Proof.
  intros Hkeys Hs. unfold reconcile. rewrite interp_bindIO_Ok. intros (osp & s1 & Hosp & Hi).
  apply interp_wrapIO_Ok, fetchOSP_post in Hosp as [Hosp Hs1]. exists osp. split; [done|].
  apply interp_bindIO_Ok in Hi as ([] & s2 & Hcheck & Hi). apply interp_wrapIO_Ok in Hcheck.
  assert (stored_osc r md s2 = stored_osc r md s1) as Hs2.
  { assert (all_calls (only_writes writes_secrets) (checkOSP md osp)) as Hc
      by (unfold checkOSP; repeat calls_step; done).
    pose proof (stored_osc_frame r md _ s1 Hc) as Hf. by rewrite Hcheck in Hf. }
  apply interp_bindIO_Ok in Hi as ([] & s3 & Hrot & Hi). apply interp_wrapIO_Ok in Hrot.
  apply interp_bindIO_Ok in Hi as ([] & s4 & Hosc & Hi). apply interp_wrapIO_Ok in Hosc.
  apply interp_bindIO_Ok in Hi as ([] & s5 & Hsec & Hi). apply interp_wrapIO_Ok in Hsec.
  cbn [interp] in Hi. injection Hi as <-.
  apply (reconcileSecrets_post r md osp s4 s5); [|done].
  apply (reconcileOperatingSystemConfigs_post r md osp s3 s4); [done| |done].
  apply (rotation_post r md osp s2 s3); [|done]. by rewrite Hs2, Hs1.
Qed.

(** against a server whose reads are not stale, a reconciliation that returns without an error leaves a config that is current for the machine deployment and its profile, and both cloud-config secrets, whatever was there before *)
Theorem reconcile_converges (s s' : S) :
  rotation_keys ->
  (forall o, stored_osc r md s = Some o -> key_of (OSC_Meta o) = osc_key r md /\ Finalizers (OSC_Meta o) = []) ->
  interp handle (reconcile r md) s = (Ok tt, s') ->
  exists osp, stored s (cluster_of ControlClient) KOperatingSystemProfile profile_key = Some osp /\
    converged r md osp s'.
Proof. apply reconcile_post. Qed.
End ConvergenceProps.

(** ** Quiescence *)

Section Quiescence.
Context `{OSCLibs}.
Variable r : Reconciler.
Variable md : MachineDeployment.
Variable osp : OperatingSystemProfile.

(** The answers of servers that hold the profile, a current config and both
    cloud-config secrets. *)
Definition settled (X : Type) (e : ApiE Credentials X) : X -> Prop :=
  match e in ApiE _ X return X -> Prop with
  | Get c k n =>
      match c, k return result (obj k) -> Prop with
      | ControlClient, KOperatingSystemProfile => fun a => n = profile_key r md -> a = Ok osp
      | ControlClient, KOperatingSystemConfig => fun a =>
          n = osc_key r md -> exists osc, a = Ok osc /\ up_to_date md osp osc
      | WorkerClient, KSecret => fun a =>
          n ∈ [settings_key (cloud_config_name md ProvisioningCloudConfig);
               settings_key (cloud_config_name md BootstrapCloudConfig)] -> exists secret, a = Ok secret
      | _, _ => fun _ => True
      end
  | _ => fun _ => True
  end.

Definition settled_obs (o : obs (ApiE Credentials)) : Prop := match o with Obs e x => settled _ e x end.

(** The same as a test. *)
Definition settled_check (o : obs (ApiE Credentials)) : bool :=
  match o with
  | @Obs _ X e x =>
      match e in ApiE _ X return X -> bool with
      | Get c k n =>
          match c, k return result (obj k) -> bool with
          | ControlClient, KOperatingSystemProfile => fun a =>
              negb (bool_decide (n = profile_key r md)) ||
              match a with Ok o => bool_decide (o = osp) | _ => false end
          | ControlClient, KOperatingSystemConfig => fun a =>
              negb (bool_decide (n = osc_key r md)) ||
              match a, calculateAnnotationsHash (MD_Annotations md) with
              | Ok osc, Ok mdhash => rotation_not_required md osp osc mdhash
              | _, _ => false
              end
          | WorkerClient, KSecret => fun a =>
              negb (bool_decide (n ∈ [settings_key (cloud_config_name md ProvisioningCloudConfig);
                                      settings_key (cloud_config_name md BootstrapCloudConfig)])) || is_ok a
          | _, _ => fun _ => true
          end
      | _ => fun _ => true
      end x
  end.

Lemma settled_check_sound o : settled_check o = true -> settled_obs o.
Proof.
  destruct o as [X e x], e as [c k n| | | | | | | | | |]; try done. destruct c, k; try done; cbn [settled_check settled_obs settled].
  - intros Hc ->. rewrite bool_decide_eq_true_2 in Hc by done. destruct x as [o|e|w]; [|done..].
    by apply bool_decide_eq_true in Hc as ->.
  - intros Hc ->. rewrite bool_decide_eq_true_2 in Hc by done. destruct x as [osc|e|w]; [|done..].
    exists osc. split; [done|]. by eapply rotation_not_required_spec.
  - intros Hc Hn. rewrite bool_decide_eq_true_2 in Hc by done. destruct x as [s|e|w]; [by exists s|done..].
Qed.

Lemma ensureCloudConfigSecret_settled P config utility secretType os cp v :
  secretType ∈ [ProvisioningCloudConfig; BootstrapCloudConfig] ->
  calls_when settled (only_writes P) (ensureCloudConfigSecret config utility secretType os cp md v).
Proof.
  intros Hs. unfold ensureCloudConfigSecret. split; [exact I|]. intros got Hgot. cbn [settled] in Hgot.
  destruct Hgot as (secret & ->); [|exact I]. apply list_elem_of_In in Hs as [<-|[<-|[]]]; set_solver.
Qed.

Lemma rotation_settled P : calls_when settled (only_writes P) (handleOSCAndSecretsRotation r md osp).
Proof.
  unfold handleOSCAndSecretsRotation. split; [exact I|]. intros got Hgot. cbn [settled] in Hgot.
  destruct (Hgot eq_refl) as (osc & -> & Hosc). unfold pureIO, calculateAnnotationsHash. cbn [bindIO bind].
  rewrite (proj2 (rotation_not_required_spec md osp osc _ eq_refl) Hosc). exact I.
Qed.

Lemma reconcileOperatingSystemConfigs_settled :
  calls_when (fun X e x => settled X e x /\ honest X e x)
    (only_writes (bootstrap_write (bootstrap r) (machineDeploymentKey md)))
    (reconcileOperatingSystemConfigs r md osp).
Proof.
  unfold reconcileOperatingSystemConfigs. apply calls_when_bindIO.
  - apply calls_when_wrapIO. eapply calls_when_weaken; [..|apply CreateBootstrapKubeconfig_writes]; naive_solver.
  - intros [kc kcName]. split; [exact I|]. intros got [Hgot _]. cbn [settled] in Hgot.
    by destruct (Hgot eq_refl) as (osc & -> & _).
Qed.

Lemma reconcile_settled :
  calls_when (fun X e x => settled X e x /\ honest X e x)
  (only_writes (bootstrap_write (bootstrap r) (machineDeploymentKey md))) (reconcile r md).
Proof.
  unfold reconcile, fetchOSP. split; [exact I|]. intros got [Hgot _]. cbn [settled] in Hgot.
  rewrite (Hgot eq_refl). clear got Hgot.
  cbn [bind wrapR].
  apply calls_when_bindIO; [unfold checkOSP; repeat calls_when_step; exact I|]. intros _.
  apply calls_when_bindIO; [apply calls_when_wrapIO;
    eapply calls_when_weaken; [..|apply rotation_settled]; by try intros ??? []|]. intros _.
  apply calls_when_bindIO; [apply calls_when_wrapIO, reconcileOperatingSystemConfigs_settled|]. intros _.
  apply calls_when_bindIO; [|exact (fun _ => I)]. apply calls_when_wrapIO. unfold reconcileSecrets.
  repeat first
    [ match goal with |- calls_when _ _ (ensureCloudConfigSecret _ _ _ _ _ _ _) =>
        eapply calls_when_weaken; [..|apply ensureCloudConfigSecret_settled]; [by intros ??? []|done|set_solver] end
    | calls_when_step]; exact I.
Qed.

(** once the config is current and both cloud configs exist, a reconciliation writes at most the bootstrap credentials: it neither creates, updates nor deletes a config, a cloud-config secret, a machine deployment or a profile *)
Theorem reconcile_quiescent t res :
  run (reconcile r md) t res -> Forall settled_obs t -> Forall honest_obs t ->
  Forall (fun o => forall w, obs_writes o = Some w ->
    bootstrap_write (bootstrap r) (machineDeploymentKey md) w) t.
Proof.
  intros Hrun Hsettled Hhonest. set (Q := fun X (e : ApiE Credentials X) x => settled X e x /\ honest X e x).
  assert (Forall (fun o => match o with Obs e x => Q _ e x end) t) as HQ.
  { rewrite Forall_forall in Hsettled, Hhonest |- *. intros [X e x] Hin.
    exact (conj (Hsettled _ Hin) (Hhonest _ Hin)). }
  eapply Forall_impl; [exact (calls_when_run _ _ _ _ _ reconcile_settled Hrun HQ)|].
  intros [X e x] Ho w Hw. cbn in Hw. unfold only_writes in Ho. by rewrite Hw in Ho.
Qed.
End Quiescence.

(** ** What is created *)

Section CreationProps.
Context `{OSCLibs}.
Variable r : Reconciler.

(** C12: a config is created, as the last call, only when the provisioning utility of the machine deployment is the one its profile asks for; it is the generated one, from the token of the cloud-init secret, the bootstrap kubeconfig and the registry credentials the reconciler holds, it never lacks a provisioning utility and is annotated with the revision, the profile version and the annotation hash it was made from *)
Theorem create_osc_spec md osp kc kcName t :
  run (create_osc r md osp kc kcName) t (Ok tt) ->
  exists token secret creds osc mdhash t',
    let created := annotated_osc md osp mdhash osc in
    let utility := OSP_ProvisioningUtility (OSP_Spec osp) in
    t = t' ++ [Obs (Create ControlClient KOperatingSystemConfig created) (Ok tt)] /\
    (utility = "" \/ GetProvisioningUtility (OSP_OSName (OSP_Spec osp)) md = Ok utility) /\
    Obs (Get WorkerClient KSecret {| NN_Namespace := CloudInitNamespace; NN_Name := cloudInitGetterSecret |})
      (Ok secret) ∈ t' /\ Secret_Data secret !! "token" = Some token /\
    Obs LoadField creds ∈ t' /\
    GenerateOperatingSystemConfig md osp kc kcName token (osc_name md) (flags r)
      (with_credentials creds (containerRuntimeConfig r)) = Ok osc /\
    calculateAnnotationsHash (MD_Annotations md) = Ok mdhash /\
    key_of (OSC_Meta created) = osc_key r md /\
    OSC_ProvisioningUtility (OSC_Spec created) = (if decide (utility = "") then ProvisioningUtilityCloudInit else utility).
Proof.
  unfold create_osc. rewrite run_bindIO_Ok. setoid_rewrite run_wrapIO_Ok. setoid_rewrite run_pureIO.
  intros (t1 & t2 & provisioner & -> & [-> Hu] & Hrun).
  destruct (negb _ && negb _) eqn:Hutil; [by destruct Hrun|].
  apply run_bindIO_Ok in Hrun as (t3 & t4 & [] & -> & _ & Hrun).
  apply run_bindIO_Ok in Hrun as (t5 & t6 & token & -> & Ht & Hrun).
  apply run_wrapIO_Ok in Ht. unfold ExtractAPIServerToken in Ht.
  apply run_bindIO_Ok in Ht as (t7 & t8 & secret & -> & Hs & [-> Ht]%run_pureIO).
  apply run_wrapIO_Ok, run_trigger in Hs as ->.
  apply run_bind in Hrun as (t9 & t10 & creds & -> & Hl%run_trigger & Hrun). subst t9.
  apply run_bindIO_Ok in Hrun as (t11 & t12 & osc & -> & [-> Ho]%run_wrapIO_Ok & Hrun).
  apply run_bindIO_Ok in Hrun as (t13 & t14 & [] & -> & _ & Hrun).
  apply run_bindIO_Ok in Hrun as (t15 & t16 & mdhash & -> & [-> Hh]%run_pureIO & Hrun).
  apply run_wrapIO_Ok, run_trigger in Hrun as ->.
  exists token, secret, creds, osc, mdhash, (t3 ++ [Obs (Get WorkerClient KSecret
    {| NN_Namespace := CloudInitNamespace; NN_Name := cloudInitGetterSecret |}) (Ok secret)] ++ [Obs LoadField creds] ++ t13).
  cbn zeta. split_and!.
  - by rewrite <- !app_assoc.
  - apply andb_false_iff in Hutil as [Hf|Hf]; apply negb_false_iff, bool_decide_eq_true in Hf; [by left|right].
    by rewrite Hu, Hf.
  - set_solver.
  - by destruct (Secret_Data secret !! "token"); simplify_eq.
  - set_solver.
  - done.
  - done.
  - symmetry in Ho. apply GenerateOperatingSystemConfig_meta in Ho. cbn. by rewrite Ho.
  - done.
Qed.

(** The calls that make sure of one secret. *)
Inductive secret_calls (md : MachineDeployment) (config : OSCConfig) (provisioningUtility : ProvisioningUtility)
    (secretType : string) (os : OperatingSystem) (cp : CloudProvider) (ospVersion : string) :
    list (obs (ApiE Credentials)) -> Prop :=
| secret_exists secret :
    secret_calls md config provisioningUtility secretType os cp ospVersion
      [Obs (Get WorkerClient KSecret (settings_key (cloud_config_name md secretType))) (Ok secret)]
| secret_created e data secret :
    Generate config provisioningUtility os cp md secretType = Ok data ->
    Secret_Data secret = {[ "cloud-config" := data ]} -> Secret_Immutable secret = Some true ->
    key_of (Secret_Meta secret) = settings_key (cloud_config_name md secretType) ->
    secret_calls md config provisioningUtility secretType os cp ospVersion
      [Obs (Get WorkerClient KSecret (settings_key (cloud_config_name md secretType))) (Err e);
       Obs (Create WorkerClient KSecret secret) (Ok tt)].

(** C13: a cloud-config secret that exists is left alone; one that does not is created once, immutable, under the name the deletion uses, with the user data that the generator makes of the config *)
Theorem ensureCloudConfigSecret_spec md config provisioningUtility secretType os cp ospVersion t :
  run (ensureCloudConfigSecret config provisioningUtility secretType os cp md ospVersion) t (Ok tt) ->
  secret_calls md config provisioningUtility secretType os cp ospVersion t.
Proof.
  unfold ensureCloudConfigSecret. intros Hrun. run_step Hrun. cbn [bind] in Hrun. destruct x as [secret|e|w].
  - destruct Hrun as [-> _]. constructor.
  - destruct (Generate _ _ _ _ _ _) as [data|e'|w] eqn:Hg.
    + unfold pureIO, calculateAnnotationsHash in Hrun. cbn [bindIO wrapIO bind wrapR] in Hrun.
      run_step Hrun. destruct x as [[]|e'|w]; cbn [wrapR] in Hrun; [|by destruct Hrun..]. destruct Hrun as [-> _].
      by eapply secret_created.
    + by destruct Hrun.
    + by destruct Hrun.
  - by destruct Hrun.
Qed.

(** Secrets that exist are kept, however old they are. *)
Section KeptSecrets.
Context {S : Type} `{ApiServerLaws Credentials S}.

Lemma ensureCloudConfigSecret_keeps md config utility secretType os cp v (s s' : S) name secret :
  stored_secret s name = Some secret ->
  interp handle (ensureCloudConfigSecret config utility secretType os cp md v) s = (Ok tt, s') ->
  stored_secret s' name = Some secret.
Proof.
  intros Hs. unfold ensureCloudConfigSecret. rewrite interp_bind_trigger.
  destruct (handle _ _ s) as [got s2] eqn:Hget. cbn [fst snd].
  assert (stored_secret s2 name = Some secret) as Hs2.
  { rewrite <- Hs. refine (handle_stored _ (Get WorkerClient KSecret (settings_key (cloud_config_name md secretType)))
      s got s2 (cluster_of WorkerClient) KSecret (settings_key name) Hget _). done. }
  destruct got as [o|e|w]; [by intros [= <-]| |done].
  rewrite interp_bindIO_Ok. intros (data & s3 & Hg & Hi). apply interp_wrapIO_Ok in Hg.
  cbn [pureIO interp] in Hg. injection Hg as _ <-.
  apply interp_bindIO_Ok in Hi as (mdhash & s4 & Hh & Hi). cbn [pureIO interp] in Hh. injection Hh as _ <-.
  apply interp_wrapIO_Ok in Hi. rewrite interp_trigger in Hi. set (o := cloud_config_secret _ _ _ _ _) in Hi.
  destruct (Create_ok s2 WorkerClient KSecret o s' ltac:(done) Hi) as [Hnone _].
  rewrite <- Hs2. refine (handle_stored _ (Create WorkerClient KSecret o) s2 _ s' (cluster_of WorkerClient) KSecret
    (settings_key name) Hi _).
  intros w [= <-] (_ & _ & Hk). cbn in Hk. injection Hk as Hk. subst name.
  change (stored_secret s2 (cloud_config_name md secretType) = None) in Hnone. congruence.
Qed.

(** a cloud-config secret that is already there is kept as it is by a reconciliation of the secrets, whatever revision, profile version and annotation hash it was made from: after a rotation that deleted the config but not its secrets, the new config is served by the old secrets *)
Theorem reconcileSecrets_keeps_existing md osp (s s' : S) name secret :
  stored_secret s name = Some secret -> interp handle (reconcileSecrets r md osp) s = (Ok tt, s') ->
  stored_secret s' name = Some secret.
Proof.
  intros Hs. unfold reconcileSecrets. rewrite interp_bindIO_Ok. intros (osc & s2 & Hget & Hi).
  apply interp_wrapIO_Ok in Hget. rewrite interp_trigger in Hget.
  assert (stored_secret s2 name = Some secret) as Hs2.
  { rewrite <- Hs. refine (handle_stored _ (Get ControlClient KOperatingSystemConfig (osc_key r md))
      s _ s2 (cluster_of WorkerClient) KSecret (settings_key name) Hget _). done. }
  apply interp_bindIO_Ok in Hi as ([] & s3 & Hp & Hi). apply interp_wrapIO_Ok in Hp.
  apply interp_bindIO_Ok in Hi as ([] & s4 & Hb & Hi). apply interp_wrapIO_Ok in Hb.
  cbn [interp] in Hi. injection Hi as <-.
  eapply ensureCloudConfigSecret_keeps; [|exact Hb]. by eapply ensureCloudConfigSecret_keeps; [|exact Hp].
Qed.
End KeptSecrets.

(** The edge script is read and then created even when it was found. *)
Section EdgeScript.
Context {S : Type} `{ApiServerLaws Credentials S}.

Lemma generateEdgeScript_fails md token kc (s s' : S) secret :
  stored s (cluster_of WorkerClient) KSecret (ref_key (script_ref md)) = Some secret ->
  interp handle (generateEdgeScript md token kc) s <> (Ok tt, s').
Proof.
  intros Hs Hi. unfold generateEdgeScript in Hi. apply interp_bindIO_Ok in Hi as (url & s1 & Hurl & Hi).
  cbn [pureIO interp] in Hurl. injection Hurl as _ <-. rewrite interp_bind_trigger in Hi.
  destruct (handle _ _ s) as [got s2] eqn:Hget. cbn [fst snd] in Hi.
  apply interp_bindIO_Ok in Hi as (sec & s3 & Hsec & Hi). cbn [pureIO interp] in Hsec. injection Hsec as _ <-.
  rewrite interp_trigger in Hi.
  destruct (Create_ok s2 WorkerClient KSecret _ s' ltac:(done) Hi) as [Hnone _].
  assert (stored s2 (cluster_of WorkerClient) KSecret (ref_key (script_ref md)) = Some secret) as Hs2.
  { rewrite <- Hs. refine (handle_stored _ (Get WorkerClient KSecret (ref_key (script_ref md)))
      s got s2 (cluster_of WorkerClient) KSecret _ Hget _). done. }
  change (stored s2 (cluster_of WorkerClient) KSecret (ref_key (script_ref md)) = None) in Hnone.
  by rewrite Hs2 in Hnone.
Qed.

(** A program without writes leaves every object alone. *)
Lemma reads_stored {A} (m : prog (ApiE Credentials) A) (s s' : S) a cl k n :
  all_calls (only_writes (fun _ => False)) m -> interp handle m s = (a, s') -> stored s' cl k n = stored s cl k n.
Proof. intros Hm Hi. rewrite <- (interp_stored (fun _ => False) cl k n m s Hm) by done. by rewrite Hi. Qed.

Lemma token_reads :
  all_calls (only_writes (fun _ => False))
    (wrapIO "failed to fetch api-server token: %w" [] (ExtractAPIServerToken (R := Credentials) WorkerClient)).
Proof. unfold ExtractAPIServerToken. repeat calls_step; exact I. Qed.

Lemma credentials_reads :
  all_calls (only_writes (fun _ => False))
    (if decide (nodeRegistryCredentialsSecret r <> "") then
       do! registryCredentials <- wrapIO "failed to get containerd auth config: %w" []
         (GetContainerdAuthConfig ControlClient (nodeRegistryCredentialsSecret r));
       do _ <- trigger (StoreField registryCredentials); Ret (Ok tt)
     else Ret (Ok tt)).
Proof. unfold GetContainerdAuthConfig. repeat calls_step; exact I. Qed.

(** C14: once the script secret of a machine deployment exists, which nothing deletes, no config of the edge provider can be created for it again: a creation that succeeds is for another provider *)
Theorem edge_config_not_recreated md osp kc kcName (s s' : S) secret :
  stored s (cluster_of WorkerClient) KSecret (ref_key (script_ref md)) = Some secret ->
  interp handle (create_osc r md osp kc kcName) s = (Ok tt, s') ->
  exists osc, stored_osc r md s' = Some osc /\
    CloudProviderSpec_Name (OSC_CloudProvider (OSC_Spec osc)) <> "edge".
Proof.
  intros Hs. unfold create_osc. rewrite interp_bindIO_Ok. intros (provisioner & s2 & Hu & Hi).
  apply interp_wrapIO_Ok in Hu. cbn [pureIO interp] in Hu. injection Hu as _ <-.
  destruct (_ && _); [done|].
  apply interp_bindIO_Ok in Hi as ([] & s3 & Hcreds & Hi).
  apply interp_bindIO_Ok in Hi as (token & s4 & Htoken & Hi).
  rewrite interp_bind_trigger in Hi.
  destruct (handle _ LoadField s4) as [creds s4'] eqn:Hload. cbn [fst snd] in Hi.
  apply interp_bindIO_Ok in Hi as (osc & s5 & Hgen & Hi).
  apply interp_wrapIO_Ok in Hgen. cbn [pureIO interp] in Hgen. injection Hgen as Hosc <-.
  apply interp_bindIO_Ok in Hi as ([] & s6 & Hedge & Hi).
  apply interp_bindIO_Ok in Hi as (mdhash & s7 & Hh & Hi). cbn [pureIO interp] in Hh. injection Hh as _ <-.
  apply interp_wrapIO_Ok in Hi. rewrite interp_trigger in Hi.
  destruct (Create_ok s6 ControlClient KOperatingSystemConfig (annotated_osc md osp mdhash osc) s' ltac:(done) Hi) as [_ Hst].
  apply GenerateOperatingSystemConfig_meta in Hosc. cbn [meta_of annotated_osc OSC_Meta] in Hst. rewrite Hosc in Hst.
  eexists. split; [exact Hst|]. cbn. intros He. rewrite decide_True in Hedge by done.
  apply interp_wrapIO_Ok in Hedge. eapply generateEdgeScript_fails; [|exact Hedge].
  assert (stored s4' (cluster_of WorkerClient) KSecret (ref_key (script_ref md)) =
          stored s4 (cluster_of WorkerClient) KSecret (ref_key (script_ref md))) as ->
    by (eapply handle_stored; [exact Hload|done]).
  rewrite (reads_stored _ _ _ _ (cluster_of WorkerClient) KSecret (ref_key (script_ref md)) token_reads Htoken).
  rewrite (reads_stored _ _ _ _ (cluster_of WorkerClient) KSecret (ref_key (script_ref md)) credentials_reads Hcreds).
  exact Hs.
Qed.
End EdgeScript.
End CreationProps.

(** ** Evaluation on concrete inputs *)

Module Demo.
#[export] Existing Instances DemoSDK.sdk Bootstrap.Demo.libs Generator.Demo.libs gset_StringSet gset_StringSetLaws
  MemStore.server MemStore.server_laws MemStore.named_server MemStore.deletion_laws.

#[export] Instance docker_json : JsonUnmarshal DockerCfgJSON := fun _ => Ok {| Auths := ∅ |}.
#[export] Instance auth_json : JsonUnmarshal AuthConfig := fun s => Err (LibError "json.Unmarshal" s "unexpected end").
#[export] Instance provider_json : JsonUnmarshal ProviderConfig := fun _ => Ok OSCResources.Demo.pc.
#[export] Instance libs : OSCLibs := {| osc_bootstrap := Bootstrap.Demo.libs; osc_generator := Generator.Demo.libs |}.

Definition reconciler : @Reconciler DemoSDK.sdk libs :=
  {| flags := OSCResources.Demo.flags; bootstrap := Bootstrap.Demo.manager;
     nodeRegistryCredentialsSecret := ""; containerRuntimeConfig := zero_Config |}.
Definition annotations : gmap string string :=
  {[ "k8c.io/operating-system-profile" := "osp-ubuntu"; "machinedeployment.clusters.k8s.io/revision" := "3" ]}.
Definition md : MachineDeployment :=
  {| MD_Meta := with_annotations (Some annotations) (object_meta "md-1" "kube-system");
     MD_ProviderSpec_Value := Some {| Raw := Some "{}" |}; MD_Versions_Kubelet := "1.30.0" |}.
Definition osp : OperatingSystemProfile :=
  {| OSP_Meta := object_meta "osp-ubuntu" "osm"; OSP_Spec := OSP_Spec OSCResources.Demo.osp |}.
Definition slice : EndpointSlice :=
  {| Slice_Ports := [{| EndpointPort_Name := Some "https"; EndpointPort_Port := Some 6443%Z |}];
     Slice_Endpoints := [{| Endpoint_Ready := Some true; Endpoint_Addresses := ["10.0.0.1"] |}] |}.
Definition getter : Secret :=
  {| Secret_Meta := object_meta "cloud-init-getter-token" "cloud-init-settings"; Secret_Type := "";
     Secret_Immutable := None; Secret_Data := {[ "token" := "tok" ]} |}.

Definition empty_store : MemStore.store Credentials :=
  {| MemStore.objects k := ∅; MemStore.slices := [slice]; MemStore.field := ∅; MemStore.clock := 0%Z;
     MemStore.randoms := ["abcdef"; "0123456789abcdef"] |}.
Definition with_object {k} (c : client) (o : obj k) (s : MemStore.store Credentials) : MemStore.store Credentials :=
  MemStore.put (bool_decide (c = WorkerClient)) k (key_of (meta_of o)) (Some o) s.
(** A machine deployment and its profile, before the first reconciliation. *)
Definition store0 : MemStore.store Credentials :=
  with_object (k := KMachineDeployment) WorkerClient md
    (with_object (k := KOperatingSystemProfile) ControlClient osp
      (with_object (k := KSecret) WorkerClient getter empty_store)).
Definition reconciled : result unit * MemStore.store Credentials :=
  interp handle (reconcile reconciler md) store0.

Lemma with_object_valid {k} c (o : obj k) s : valid s -> valid (with_object c o s).
Proof. intros Hs. apply MemStore.put_well_named; [exact Hs|]. by intros o' [= <-]. Qed.
Lemma store0_valid : valid store0.
Proof. repeat apply with_object_valid. intros k cl n o Ho. by cbn in Ho. Qed.
Lemma reconciled_valid : valid reconciled.2.
Proof. eapply interp_valid; [exact store0_valid|apply surjective_pairing]. Qed.

(** The second reconciliation, in the state the first one left. *)
Definition second_run : list (obs (ApiE Credentials)) := trace handle (reconcile reconciler md) reconciled.2.

(** The machine deployment when it is marked for deletion; one secret is gone. *)
Definition marked_md : MachineDeployment :=
  {| MD_Meta := {| Name := "md-1"; Namespace := "kube-system"; Annotations := Some annotations; Labels := ∅;
       Finalizers := [MachineDeploymentCleanupFinalizer]; DeletionTimestamp := Some 0%Z |};
     MD_ProviderSpec_Value := Some {| Raw := Some "{}" |}; MD_Versions_Kubelet := "1.30.0" |}.
Definition released_md : MachineDeployment :=
  with_MD_Meta (RemoveFinalizer (MD_Meta marked_md) [MachineDeploymentCleanupFinalizer]) marked_md.
Definition md_key : NamespacedName := {| NN_Namespace := "kube-system"; NN_Name := "md-1" |}.
Definition deletions : list (obs (ApiE Credentials)) :=
  [Obs (Get WorkerClient KMachineDeployment md_key) (Ok marked_md);
   Obs (Delete ControlClient KOperatingSystemConfig (osc_key reconciler md)) (Ok tt);
   Obs (Delete WorkerClient KSecret (settings_key (cloud_config_name md ProvisioningCloudConfig))) (Ok tt);
   Obs (Delete WorkerClient KSecret (settings_key (cloud_config_name md BootstrapCloudConfig)))
     (Err (StatusError ReasonNotFound "gone"));
   Obs (Delete WorkerClient KSecret (settings_key (bootstrapConfigName (machineDeploymentKey md)))) (Ok tt)].
Definition cleanup_run : list (obs (ApiE Credentials)) :=
  deletions ++ [Obs (Update WorkerClient KMachineDeployment released_md) (Ok released_md)].

Definition osc : OperatingSystemConfig := OSCResources.Demo.osc.
Definition kubeconfig : Kubeconfig := OSCResources.Demo.kubeconfig.
Definition edge_script_store : MemStore.store Credentials :=
  with_object (k := KSecret) WorkerClient (script_secret md "script" zero_Secret) store0.
Definition old_secret : Secret :=
  cloud_config_secret md ProvisioningCloudConfig "old data" "old hash" "v0.0.1".
Definition stale_store : MemStore.store Credentials :=
  with_object (k := KSecret) WorkerClient old_secret
    (with_object (k := KOperatingSystemConfig) ControlClient
       {| OSC_Meta := object_meta "md-1-kube-system-config" "osm"; OSC_Spec := OSC_Spec osc |} store0).
End Demo.
Import Demo.

Lemma interp_fst_Ok {E A S} (h : forall X, E X -> S -> X * S) (m : io E A) s a :
  (interp h m s).1 = Ok a -> interp h m s = (Ok a, (interp h m s).2).
Proof. destruct (interp h m s). cbn. by intros ->. Qed.

Lemma Demo_keys : rotation_keys.
Proof. apply (bool_decide_unpack _). vm_compute. exact I. Qed.

Lemma cleanup_runs : run (Reconcile Demo.reconciler Demo.md_key) Demo.cleanup_run (Ok tt).
Proof. repeat (eexists; split; [reflexivity|]). split; reflexivity. Qed.

Lemma Reconcile_owned_witness :
  Forall honest_obs Demo.cleanup_run /\
  Forall (fun o => match o with Obs e _ => owned_call Demo.reconciler Demo.md_key (fun s =>
    Obs (ListSecrets (bootstrap_client (bootstrap Demo.reconciler)) NamespaceSystem machineDeploymentNameLabelKey
      (machineDeploymentKey (md_of Demo.md_key))) (Ok [s]) ∈ Demo.cleanup_run) _ e end) Demo.cleanup_run.
Proof.
  assert (Forall honest_obs Demo.cleanup_run) as Hh by (repeat constructor).
  split; [exact Hh|].
  exact (Reconcile_owned Demo.reconciler Demo.md_key Demo.cleanup_run (Ok tt) cleanup_runs Hh).
Defined.

Lemma finalizer_released_last_witness : cleaned_up Demo.reconciler Demo.md_key Demo.deletions.
Proof.
  apply (finalizer_released_last Demo.reconciler Demo.md_key Demo.deletions WorkerClient Demo.released_md
    (Ok Demo.released_md) [] (Ok tt) cleanup_runs).
  vm_compute. intros H. inversion H.
Defined.

Lemma rotation_detects_changes_witness :
  up_to_date Demo.md Demo.osp (annotated_osc Demo.md Demo.osp
    (hex_EncodeToString (Sum256 (json_map (MD_Annotations Demo.md)))) Demo.osc).
Proof.
  assert (valid_map (default ∅ (MD_Annotations Demo.md))) as Hv.
  { apply (map_Forall_insert_2 (M := gmap string)); [by split|].
    apply map_Forall_singleton. by split. }
  apply (rotation_detects_changes Demo.md Demo.osp _ Demo.osc Demo.md Demo.osp Demo_keys eq_refl Hv Hv).
  split; [reflexivity|]. split; [reflexivity|]. left. reflexivity.
Defined.

Lemma checkOSP_spec_witness :
  run (checkOSP Demo.md Demo.osp) [] (Ok tt) /\
  exists cp, cp ∈ SupportedCloudProviders (OSP_Spec Demo.osp).
Proof.
  assert (run (checkOSP Demo.md Demo.osp) [] (Ok tt)) as Hrun by (split; reflexivity).
  split; [exact Hrun|].
  destruct (checkOSP_spec Demo.md Demo.osp [] (Ok tt) Hrun) as [H _].
  destruct (proj1 H eq_refl) as (raw & pc & _ & _ & _ & cp & Hcp & _). exists cp. exact Hcp.
Defined.

Lemma reconcile_converges_witness :
  exists osp, converged Demo.reconciler Demo.md osp Demo.reconciled.2.
Proof.
  assert (Demo.reconciled.1 = Ok tt) as Hok by (vm_compute; reflexivity).
  pose proof (interp_fst_Ok handle (reconcile Demo.reconciler Demo.md) Demo.store0 tt Hok) as Hi.
  assert (forall o, stored_osc Demo.reconciler Demo.md Demo.store0 = Some o ->
    key_of (OSC_Meta o) = osc_key Demo.reconciler Demo.md /\ Finalizers (OSC_Meta o) = []) as Hs.
  { intros o Ho. vm_compute in Ho. discriminate Ho. }
  destruct (reconcile_converges Demo.reconciler Demo.md Demo.store0 Demo.reconciled.2 Demo_keys Hs Hi)
    as (osp & _ & Hc).
  exists osp. exact Hc.
Defined.

Lemma reconcile_quiescent_witness :
  length Demo.second_run = 11 /\
  Forall (fun o => forall w, obs_writes o = Some w ->
    bootstrap_write (bootstrap Demo.reconciler) (machineDeploymentKey Demo.md) w) Demo.second_run.
Proof.
  split; [vm_compute; reflexivity|].
  apply (reconcile_quiescent Demo.reconciler Demo.md Demo.osp Demo.second_run _
    (run_trace handle (reconcile Demo.reconciler Demo.md) Demo.reconciled.2));
    [|exact (trace_honest (reconcile Demo.reconciler Demo.md) _ Demo.reconciled_valid)].
  eapply List.Forall_impl; [apply (settled_check_sound Demo.reconciler Demo.md Demo.osp)|].
  apply List.Forall_forall, List.forallb_forall. vm_compute. reflexivity.
Defined.

Lemma create_osc_spec_witness :
  let t := trace handle (create_osc Demo.reconciler Demo.md Demo.osp Demo.kubeconfig "kc") Demo.store0 in
  exists t' created, t = t' ++ [Obs (Create ControlClient KOperatingSystemConfig created) (Ok tt)] /\
    key_of (OSC_Meta created) = osc_key Demo.reconciler Demo.md.
Proof.
  cbn zeta.
  pose proof (run_trace handle (create_osc Demo.reconciler Demo.md Demo.osp Demo.kubeconfig "kc") Demo.store0) as Hrun.
  assert ((interp handle (create_osc Demo.reconciler Demo.md Demo.osp Demo.kubeconfig "kc") Demo.store0).1 = Ok tt)
    as Hok by (vm_compute; reflexivity).
  rewrite Hok in Hrun.
  destruct (create_osc_spec Demo.reconciler Demo.md Demo.osp Demo.kubeconfig "kc" _ Hrun)
    as (token & secret & creds & osc & mdhash & t' & Ht & _ & _ & _ & _ & _ & _ & Hkey & _).
  exists t', (annotated_osc Demo.md Demo.osp mdhash osc). split; [exact Ht|exact Hkey].
Defined.

Lemma ensureCloudConfigSecret_spec_witness :
  let config := OSC_ProvisioningConfig (OSC_Spec Demo.osc) in
  let t := trace handle (ensureCloudConfigSecret config "" ProvisioningCloudConfig "ubuntu" "aws" Demo.md "v1.0.0")
             Demo.store0 in
  secret_calls Demo.md config "" ProvisioningCloudConfig "ubuntu" "aws" "v1.0.0" t.
Proof.
  cbn zeta. apply ensureCloudConfigSecret_spec.
  pose proof (run_trace handle (ensureCloudConfigSecret (OSC_ProvisioningConfig (OSC_Spec Demo.osc)) ""
    ProvisioningCloudConfig "ubuntu" "aws" Demo.md "v1.0.0") Demo.store0) as Hrun.
  assert ((interp handle (ensureCloudConfigSecret (OSC_ProvisioningConfig (OSC_Spec Demo.osc)) ""
    ProvisioningCloudConfig "ubuntu" "aws" Demo.md "v1.0.0") Demo.store0).1 = Ok tt) as Hok
    by (vm_compute; reflexivity).
  rewrite Hok in Hrun. exact Hrun.
Defined.

Lemma edge_config_not_recreated_witness :
  exists osc, stored_osc Demo.reconciler Demo.md
    (interp handle (create_osc Demo.reconciler Demo.md Demo.osp Demo.kubeconfig "kc") Demo.edge_script_store).2 = Some osc /\
    CloudProviderSpec_Name (OSC_CloudProvider (OSC_Spec osc)) <> "edge".
Proof.
  apply (edge_config_not_recreated Demo.reconciler Demo.md Demo.osp Demo.kubeconfig "kc" Demo.edge_script_store _
    (script_secret Demo.md "script" zero_Secret)).
  - vm_compute. reflexivity.
  - apply (interp_fst_Ok handle (create_osc Demo.reconciler Demo.md Demo.osp Demo.kubeconfig "kc")
      Demo.edge_script_store tt). vm_compute. reflexivity.
Defined.

Lemma reconcileSecrets_keeps_existing_witness :
  stored_secret (interp handle (reconcileSecrets Demo.reconciler Demo.md Demo.osp) Demo.stale_store).2
    (cloud_config_name Demo.md ProvisioningCloudConfig) = Some Demo.old_secret.
Proof.
  apply (reconcileSecrets_keeps_existing Demo.reconciler Demo.md Demo.osp Demo.stale_store).
  - vm_compute. reflexivity.
  - apply (interp_fst_Ok handle (reconcileSecrets Demo.reconciler Demo.md Demo.osp) Demo.stale_store tt).
    vm_compute. reflexivity.
Defined.
