(* ===== verification/Panics.v ===== *)
(** * Absence of panics

    A Go function panics when it dereferences nil or writes to a nil map, which
    the model keeps as [Panic].  This file follows a whole reconciliation and
    shows which objects have to be well-formed for it not to happen: machine
    deployments with a provider specification, profiles and configs whose files
    have inline content, and a cluster-info kubeconfig with a cluster.  Nothing
    is assumed about which calls succeed. *)

From S2P Require Import Prelude Effects GoStrings Encoding Types Api ContainerRuntime Finalizers GoTemplate SDK NetURL ProviderConfig CloudProvider Generator OSCResources Bootstrap OSCController.

(** ** Libraries that do not panic

    Decoders and encoders of the Go standard library and of the third-party
    libraries report what is wrong with their input as an error; functions that a
    template calls are recovered by [text/template]. *)

Class CalmCloud `{CloudLibs} : Prop := {
  calm_sprig name : never_panics (libs_sprig name);
  calm_url : never_panics url_Parse;
  calm_semver : never_panics NewVersion;
  calm_yaml : never_panics kubevirt.yaml_Marshal;
  calm_aws : never_panics (json_Unmarshal (A := aws.RawConfig));
  calm_azure : never_panics (json_Unmarshal (A := azure.RawConfig));
  calm_azure_marshal : never_panics (json_Marshal (A := azure.CloudConfig));
  calm_gce : never_panics (json_Unmarshal (A := gce.RawConfig));
  calm_string_map : never_panics (json_Unmarshal (A := gmap string string));
  calm_kubevirt : never_panics (json_Unmarshal (A := kubevirt.RawConfig));
  calm_openstack : never_panics (json_Unmarshal (A := openstack.RawConfig));
  calm_vsphere : never_panics (json_Unmarshal (A := vsphere.RawConfig))
}.

Class CalmResources `{ResourceLibs} : Prop := {
  #[global] calm_cloud :: CalmCloud;
  calm_manifest : never_panics Encode_manifest;
  calm_hosts : never_panics Encode_hosts;
  calm_decoder strict : never_panics (json_Decode strict);
  calm_durations : never_panics ParseDuration;
  calm_write : never_panics clientcmd_Write;
  calm_load : never_panics clientcmd_Load;
  calm_osp_Parse name : never_panics (osp_Parse name);
  calm_osp_ParseMore t : never_panics (osp_ParseMore t);
  calm_osp_Execute t : never_panics (osp_Execute t);
  calm_amzn2 : never_panics (json_Unmarshal (A := amzn2.Config));
  calm_flatcar : never_panics (json_Unmarshal (A := flatcar.Config));
  calm_rhel : never_panics (json_Unmarshal (A := rhel.Config));
  calm_ubuntu : never_panics (json_Unmarshal (A := ubuntu.Config));
  calm_rocky : never_panics (json_Unmarshal (A := rockylinux.Config))
}.

Class CalmGenerator `{GeneratorLibs} : Prop := {
  calm_sdk_json : never_panics SDK_StrictUnmarshal;
  calm_gen_flatcar : never_panics (json_Unmarshal (A := flatcar.Config));
  calm_gen_common : never_panics (json_Unmarshal (A := common.Config));
  calm_gen_sprig name : never_panics (gen_sprig name);
  calm_ignition : never_panics ign_Marshal
}.

Class CalmLibs `{OSCLibs} : Prop := {
  #[global] calm_resources :: CalmResources;
  #[global] calm_generator :: CalmGenerator;
  calm_time : never_panics time_Parse;
  calm_labels key : never_panics (NewRequirement key);
  calm_dockercfg : never_panics (json_Unmarshal (A := DockerCfgJSON));
  calm_authconfig : never_panics (json_Unmarshal (A := AuthConfig));
  calm_providerconfig : never_panics (json_Unmarshal (A := ProviderConfig))
}.

(** ** Lists of results *)

Lemma fold_left_no_panic {A B} (f : result B -> A -> result B) (l : list A) (acc : result B) :
  (forall acc a, no_panic acc -> no_panic (f acc a)) -> no_panic acc -> no_panic (fold_left f l acc).
Proof. intros Hf. revert acc. induction l as [|a l IH]; cbn; auto. Qed.

Lemma checked_calm {A} (p : A * option error) : no_panic (checked p).
Proof. destruct p as [a [e|]]; exact I. Qed.
#[export] Hint Resolve checked_calm : calm.

Lemma ParseInt10_calm s bits : no_panic (ParseInt10 s bits).
Proof. unfold ParseInt10. calm. Qed.
Lemma ParseBool_calm s : no_panic (ParseBool s).
Proof. unfold ParseBool. calm. Qed.
Lemma DecodeString_calm s : no_panic (DecodeString s).
Proof. unfold DecodeString. calm. Qed.
#[export] Hint Resolve ParseInt10_calm ParseBool_calm DecodeString_calm : calm.

(** ** The template engine *)

Lemma exec_error_calm {A} what : no_panic (exec_error what : result A).
Proof. exact I. Qed.
#[export] Hint Resolve exec_error_calm : calm.
Lemma print_calm v : no_panic (print v).
Proof. revert v. fix IH 1. intros [| | |[v|]| | |]; cbn; try exact I. apply IH. Qed.
Lemma get_field_calm f v : no_panic (get_field f v).
Proof. revert v. fix IH 1. intros [| | |[v|]| | |]; cbn; calm; apply IH. Qed.
Lemma get_chain_calm chain v : no_panic (get_chain chain v).
Proof. apply fold_left_no_panic; [|exact I]. intros acc f Hacc. by calm; try apply get_field_calm. Qed.
Lemma elements_of_calm v : no_panic (elements_of v).
Proof. revert v. fix IH 1. intros [| | |[v|]| | |]; cbn; try exact I. apply IH. Qed.
Lemma basic_eq_calm a b : no_panic (basic_eq a b).
Proof. unfold basic_eq. calm. Qed.
#[export] Hint Resolve print_calm get_field_calm get_chain_calm elements_of_calm basic_eq_calm : calm.

(** Induction over nested lists of nodes. *)
Lemma node_nested_ind (P : node -> Prop) :
  (forall s, P (NText s)) -> (forall p, P (NAction p)) ->
  (forall p b e, Forall P b -> Forall P e -> P (NIf p b e)) ->
  (forall names p b e, Forall P b -> Forall P e -> P (NRange names p b e)) ->
  (forall p b e, Forall P b -> Forall P e -> P (NWith p b e)) -> forall n, P n.
Proof.
  intros Ht Ha Hi Hr Hw. fix IH 1.
  assert (Hl := fun ns => list_ind (Forall P) (Forall_nil_2 P) (fun n _ H => Forall_cons_2 P _ _ (IH n) H) ns).
  intros [s|p|p b e|names p b e|p b e]; [apply Ht|apply Ha|apply Hi|apply Hr|apply Hw]; apply Hl.
Qed.

Section Templates.
Variable funcs : string -> list value -> result value.
Hypothesis funcs_calm : forall name, never_panics (funcs name).

Lemma builtin_calm name args r : builtin name args = Some r -> no_panic r.
Proof. unfold builtin. intros Hb. repeat (case_match; try done); simplify_eq; calm. Qed.

Lemma call_calm name args : no_panic (call funcs name args).
Proof.
  unfold call. destruct (builtin name args) as [r|] eqn:Hb; [by eapply builtin_calm|apply funcs_calm].
Qed.

Lemma eval_args_calm ev l : never_panics ev -> no_panic (eval_args ev l).
Proof. intros He. induction l as [|o l IH]; cbn; calm; done. Qed.

Lemma eval_cmd_calm ev cmd final : never_panics ev -> no_panic (eval_cmd funcs ev cmd final).
Proof.
  intros He. unfold eval_cmd. repeat (case_match; try exact I); try apply He;
    (apply no_panic_bindR; [by apply eval_args_calm|intros; apply call_calm]).
Qed.

Lemma eval_cmds_calm ev p final : never_panics ev -> no_panic (eval_cmds funcs ev p final).
Proof.
  intros He. revert final. induction p as [|c p IH]; intros final; cbn; [by destruct final|].
  apply no_panic_bindR; [by apply eval_cmd_calm|]. intros v _. apply IH.
Qed.

Lemma eval_operand_calm depth vars dot : never_panics (eval_operand funcs depth vars dot).
Proof.
  induction depth as [|d IH]; intros [chain|v chain|?|?|?|f|p]; cbn; calm; try apply call_calm.
  by apply eval_cmds_calm.
Qed.

Lemma eval_calm vars dot p : no_panic (eval funcs vars dot p).
Proof. apply eval_cmds_calm, eval_operand_calm. Qed.

Lemma concat_results_calm {A} (f : A -> result string) l :
  never_panics f -> no_panic (concat_results f l).
Proof. intros Hf. induction l as [|x l IH]; cbn; calm; done. Qed.

Lemma exec_nodes_calm_of ns :
  Forall (fun n => forall vars dot, no_panic (exec funcs n vars dot)) ns ->
  forall vars dot, no_panic (exec_nodes funcs ns vars dot).
Proof. induction 1 as [|n ns Hn _ IH]; intros vars dot; cbn; calm; done. Qed.

Lemma exec_calm n : forall vars dot, no_panic (exec funcs n vars dot).
Proof.
  induction n as [s|p|p b e Hb He|names p b e Hb He|p b e Hb He] using node_nested_ind; intros vars dot;
    rewrite ?exec_NIf, ?exec_NRange, ?exec_NWith; try exact I;
    (apply no_panic_bindR; [apply eval_calm|intros v _]).
  - auto with calm.
  - destruct (truth v); by apply exec_nodes_calm_of.
  - apply no_panic_bindR; [auto with calm|]. intros [|kv l] _; [by apply exec_nodes_calm_of|].
    apply concat_results_calm. intros ?. by apply exec_nodes_calm_of.
  - destruct (truth v); by apply exec_nodes_calm_of.
Qed.

Lemma Execute_calm ns data : no_panic (Execute funcs ns data).
Proof. apply exec_nodes_calm_of, Forall_true, exec_calm. Qed.
End Templates.

Lemma parsed_calm text : no_panic (parsed text).
Proof. unfold parsed. by destruct (Parse text). Qed.
#[export] Hint Resolve parsed_calm : calm.

(** ** The cloud configuration *)

Section Cloud.
Context `{CalmCloud}.

Lemma render_calm tpl data : no_panic (render tpl data).
Proof.
  unfold render. calm. apply Execute_calm. intros name args. unfold ini_funcs. calm. apply calm_sprig.
Qed.

Lemma unmarshal_spec_calm {A} `{JsonUnmarshal A} pc :
  never_panics (json_Unmarshal (A := A)) -> no_panic (unmarshal_spec (A := A) pc).
Proof. intros Hj. unfold unmarshal_spec. calm. Qed.

Lemma get_cloud_config_calm {A} (c : result A) (f : A -> result string) :
  no_panic c -> never_panics f -> no_panic (get_cloud_config c f).
Proof. intros Hc Hf. unfold get_cloud_config. by calm. Qed.

Lemma aws_calm pc : no_panic (aws.GetCloudConfig pc).
Proof.
  apply get_cloud_config_calm; [|intros ?; apply render_calm]. unfold aws.getConfig.
  apply no_panic_bindR; [apply unmarshal_spec_calm, calm_aws|intros]. calm.
Qed.
Lemma azure_calm pc : no_panic (azure.GetCloudConfig pc).
Proof.
  apply get_cloud_config_calm; [|intros ?; unfold azure.ToString; calm; apply calm_azure_marshal]. unfold azure.getConfig.
  apply no_panic_bindR; [apply unmarshal_spec_calm, calm_azure|intros]. calm.
Qed.
Lemma gce_calm pc : no_panic (gce.GetCloudConfig pc).
Proof.
  apply get_cloud_config_calm; [|intros ?; apply render_calm]. unfold gce.getConfig.
  apply no_panic_bindR; [apply unmarshal_spec_calm, calm_gce|intros]. unfold gce.getProjectID. calm; apply calm_string_map.
Qed.
Lemma kubevirt_calm pc : no_panic (kubevirt.GetCloudConfig pc).
Proof.
  apply get_cloud_config_calm; [|intros ?; apply calm_yaml]. unfold kubevirt.getConfig.
  apply no_panic_bindR; [apply unmarshal_spec_calm, calm_kubevirt|intros]. unfold kubevirt.getKubeconfig. calm.
Qed.
Lemma first_of_calm a b : no_panic (openstack.first_of a b).
Proof. unfold openstack.first_of. calm. Qed.
Lemma openstack_calm pc version : no_panic (openstack.GetCloudConfig pc version).
Proof.
  apply get_cloud_config_calm; [|intros ?; apply render_calm]. unfold openstack.getConfig.
  apply no_panic_bindR; [apply unmarshal_spec_calm, calm_openstack|intros].
  unfold openstack.getConfigAuth. calm; apply first_of_calm.
Qed.
Lemma vsphere_calm pc : no_panic (vsphere.GetCloudConfig pc).
Proof.
  apply get_cloud_config_calm; [|intros ?; apply render_calm]. unfold vsphere.getConfig.
  apply no_panic_bindR; [apply unmarshal_spec_calm, calm_vsphere|intros]. unfold vsphere.getURL. calm. apply calm_url.
Qed.

Lemma GetCloudConfig_calm external pc version : no_panic (GetCloudConfig external pc version).
Proof.
  unfold GetCloudConfig, provider_cloud_config. calm; [apply calm_semver|apply aws_calm|apply azure_calm|apply gce_calm
    |apply kubevirt_calm|apply openstack_calm|apply vsphere_calm].
Qed.
End Cloud.

(** ** The generated config *)

(** Files with content, and a kubeconfig with a cluster where each is present. *)
Definition inline (l : list File) : Prop := Forall (fun f => Inline (File_Content f) <> None) l.

Definition inline_section (c : OSPConfig) : Prop :=
  inline (OSPConfig_Files c) /\ Forall (fun cr => inline (ContainerRuntimeSpec_Files cr)) (SupportedContainerRuntimes c).

Definition inline_profile (osp : OperatingSystemProfile) : Prop :=
  inline_section (OSP_BootstrapConfig (OSP_Spec osp)) /\ inline_section (OSP_ProvisioningConfig (OSP_Spec osp)).

Definition inline_config (osc : OperatingSystemConfig) : Prop :=
  inline (OSCConfig_Files (OSC_BootstrapConfig (OSC_Spec osc))) /\
  inline (OSCConfig_Files (OSC_ProvisioningConfig (OSC_Spec osc))).

Definition with_clusters (k : Kubeconfig) : Prop :=
  Clusters k <> ∅ /\ map_Forall (fun _ c => c <> None) (Clusters k).

Lemma provider_raw_calm md : MD_ProviderSpec_Value md <> None -> no_panic (provider_raw md).
Proof. intros Hv. unfold provider_raw. calm. by apply no_panic_deref. Qed.

Section Config.
Context `{CalmResources}.

Lemma getKubeletConfigs_calm annotations : no_panic (getKubeletConfigs annotations).
Proof. unfold getKubeletConfigs, parse_setting, parse_int32. calm; apply calm_durations. Qed.

Lemma RegistryHostConfigs_calm eng : no_panic (RegistryHostConfigs eng).
Proof.
  apply fold_left_no_panic; [|exact I]. intros acc name Hacc. unfold add_host_file, host_file. calm. apply calm_hosts.
Qed.

Lemma prepareContainerRuntimeConfig_calm md cfg : no_panic (prepareContainerRuntimeConfig md cfg).
Proof.
  unfold prepareContainerRuntimeConfig, Containerd_Config, Containerd_AuthConfig.
  calm; [apply getKubeletConfigs_calm|apply calm_manifest|apply RegistryHostConfigs_calm].
Qed.

Lemma first_key_lookup {V} (m : gmap string V) : m <> ∅ -> exists v, m !! first_key m = Some v.
Proof.
  intros Hm. unfold first_key. pose proof (range_perm m) as Hp. destruct (range m) as [|[k v] l].
  - apply Permutation_nil, map_to_list_empty_iff in Hp. by destruct Hm.
  - exists v. apply elem_of_map_to_list. rewrite <- Hp. by left.
Qed.

Lemma cluster_server_calm k : with_clusters k -> no_panic (cluster_server k).
Proof.
  intros [He Ha]. unfold cluster_server. calm. apply no_panic_deref.
  destruct (first_key_lookup (Clusters k) He) as [c Hc]. rewrite Hc. exact (Ha _ _ Hc).
Qed.

Lemma prepareBootstrapConfig_calm md k name token :
  with_clusters k -> no_panic (prepareBootstrapConfig md k name token).
Proof.
  intros Hk. unfold prepareBootstrapConfig, StringifyKubeconfig. calm; [apply calm_write|by apply cluster_server_calm].
Qed.

Lemma prepareCloudProviderConfig_calm pc version external :
  no_panic (prepareCloudProviderConfig pc version external).
Proof. unfold prepareCloudProviderConfig, KubeletCloudProviderConfig. calm. apply GetCloudConfig_calm. Qed.

Lemma formatKubeletVersion_calm version : no_panic (formatKubeletVersion version).
Proof. unfold formatKubeletVersion. calm. apply calm_semver. Qed.

Lemma setOperatingSystemConfig_calm os spec : no_panic (setOperatingSystemConfig os spec).
Proof.
  unfold setOperatingSystemConfig. calm; [apply calm_amzn2|apply calm_flatcar|apply calm_rhel|apply calm_ubuntu|apply calm_rocky].
Qed.

Lemma parse_more_calm tmpl ats : no_panic (parse_more tmpl ats).
Proof.
  revert tmpl. induction ats as [|t ats IH]; intros tmpl; cbn; [exact I|]. calm. apply calm_osp_ParseMore.
Qed.

Lemma populateFile_calm ats d file : Inline (File_Content file) <> None -> no_panic (populateFile ats d file).
Proof.
  intros Hf. unfold populateFile.
  calm; [by apply no_panic_deref|apply calm_osp_Parse|apply parse_more_calm|apply calm_osp_Execute].
Qed.

Lemma populateFilesList_calm files ats d : inline files -> no_panic (populateFilesList files ats d).
Proof. induction 1 as [|f files Hf _ IH]; cbn; [exact I|]. calm. by apply populateFile_calm. Qed.

Lemma render_templates_calm d l : no_panic (render_templates d l).
Proof.
  induction l as [|[name t] l IH]; cbn; [exact I|]. unfold render_template. calm; [apply calm_osp_Parse|apply calm_osp_Execute].
Qed.

Lemma renderedFiles_calm config cr d : inline_section config -> no_panic (renderedFiles config cr d).
Proof.
  intros [Hf Hcr]. unfold renderedFiles, selectAdditionalTemplates. calm; [apply render_templates_calm|].
  apply populateFilesList_calm, Forall_app. split; [done|]. unfold selectAdditionalFiles.
  destruct (List.find _ _) as [spec|] eqn:Hs; [|by apply Forall_nil].
  apply find_some in Hs as [Hin _]. rewrite Forall_forall in Hcr. by apply Hcr, list_elem_of_In.
Qed.

Lemma configureRHEL_inline pc osp d :
  inline_section (OSP_BootstrapConfig osp) /\ inline_section (OSP_ProvisioningConfig osp) ->
  let osp' := configureRHELSubscription pc osp d in
  inline_section (OSP_BootstrapConfig osp') /\ inline_section (OSP_ProvisioningConfig osp').
Proof. unfold configureRHELSubscription. by destruct (negb _). Qed.

Lemma renderOSPFiles_calm osp cr d hosts :
  inline_section (OSP_BootstrapConfig osp) /\ inline_section (OSP_ProvisioningConfig osp) ->
  no_panic (renderOSPFiles osp cr d hosts).
Proof. intros [Hb Hp]. unfold renderOSPFiles. calm; by apply renderedFiles_calm. Qed.

Lemma buildFilesData_calm v ips ca host tree cloud cr pc ext taints crc cra gates bks bc proxy noproxy img ann :
  no_panic (buildFilesData v ips ca host tree cloud cr pc ext taints crc cra gates bks bc proxy noproxy img ann).
Proof. unfold buildFilesData. calm; [apply getKubeletConfigs_calm|apply setOperatingSystemConfig_calm]. Qed.

Lemma GenerateOperatingSystemConfig_calm md osp k kname token oscName fl cfg :
  MD_ProviderSpec_Value md <> None -> inline_profile osp -> with_clusters k ->
  no_panic (GenerateOperatingSystemConfig md osp k kname token oscName fl cfg).
Proof.
  intros Hmd Hosp Hk. unfold GenerateOperatingSystemConfig, parseProviderConfig.
  calm; [by apply provider_raw_calm|apply calm_decoder|apply prepareContainerRuntimeConfig_calm
    |by apply prepareBootstrapConfig_calm|apply prepareCloudProviderConfig_calm|apply formatKubeletVersion_calm
    |apply buildFilesData_calm|by apply renderOSPFiles_calm, configureRHEL_inline].
Qed.
End Config.

(** ** The user data *)

Lemma GetProvisioningUtility_calm `{SDKJson, !JsonUnmarshal flatcar.Config, !JsonMarshal flatcar.Config} os md :
  never_panics SDK_StrictUnmarshal -> never_panics (json_Unmarshal (A := flatcar.Config)) ->
  MD_ProviderSpec_Value md <> None -> no_panic (GetProvisioningUtility os md).
Proof.
  intros Hsdk Hflatcar Hmd. unfold GetProvisioningUtility. calm; [by apply provider_raw_calm|apply Hflatcar].
Qed.

Section UserData.
Context `{CalmGenerator}.

Lemma file_specs_calm p l : inline l -> no_panic (file_specs p l).
Proof. induction 1 as [|f l Hf _ IH]; cbn; [exact I|]. unfold file_spec. calm. by apply no_panic_deref. Qed.

Lemma TxtFuncMap_calm name : never_panics (TxtFuncMap name).
Proof. intros args. unfold TxtFuncMap. calm. apply calm_gen_sprig. Qed.

Lemma toIgnition_calm s : no_panic (toIgnition s).
Proof. unfold toIgnition. calm. apply calm_ignition. Qed.

Lemma Generate_calm config u os cp md secretType :
  MD_ProviderSpec_Value md <> None -> inline (OSCConfig_Files config) ->
  no_panic (Generate config u os cp md secretType).
Proof.
  intros Hmd Hf. unfold Generate, user_data.
  calm; [by apply GetProvisioningUtility_calm; [apply calm_sdk_json|apply calm_gen_flatcar|]|by apply file_specs_calm|by apply provider_raw_calm|apply calm_sdk_json
    |apply calm_gen_common|apply Execute_calm, TxtFuncMap_calm|apply toIgnition_calm].
Qed.
End UserData.

(** ** Well-formed answers

    What a client reads, as far as a reconciliation depends on it, and what the
    client itself promises: its calls return. *)

Definition well_formed `{Clientcmd} (k : kind) : obj k -> Prop :=
  match k with
  | KMachineDeployment => fun md => MD_ProviderSpec_Value md <> None
  | KOperatingSystemProfile => inline_profile
  | KOperatingSystemConfig => inline_config
  | KConfigMap => fun cm => forall text info,
      ConfigMap_Data cm !! "kubeconfig" = Some text -> clientcmd_Load text = Ok info -> with_clusters info
  | KSecret | KServiceAccount => fun _ => True
  end.

Definition sound_answer `{Clientcmd} {R} (X : Type) (e : ApiE R X) : X -> Prop :=
  match e in ApiE _ X return X -> Prop with
  | Get _ k _ | Update _ k _ => yields (well_formed k)
  | Create _ _ _ | Delete _ _ _ => no_panic
  | ListSecrets _ _ _ _ => no_panic
  | ListEndpointSlices _ _ _ _ => no_panic
  | _ => fun _ => True
  end.

(** ** Credentials *)

Section Kubeconfig.
Context `{CalmLibs} {R : Type}.
Abbreviation safely := (safe (sound_answer (R := R))).

Lemma last_key_lookup {V} (m : gmap string V) : m <> ∅ -> exists v, m !! last_key m = Some v.
Proof.
  intros Hm. unfold last_key. pose proof (range_perm m) as Hp. destruct (range m) as [|kv l] using rev_ind.
  - apply Permutation_nil, map_to_list_empty_iff in Hp. by destruct Hm.
  - destruct kv as [k v]. exists v. change ((l ++ [(k, v)]).*1) with (map fst (l ++ [(k, v)])).
    rewrite map_app. cbn [map fst]. rewrite List.last_last. apply elem_of_map_to_list. rewrite <- Hp. apply elem_of_app. right. by left.
Qed.

Lemma override_servers_calm server l :
  Forall (fun kv => kv.2 <> None) l ->
  yields (fun l' => l'.*1 = l.*1 /\ Forall (fun kv => kv.2 <> None) l') (override_servers server l).
Proof.
  induction 1 as [|[k [cl|]] l Hk _ IH]; cbn; [done| |by destruct Hk].
  destruct (override_servers server l) as [l'|e|w]; [|done..]. destruct IH as [Hkeys Hall]. cbn. rewrite Hkeys. by repeat constructor.
Qed.

Lemma bootstrap_kubeconfig_calm override token info :
  with_clusters info -> yields with_clusters (bootstrap_kubeconfig override token info).
Proof.
  intros [He Ha]. unfold bootstrap_kubeconfig.
  destruct (last_key_lookup (Clusters info) He) as [c Hc]. rewrite Hc. cbn [mjoin].
  set (clusters := <[contextIdentifier := _]> _).
  assert (map_Forall (fun _ c => c <> None) clusters) as Hall.
  { apply map_Forall_insert_2; [exact (Ha _ _ Hc)|]. by apply map_Forall_delete. }
  assert (clusters <> ∅) as Hne by apply insert_non_empty.
  destruct (decide (override = "")); [by split|].
  assert (Forall (fun kv => kv.2 <> None) (range clusters)) as Hrange.
  { apply Forall_forall. intros [k o] Hin%range_lookup. exact (Hall k o Hin). }
  pose proof (override_servers_calm override (range clusters) Hrange) as Ho.
  destruct (override_servers override (range clusters)) as [l|e|w]; [|done..]. destruct Ho as [Hkeys Hl].
  split; cbn.
  - destruct l as [|[k o] l]; [|by apply insert_non_empty]. intros _. apply Hne, map_to_list_empty_iff, Permutation_nil.
    rewrite <- range_perm. by destruct (range clusters).
  - intros k o Hko%elem_of_list_to_map_2. rewrite Forall_forall in Hl. exact (Hl _ Hko).
Qed.

Lemma GetKubeconfig_safe c caCert : safely with_clusters (GetKubeconfig c caCert).
Proof.
  unfold GetKubeconfig. apply (safe_bind _ with_clusters); [|by intros|].
  - unfold getKubeconfigFromConfigMap. apply (safe_bindIO _ (well_formed KConfigMap)); [by apply safe_trigger|].
    intros cm Hcm. apply safe_Ret. destruct (ConfigMap_Data cm !! "kubeconfig") as [text|] eqn:Ht; [|done].
    pose proof (calm_load text) as Hl. destruct (clientcmd_Load text) as [info|e|w] eqn:Hi; [|done..].
    exact (Hcm text info Ht Hi).
  - intros e. unfold buildKubeconfigFromEndpointSlice.
    apply safe_seq; [apply safe_wrapIO, safe_trigger; by intros []|].
    intros slices. apply safe_Ret. unfold kubeconfig_of_slices. destruct slices as [|sl slices]; [done|].
    destruct (head _) as [k|] eqn:Hk; [|done]. cbn.
    assert (k ∈ omap (slice_kubeconfig caCert) (sl :: slices)) as Hin by (by apply head_Some_elem_of).
    rewrite list_elem_of_omap in Hin; destruct Hin as (s & _ & Hs). unfold slice_kubeconfig in Hs.
    destruct (getSecurePortFromSlice _) as [port|]; [|done]. cbn in Hs.
    destruct (head (omap endpoint_address _)) as [ip|]; [|done]. injection Hs as <-.
    split; cbn; [apply insert_non_empty|]. by apply map_Forall_singleton.
Qed.

Lemma generateKubeconfig_safe b token : safely with_clusters (generateKubeconfig b token).
Proof.
  apply (safe_bindIO _ with_clusters); [apply GetKubeconfig_safe|]. intros info Hi.
  by apply safe_Ret, bootstrap_kubeconfig_calm.
Qed.

Lemma getAsUnstructured_safe b k name : safely (well_formed k) (getAsUnstructured b k name).
Proof. apply safe_wrapIO. by apply safe_trigger. Qed.

Lemma getTokenFromServiceAccount_safe b name : safely (fun _ => True) (getTokenFromServiceAccount b name).
Proof.
  apply safe_seq; [apply safe_wrapIO, (getAsUnstructured_safe b KServiceAccount)|].
  intros sa. induction (SA_Secrets sa) as [|s l IH]; cbn [first_token_secret]; [by apply safe_Ret|].
  apply safe_seq; [apply safe_wrapIO, (getAsUnstructured_safe b KSecret)|].
  intros secret. by destruct (decide _).
Qed.

Lemma update_safe c k o : safely (fun _ => True) (trigger (Update c k o)).
Proof. apply (safe_mono _ (well_formed k)); [done|]. by apply safe_trigger. Qed.

Lemma create_safe c k o : safely (fun _ => True) (trigger (Create c k o)).
Proof. apply safe_trigger. by intros []. Qed.

Lemma createBootstrapToken_safe b name : safely (fun _ => True) (createBootstrapToken b name).
Proof.
  apply safe_seq.
  - unfold getSecretIfExists. apply safe_seq; [apply safe_pure, calm_labels|intros _].
    apply safe_seq; [apply safe_trigger; by intros []|]. intros items. apply safe_pure. calm.
  - intros [secret|].
    + apply safe_seq; [|done]. apply safe_wrapIO. unfold updateSecretExpirationAndGetToken.
      apply safe_seq; [apply safe_pure, calm_time|]. intros expiration.
      apply safe_bind_trigger. intros now _. destruct (near_expiry now expiration); [|done].
      apply safe_bind_trigger. intros now' _.
      apply safe_seq; [apply safe_wrapIO, update_safe|done].
    + do 3 (apply safe_bind_trigger; intros ? _).
      apply safe_seq; [apply safe_wrapIO, create_safe|done].
Qed.

Lemma CreateBootstrapKubeconfig_safe b name :
  safely (fun kn => with_clusters kn.1) (CreateBootstrapKubeconfig b name).
Proof.
  apply safe_seq.
  - destruct (bootstrapTokenServiceAccountName b) as [sa|].
    + apply safe_seq; [apply safe_wrapIO, getTokenFromServiceAccount_safe|done].
    + apply safe_wrapIO, createBootstrapToken_safe.
  - intros [token updated]. apply (safe_bindIO _ with_clusters); [apply generateKubeconfig_safe|]. intros k Hk.
    apply safe_seq; [apply safe_pure; unfold StringifyKubeconfig; calm; apply calm_write|]. intros text.
    apply safe_bind_trigger. intros [old|e|w] Hx; [|destruct (IsNotFound e); [|done]|done].
    + destruct updated; [done|]. apply safe_seq; [apply update_safe|done].
    + apply safe_seq; [apply create_safe|done].
Qed.
End Kubeconfig.

(** ** The reconciler *)

Section Reconciliation.
Context `{CalmLibs}.
Abbreviation safely := (safe (sound_answer (R := Credentials))).
Variable r : Reconciler.
Implicit Types (md : MachineDeployment) (osp : OperatingSystemProfile).

Lemma get_safe c k n : safely (well_formed k) (trigger (Get c k n)).
Proof. by apply safe_trigger. Qed.

Lemma delete_safe c k n : safely (fun _ => True) (trigger (Delete c k n)).
Proof. apply safe_trigger. by intros []. Qed.

Lemma delete_if_found_safe c k n format args : safely (fun _ => True) (delete_if_found c k n format args).
Proof. apply (safe_bind _ (fun _ => True)); [apply delete_safe|done|]. intros e. by destruct (IsNotFound e). Qed.

Lemma deleteGeneratedSecrets_safe md : safely (fun _ => True) (deleteGeneratedSecrets md).
Proof.
  do 2 (apply safe_seq; [apply delete_if_found_safe|intros _]). apply delete_if_found_safe.
Qed.

Lemma handleMachineDeploymentCleanup_safe md : safely (fun _ => True) (handleMachineDeploymentCleanup r md).
Proof.
  apply safe_seq; [apply delete_if_found_safe|intros _].
  apply safe_seq; [apply deleteGeneratedSecrets_safe|intros _].
  apply safe_seq; [apply safe_wrapIO, update_safe|done].
Qed.

Lemma fetchOSP_safe md : safely inline_profile (fetchOSP r md).
Proof.
  apply (safe_bind _ inline_profile); [apply (get_safe _ KOperatingSystemProfile)|done|].
  intros e. by destruct (IsNotFound e).
Qed.

Lemma checkOSP_safe md osp : MD_ProviderSpec_Value md <> None -> safely (fun _ => True) (checkOSP md osp).
Proof.
  intros Hmd. assert (no_panic (validateMachineDeployment md osp)) as Hv.
  { unfold validateMachineDeployment. calm; [by apply provider_raw_calm|apply calm_providerconfig]. }
  unfold checkOSP. by destruct (validateMachineDeployment md osp).
Qed.

Lemma rotation_safe md osp : safely (fun _ => True) (handleOSCAndSecretsRotation r md osp).
Proof.
  apply safe_bind_trigger. intros [osc|e|w] Hx; [|by destruct (IsNotFound e)|done].
  apply safe_seq; [done|]. intros hash. destruct (rotation_not_required _ _ _ _); [done|].
  apply safe_seq; [apply safe_wrapIO, delete_safe|intros _; apply deleteGeneratedSecrets_safe].
Qed.

Lemma GetContainerdAuthConfig_safe c secret : safely (fun _ => True) (GetContainerdAuthConfig c secret).
Proof.
  unfold GetContainerdAuthConfig. repeat (case_match; try done).
  apply safe_seq; [apply safe_wrapIO, (get_safe c KSecret)|]. intros s'. apply safe_pure.
  unfold read_credentials. calm; [apply calm_dockercfg|]. apply fold_left_no_panic; [|exact I].
  intros acc [registry data] Hacc. cbn [add_credential]. calm. apply calm_authconfig.
Qed.

Lemma ExtractAPIServerToken_safe c : safely (fun _ => True) (ExtractAPIServerToken c).
Proof.
  apply safe_seq; [apply safe_wrapIO, (get_safe c KSecret)|]. intros s. apply safe_pure. calm.
Qed.

Lemma generateEdgeScript_safe md token k : with_clusters k -> safely (fun _ => True) (generateEdgeScript md token k).
Proof.
  intros Hk. apply safe_seq; [by apply safe_pure, cluster_server_calm|]. intros url.
  apply safe_bind_trigger. intros got Hgot. apply safe_seq; [|intros; apply create_safe].
  destruct got as [s|e|w]; [done|by destruct (IsNotFound e)|done].
Qed.

Lemma create_osc_safe md osp k name :
  MD_ProviderSpec_Value md <> None -> inline_profile osp -> with_clusters k ->
  safely (fun _ => True) (create_osc r md osp k name).
Proof.
  intros Hmd Hosp Hk. unfold create_osc. apply safe_seq.
  { by apply safe_wrapIO, safe_pure, GetProvisioningUtility_calm; [apply calm_sdk_json|apply calm_flatcar|]. }
  intros provisioner. destruct (_ && _); [done|]. apply safe_seq.
  { destruct (decide _); [|done]. apply safe_seq; [apply safe_wrapIO, GetContainerdAuthConfig_safe|].
    intros creds. by apply safe_bind_trigger. }
  intros _. apply safe_seq; [apply safe_wrapIO, ExtractAPIServerToken_safe|]. intros token.
  apply safe_bind_trigger. intros credentials _. apply safe_seq.
  { by apply safe_wrapIO, safe_pure, GenerateOperatingSystemConfig_calm. }
  intros osc. apply safe_seq.
  { destruct (decide _); [|done]. by apply safe_wrapIO, generateEdgeScript_safe. }
  intros _. apply safe_seq; [done|]. intros hash. apply safe_wrapIO, create_safe.
Qed.

Lemma reconcileOperatingSystemConfigs_safe md osp :
  MD_ProviderSpec_Value md <> None -> inline_profile osp ->
  safely (fun _ => True) (reconcileOperatingSystemConfigs r md osp).
Proof.
  intros Hmd Hosp. apply (safe_bindIO _ (fun kn => with_clusters kn.1)).
  { apply safe_wrapIO, CreateBootstrapKubeconfig_safe. }
  intros [k name] Hk. apply safe_bind_trigger. intros [osc|e|w] Hx; [done|by apply create_osc_safe|done].
Qed.

Lemma ensureCloudConfigSecret_safe config u secretType os cp md version :
  MD_ProviderSpec_Value md <> None -> inline (OSCConfig_Files config) ->
  safely (fun _ => True) (ensureCloudConfigSecret config u secretType os cp md version).
Proof.
  intros Hmd Hf. apply safe_bind_trigger. intros [s|e|w] Hx; [done| |done].
  apply safe_seq; [by apply safe_wrapIO, safe_pure, Generate_calm|]. intros data.
  apply safe_seq; [done|]. intros hash. apply safe_wrapIO, create_safe.
Qed.

Lemma reconcileSecrets_safe md osp :
  MD_ProviderSpec_Value md <> None -> safely (fun _ => True) (reconcileSecrets r md osp).
Proof.
  intros Hmd. apply (safe_bindIO _ inline_config); [apply safe_wrapIO, (get_safe _ KOperatingSystemConfig)|].
  intros osc [Hb Hp]. do 2 (apply safe_seq;
    [by apply safe_wrapIO, ensureCloudConfigSecret_safe|intros _]). done.
Qed.

Lemma reconcile_safe md : MD_ProviderSpec_Value md <> None -> safely (fun _ => True) (reconcile r md).
Proof.
  intros Hmd. apply (safe_bindIO _ inline_profile); [apply safe_wrapIO, fetchOSP_safe|]. intros osp Hosp.
  apply safe_seq; [by apply safe_wrapIO, checkOSP_safe|intros _].
  apply safe_seq; [apply safe_wrapIO, rotation_safe|intros _].
  apply safe_seq; [by apply safe_wrapIO, reconcileOperatingSystemConfigs_safe|intros _].
  apply safe_seq; [by apply safe_wrapIO, reconcileSecrets_safe|done].
Qed.

Lemma Reconcile_safe req : safely (fun _ => True) (Reconcile r req).
Proof.
  apply safe_bind_trigger. intros [md|e|w] Hmd; [|by destruct (IsNotFound e)|done].
  destruct (DeletionTimestamp (MD_Meta md)).
  { destruct (HasFinalizer _ _); [apply handleMachineDeploymentCleanup_safe|done]. }
  apply (safe_bindIO _ (well_formed KMachineDeployment)); [|intros md' Hmd'; by apply reconcile_safe].
  unfold ensure_finalizer. destruct (HasFinalizer _ _); [exact Hmd|]. by apply safe_wrapIO, safe_trigger.
Qed.
End Reconciliation.

(** C16: no reconciliation panics, whichever of its calls fail, as long as what it reads is well-formed: machine deployments have a provider specification, the files of profiles and configs have inline content, and the kubeconfig of the cluster-info config map has a cluster *)
Theorem Reconcile_never_panics `{CalmLibs} (r : Reconciler) (req : NamespacedName) (t : list (obs (ApiE Credentials)))
    (res : result unit) (Hrun : run (Reconcile r req) t res)
    (Hsound : Forall (fun o => match o with Obs e x => sound_answer _ e x end) t) :
  no_panic res.
Proof. by eapply yields_no_panic, safe_run; [apply Reconcile_safe| |]. Qed.

Module Demo.
Import OSCController.Demo.
#[export] Existing Instance MemStore.server.

Lemma sprig_calm name : never_panics (DemoSDK.sprig_functions name).
Proof. intros args. unfold DemoSDK.sprig_functions. calm. Qed.
Lemma version_calm : never_panics DemoSDK.parse_version.
Proof. intros s. unfold DemoSDK.parse_version. calm. Qed.

Lemma url_calm : never_panics SplitURL.Parse.
Proof. intros s. unfold SplitURL.Parse. calm. Qed.

#[export] Instance calm_cloud : @CalmCloud DemoSDK.sdk CloudProvider.Demo.libs.
Proof. constructor; try apply sprig_calm; try apply version_calm; try apply url_calm; intros; intros ?; exact I. Qed.
#[export] Instance calm_resources : @CalmResources DemoSDK.sdk OSCResources.Demo.libs.
Proof. constructor; try apply calm_cloud; intros; intros ?; try exact I. apply ParseInt10_calm. Qed.
#[export] Instance calm_generator : @CalmGenerator DemoSDK.sdk Generator.Demo.libs.
Proof. constructor; try apply sprig_calm; intros; intros ?; exact I. Qed.
#[export] Instance calm_libs : CalmLibs.
Proof.
  constructor; try apply calm_resources; try apply calm_generator; intros; intros x; try exact I.
  - cbn. unfold Bootstrap.Demo.parse_seconds. destruct x; calm.
  - cbn. unfold Bootstrap.Demo.labels. calm.
Qed.

(** The first reconciliation of the deployment, up to its finalizer, config and secrets. *)
Definition first_run : list (obs (ApiE Credentials)) := trace handle (Reconcile reconciler md_key) store0.
Definition first_result : result unit := (interp handle (Reconcile reconciler md_key) store0).1.
Lemma first_run_result : run (Reconcile reconciler md_key) first_run first_result.
Proof. exact (run_trace handle (Reconcile reconciler md_key) store0). Qed.
Lemma first_run_sound : Forall (fun o => match o with Obs e x => sound_answer _ e x end) first_run.
Proof. apply Forall_fold_right. vm_compute. repeat constructor; discriminate. Qed.
End Demo.

Lemma Reconcile_never_panics_witness :
  length Demo.first_run = 22 /\ no_panic Demo.first_result.
Proof.
  split; [vm_compute; reflexivity|].
  exact (Reconcile_never_panics (H1 := Demo.calm_libs) OSCController.Demo.reconciler OSCController.Demo.md_key
    Demo.first_run Demo.first_result Demo.first_run_result Demo.first_run_sound).
Defined.
