(* ===== verification/Availability.v ===== *)
(** * Servers that answer, and programs that succeed

    The laws of [ApiServerLaws] say what a call that succeeded has done; those of
    [Available] say which calls succeed: the servers are up and nothing refuses a
    request that is consistent with what is stored.  [achieves] is the total
    counterpart of [interp ... = (Ok _, _) -> ...]: the program returns a value. *)

From S2P Require Import Prelude GoStrings Types Effects Api.

(** What [RandString] will answer to a sequence of draws. *)
Fixpoint draws {R S} `{ApiServer R S} (lengths : list nat) (s : S) : list string :=
  match lengths with
  | [] => []
  | n :: lengths => let '(x, s') := handle _ (RandString n) s in x :: draws lengths s'
  end.

Definition is_draw {R X} (e : ApiE R X) : bool := match e with RandString _ => true | _ => false end.

(** What the reconciler's field holds. *)
Definition loaded {R S} `{ApiServer R S} (s : S) : R := (handle _ LoadField s).1.

(** What the server answers to a list of endpoint slices. *)
Definition listed {R S} `{ApiServer R S} (s : S) (c : client) (namespace label value : string)
    : result (list EndpointSlice) :=
  (handle _ (ListEndpointSlices c namespace label value) s).1.

Class Available (R S : Type) `{ApiServer R S} := {
  Get_absent s c k n : stored s (cluster_of c) k n = None ->
    exists e, (handle _ (Get c k n) s).1 = Err e /\ IsNotFound e = true;
  Create_absent s c k o : stored s (cluster_of c) k (key_of (meta_of o)) = None ->
    (handle _ (Create c k o) s).1 = Ok tt;
  Update_stored s c k o : is_Some (stored s (cluster_of c) k (key_of (meta_of o))) ->
    exists o', (handle _ (Update c k o) s).1 = Ok o';
  Delete_stored s c k n : is_Some (stored s (cluster_of c) k n) -> (handle _ (Delete c k n) s).1 = Ok tt;
  Delete_absent s c k n : stored s (cluster_of c) k n = None ->
    exists e, (handle _ (Delete c k n) s).1 = Err e /\ IsNotFound e = true;
  ListSecrets_stored s c namespace label value : exists l : list (NamespacedName * Secret),
    (handle _ (ListSecrets c namespace label value) s).1 = Ok (map snd l) /\ NoDup l /\
    forall n x, (n, x) ∈ l <->
      stored s (cluster_of c) KSecret n = Some x /\ NN_Namespace n = namespace /\
      Labels (Secret_Meta x) !! label = Some value;
  draws_frame X (e : ApiE R X) s lengths : is_draw e = false -> draws lengths (handle _ e s).2 = draws lengths s;
  listed_frame X (e : ApiE R X) s c namespace label value :
    listed (handle _ e s).2 c namespace label value = listed s c namespace label value;
  loaded_frame X (e : ApiE R X) s :
    loaded (handle _ e s).2 = match e with StoreField v => v | _ => loaded s end
}.

(** ** The server in memory is available *)

#[local] Existing Instance MemStore.server.
#[export] Instance MemStore_available {R} : Available R (MemStore.store R).
Proof.
  split.
  - intros s c k n Hn. cbn [handle MemStore.server MemStore.handler stored cluster_of] in *. rewrite Hn. by eexists.
  - intros s c k o Hn. cbn [handle MemStore.server MemStore.handler stored cluster_of] in *. by rewrite Hn.
  - intros s c k o [x Hx]. cbn [handle MemStore.server MemStore.handler stored cluster_of] in *. rewrite Hx. by exists o.
  - intros s c k n [x Hx]. cbn [handle MemStore.server MemStore.handler stored cluster_of] in *. by rewrite Hx.
  - intros s c k n Hn. cbn [handle MemStore.server MemStore.handler stored cluster_of] in *. rewrite Hn. by eexists.
  - intros s c namespace label value. cbn [handle MemStore.server MemStore.handler stored cluster_of fst].
    set (found := filter _ (map_to_list (MemStore.objects s KSecret))).
    exists (map (fun p => (p.1.2, p.2)) found). split; [by rewrite map_map|]. split.
    + apply (NoDup_fmap_2_strong (fun p => (p.1.2, p.2))); [|apply NoDup_filter, NoDup_map_to_list].
      intros [[cl n] x] [[cl' n'] x'] [[Hcl _] _]%list_elem_of_filter [[Hcl' _] _]%list_elem_of_filter [= -> ->].
      cbn in *. by rewrite Hcl, Hcl'.
    + intros n x. split.
      * intros ([[cl n'] x'] & [= <- <-] & [(Hcl & Hns & Hl) Hin]%list_elem_of_filter)%list_elem_of_fmap.
        cbn in Hcl, Hns, Hl. subst cl. by apply elem_of_map_to_list in Hin.
      * intros (Hx & Hns & Hl). apply list_elem_of_fmap. exists ((bool_decide (c = WorkerClient), n), x).
        split; [done|]. apply list_elem_of_filter. split; [done|]. by apply elem_of_map_to_list.
  - intros X e s lengths He. assert (forall s1 s2 : MemStore.store R, MemStore.randoms s1 = MemStore.randoms s2 ->
      draws lengths s1 = draws lengths s2) as Hd.
    { clear e He. induction lengths as [|n l IH]; intros s1 s2 Hr; [done|].
      cbn [draws handle MemStore.server MemStore.handler]. f_equal; [exact (f_equal (hd _) Hr)|]. apply IH. exact (f_equal tl Hr). }
    apply Hd. destruct e; try done; cbn [handle MemStore.server MemStore.handler]; by repeat case_match.
  - intros X e s c namespace label value. unfold listed. cbn [handle MemStore.server MemStore.handler fst].
    destruct e; cbn [MemStore.handler]; by repeat case_match.
  - intros X e s. unfold loaded. cbn [handle MemStore.server MemStore.handler fst].
    destruct e; cbn [MemStore.handler]; by repeat case_match.
Qed.

(** ** Total correctness *)

Section Achieves.
Context {R S : Type} `{ApiServer R S}.

(** The program returns a value, and it and the state it leaves satisfy [Q]. *)
Definition achieves {A} (m : io (ApiE R) A) (s : S) (Q : A -> S -> Prop) : Prop :=
  exists a s', interp handle m s = (Ok a, s') /\ Q a s'.

Lemma achieves_Ret {A} (a : A) s (Q : A -> S -> Prop) : Q a s -> achieves (Ret (Ok a)) s Q.
Proof. intros HQ. by exists a, s. Qed.

Lemma achieves_pure {A} (m : result A) a s (Q : A -> S -> Prop) : m = Ok a -> Q a s -> achieves (pureIO m) s Q.
Proof. intros -> HQ. by exists a, s. Qed.

Lemma achieves_mono {A} (m : io (ApiE R) A) s (P Q : A -> S -> Prop) :
  achieves m s P -> (forall a s', P a s' -> Q a s') -> achieves m s Q.
Proof. intros (a & s' & Hi & HP) HPQ. exists a, s'. auto. Qed.

(** The same with the run at hand, for what is known of runs that succeed. *)
Lemma achieves_run {A} (m : io (ApiE R) A) s (P Q : A -> S -> Prop) :
  achieves m s P -> (forall a s', interp handle m s = (Ok a, s') -> P a s' -> Q a s') -> achieves m s Q.
Proof. intros (a & s' & Hi & HP) HPQ. exists a, s'. auto. Qed.

Lemma achieves_trigger {A} (e : ApiE R (result A)) a s (Q : A -> S -> Prop) :
  (handle _ e s).1 = Ok a -> Q a (handle _ e s).2 -> achieves (trigger e) s Q.
Proof. intros Ha HQ. eexists a, _. split; [|exact HQ]. rewrite interp_trigger, <- Ha. apply surjective_pairing. Qed.

(** A call and what follows, for [bind (trigger e) k] too, which reduces to it. *)
Lemma achieves_Vis {A X} (e : ApiE R X) (k : X -> io (ApiE R) A) s (Q : A -> S -> Prop) :
  achieves (k (handle _ e s).1) (handle _ e s).2 Q -> achieves (Vis e k) s Q.
Proof. intros (a & s' & Hi & HQ). exists a, s'. split; [|done]. cbn. by destruct (handle _ e s). Qed.

(** A program that may be followed by more even when it fails. *)
Lemma achieves_bind {A B} (m : prog (ApiE R) A) (f : A -> io (ApiE R) B) s (Q : B -> S -> Prop) :
  achieves (f (interp handle m s).1) (interp handle m s).2 Q -> achieves (bind m f) s Q.
Proof. intros (a & s' & Hi & HQ). exists a, s'. by rewrite interp_bind, (surjective_pairing (interp handle m s)). Qed.

Lemma achieves_bindIO {A B} (m : io (ApiE R) A) (f : A -> io (ApiE R) B) s (Q : B -> S -> Prop) :
  achieves m s (fun a s' => achieves (f a) s' Q) -> achieves (bindIO m f) s Q.
Proof.
  intros (a & s1 & Hm & (b & s2 & Hf & HQ)). exists b, s2. split; [|done].
  apply interp_bindIO_Ok. by exists a, s1.
Qed.

Lemma achieves_wrapIO {A} fmt args (m : io (ApiE R) A) s (Q : A -> S -> Prop) :
  achieves m s Q -> achieves (wrapIO fmt args m) s Q.
Proof. intros (a & s' & Hi & HQ). exists a, s'. split; [|done]. by apply interp_wrapIO_Ok. Qed.

Lemma achieves_if {A} (b : bool) (m m' : io (ApiE R) A) s (Q : A -> S -> Prop) :
  (b = true -> achieves m s Q) -> (b = false -> achieves m' s Q) -> achieves (if b then m else m') s Q.
Proof. destruct b; auto. Qed.
End Achieves.

(** ** What a program leaves alone *)

Section Unmoved.
Context {R S : Type} `{ApiServer R S}.

(** No write of [W] names the object. *)
Definition elsewhere (W : write -> Prop) (cl : bool) (k : kind) (n : NamespacedName) : Prop :=
  forall w, W w -> ~ touches cl k n w.

(** Nothing differs but what the writes of [W] name. *)
Definition unmoved (W : write -> Prop) (s s' : S) : Prop :=
  forall cl k n, elsewhere W cl k n -> stored s' cl k n = stored s cl k n.

Lemma elsewhere_mono (W W' : write -> Prop) cl k n :
  (forall w, W w -> W' w) -> elsewhere W' cl k n -> elsewhere W cl k n.
Proof. intros HW He w Hw. by apply He, HW. Qed.

Lemma unmoved_trans (W W1 W2 : write -> Prop) s1 s2 s3 :
  (forall w, W1 w -> W w) -> (forall w, W2 w -> W w) -> unmoved W1 s1 s2 -> unmoved W2 s2 s3 -> unmoved W s1 s3.
Proof. intros HW1 HW2 H1 H2 cl k n He. rewrite H2, H1; [done|by eapply elsewhere_mono..]. Qed.

(** The call draws no random string. *)
Definition no_draw (X : Type) (e : ApiE R X) : Prop := is_draw e = false.
(** The call leaves the field alone. *)
Definition no_store (X : Type) (e : ApiE R X) : Prop := match e with StoreField _ => False | _ => True end.

Context `{!ApiServerLaws R S, !Available R S}.

Lemma interp_unmoved {A} W (m : prog (ApiE R) A) s a s' :
  all_calls (only_writes W) m -> interp handle m s = (a, s') -> unmoved W s s'.
Proof. intros Hm Hi cl k n He. rewrite <- (interp_stored W cl k n m s Hm He). by rewrite Hi. Qed.

Lemma interp_unmoved_honest `{!NamedServer R S} {A} W (m : prog (ApiE R) A) s a s' :
  valid s -> calls_when honest (only_writes W) m -> interp handle m s = (a, s') -> unmoved W s s'.
Proof. intros Hs Hm Hi cl k n He. rewrite <- (interp_stored_honest W cl k n m s Hs Hm He). by rewrite Hi. Qed.

Lemma interp_draws {A} (m : prog (ApiE R) A) s a s' lengths :
  all_calls no_draw m -> interp handle m s = (a, s') -> draws lengths s' = draws lengths s.
Proof.
  intros Hm Hi. rewrite <- (interp_frame handle (draws lengths) no_draw m s); [by rewrite Hi| |done].
  intros X e s0. apply draws_frame.
Qed.

Lemma interp_listed {A} (m : prog (ApiE R) A) s a s' c namespace label value :
  interp handle m s = (a, s') -> listed s' c namespace label value = listed s c namespace label value.
Proof.
  intros Hi. rewrite <- (interp_frame handle (fun s => listed s c namespace label value) (fun _ _ => True) m s).
  - by rewrite Hi.
  - intros X e s0 _. apply listed_frame.
  - clear Hi. induction m as [b|X e k IH]; cbn; auto.
Qed.

Lemma interp_loaded {A} (m : prog (ApiE R) A) s a s' :
  all_calls no_store m -> interp handle m s = (a, s') -> loaded s' = loaded s.
Proof.
  intros Hm Hi. rewrite <- (interp_frame handle loaded no_store m s); [by rewrite Hi| |done].
  intros X e s0 He. rewrite loaded_frame. by destruct e.
Qed.

(** A call that only reads leaves everything as it was. *)
Definition same_store (s s' : S) : Prop :=
  (forall cl k n, stored s' cl k n = stored s cl k n) /\ (forall lengths, draws lengths s' = draws lengths s) /\
  (forall c namespace label value, listed s' c namespace label value = listed s c namespace label value) /\
  loaded s' = loaded s.

Lemma read_same {X} (e : ApiE R X) s :
  writes e = None -> is_draw e = false -> no_store X e -> same_store s (handle _ e s).2.
Proof.
  intros Hw Hd Hl. split_and!; intros.
  - apply handle_frame. intros w. by rewrite Hw.
  - by apply draws_frame.
  - apply listed_frame.
  - rewrite loaded_frame. by destruct e.
Qed.

(** What is stored under a name has that name. *)
Lemma stored_key `{!NamedServer R S} c k n o s :
  valid s -> stored s (cluster_of c) k n = Some o -> key_of (meta_of o) = n.
Proof.
  intros Hv Ho. pose proof (valid_answer _ (Get c k n) s Hv) as Ha. by rewrite (Get_stored s c k n o Ho) in Ha.
Qed.

(** ** One call *)

Lemma achieves_get {A} c k n o s (f : result (obj k) -> io (ApiE R) A) (Q : A -> S -> Prop) :
  stored s (cluster_of c) k n = Some o ->
  (forall s', same_store s s' -> s' = (handle _ (Get c k n) s).2 -> achieves (f (Ok o)) s' Q) ->
  achieves (Vis (Get c k n) f) s Q.
Proof.
  intros Ho Hf. apply achieves_Vis. rewrite (Get_stored s c k n o Ho). apply Hf; [by apply read_same|done].
Qed.

Lemma achieves_get_absent {A} c k n s (f : result (obj k) -> io (ApiE R) A) (Q : A -> S -> Prop) :
  stored s (cluster_of c) k n = None ->
  (forall e s', IsNotFound e = true -> same_store s s' -> s' = (handle _ (Get c k n) s).2 ->
     achieves (f (Err e)) s' Q) ->
  achieves (Vis (Get c k n) f) s Q.
Proof.
  intros Hn Hf. apply achieves_Vis. destruct (Get_absent s c k n Hn) as (e & -> & He).
  apply Hf; [done|by apply read_same|done].
Qed.

(** A read in the middle of a program that returns its error. *)
Lemma achieves_get_found c k n o s (Q : obj k -> S -> Prop) :
  stored s (cluster_of c) k n = Some o -> (forall s', same_store s s' -> Q o s') ->
  achieves (trigger (Get c k n)) s Q.
Proof. intros Ho HQ. apply (achieves_trigger _ o); [by apply Get_stored|]. by apply HQ, read_same. Qed.

Lemma achieves_create c k o s (Q : unit -> S -> Prop) :
  stored s (cluster_of c) k (key_of (meta_of o)) = None -> Q tt (handle _ (Create c k o) s).2 ->
  achieves (trigger (Create c k o)) s Q.
Proof. intros Hn. by apply achieves_trigger, Create_absent. Qed.

Lemma achieves_update c k o s (Q : obj k -> S -> Prop) :
  is_Some (stored s (cluster_of c) k (key_of (meta_of o))) ->
  (forall o', Q o' (handle _ (Update c k o) s).2) -> achieves (trigger (Update c k o)) s Q.
Proof. intros Ho HQ. destruct (Update_stored s c k o Ho) as (o' & Hu). by apply (achieves_trigger _ o'). Qed.
End Unmoved.
