(* ===== verification/Interruption.v ===== *)
(** * Programs that are cut off

    A process may stop between any two of its calls, and a call that fails ends most
    programs early.  [stopped h n m s] is the state after the first [n] calls of [m];
    [always] is a property of all these states, with a rule for each way programs
    are built.  [AtomicWrites] says what a write leaves behind when it is not known
    to have succeeded: it was done or it was not. *)

From S2P Require Import Prelude Effects Types Api.

Section Stopped.
Context {E : Type -> Type} {S : Type} (h : forall X, E X -> S -> X * S).

Fixpoint stopped {A} (n : nat) (m : prog E A) (s : S) : S :=
  match n, m with
  | Datatypes.S n', Vis e k => let '(x, s') := h _ e s in stopped n' (k x) s'
  | _, _ => s
  end.

Definition always {A} (P : S -> Prop) (m : prog E A) (s : S) : Prop := forall n, P (stopped n m s).

Lemma stopped_end {A} (m : prog E A) s : exists n, stopped n m s = (interp h m s).2.
Proof.
  revert s. induction m as [a|X e k IH]; intros s; [by exists 0|]. cbn.
  destruct (h X e s) as [x s'] eqn:Hh. destruct (IH x s') as [n Hn]. exists (Datatypes.S n). cbn. by rewrite Hh.
Qed.

Lemma stopped_bind {A B} n (m : prog E A) (f : A -> prog E B) s :
  stopped n (bind m f) s = stopped n m s \/
  exists n', stopped n (bind m f) s = stopped n' (f (interp h m s).1) (interp h m s).2.
Proof.
  revert n s. induction m as [a|X e k IH]; intros n s; [by right; exists n|]. destruct n as [|n]; [by left|]. cbn.
  destruct (h X e s) as [x s']. apply IH.
Qed.

Lemma always_end {A} P (m : prog E A) s a s' : always P m s -> interp h m s = (a, s') -> P s'.
Proof. intros Hm Hi. destruct (stopped_end m s) as [n Hn]. rewrite Hi in Hn. cbn in Hn. rewrite <- Hn. apply Hm. Qed.

Lemma always_start {A} P (m : prog E A) s : always P m s -> P s.
Proof. intros Hm. exact (Hm 0). Qed.

Lemma always_Ret {A} (P : S -> Prop) (a : A) s : P s -> always P (Ret a) s.
Proof. by intros Hs []. Qed.

Lemma always_bind {A B} P (m : prog E A) (f : A -> prog E B) s :
  always P m s -> (forall a s', interp h m s = (a, s') -> P s' -> always P (f a) s') -> always P (bind m f) s.
Proof.
  intros Hm Hf n. destruct (stopped_bind n m f s) as [->|[n' ->]]; [apply Hm|].
  destruct (interp h m s) as [a s'] eqn:Hi. cbn. apply (Hf a s' eq_refl). by apply (always_end P m s a s').
Qed.

Lemma always_bindIO {A B} P (m : io E A) (f : A -> io E B) s :
  always P m s -> (forall a s', interp h m s = (Ok a, s') -> P s' -> always P (f a) s') -> always P (bindIO m f) s.
Proof.
  intros Hm Hf. apply always_bind; [done|]. intros [a|e|w] s' Hi Hs; [by apply Hf|by apply always_Ret..].
Qed.

Lemma always_wrapIO {A} P fmt args (m : io E A) s : always P m s -> always P (wrapIO fmt args m) s.
Proof. intros Hm. apply always_bind; [done|]. intros a s' _ Hs. by apply always_Ret. Qed.

Lemma always_bind_trigger {X B} (P : S -> Prop) (e : E X) (f : X -> prog E B) s :
  P s -> always P (f (h _ e s).1) (h _ e s).2 -> always P (bind (trigger e) f) s.
Proof. intros Hs Hf [|n]; [done|]. cbn. specialize (Hf n). by destruct (h X e s). Qed.

Lemma always_trigger {X} (P : S -> Prop) (e : E X) s : P s -> P (h _ e s).2 -> always P (trigger e) s.
Proof. intros Hs He [|[|n]]; cbn; [done|..]; by destruct (h X e s). Qed.

Lemma always_mono {A} (P Q : S -> Prop) (m : prog E A) s : (forall s', P s' -> Q s') -> always P m s -> always Q m s.
Proof. intros HPQ Hm n. apply HPQ, Hm. Qed.

Lemma always_and {A} (P Q : S -> Prop) (m : prog E A) s :
  always P m s -> always Q m s -> always (fun s' => P s' /\ Q s') m s.
Proof. intros HP HQ n. by split. Qed.

(** What every call of a program keeps. *)
Lemma always_calls {A} (P : S -> Prop) (C : forall X, E X -> Prop) (m : prog E A) s :
  (forall X (e : E X) s, C X e -> P s -> P (h X e s).2) -> all_calls C m -> P s -> always P m s.
Proof.
  intros HC Hm Hs n. revert n s Hs. induction m as [a|X e k IH]; intros [|n] s Hs; [done..|]. cbn.
  destruct Hm as [He Hk]. specialize (HC X e s He Hs). destruct (h X e s) as [x s']. by apply IH.
Qed.

Lemma always_calls_when {A} (P : S -> Prop) (Q : forall X, E X -> X -> Prop) (C : forall X, E X -> Prop)
    (m : prog E A) s :
  (forall X (e : E X) s, P s -> Q X e (h X e s).1) -> (forall X (e : E X) s, C X e -> P s -> P (h X e s).2) ->
  calls_when Q C m -> P s -> always P m s.
Proof.
  intros HQ HC Hm Hs n. revert n s Hs. induction m as [a|X e k IH]; intros [|n] s Hs; [done..|]. cbn.
  destruct Hm as [He Hk]. specialize (HC X e s He Hs). specialize (HQ X e s Hs).
  destruct (h X e s) as [x s']. apply IH; [by apply Hk|done].
Qed.
End Stopped.

(** ** Writes of which the answer is lost *)

Class AtomicWrites (R S : Type) `{ApiServer R S} := {
  Create_atomic s c k o a s' : k <> KMachineDeployment -> handle _ (Create c k o) s = (a, s') ->
    stored s' (cluster_of c) k (key_of (meta_of o)) = stored s (cluster_of c) k (key_of (meta_of o)) \/
    stored s (cluster_of c) k (key_of (meta_of o)) = None /\
    stored s' (cluster_of c) k (key_of (meta_of o)) = Some o;
  Delete_atomic s c k n a s' : handle _ (Delete c k n) s = (a, s') ->
    (forall o, stored s (cluster_of c) k n = Some o -> Finalizers (meta_of o) = []) ->
    stored s' (cluster_of c) k n = stored s (cluster_of c) k n \/ stored s' (cluster_of c) k n = None
}.

#[local] Existing Instance MemStore.server.
#[export] Instance MemStore_atomic {R} : AtomicWrites R (MemStore.store R).
Proof.
  split.
  - intros s c k o a s' _ Hc. cbn [handle MemStore.server MemStore.handler] in Hc.
    cbn [stored MemStore.server cluster_of] in *. destruct (MemStore.objects s k !! _) eqn:E; simplify_eq; [by left|right].
    split; [done|]. apply MemStore.put_eq.
  - intros s c k n a s' Hd Hf. cbn [handle MemStore.server MemStore.handler] in Hd.
    cbn [stored MemStore.server cluster_of] in *. destruct (MemStore.objects s k !! _) as [o|] eqn:E; simplify_eq; [right|by left].
    rewrite decide_True by auto. apply MemStore.put_eq.
Qed.
