(* ===== verification/Convergence.v ===== *)
(** * What completed reconciliations leave behind

    Theorems about [OSCController] against a server with the laws of
    [ApiServerLaws] that keeps every object under its name ([NamedServer]):
    a reconciliation that has to generate replaces both cloud-config secrets by
    those of the config it creates, and the reconciliations of a machine
    deployment reach a fixed point. *)

From S2P Require Import Prelude GoStrings Encoding Types SDK Effects Api ContainerRuntime Generator.
From S2P Require Import OSCResources Bootstrap OSCController.

(** ** Deletions against a server *)

Section Deletions.
Context `{OSCLibs} {S : Type} `{ApiServerLaws Credentials S}.

Lemma delete_if_found_absent c k n fmt args (s s' : S) :
  interp handle (delete_if_found c k n fmt args) s = (Ok tt, s') ->
  (forall o, stored s (cluster_of c) k n = Some o -> Finalizers (meta_of o) = []) ->
  stored s' (cluster_of c) k n = None.
Proof.
  unfold delete_if_found. rewrite interp_bind_trigger. intros Hi Hfin.
  destruct (handle _ (Delete c k n) s) as [a s1] eqn:Hd. cbn [fst snd] in Hi. destruct a as [[]|e|w].
  - cbn [interp] in Hi. injection Hi as <-. by apply (Delete_ok s c k n s1 Hd).
  - destruct (IsNotFound e) eqn:He; cbn [interp] in Hi; [|done]. injection Hi as <-.
    by apply (Delete_err s c k n e s1 Hd).
  - done.
Qed.

(** An absent object stays absent. *)
Lemma delete_if_found_keeps c k n fmt args (s s' : S) cl k' n' :
  interp handle (delete_if_found c k n fmt args) s = (Ok tt, s') ->
  ~ (cluster_of c = cl /\ k = k' /\ n = n') -> stored s' cl k' n' = stored s cl k' n'.
Proof.
  intros Hi Hne.
  rewrite <- (interp_stored (fun w => w = WDelete {| ref_client := c; ref_kind := k; ref_key := n |}) cl k' n'
    (delete_if_found c k n fmt args) s); [by rewrite Hi| |].
  - unfold delete_if_found. repeat calls_step; [reflexivity|exact I..].
  - by intros w ->.
Qed.

Lemma delete_secret_keeps_absent n fmt args (s s' : S) n' :
  interp handle (delete_if_found WorkerClient KSecret n fmt args) s = (Ok tt, s') ->
  stored s (cluster_of WorkerClient) KSecret n' = None -> stored s' (cluster_of WorkerClient) KSecret n' = None.
Proof.
  intros Hi Hn. destruct (decide (n = n')) as [->|Hne].
  - apply (delete_if_found_absent _ _ _ _ _ _ _ Hi). intros o Ho. congruence.
  - rewrite <- Hn. apply (delete_if_found_keeps _ _ _ _ _ _ _ _ _ _ Hi). by intros (_ & _ & ?).
Qed.
End Deletions.

(** ** A reconciliation that generates *)

Section Refresh.
Context `{OSCLibs} {S : Type} `{ApiServerLaws Credentials S, !NamedServer Credentials S}.
Variable r : Reconciler.
Variable md : MachineDeployment.

Definition cloud_config_types : list string := [ProvisioningCloudConfig; BootstrapCloudConfig].

(** The names the generated secrets are kept under are all different. *)
Record separate_names : Prop := {
  types_separate : cloud_config_name md ProvisioningCloudConfig <> cloud_config_name md BootstrapCloudConfig;
  tokens_separate : CloudInitSettingsNamespace <> NamespaceSystem;
  kubeconfig_separate T : T ∈ cloud_config_types ->
    settings_key (cloud_config_name md T) <>
    {| NN_Namespace := CloudInitNamespace; NN_Name := bootstrapConfigName (machineDeploymentKey md) |};
  script_separate T : T ∈ cloud_config_types -> settings_key (cloud_config_name md T) <> ref_key (script_ref md)
}.

(** Nothing is generated yet, or what is generated is outdated. *)
Definition to_generate (osp : OperatingSystemProfile) (s : S) : Prop :=
  match stored_osc r md s with
  | Some osc => ~ up_to_date md osp osc
  | None => forall T, T ∈ cloud_config_types -> stored_secret s (cloud_config_name md T) = None
  end.

(** No finalizer delays the deletion of what the controller owns. *)
Definition deletable (s : S) : Prop :=
  (forall osc, stored_osc r md s = Some osc -> Finalizers (OSC_Meta osc) = []) /\
  (forall T secret, T ∈ cloud_config_types -> stored_secret s (cloud_config_name md T) = Some secret ->
     Finalizers (Secret_Meta secret) = []).

(** The config and both secrets are absent. *)
Definition nothing_generated (s : S) : Prop :=
  stored_osc r md s = None /\
  forall T, T ∈ cloud_config_types -> stored_secret s (cloud_config_name md T) = None.

(** The secret of type [T] holds the user data of [config]. *)
Definition serves (s : S) (osc : OperatingSystemConfig) (T : string) (config : OSCConfig) (version : string) : Prop :=
  let spec := OSC_Spec osc in
  exists data mdhash,
    Generate config (OSC_ProvisioningUtility spec) (OSC_OSName spec)
      (CloudProviderSpec_Name (OSC_CloudProvider spec)) md T = Ok data /\
    calculateAnnotationsHash (MD_Annotations md) = Ok mdhash /\
    stored_secret s (cloud_config_name md T) = Some (cloud_config_secret md T data mdhash version).

(** Reads and writes elsewhere leave what is generated alone. *)
Lemma nothing_generated_eq (s s' : S) :
  stored_osc r md s' = stored_osc r md s ->
  (forall T, T ∈ cloud_config_types ->
     stored_secret s' (cloud_config_name md T) = stored_secret s (cloud_config_name md T)) ->
  nothing_generated s -> nothing_generated s'.
Proof. intros Ho Hs [Hn1 Hn2]. split; [congruence|]. intros T HT. rewrite Hs by done. auto. Qed.

Lemma nothing_generated_same (s s' : S) :
  (forall cl k n, stored s' cl k n = stored s cl k n) -> nothing_generated s -> nothing_generated s'.
Proof.
  intros Hs. apply nothing_generated_eq.
  - exact (Hs (cluster_of ControlClient) KOperatingSystemConfig (osc_key r md)).
  - intros T _. exact (Hs (cluster_of WorkerClient) KSecret (settings_key (cloud_config_name md T))).
Qed.

Lemma deleteGeneratedSecrets_absent (s s' : S) :
  separate_names ->
  (forall T secret, T ∈ cloud_config_types -> stored_secret s (cloud_config_name md T) = Some secret ->
     Finalizers (Secret_Meta secret) = []) ->
  interp handle (deleteGeneratedSecrets md) s = (Ok tt, s') ->
  forall T, T ∈ cloud_config_types -> stored_secret s' (cloud_config_name md T) = None.
Proof.
  intros Hsep Hfin. unfold deleteGeneratedSecrets. rewrite interp_bindIO_Ok. intros ([] & s1 & Hp & Hi).
  apply interp_bindIO_Ok in Hi as ([] & s2 & Hb & Hi).
  assert (stored_secret s1 (cloud_config_name md ProvisioningCloudConfig) = None) as Hp1.
  { apply (delete_if_found_absent _ _ _ _ _ _ _ Hp). intros o Ho. apply (Hfin ProvisioningCloudConfig); [set_solver|done]. }
  assert (stored_secret s2 (cloud_config_name md BootstrapCloudConfig) = None) as Hb2.
  { apply (delete_if_found_absent _ _ _ _ _ _ _ Hb). intros o Ho.
    rewrite (delete_if_found_keeps _ _ _ _ _ _ _ (cluster_of WorkerClient) KSecret
      (settings_key (cloud_config_name md BootstrapCloudConfig)) Hp) in Ho.
    - apply (Hfin BootstrapCloudConfig); [set_solver|done].
    - intros (_ & _ & Heq). by injection Heq as Heq%(types_separate Hsep). }
  intros T HT. apply (delete_secret_keeps_absent _ _ _ _ _ _ Hi).
  apply list_elem_of_In in HT as [<-|[<-|[]]]; [|exact Hb2].
  exact (delete_secret_keeps_absent _ _ _ _ _ _ Hb Hp1).
Qed.

(** The rotation leaves nothing behind when there is something to generate. *)
Lemma rotation_clears osp (s s' : S) :
  separate_names -> valid s -> to_generate osp s -> deletable s ->
  interp handle (handleOSCAndSecretsRotation r md osp) s = (Ok tt, s') -> nothing_generated s'.
Proof.
  intros Hsep Hvalid Hgen Hdeletable. unfold handleOSCAndSecretsRotation. rewrite interp_bind_trigger.
  destruct (handle _ _ s) as [got s0] eqn:Hget. cbn [fst snd].
  pose proof (Get_frame s ControlClient KOperatingSystemConfig (osc_key r md) got s0 Hget) as Hs0. unfold to_generate in Hgen.
  destruct (stored_osc r md s) as [old|] eqn:Hold.
  - destruct (honest_answer _ (Get ControlClient KOperatingSystemConfig (osc_key r md)) s got s0 Hvalid Hget)
      as [Hkey _].
    pose proof (Get_found s ControlClient KOperatingSystemConfig (osc_key r md) old got s0 Hold Hget) as ->.
    cbn [honest on_ok meta_of] in Hkey.
    unfold pureIO, calculateAnnotationsHash. cbn [bindIO bind].
    destruct (rotation_not_required _ _ _ _) eqn:Hrot.
    { by apply rotation_not_required_spec in Hrot. }
    destruct Hdeletable as [Hfo Hfs]. intros Hi. apply interp_bindIO_Ok in Hi as ([] & s2 & Hdel & Hi). apply interp_wrapIO_Ok in Hdel.
    rewrite interp_trigger, Hkey in Hdel.
    assert (stored_osc r md s2 = None) as Hnone.
    { apply (Delete_ok s0 ControlClient KOperatingSystemConfig (osc_key r md) s2 Hdel).
      intros o Ho. rewrite Hs0 in Ho. exact (Hfo o Ho). }
    split; [rewrite <- Hnone; exact (deleteGeneratedSecrets_frame r md s2 _ s' Hi)|].
    apply (deleteGeneratedSecrets_absent s2 s'); [done| |done].
    intros T secret HT Hsec. apply (Hfs T); [done|]. rewrite <- Hsec. unfold stored_secret. rewrite <- Hs0.
    symmetry. apply (handle_stored _ (Delete ControlClient KOperatingSystemConfig (osc_key r md)) s0 _ s2
      (cluster_of WorkerClient) KSecret (settings_key (cloud_config_name md T)) Hdel).
    by intros w [= <-] (_ & ? & _).
  - assert (nothing_generated s) as Hnothing by (by split).
    destruct got as [o|e|w]; [|destruct (IsNotFound e); [|done]|done].
    + pose proof (Get_ok s ControlClient KOperatingSystemConfig (osc_key r md) o s0 Hget) as Ho.
      unfold stored_osc in Hold. congruence.
    + intros [= <-]. exact (nothing_generated_same s s0 Hs0 Hnothing).
Qed.

Lemma bootstrap_write_kind b name w : bootstrap_write b name w -> ref_kind (write_ref w) = KSecret.
Proof. destruct w as [x|x|x]; cbn; tauto. Qed.

(** The bootstrap credentials are kept under other names. *)
Lemma bootstrap_write_elsewhere T w :
  separate_names -> T ∈ cloud_config_types -> bootstrap_write (bootstrap r) (machineDeploymentKey md) w ->
  ~ touches (cluster_of WorkerClient) KSecret (settings_key (cloud_config_name md T)) w.
Proof.
  intros Hsep HT Hw (_ & _ & Hkey).
  assert (NN_Namespace (ref_key (write_ref w)) = NamespaceSystem \/ ref_key (write_ref w) =
    {| NN_Namespace := CloudInitNamespace; NN_Name := bootstrapConfigName (machineDeploymentKey md) |}) as [Hns|Hk]
    by (destruct w as [x|x|x]; cbn in *; tauto).
  - rewrite Hkey in Hns. by apply (tokens_separate Hsep).
  - rewrite Hkey in Hk. by apply (kubeconfig_separate Hsep T).
Qed.

Lemma CreateBootstrapKubeconfig_nothing (s s' : S) a :
  separate_names -> valid s -> nothing_generated s ->
  interp handle (CreateBootstrapKubeconfig (bootstrap r) (machineDeploymentKey md)) s = (a, s') ->
  nothing_generated s'.
Proof.
  intros Hsep Hvalid Hn Hi.
  assert (forall cl k n, (forall w, bootstrap_write (bootstrap r) (machineDeploymentKey md) w -> ~ touches cl k n w) ->
    stored s' cl k n = stored s cl k n) as Hframe.
  { intros cl k n Hw. rewrite <- (interp_stored_honest (bootstrap_write (bootstrap r) (machineDeploymentKey md)) cl k n
      (CreateBootstrapKubeconfig (bootstrap r) (machineDeploymentKey md)) s Hvalid); [by rewrite Hi| |done].
    apply CreateBootstrapKubeconfig_writes. }
  eapply nothing_generated_eq; [..|exact Hn]; unfold stored_osc, stored_secret.
  - apply (Hframe _ KOperatingSystemConfig). intros w Hw%bootstrap_write_kind (_ & Hkind & _). congruence.
  - intros T HT. apply (Hframe _ KSecret). intros w. by apply bootstrap_write_elsewhere.
Qed.

(** Creating a config writes it and, for edge machines, their script. *)
Lemma create_osc_calls osp kc kcName :
  all_calls (only_writes (fun w => ref_kind (write_ref w) = KOperatingSystemConfig \/ write_ref w = script_ref md))
    (create_osc r md osp kc kcName).
Proof.
  unfold create_osc, GetContainerdAuthConfig, ExtractAPIServerToken, generateEdgeScript.
  repeat calls_step; try exact I; [right; reflexivity|left; reflexivity].
Qed.

Lemma create_osc_absent osp kc kcName (s s' : S) :
  separate_names -> nothing_generated s ->
  interp handle (create_osc r md osp kc kcName) s = (Ok tt, s') ->
  forall T, T ∈ cloud_config_types -> stored_secret s' (cloud_config_name md T) = None.
Proof.
  intros Hsep [_ Hn] Hi T HT. rewrite <- (Hn T HT). unfold stored_secret.
  rewrite <- (interp_stored _ (cluster_of WorkerClient) KSecret (settings_key (cloud_config_name md T)) _ s
    (create_osc_calls osp kc kcName)); [by rewrite Hi|].
  intros w [Hk|Hw] (_ & Hkind & Hkey); [congruence|]. rewrite Hw in Hkey. by apply (script_separate Hsep T HT).
Qed.

Lemma reconcileOperatingSystemConfigs_generates osp (s s' : S) :
  separate_names -> valid s -> nothing_generated s ->
  interp handle (reconcileOperatingSystemConfigs r md osp) s = (Ok tt, s') ->
  (exists osc, stored_osc r md s' = Some osc /\ made_from r md osp osc) /\
  forall T, T ∈ cloud_config_types -> stored_secret s' (cloud_config_name md T) = None.
Proof.
  intros Hsep Hvalid Hn. unfold reconcileOperatingSystemConfigs. rewrite interp_bindIO_Ok.
  intros ([kc kcName] & s1 & Hboot & Hi). apply interp_wrapIO_Ok in Hboot.
  pose proof (CreateBootstrapKubeconfig_nothing s s1 _ Hsep Hvalid Hn Hboot) as Hn1.
  rewrite interp_bind_trigger in Hi. destruct (handle _ _ s1) as [got s2] eqn:Hget. cbn [fst snd] in Hi.
  pose proof (nothing_generated_same s1 s2
    (Get_frame s1 ControlClient KOperatingSystemConfig (osc_key r md) got s2 Hget) Hn1) as Hn2.
  destruct got as [o|e|w]; [| |done].
  - pose proof (Get_ok s1 ControlClient KOperatingSystemConfig (osc_key r md) o s2 Hget) as Ho.
    destruct Hn1 as [Hn1 _]. unfold stored_osc in Hn1. by rewrite Ho in Hn1.
  - split; [|exact (create_osc_absent osp kc kcName s2 s' Hsep Hn2 Hi)].
    apply create_osc_post in Hi as (osc & Hmade & Hst). by exists osc.
Qed.

Lemma ensureCloudConfigSecret_creates config utility T os cp v (s s' : S) :
  stored_secret s (cloud_config_name md T) = None ->
  interp handle (ensureCloudConfigSecret config utility T os cp md v) s = (Ok tt, s') ->
  (exists data mdhash, Generate config utility os cp md T = Ok data /\
     calculateAnnotationsHash (MD_Annotations md) = Ok mdhash /\
     stored_secret s' (cloud_config_name md T) = Some (cloud_config_secret md T data mdhash v)) /\
  forall name, name <> cloud_config_name md T -> stored_secret s' name = stored_secret s name.
Proof.
  intros Hnone. unfold ensureCloudConfigSecret. rewrite interp_bind_trigger.
  destruct (handle _ _ s) as [got s1] eqn:Hget. cbn [fst snd].
  pose proof (Get_frame s WorkerClient KSecret (settings_key (cloud_config_name md T)) got s1 Hget) as Hs1.
  destruct got as [o|e|w]; [| |done].
  - pose proof (Get_ok s WorkerClient KSecret (settings_key (cloud_config_name md T)) o s1 Hget) as Ho.
    unfold stored_secret in Hnone. by rewrite Ho in Hnone.
  - rewrite interp_bindIO_Ok. intros (data & s2 & Hg & Hi). apply interp_wrapIO_Ok in Hg.
    cbn [pureIO interp] in Hg. injection Hg as Hg <-.
    apply interp_bindIO_Ok in Hi as (mdhash & s3 & Hh & Hi). cbn [pureIO interp] in Hh. injection Hh as Hh <-.
    apply interp_wrapIO_Ok in Hi. rewrite interp_trigger in Hi.
    set (o := cloud_config_secret md T data mdhash v) in Hi. split.
    + exists data, mdhash. split; [done|]. split; [by rewrite <- Hh|].
      exact (proj2 (Create_ok s1 WorkerClient KSecret o s' ltac:(done) Hi)).
    + intros name Hne. unfold stored_secret. rewrite <- (Hs1 (cluster_of WorkerClient) KSecret).
      apply (handle_stored _ (Create WorkerClient KSecret o) s1 _ s' (cluster_of WorkerClient) KSecret _ Hi).
      intros w [= <-] (_ & _ & Hk). cbn in Hk. injection Hk as Hk. by subst.
Qed.

Lemma reconcileSecrets_generates osp osc (s s' : S) :
  separate_names -> stored_osc r md s = Some osc ->
  (forall T, T ∈ cloud_config_types -> stored_secret s (cloud_config_name md T) = None) ->
  interp handle (reconcileSecrets r md osp) s = (Ok tt, s') ->
  stored_osc r md s' = Some osc /\
  serves s' osc ProvisioningCloudConfig (OSC_ProvisioningConfig (OSC_Spec osc)) (OSP_Version (OSP_Spec osp)) /\
  serves s' osc BootstrapCloudConfig (OSC_BootstrapConfig (OSC_Spec osc)) (OSP_Version (OSP_Spec osp)).
Proof.
  intros Hsep Hosc Habsent. unfold reconcileSecrets. rewrite interp_bindIO_Ok. intros (osc' & s1 & Hget & Hi).
  apply interp_wrapIO_Ok in Hget. rewrite interp_trigger in Hget.
  pose proof (Get_frame s ControlClient KOperatingSystemConfig (osc_key r md) _ s1 Hget) as Hs1.
  pose proof (Get_found s ControlClient KOperatingSystemConfig (osc_key r md) osc _ s1 Hosc Hget) as [= ->].
  assert (forall name, stored_secret s1 name = stored_secret s name) as Hsec1
    by exact (fun name => Hs1 (cluster_of WorkerClient) KSecret (settings_key name)).
  apply interp_bindIO_Ok in Hi as ([] & s2 & Hp & Hi). apply interp_wrapIO_Ok in Hp.
  apply interp_bindIO_Ok in Hi as ([] & s3 & Hb & Hi). apply interp_wrapIO_Ok in Hb.
  cbn [interp] in Hi. injection Hi as <-.
  pose proof (ensureCloudConfigSecret_post r md _ _ _ _ _ _ _ _ "" Hp) as (Hosc2 & _).
  pose proof (ensureCloudConfigSecret_post r md _ _ _ _ _ _ _ _ "" Hb) as (Hosc3 & _).
  apply ensureCloudConfigSecret_creates in Hp as [(dp & hp & Hgp & Hhp & Hp) Hpne];
    [|rewrite Hsec1; apply Habsent; set_solver].
  pose proof (not_eq_sym (types_separate Hsep)) as Hne.
  apply ensureCloudConfigSecret_creates in Hb as [(db & hb & Hgb & Hhb & Hb) Hbne];
    [|rewrite Hpne by done; rewrite Hsec1; apply Habsent; set_solver].
  split; [|split].
  - rewrite Hosc3, Hosc2. unfold stored_osc. rewrite <- Hosc. apply (Hs1 _ KOperatingSystemConfig).
  - exists dp, hp. split; [done|]. split; [done|]. rewrite Hbne; [done|]. apply (types_separate Hsep).
  - exists db, hb. by split; [|split].
Qed.

(** Fetching and checking the profile changes nothing. *)
Lemma fetch_reads : all_calls (only_writes (fun _ => False)) (fetchOSP r md).
Proof. unfold fetchOSP. repeat calls_step; exact I. Qed.
Lemma check_reads osp : all_calls (only_writes (fun _ => False)) (checkOSP md osp).
Proof. unfold checkOSP. repeat calls_step; exact I. Qed.

(** Both secrets hold the user data of the config. *)
Definition served (s : S) (osc : OperatingSystemConfig) (version : string) : Prop :=
  serves s osc ProvisioningCloudConfig (OSC_ProvisioningConfig (OSC_Spec osc)) version /\
  serves s osc BootstrapCloudConfig (OSC_BootstrapConfig (OSC_Spec osc)) version.

Lemma reconcile_regenerates osp (s s' : S) :
  separate_names -> valid s -> deletable s ->
  stored s (cluster_of ControlClient) KOperatingSystemProfile (profile_key r md) = Some osp ->
  to_generate osp s -> interp handle (reconcile r md) s = (Ok tt, s') ->
  exists osc, stored_osc r md s' = Some osc /\ made_from r md osp osc /\ served s' osc (OSP_Version (OSP_Spec osp)).
Proof.
  intros Hsep Hvalid Hdel Hosp Hgen. unfold reconcile. rewrite interp_bindIO_Ok. intros (osp' & s1 & Hf & Hi).
  apply interp_wrapIO_Ok in Hf. pose proof (fun cl k n => reads_stored _ s s1 _ cl k n fetch_reads Hf) as Hs1.
  pose proof (interp_valid _ s _ s1 Hvalid Hf) as Hv1. apply fetchOSP_post in Hf as [Hosp' _].
  rewrite Hosp in Hosp'. injection Hosp' as <-.
  apply interp_bindIO_Ok in Hi as ([] & s2 & Hc & Hi). apply interp_wrapIO_Ok in Hc.
  pose proof (fun cl k n => reads_stored _ s1 s2 _ cl k n (check_reads osp) Hc) as Hs2.
  pose proof (interp_valid _ s1 _ s2 Hv1 Hc) as Hv2.
  apply interp_bindIO_Ok in Hi as ([] & s3 & Hrot & Hi). apply interp_wrapIO_Ok in Hrot.
  apply interp_bindIO_Ok in Hi as ([] & s4 & Hosc & Hi). apply interp_wrapIO_Ok in Hosc.
  apply interp_bindIO_Ok in Hi as ([] & s5 & Hsec & Hi). apply interp_wrapIO_Ok in Hsec.
  cbn [interp] in Hi. injection Hi as <-.
  assert (stored_osc r md s2 = stored_osc r md s /\ forall name, stored_secret s2 name = stored_secret s name)
    as [Ho2 Hn2].
  { unfold stored_osc, stored_secret. split; [|intros name]; by rewrite Hs2, Hs1. }
  assert (nothing_generated s3) as Hn3.
  { apply (rotation_clears osp s2 s3); [done..| | |done].
    - unfold to_generate in *. rewrite Ho2. destruct (stored_osc r md s); [done|].
      intros T HT. rewrite Hn2. by apply Hgen.
    - unfold deletable. rewrite Ho2. setoid_rewrite Hn2. exact Hdel. }
  pose proof (interp_valid _ s2 _ s3 Hv2 Hrot) as Hv3.
  destruct (reconcileOperatingSystemConfigs_generates osp s3 s4 Hsep Hv3 Hn3 Hosc)
    as [(osc & Hst & Hmade) Habsent].
  exists osc. destruct (reconcileSecrets_generates osp osc s4 s5 Hsep Hst Habsent Hsec) as (? & ? & ?). done.
Qed.

(** when there is something to generate, because nothing is there or because the config is outdated, a reconciliation that returns without an error leaves a config that was just generated from the profile, is current, and is what exactly the two secrets were made from: no secret of an earlier config survives *)
Theorem reconcile_refreshes osp (s s' : S) :
  rotation_keys -> separate_names -> valid s -> deletable s ->
  stored s (cluster_of ControlClient) KOperatingSystemProfile (profile_key r md) = Some osp ->
  to_generate osp s -> interp handle (reconcile r md) s = (Ok tt, s') ->
  exists osc, stored_osc r md s' = Some osc /\ made_from r md osp osc /\ up_to_date md osp osc /\
    served s' osc (OSP_Version (OSP_Spec osp)).
Proof.
  intros Hkeys Hsep Hvalid Hdel Hosp Hgen Hi.
  destruct (reconcile_regenerates osp s s' Hsep Hvalid Hdel Hosp Hgen Hi) as (osc & Hst & Hmade & Hserved).
  exists osc. split; [done|]. split; [done|]. split; [|done]. by apply (made_from_up_to_date r md osp).
Qed.
End Refresh.

(** ** The fixed point *)

Section FixedPoint.
Context `{OSCLibs} {S : Type} `{ApiServerLaws Credentials S, !NamedServer Credentials S}.
Variable r : Reconciler.
Variable md : MachineDeployment.

(** The profile, a current config and both secrets are there. *)
Record settled_state (osp : OperatingSystemProfile) (osc : OperatingSystemConfig) (provisioning bootstrapping : Secret)
    (s : S) : Prop := {
  settled_valid : valid s;
  settled_profile : stored s (cluster_of ControlClient) KOperatingSystemProfile (profile_key r md) = Some osp;
  settled_osc : stored_osc r md s = Some osc;
  settled_provisioning : stored_secret s (cloud_config_name md ProvisioningCloudConfig) = Some provisioning;
  settled_bootstrapping : stored_secret s (cloud_config_name md BootstrapCloudConfig) = Some bootstrapping
}.

Lemma settled_answers osp osc sp sb X (e : ApiE Credentials X) (s : S) :
  up_to_date md osp osc -> settled_state osp osc sp sb s ->
  settled r md osp X e (handle _ e s).1 /\ honest X e (handle _ e s).1.
Proof.
  intros Hup [Hv Hosp Hosc Hp Hb]. split; [|by apply valid_answer].
  destruct e as [c k n| | | | | | | | | |]; try done. destruct c, k; try done; cbn [settled].
  - intros ->. exact (Get_stored s ControlClient KOperatingSystemProfile _ osp Hosp).
  - intros ->. exists osc. split; [|done]. exact (Get_stored s ControlClient KOperatingSystemConfig _ osc Hosc).
  - intros Hn. apply list_elem_of_In in Hn as [<-|[<-|[]]].
    + exists sp. exact (Get_stored s WorkerClient KSecret _ sp Hp).
    + exists sb. exact (Get_stored s WorkerClient KSecret _ sb Hb).
Qed.

Lemma settled_step osp osc sp sb X (e : ApiE Credentials X) (s : S) :
  separate_names md -> settled_state osp osc sp sb s ->
  only_writes (bootstrap_write (bootstrap r) (machineDeploymentKey md)) X e ->
  settled_state osp osc sp sb (handle _ e s).2.
Proof.
  intros Hsep [Hv Hosp Hosc Hp Hb] He.
  assert (forall w, writes e = Some w -> bootstrap_write (bootstrap r) (machineDeploymentKey md) w) as Hw
    by (intros w Hw; unfold only_writes in He; by rewrite Hw in He).
  split; [by apply valid_step|unfold stored_osc, stored_secret in *; rewrite handle_frame; [done|]..].
  - intros w Hwr (_ & Hkind & _). apply Hw, bootstrap_write_kind in Hwr. congruence.
  - intros w Hwr (_ & Hkind & _). apply Hw, bootstrap_write_kind in Hwr. congruence.
  - intros w Hwr%Hw. apply (bootstrap_write_elsewhere r); [done|set_solver|done].
  - intros w Hwr%Hw. apply (bootstrap_write_elsewhere r); [done|set_solver|done].
Qed.

(** One reconciliation of a settled state, whether it succeeds or not. *)
Lemma settled_reconcile osp osc sp sb (s : S) :
  separate_names md -> up_to_date md osp osc -> settled_state osp osc sp sb s ->
  settled_state osp osc sp sb (interp handle (reconcile r md) s).2 /\
  Forall (fun o => forall w, obs_writes o = Some w -> bootstrap_write (bootstrap r) (machineDeploymentKey md) w)
    (trace handle (reconcile r md) s).
Proof.
  intros Hsep Hup Hs.
  destruct (interp_calls_when handle (settled_state osp osc sp sb) _ _ (reconcile r md) s
    (fun X e s' => settled_answers osp osc sp sb X e s' Hup)
    (fun X e s' => settled_step osp osc sp sb X e s' Hsep) Hs (reconcile_settled r md osp)) as [H1' H2'].
  split; [done|]. eapply Forall_impl; [exact H2'|]. intros [X e x] Ho w Hw. cbn in Hw.
  unfold only_writes in Ho. by rewrite Hw in Ho.
Qed.

(** What is stored under a name has that name. *)
Lemma valid_stored c k n o (s : S) : valid s -> stored s (cluster_of c) k n = Some o -> key_of (meta_of o) = n.
Proof.
  intros Hv Ho. pose proof (valid_answer _ (Get c k n) s Hv) as Ha. by rewrite (Get_stored s c k n o Ho) in Ha.
Qed.

(** A reconciliation writes no profile. *)
Lemma reconcile_no_profile :
  all_calls (only_writes (fun w => ref_kind (write_ref w) <> KOperatingSystemProfile)) (reconcile r md).
Proof.
  apply all_calls_of_when. apply reconcile_writes; [| |done].
  - eapply all_calls_when; [|apply CreateBootstrapKubeconfig_kind]. intros X e.
    apply only_writes_mono. by intros w ->.
  - intros X e. apply only_writes_mono. intros w Hw.
    destruct w as [x|x|x]; [destruct Hw as [->|[Hx| ->]]|done|destruct Hw as [->|Hx]]; try done.
    all: unfold generated_secrets in Hx; cbn [take] in Hx; rewrite !elem_of_cons, elem_of_nil in Hx.
    all: by repeat destruct Hx as [->|Hx].
Qed.

Lemma reconcile_keeps_profiles cl n (s : S) :
  stored (interp handle (reconcile r md) s).2 cl KOperatingSystemProfile n = stored s cl KOperatingSystemProfile n.
Proof. apply (interp_stored _ _ _ _ _ _ reconcile_no_profile). by intros w Hw (_ & Hk & _). Qed.

(** The state after [n] more reconciliations, whether they succeed or not. *)
Definition rounds (n : nat) (s : S) : S := Nat.iter n (fun s => (interp handle (reconcile r md) s).2) s.

(** C8: repeated reconciliations reach a fixed point after the first that succeeds: from then on, whether the later ones succeed or fail, the config and the two secrets never change, and each later reconciliation writes at most the bootstrap credentials *)
Theorem reconcile_fixpoint osp (s s' : S) :
  rotation_keys -> separate_names md -> valid s ->
  (forall osc, stored_osc r md s = Some osc -> Finalizers (OSC_Meta osc) = []) ->
  stored s (cluster_of ControlClient) KOperatingSystemProfile (profile_key r md) = Some osp ->
  interp handle (reconcile r md) s = (Ok tt, s') ->
  exists osc sp sb, up_to_date md osp osc /\ forall n,
    settled_state osp osc sp sb (rounds n s') /\
    Forall (fun o => forall w, obs_writes o = Some w -> bootstrap_write (bootstrap r) (machineDeploymentKey md) w)
      (trace handle (reconcile r md) (rounds n s')).
Proof.
  intros Hkeys Hsep Hv Hfin Hosp Hi.
  destruct (reconcile_post r md s s' Hkeys) as (osp' & Hosp' & (osc & Hosc & Hup) & (sp & Hsp) & (sb & Hsb)); [|done|].
  { intros o Ho. split; [|by apply Hfin]. exact (valid_stored _ KOperatingSystemConfig _ o s Hv Ho). }
  rewrite Hosp in Hosp'. injection Hosp' as <-. exists osc, sp, sb. split; [done|].
  assert (forall n, settled_state osp osc sp sb (rounds n s')) as Hs; [|intros n; split; [done|]].
  - induction n as [|n IH]; cbn.
    + split; [by eapply interp_valid| |done..]. etransitivity; [|exact Hosp].
      pose proof (reconcile_keeps_profiles (cluster_of ControlClient) (profile_key r md) s) as Hp.
      by rewrite Hi in Hp.
    + by apply settled_reconcile.
  - by apply (settled_reconcile osp osc sp sb).
Qed.
End FixedPoint.

(** ** Evaluation on concrete inputs *)

Import OSCController.Demo.

Lemma Demo_separate : separate_names OSCController.Demo.md.
Proof.
  split; [apply (bool_decide_unpack _); vm_compute; exact I..| |];
    intros T [<-|[<-|[]]]%list_elem_of_In; apply (bool_decide_unpack _); vm_compute; exact I.
Qed.

Lemma stale_store_valid : valid OSCController.Demo.stale_store.
Proof. do 2 apply with_object_valid. exact store0_valid. Qed.

Lemma stale_store_osc :
  stored_osc OSCController.Demo.reconciler OSCController.Demo.md OSCController.Demo.stale_store =
  Some {| OSC_Meta := object_meta "md-1-kube-system-config" "osm"; OSC_Spec := OSC_Spec OSCController.Demo.osc |}.
Proof. vm_compute. reflexivity. Qed.

Lemma stale_store_deletable : deletable OSCController.Demo.reconciler OSCController.Demo.md OSCController.Demo.stale_store.
Proof.
  split; [intros osc|intros T secret [<-|[<-|[]]]%list_elem_of_In]; vm_compute; intros H;
    (discriminate H || (injection H as <-; reflexivity)).
Qed.

Lemma reconcile_refreshes_witness :
  stored_secret OSCController.Demo.stale_store (cloud_config_name OSCController.Demo.md ProvisioningCloudConfig) =
    Some OSCController.Demo.old_secret /\
  exists osc, stored_osc OSCController.Demo.reconciler OSCController.Demo.md
    (interp handle (reconcile OSCController.Demo.reconciler OSCController.Demo.md) OSCController.Demo.stale_store).2
    = Some osc /\ up_to_date OSCController.Demo.md OSCController.Demo.osp osc.
Proof.
  split; [vm_compute; reflexivity|].
  destruct (reconcile_refreshes OSCController.Demo.reconciler OSCController.Demo.md OSCController.Demo.osp
    OSCController.Demo.stale_store
    (interp handle (reconcile OSCController.Demo.reconciler OSCController.Demo.md) OSCController.Demo.stale_store).2
    Demo_keys Demo_separate stale_store_valid stale_store_deletable)
    as (osc & Hosc & _ & Hup & _).
  - vm_compute. reflexivity.
  - unfold to_generate. rewrite stale_store_osc. intros (h & _ & Hr & _). vm_compute in Hr. discriminate Hr.
  - apply (interp_fst_Ok handle (reconcile OSCController.Demo.reconciler OSCController.Demo.md)
      OSCController.Demo.stale_store tt). vm_compute. reflexivity.
  - exists osc. split; [exact Hosc|exact Hup].
Defined.

Lemma reconcile_fixpoint_witness :
  exists osc, forall n, stored_osc OSCController.Demo.reconciler OSCController.Demo.md
    (rounds OSCController.Demo.reconciler OSCController.Demo.md n OSCController.Demo.reconciled.2) = Some osc.
Proof.
  destruct (reconcile_fixpoint OSCController.Demo.reconciler OSCController.Demo.md OSCController.Demo.osp
    OSCController.Demo.store0 OSCController.Demo.reconciled.2 Demo_keys Demo_separate store0_valid)
    as (osc & sp & sb & _ & Hn).
  - intros osc Hosc. vm_compute in Hosc. discriminate Hosc.
  - vm_compute. reflexivity.
  - apply (interp_fst_Ok handle (reconcile OSCController.Demo.reconciler OSCController.Demo.md)
      OSCController.Demo.store0 tt). vm_compute. reflexivity.
  - exists osc. intros n. destruct (Hn n) as [Hs _]. exact (settled_osc _ _ _ _ _ _ _ Hs).
Defined.
