(* ===== verification/Progress.v ===== *)
(** * Reconciliations succeed

    The other theorems about [OSCController] say what a reconciliation that
    returned without an error has done.  This file says when it does return
    without an error: against a server that is [Available], from a state in which
    the credentials it needs can be read or made, a reconciliation returns [Ok],
    and so does the cleanup of a machine deployment that is deleted. *)

From S2P Require Import Prelude GoStrings Encoding Types Finalizers SDK Effects Api ContainerRuntime Generator.
From S2P Require Import OSCResources Bootstrap OSCController Availability Convergence.

(** Besides the writes of [W], those to machine deployments, which nothing below reads. *)
Definition or_deployment (W : write -> Prop) (w : write) : Prop :=
  W w \/ ref_kind (write_ref w) = KMachineDeployment.

Lemma unmoved_but {R S} `{ApiServer R S} (W : write -> Prop) (s s' : S) cl k n :
  unmoved (or_deployment W) s s' -> elsewhere W cl k n -> k <> KMachineDeployment ->
  stored s' cl k n = stored s cl k n.
Proof. intros Hu He Hk. apply Hu. intros w [Hw|Hw] Ht; [by apply (He w)|]. destruct Ht as (_ & Hk' & _). congruence. Qed.

Lemma unmoved_deployment {R S} `{ApiServer R S} (s s' : S) cl k n :
  unmoved (or_deployment (fun _ => False)) s s' -> k <> KMachineDeployment -> stored s' cl k n = stored s cl k n.
Proof. intros Hu. apply (unmoved_but _ s s' cl k n Hu). by intros w. Qed.

Lemma unmoved_or {R S} `{ApiServer R S} (W W' : write -> Prop) (s s' : S) :
  (forall w, W w -> or_deployment W' w) -> unmoved W s s' -> unmoved (or_deployment W') s s'.
Proof. intros HW Hu cl k n He. apply Hu. intros w Hw. by apply He, HW. Qed.

(** ** Bootstrap credentials *)

Section Credentials.
Context `{BootstrapLibs} {R S : Type} `{ApiServerLaws R S, !NamedServer R S, !Available R S}.
Variable b : BootstrapManager.
Variable name : string.
(** The writes that may come first. *)
Variable W : write -> Prop.
Abbreviation c := (bootstrap_client b).

(** The secret is stored as a bootstrap token of [name]. *)
Definition token_secret (s : S) (n : NamespacedName) (secret : Secret) : Prop :=
  stored s (cluster_of c) KSecret n = Some secret /\ NN_Namespace n = NamespaceSystem /\
  Labels (Secret_Meta secret) !! machineDeploymentNameLabelKey = Some name.

(** The token of the first secret of the token type. *)
Fixpoint account_token (lookup : string -> option Secret) (secrets : list string) : option string :=
  match secrets with
  | [] => None
  | n :: secrets =>
      secret ← lookup n;
      if decide (Secret_Type secret = "kubernetes.io/service-account-token")
      then Some (secret_get (Secret_Data secret) "token")
      else account_token lookup secrets
  end.

(** Where the token comes from: the one secret there is, a new one under a name
    that is free, or the service account. *)
Inductive token_ready (s : S) : string -> Prop :=
| token_kept n secret expiration :
    bootstrapTokenServiceAccountName b = None ->
    NewRequirement machineDeploymentNameLabelKey name = Ok tt ->
    token_secret s n secret -> (forall n' secret', token_secret s n' secret' -> n' = n) ->
    time_Parse (secret_get (Secret_Data secret) expirationKey) = Ok expiration ->
    token_ready s (format_token (secret_get (Secret_Data secret) tokenIDKey) (secret_get (Secret_Data secret) tokenSecretKey))
| token_drawn id key :
    bootstrapTokenServiceAccountName b = None ->
    NewRequirement machineDeploymentNameLabelKey name = Ok tt ->
    (forall n secret, ~ token_secret s n secret) -> draws [6; 16]%nat s = [id; key] ->
    stored s (cluster_of c) KSecret {| NN_Namespace := NamespaceSystem; NN_Name := "bootstrap-token-" +:+ id |} = None ->
    token_ready s (format_token id key)
| token_of_account sa account token :
    bootstrapTokenServiceAccountName b = Some sa ->
    stored s (cluster_of c) KServiceAccount sa = Some account ->
    account_token (fun n => stored s (cluster_of c) KSecret {| NN_Namespace := Namespace (SA_Meta account); NN_Name := n |})
      (SA_Secrets account) = Some token ->
    Forall (fun n => elsewhere W (cluster_of c) KSecret {| NN_Namespace := Namespace (SA_Meta account); NN_Name := n |})
      (SA_Secrets account) ->
    token_ready s token.

Definition cluster_info (s : S) : option ConfigMap :=
  stored s (cluster_of (provider_client b)) KConfigMap {| NN_Namespace := NamespacePublic; NN_Name := "cluster-info" |}.

(** Where the address of the API server comes from. *)
Inductive info_ready (s : S) : Kubeconfig -> Prop :=
| info_published cm text info :
    cluster_info s = Some cm -> ConfigMap_Data cm !! "kubeconfig" = Some text -> clientcmd_Load text = Ok info ->
    info_ready s info
| info_from_slices slices info :
    match cluster_info s with
    | Some cm => match ConfigMap_Data cm !! "kubeconfig" with
                 | Some text => exists e, clientcmd_Load text = Err e
                 | None => True
                 end
    | None => True
    end ->
    listed s (provider_client b) NamespaceDefault "kubernetes.io/service-name" "kubernetes" = Ok slices ->
    kubeconfig_of_slices (provider_caCert b) slices = Ok info ->
    info_ready s info.

(** The bootstrap kubeconfig can be made, and is [kc]. *)
Definition bootstrap_ready (s : S) (kc : Kubeconfig) : Prop :=
  exists token info text, token_ready s token /\ info_ready s info /\
    bootstrap_kubeconfig (overrideBootstrapKubeletAPIServer b) token info = Ok kc /\ StringifyKubeconfig kc = Ok text.

Lemma GetKubeconfig_achieves s info (Q : Kubeconfig -> S -> Prop) :
  info_ready s info -> (forall s', Q info s') ->
  achieves (GetKubeconfig (provider_client b) (provider_caCert b)) s Q.
Proof.
  intros Hinfo HQ. unfold GetKubeconfig, getKubeconfigFromConfigMap.
  assert (forall s' slices, (forall c ns l v, listed s' c ns l v = listed s c ns l v) ->
    listed s (provider_client b) NamespaceDefault "kubernetes.io/service-name" "kubernetes" = Ok slices ->
    kubeconfig_of_slices (provider_caCert b) slices = Ok info ->
    achieves (buildKubeconfigFromEndpointSlice (provider_client b) (provider_caCert b)) s' Q) as Hslices.
  { intros s' slices Hl Hs Hk. unfold buildKubeconfigFromEndpointSlice. apply achieves_bindIO, achieves_wrapIO.
    rewrite <- Hl in Hs. apply (achieves_trigger _ slices); [exact Hs|]. by apply (achieves_pure _ info). }
  destruct Hinfo as [cm text info Hcm Ht Hl|slices info Hno Hs Hk].
  - apply (achieves_get _ KConfigMap _ cm); [exact Hcm|]. intros s' _ _. cbn [bind]. rewrite Ht. unfold pureIO. rewrite Hl.
    cbn [bind]. by apply achieves_Ret.
  - destruct (cluster_info s) as [cm|] eqn:Hcm.
    + apply (achieves_get _ KConfigMap _ cm); [exact Hcm|]. intros s' (_ & _ & Hsl & _) _. cbn [bind pureIO].
      destruct (ConfigMap_Data cm !! "kubeconfig"); [destruct Hno as [e ->]|]; cbn [bind]; by apply (Hslices s' slices).
    + apply (achieves_get_absent _ KConfigMap _); [exact Hcm|]. intros e s' _ (_ & _ & Hsl & _) _. cbn [bind].
      by apply (Hslices s' slices).
Qed.

Lemma first_token_secret_achieves namespace secrets token s (Q : string -> S -> Prop) :
  account_token (fun n => stored s (cluster_of c) KSecret {| NN_Namespace := namespace; NN_Name := n |}) secrets = Some token ->
  (forall s', (forall cl k n, stored s' cl k n = stored s cl k n) -> Q token s') ->
  achieves (first_token_secret b namespace secrets) s Q.
Proof.
  intros Ht HQ. assert (exists s0, s0 = s /\ forall cl k n, stored s cl k n = stored s0 cl k n) as (s0 & Heq & Hs) by eauto.
  rewrite <- Heq in Ht, HQ. clear Heq.
  revert s Hs. induction secrets as [|n secrets IH]; intros s Hs; [done|]. cbn [account_token first_token_secret] in *.
  destruct (stored s0 _ _ _) as [secret|] eqn:Hsec; [|done]. cbn [mbind option_bind] in Ht.
  apply achieves_bindIO, achieves_wrapIO. unfold getAsUnstructured.
  apply achieves_wrapIO, (achieves_get_found _ KSecret _ secret); [by rewrite Hs|].
  intros s' [Hs' _]. assert (forall cl k n, stored s' cl k n = stored s0 cl k n) as Hs2 by (intros; by rewrite Hs', Hs).
  destruct (decide _); [|by apply IH]. injection Ht as <-. apply achieves_Ret. by apply HQ.
Qed.

(** The secrets a list answers, when there is at most one. *)
Lemma ListSecrets_none s :
  (forall n secret, ~ token_secret s n secret) ->
  (handle _ (ListSecrets c NamespaceSystem machineDeploymentNameLabelKey name) s).1 = Ok [].
Proof.
  intros Hno. destruct (ListSecrets_stored s c NamespaceSystem machineDeploymentNameLabelKey name) as (l & -> & _ & Hl).
  destruct l as [|[n x] l]; [done|]. destruct (Hno n x). apply Hl. by left.
Qed.

Lemma ListSecrets_one s n secret :
  token_secret s n secret -> (forall n' secret', token_secret s n' secret' -> n' = n) ->
  (handle _ (ListSecrets c NamespaceSystem machineDeploymentNameLabelKey name) s).1 = Ok [secret].
Proof.
  intros Hsec Hone. destruct (ListSecrets_stored s c NamespaceSystem machineDeploymentNameLabelKey name) as (l & -> & Hd & Hl).
  assert (forall p, p ∈ l -> p = (n, secret)) as Hall.
  { intros [n' x] Hx%Hl. pose proof (Hone n' x Hx) as ->. destruct Hx as [Hx _], Hsec as [Hs _]. congruence. }
  assert ((n, secret) ∈ l) as Hin by (by apply Hl).
  destruct l as [|p [|p' l]]; [by apply not_elem_of_nil in Hin| |].
  - by rewrite (Hall p) by (by left).
  - exfalso. apply NoDup_cons in Hd as [Hd _]. apply Hd. rewrite (Hall p), <- (Hall p'); [by left|right; by left|by left].
Qed.

Lemma updateSecret_achieves n secret expiration s (Q : string -> S -> Prop) :
  stored s (cluster_of c) KSecret n = Some secret -> key_of (Secret_Meta secret) = n ->
  time_Parse (secret_get (Secret_Data secret) expirationKey) = Ok expiration ->
  (forall s', Q (format_token (secret_get (Secret_Data secret) tokenIDKey) (secret_get (Secret_Data secret) tokenSecretKey)) s') ->
  achieves (updateSecretExpirationAndGetToken b secret) s Q.
Proof.
  intros Hs Hkey Ht HQ. unfold updateSecretExpirationAndGetToken. apply achieves_bindIO, (achieves_pure _ expiration); [done|].
  apply achieves_Vis. destruct (near_expiry _ expiration); [|by apply achieves_Ret].
  apply achieves_Vis. apply achieves_bindIO, achieves_wrapIO, (achieves_update _ KSecret); [|intros o'; by apply achieves_Ret].
  exists secret. cbn [meta_of with_data Secret_Meta]. rewrite Hkey, <- Hs.
  rewrite (proj1 (read_same Now _ eq_refl eq_refl I)). apply (proj1 (read_same Now _ eq_refl eq_refl I)).
Qed.

Lemma createBootstrapToken_achieves s token (Q : string * bool -> S -> Prop) :
  valid s -> bootstrapTokenServiceAccountName b = None -> token_ready s token ->
  (forall existed s', Q (token, existed) s') -> achieves (createBootstrapToken b name) s Q.
Proof.
  intros Hv Hnone Hready HQ. unfold createBootstrapToken, getSecretIfExists.
  destruct Hready as [n secret expiration _ Hreq Hsec Hone Ht|id key _ Hreq Hno Hdraw Hfree|sa ? ? Hsa ? ? ?]; [| |congruence].
  - rewrite Hreq. cbn [pureIO bindIO bind trigger]. apply achieves_Vis. rewrite (ListSecrets_one s n secret Hsec Hone).
    cbn [bind]. change (achieves (do! token <- wrapIO "failed to update bootstrap token: %w" []
      (updateSecretExpirationAndGetToken b secret); Ret (Ok (token, true))) (handle _ (ListSecrets c NamespaceSystem
      machineDeploymentNameLabelKey name) s).2 Q).
    apply achieves_bindIO, achieves_wrapIO, (updateSecret_achieves n secret expiration); [| |done|].
    + destruct Hsec as [Hsec _]. etransitivity; [|exact Hsec]. apply (proj1 (read_same (ListSecrets _ _ _ _) _ eq_refl eq_refl I)).
    + destruct Hsec as [Hsec _]. by apply (stored_key c KSecret n secret s).
    + intros s'. by apply achieves_Ret.
  - rewrite Hreq. cbn [pureIO bindIO bind trigger]. apply achieves_Vis. rewrite (ListSecrets_none s Hno).
    pose proof (read_same (ListSecrets c NamespaceSystem machineDeploymentNameLabelKey name) s eq_refl eq_refl I)
      as (Hs1 & Hd1 & _). set (s1 := (handle _ _ s).2) in *. cbn [bind].
    rewrite <- (Hd1 [6; 16]%nat) in Hdraw. cbn [draws] in Hdraw.
    destruct (handle _ (RandString 6) s1) as [id' s2] eqn:H6. destruct (handle _ (RandString 16) s2) as [key' s3] eqn:H16.
    injection Hdraw as -> ->. apply achieves_Vis. rewrite H6. cbn [fst snd]. apply achieves_Vis. rewrite H16.
    cbn [fst snd]. apply achieves_Vis.
    apply (achieves_bindIO (wrapIO _ _ (trigger _)) (fun _ => Ret (Ok (format_token id key, false)))).
    apply achieves_wrapIO, (achieves_create _ KSecret); [|by apply achieves_Ret].
    rewrite <- Hfree, <- Hs1. cbn [meta_of bootstrap_token_secret Secret_Meta key_of Namespace Name].
    rewrite (proj1 (read_same Now _ eq_refl eq_refl I)). etransitivity.
    + by apply (handle_stored _ (RandString 16) s2 key s3).
    + by apply (handle_stored _ (RandString 6) s1 id s2).
Qed.

(** Where the token comes from, with what the service account needs. *)
Lemma token_achieves s token (Q : string * bool -> S -> Prop) :
  valid s -> token_ready s token -> (forall existed s', Q (token, existed) s') ->
  achieves match bootstrapTokenServiceAccountName b with
    | Some sa =>
        do! token <- wrapIO "failed to get token from ServiceAccount %s/%s: %w" [NN_Namespace sa; NN_Name sa]
          (getTokenFromServiceAccount b sa);
        Ret (Ok (token, false))
    | None => wrapIO "failed to create bootstrap token: %w" [] (createBootstrapToken b name)
    end s Q.
Proof.
  intros Hv Hready HQ. destruct (bootstrapTokenServiceAccountName b) as [sa|] eqn:Hsa.
  - destruct Hready as [| |sa' account token Hsa' Hacc Ht _]; [congruence..|].
    assert (sa' = sa) as -> by congruence.
    apply achieves_bindIO, achieves_wrapIO. unfold getTokenFromServiceAccount, getAsUnstructured.
    apply achieves_bindIO, achieves_wrapIO, achieves_wrapIO, (achieves_get_found _ KServiceAccount _ account); [done|].
    intros s' [Hs' _]. apply (first_token_secret_achieves _ _ token).
    + rewrite <- Ht. clear -Hs'. induction (SA_Secrets account) as [|n l IH]; cbn; [done|]. by rewrite Hs', IH.
    + intros s2 _. by apply achieves_Ret.
  - by apply achieves_wrapIO, (createBootstrapToken_achieves s token).
Qed.

Lemma token_kind :
  all_calls (only_writes (R := R) (fun w => ref_kind (write_ref w) = KSecret)) match bootstrapTokenServiceAccountName b with
    | Some sa =>
        do! token <- wrapIO "failed to get token from ServiceAccount %s/%s: %w" [NN_Namespace sa; NN_Name sa]
          (getTokenFromServiceAccount b sa);
        Ret (Ok (token, false))
    | None => wrapIO "failed to create bootstrap token: %w" [] (createBootstrapToken b name)
    end.
Proof.
  unfold getTokenFromServiceAccount, createBootstrapToken, getSecretIfExists, updateSecretExpirationAndGetToken,
    getAsUnstructured.
  repeat first [calls_step | apply first_token_secret_calls; intros]; try exact I; done.
Qed.

Lemma info_ready_kept s s' info :
  (forall n, stored s' (cluster_of (provider_client b)) KConfigMap n = stored s (cluster_of (provider_client b)) KConfigMap n) ->
  (forall c ns l v, listed s' c ns l v = listed s c ns l v) -> info_ready s info -> info_ready s' info.
Proof.
  intros Hs Hl [cm text ? Hcm Ht Hload|slices ? Hno Hlist Hk].
  - apply (info_published s' cm text); [|done..]. unfold cluster_info. by rewrite Hs.
  - apply (info_from_slices s' slices); [|by rewrite Hl|done]. unfold cluster_info in *. by rewrite Hs.
Qed.

Lemma CreateBootstrapKubeconfig_achieves s kc (Q : Kubeconfig * string -> S -> Prop) :
  valid s -> bootstrap_ready s kc -> (forall s', Q (kc, bootstrapConfigName name) s') ->
  achieves (CreateBootstrapKubeconfig b name) s Q.
Proof.
  intros Hv (token & info & text & Htoken & Hinfo & Hkc & Htext) HQ. unfold CreateBootstrapKubeconfig.
  apply achieves_bindIO. eapply achieves_run; [apply (token_achieves s token (fun p _ => p.1 = token)); done|].
  intros [tok updated] s1 Hrun Htok. cbn in Htok. subst tok. unfold generateKubeconfig.
  apply achieves_bindIO, achieves_bindIO.
  eapply achieves_run; [apply (GetKubeconfig_achieves s1 info (fun k _ => k = info)); [|done]|].
  { apply (info_ready_kept s); [| |done].
    - intros n. apply (interp_unmoved _ _ _ _ _ token_kind Hrun). by intros w Hw (_ & Hk & _); rewrite Hw in Hk.
    - intros ? ? ? ?. by apply (interp_listed _ _ _ _ _ _ _ _ Hrun). }
  intros ? s2 Hs2 ->. apply (achieves_pure _ kc); [done|]. apply achieves_bindIO, (achieves_pure _ text); [done|].
  assert (valid s2) as Hv2 by (by eapply interp_valid, Hs2; eapply interp_valid, Hrun).
  destruct (stored s2 (cluster_of c) KSecret {| NN_Namespace := CloudInitNamespace; NN_Name := bootstrapConfigName name |})
    as [old|] eqn:Hold.
  - apply (achieves_get _ KSecret _ old); [done|]. intros s3 [Hs3 _] _. cbn beta iota.
    destruct updated; [by apply achieves_Ret|].
    apply achieves_bindIO, (achieves_update _ KSecret); [|intros o'; by apply achieves_Ret].
    exists old. rewrite Hs3. etransitivity; [|exact Hold]. f_equal. exact (stored_key c KSecret _ old s2 Hv2 Hold).
  - apply (achieves_get_absent _ KSecret); [done|]. intros e s3 He [Hs3 _] _. cbn beta iota. rewrite He.
    apply achieves_bindIO, (achieves_create _ KSecret); [|by apply achieves_Ret]. rewrite Hs3. exact Hold.
Qed.

Lemma CreateBootstrapKubeconfig_no_store : all_calls (no_store (R := R)) (CreateBootstrapKubeconfig b name).
Proof.
  unfold CreateBootstrapKubeconfig, getTokenFromServiceAccount, createBootstrapToken,
    getSecretIfExists, updateSecretExpirationAndGetToken, generateKubeconfig, getAsUnstructured.
  repeat first [calls_step | apply first_token_secret_calls; intros | apply GetKubeconfig_calls; intros]; exact I.
Qed.

(** Writes that come first and touch neither the tokens, nor the service account, nor the config map. *)
Hypothesis W_tokens : forall n, NN_Namespace n = NamespaceSystem -> elsewhere W (cluster_of c) KSecret n.
Hypothesis W_kinds : forall w, W w -> ref_kind (write_ref w) = KSecret \/ ref_kind (write_ref w) = KOperatingSystemConfig.

Lemma W_elsewhere cl k n : k <> KSecret -> k <> KOperatingSystemConfig -> elsewhere W cl k n.
Proof. intros Hk1 Hk2 w [Hw|Hw]%W_kinds (_ & Hk & _); congruence. Qed.

Lemma token_secret_kept s s' n secret : unmoved (or_deployment W) s s' -> token_secret s' n secret <-> token_secret s n secret.
Proof.
  intros Hu. unfold token_secret.
  split; intros (Hs & Hn & Hl); (split; [|done]); [rewrite <- Hs|rewrite <- Hs]; [symmetry|];
    by (apply (unmoved_but W); [done|by apply W_tokens|done]).
Qed.

Lemma token_ready_kept s s' token :
  unmoved (or_deployment W) s s' -> (forall lengths, draws lengths s' = draws lengths s) -> token_ready s token -> token_ready s' token.
Proof.
  intros Hu Hd [n secret expiration Hb Hreq Hsec Hone Ht|id key Hb Hreq Hno Hdraw Hfree|sa account ? Hb Hacc Ht He].
  - apply (token_kept s' n secret expiration); try done; [by apply (token_secret_kept s s')|].
    intros n' secret'. rewrite (token_secret_kept s s') by done. apply Hone.
  - apply token_drawn; try done.
    + intros n secret. rewrite (token_secret_kept s s') by done. apply Hno.
    + by rewrite Hd.
    + rewrite <- Hfree. by (apply (unmoved_but W); [done|by apply W_tokens|done]).
  - apply (token_of_account s' sa account); try done.
    + rewrite <- Hacc. by apply (unmoved_but W); [|apply W_elsewhere|].
    + rewrite <- Ht. clear -Hu He. induction He as [|n l Hn _ IH]; cbn; [done|]. by rewrite (unmoved_but W s s' _ _ _ Hu Hn), IH.
Qed.

Lemma bootstrap_ready_kept s s' kc :
  unmoved (or_deployment W) s s' -> (forall lengths, draws lengths s' = draws lengths s) ->
  (forall c ns l v, listed s' c ns l v = listed s c ns l v) -> bootstrap_ready s kc -> bootstrap_ready s' kc.
Proof.
  intros Hu Hd Hl (token & info & text & Htoken & Hinfo & Hkc). exists token, info, text.
  split; [by apply (token_ready_kept s)|]. split; [|done].
  apply (info_ready_kept s); [|done..]. intros n. by apply (unmoved_but W); [|apply W_elsewhere|].
Qed.
End Credentials.

(** ** The steps of a reconciliation *)

Section Steps.
Context `{OSCLibs} {S : Type} `{ApiServerLaws Credentials S, !NamedServer Credentials S, !Available Credentials S}.
Variable r : Reconciler.
Variable md : MachineDeployment.

Lemma delete_if_found_achieves c k n format args s (Q : unit -> S -> Prop) :
  Q tt (handle _ (Delete c k n) s).2 -> achieves (delete_if_found c k n format args) s Q.
Proof.
  intros HQ. unfold delete_if_found. apply achieves_Vis.
  destruct (stored s (cluster_of c) k n) eqn:Hs.
  - rewrite Delete_stored by (by rewrite Hs). by apply achieves_Ret.
  - destruct (Delete_absent s c k n Hs) as (e & -> & He). cbn beta iota. rewrite He. by apply achieves_Ret.
Qed.

Lemma deleteGeneratedSecrets_achieves s : achieves (deleteGeneratedSecrets md) s (fun _ (_ : S) => True).
Proof.
  unfold deleteGeneratedSecrets. do 2 (apply achieves_bindIO, delete_if_found_achieves). by apply delete_if_found_achieves.
Qed.

(** What a rotation writes. *)
Definition clearing (w : write) : Prop :=
  match w with WDelete x => x = osc_ref r md \/ x ∈ generated_secrets md | _ => False end.
(** What comes before the creation of a config. *)
Definition preparing (w : write) : Prop :=
  clearing w \/ bootstrap_write (bootstrap r) (machineDeploymentKey md) w.

Lemma clearing_kinds w : clearing w -> ref_kind (write_ref w) = KSecret \/ ref_kind (write_ref w) = KOperatingSystemConfig.
Proof.
  destruct w as [x|x|x]; [done..|]. intros [->|Hx]; [by right|left]. unfold generated_secrets in Hx.
  rewrite !elem_of_cons, elem_of_nil in Hx. by repeat destruct Hx as [->|Hx].
Qed.

Lemma clearing_tokens cl n :
  CloudInitSettingsNamespace <> NamespaceSystem -> NN_Namespace n = NamespaceSystem -> elsewhere clearing cl KSecret n.
Proof.
  intros Hne Hn [x|x|x]; [done..|]. intros [->|Hx] (_ & Hk & Hkey); [done|]. subst n. unfold generated_secrets in Hx.
  rewrite !elem_of_cons, elem_of_nil in Hx. by repeat destruct Hx as [->|Hx].
Qed.

(** The config is there and current. *)
Definition current (osp : OperatingSystemProfile) (s : S) : bool :=
  match stored_osc r md s, calculateAnnotationsHash (MD_Annotations md) with
  | Some osc, Ok mdhash => rotation_not_required md osp osc mdhash
  | _, _ => false
  end.

Lemma rotation_achieves osp s (Q : unit -> S -> Prop) :
  valid s -> (forall osc, stored_osc r md s = Some osc -> Finalizers (OSC_Meta osc) = []) ->
  (forall s', unmoved clearing s s' -> (forall lengths, draws lengths s' = draws lengths s) ->
     stored_osc r md s' = (if current osp s then stored_osc r md s else None) -> Q tt s') ->
  achieves (handleOSCAndSecretsRotation r md osp) s Q.
Proof.
  intros Hv Hfin HQ. unfold handleOSCAndSecretsRotation.
  assert (forall s', same_store s s' -> unmoved clearing s s' /\ (forall lengths, draws lengths s' = draws lengths s))
    as Hsame by (intros s' (Hs & Hd & _); split; [by intros ? ? ? _|done]).
  unfold current in HQ. destruct (stored_osc r md s) as [osc|] eqn:Hosc.
  - pose proof (stored_key ControlClient KOperatingSystemConfig (osc_key r md) osc s Hv Hosc) as Hkey.
    apply (achieves_get _ KOperatingSystemConfig _ osc); [exact Hosc|]. intros s1 Hs1 _.
    destruct (Hsame s1 Hs1) as [Hu1 Hd1]. cbn beta iota. unfold pureIO, calculateAnnotationsHash in *. cbn [bindIO bind].
    destruct (rotation_not_required _ _ _ _).
    { apply achieves_Ret, HQ; [done..|]. unfold stored_osc. by rewrite (proj1 Hs1). }
    cbn [meta_of] in Hkey. rewrite Hkey.
    assert (stored s1 (cluster_of ControlClient) KOperatingSystemConfig (osc_key r md) = Some osc) as Hosc1
      by (by rewrite (proj1 Hs1)).
    apply (achieves_bindIO (wrapIO _ _ (trigger _)) (fun _ => deleteGeneratedSecrets md)).
    pose proof (Delete_stored s1 ControlClient KOperatingSystemConfig (osc_key r md) (ex_intro _ _ Hosc1)) as Hdel.
    apply achieves_wrapIO, (achieves_trigger _ tt); [exact Hdel|].
    eapply achieves_run; [apply deleteGeneratedSecrets_achieves|]. intros [] s3 Hrun _.
    destruct (handle _ _ s1) as [a s2] eqn:Hh. cbn [fst snd] in *. subst a.
    assert (unmoved clearing s1 s2) as Hu2 by (intros cl k n He; apply (handle_stored _ _ s1 _ s2 cl k n Hh);
      intros w [= <-]; apply He; by left).
    assert (unmoved clearing s2 s3) as Hu3.
    { refine (interp_unmoved clearing _ _ _ _ _ Hrun).
      unfold deleteGeneratedSecrets, delete_if_found. repeat calls_step; try exact I; right; set_solver. }
    apply HQ.
    + apply (unmoved_trans clearing clearing clearing s s2 s3); [done|done| |exact Hu3].
      by apply (unmoved_trans clearing clearing clearing s s1 s2).
    + intros lengths. rewrite <- Hd1. change s2 with (@Ok unit tt, s2).2 in Hrun. rewrite <- Hh in Hrun.
      etransitivity; [eapply interp_draws, Hrun|by apply draws_frame].
      unfold deleteGeneratedSecrets, delete_if_found. repeat calls_step; exact eq_refl.
    + rewrite (deleteGeneratedSecrets_frame r md s2 _ s3 Hrun).
      apply (Delete_ok s1 ControlClient KOperatingSystemConfig (osc_key r md) s2 Hh).
      intros o Ho. rewrite Hosc1 in Ho. injection Ho as <-. by apply Hfin.
  - apply (achieves_get_absent _ KOperatingSystemConfig); [exact Hosc|]. intros e s1 He Hs1 _. cbn beta iota. rewrite He.
    destruct (Hsame s1 Hs1). apply achieves_Ret, HQ; [done..|]. unfold stored_osc. by rewrite (proj1 Hs1).
Qed.

Variable osp : OperatingSystemProfile.

(** The credentials of the private registries, when they are configured. *)
Inductive registry_ready (s : S) : Credentials -> Prop :=
| registry_unused : nodeRegistryCredentialsSecret r = "" -> registry_ready s (loaded s)
| registry_unnamed :
    nodeRegistryCredentialsSecret r <> "" ->
    (forall ns n, SplitN2 (nodeRegistryCredentialsSecret r) "/" <> [ns; n]) -> registry_ready s ∅
| registry_read ns n secret creds :
    nodeRegistryCredentialsSecret r <> "" -> SplitN2 (nodeRegistryCredentialsSecret r) "/" = [ns; n] ->
    stored s (cluster_of ControlClient) KSecret {| NN_Namespace := ns; NN_Name := n |} = Some secret ->
    elsewhere preparing (cluster_of ControlClient) KSecret {| NN_Namespace := ns; NN_Name := n |} ->
    read_credentials secret = Ok creds -> registry_ready s creds.

Definition getter_key : NamespacedName := {| NN_Namespace := CloudInitNamespace; NN_Name := cloudInitGetterSecret |}.

(** The config can be generated, and is [osc]. *)
Record creation_ready (s : S) (kc : Kubeconfig) (generated : OperatingSystemConfig) : Prop := {
  ready_utility : exists u, GetProvisioningUtility (OSP_OSName (OSP_Spec osp)) md = Ok u /\
    (OSP_ProvisioningUtility (OSP_Spec osp) = "" \/ u = OSP_ProvisioningUtility (OSP_Spec osp));
  ready_generated : exists secret token creds,
    stored s (cluster_of WorkerClient) KSecret getter_key = Some secret /\
    elsewhere preparing (cluster_of WorkerClient) KSecret getter_key /\
    Secret_Data secret !! "token" = Some token /\ registry_ready s creds /\
    GenerateOperatingSystemConfig md osp kc (bootstrapConfigName (machineDeploymentKey md)) token (osc_name md) (flags r)
      (with_credentials creds (containerRuntimeConfig r)) = Ok generated;
  (** nothing deletes the script of the edge provider *)
  ready_script : CloudProviderSpec_Name (OSC_CloudProvider (OSC_Spec generated)) = "edge" ->
    stored s (cluster_of WorkerClient) KSecret (ref_key (script_ref md)) = None /\
    elsewhere preparing (cluster_of WorkerClient) KSecret (ref_key (script_ref md)) /\
    exists url, cluster_server kc = Ok url
}.

Lemma creation_ready_kept s s' kc generated :
  unmoved (or_deployment preparing) s s' -> loaded s' = loaded s -> creation_ready s kc generated -> creation_ready s' kc generated.
Proof.
  intros Hu Hl [Hutil (secret & token & creds & Hs & He & Ht & Hreg & Hg) Hscript]. split; [done| |].
  - exists secret, token, creds. split_and!; try done; [by rewrite (unmoved_but preparing s)|].
    destruct Hreg as [Hno|Hno Hname|ns n sec creds Hno Hname Hsec Hes Hread].
    + rewrite <- Hl. by apply registry_unused.
    + by apply registry_unnamed.
    + apply (registry_read s' ns n sec); try done. by rewrite (unmoved_but preparing s).
  - intros [Hn [Hes Hurl]]%Hscript. split_and!; try done. by rewrite (unmoved_but preparing s).
Qed.

Lemma credentials_achieves s creds (Q : unit -> S -> Prop) :
  registry_ready s creds ->
  (forall s', (forall cl k n, stored s' cl k n = stored s cl k n) -> loaded s' = creds -> Q tt s') ->
  achieves (if decide (nodeRegistryCredentialsSecret r <> "") then
       do! registryCredentials <- wrapIO "failed to get containerd auth config: %w" []
         (GetContainerdAuthConfig ControlClient (nodeRegistryCredentialsSecret r));
       do _ <- trigger (StoreField registryCredentials); Ret (Ok tt)
     else Ret (Ok tt)) s Q.
Proof.
  intros Hreg HQ. assert (forall creds' s1, (forall cl k n, stored s1 cl k n = stored s cl k n) -> creds' = creds ->
    achieves (do _ <- trigger (StoreField creds'); Ret (Ok tt)) s1 Q) as Hstore.
  { intros creds' s1 Hs1 ->. apply achieves_Vis, achieves_Ret, HQ; [|apply loaded_frame].
    intros cl k n. rewrite <- Hs1. by apply handle_frame. }
  unfold GetContainerdAuthConfig. destruct Hreg as [Hno|Hno Hname|ns n sec creds Hno Hname Hsec Hes Hread].
  - rewrite decide_False by auto. by apply achieves_Ret, HQ.
  - rewrite decide_True by done. apply achieves_bindIO, achieves_wrapIO.
    destruct (SplitN2 _ _) as [|ns [|n [|]]]; try by apply (achieves_pure _ ∅), Hstore. by destruct (Hname ns n).
  - rewrite decide_True by done. apply achieves_bindIO, achieves_wrapIO. rewrite Hname.
    apply achieves_bindIO, achieves_wrapIO, (achieves_get_found _ KSecret _ sec); [done|]. intros s1 [Hs1 _].
    apply (achieves_pure _ creds); [done|]. by apply Hstore.
Qed.

Lemma script_achieves token kc s url (Q : unit -> S -> Prop) :
  stored s (cluster_of WorkerClient) KSecret (ref_key (script_ref md)) = None -> cluster_server kc = Ok url ->
  (forall s', stored_osc r md s' = stored_osc r md s -> Q tt s') -> achieves (generateEdgeScript md token kc) s Q.
Proof.
  intros Hn Hurl HQ. unfold generateEdgeScript. apply achieves_bindIO, (achieves_pure _ url); [done|].
  apply (achieves_get_absent _ KSecret); [exact Hn|]. intros e s1 He [Hs1 _] _. cbn beta iota. rewrite He.
  apply achieves_bindIO, (achieves_pure _ zero_Secret); [done|].
  apply (achieves_create _ KSecret); [by rewrite Hs1|]. apply HQ.
  unfold stored_osc. rewrite <- Hs1.
  apply (handle_frame _ _ _ (cluster_of ControlClient) KOperatingSystemConfig). by intros w [= <-] (_ & Hk & _).
Qed.

Lemma create_osc_achieves s kc generated (Q : unit -> S -> Prop) :
  stored_osc r md s = None -> creation_ready s kc generated ->
  (forall mdhash s', stored_osc r md s' = Some (annotated_osc md osp mdhash generated) -> Q tt s') ->
  achieves (create_osc r md osp kc (bootstrapConfigName (machineDeploymentKey md))) s Q.
Proof.
  intros Hnone [(u & Hu & Hutil) (secret & token & creds & Hs & _ & Ht & Hreg & Hg) Hscript] HQ. unfold create_osc.
  apply achieves_bindIO, achieves_wrapIO, (achieves_pure _ u); [done|].
  replace (negb _ && negb _) with false.
  2:{ symmetry. apply andb_false_iff. rewrite !negb_false_iff, !bool_decide_eq_true. exact Hutil. }
  apply achieves_bindIO, (credentials_achieves s creds); [done|]. intros s1 Hs1 Hl1.
  apply achieves_bindIO, achieves_wrapIO. unfold ExtractAPIServerToken.
  apply achieves_bindIO, achieves_wrapIO, (achieves_get_found _ KSecret _ secret); [by rewrite Hs1|].
  intros s2 (Hs2 & _ & _ & Hl2). rewrite Ht. apply (achieves_pure _ token); [done|]. apply achieves_Vis.
  fold (loaded s2). rewrite Hl2, Hl1. destruct (read_same LoadField s2 eq_refl eq_refl I) as [Hs3 _].
  set (s3 := (handle _ LoadField s2).2) in *. apply achieves_bindIO, achieves_wrapIO, (achieves_pure _ generated); [done|].
  assert (forall cl k n, stored s3 cl k n = stored s cl k n) as Hsame by (intros; by rewrite Hs3, Hs2, Hs1).
  assert (forall s4, stored_osc r md s4 = None -> achieves
    (do! mdhash <- pureIO (calculateAnnotationsHash (MD_Annotations md));
     wrapIO "failed to create %s osc: %w" [osc_name md]
       (trigger (Create ControlClient KOperatingSystemConfig (annotated_osc md osp mdhash generated)))) s4 Q) as Hcreate.
  { intros s4 Hn4. eapply achieves_bindIO, achieves_pure; [reflexivity|]. set (o := annotated_osc _ _ _ _).
    assert (key_of (meta_of (k := KOperatingSystemConfig) o) = osc_key r md) as Hkey.
    { unfold osc_key. cbn. by rewrite (GenerateOperatingSystemConfig_meta _ _ _ _ _ _ _ _ _ Hg). }
    unfold stored_osc in Hn4. rewrite <- Hkey in Hn4. pose proof (Create_absent s4 ControlClient KOperatingSystemConfig o Hn4) as Hc.
    apply achieves_wrapIO, (achieves_trigger _ tt); [exact Hc|]. eapply HQ. unfold stored_osc. rewrite <- Hkey.
    by apply (Create_ok s4 ControlClient KOperatingSystemConfig o); [|apply injective_projections]. }
  apply achieves_bindIO. destruct (decide _) as [Hedge|_].
  - destruct (Hscript Hedge) as (Hn & _ & url & Hurl).
    apply achieves_wrapIO, (script_achieves token kc s3 url); [by rewrite Hsame|done|]. intros s4 Hs4. apply Hcreate.
    rewrite Hs4. unfold stored_osc in *. by rewrite Hsame.
  - apply achieves_Ret, Hcreate. unfold stored_osc in *. by rewrite Hsame.
Qed.

Lemma ensureCloudConfigSecret_achieves config utility T os cp v data s (Q : unit -> S -> Prop) :
  Generate config utility os cp md T = Ok data ->
  (forall s', Q tt s') -> achieves (ensureCloudConfigSecret config utility T os cp md v) s Q.
Proof.
  intros Hg HQ. unfold ensureCloudConfigSecret.
  destruct (stored_secret s (cloud_config_name md T)) as [old|] eqn:Hold.
  - apply (achieves_get _ KSecret _ old); [exact Hold|]. intros s1 _ _. by apply achieves_Ret.
  - apply (achieves_get_absent _ KSecret); [exact Hold|]. intros e s1 _ [Hs1 _] _. cbn beta iota.
    apply achieves_bindIO, achieves_wrapIO, (achieves_pure _ data); [done|].
    eapply achieves_bindIO, achieves_pure; [reflexivity|].
    apply achieves_wrapIO, (achieves_create _ KSecret); [|apply HQ]. rewrite Hs1. exact Hold.
Qed.

(** The user data of both sections can be generated. *)
Definition user_data_ready (spec : OperatingSystemConfigSpec) : Prop :=
  Forall (fun p => exists data, Generate p.2 (OSC_ProvisioningUtility spec) (OSC_OSName spec)
            (CloudProviderSpec_Name (OSC_CloudProvider spec)) md p.1 = Ok data)
    [(ProvisioningCloudConfig, OSC_ProvisioningConfig spec); (BootstrapCloudConfig, OSC_BootstrapConfig spec)].

Lemma reconcileSecrets_achieves s osc (Q : unit -> S -> Prop) :
  stored_osc r md s = Some osc -> user_data_ready (OSC_Spec osc) -> (forall s', Q tt s') ->
  achieves (reconcileSecrets r md osp) s Q.
Proof.
  intros Hosc [(dp & Hp) [(db & Hb) _]%Forall_cons]%Forall_cons HQ. unfold reconcileSecrets.
  apply achieves_bindIO, achieves_wrapIO, (achieves_get_found _ KOperatingSystemConfig _ osc); [exact Hosc|].
  intros s1 _. apply achieves_bindIO, achieves_wrapIO, (ensureCloudConfigSecret_achieves _ _ _ _ _ _ dp); [exact Hp|].
  intros s2. apply achieves_bindIO, achieves_wrapIO, (ensureCloudConfigSecret_achieves _ _ _ _ _ _ db); [exact Hb|].
  intros s3. by apply achieves_Ret.
Qed.

(** The config there will be: the current one, or the one that can be generated. *)
Inductive config_ready (s : S) (kc : Kubeconfig) : OperatingSystemConfigSpec -> Prop :=
| config_current osc :
    stored_osc r md s = Some osc -> current osp s = true -> config_ready s kc (OSC_Spec osc)
| config_new generated :
    current osp s = false -> creation_ready s kc generated ->
    config_ready s kc (OSC_Spec (annotated_osc md osp "" generated)).

Abbreviation bootstrap_of s kc := (bootstrap_ready (bootstrap r) (machineDeploymentKey md) clearing s kc).

(** Nothing is in the way of a reconciliation. *)
Record ready (s : S) : Prop := {
  ready_valid : valid s;
  ready_finalizers osc : stored_osc r md s = Some osc -> Finalizers (OSC_Meta osc) = [];
  ready_profile : stored s (cluster_of ControlClient) KOperatingSystemProfile (profile_key r md) = Some osp;
  ready_checked : validateMachineDeployment md osp = Ok tt;
  ready_namespaces : CloudInitSettingsNamespace <> NamespaceSystem;
  ready_config : exists kc spec, bootstrap_of s kc /\ config_ready s kc spec /\ user_data_ready spec
}.

Lemma reconcileOperatingSystemConfigs_achieves s kc (Q : unit -> S -> Prop) :
  valid s -> bootstrap_of s kc ->
  match stored_osc r md s with
  | Some osc => forall s', stored_osc r md s' = Some osc -> Q tt s'
  | None => exists generated, creation_ready s kc generated /\
      forall mdhash s', stored_osc r md s' = Some (annotated_osc md osp mdhash generated) -> Q tt s'
  end ->
  achieves (reconcileOperatingSystemConfigs r md osp) s Q.
Proof.
  intros Hv Hboot HQ. unfold reconcileOperatingSystemConfigs. apply achieves_bindIO, achieves_wrapIO.
  eapply achieves_run; [apply (CreateBootstrapKubeconfig_achieves _ _ clearing s kc (fun p _ => p = (kc, bootstrapConfigName (machineDeploymentKey md)))); done|].
  intros ? s1 Hrun ->. cbn beta iota.
  assert (stored_osc r md s1 = stored_osc r md s) as Hosc1.
  { pose proof (stored_osc_frame r md _ s (CreateBootstrapKubeconfig_secrets r (machineDeploymentKey md))) as Hf.
    by rewrite Hrun in Hf. }
  rewrite <- Hosc1 in HQ. destruct (stored_osc r md s1) as [osc|] eqn:Hosc.
  - apply (achieves_get _ KOperatingSystemConfig _ osc); [exact Hosc|]. intros s2 [Hs2 _] _. apply achieves_Ret, HQ.
    unfold stored_osc. by rewrite Hs2.
  - apply (achieves_get_absent _ KOperatingSystemConfig); [exact Hosc|]. intros e s2 _ (Hs2 & _ & _ & Hl2) _.
    destruct HQ as (generated & Hready & HQ). apply (create_osc_achieves s2 kc generated); [|
      |done].
    + unfold stored_osc. rewrite Hs2. exact Hosc.
    + apply (creation_ready_kept s); [| |done].
      * apply (unmoved_or preparing); [by left|]. intros cl k n He. rewrite Hs2.
        refine (interp_unmoved_honest preparing _ s _ s1 Hv _ Hrun cl k n He).
        eapply calls_when_weaken; [done| |apply CreateBootstrapKubeconfig_writes]. intros X e'.
        apply only_writes_mono. by right.
      * rewrite Hl2. exact (interp_loaded _ s _ s1 (CreateBootstrapKubeconfig_no_store _ _) Hrun).
Qed.

Lemma profile_found s (Q : OperatingSystemProfile -> S -> Prop) :
  stored s (cluster_of ControlClient) KOperatingSystemProfile (profile_key r md) = Some osp ->
  (forall s', same_store s s' -> s' = (handle _ (Get ControlClient KOperatingSystemProfile (profile_key r md)) s).2 -> Q osp s') ->
  achieves (fetchOSP r md) s Q.
Proof.
  intros Hosp HQ. unfold fetchOSP. fold (profile_key r md).
  apply (achieves_get _ KOperatingSystemProfile _ osp); [exact Hosp|]. intros s1 Hs1 Heq. by apply achieves_Ret, HQ.
Qed.

(** A reconciliation from a state that is ready, up to the secrets. *)
Lemma reconcile_achieves s (Q : unit -> S -> Prop) : ready s -> (forall s', Q tt s') -> achieves (reconcile r md) s Q.
Proof.
  intros [Hv Hfin Hosp Hcheck Hns (kc & spec & Hboot & Hconfig & Hdata)] HQ. unfold reconcile.
  apply achieves_bindIO, achieves_wrapIO, profile_found; [done|]. intros s1 (Hs1 & Hd1 & Hl1 & Hf1) Heq.
  assert (valid s1) as Hv1 by (rewrite Heq; by apply valid_step).
  assert (stored_osc r md s1 = stored_osc r md s) as Ho1 by (unfold stored_osc; by rewrite Hs1).
  assert (current osp s1 = current osp s) as Hc1 by (unfold current; by rewrite Ho1).
  apply achieves_bindIO, achieves_wrapIO. unfold checkOSP. rewrite Hcheck. apply achieves_Ret.
  apply achieves_bindIO, achieves_wrapIO.
  eapply achieves_run; [apply (rotation_achieves osp s1 (fun _ s2 => unmoved clearing s1 s2 /\
    (forall lengths, draws lengths s2 = draws lengths s1) /\
    stored_osc r md s2 = (if current osp s1 then stored_osc r md s1 else None))); [done|by rewrite Ho1|done]|].
  intros [] s2 Hrun (Hu & Hd & Ho2). rewrite Hc1, Ho1 in Ho2. pose proof (interp_valid _ s1 _ s2 Hv1 Hrun) as Hv2.
  assert (unmoved clearing s s2) as Hus by (intros cl k n He; by rewrite (Hu cl k n He), Hs1).
  assert (bootstrap_of s2 kc) as Hboot2.
  { apply (bootstrap_ready_kept _ _ _ (fun n => clearing_tokens _ n Hns) clearing_kinds s); [by apply (unmoved_or clearing); [left|]| | |done].
    - intros lengths. by rewrite Hd.
    - intros ? ? ? ?. rewrite <- Hl1. exact (interp_listed _ _ _ _ _ _ _ _ Hrun). }
  assert (loaded s2 = loaded s) as Hf2.
  { rewrite <- Hf1. refine (interp_loaded _ _ _ _ _ Hrun).
    unfold handleOSCAndSecretsRotation, deleteGeneratedSecrets, delete_if_found. repeat calls_step; exact I. }
  apply achieves_bindIO, achieves_wrapIO, (reconcileOperatingSystemConfigs_achieves s2 kc); [done..|].
  assert (forall osc s3, stored_osc r md s3 = Some osc -> OSC_Spec osc = spec ->
    achieves (do! _ <- wrapIO "failed to reconcile secrets: %w" [] (reconcileSecrets r md osp); Ret (Ok tt)) s3 Q) as Hend.
  { intros osc s3 Hosc3 <-. apply achieves_bindIO, achieves_wrapIO, (reconcileSecrets_achieves s3 osc); [done..|].
    intros s4. by apply achieves_Ret. }
  destruct Hconfig as [osc Hosc Hcur|generated Hcur Hready]; rewrite Ho2, Hcur.
  - rewrite Hosc. intros s3 Hs3. by apply (Hend osc).
  - exists generated. split; [|intros mdhash s3 Hs3; by apply (Hend _ s3 Hs3)].
    apply (creation_ready_kept s); [|done..]. apply (unmoved_or clearing); [by left; left|done].
Qed.
End Steps.

(** ** Whole reconciliations *)

Section Whole.
Context `{OSCLibs} {S : Type} `{ApiServerLaws Credentials S, !NamedServer Credentials S, !Available Credentials S}.
Variable r : Reconciler.
Implicit Types (md : MachineDeployment) (osp : OperatingSystemProfile) (s : S).

(** Machine deployments are of no concern to readiness. *)
Lemma ready_kept md osp s s' :
  unmoved (or_deployment (fun _ => False)) s s' -> valid s' ->
  (forall lengths, draws lengths s' = draws lengths s) ->
  (forall c ns l v, listed s' c ns l v = listed s c ns l v) -> loaded s' = loaded s ->
  ready r md osp s -> ready r md osp s'.
Proof.
  intros Hu Hv Hd Hl Hf [_ Hfin Hosp Hcheck Hns (kc & spec & Hboot & Hconfig & Hdata)].
  assert (forall W, unmoved (or_deployment W) s s') as HuW
    by (intros W; eapply unmoved_or, Hu; intros w [[]|Hw]; by right).
  assert (stored_osc r md s' = stored_osc r md s) as Ho
    by (by apply (unmoved_deployment s s' _ KOperatingSystemConfig)).
  split; [done|by rewrite Ho|by rewrite (unmoved_deployment s)|done|done|].
  exists kc, spec. split_and!; [| |done].
  - by apply (bootstrap_ready_kept _ _ _ (fun n => clearing_tokens r md _ n Hns) (clearing_kinds r md) s).
  - destruct Hconfig as [osc Hosc Hcur|generated Hcur Hready].
    + apply config_current; [by rewrite Ho|]. unfold current in *. by rewrite Ho.
    + apply config_new; [unfold current in *; by rewrite Ho|]. by apply (creation_ready_kept r md osp s).
Qed.

(** [md] is [stored] once it has the finalizer: as it was read, or as the server
    answers the update that adds it. *)
Definition finalized (req : NamespacedName) (stored md : MachineDeployment) s : Prop :=
  if HasFinalizer (MD_Meta stored) [MachineDeploymentCleanupFinalizer] then md = stored
  else (handle _ (Update WorkerClient KMachineDeployment
          (with_MD_Meta (AddFinalizer (MD_Meta stored) [MachineDeploymentCleanupFinalizer]) stored))
        (handle _ (Get WorkerClient KMachineDeployment req) s).2).1 = Ok md.

(** C5: against servers that answer, the reconciliation of a machine deployment succeeds from every state in which nothing is in its way, and leaves a current config and both cloud-config secrets: its profile is there and accepts it; the bootstrap token is kept, can be made under a free name or is that of a service account; the address of the API server is published or can be found in the endpoint slices; and the config and the user data that are missing can be generated, with the credentials that are there *)
Theorem Reconcile_succeeds req stored_md md osp s :
  rotation_keys -> stored s (cluster_of WorkerClient) KMachineDeployment req = Some stored_md ->
  DeletionTimestamp (MD_Meta stored_md) = None -> finalized req stored_md md s -> ready r md osp s ->
  exists s', interp handle (Reconcile r req) s = (Ok tt, s') /\ converged r md osp s'.
Proof.
  intros Hkeys Hmd Hts Hfinal Hready. pose proof (ready_valid r md osp s Hready) as Hv.
  assert (forall s1, ready r md osp s1 -> achieves (reconcile r md) s1 (fun _ s' => converged r md osp s')) as Hrec.
  { intros s1 Hr1. eapply achieves_run; [by apply (reconcile_achieves r md osp s1 (fun _ _ => True))|].
    intros [] s2 Hrun _. destruct (reconcile_post r md s1 s2 Hkeys) as (osp' & Hosp' & Hconv); [|done|].
    - intros o Ho. split; [|by apply (ready_finalizers r md osp s1 Hr1)].
      by apply (stored_key ControlClient KOperatingSystemConfig _ o s1 (ready_valid r md osp s1 Hr1)).
    - rewrite (ready_profile r md osp s1 Hr1) in Hosp'. by injection Hosp' as <-. }
  enough (achieves (Reconcile r req) s (fun _ s' => converged r md osp s')) as ([] & s' & Hi & HQ) by (by exists s').
  unfold Reconcile. apply (achieves_get _ KMachineDeployment _ stored_md); [exact Hmd|]. intros s1 (Hs1 & Hd1 & Hl1 & Hf1) Heq.
  cbn beta iota. rewrite Hts. assert (valid s1) as Hv1 by (rewrite Heq; by apply valid_step).
  assert (ready r md osp s1) as Hr1 by (apply (ready_kept md osp s); [by intros ? ? ? _|done..]).
  unfold finalized in Hfinal. rewrite <- Heq in Hfinal. unfold ensure_finalizer.
  destruct (HasFinalizer _ _); [by rewrite <- Hfinal; apply Hrec|].
  apply achieves_bindIO, achieves_wrapIO, (achieves_trigger _ md); [exact Hfinal|]. apply Hrec.
  apply (ready_kept md osp s1); [|by apply valid_step|..|done].
  - intros cl k n He. apply handle_frame. intros w [= <-]. apply He. by right.
  - intros lengths. by apply draws_frame.
  - intros ? ? ? ?. apply listed_frame.
  - exact (loaded_frame _ (Update WorkerClient KMachineDeployment _) s1).
Qed.

(** Deleting what has no finalizers: the object is gone, others are as they were. *)
Lemma delete_secret_or c n format args s (Q : unit -> S -> Prop) :
  (forall o, stored s (cluster_of c) KSecret n = Some o -> Finalizers (meta_of o) = []) ->
  (forall s', (forall n', stored s' (cluster_of c) KSecret n' =
                 if decide (n = n') then None else stored s (cluster_of c) KSecret n') ->
     (forall cl k n', k <> KSecret -> stored s' cl k n' = stored s cl k n') -> Q tt s') ->
  achieves (delete_if_found c KSecret n format args) s Q.
Proof.
  intros Hfin HQ. eapply achieves_run; [by apply (delete_if_found_achieves _ _ _ _ _ s (fun _ _ => True))|].
  intros [] s' Hrun _. apply HQ.
  - intros n'. destruct (decide (n = n')) as [<-|Hne]; [by apply (delete_if_found_absent _ _ _ _ _ s s' Hrun)|].
    apply (delete_if_found_keeps _ _ _ _ _ s s' _ _ _ Hrun). by intros (_ & _ & ?).
  - intros cl k n' Hk. apply (delete_if_found_keeps _ _ _ _ _ s s' _ _ _ Hrun). intros (_ & ? & _). congruence.
Qed.

(** The generated secrets have no finalizers. *)
Definition plain_secrets md s : Prop :=
  forall x o, x ∈ generated_secrets md -> stored s (cluster_of WorkerClient) KSecret (ref_key x) = Some o ->
    Finalizers (Secret_Meta o) = [].

Lemma deleteGeneratedSecrets_clears md s (Q : unit -> S -> Prop) :
  plain_secrets md s ->
  (forall s', (forall x, x ∈ generated_secrets md -> stored s' (cluster_of WorkerClient) KSecret (ref_key x) = None) ->
     (forall cl k n, k <> KSecret -> stored s' cl k n = stored s cl k n) -> Q tt s') ->
  achieves (deleteGeneratedSecrets md) s Q.
Proof.
  intros Hfin HQ. unfold deleteGeneratedSecrets.
  apply achieves_bindIO, delete_secret_or.
  { intros o. apply (Hfin (secret_ref (cloud_config_name md ProvisioningCloudConfig))). left. }
  intros s1 Hs1 Hk1. apply achieves_bindIO, delete_secret_or.
  { intros o. rewrite Hs1. destruct (decide _); [done|].
    apply (Hfin (secret_ref (cloud_config_name md BootstrapCloudConfig))). right. left. }
  intros s2 Hs2 Hk2. apply delete_secret_or.
  { intros o. rewrite Hs2, Hs1. do 2 (destruct (decide _); [done|]).
    apply (Hfin (secret_ref (bootstrapConfigName (machineDeploymentKey md)))). do 2 right. left. }
  intros s3 Hs3 Hk3. apply HQ.
  - intros x Hx. rewrite Hs3, Hs2, Hs1. unfold generated_secrets in Hx.
    rewrite !elem_of_cons, elem_of_nil in Hx. destruct Hx as [->|[->|[->|[]]]]; repeat (destruct (decide _); try done).
  - intros cl k n Hk. by rewrite Hk3, Hk2, Hk1.
Qed.

(** An update that drops the finalizer of a stored machine deployment leaves none. *)
Lemma released_without `{!StringSetLaws, !DeletionLaws Credentials S} req s md :
  let released := with_MD_Meta (RemoveFinalizer (MD_Meta md) [MachineDeploymentCleanupFinalizer]) md in
  key_of (MD_Meta released) = req -> stored s (cluster_of WorkerClient) KMachineDeployment req = Some md ->
  forall md', stored (handle _ (Update WorkerClient KMachineDeployment released) s).2 (cluster_of WorkerClient)
    KMachineDeployment req = Some md' -> MachineDeploymentCleanupFinalizer ∉ Finalizers (MD_Meta md').
Proof.
  intros released <- Hmd md' Hmd'. rewrite <- HasFinalizer_singleton.
  destruct (Update_effect s WorkerClient KMachineDeployment released _ _ (surjective_pairing _))
    as [[Hno _]|[(new & Hnew & Hf)|[_ Hnew]]]; cbn [meta_of] in *; [|rewrite Hmd' in Hnew; injection Hnew as <-|congruence].
  - by destruct (Update_stored s WorkerClient KMachineDeployment released ltac:(by exists md)) as [? Hu]; rewrite Hu in Hno.
  - unfold HasFinalizer. rewrite Hf. pose proof (HasFinalizer_Remove (MD_Meta md) MachineDeploymentCleanupFinalizer) as Hr.
    unfold HasFinalizer in Hr. change (Finalizers (MD_Meta released)) with
      (Finalizers (RemoveFinalizer (MD_Meta md) [MachineDeploymentCleanupFinalizer])). by rewrite Hr.
Qed.

(** C6: against servers that answer, the reconciliation of a machine deployment that is marked for deletion and still has the finalizer succeeds, whatever is left of what was generated for it, and afterwards its config, both cloud-config secrets and the bootstrap kubeconfig are gone and the machine deployment, if it is still there, is without the finalizer *)
Theorem cleanup_succeeds `{!StringSetLaws, !DeletionLaws Credentials S} req md s :
  valid s -> stored s (cluster_of WorkerClient) KMachineDeployment req = Some md ->
  DeletionTimestamp (MD_Meta md) <> None ->
  HasFinalizer (MD_Meta md) [MachineDeploymentCleanupFinalizer] = true ->
  (forall osc, stored_osc r md s = Some osc -> Finalizers (OSC_Meta osc) = []) -> plain_secrets md s ->
  exists s', interp handle (Reconcile r req) s = (Ok tt, s') /\
    stored_osc r md s' = None /\
    (forall x, x ∈ generated_secrets md -> stored s' (cluster_of WorkerClient) KSecret (ref_key x) = None) /\
    forall md', stored s' (cluster_of WorkerClient) KMachineDeployment req = Some md' ->
      MachineDeploymentCleanupFinalizer ∉ Finalizers (MD_Meta md').
Proof.
  intros Hv Hmd Hts Hhas Hosc Hplain. pose proof (stored_key WorkerClient KMachineDeployment req md s Hv Hmd) as Hkey.
  enough (achieves (Reconcile r req) s (fun _ s' => stored_osc r md s' = None /\
    (forall x, x ∈ generated_secrets md -> stored s' (cluster_of WorkerClient) KSecret (ref_key x) = None) /\
    forall md', stored s' (cluster_of WorkerClient) KMachineDeployment req = Some md' ->
      MachineDeploymentCleanupFinalizer ∉ Finalizers (MD_Meta md'))) as ([] & s' & Hi & HQ) by (by exists s').
  unfold Reconcile. apply (achieves_get _ KMachineDeployment _ md); [exact Hmd|]. intros s1 [Hs1 _] _.
  cbn beta iota. destruct (DeletionTimestamp (MD_Meta md)); [|done]. rewrite Hhas.
  unfold handleMachineDeploymentCleanup, deleteOperatingSystemConfig. apply achieves_bindIO.
  eapply achieves_run; [by apply (delete_if_found_achieves _ _ _ _ _ s1 (fun _ _ => True))|]. intros [] s2 Hrun _.
  assert (stored_osc r md s2 = None) as Hosc2.
  { apply (delete_if_found_absent _ KOperatingSystemConfig _ _ _ s1 s2 Hrun). intros o. rewrite Hs1. apply Hosc. }
  assert (forall cl k n, k <> KOperatingSystemConfig -> stored s2 cl k n = stored s cl k n) as Hs2.
  { intros cl k n Hk. rewrite <- Hs1. apply (delete_if_found_keeps _ _ _ _ _ s1 s2 _ _ _ Hrun). intros (_ & ? & _). congruence. }
  apply achieves_bindIO, deleteGeneratedSecrets_clears.
  { intros x o Hx. rewrite Hs2 by done. by apply Hplain. }
  intros s3 Hgone Hs3. set (released := with_MD_Meta _ md).
  assert (key_of (MD_Meta released) = req) as Hreleased by exact Hkey.
  apply achieves_bindIO, achieves_wrapIO, (achieves_update _ KMachineDeployment).
  { exists md. cbn [meta_of]. rewrite Hreleased, Hs3, Hs2 by done. exact Hmd. }
  intros o'. apply achieves_Ret. split_and!.
  - rewrite <- Hosc2. unfold stored_osc. rewrite <- Hs3 by done.
    apply (handle_frame _ (Update _ _ _) s3 _ KOperatingSystemConfig). by intros w [= <-] (_ & Hk & _).
  - intros x Hx. rewrite <- (Hgone x Hx).
    apply (handle_frame _ (Update _ _ _) s3 _ KSecret). by intros w [= <-] (_ & Hk & _).
  - apply (released_without _ s3 md Hreleased). rewrite Hs3, Hs2 by done. exact Hmd.
Qed.
End Whole.

(** ** Evaluation on concrete inputs *)

Module Demo.
Import OSCController.Demo.

Definition value {A} (d : A) (m : result A) : A := match m with Ok a => a | _ => d end.

(** The machine deployment with the finalizer, and what its reconciliation makes. *)
Definition live_md : MachineDeployment :=
  with_MD_Meta (AddFinalizer (MD_Meta md) [MachineDeploymentCleanupFinalizer]) md.
Definition token : string := format_token "abcdef" "0123456789abcdef".
Definition info : Kubeconfig := value kubeconfig (kubeconfig_of_slices "ca" [slice]).
Definition live_kubeconfig : Kubeconfig := value kubeconfig (bootstrap_kubeconfig "" token info).
Definition generated : OperatingSystemConfig :=
  value osc (GenerateOperatingSystemConfig live_md osp live_kubeconfig
    (bootstrapConfigName (machineDeploymentKey live_md)) "tok" (osc_name live_md) (flags reconciler)
    (with_credentials ∅ (containerRuntimeConfig reconciler))).

Lemma no_tokens n secret :
  ~ token_secret (bootstrap reconciler) (machineDeploymentKey live_md) store0 n secret.
Proof.
  intros Ht. destruct (ListSecrets_stored store0 WorkerClient NamespaceSystem machineDeploymentNameLabelKey
    (machineDeploymentKey live_md)) as (l & Hl & _ & Hin).
  assert (l = []) as ->.
  { destruct l as [|p l]; [done|]. apply (f_equal (fun m => length (value [] m))) in Hl. vm_compute in Hl. discriminate Hl. }
  by apply Hin, elem_of_nil in Ht.
Qed.

(** A key that is none of those written before the config. *)
Lemma preparing_elsewhere cl n :
  NN_Namespace n <> NamespaceSystem ->
  n ∉ map (fun x => ref_key x) (generated_secrets live_md) ->
  elsewhere (R := Credentials) (S := MemStore.store Credentials) (preparing reconciler live_md) cl KSecret n.
Proof.
  intros Hns Hn w Hw (_ & Hk & Hkey). apply Hn, list_elem_of_fmap. rewrite <- Hkey in *. clear Hkey n Hn.
  destruct Hw as [Hw|Hw].
  - destruct w as [x|x|x]; [done..|]. exists x. split; [done|]. by destruct Hw as [->|Hx].
  - exists (secret_ref (bootstrapConfigName (machineDeploymentKey live_md))).
    assert (ref_key (write_ref w) = {| NN_Namespace := CloudInitNamespace;
      NN_Name := bootstrapConfigName (machineDeploymentKey live_md) |}) as -> by (destruct w; cbn in *; tauto).
    split; [done|]. unfold generated_secrets. do 2 right. left.
Qed.

Lemma live_bootstrap : bootstrap_ready (bootstrap reconciler) (machineDeploymentKey live_md) (clearing reconciler live_md)
  store0 live_kubeconfig.
Proof.
  exists token, info, (value "" (StringifyKubeconfig live_kubeconfig)). split; [|split; [|split]].
  - apply token_drawn; [reflexivity|vm_compute; reflexivity|apply no_tokens|vm_compute; reflexivity..].
  - apply (info_from_slices _ store0 [slice]); [|vm_compute; reflexivity..].
    unfold cluster_info. replace (stored _ _ _ _) with (@None (obj KConfigMap)) by (vm_compute; reflexivity). exact I.
  - vm_compute. reflexivity.
  - vm_compute. reflexivity.
Qed.

Lemma live_creation : creation_ready reconciler live_md osp store0 live_kubeconfig generated.
Proof.
  split.
  - exists (value "" (GetProvisioningUtility (OSP_OSName (OSP_Spec osp)) live_md)).
    split; [vm_compute; reflexivity|]. apply (bool_decide_unpack _). vm_compute. exact I.
  - exists getter, "tok", ∅. split; [vm_compute; reflexivity|]. split; [|split; [vm_compute; reflexivity|split]].
    + apply preparing_elsewhere; apply (bool_decide_unpack _); vm_compute; exact I.
    + assert (loaded store0 = ∅) as <- by (vm_compute; reflexivity). by apply registry_unused.
    + vm_compute. reflexivity.
  - intros He. vm_compute in He. discriminate He.
Qed.

Lemma live_data : user_data_ready live_md (OSC_Spec (annotated_osc live_md osp "" generated)).
Proof.
  unfold user_data_ready. set (spec := OSC_Spec _).
  assert (forallb (fun p => is_ok (Generate p.2 (OSC_ProvisioningUtility spec) (OSC_OSName spec)
    (CloudProviderSpec_Name (OSC_CloudProvider spec)) live_md p.1))
    [(ProvisioningCloudConfig, OSC_ProvisioningConfig spec); (BootstrapCloudConfig, OSC_BootstrapConfig spec)] = true)
    as Hall by (vm_compute; reflexivity).
  apply Forall_forall. intros p Hp%list_elem_of_In. pose proof (proj1 (forallb_forall _ _) Hall p Hp) as Hok. cbn beta in Hok.
  destruct (Generate _ _ _ _ _ _) as [data|e|w]; [by exists data|discriminate Hok..].
Qed.

Lemma live_ready : ready reconciler live_md osp store0.
Proof.
  assert (stored_osc reconciler live_md store0 = None) as Hnone by (vm_compute; reflexivity).
  split; [apply store0_valid|by rewrite Hnone|vm_compute; reflexivity..|by intros [=]|].
  eexists live_kubeconfig, _. split; [apply live_bootstrap|]. split; [|apply live_data].
  apply config_new; [|apply live_creation]. unfold current. by rewrite Hnone.
Qed.

(** The machine deployment when it is deleted, with one secret left. *)
Definition leaving_store : MemStore.store Credentials :=
  with_object (k := KMachineDeployment) WorkerClient marked_md stale_store.
End Demo.
Import OSCController.Demo.

Lemma Reconcile_succeeds_witness :
  exists s', interp handle (Reconcile OSCController.Demo.reconciler OSCController.Demo.md_key) OSCController.Demo.store0
      = (Ok tt, s') /\
    converged OSCController.Demo.reconciler Demo.live_md OSCController.Demo.osp s'.
Proof.
  apply (Reconcile_succeeds OSCController.Demo.reconciler OSCController.Demo.md_key OSCController.Demo.md Demo.live_md
    OSCController.Demo.osp OSCController.Demo.store0 Demo_keys).
  - vm_compute. reflexivity.
  - reflexivity.
  - vm_compute. reflexivity.
  - apply Demo.live_ready.
Defined.

Lemma leaving_valid : valid Demo.leaving_store.
Proof. apply with_object_valid, stale_store_valid. Qed.

Lemma leaving_plain : plain_secrets OSCController.Demo.marked_md Demo.leaving_store.
Proof.
  intros x o Hx. unfold generated_secrets in Hx. rewrite !elem_of_cons, elem_of_nil in Hx.
  destruct Hx as [->|[->|[->|[]]]]; vm_compute; intros Ho; (discriminate Ho || (injection Ho as <-; reflexivity)).
Qed.

Lemma cleanup_succeeds_witness :
  stored_secret Demo.leaving_store (cloud_config_name OSCController.Demo.marked_md ProvisioningCloudConfig)
    = Some OSCController.Demo.old_secret /\
  exists s', interp handle (Reconcile OSCController.Demo.reconciler OSCController.Demo.md_key) Demo.leaving_store = (Ok tt, s') /\
    stored_secret s' (cloud_config_name OSCController.Demo.marked_md ProvisioningCloudConfig) = None.
Proof.
  split; [vm_compute; reflexivity|].
  destruct (cleanup_succeeds OSCController.Demo.reconciler OSCController.Demo.md_key OSCController.Demo.marked_md
    Demo.leaving_store leaving_valid) as (s' & Hi & _ & Hgone & _).
  - vm_compute. reflexivity.
  - discriminate.
  - vm_compute. reflexivity.
  - intros osc. vm_compute. intros Ho. injection Ho as <-. reflexivity.
  - apply leaving_plain.
  - exists s'. split; [exact Hi|]. apply (Hgone (secret_ref (cloud_config_name OSCController.Demo.marked_md ProvisioningCloudConfig))).
    left.
Defined.
