(* ===== verification/System.v ===== *)
(** * Reconciliations that run side by side

    [Add] starts several workers; the queue of controller-runtime never hands
    the same machine deployment to two of them.  Here the calls of the running
    reconciliations interleave one by one, with everything others do to the
    servers between two calls, reads may be answered by a cache that lags behind,
    and the process may stop at any moment and start again.  The invariant: what was generated for a machine deployment is
    covered by the cleanup finalizer on it, so nothing is left behind. *)

From S2P Require Import Prelude GoStrings Types Finalizers SDK Effects Api ContainerRuntime Bootstrap.
From S2P Require Import OSCResources OSCController Convergence.

(** ** The system *)

Section Workers.
Context `{OSCLibs} {S : Type} `{!ApiServer Credentials S}.
Variable r : Reconciler.

(** A reconciliation that is running: the calls it has made, with the answers,
    and what it still does. *)
Record worker := { history : list (obs (ApiE Credentials)); rest : io (ApiE Credentials) unit }.

Record system := { server : S; workers : gmap NamespacedName worker }.

(** The calls of the controller: a worker takes a key that no other has, a
    worker makes its next call or ends, the process stops. *)
Inductive event := Take (k : NamespacedName) | Next (k : NamespacedName) | Stop.

Definition next (s : S) (w : worker) : S * option worker :=
  match rest w with
  | Ret _ => (s, None)
  | Vis e f => let '(x, s') := handle _ e s in (s', Some {| history := history w ++ [Obs e x]; rest := f x |})
  end.

Definition perform (ev : event) (st : system) : option system :=
  match ev with
  | Take k =>
      match workers st !! k with
      | None => Some {| server := server st;
                        workers := <[k := {| history := []; rest := Reconcile r k |}]> (workers st) |}
      | Some _ => None
      end
  | Next k =>
      match workers st !! k with
      | Some w => let '(s', w') := next (server st) w in
                  Some {| server := s'; workers := partial_alter (fun _ => w') k (workers st) |}
      | None => None
      end
  | Stop => Some {| server := server st; workers := ∅ |}
  end.

(** A schedule without interference, for evaluation. *)
Fixpoint schedule (evs : list event) (st : system) : option system :=
  match evs with
  | [] => Some st
  | ev :: evs => perform ev st ≫= schedule evs
  end.

(** ** What is protected *)

(** The config and the two cloud-config secrets of a machine deployment. *)
Definition generated (k : NamespacedName) : list ref := osc_ref r (md_of k) :: take 2 (generated_secrets (md_of k)).

(** Stored and not marked for deletion. *)
Definition live (s : S) (x : ref) : Prop :=
  exists o, stored s (cluster_of (ref_client x)) (ref_kind x) (ref_key x) = Some o /\
    DeletionTimestamp (meta_of o) = None.

Definition has_finalizer (k : NamespacedName) (s : S) : Prop :=
  exists md : MachineDeployment, stored s (cluster_of WorkerClient) KMachineDeployment k = Some md /\
    MachineDeploymentCleanupFinalizer ∈ Finalizers (MD_Meta md).

(** Nothing was taken away from, and nothing generated for, [k]. *)
Definition undisturbed (k : NamespacedName) (s s' : S) : Prop :=
  (has_finalizer k s -> has_finalizer k s') /\ forall x, x ∈ generated k -> live s' x -> live s x.

Definition covered (k : NamespacedName) (s : S) : Prop :=
  forall x, x ∈ generated k -> live s x -> has_finalizer k s.
End Workers.

(** ** The order of the calls of one reconciliation *)

Section Order.
Context `{OSCLibs}.
Variable r : Reconciler.

(** The first call: the machine deployment, marked for deletion or not. *)
Definition starts (k : NamespacedName) (marked : bool) (o : obs (ApiE Credentials)) : Prop :=
  match o with
  | @Obs _ X e a =>
      match e in ApiE _ X return X -> Prop with
      | Get WorkerClient KMachineDeployment n => fun a : result MachineDeployment =>
          n = k /\ exists md, a = Ok md /\ bool_decide (DeletionTimestamp (MD_Meta md) <> None) = marked
      | _ => fun _ => False
      end a
  end.

(** The finalizer was read, on a machine deployment that is not marked for
    deletion, or the server acknowledged it. *)
Definition secures (k : NamespacedName) (o : obs (ApiE Credentials)) : Prop :=
  match o with
  | @Obs _ X e a =>
      match e in ApiE _ X return X -> Prop with
      | Get WorkerClient KMachineDeployment n => fun a : result MachineDeployment =>
          n = k /\ exists md, a = Ok md /\ DeletionTimestamp (MD_Meta md) = None /\
            MachineDeploymentCleanupFinalizer ∈ Finalizers (MD_Meta md)
      | Update WorkerClient KMachineDeployment md => fun a : result MachineDeployment =>
          is_ok a = true /\ MachineDeploymentCleanupFinalizer ∈ Finalizers (MD_Meta (md : MachineDeployment))
      | _ => fun _ => False
      end a
  end.

Definition started (k : NamespacedName) (marked : bool) (h : list (obs (ApiE Credentials))) : Prop :=
  exists o, head h = Some o /\ starts k marked o.
Definition secured (k : NamespacedName) (h : list (obs (ApiE Credentials))) : Prop :=
  started k false h /\ Exists (secures k) h.

(** The reads that go through a cache. *)
Definition is_read {X} (e : ApiE Credentials X) : Prop :=
  match e with Get _ _ _ | ListSecrets _ _ _ _ | ListEndpointSlices _ _ _ _ => True | _ => False end.

(** Nothing is created before the finalizer is there; it is not taken away
    before everything is deleted. *)
Definition call_order (k : NamespacedName) (h : list (obs (ApiE Credentials))) (X : Type) (e : ApiE Credentials X)
    : Prop :=
  (match writes e with Some (WCreate _) => secured k h | _ => True end) /\ release_order r k h X e.

Lemma started_app k b h h' : started k b h -> started k b (h ++ h').
Proof. intros (o & Hh & Ho). exists o. by destruct h. Qed.

Lemma secured_app k h h' : secured k h -> secured k (h ++ h').
Proof. intros [Hs He]. split; [by apply started_app|]. apply Exists_app. by left. Qed.

Lemma started_not_both k h : started k true h -> started k false h -> False.
Proof.
  intros (o & Hh & Ho) (o' & Hh' & Ho'). rewrite Hh in Hh'. injection Hh' as <-.
  destruct o as [X e a]. destruct e as [c kd n| | | | | | | | | |]; try done. destruct c, kd; try done.
  cbn in Ho, Ho'. destruct Ho as (_ & md & Hmd & Hb), Ho' as (_ & md' & Hmd' & Hb').
  rewrite Hmd in Hmd'. apply (f_equal ok_value) in Hmd'. cbn in Hmd'. injection Hmd' as <-. by rewrite Hb in Hb'.
Qed.

Lemma cleaned_up_started k h : cleaned_up r k h -> started k true h.
Proof.
  intros (md & t & -> & Hts & _). eexists. split; [reflexivity|]. cbn. split; [done|]. exists md. split; [done|].
  by apply bool_decide_eq_true.
Qed.
End Order.

Section OrderProps.
Context `{OSCLibs, !StringSetLaws}.
Variable r : Reconciler.

Lemma reconcile_call_order k md h : secured k h -> ordered (call_order r k) h (reconcile r md).
Proof.
  intros Hs. apply (all_calls_ordered_after _ (only_writes no_machine_deployment));
    [|apply reconcile_no_machine_deployment].
  intros later X e He. split.
  - destruct (writes e) as [[]|]; try done. by apply secured_app.
  - by apply (only_writes_release r no_machine_deployment).
Qed.

Lemma cleanup_creates_nothing md :
  all_calls (only_writes (fun w => match w with WCreate _ => False | _ => True end)) (handleMachineDeploymentCleanup r md).
Proof.
  unfold handleMachineDeploymentCleanup, deleteOperatingSystemConfig, deleteGeneratedSecrets, delete_if_found.
  repeat calls_step; exact I.
Qed.

(** Every reconciliation follows the order. *)
Lemma Reconcile_call_order k : ordered (call_order r k) [] (Reconcile r k).
Proof.
  unfold Reconcile. split; [by split|]. intros [md|e|w]; cbn [bind app]; [|by destruct (IsNotFound e)|exact I].
  destruct (DeletionTimestamp (MD_Meta md)) eqn:Hts.
  - destruct (HasFinalizer _ _); [|exact I]. unfold call_order. apply ordered_and; [|by apply cleanup_ordered; rewrite Hts].
    eapply all_calls_ordered; [|apply cleanup_creates_nothing]. intros h X e. unfold only_writes.
    by destruct (writes e) as [[]|].
  - assert (forall h', started k false
      (Obs (Get WorkerClient KMachineDeployment k) (Ok md) :: h' : list (obs (ApiE Credentials)))) as Hst.
    { intros h'. eexists. split; [reflexivity|]. cbn. split; [done|]. exists md. split; [done|].
      apply bool_decide_eq_false. intros []. exact Hts. }
    unfold ensure_finalizer. destruct (HasFinalizer _ _) eqn:Hf.
    + apply reconcile_call_order. split; [done|]. apply Exists_cons_hd. cbn. split; [done|]. exists md.
      split_and!; [done..|]. by apply HasFinalizer_singleton.
    + assert (MachineDeploymentCleanupFinalizer ∈
        Finalizers (AddFinalizer (MD_Meta md) [MachineDeploymentCleanupFinalizer])) as Hin
        by apply HasFinalizer_singleton, HasFinalizer_Add.
      unfold bindIO, wrapIO, trigger. cbn [bind ordered]. split; [split; [exact I|by intros []]|].
      intros [md2|e|w]; cbn [wrapR bind]; [|exact I..]. apply reconcile_call_order. split; [apply Hst|].
      apply Exists_cons_tl, Exists_cons_hd. by split.
Qed.
End OrderProps.

(** ** The calls of a worker *)

Section Interference.
Context `{OSCLibs, !StringSetLaws} {S : Type} `{ApiServerLaws Credentials S, !NamedServer Credentials S,
  !DeletionLaws Credentials S}.
Variable r : Reconciler.
(** The machine deployments there can be. *)
Variable managed : NamespacedName -> Prop.

(** Their names are told apart by the names made from them. *)
Record separate_keys : Prop := {
  configs_separate k k' : managed k -> managed k' -> osc_key r (md_of k) = osc_key r (md_of k') -> k = k';
  secrets_separate k k' T T' : managed k -> managed k' -> T ∈ cloud_config_types -> T' ∈ cloud_config_types ->
    cloud_config_name (md_of k) T = cloud_config_name (md_of k') T' -> k = k';
  names_separate k k' T : managed k -> managed k' -> T ∈ cloud_config_types ->
    ref_key (script_ref (md_of k)) <> settings_key (cloud_config_name (md_of k') T) /\
    bootstrapConfigName (machineDeploymentKey (md_of k)) <> cloud_config_name (md_of k') T;
  tokens_elsewhere : CloudInitSettingsNamespace <> NamespaceSystem
}.
Hypothesis Hsep : separate_keys.

Definition permitted (k : NamespacedName) (w : write) : Prop := w = WUpdate (md_ref k) \/ owned_write r (md_of k) w.

Definition touches_ref (x : ref) (w : write) : Prop := touches (cluster_of (ref_client x)) (ref_kind x) (ref_key x) w.

Lemma generated_cases k x :
  x ∈ generated r k <-> x = osc_ref r (md_of k) \/
    exists T, T ∈ cloud_config_types /\ x = secret_ref (cloud_config_name (md_of k) T).
Proof.
  unfold generated, generated_secrets, cloud_config_types. cbn [take]. rewrite !elem_of_cons, elem_of_nil. split.
  - intros [->|[->|[->|[]]]]; [by left|right..]; [exists ProvisioningCloudConfig|exists BootstrapCloudConfig];
      (split; [set_solver|done]).
  - intros [->|(T & HT & ->)]; [by left|]. rewrite !elem_of_cons, elem_of_nil in HT.
    destruct HT as [->|[->|[]]]; auto.
Qed.

(** The bootstrap secrets and the script are none of the generated objects. *)
Lemma bootstrap_write_touches k k' x w :
  managed k -> managed k' -> x ∈ generated r k' ->
  bootstrap_write (bootstrap r) (machineDeploymentKey (md_of k)) w -> ~ touches_ref x w.
Proof.
  intros Hk Hk' Hx Hw (_ & Hkind & Hkey). apply generated_cases in Hx as [->|(T & HT & ->)].
  - apply bootstrap_write_kind in Hw. rewrite Hw in Hkind. done.
  - assert (NN_Namespace (ref_key (write_ref w)) = NamespaceSystem \/ ref_key (write_ref w) =
      {| NN_Namespace := CloudInitNamespace; NN_Name := bootstrapConfigName (machineDeploymentKey (md_of k)) |})
      as [Hns|Hb] by (destruct w as [y|y|y]; cbn in *; tauto).
    + rewrite Hkey in Hns. by apply (tokens_elsewhere Hsep).
    + rewrite Hb in Hkey. injection Hkey as _ Hn. by apply (names_separate Hsep k k' T Hk Hk' HT).
Qed.

(** What a worker for [k] writes of the generated objects is its own. *)
Lemma permitted_touches k k' x w :
  managed k -> managed k' -> x ∈ generated r k' -> permitted k w -> touches_ref x w ->
  k = k' /\ (w = WCreate x \/ w = WDelete x).
Proof.
  intros Hk Hk' Hx [->|[Hb|Hw]] Ht.
  - destruct Ht as (_ & Hkind & _). apply generated_cases in Hx as [->|(T & HT & ->)]; done.
  - by destruct (bootstrap_write_touches k k' x w Hk Hk' Hx Hb).
  - assert (forall y, (y = osc_ref r (md_of k) \/ y ∈ generated_secrets (md_of k) \/ y = script_ref (md_of k)) ->
      ref_kind y = ref_kind x -> ref_key y = ref_key x -> k = k' /\ y = x) as Hy.
    { intros y Hy Hkind Hkey. apply generated_cases in Hx as [->|(T & HT & ->)].
      - destruct Hy as [->|[Hy| ->]]; [|unfold generated_secrets in Hy; rewrite !elem_of_cons, elem_of_nil in Hy;
          by repeat destruct Hy as [->|Hy]|done].
        pose proof (configs_separate Hsep k k' Hk Hk' Hkey) as <-. done.
      - destruct Hy as [->|[Hy| ->]]; [done| |by destruct (names_separate Hsep k k' T Hk Hk' HT)].
        assert (forall T', T' ∈ cloud_config_types -> y = secret_ref (cloud_config_name (md_of k) T') ->
          k = k' /\ y = secret_ref (cloud_config_name (md_of k') T)) as Hc.
        { intros T' HT' ->. injection Hkey as Hn. split; [exact (secrets_separate Hsep k k' T' T Hk Hk' HT' HT Hn)|].
          unfold secret_ref. by rewrite Hn. }
        unfold generated_secrets in Hy. rewrite !elem_of_cons, elem_of_nil in Hy. destruct Hy as [Hy|[Hy|[->|[]]]].
        + apply (Hc ProvisioningCloudConfig); [set_solver|done].
        + apply (Hc BootstrapCloudConfig); [set_solver|done].
        + injection Hkey as Hn. by destruct (names_separate Hsep k k' T Hk Hk' HT). }
    destruct Ht as (_ & Hkind & Hkey). destruct w as [y|y|y]; [| done |]; cbn in Hw, Hkind, Hkey.
    + destruct (Hy y) as [-> ->]; [|done..|by auto]. destruct Hw as [->|[Hw| ->]]; [by left| |by right; right].
      right; left. unfold generated_secrets in *. cbn [take] in Hw. set_solver.
    + destruct (Hy y) as [-> ->]; [|done..|by auto]. destruct Hw as [->|Hw]; [by left|]. by right; left.
Qed.

(** *** One call *)

Lemma call_elsewhere X (e : ApiE Credentials X) (s : S) x s' y :
  handle _ e s = (x, s') -> (forall w, writes e = Some w -> ~ touches_ref y w) -> live s' y -> live s y.
Proof.
  intros Hh Hw (o & Ho & Hts). exists o. split; [|done]. rewrite <- Ho. symmetry. by eapply handle_stored.
Qed.

(** A generated object that is there after a call of [k] was there before, or
    the call created it. *)
Lemma call_live k k' X (e : ApiE Credentials X) (s : S) x s' y :
  managed k -> managed k' -> y ∈ generated r k' -> only_writes (permitted k) X e -> handle _ e s = (x, s') ->
  live s' y -> live s y \/ (k = k' /\ writes e = Some (WCreate y)).
Proof.
  intros Hk Hk' Hy He Hh Hl. unfold only_writes in He. destruct (writes e) as [w|] eqn:Hw.
  - destruct (decide (touches_ref y w)) as [Ht|Ht]; [|left; eapply call_elsewhere; [done| |done]; congruence].
    destruct (permitted_touches k k' y w Hk Hk' Hy He Ht) as [-> [->| ->]]; [by right|left].
    destruct e as [|c kd o|c kd o|c kd n| | | | | | |]; try done. injection Hw as <-. cbn in *.
    destruct (Delete_effect s c kd n x s' Hh) as [[_ Heq]|Hm].
    + unfold live in *. cbn in *. by rewrite <- Heq.
    + destruct Hl as (o & Ho & Hts). by destruct (Hm o Ho).
  - left. eapply call_elsewhere; [done| |done]. congruence.
Qed.

Lemma deleted_not_live X (e : ApiE Credentials X) (s : S) x s' y :
  handle _ e s = (x, s') -> deleted y (Obs e x) -> ~ live s' y.
Proof.
  intros Hh Hd (o & Ho & Hts). destruct e as [|c kd o'|c kd o'|c kd n| | | | | | |]; try done.
  cbn in Hd. destruct Hd as [<- Ha]. cbn in *. destruct x as [[]|e|w]; [| |done].
  - destruct (Delete_effect s c kd n (Ok tt) s' Hh) as [[? _]|Hm]; [done|]. by apply (Hm o).
  - rewrite (Delete_err s c kd n e s' Hh Ha) in Ho. done.
Qed.

(** Only an update without the finalizer takes it away. *)
Lemma call_finalizer k k' X (e : ApiE Credentials X) (s : S) x s' h :
  managed k -> managed k' -> only_writes (permitted k) X e -> release_order r k h X e -> handle _ e s = (x, s') ->
  has_finalizer k' s -> has_finalizer k' s' \/ (k = k' /\ cleaned_up r k h).
Proof.
  intros Hk Hk' He Hrel Hh (md & Hmd & Hf).
  assert ((forall w, writes e = Some w -> ~ touches_ref (md_ref k') w) \/
    exists w, writes e = Some w /\ touches_ref (md_ref k') w) as [Hn|(w & Hw & Ht)].
  { destruct (writes e) as [w|]; [|by left]. destruct (decide (touches_ref (md_ref k') w)); [right; eauto|left].
    by intros w' [= <-]. }
  - left. exists md. split; [|done]. rewrite <- Hmd. exact (handle_stored _ e s x s' _ _ _ Hh Hn).
  - unfold only_writes in He. rewrite Hw in He. destruct He as [->|[Hb|Ho]].
    + assert (k = k') as <- by (by destruct Ht as (_ & _ & ?)). clear Ht.
      destruct e as [| |c kd o| | | | | | | |]; try done. injection Hw as -> Hkd Hkey.
      cbn in Hkd. subst kd. cbn in Hkey.
      destruct (decide (MachineDeploymentCleanupFinalizer ∈ Finalizers (MD_Meta o))) as [Hin|Hin]; [left|right; auto].
      destruct (Update_effect s WorkerClient KMachineDeployment o x s' Hh) as [[_ Heq]|[(o' & Ho' & Hfin)|[Hfin _]]].
      * exists md. split; [|done]. cbn in Heq. rewrite Hkey in Heq. by rewrite Heq.
      * exists o'. cbn in *. rewrite Hkey in Ho'. split; [done|]. by rewrite Hfin.
      * cbn in Hfin. rewrite Hfin in Hin. by apply elem_of_nil in Hin.
    + apply bootstrap_write_kind in Hb. destruct Ht as (_ & Hkind & _). by rewrite Hb in Hkind.
    + exfalso. destruct Ht as (_ & Hkind & _). destruct w as [y|y|y]; cbn in *; [|done|].
      * destruct Ho as [->|[Hy| ->]]; [done| |done]. unfold generated_secrets in Hy. cbn [take] in Hy.
        rewrite !elem_of_cons, elem_of_nil in Hy. by repeat destruct Hy as [->|Hy].
      * destruct Ho as [->|Hy]; [done|]. unfold generated_secrets in Hy.
        rewrite !elem_of_cons, elem_of_nil in Hy. by repeat destruct Hy as [->|Hy].
Qed.

(** A call that secures the finalizer leaves it on the server. *)
Lemma call_secures k X (e : ApiE Credentials X) (s : S) x s' :
  only_writes (permitted k) X e -> handle _ e s = (x, s') -> secures k (Obs e x) -> has_finalizer k s'.
Proof.
  intros He Hh Hs. destruct e as [c kd n| |c kd o| | | | | | | |]; try done; destruct c, kd; try done.
  - cbn in Hs. destruct Hs as (-> & md & -> & _ & Hf). exists md. split; [|done].
    pose proof (Get_ok s WorkerClient KMachineDeployment k md s' Hh) as Hg.
    etransitivity; [|exact Hg]. exact (Get_frame s WorkerClient KMachineDeployment k (Ok md) s' Hh (cluster_of WorkerClient) KMachineDeployment k).
  - cbn in Hs. destruct Hs as [Hok Hf].
    assert (key_of (MD_Meta o) = k) as Hkey.
    { unfold only_writes in He. cbn [writes] in He. destruct He as [Hu|[(_ & Hkind & _)|[]]]; [|done].
      by injection Hu. }
    destruct (Update_effect s WorkerClient KMachineDeployment o x s' Hh) as [[Hno _]|[(o' & Ho' & Hfin)|[Hfin _]]].
    + by pose proof (eq_trans (eq_sym Hok) Hno).
    + exists o'. cbn in Ho', Hfin. rewrite Hkey in Ho'. split; [done|]. by rewrite Hfin.
    + cbn in Hfin. rewrite Hfin in Hf. by apply elem_of_nil in Hf.
Qed.

(** *** The invariant *)

(** What a worker relies on and keeps to. *)
Record worker_ok (k : NamespacedName) (s : S) (w : worker) : Prop := {
  follows_order : ordered (call_order r k) (history w) (rest w);
  answers_honest : Forall honest_obs (history w);
  keeps_to_own : calls_when honest (only_writes (permitted k)) (rest w);
  knows_secured : secured k (history w) -> has_finalizer k s;
  knows_deleted x : x ∈ generated r k -> started k true (history w) -> Exists (deleted x) (history w) -> ~ live s x
}.

Record invariant (st : system) : Prop := {
  inv_valid : valid (server st);
  inv_covered k : managed k -> covered r k (server st);
  inv_workers k w : workers st !! k = Some w -> managed k /\ worker_ok k (server st) w
}.

Lemma worker_undisturbed k (s s' : S) w : undisturbed r k s s' -> worker_ok k s w -> worker_ok k s' w.
Proof.
  intros [Hf Hl] [Ho Hh Hc Hs Hd]. split; [done..|auto|]. intros x Hx Hst Hex Hlive. by apply (Hd x Hx Hst Hex), Hl.
Qed.

Lemma covered_undisturbed k (s s' : S) : undisturbed r k s s' -> covered r k s -> covered r k s'.
Proof. intros [Hf Hl] Hc x Hx Hlive. apply Hf, (Hc x Hx). by apply Hl. Qed.

Lemma call_undisturbed k k' X (e : ApiE Credentials X) (s : S) x s' h :
  managed k -> managed k' -> k <> k' -> only_writes (permitted k) X e -> call_order r k h X e ->
  handle _ e s = (x, s') -> undisturbed r k' s s'.
Proof.
  intros Hk Hk' Hne He [_ Hrel] Hh. split.
  - intros Hf. by destruct (call_finalizer k k' X e s x s' h Hk Hk' He Hrel Hh Hf) as [|[? _]].
  - intros y Hy Hl. by destruct (call_live k k' X e s x s' y Hk Hk' Hy He Hh Hl) as [|[? _]].
Qed.

Lemma cleaned_up_deleted k h y :
  Forall honest_obs h -> cleaned_up r k h -> y ∈ generated r k -> Exists (deleted y) h.
Proof.
  intros Hh (md & t & -> & _ & Hall) Hy. apply Exists_cons_tl, Hall. apply Forall_cons in Hh as [Hkey _].
  cbn in Hkey. assert (osc_ref r md :: generated_secrets md = osc_ref r (md_of k) :: generated_secrets (md_of k)) as ->
    by (subst k; reflexivity).
  unfold generated, generated_secrets in *. set_solver.
Qed.

Lemma secured_snoc k h o : secured k (h ++ [o]) -> secured k h \/ secures k o.
Proof.
  intros [(o' & Hh & Ho') [He|He%Exists_cons]%Exists_app].
  - left. split; [|done]. exists o'. split; [|done]. destruct h; [by apply Exists_nil in He|done].
  - right. by destruct He as [|?%Exists_nil].
Qed.

Lemma started_snoc k b h o : started k b (h ++ [o]) -> started k b h \/ h = [].
Proof. intros (o' & Hh & Ho'). destruct h; [by right|left]. by exists o'. Qed.

Lemma own_call k X (e : ApiE Credentials X) f (s : S) h x s' :
  managed k -> valid s -> covered r k s -> worker_ok k s {| history := h; rest := Vis e f |} ->
  handle _ e s = (x, s') ->
  worker_ok k s' {| history := h ++ [Obs e x]; rest := f x |} /\ covered r k s'.
Proof.
  intros Hk Hv Hc [[Horder Ho] Hall [He Hcalls] Hs Hd] Hh. cbn [history rest] in *.
  destruct (honest_answer X e s x s' Hv Hh) as [Hhonest _].
  pose proof (call_finalizer k k X e s x s' h Hk Hk He (proj2 Horder) Hh) as Hfin.
  assert (forall y, y ∈ generated r k -> live s' y -> live s y \/ secured k h) as Hlive.
  { intros y Hy Hl. destruct (call_live k k X e s x s' y Hk Hk Hy He Hh Hl) as [|[_ Hw]]; [by left|right].
    destruct Horder as [Hcreate _]. by rewrite Hw in Hcreate. }
  split; [split; cbn [history rest]|].
  - apply Ho.
  - apply Forall_app. by repeat constructor.
  - by apply Hcalls.
  - intros [Hsec|Hsec]%secured_snoc; [|by eapply call_secures].
    destruct (Hfin (Hs Hsec)) as [|[_ Hcl]]; [done|]. exfalso.
    exact (started_not_both k h (cleaned_up_started r k h Hcl) (proj1 Hsec)).
  - intros y Hy Hst [Hex|Hex%Exists_cons]%Exists_app Hl.
    + destruct (started_snoc _ _ _ _ Hst) as [Hst'| ->]; [|by apply Exists_nil in Hex].
      destruct (Hlive y Hy Hl) as [Hl'|Hsec]; [by apply (Hd y)|]. exact (started_not_both k h Hst' (proj1 Hsec)).
    + destruct Hex as [Hdel|?%Exists_nil]; [|done]. by apply (deleted_not_live X e s x s' y Hh Hdel).
  - intros y Hy Hl. destruct (Hlive y Hy Hl) as [Hl'|Hsec].
    + destruct (Hfin (Hc y Hy Hl')) as [|[_ Hcl]]; [done|]. exfalso.
      apply (Hd y Hy); [by apply (cleaned_up_started r)| |done].
      by apply (cleaned_up_deleted k h y).
    + destruct (Hfin (Hs Hsec)) as [|[_ Hcl]]; [done|]. exfalso.
      exact (started_not_both k h (cleaned_up_started r k h Hcl) (proj1 Hsec)).
Qed.

(** A read that the server did not answer itself changes nothing. *)
Lemma stale_answer k X (e : ApiE Credentials X) f (s : S) h x :
  is_read e -> honest X e x -> (secures k (Obs e x) -> has_finalizer k s) ->
  worker_ok k s {| history := h; rest := Vis e f |} -> worker_ok k s {| history := h ++ [Obs e x]; rest := f x |}.
Proof.
  intros Hr Hx Hsec [[_ Ho] Hall [_ Hcalls] Hs Hd]. cbn [history rest] in *. split; cbn [history rest].
  - apply Ho.
  - apply Forall_app. by repeat constructor.
  - by apply Hcalls.
  - by intros [?|?]%secured_snoc; [apply Hs|apply Hsec].
  - intros y Hy Hst [Hex|[Hdel|?%Exists_nil]%Exists_cons]%Exists_app; [|by destruct e|done].
    destruct (started_snoc _ _ _ _ Hst) as [Hst'| ->]; [by apply Hd|by apply Exists_nil in Hex].
Qed.

(** *** Steps *)

(** What others do between two calls: they do not take the finalizer away and
    do not create what the controller generates. *)
Definition others (s s' : S) : Prop := (valid s -> valid s') /\ forall k, managed k -> undisturbed r k s s'.

(** A cache may answer a read instead of the server, with whatever it holds
    under that name.  It does not show the finalizer on an unmarked machine
    deployment from which it is gone: it is taken away after the cleanup has read
    the mark, through the same cache, and a cache does not go back. *)
Inductive step : system -> system -> Prop :=
| step_event ev st st' :
    (forall k, ev = Take k -> managed k) -> perform r ev st = Some st' -> step st st'
| step_others st s' :
    others (server st) s' -> step st {| server := s'; workers := workers st |}
| step_stale st k h X (e : ApiE Credentials X) f x :
    workers st !! k = Some {| history := h; rest := Vis e f |} -> is_read e -> honest X e x ->
    (secures k (Obs e x) -> has_finalizer k (server st)) ->
    step st {| server := server st; workers := <[k := {| history := h ++ [Obs e x]; rest := f x |}]> (workers st) |}.

Lemma invariant_step st st' : step st st' -> invariant st -> invariant st'.
Proof.
  intros Hstep [Hv Hc Hw]. destruct Hstep as [[k|k|] st st' Hk Hp|st s' [Hv' Hu]|st k h X e f x Hl Hr Hx Hsec]; [cbn in Hp..| |].
  - destruct (workers st !! k) eqn:Hl; [done|]. injection Hp as <-. split; cbn; [done..|].
    intros k' w [[<- <-]|[_ Hl']]%lookup_insert_Some; [|by apply Hw]. split; [by apply Hk|].
    split; cbn [history rest]; [apply Reconcile_call_order|done|apply Reconcile_calls| |].
    + by intros [_ ?%Exists_nil].
    + by intros x _ _ ?%Exists_nil.
  - destruct (workers st !! k) as [[h m]|] eqn:Hl; [|done]. destruct (Hw k _ Hl) as [Hm Hok].
    unfold next in Hp. cbn [history rest] in Hp. destruct m as [a|X e f].
    + injection Hp as <-. split; cbn; [done..|]. intros k' w Hl'.
      destruct (decide (k = k')) as [<-|Hne]; [by rewrite lookup_partial_alter_eq in Hl'|].
      rewrite lookup_partial_alter_ne in Hl' by done. by apply Hw.
    + destruct (handle X e (server st)) as [x s'] eqn:Hh. injection Hp as <-.
      destruct (own_call k X e f (server st) h x s' Hm Hv (Hc k Hm) Hok Hh) as [Hok' Hc'].
      assert (forall k', managed k' -> k <> k' -> undisturbed r k' (server st) s') as Hu.
      { intros k' Hk' Hne. eapply call_undisturbed; [exact Hm|done..| | |exact Hh]; apply Hok. }
      split; cbn.
      * by destruct (honest_answer X e (server st) x s' Hv Hh).
      * intros k' Hk'. destruct (decide (k = k')) as [<-|Hne]; [done|].
        eapply covered_undisturbed; [by apply Hu|by apply Hc].
      * intros k' w Hl'. destruct (decide (k = k')) as [<-|Hne].
        -- rewrite lookup_partial_alter_eq in Hl'. injection Hl' as <-. done.
        -- rewrite lookup_partial_alter_ne in Hl' by done. destruct (Hw k' w Hl') as [Hk' Hok''].
           split; [done|]. eapply worker_undisturbed; [by apply Hu|done].
  - injection Hp as <-. split; cbn; [done..|]. intros k w Hl. done.
  - split; cbn; [by apply Hv'|..].
    + intros k Hk. eapply covered_undisturbed; [by apply Hu|by apply Hc].
    + intros k w Hl. destruct (Hw k w Hl) as [Hk Hok]. split; [done|]. eapply worker_undisturbed; [by apply Hu|done].
  - split; cbn; [done..|]. intros k' w [[<- <-]|[_ Hl']]%lookup_insert_Some; [|by apply Hw].
    destruct (Hw k _ Hl) as [Hk Hok]. split; [done|]. by apply stale_answer.
Qed.

(** C1: whatever order the calls of concurrent reconciliations are answered in, whatever others do between two calls short of removing the finalizer or creating what is generated, whichever reads a cache answers with old values (unless it goes back to a finalizer that was released), and however often the process stops and starts again, a config or a cloud-config secret that is stored and not marked for deletion belongs to a machine deployment that is stored and carries the cleanup finalizer *)
Theorem no_orphans st st' :
  valid (server st) -> workers st = ∅ -> (forall k, managed k -> covered r k (server st)) ->
  rtc step st st' ->
  forall k, managed k -> covered r k (server st').
Proof.
  intros Hv Hw Hc Hsteps. apply inv_covered. assert (invariant st) as Hinv.
  { split; [done..|]. intros k w Hl. by rewrite Hw in Hl. }
  clear Hv Hw Hc. induction Hsteps as [st|st st1 st2 Hs _ IH]; [done|]. apply IH. by eapply invariant_step.
Qed.
End Interference.

(** Events of the controller alone. *)
Lemma schedule_steps `{OSCLibs} {S : Type} `{ApiServerLaws Credentials S, !NamedServer Credentials S}
    r (managed : NamespacedName -> Prop) evs (st st' : system (S := S)) :
  (forall k, Take k ∈ evs -> managed k) -> schedule r evs st = Some st' -> rtc (step r managed) st st'.
Proof.
  revert st. induction evs as [|ev evs IH]; intros st Hm; cbn.
  - by intros [= ->].
  - intros (st1 & Hp & Hs)%bind_Some. eapply rtc_l; [|apply IH; [|exact Hs]].
    + eapply step_event; [|exact Hp]. intros k ->. apply Hm. by left.
    + intros k Hk. apply Hm. by right.
Qed.

(** ** Names *)

(** C15: configs are told apart by their names only within a namespace: two machine deployments of one namespace never share a config, but a name that ends in the beginning of another's namespace does *)
Theorem osc_name_collision `{OSCLibs} (r : Reconciler) :
  (forall k k', NN_Namespace k = NN_Namespace k' -> osc_key r (md_of k) = osc_key r (md_of k') -> k = k') /\
  (forall a b c, osc_key r (md_of {| NN_Namespace := c; NN_Name := a +:+ "-" +:+ b |}) =
                 osc_key r (md_of {| NN_Namespace := b +:+ "-" +:+ c; NN_Name := a |})).
Proof.
  split.
  - intros [ns n] [ns' n'] Hns Hk. cbn in Hns. subst ns'. injection Hk as Hn. cbn in Hn. f_equal.
    by apply (inj (fun a => a +:+ "-" +:+ ns +:+ "-config")).
  - intros a b c. unfold osc_key, osc_name, OperatingSystemConfigName. cbn. f_equal. by rewrite !append_assoc.
Qed.

(** ** Evaluation on concrete inputs *)

Module Demo.
Import OSCController.Demo.
Definition md_key2 : NamespacedName := {| NN_Namespace := "kube-system"; NN_Name := "md-2" |}.
Definition md2 : MachineDeployment :=
  with_MD_Meta (with_annotations (Some annotations) (object_meta "md-2" "kube-system")) md.
Definition managed (k : NamespacedName) : Prop := k = md_key \/ k = md_key2.

(** Two machine deployments, nothing generated. *)
Definition idle : system := {| server := with_object (k := KMachineDeployment) WorkerClient md2 store0; workers := ∅ |}.

(** Both are reconciled at once; the process stops in the middle of it, and the
    second one is reconciled to the end while the first one has only begun. *)
Definition events : list event :=
  [Take md_key; Take md_key2] ++ concat (repeat [Next md_key; Next md_key2] 19) ++
  [Stop; Take md_key2] ++ repeat (Next md_key2) 15 ++ [Take md_key; Next md_key; Next md_key].

(** What the state of a system shows, as a test. *)
Definition is_live (x : ref) (s : MemStore.store Credentials) : bool :=
  match stored (R := Credentials) s (cluster_of (R := Credentials) (S := MemStore.store Credentials) (ref_client x))
          (ref_kind x) (ref_key x) with
  | Some o => bool_decide (DeletionTimestamp (meta_of o) = None)
  | None => false
  end.
Lemma is_live_spec x s : is_live x s = true -> live s x.
Proof. unfold is_live, live. destruct (stored _ _ _ _) as [o|]; [|done]. intros Ho%bool_decide_eq_true. by exists o. Qed.
Definition not_there : error := StatusError ReasonNotFound "not found".
(** Then a worker takes the second one, and its cache does not have it yet. *)
Definition after_stale_read (st : system (S := MemStore.store Credentials)) : system :=
  {| server := server st;
     workers := <[md_key2 := {| history := [Obs (Get WorkerClient KMachineDeployment md_key2) (Err not_there)];
                                rest := Ret (Ok tt) |}]> (workers st) |}.
Definition shows (st : system) : list bool * bool :=
  (map (fun x => is_live x (server st)) (generated reconciler md_key2), bool_decide (workers st !! md_key2 = None)).
End Demo.
Import OSCController.Demo Demo.

Lemma Demo_separate_keys : separate_keys reconciler managed.
Proof.
  split.
  - intros k k' [->| ->] [->| ->] Hk; (reflexivity || discriminate Hk).
  - intros k k' T T' [->| ->] [->| ->] HT HT' Hk; try reflexivity; exfalso;
      unfold cloud_config_types in HT, HT'; rewrite !elem_of_cons, elem_of_nil in HT, HT'; destruct HT as [->|[->|[]]], HT' as [->|[->|[]]]; discriminate Hk.
  - intros k k' T [->| ->] [->| ->] HT; unfold cloud_config_types in HT;
      rewrite !elem_of_cons, elem_of_nil in HT; destruct HT as [->|[->|[]]]; split; discriminate.
  - discriminate.
Qed.

Lemma idle_covered k : managed k -> covered reconciler k (server Demo.idle).
Proof.
  intros [->| ->] x Hx (o & Ho & _); exfalso; unfold generated, generated_secrets in Hx; cbn [take] in Hx;
    rewrite !elem_of_cons, elem_of_nil in Hx; destruct Hx as [->|[->|[->|[]]]]; vm_compute in Ho; discriminate Ho.
Qed.

Lemma events_managed :
  forallb (fun ev => match ev with Take k => bool_decide (k = md_key \/ k = md_key2) | _ => true end) Demo.events = true.
Proof. vm_compute. reflexivity. Qed.

Lemma stale_read_steps st :
  workers st !! md_key2 = None -> rtc (step reconciler managed) st (Demo.after_stale_read st).
Proof.
  intros Hn. apply (rtc_l _ _ {| server := server st;
    workers := <[md_key2 := {| history := []; rest := Reconcile reconciler md_key2 |}]> (workers st) |}).
  { apply (step_event _ _ (Take md_key2)); [by intros k [= <-]; right|]. unfold perform. by rewrite Hn. }
  apply rtc_once. unfold Demo.after_stale_read.
  assert (exists f, Reconcile reconciler md_key2 = Vis (Get WorkerClient KMachineDeployment md_key2) f /\
    f (Err Demo.not_there) = Ret (Ok tt)) as (f & -> & <-) by (eexists; split; reflexivity).
  pose proof (fun hidden => step_stale reconciler managed
    {| server := server st; workers := <[md_key2 := {| history := []; rest := Vis _ f |}]> (workers st) |}
    md_key2 [] _ (Get WorkerClient KMachineDeployment md_key2) f (Err Demo.not_there) (lookup_insert_eq _ _ _) I I hidden) as Hs.
  cbn in Hs. rewrite insert_insert_eq in Hs. apply Hs. by intros (_ & md & [=] & _).
Qed.

Lemma no_orphans_witness :
  exists st, schedule reconciler Demo.events Demo.idle = Some st /\
    Demo.shows st = ([true; true; true], true) /\ has_finalizer md_key2 (server (Demo.after_stale_read st)).
Proof.
  assert (option_map Demo.shows (schedule reconciler Demo.events Demo.idle) = Some ([true; true; true], true)) as Hshow
    by (vm_compute; reflexivity).
  destruct (schedule reconciler Demo.events Demo.idle) as [st|] eqn:Hst; [|discriminate Hshow].
  apply (inj Some) in Hshow. exists st. split; [reflexivity|]. split; [exact Hshow|].
  assert (covered reconciler md_key2 (server (Demo.after_stale_read st))) as Hc.
  { apply (no_orphans reconciler managed Demo_separate_keys Demo.idle (Demo.after_stale_read st)).
    - apply with_object_valid, store0_valid.
    - reflexivity.
    - exact idle_covered.
    - etransitivity; [apply (schedule_steps reconciler managed Demo.events); [|exact Hst]|].
      + intros k Hk. apply list_elem_of_In, (proj1 (forallb_forall _ _) events_managed), bool_decide_eq_true in Hk. exact Hk.
      + apply stale_read_steps. apply (f_equal snd) in Hshow. by apply bool_decide_eq_true in Hshow.
    - by right. }
  apply (Hc (osc_ref reconciler (md_of md_key2))); [by left|].
  unfold Demo.shows in Hshow. injection Hshow as Hlive _. by apply is_live_spec.
Defined.
