(* ===== verification/Interference.v ===== *)
(** * A reconciliation among others

    [Convergence] is about reconciliations one after another.  Here a
    reconciliation is interrupted between any two of its calls by other workers
    and other clients, who leave alone what is generated for its machine
    deployment and may change everything else: other machine deployments, the
    profile itself, bootstrap tokens.  What it leaves behind when it succeeds is
    the same. *)

From S2P Require Import Prelude GoStrings Encoding Types Finalizers SDK Effects Api ContainerRuntime Generator.
From S2P Require Import OSCResources Bootstrap OSCController Convergence System.

(** ** The runs of the parts *)

Section Runs.
Context `{OSCLibs}.
Variable r : Reconciler.
Variable md : MachineDeployment.

(** The writes of a trace are among [P]. *)
Definition trace_writes (P : write -> Prop) (t : list (obs (ApiE Credentials))) : Prop :=
  Forall (fun o => forall w, obs_writes o = Some w -> P w) t.

Lemma trace_writes_run {A} (P : write -> Prop) (m : prog (ApiE Credentials) A) t a :
  all_calls (only_writes P) m -> run m t a -> trace_writes P t.
Proof.
  intros Hm Hr. eapply Forall_impl; [exact (all_calls_run _ _ _ _ Hm Hr)|].
  intros [X e x] Ho w Hw. cbn in Hw. unfold only_writes in Ho. by rewrite Hw in Ho.
Qed.

Lemma trace_writes_mono (P P' : write -> Prop) t : (forall w, P w -> P' w) -> trace_writes P t -> trace_writes P' t.
Proof. intros HP Ht. eapply Forall_impl; [exact Ht|]. intros o Ho w Hw. auto. Qed.

Lemma generateEdgeScript_calls token kc :
  all_calls (only_writes (fun w => write_ref w = script_ref md)) (generateEdgeScript md token kc).
Proof. unfold generateEdgeScript. repeat calls_step; done. Qed.

(** The config is the last object that is created. *)
Lemma create_osc_run osp kc kcName t :
  run (create_osc r md osp kc kcName) t (Ok tt) ->
  exists osc t', t = t' ++ [Obs (Create ControlClient KOperatingSystemConfig osc) (Ok tt)] /\
    made_from r md osp osc /\ key_of (OSC_Meta osc) = osc_key r md /\
    trace_writes (fun w => write_ref w = script_ref md) t'.
Proof.
  unfold create_osc. rewrite run_bindIO_Ok.
  intros (t1 & t2 & provisioner & -> & [-> _]%run_wrapIO_Ok%run_pureIO & Hrun).
  destruct (negb _ && negb _); [by destruct Hrun|].
  apply run_bindIO_Ok in Hrun as (t3 & t4 & [] & -> & Hcreds & Hrun).
  apply run_bindIO_Ok in Hrun as (t5 & t6 & token & -> & Htoken & Hrun).
  apply run_bind in Hrun as (t9 & t10 & creds & -> & ->%run_trigger & Hrun).
  apply run_bindIO_Ok in Hrun as (t11 & t12 & osc & -> & [-> Ho]%run_wrapIO_Ok & Hrun).
  apply run_bindIO_Ok in Hrun as (t13 & t14 & [] & -> & Hedge & Hrun).
  apply run_bindIO_Ok in Hrun as (t15 & t16 & mdhash & -> & [-> Hh]%run_pureIO & Hrun).
  apply run_wrapIO_Ok, run_trigger in Hrun as ->. symmetry in Ho.
  exists (annotated_osc md osp mdhash osc), (t3 ++ t5 ++ [Obs LoadField creds] ++ t13). split_and!.
  - by rewrite <- !app_assoc.
  - by exists kc, kcName, token, creds, osc, mdhash.
  - apply GenerateOperatingSystemConfig_meta in Ho. cbn. by rewrite Ho.
  - apply Forall_app. split; [|apply Forall_app; split; [|apply Forall_app; split]].
    + eapply trace_writes_mono; [|exact (trace_writes_run _ _ _ _ (credentials_reads r) Hcreds)]. done.
    + eapply trace_writes_mono; [|exact (trace_writes_run _ _ _ _ token_reads Htoken)]. done.
    + by apply Forall_singleton.
    + refine (trace_writes_run _ _ _ _ _ Hedge).
      destruct (decide (CloudProviderSpec_Name (OSC_CloudProvider (OSC_Spec osc)) = "edge")); [|exact I].
      apply all_calls_wrapIO, generateEdgeScript_calls.
Qed.

(** The runs that make sure of a secret, with the secret. *)
Lemma ensure_run config utility T os cp version t :
  run (ensureCloudConfigSecret config utility T os cp md version) t (Ok tt) ->
  (exists secret, t = [Obs (Get WorkerClient KSecret (settings_key (cloud_config_name md T))) (Ok secret)]) \/
  exists e data mdhash, Generate config utility os cp md T = Ok data /\
    calculateAnnotationsHash (MD_Annotations md) = Ok mdhash /\
    t = [Obs (Get WorkerClient KSecret (settings_key (cloud_config_name md T))) (Err e);
         Obs (Create WorkerClient KSecret (cloud_config_secret md T data mdhash version)) (Ok tt)].
Proof.
  unfold ensureCloudConfigSecret. rewrite run_bind. intros (t1 & t2 & got & -> & ->%run_trigger & Hrun).
  destruct got as [secret|e|w]; [left; destruct Hrun as [-> _]; by exists secret| |by destruct Hrun].
  right. apply run_bindIO_Ok in Hrun as (t3 & t4 & data & -> & [-> Hg]%run_wrapIO_Ok%run_pureIO & Hrun).
  apply run_bindIO_Ok in Hrun as (t5 & t6 & mdhash & -> & [-> Hh]%run_pureIO & Hrun).
  apply run_wrapIO_Ok, run_trigger in Hrun as ->. by exists e, data, mdhash.
Qed.
End Runs.

(** ** Executions *)

Section Execution.
Context `{OSCLibs} {S : Type} `{ApiServerLaws Credentials S}.
(** The objects that others leave alone. *)
Variable watched : ref -> Prop.

Definition object_at (s : S) (x : ref) : option (obj (ref_kind x)) :=
  stored s (cluster_of (ref_client x)) (ref_kind x) (ref_key x).

(** What others may do between two calls. *)
Definition same_watched (s s' : S) : Prop := forall x, watched x -> object_at s' x = object_at s x.

(** The calls of a trace, answered one after another, with others in between. *)
Fixpoint execution (s : S) (t : list (obs (ApiE Credentials))) (s' : S) : Prop :=
  match t with
  | [] => same_watched s s'
  | Obs e x :: t => exists s1 s2, same_watched s s1 /\ handle _ e s1 = (x, s2) /\ execution s2 t s'
  end.

Lemma same_watched_trans s1 s2 s3 : same_watched s1 s2 -> same_watched s2 s3 -> same_watched s1 s3.
Proof. intros Hs Hs' x Hx. rewrite (Hs' x Hx). by apply Hs. Qed.

Lemma execution_before s s1 t s' : same_watched s s1 -> execution s1 t s' -> execution s t s'.
Proof.
  destruct t as [|[X e x] t]; cbn; [apply same_watched_trans|].
  intros Hs (s2 & s3 & Hs2 & Hh & Ht). exists s2, s3. split; [by eapply same_watched_trans|done].
Qed.

Lemma execution_app s t1 t2 s' :
  execution s (t1 ++ t2) s' <-> exists s1, execution s t1 s1 /\ execution s1 t2 s'.
Proof.
  revert s. induction t1 as [|[X e x] t1 IH]; intros s; cbn.
  - split; [intros Ht; by exists s|]. intros (s1 & Hs & Ht). by eapply execution_before.
  - split.
    + intros (s1 & s2 & Hs & Hh & (s3 & Ht1 & Ht2)%IH). exists s3. split; [|done]. by exists s1, s2.
    + intros (s3 & (s1 & s2 & Hs & Hh & Ht1) & Ht2). exists s1, s2. split_and!; [done..|]. apply IH. by exists s3.
Qed.

(** Writes elsewhere leave a watched object alone. *)
Lemma execution_frame s t s' x :
  watched x -> execution s t s' -> trace_writes (fun w => ~ touches_ref x w) t -> object_at s' x = object_at s x.
Proof.
  intros Hx. revert s. induction t as [|[X e a] t IH]; intros s; cbn.
  - intros Hs _. by apply Hs.
  - intros (s1 & s2 & Hs & Hh & Ht) [Hw Hws]%Forall_cons. rewrite (IH s2 Ht Hws).
    transitivity (object_at s1 x); [|by apply Hs]. eapply handle_stored; [exact Hh|]. exact Hw.
Qed.

Lemma execution_reads s t s' : execution s t s' -> trace_writes (fun _ => False) t -> same_watched s s'.
Proof.
  intros He Hw x Hx. apply (execution_frame s t s' x Hx He). eapply trace_writes_mono; [|exact Hw]. by intros w [].
Qed.

(** A read of a watched object. *)
Lemma execution_get s c k n a s' :
  watched {| ref_client := c; ref_kind := k; ref_key := n |} -> execution s [Obs (Get c k n) a] s' ->
  same_watched s s' /\
  match a with
  | Ok o => stored s (cluster_of c) k n = Some o
  | Err e => IsNotFound e = true -> stored s (cluster_of c) k n = None
  | Panic _ => True
  end.
Proof.
  intros Hx He. split; [apply (execution_reads s _ s' He); by apply Forall_singleton|].
  destruct He as (s1 & s2 & Hs & Hh & _). specialize (Hs _ Hx). unfold object_at in Hs. cbn in Hs.
  destruct a as [o|e|w]; [|intros Hn|done]; rewrite <- Hs; [by eapply Get_ok|by eapply Get_err].
Qed.

Lemma execution_create s c k o s' :
  watched (ref_of c k o) -> k <> KMachineDeployment -> execution s [Obs (Create c k o) (Ok tt)] s' ->
  stored s (cluster_of c) k (key_of (meta_of o)) = None /\
  stored s' (cluster_of c) k (key_of (meta_of o)) = Some o.
Proof.
  intros Hx Hk (s1 & s2 & Hs & Hh & Hs'). destruct (Create_ok s1 c k o s2 Hk Hh) as [Hn Hst].
  specialize (Hs _ Hx). specialize (Hs' _ Hx). unfold object_at in *. cbn in Hs, Hs'. by rewrite <- Hs, Hs'.
Qed.

Lemma execution_delete s c k n a s' :
  watched {| ref_client := c; ref_kind := k; ref_key := n |} -> delete_ok a = true ->
  (forall o, stored s (cluster_of c) k n = Some o -> Finalizers (meta_of o) = []) ->
  execution s [Obs (Delete c k n) a] s' -> stored s' (cluster_of c) k n = None.
Proof.
  intros Hx Ha Hf (s1 & s2 & Hs & Hh & Hs'). specialize (Hs _ Hx). specialize (Hs' _ Hx).
  unfold object_at in *. cbn in Hs, Hs'. rewrite Hs'. rewrite <- Hs in Hf.
  destruct a as [[]|e|w]; [by eapply Delete_ok|by eapply Delete_err|done].
Qed.

(** An object that is gone stays so under calls that delete. *)
Lemma execution_delete_absent s c k n a s' x :
  watched x -> delete_ok a = true -> object_at s x = None -> execution s [Obs (Delete c k n) a] s' ->
  object_at s' x = None.
Proof.
  intros Hx Ha Hn He.
  destruct (decide (touches_ref x (WDelete {| ref_client := c; ref_kind := k; ref_key := n |}))) as [(Hc & Hk & Hkey)|Ht].
  - cbn in Hc, Hk, Hkey. destruct x as [c' k' n']. cbn in Hc, Hk, Hkey. subst k' n'. unfold object_at in *. cbn in *.
    rewrite <- Hc in *. destruct He as (s1 & s2 & Hs & Hh & Hs'). specialize (Hs _ Hx). specialize (Hs' _ Hx).
    unfold object_at in Hs, Hs'. cbn in Hs, Hs'. rewrite <- Hc in *. rewrite Hs'.
    destruct a as [[]|e|w]; [eapply Delete_ok; [exact Hh|]; intros o Ho; congruence|by eapply Delete_err|done].
  - rewrite (execution_frame s _ s' x Hx He); [done|]. apply Forall_singleton. by intros w [= <-].
Qed.
End Execution.

(** ** A reconciliation that is interrupted *)

Section Reconciliation.
Context `{OSCLibs} {S : Type} `{ApiServerLaws Credentials S}.
Variable r : Reconciler.
Variable md : MachineDeployment.

(** The config and the two secrets of the machine deployment. *)
Definition own (x : ref) : Prop :=
  x = osc_ref r md \/ exists T, T ∈ cloud_config_types /\ x = secret_ref (cloud_config_name md T).

Abbreviation exec := (execution (S := S) own).
Abbreviation same := (same_watched (S := S) own).

Lemma own_osc : own (osc_ref r md).
Proof. by left. Qed.
Lemma own_secret T : T ∈ cloud_config_types -> own (secret_ref (cloud_config_name md T)).
Proof. intros HT. right. by exists T. Qed.

Lemma same_osc (s s' : S) : same s s' -> stored_osc r md s' = stored_osc r md s.
Proof. intros Hs. exact (Hs _ own_osc). Qed.
Lemma same_secret (s s' : S) T :
  same s s' -> T ∈ cloud_config_types ->
  stored_secret s' (cloud_config_name md T) = stored_secret s (cloud_config_name md T).
Proof. intros Hs HT. exact (Hs _ (own_secret T HT)). Qed.

Lemma same_nothing (s s' : S) : same s s' -> nothing_generated r md s -> nothing_generated r md s'.
Proof. intros Hs. apply nothing_generated_eq; [by apply same_osc|]. intros T. by apply same_secret. Qed.

Hypothesis Hsep : separate_names md.

(** The three deletions. *)
Lemma execution_deletes (s s' : S) t :
  secret_deletes md t -> deletable r md s -> exec s t s' ->
  stored_osc r md s' = stored_osc r md s /\
  forall T, T ∈ cloud_config_types -> stored_secret s' (cloud_config_name md T) = None.
Proof.
  intros (a1 & a2 & a3 & Ha1 & Ha2 & Ha3 & ->) [_ Hdel] He. split.
  { apply (execution_frame own s _ s' _ own_osc He). repeat constructor; by intros w [= <-] (_ & Hk & _). }
  apply (execution_app own s [_] [_; _]) in He as (s1 & He1 & He).
  apply (execution_app own s1 [_] [_]) in He as (s2 & He2 & He3).
  pose proof (own_secret ProvisioningCloudConfig ltac:(set_solver)) as HP.
  pose proof (own_secret BootstrapCloudConfig ltac:(set_solver)) as HB.
  assert (stored_secret s1 (cloud_config_name md ProvisioningCloudConfig) = None) as Hp1.
  { refine (execution_delete own s WorkerClient KSecret _ a1 s1 HP Ha1 _ He1).
    intros o Ho. by apply (Hdel ProvisioningCloudConfig); [set_solver|]. }
  assert (stored_secret s2 (cloud_config_name md ProvisioningCloudConfig) = None) as Hp2
    by exact (execution_delete_absent own s1 _ _ _ a2 s2 _ HP Ha2 Hp1 He2).
  assert (stored_secret s2 (cloud_config_name md BootstrapCloudConfig) = None) as Hb2.
  { refine (execution_delete own s1 WorkerClient KSecret _ a2 s2 HB Ha2 _ He2).
    intros o Ho. apply (Hdel BootstrapCloudConfig); [set_solver|]. etransitivity; [symmetry|exact Ho].
    apply (execution_frame own s _ s1 _ HB He1). apply Forall_singleton. intros w [= <-] (_ & _ & Hk).
    injection Hk as Hk. by apply (types_separate md Hsep). }
  intros T [<-|[<-|[]]]%list_elem_of_In.
  - exact (execution_delete_absent own s2 _ _ _ a3 s' _ HP Ha3 Hp2 He3).
  - exact (execution_delete_absent own s2 _ _ _ a3 s' _ HB Ha3 Hb2 He3).
Qed.

(** After the rotation the config is current or gone; what is outdated is gone
    with its secrets. *)
Lemma execution_rotation osp (s s' : S) t :
  rotation_calls r md osp t -> Forall honest_obs t -> deletable r md s -> exec s t s' ->
  (forall osc, stored_osc r md s' = Some osc -> up_to_date md osp osc) /\
  (to_generate r md osp s -> nothing_generated r md s') /\ deletable r md s'.
Proof.
  assert (forall n, {| ref_client := ControlClient; ref_kind := KOperatingSystemConfig; ref_key := n |} =
    osc_ref r md -> own {| ref_client := ControlClient; ref_kind := KOperatingSystemConfig; ref_key := n |}) as Hown
    by (intros n ->; exact own_osc).
  intros Ht Hh Hdel He.
  assert (forall s', same s s' -> deletable r md s') as Hkeep.
  { intros s0 Hs. unfold deletable. rewrite (same_osc s s0 Hs). split; [apply Hdel|].
    intros T secret HT. rewrite (same_secret s s0 T Hs HT). by apply Hdel. }
  destruct Ht as [e Hn|osc Hup|osc t Hstale Hdeletes].
  - apply execution_get in He as [Hs Hnone]; [|by apply Hown]. specialize (Hnone Hn). change (stored_osc r md s = None) in Hnone.
    split_and!; [|intros Hgen|by apply Hkeep].
    + intros osc. rewrite (same_osc s s' Hs). congruence.
    + apply (same_nothing s s' Hs). split; [done|]. unfold to_generate in Hgen. by rewrite Hnone in Hgen.
  - apply (execution_get own s ControlClient KOperatingSystemConfig _ (Ok osc)) in He as [Hs Hosc]; [|by apply Hown]. change (stored_osc r md s = Some osc) in Hosc.
    split_and!; [|intros Hgen|by apply Hkeep].
    + intros osc'. rewrite (same_osc s s' Hs), Hosc. by intros [= <-].
    + unfold to_generate in Hgen. by rewrite Hosc in Hgen.
  - apply (execution_app own s [_] (_ :: t)) in He as (s1 & Hget & He).
    apply (execution_app own s1 [_] t) in He as (s2 & Hd & He).
    apply (execution_get own s ControlClient KOperatingSystemConfig _ (Ok osc)) in Hget as [Hs Hosc]; [|by apply Hown].
    change (stored_osc r md s = Some osc) in Hosc.
    apply Forall_cons in Hh as [Hkey _]. cbn in Hkey. rewrite Hkey in Hd.
    assert (stored_osc r md s2 = None) as Hnone.
    { refine (execution_delete own s1 ControlClient KOperatingSystemConfig _ (Ok tt) s2 (Hown _ eq_refl) eq_refl _ Hd).
      intros o Ho. apply (Hkeep s1 Hs). exact Ho. }
    assert (deletable r md s2) as Hdel2.
    { split; [intros o Ho; congruence|]. intros T secret HT Hsec. apply (Hkeep s1 Hs) with (T := T); [done|].
      etransitivity; [symmetry|exact Hsec]. apply (execution_frame own s1 _ s2 _ (own_secret T HT) Hd).
      apply Forall_singleton. by intros w [= <-] (_ & Hk & _). }
    destruct (execution_deletes s2 s' t Hdeletes Hdel2 He) as [Ho Habsent]. rewrite Hnone in Ho.
    split_and!; [intros o; congruence|by split|]. split; [intros o; congruence|].
    intros T secret HT. by rewrite Habsent.
Qed.

(** The bootstrap credentials and the script are kept elsewhere. *)
Lemma bootstrap_elsewhere x w :
  own x -> bootstrap_write (bootstrap r) (machineDeploymentKey md) w -> ~ touches_ref (S := S) x w.
Proof.
  intros [->|(T & HT & ->)] Hw.
  - intros (_ & Hk & _). apply bootstrap_write_kind in Hw. by rewrite Hw in Hk.
  - by apply (bootstrap_write_elsewhere r md).
Qed.

Lemma script_elsewhere x w : own x -> write_ref w = script_ref md -> ~ touches_ref (S := S) x w.
Proof.
  intros [->|(T & HT & ->)] Hw (_ & Hk & Hkey); rewrite Hw in Hk, Hkey; [done|]. by apply (script_separate md Hsep T HT).
Qed.

Lemma execution_elsewhere (P : write -> Prop) (s s' : S) t :
  (forall x w, own x -> P w -> ~ touches_ref (S := S) x w) -> trace_writes P t -> exec s t s' -> same s s'.
Proof.
  intros HP Ht He x Hx. apply (execution_frame own s t s' x Hx He). eapply trace_writes_mono; [|exact Ht].
  intros w. by apply HP.
Qed.

(** A config that is there is kept; otherwise one is made. *)
Lemma execution_configs osp (s s' : S) t :
  run (reconcileOperatingSystemConfigs r md osp) t (Ok tt) -> Forall honest_obs t -> exec s t s' ->
  (exists osc, stored_osc r md s' = Some osc /\ (stored_osc r md s = Some osc \/ made_from r md osp osc)) /\
  forall T, T ∈ cloud_config_types ->
    stored_secret s' (cloud_config_name md T) = stored_secret s (cloud_config_name md T).
Proof.
  unfold reconcileOperatingSystemConfigs. rewrite run_bindIO_Ok.
  intros (t1 & t2 & [kc kcName] & -> & Hboot%run_wrapIO_Ok & Hrun) [Hh _]%Forall_app (s1 & He1 & He2)%execution_app.
  assert (same s s1) as Hs1.
  { apply (execution_elsewhere (bootstrap_write (bootstrap r) (machineDeploymentKey md)) s s1 t1); [|..|exact He1].
    - intros x w. apply bootstrap_elsewhere.
    - eapply Forall_impl; [exact (calls_when_run _ _ _ _ _ (CreateBootstrapKubeconfig_writes _ _) Hboot Hh)|].
      intros [X e x] Ho w Hw. cbn in Hw. unfold only_writes in Ho. by rewrite Hw in Ho. }
  apply run_bind in Hrun as (t3 & t4 & got & -> & ->%run_trigger & Hrun).
  apply execution_app in He2 as (s2 & Hget & He). apply execution_get in Hget as [Hs2 Hgot]; [|exact own_osc].
  pose proof (same_watched_trans own _ _ _ Hs1 Hs2) as Hs. destruct got as [osc|e|w]; [| |by destruct Hrun].
  - destruct Hrun as [-> _]. pose proof (same_watched_trans own _ _ _ Hs He) as Hs'. split.
    + exists osc. assert (stored_osc r md s = Some osc) as Ho by (rewrite <- (same_osc s s1 Hs1); exact Hgot).
      split; [|by left]. by rewrite (same_osc s s' Hs').
    + intros T HT. by apply same_secret.
  - apply create_osc_run in Hrun as (osc & t' & -> & Hmade & Hkey & Hw).
    apply execution_app in He as (s3 & Hscript & Hcreate).
    pose proof (execution_elsewhere _ s2 s3 t' (fun x w => script_elsewhere x w) Hw Hscript) as Hs3.
    pose proof (same_watched_trans own _ _ _ Hs Hs3) as Hs'. split.
    + exists osc. split; [|by right]. unfold stored_osc. rewrite <- Hkey.
      apply (execution_create own s3 ControlClient KOperatingSystemConfig osc s'); [|done|exact Hcreate].
      unfold ref_of. cbn. rewrite Hkey. exact own_osc.
    + intros T HT. rewrite <- (same_secret s s3 T Hs' HT).
      apply (execution_frame own s3 _ s' _ (own_secret T HT) Hcreate). apply Forall_singleton.
      by intros w [= <-] (_ & Hk & _).
Qed.

(** A secret that is there is kept; otherwise one is made of the config. *)
Lemma execution_ensure config utility T os cp version (s s' : S) t :
  T ∈ cloud_config_types -> run (ensureCloudConfigSecret config utility T os cp md version) t (Ok tt) -> exec s t s' ->
  (forall x, own x -> x <> secret_ref (cloud_config_name md T) -> object_at s' x = object_at s x) /\
  is_Some (stored_secret s' (cloud_config_name md T)) /\
  (stored_secret s (cloud_config_name md T) = None -> exists data mdhash,
     Generate config utility os cp md T = Ok data /\ calculateAnnotationsHash (MD_Annotations md) = Ok mdhash /\
     stored_secret s' (cloud_config_name md T) = Some (cloud_config_secret md T data mdhash version)).
Proof.
  intros HT Hrun He. pose proof (own_secret T HT) as Hown.
  apply ensure_run in Hrun as [[secret ->]|(e & data & mdhash & Hg & Hh & ->)].
  - apply (execution_get own s WorkerClient KSecret _ (Ok secret)) in He as [Hs Hsec]; [|done].
    change (stored_secret s (cloud_config_name md T) = Some secret) in Hsec.
    split; [intros x Hx _; by apply Hs|]. rewrite (same_secret s s' T Hs HT), Hsec. by split.
  - apply (execution_app own s [_] [_]) in He as (s1 & Hget & Hc).
    apply (execution_get own s WorkerClient KSecret _ (Err e)) in Hget as [Hs _]; [|done].
    set (o := cloud_config_secret md T data mdhash version) in Hc.
    destruct (execution_create own s1 WorkerClient KSecret o s') as [_ Hst]; [exact Hown|done|exact Hc|].
    change (stored_secret s' (cloud_config_name md T) = Some o) in Hst. split_and!.
    + intros x Hx Hne. rewrite <- (Hs x Hx). apply (execution_frame own s1 _ s' x Hx Hc). apply Forall_singleton.
      intros w [= <-] (_ & Hk & Hkey). destruct Hx as [->|(T' & _ & ->)]; [done|]. apply Hne.
      unfold secret_ref. f_equal. by symmetry.
    + by eexists.
    + intros _. by exists data, mdhash.
Qed.

Lemma execution_secrets osp (s s' : S) t :
  run (reconcileSecrets r md osp) t (Ok tt) -> exec s t s' ->
  exists osc, stored_osc r md s = Some osc /\ stored_osc r md s' = Some osc /\
    (forall T, T ∈ cloud_config_types -> is_Some (stored_secret s' (cloud_config_name md T))) /\
    ((forall T, T ∈ cloud_config_types -> stored_secret s (cloud_config_name md T) = None) ->
     served md s' osc (OSP_Version (OSP_Spec osp))).
Proof.
  unfold reconcileSecrets. rewrite run_bindIO_Ok.
  intros (t1 & t2 & osc & -> & Hget%run_wrapIO_Ok%run_trigger & Hrun) (s1 & He1 & He)%execution_app. subst t1.
  apply (execution_get own s ControlClient KOperatingSystemConfig _ (Ok osc)) in He1 as [Hs1 Hosc]; [|exact own_osc].
  change (stored_osc r md s = Some osc) in Hosc.
  apply run_bindIO_Ok in Hrun as (t3 & t4 & [] & -> & Hp%run_wrapIO_Ok & Hrun).
  apply run_bindIO_Ok in Hrun as (t5 & t6 & [] & -> & Hb%run_wrapIO_Ok & [-> _]).
  apply execution_app in He as (s2 & He2 & He). apply execution_app in He as (s3 & He3 & Hs4).
  apply (execution_ensure _ _ ProvisioningCloudConfig _ _ _ s1 s2) in Hp as (Hpne & Hpsome & Hpnew); [|set_solver|done].
  apply (execution_ensure _ _ BootstrapCloudConfig _ _ _ s2 s3) in Hb as (Hbne & Hbsome & Hbnew); [|set_solver|done].
  assert (secret_ref (cloud_config_name md ProvisioningCloudConfig) <>
          secret_ref (cloud_config_name md BootstrapCloudConfig)) as Hne
    by (intros [= Heq]; by apply (types_separate md Hsep)).
  assert (stored_secret s3 (cloud_config_name md ProvisioningCloudConfig) =
          stored_secret s2 (cloud_config_name md ProvisioningCloudConfig)) as H3p
    by (apply (Hbne (secret_ref _)); [apply own_secret; set_solver|done]).
  assert (stored_secret s2 (cloud_config_name md BootstrapCloudConfig) =
          stored_secret s1 (cloud_config_name md BootstrapCloudConfig)) as H2b
    by (apply (Hpne (secret_ref _)); [apply own_secret; set_solver|by apply not_eq_sym]).
  exists osc. split_and!; [done|..].
  - rewrite (same_osc s3 s' Hs4). transitivity (stored_osc r md s2); [by apply (Hbne _ own_osc)|].
    transitivity (stored_osc r md s1); [by apply (Hpne _ own_osc)|]. by rewrite (same_osc s s1 Hs1).
  - intros T HT. rewrite (same_secret s3 s' T Hs4 HT). apply list_elem_of_In in HT as [<-|[<-|[]]]; [by rewrite H3p|done].
  - intros Hnone. unfold served, serves. rewrite !(same_secret s3 s' _ Hs4), H3p by set_solver. split.
    + apply Hpnew. rewrite (same_secret s s1 _ Hs1) by set_solver. apply Hnone. set_solver.
    + apply Hbnew. rewrite H2b, (same_secret s s1 _ Hs1) by set_solver. apply Hnone. set_solver.
Qed.

(** What a reconciliation that succeeds has brought about, for the profile it
    read. *)
Definition reconciled_for (osp : OperatingSystemProfile) (s s' : S) : Prop :=
  exists osc, stored_osc r md s' = Some osc /\ up_to_date md osp osc /\
    (forall T, T ∈ cloud_config_types -> is_Some (stored_secret s' (cloud_config_name md T))) /\
    (to_generate r md osp s -> made_from r md osp osc /\ served md s' osc (OSP_Version (OSP_Spec osp))).

Lemma execution_reconcile (s s' : S) t :
  rotation_keys -> run (reconcile r md) t (Ok tt) -> Forall honest_obs t -> deletable r md s -> exec s t s' ->
  exists osp, Obs (Get ControlClient KOperatingSystemProfile (profile_key r md)) (Ok osp) ∈ t /\
    reconciled_for osp s s'.
Proof.
  intros Hkeys. unfold reconcile. rewrite run_bindIO_Ok.
  intros (t1 & t2 & osp & -> & Hf%run_wrapIO_Ok & Hrun) [_ Hh]%Forall_app Hdel (s1 & He1 & He)%execution_app.
  apply run_bindIO_Ok in Hrun as (t3 & t4 & [] & -> & Hc%run_wrapIO_Ok & Hrun).
  apply Forall_app in Hh as [_ Hh]. apply execution_app in He as (s2 & He2 & He).
  apply run_bindIO_Ok in Hrun as (t5 & t6 & [] & -> & Hrot%run_wrapIO_Ok%rotation_run & Hrun).
  apply Forall_app in Hh as [Hh5 Hh]. apply execution_app in He as (s3 & He3 & He).
  apply run_bindIO_Ok in Hrun as (t7 & t8 & [] & -> & Hosc%run_wrapIO_Ok & Hrun).
  apply Forall_app in Hh as [Hh7 _]. apply execution_app in He as (s4 & He4 & He).
  apply run_bindIO_Ok in Hrun as (t9 & t10 & [] & -> & Hsec%run_wrapIO_Ok & [-> _]).
  rewrite app_nil_r in He.
  pose proof (execution_reads own s t1 s1 He1 (trace_writes_run _ _ _ _ (fetch_reads r md) Hf)) as Hs1.
  pose proof (execution_reads own s1 t3 s2 He2 (trace_writes_run _ _ _ _ (check_reads md osp) Hc)) as Hs2.
  pose proof (same_watched_trans own _ _ _ Hs1 Hs2) as Hs.
  exists osp. split.
  { apply elem_of_app. left. revert Hf. unfold fetchOSP. fold (profile_key r md). rewrite run_bind.
    intros (t' & t'' & got & -> & ->%run_trigger & Hgot).
    destruct got as [o|e|w]; [|by destruct (IsNotFound e), Hgot|by destruct Hgot]. destruct Hgot as [-> [= <-]].
    by left. }
  assert (deletable r md s2) as Hdel2.
  { unfold deletable. rewrite (same_osc s s2 Hs). split; [apply Hdel|].
    intros T secret HT. rewrite (same_secret s s2 T Hs HT). by apply Hdel. }
  destruct (execution_rotation osp s2 s3 t5 Hrot Hh5 Hdel2 He3) as (Hcur & Hclear & _).
  destruct (execution_configs osp s3 s4 t7 Hosc Hh7 He4) as [(osc & Hst & Hor) Hsame].
  destruct (execution_secrets osp s4 s' t9 Hsec He) as (osc' & Hst' & Hend & Hsome & Hserved).
  rewrite Hst in Hst'. injection Hst' as <-. exists osc. split_and!; [done| |done|].
  - destruct Hor as [Ho|Hmade]; [by apply Hcur|by apply (made_from_up_to_date r)].
  - intros Hgen. destruct Hclear as [Hn Hns].
    { unfold to_generate in *. rewrite (same_osc s s2 Hs). destruct (stored_osc r md s); [done|].
      intros T HT. rewrite (same_secret s s2 T Hs HT). by apply Hgen. }
    rewrite Hn in Hor. destruct Hor as [|Hmade]; [done|]. split; [done|]. apply Hserved.
    intros T HT. rewrite Hsame by done. by apply Hns.
Qed.
End Reconciliation.

(** ** A worker of the system *)

Section Prefixes.
Context {E : Type -> Type}.

(** What is left of a program after a trace. *)
Fixpoint after {A} (m : prog E A) (t : list (obs E)) (m' : prog E A) {struct t} : Prop :=
  match t with
  | [] => m = m'
  | o :: t => match m with Vis e k => exists x, o = Obs e x /\ after (k x) t m' | Ret _ => False end
  end.

Lemma after_run {A} (m : prog E A) t a : after m t (Ret a) -> run m t a.
Proof.
  revert m. induction t as [|o t IH]; intros m; cbn; [intros Hm; by subst m|]. destruct m as [|X e k]; [done|].
  intros (x & -> & Ht). exists x. split; [done|]. by apply IH.
Qed.

Lemma after_snoc {A X} (m : prog E A) t (e : E X) k x : after m t (Vis e k) -> after m (t ++ [Obs e x]) (k x).
Proof.
  revert m. induction t as [|o t IH]; intros m; cbn; [intros Hm; subst m; by exists x|]. destruct m as [|Y e' k']; [done|].
  intros (y & -> & Ht). exists y. split; [done|]. by apply IH.
Qed.
End Prefixes.

Section ReconcileRun.
Context `{OSCLibs}.
Variable r : Reconciler.

(** There was nothing to reconcile: no machine deployment, or one that is being
    deleted. *)
Definition nothing_to_do (k : NamespacedName) (t : list (obs (ApiE Credentials))) : Prop :=
  exists got t', t = Obs (Get WorkerClient KMachineDeployment k) got :: t' /\
    match got with Ok md => DeletionTimestamp (MD_Meta md) <> None | Err e => IsNotFound e = true | Panic _ => False end.

(** The machine deployment that was reconciled: the one that was read, or what
    the server returned when the finalizer was added. *)
Definition worked_on (k : NamespacedName) (md : MachineDeployment) (t : list (obs (ApiE Credentials))) : Prop :=
  Obs (Get WorkerClient KMachineDeployment k) (Ok md) ∈ t \/
  exists o, Obs (Update WorkerClient KMachineDeployment o) (Ok md) ∈ t.

Lemma Reconcile_run k t :
  run (Reconcile r k) t (Ok tt) -> Forall honest_obs t ->
  nothing_to_do k t \/
  exists md t1 t2, t = t1 ++ t2 /\ key_of (MD_Meta md) = k /\ worked_on k md t1 /\
    trace_writes (fun w => ref_kind (write_ref w) = KMachineDeployment) t1 /\ run (reconcile r md) t2 (Ok tt).
Proof.
  unfold Reconcile. rewrite run_bind. intros (t1 & t2 & got & -> & ->%run_trigger & Hrun) [Hkey Hh]%Forall_cons.
  destruct got as [md|e|w]; [| |by destruct Hrun].
  - destruct (DeletionTimestamp (MD_Meta md)) eqn:Hts.
    { left. exists (Ok md), t2. split; [done|]. by rewrite Hts. }
    right. apply run_bindIO_Ok in Hrun as (t3 & t4 & md' & -> & Hf & Hrun). unfold ensure_finalizer in Hf.
    destruct (HasFinalizer _ _).
    + destruct Hf as [-> [= ->]]. exists md, [Obs (Get WorkerClient KMachineDeployment k) (Ok md)], t4. split_and!; [done..| | |done].
      * left. by left.
      * by apply Forall_singleton.
    + apply run_wrapIO_Ok, run_trigger in Hf as ->. apply Forall_cons in Hh as [Hkey' _]. cbn in Hkey, Hkey'.
      eexists md', [_; _], t4. split_and!; [reflexivity|by rewrite Hkey'|right; eexists; by right; left| |done].
      repeat constructor; by intros w [= <-].
  - left. exists (Err e), t2. split; [done|]. destruct (IsNotFound e) eqn:He; [done|by destruct Hrun].
Qed.
End ReconcileRun.

Section Workers.
Context `{OSCLibs, !StringSetLaws} {S : Type} `{ApiServerLaws Credentials S, !NamedServer Credentials S,
  !DeletionLaws Credentials S}.
Variable r : Reconciler.
Variable managed : NamespacedName -> Prop.
Hypothesis Hkeys : separate_keys r managed.
Variable k : NamespacedName.
Hypothesis Hk : managed k.

(** Everything that can happen while a worker is busy with [k], except that the
    process stops: calls of this and of other workers, the start and the end of
    others, and other clients, who leave alone what is generated for [k]. *)
Inductive busy_step : system -> system -> Prop :=
| busy_take k' st st' :
    managed k' -> k' <> k -> perform r (Take k') st = Some st' -> busy_step st st'
| busy_next k' st st' : perform r (Next k') st = Some st' -> busy_step st st'
| busy_others st s' :
    others r managed (server st) s' -> same_watched (own r (md_of k)) (server st) s' ->
    busy_step st {| server := s'; workers := workers st |}.

Lemma busy_step_step st st' : busy_step st st' -> step r managed st st'.
Proof.
  intros [k' st0 st1 Hk' _ Hp|k' st0 st1 Hp|st0 s' Ho _].
  - eapply step_event; [|exact Hp]. by intros k0 [= <-].
  - eapply step_event; [|exact Hp]. by intros k0.
  - by apply step_others.
Qed.

(** What a worker has done since it took [k] in the state [s0]. *)
Definition underway (s0 : S) (st : system) : Prop :=
  forall w, workers st !! k = Some w ->
    after (Reconcile r k) (history w) (rest w) /\ execution (own r (md_of k)) s0 (history w) (server st).

Lemma own_generated k' x : own r (md_of k') x <-> x ∈ generated r k'.
Proof. symmetry. exact (generated_cases r managed Hkeys k' x). Qed.

(** A call of another worker. *)
Lemma other_call_same k' X (e : ApiE Credentials X) (s : S) x s' :
  managed k' -> k' <> k -> only_writes (permitted r k') X e -> handle _ e s = (x, s') ->
  same_watched (own r (md_of k)) s s'.
Proof.
  intros Hk' Hne He Hh y Hy%own_generated. eapply handle_stored; [exact Hh|]. intros w Hw Ht.
  unfold only_writes in He. rewrite Hw in He.
  by destruct (permitted_touches r managed Hkeys k' k y w Hk' Hk Hy He Ht).
Qed.

Lemma execution_then (watched : ref -> Prop) (s s1 s' : S) t :
  execution watched s t s1 -> same_watched watched s1 s' -> execution watched s t s'.
Proof.
  intros Ht Hs. rewrite <- (app_nil_r t). apply execution_app. by exists s1.
Qed.

Lemma underway_step s0 st st' : invariant r managed st -> busy_step st st' -> underway s0 st -> underway s0 st'.
Proof.
  intros [Hv _ Hw] Hstep Hu w Hl.
  destruct Hstep as [k' st st' Hk' Hne Hp|k' st st' Hp|st s' _ Hs]; cbn [perform] in *.
  - destruct (workers st !! k'); [done|]. injection Hp as <-. cbn [workers server] in *.
    rewrite lookup_insert_ne in Hl by done. by apply Hu.
  - destruct (workers st !! k') as [[h m]|] eqn:Hl'; [|done]. destruct (Hw k' _ Hl') as [Hm Hok].
    unfold next in Hp. cbn [history rest] in Hp. destruct m as [a|X e f].
    + injection Hp as <-. cbn [workers server] in *. destruct (decide (k' = k)) as [->|Hne].
      * by rewrite lookup_partial_alter_eq in Hl.
      * rewrite lookup_partial_alter_ne in Hl by done. by apply Hu.
    + destruct (handle X e (server st)) as [x s'] eqn:Hh. injection Hp as <-. cbn [workers server] in *.
      destruct (decide (k' = k)) as [->|Hne].
      * rewrite lookup_partial_alter_eq in Hl. injection Hl as <-. cbn [history rest].
        destruct (Hu _ Hl') as [Ha He]. cbn [history rest] in *. split; [by apply (after_snoc _ _ e f)|].
        apply execution_app. exists (server st). split; [done|]. by exists (server st), s'.
      * rewrite lookup_partial_alter_ne in Hl by done. destruct (Hu _ Hl) as [Ha He]. split; [done|].
        eapply execution_then; [exact He|]. destruct Hok as [_ _ [Hcall _] _ _].
        by eapply other_call_same.
  - cbn [workers server] in *. destruct (Hu _ Hl) as [Ha He]. split; [done|]. by eapply execution_then.
Qed.

Lemma busy_steps s0 st st' :
  invariant r managed st -> rtc busy_step st st' -> underway s0 st -> invariant r managed st' /\ underway s0 st'.
Proof.
  intros Hi Hsteps. induction Hsteps as [st|st st1 st2 Hs _ IH]; [done|]. intros Hu. apply IH.
  - eapply invariant_step; [exact Hkeys|by apply busy_step_step|done].
  - by eapply underway_step.
Qed.

(** C2: reconciliations do not disturb each other: a worker that succeeds while any number of other workers reconcile other machine deployments, call by call in between, and other clients change whatever is not generated for this one, leaves a config that is current for the profile it read and both cloud-config secrets; and when what was there at its start was missing or outdated, the config was just generated from that profile and both secrets hold its user data.  Otherwise the machine deployment was gone or marked for deletion *)
Theorem concurrent_reconciliation st0 st1 st w :
  rotation_keys -> separate_names (md_of k) -> invariant r managed st0 -> deletable r (md_of k) (server st0) ->
  perform r (Take k) st0 = Some st1 -> rtc busy_step st1 st -> workers st !! k = Some w -> rest w = Ret (Ok tt) ->
  nothing_to_do k (history w) \/
  exists md osp, key_of (MD_Meta md) = k /\ worked_on k md (history w) /\
    Obs (Get ControlClient KOperatingSystemProfile (profile_key r md)) (Ok osp) ∈ history w /\
    reconciled_for r md osp (server st0) (server st).
Proof.
  intros Hrot Hsep Hinv Hdel Htake Hsteps Hw Hend.
  assert (invariant r managed st1 /\ underway (server st0) st1 /\ server st1 = server st0) as (Hinv1 & Hu1 & Hs1).
  { split; [eapply invariant_step; [exact Hkeys| |exact Hinv]; eapply step_event; [|exact Htake]; by intros k0 [= <-]|].
    cbn [perform] in Htake. destruct (workers st0 !! k) eqn:Hl; [done|]. injection Htake as <-. split; [|done].
    intros w'. cbn [workers server]. rewrite lookup_insert_eq. intros [= <-]. by split. }
  destruct (busy_steps (server st0) st1 st Hinv1 Hsteps Hu1) as [[_ _ Hok] Hu].
  destruct (Hu w Hw) as [Ha He]. destruct (Hok k w Hw) as [_ [_ Hh _ _ _]]. rewrite Hend in Ha. apply after_run in Ha.
  destruct (Reconcile_run r k (history w) Ha Hh) as [Hn|(md & t1 & t2 & Ht & Hkey & Hon & Hw1 & Hrun)]; [by left|right].
  rewrite Ht in He, Hh |- *. apply Forall_app in Hh as [_ Hh].
  apply execution_app in He as (s1 & He1 & He2).
  assert (same_watched (own r (md_of k)) (server st0) s1) as Hsame.
  { intros x Hx. apply (execution_frame _ _ t1 s1 x Hx He1). eapply trace_writes_mono; [|exact Hw1].
    intros w' Hk' (_ & Hkind & _). rewrite Hk' in Hkind. by destruct Hx as [->|(T & _ & ->)]. }
  assert (own r (md_of k) = own r md /\ separate_names md /\ deletable r md (server st0)) as (Hown & Hsep' & Hdel')
    by (revert Hsep Hdel; rewrite <- Hkey; intros [] Hdel; split_and!; [done|by split|exact Hdel]).
  rewrite Hown in Hsame, He2.
  assert (deletable r md s1) as Hdel1.
  { unfold deletable. rewrite (same_osc r md _ s1 Hsame). split; [apply Hdel'|].
    intros T secret HT. rewrite (same_secret r md _ s1 T Hsame HT). by apply Hdel'. }
  destruct (execution_reconcile r md Hsep' s1 (server st) t2 Hrot Hrun Hh Hdel1 He2)
    as (osp & Hin & osc & Hosc & Hup & Hsome & Hgen).
  exists md, osp. split_and!; [done| |by apply elem_of_app; right|].
  - destruct Hon as [?|[o ?]]; [left|right; exists o]; apply elem_of_app; by left.
  - exists osc. split_and!; [done..|]. intros Hto. apply Hgen. unfold to_generate in *.
    rewrite (same_osc r md _ s1 Hsame). destruct (stored_osc r md (server st0)); [done|].
    intros T HT. rewrite (same_secret r md _ s1 T Hsame HT). by apply Hto.
Qed.
End Workers.

(** Events of the controller alone, none of which concerns [k] but its calls. *)
Lemma busy_schedule `{OSCLibs} {S : Type} `{ApiServer Credentials S, !NamedServer Credentials S}
    r (managed : NamespacedName -> Prop) k evs (st st' : system (S := S)) :
  Forall (fun ev => match ev with Take k' => managed k' /\ k' <> k | Next _ => True | Stop => False end) evs ->
  schedule r evs st = Some st' -> rtc (busy_step r managed k) st st'.
Proof.
  intros Hall. revert st. induction Hall as [|ev evs Hev _ IH]; intros st; cbn; [by intros [= ->]|].
  intros (st1 & Hp & Hs)%bind_Some. eapply rtc_l; [|by apply IH].
  destruct ev as [k'|k'|]; [|by eapply busy_next|done]. destruct Hev as [Hm Hne]. by eapply busy_take.
Qed.

(** ** Evaluation on concrete inputs *)

Module Demo.
Import OSCController.Demo System.Demo.
(** One machine deployment is reconciled from the beginning to the end, a second
    one in between. *)
Definition busy_events : list event :=
  [Take md_key2] ++ concat (repeat [Next md_key2; Next md_key] 22).
Definition taken : system :=
  {| server := server idle; workers := {[ md_key := {| history := []; rest := Reconcile reconciler md_key |} ]} |}.

Definition ended (w : worker) : bool := match rest w with Ret (Ok _) => true | _ => false end.
Definition shows (st : system (S := MemStore.store Credentials)) : option (bool * nat) :=
  option_map (fun w => (ended w, length (history w))) (workers st !! md_key).
Lemma ended_rest w : ended w = true -> rest w = Ret (Ok tt).
Proof. unfold ended. destruct (rest w) as [[[]|e|s]|X e f]; done. Qed.
End Demo.
Import OSCController.Demo System.Demo Demo.

Lemma busy_events_ok :
  Forall (fun ev => match ev with Take k' => managed k' /\ k' <> md_key | Next _ => True | Stop => False end)
    Demo.busy_events.
Proof.
  apply Forall_cons. split; [split; [by right|discriminate]|]. cbn [repeat concat app].
  repeat (apply Forall_cons; split; [exact I|]). by apply Forall_nil.
Qed.

Lemma Demo_names : separate_names (md_of md_key).
Proof. destruct Demo_separate. by split. Qed.

Lemma idle_invariant : invariant reconciler managed idle.
Proof. split; [apply with_object_valid, store0_valid|apply idle_covered|]. intros k w Hl. done. Qed.

Lemma idle_deletable : deletable reconciler (md_of md_key) (server idle).
Proof.
  split; [intros osc|intros T secret [<-|[<-|[]]]%list_elem_of_In]; vm_compute; intros Ho; discriminate Ho.
Qed.

Lemma concurrent_reconciliation_witness :
  exists st w, schedule reconciler Demo.busy_events Demo.taken = Some st /\ workers st !! md_key = Some w /\
    length (history w) = 22 /\
    (nothing_to_do md_key (history w) \/
     exists md osp, worked_on md_key md (history w) /\ reconciled_for reconciler md osp (server idle) (server st)).
Proof.
  assert ((schedule reconciler Demo.busy_events Demo.taken) ≫= Demo.shows = Some (true, 22)) as Hshow
    by (vm_compute; reflexivity).
  destruct (schedule reconciler Demo.busy_events Demo.taken) as [st|] eqn:Hst; [|discriminate Hshow].
  cbn [mbind option_bind] in Hshow. unfold Demo.shows in Hshow.
  destruct (workers st !! md_key) as [w|] eqn:Hw; [|discriminate Hshow].
  injection Hshow as Hended Hlen. exists st, w. split; [reflexivity|]. split; [exact Hw|]. split; [exact Hlen|].
  destruct (concurrent_reconciliation reconciler managed Demo_separate_keys md_key (or_introl eq_refl)
    idle Demo.taken st w Demo_keys Demo_names idle_invariant idle_deletable)
    as [Hn|(md & osp & _ & Hon & _ & Hr)].
  - reflexivity.
  - exact (busy_schedule reconciler managed md_key Demo.busy_events Demo.taken st busy_events_ok Hst).
  - exact Hw.
  - exact (Demo.ended_rest w Hended).
  - left. exact Hn.
  - right. exists md, osp. split; [exact Hon|exact Hr].
Defined.
