(* ===== verification/Gate.v ===== *)
(** * The API server behind the webhooks of [cmd/webhook]

    [deploy/operating-system-manager-webhook.yaml] registers the three handlers
    of [Admission] for creations and updates, with the failure policy [Fail].
    [gated] is an API server with these handlers in front of it.  It keeps the
    laws of the server behind it, so the theorems about the controllers hold on
    it as well; here the webhooks and the controllers are proved to fit: the
    webhooks do not get in the way of a reconciliation, and the version that the
    profile webhook insists on is what makes the rotation find every edit. *)

From S2P Require Import Prelude GoStrings Encoding Types Finalizers SDK ProviderConfig Effects Api ContainerRuntime.
From S2P Require Import Interruption Generator OSCResources Bootstrap Admission OSPController OSCController Convergence.

(** ** Requests and verdicts *)

(** What the webhooks use and what the server sends them: the text of an object
    and the identifier of a request. *)
Class Webhooks `{OSCLibs} := {
  #[global] wh_osc_equal :: DeepEqual OperatingSystemConfigSpec;
  #[global] wh_osp_equal :: DeepEqual OperatingSystemProfileSpec;
  #[global] wh_osc_decoder :: AdmissionDecoder OperatingSystemConfig;
  #[global] wh_osp_decoder :: AdmissionDecoder OperatingSystemProfile;
  #[global] wh_md_decoder :: AdmissionDecoder MachineDeployment;
  #[global] wh_marshal :: JsonMarshal MachineDeployment;
  #[global] wh_config :: SDKGetConfig;
  raw : forall k, obj k -> string;
  request_UID : forall k, obj k -> string
}.

Definition admission_request `{Webhooks} (op : Operation) k (o : obj k) (old : option (obj k)) : Request :=
  {| req_UID := request_UID k o; req_Operation := op; req_Object := raw k o;
     req_OldObject := from_option (raw k) "" old |}.

(** What is decoded is what was sent. *)
Class WebhookLaws `{Webhooks} := {
  wh_osc_equal_laws :: DeepEqualLaws OperatingSystemConfigSpec;
  wh_osp_equal_laws :: DeepEqualLaws OperatingSystemProfileSpec;
  decoded_osc op o old o' : Decode (admission_request op KOperatingSystemConfig o old) = Ok o' -> o' = o;
  decoded_osp op o old o' : Decode (admission_request op KOperatingSystemProfile o old) = Ok o' -> o' = o;
  decoded_md op o old o' : Decode (admission_request op KMachineDeployment o old) = Ok o' -> o' = o;
  decoded_old_osc o o' : DecodeRaw (raw KOperatingSystemConfig o) = Ok o' -> o' = o;
  decoded_old_osp o o' : DecodeRaw (raw KOperatingSystemProfile o) = Ok o' -> o' = o;
  patched_md (o : MachineDeployment) doc o' : json_Marshal o = Ok doc -> DecodeRaw doc = Ok o' -> o' = o
}.

Definition Forbidden (message : string) : error := StatusError (ReasonOther "Forbidden") message.
Definition webhook_failed (why : string) : error := StatusError (ReasonOther "InternalError") why.

(** The answer of a webhook for an object: the object that goes on, a patch
    leads from the object to the document it was computed for. *)
Definition review {A} (decode : string -> result A) (o : A) (answer : Response) : A + error :=
  match answer with
  | Allowed _ => inl o
  | Denied message _ => inr (Forbidden message)
  | Errored _ _ => inr (webhook_failed "admission webhook denied the request")
  | PatchResponseFromRaw _ current =>
      match decode current with Ok o' => inl o' | _ => inr (webhook_failed "failed to apply the patch") end
  | Panicked why => inr (webhook_failed why)
  end.

Section Gate.
Context `{Webhooks} {S : Type} `{!ApiServer Credentials S}.

(** The handlers by kind, as [SetupWebhookWithManager] registers them. *)
Definition admission (op : Operation) k (old : option (obj k)) (o : obj k) : obj k + error :=
  match k return option (obj k) -> obj k -> obj k + error with
  | KOperatingSystemConfig => fun old o =>
      review DecodeRaw o (osc_validation.Handle (admission_request op KOperatingSystemConfig o old))
  | KOperatingSystemProfile => fun old o =>
      review DecodeRaw o (osp_validation.Handle (admission_request op KOperatingSystemProfile o old))
  | KMachineDeployment => fun old o =>
      review DecodeRaw o (md_mutation.Handle (admission_request op KMachineDeployment o old))
  | _ => fun _ o => inl o
  end old o.

Definition gate (X : Type) (e : ApiE Credentials X) : S -> X * S :=
  match e in ApiE _ X return S -> X * S with
  | Create c k o => fun s =>
      match admission OpCreate k None o with
      | inl o' => handle _ (Create c k o') s
      | inr err => (Err err, s)
      end
  | Update c k o => fun s =>
      match stored s (cluster_of c) k (key_of (meta_of o)) with
      | Some old =>
          match admission OpUpdate k (Some old) o with
          | inl o' => handle _ (Update c k o') s
          | inr err => (Err err, s)
          end
      | None => handle _ (Update c k o) s
      end
  | e => fun s => handle _ e s
  end.

(** The state of the server, seen through the webhooks. *)
Record behind := Behind { base : S }.

#[export] Instance gated : ApiServer Credentials behind :=
  {| cluster_of := cluster_of (S := S);
     handle X e s := let '(x, s') := gate X e (base s) in (x, Behind s');
     stored s := stored (base s) |}.
End Gate.
Arguments behind S : clear implicits.
Arguments Behind {S} base.

(** ** The laws of the server are kept *)

Section Verdicts.
Context `{WebhookLaws}.

(** Only machine deployments are rewritten, and only their annotations. *)
Lemma admission_same op k old (o o' : obj k) : k <> KMachineDeployment -> admission op k old o = inl o' -> o' = o.
Proof.
  intros Hk. destruct k; cbn; try done; [| |by intros [= ->]..].
  - unfold osp_validation.Handle, osp_validation.verdict. intros Hr. repeat (case_match; simplify_eq/=); done.
  - unfold osc_validation.Handle. intros Hr. repeat (case_match; simplify_eq/=); done.
Qed.

Lemma admit_md op old (o o' : MachineDeployment) :
  admission op KMachineDeployment old o = inl o' -> op = OpDelete \/ md_mutation.MutateMachineDeployment o = Ok o'.
Proof.
  cbn. unfold md_mutation.Handle, md_mutation.mutate_response. cbn [req_Operation admission_request].
  destruct op; [| |by left|by intros ?]; intros Hr; right.
  all: destruct (Decode _) as [o0|e|w] eqn:Hd; try done; apply decoded_md in Hd as ->.
  all: destruct (md_mutation.MutateMachineDeployment o) as [o1|e|w]; try done.
  all: destruct (json_Marshal o1) as [doc|e|w] eqn:Hm; try done; cbn in Hr.
  all: destruct (DecodeRaw doc) as [o2|e|w] eqn:Hp; try done.
  all: injection Hr as <-; by apply (patched_md o1 doc) in Hp as ->.
Qed.

Lemma admit_meta op k old (o o' : obj k) :
  op <> OpDelete -> admission op k old o = inl o' ->
  key_of (meta_of o') = key_of (meta_of o) /\ Finalizers (meta_of o') = Finalizers (meta_of o).
Proof.
  intros Hop Ha. destruct (decide (k = KMachineDeployment)) as [->|Hk]; [|by rewrite (admission_same op k old o o' Hk Ha)].
  destruct (admit_md op old o o' Ha) as [?|Hm]; [done|].
  apply MutateMachineDeployment_Ok in Hm as (pc & _ & [[_ ->]|(_ & p & _ & ->)]); done.
Qed.

(** What an update of a profile or of a config that passes has shown. *)
Lemma admit_osp_update (old o o' : OperatingSystemProfile) :
  admission OpUpdate KOperatingSystemProfile (Some old) o = inl o' ->
  units_supported o /\
  (deep_equal (OSP_Spec old) (OSP_Spec o) = true \/ OSP_Version (OSP_Spec o) <> OSP_Version (OSP_Spec old)).
Proof.
  cbn. unfold osp_validation.Handle. cbn [req_Operation req_OldObject admission_request from_option].
  destruct (Decode _) as [o0|e|w] eqn:Hd; try done; apply decoded_osp in Hd as ->.
  destruct (DecodeRaw _) as [old0|e|w] eqn:Ho; try done; apply decoded_old_osp in Ho as ->.
  rewrite <- osp_validateUpdate_spec. destruct (osp_validation.validateUpdate o old) as [[]|e|w]; by intros ?.
Qed.

Lemma admit_osc_update (old o o' : OperatingSystemConfig) :
  admission OpUpdate KOperatingSystemConfig (Some old) o = inl o' -> deep_equal (OSC_Spec old) (OSC_Spec o) = true.
Proof.
  cbn. unfold osc_validation.Handle, osc_validation.validateUpdate.
  cbn [req_Operation req_OldObject admission_request from_option].
  destruct (Decode _) as [o0|e|w] eqn:Hd; try done; apply decoded_osc in Hd as ->.
  destruct (DecodeRaw _) as [old0|e|w] eqn:Ho; try done; apply decoded_old_osc in Ho as ->.
  by destruct (deep_equal _ _).
Qed.
End Verdicts.

Section GatedLaws.
Context `{WebhookLaws} {S : Type} `{!ApiServer Credentials S}.

(** A call through the webhooks is a call of the server behind them, or none. *)
Lemma gate_cases X (e : ApiE Credentials X) (s : S) :
  (gate X e s).2 = s \/
  exists e' : ApiE Credentials X, option_map write_ref (writes e') = option_map write_ref (writes e) /\
    gate X e s = handle _ e' s.
Proof.
  destruct e as [| c k o|c k o| | | | | | | |]; try by right; eexists.
  - cbn [gate]. destruct (admission OpCreate k None o) as [o'|err] eqn:Ha; [right|by left].
    apply admit_meta in Ha as [Hk _]; [|done]. exists (Create c k o'). split; [|done]. cbn. unfold ref_of. by rewrite Hk.
  - cbn [gate]. destruct (stored s (cluster_of c) k (key_of (meta_of o))) as [old|]; [|by right; eexists].
    destruct (admission OpUpdate k (Some old) o) as [o'|err] eqn:Ha; [right|by left].
    apply admit_meta in Ha as [Hk _]; [|done]. exists (Update c k o'). split; [|done]. cbn. unfold ref_of. by rewrite Hk.
Qed.

Lemma gated_handle X (e : ApiE Credentials X) (s : behind S) x s' :
  handle _ e s = (x, s') <-> gate X e (base s) = (x, base s').
Proof.
  destruct s as [s], s' as [s']. cbn. destruct (gate X e s) as [y t]. split; [by intros [= <- <-]|by intros [= <- <-]].
Qed.

Context `{!ApiServerLaws Credentials S}.

#[export] Instance gated_laws : ApiServerLaws Credentials (behind S).
Proof.
  split.
  - intros s c k n o s' Hg%gated_handle. exact (Get_ok (base s) c k n o _ Hg).
  - intros s c k n e s' Hg%gated_handle. exact (Get_err (base s) c k n e _ Hg).
  - intros s c k n o Ho. pose proof (Get_stored (base s) c k n o Ho) as Hg.
    cbn. by destruct (handle _ (Get c k n) (base s)) as [x s'].
  - intros s c k o s' Hk Hc%gated_handle. cbn [gate] in Hc.
    destruct (admission OpCreate k None o) as [o'|err] eqn:Ha; [|done].
    apply admission_same in Ha as ->; [|done]. exact (Create_ok (base s) c k o _ Hk Hc).
  - intros s c k n s' Hd%gated_handle. exact (Delete_ok (base s) c k n _ Hd).
  - intros s c k n e s' Hd%gated_handle. exact (Delete_err (base s) c k n e _ Hd).
  - intros X e s cl k n Hw. destruct (handle X e s) as [x s'] eqn:Hh. apply gated_handle in Hh. cbn [snd stored gated].
    destruct (gate_cases X e (base s)) as [Hs|(e' & He' & Hg)]; rewrite Hh in *; [by rewrite <- Hs|].
    apply (handle_stored X e' (base s) x _ cl k n (eq_sym Hg)). intros w' Hw'. rewrite Hw' in He'.
    destruct (writes e) as [w|] eqn:Hwe; [|done]. injection He' as He'. specialize (Hw w eq_refl).
    unfold touches in *. by rewrite He'.
Qed.

Context `{!NamedServer Credentials S}.

#[export] Instance gated_named : NamedServer Credentials (behind S).
Proof.
  refine {| valid s := valid (base s) |}.
  - intros X e s Hs. destruct (handle X e s) as [x s'] eqn:Hh. apply gated_handle in Hh. cbn [snd].
    destruct (gate_cases X e (base s)) as [Hg|(e' & _ & Hg)]; rewrite Hh in *; [by rewrite <- Hg in Hs|].
    pose proof (valid_step X e' (base s) Hs) as Hv. by rewrite <- Hg in Hv.
  - intros X e s Hs. destruct (handle X e s) as [x s'] eqn:Hh. apply gated_handle in Hh. cbn [fst].
    assert (forall e' : ApiE Credentials X, gate X e (base s) = handle _ e' (base s) -> honest X e' x) as Hb.
    { intros e' Hg. pose proof (valid_answer X e' (base s) Hs) as Ha. by rewrite <- Hg, Hh in Ha. }
    destruct e as [c k n|c k o|c k o|c k n| | | | | | |]; try (by apply Hb).
    + exact I.
    + cbn [gate] in Hb, Hh. destruct (stored (base s) (cluster_of c) k (key_of (meta_of o))) as [old|];
        [|exact (Hb (Update c k o) eq_refl)].
      destruct (admission OpUpdate k (Some old) o) as [o'|err] eqn:Ha; [|by injection Hh as <- _].
      apply admit_meta in Ha as [Hk _]; [|done]. specialize (Hb (Update c k o') eq_refl). cbn [honest] in *.
      by rewrite <- Hk.
Defined.

(** Deletion is not reviewed, and a review does not touch finalizers: an object
    goes away through the webhooks as it goes away without them. *)
#[export] Instance gated_deletion `{!DeletionLaws Credentials S} : DeletionLaws Credentials (behind S).
Proof.
  split.
  - intros s c k o a s' Hu%gated_handle. cbn [gate stored gated] in *.
    destruct (stored (base s) (cluster_of c) k (key_of (meta_of o))) as [old|] eqn:Hold.
    + destruct (admission OpUpdate k (Some old) o) as [o'|err] eqn:Ha.
      * apply admit_meta in Ha as [Hk Hf]; [|done]. rewrite <- Hold, <- Hk, <- Hf.
        exact (Update_effect (base s) c k o' a _ Hu).
      * left. injection Hu as <- Hb. rewrite <- Hb. by split.
    + pose proof (Update_effect (base s) c k o a _ Hu) as He. by rewrite Hold in He.
  - intros s c k n a s' Hd%gated_handle. exact (Delete_effect (base s) c k n a _ Hd).
Qed.

#[export] Instance gated_atomic `{!AtomicWrites Credentials S} : AtomicWrites Credentials (behind S).
Proof.
  split.
  - intros s c k o a s' Hk Hc%gated_handle. cbn [gate stored gated] in *.
    destruct (admission OpCreate k None o) as [o'|err] eqn:Ha; [|left; injection Hc as _ Hb; by rewrite <- Hb].
    apply admission_same in Ha as ->; [|done]. exact (Create_atomic (base s) c k o a _ Hk Hc).
  - intros s c k n a s' Hd%gated_handle. exact (Delete_atomic (base s) c k n a _ Hd).
Qed.

(** *** What happens to the content of an object *)

Context `{!ContentLaws Credentials S}.

Lemma gated_content X (e : ApiE Credentials X) (s s' : behind S) x cl k n old new :
  k <> KMachineDeployment -> handle _ e s = (x, s') -> stored s cl k n = Some old -> stored s' cl k n = Some new ->
  same_content old new \/
  exists o, same_content o new /\ admission OpUpdate k (Some old) o = inl o.
Proof.
  intros Hk Hh Hold Hnew.
  assert (forall err, (err, base s) = (x, base s') -> same_content old new) as Hsame.
  { intros err [= _ Hb]. cbn [stored gated] in *. rewrite <- Hb in Hnew. simplify_eq. apply same_content_refl. }
  destruct (writes e) as [w|] eqn:Hw; [destruct (decide (touches (R := Credentials) (S := behind S) cl k n w)) as [Ht|Ht]|].
  - apply gated_handle in Hh. cbn [stored gated] in *.
    destruct e as [|c k' o|c k' o|c k' n'| | | | | | |]; try done; cbn [writes] in Hw; injection Hw as <-;
      destruct Ht as (Hcl & Hkind & Hkey); cbn in Hcl, Hkind, Hkey; subst k' n; cbn [gate] in Hh; subst cl.
    + left. destruct (admission OpCreate k None o) as [o'|err] eqn:Ha; [|exact (Hsame _ Hh)].
      apply admission_same in Ha as ->; [|done].
      rewrite (Create_content _ c k o x _ old Hh Hold) in Hnew. simplify_eq. apply same_content_refl.
    + rewrite Hold in Hh. destruct (admission OpUpdate k (Some old) o) as [o'|err] eqn:Ha;
        [|by left; exact (Hsame _ Hh)].
      pose proof (admission_same _ _ _ _ _ Hk Ha) as ->.
      destruct (Update_content _ c k o x _ new Hh Hnew) as [[_ Hs]|Hs]; [|by right; exists o].
      left. rewrite Hold in Hs. simplify_eq. apply same_content_refl.
    + left. destruct (Delete_content _ c k _ x _ new Hh Hnew) as (old' & Hold' & Hs). rewrite Hold in Hold'. by simplify_eq.
  - left. rewrite (handle_stored X e s x s' cl k n Hh) in Hnew; [simplify_eq; apply same_content_refl|].
    intros w'. rewrite Hw. by intros [= <-].
  - left. rewrite (handle_stored X e s x s' cl k n Hh) in Hnew; [simplify_eq; apply same_content_refl|].
    intros w'. by rewrite Hw.
Qed.
End GatedLaws.

(** ** The webhooks do not get in the way *)

Section Transparency.
Context `{WebhookLaws} {S : Type} `{ApiServerLaws Credentials S}.
Variable r : Reconciler.

(** A machine deployment that names a profile, whose provider specification can
    be read and which the encoder and the decoder of the webhook can handle. *)
Definition accepted_md (md : MachineDeployment) : Prop :=
  map_get (MD_Annotations md) MachineDeploymentOSPAnnotation <> "" /\
  is_ok (GetConfig (MD_ProviderSpec_Value md)) = true /\
  (forall old, Decode (admission_request OpUpdate KMachineDeployment md old) = Ok md) /\
  exists doc, json_Marshal md = Ok doc /\ DecodeRaw doc = Ok md.

(** The same for what a reconciliation makes of it. *)
Definition managed_md (md : MachineDeployment) : Prop :=
  accepted_md (with_MD_Meta (AddFinalizer (MD_Meta md) [MachineDeploymentCleanupFinalizer]) md) /\
  accepted_md (with_MD_Meta (RemoveFinalizer (MD_Meta md) [MachineDeploymentCleanupFinalizer]) md).

Lemma admission_accepted_md old md : accepted_md md -> admission OpUpdate KMachineDeployment (Some old) md = inl md.
Proof.
  intros (Hn & Hc & Hd & doc & Hm & Hp). destruct (GetConfig (MD_ProviderSpec_Value md)) as [pc|e|w] eqn:Hpc; [|done..].
  unfold admission, md_mutation.Handle, md_mutation.mutate_response.
  change (req_Operation (admission_request OpUpdate KMachineDeployment md (Some old))) with OpUpdate.
  rewrite Hd, (MutateMachineDeployment_named md pc Hn Hpc), Hm. cbn. by rewrite Hp.
Qed.

(** The calls that pass the webhooks whatever is stored. *)
Definition passes (X : Type) (e : ApiE Credentials X) : Prop :=
  match e with
  | Create _ k o => k <> KMachineDeployment /\ k <> KOperatingSystemProfile
  | Update _ k o =>
      match k return obj k -> Prop with
      | KMachineDeployment => accepted_md
      | KOperatingSystemProfile | KOperatingSystemConfig => fun _ => False
      | _ => fun _ => True
      end o
  | _ => True
  end.

Lemma passes_gate X (e : ApiE Credentials X) (s : S) : passes X e -> gate X e s = handle _ e s.
Proof.
  destruct e as [|c k o|c k o| | | | | | | |]; try done; cbn [passes gate].
  - intros [Hmd Hosp]. by destruct k.
  - destruct (stored s _ k _) as [old|]; [|done]. destruct k; try done.
    intros Ha. by rewrite (admission_accepted_md old o Ha).
Qed.

(** Configs are created and secrets written. *)
Definition routine (w : write) : Prop :=
  match w with
  | WCreate x => ref_kind x <> KMachineDeployment /\ ref_kind x <> KOperatingSystemProfile
  | WUpdate x => ref_kind x = KSecret
  | WDelete _ => True
  end.

Lemma routine_passes X (e : ApiE Credentials X) : only_writes routine X e -> passes X e.
Proof. destruct e as [|c k o|c k o| | | | | | | |]; try done. cbn. by intros ->. Qed.

Lemma owned_routine md w : owned_object r md w -> routine w.
Proof.
  intros Hw. destruct w as [x|x|x]; cbn in *; [|done..]. destruct Hw as [->|[Hx| ->]]; [done| |done].
  unfold generated_secrets in Hx. cbn [take] in Hx. rewrite !elem_of_cons, elem_of_nil in Hx.
  by repeat destruct Hx as [->|Hx].
Qed.

Lemma reconcile_passes md : all_calls passes (reconcile r md).
Proof.
  apply (all_calls_mono (only_writes routine)); [exact routine_passes|].
  apply all_calls_of_when, reconcile_writes; [|intros X e; apply only_writes_mono, owned_routine|done].
  eapply all_calls_when; [|apply CreateBootstrapKubeconfig_kind].
  intros X e. apply only_writes_mono. intros [x|x|x]; cbn; [by intros ->|done..].
Qed.

Lemma cleanup_passes md :
  accepted_md (with_MD_Meta (RemoveFinalizer (MD_Meta md) [MachineDeploymentCleanupFinalizer]) md) ->
  all_calls passes (handleMachineDeploymentCleanup r md).
Proof.
  intros Ha. unfold handleMachineDeploymentCleanup, deleteOperatingSystemConfig, deleteGeneratedSecrets, delete_if_found.
  repeat calls_step; try exact I. exact Ha.
Qed.

(** What a reconciliation does after it has read the machine deployment. *)
Lemma Reconcile_get_passes req (s : S) :
  (forall md, stored s (cluster_of WorkerClient) KMachineDeployment req = Some md -> managed_md md) ->
  exists rest : result MachineDeployment -> prog (ApiE Credentials) (result unit),
    Reconcile r req = bind (trigger (Get WorkerClient KMachineDeployment req)) rest /\
    all_calls passes (rest (handle _ (Get WorkerClient KMachineDeployment req) s).1).
Proof.
  intros Hs. eexists. split; [reflexivity|]. cbn beta.
  destruct (handle _ _ s) as [got s1] eqn:Hg. cbn [fst]. destruct got as [md|e|w]; [|by destruct (IsNotFound e)|done].
  apply (Get_ok s WorkerClient KMachineDeployment req md s1) in Hg. destruct (Hs md Hg) as [Hadd Hrem].
  destruct (DeletionTimestamp (MD_Meta md)).
  - destruct (HasFinalizer _ _); [|done]. by apply cleanup_passes.
  - apply all_calls_bindIO; [|intros md'; apply reconcile_passes]. unfold ensure_finalizer.
    destruct (HasFinalizer _ _); [done|]. apply all_calls_wrapIO. by split.
Qed.

(** C20: the webhooks never get in the way of a reconciliation: for a machine deployment that names a profile and whose provider specification can be read, a reconciliation through the webhooks makes the same calls, gets the same answers, returns the same and leaves the same state as without them, whether it succeeds or fails, creates, rotates or cleans up *)
Theorem Reconcile_transparent req (s : S) :
  (forall md, stored s (cluster_of WorkerClient) KMachineDeployment req = Some md -> managed_md md) ->
  interp handle (Reconcile r req) (Behind s) =
    ((interp handle (Reconcile r req) s).1, Behind (interp handle (Reconcile r req) s).2) /\
  trace handle (Reconcile r req) (Behind s) = trace handle (Reconcile r req) s.
Proof.
  intros Hs. destruct (Reconcile_get_passes req s Hs) as (rest & -> & Hrest). cbn [bind trigger interp trace].
  change (handle (S := behind S) _ (Get WorkerClient KMachineDeployment req) (Behind s)) with
    (let '(x, s') := handle _ (Get (R := Credentials) WorkerClient KMachineDeployment req) s in (x, Behind s')).
  destruct (handle _ _ s) as [got s1]. cbn [fst] in Hrest.
  destruct (interp_agree handle (handle (S := behind S)) Behind passes (rest got) s1) as [-> ->]; [|done|done].
  intros X e s0 He. cbn. rewrite (passes_gate X e s0 He). by destruct (handle X e s0).
Qed.

(** *** A machine deployment that cannot be released *)

Variable md : MachineDeployment.
Let req : NamespacedName := key_of (MD_Meta md).
Hypothesis Hunreadable : is_ok (GetConfig (MD_ProviderSpec_Value md)) = false.

Definition still_stored (s : behind S) : Prop :=
  stored s (cluster_of WorkerClient) KMachineDeployment req = Some md.

(** Writes elsewhere, and updates of the machine deployment that keep its
    provider specification. *)
Definition cleanup_call (X : Type) (e : ApiE Credentials X) : Prop :=
  match e with
  | Create _ k _ | Delete _ k _ => k <> KMachineDeployment
  | Update c k o =>
      match k return obj k -> Prop with
      | KMachineDeployment => fun o => c = WorkerClient /\ key_of (MD_Meta o) = req /\
          MD_ProviderSpec_Value o = MD_ProviderSpec_Value md
      | _ => fun _ => True
      end o
  | _ => True
  end.

Lemma unreadable_refused old (o : MachineDeployment) :
  MD_ProviderSpec_Value o = MD_ProviderSpec_Value md -> exists err, admission OpUpdate KMachineDeployment (Some old) o = inr err.
Proof.
  intros Hv. destruct (admission OpUpdate KMachineDeployment (Some old) o) as [o'|err] eqn:Ha; [|by exists err].
  destruct (admit_md OpUpdate (Some old) o o' Ha) as [?|(pc & Hpc & _)%MutateMachineDeployment_Ok]; [done|].
  rewrite Hv in Hpc. by rewrite Hpc in Hunreadable.
Qed.

Lemma cleanup_call_kept X (e : ApiE Credentials X) (s : behind S) :
  still_stored s -> cleanup_call X e -> still_stored (handle _ e s).2.
Proof.
  intros Hs He. unfold still_stored in *.
  assert ((forall w, writes e = Some w -> ref_kind (write_ref w) <> KMachineDeployment) ->
    stored (handle _ e s).2 (cluster_of WorkerClient) KMachineDeployment req = Some md) as Helse.
  { intros Hw. rewrite handle_frame; [done|]. by intros w Hwr%Hw (_ & Hk & _). }
  destruct e as [|c k o|c k o|c k n| | | | | | |]; try (apply Helse; cbn in *; by intros w [= <-]).
  destruct k; try (apply Helse; cbn in *; by intros w [= <-]).
  destruct He as (-> & Hkey & Hv). destruct (unreadable_refused md o Hv) as [err Herr].
  destruct (handle _ _ s) as [x s'] eqn:Hh. apply gated_handle in Hh. cbn [gate] in Hh.
  cbn [stored gated] in Hs |- *. change (meta_of o) with (MD_Meta o) in Hh. rewrite Hkey, Hs, Herr in Hh.
  injection Hh as _ Hb. cbn [snd]. by rewrite <- Hb.
Qed.

Lemma cleanup_calls : all_calls cleanup_call (handleMachineDeploymentCleanup r md).
Proof.
  unfold handleMachineDeploymentCleanup, deleteOperatingSystemConfig, deleteGeneratedSecrets, delete_if_found.
  repeat calls_step; done.
Qed.

(** A part of the cleanup leaves it stored. *)
Lemma cleanup_kept {A} (m : prog (ApiE Credentials) A) s :
  all_calls cleanup_call m -> still_stored s -> still_stored (interp handle m s).2.
Proof.
  intros Hm Hs. apply (interp_calls_when handle still_stored (fun _ _ _ => True) cleanup_call m s); [done| |done|].
  - intros X e s'. apply cleanup_call_kept.
  - by apply (all_calls_when _ cleanup_call).
Qed.

Lemma cleanup_fails s : still_stored s -> is_ok (interp handle (handleMachineDeploymentCleanup r md) s).1 = false.
Proof.
  intros Hs. destruct (interp handle (handleMachineDeploymentCleanup r md) s) as [[[]|e|w] s'] eqn:Hi; [exfalso|done..].
  unfold handleMachineDeploymentCleanup in Hi.
  apply interp_bindIO_Ok in Hi as ([] & s1 & Hosc & Hi). apply interp_bindIO_Ok in Hi as ([] & s2 & Hsec & Hi).
  apply interp_bindIO_Ok in Hi as (md' & s3 & Hu & _). apply interp_wrapIO_Ok in Hu. rewrite interp_trigger in Hu.
  assert (still_stored s2) as Hs2.
  { change s2 with (Ok (A := unit) tt, s2).2. rewrite <- Hsec. apply cleanup_kept;
      [unfold deleteGeneratedSecrets, delete_if_found; repeat calls_step; done|].
    change s1 with (Ok (A := unit) tt, s1).2. rewrite <- Hosc. apply cleanup_kept;
      [unfold deleteOperatingSystemConfig, delete_if_found; repeat calls_step; done|done]. }
  apply gated_handle in Hu. cbn [gate] in Hu. set (o := with_MD_Meta _ md) in Hu.
  destruct (unreadable_refused md o eq_refl) as [err Herr]. unfold still_stored in Hs2. cbn [stored gated] in Hs2.
  change (key_of (@meta_of KMachineDeployment o)) with req in Hu.
  change (cluster_of (S := behind S)) with (cluster_of (S := S)) in Hs2. by rewrite Hs2, Herr in Hu.
Qed.

(** The state after [n] more attempts. *)
Definition attempts (n : nat) (s : behind S) : behind S :=
  Nat.iter n (fun s => (interp handle (Reconcile r req) s).2) s.

(** C21: a machine deployment whose provider specification cannot be read is never released: once it is marked for deletion, every attempt to clean it up fails, however many there are, because the mutating webhook refuses the update that takes the finalizer away *)
Theorem unreadable_provider_never_released s :
  still_stored s -> DeletionTimestamp (MD_Meta md) <> None ->
  MachineDeploymentCleanupFinalizer ∈ Finalizers (MD_Meta md) ->
  forall n, still_stored (attempts n s) /\ is_ok (interp handle (Reconcile r req) (attempts n s)).1 = false.
Proof.
  intros Hs Hts Hfin.
  assert (forall s, still_stored s -> exists s1, still_stored s1 /\
    interp handle (Reconcile r req) s = interp handle (handleMachineDeploymentCleanup r md) s1) as Hget.
  { intros s0 Hs0. unfold Reconcile. rewrite interp_bind_trigger.
    pose proof (cleanup_call_kept _ (Get WorkerClient KMachineDeployment req) s0 Hs0 I) as Hs1.
    pose proof (Get_stored s0 WorkerClient KMachineDeployment req md Hs0) as Hg.
    destruct (handle _ _ s0) as [got s1]. cbn [fst snd] in *. subst got.
    destruct (DeletionTimestamp (MD_Meta md)); [|done].
    rewrite (proj2 (HasFinalizer_singleton _ _) Hfin). by exists s1. }
  assert (forall n, still_stored (attempts n s)) as Hn; [|intros n; split; [done|]].
  - induction n as [|n IH]; [done|].
    change (still_stored (interp handle (Reconcile r req) (attempts n s)).2).
    destruct (Hget _ IH) as (s1 & Hs1 & ->).
    apply cleanup_kept; [apply cleanup_calls|done].
  - destruct (Hget _ (Hn n)) as (s1 & Hs1 & ->). by apply cleanup_fails.
Qed.
End Transparency.

(** ** Default profiles *)

Section Defaults.
Context `{WebhookLaws} {R : Type} `{ReconcilingLaws R}.
Variable c : OSPController.Reconciler.

(** The webhook can read the profile. *)
Definition readable_osp (o : OperatingSystemProfile) : Prop :=
  (forall op old, Decode (admission_request op KOperatingSystemProfile o old) = Ok o) /\
  DecodeRaw (raw KOperatingSystemProfile o) = Ok o.

Lemma admit_osp_create (o : OperatingSystemProfile) :
  readable_osp o -> units_supported o -> admission OpCreate KOperatingSystemProfile None o = inl o.
Proof.
  intros [Hd _] Hu%validateOperatingSystemProfile_spec. unfold admission, osp_validation.Handle.
  change (req_Operation (admission_request OpCreate KOperatingSystemProfile o None)) with OpCreate.
  by rewrite Hd, Hu.
Qed.

Lemma admit_osp_version (old o : OperatingSystemProfile) :
  readable_osp old -> readable_osp o -> units_supported o ->
  OSP_Version (OSP_Spec o) <> OSP_Version (OSP_Spec old) ->
  admission OpUpdate KOperatingSystemProfile (Some old) o = inl o.
Proof.
  intros [_ Hold] [Hd _] Hu Hv. unfold admission, osp_validation.Handle.
  change (req_Operation (admission_request OpUpdate KOperatingSystemProfile o (Some old))) with OpUpdate.
  change (req_OldObject (admission_request OpUpdate KOperatingSystemProfile o (Some old))) with
    (raw KOperatingSystemProfile old).
  rewrite Hd, Hold.
  by rewrite (proj2 (osp_validateUpdate_spec o old) (conj Hu (or_intror Hv))).
Qed.

(** The webhook lets the write of a profile pass, for the object that was read. *)
Definition admitted_write (t : list (obs (ApiE R))) (o : obs (ApiE R)) : Prop :=
  match o with
  | @Obs _ X e _ =>
      match e with
      | Create _ k o =>
          match k return obj k -> Prop with
          | KOperatingSystemProfile => fun o => admission OpCreate KOperatingSystemProfile None o = inl o
          | _ => fun _ => False
          end o
      | Update _ k o =>
          match k return obj k -> Prop with
          | KOperatingSystemProfile => fun o => exists (c : client) (n : NamespacedName) (existing : OperatingSystemProfile),
              Obs (Get c KOperatingSystemProfile n) (Ok existing) ∈ t /\
              admission OpUpdate KOperatingSystemProfile (Some existing) o = inl o
          | _ => fun _ => False
          end o
      | _ => False
      end
  end.

(** The webhook can read a profile that was read and what is made of it. *)
Definition read_can_be_updated (name : string) (source : OperatingSystemProfile) (o : obs (ApiE R)) : Prop :=
  match o with
  | @Obs _ X e x =>
      match e in ApiE _ X return X -> Prop with
      | Get _ k _ =>
          match k return result (obj k) -> Prop with
          | KOperatingSystemProfile =>
              on_ok (fun existing => readable_osp existing /\ readable_osp (desired c name source existing))
          | _ => fun _ => True
          end
      | _ => fun _ => True
      end x
  end.

(** C23: what the profile controller writes passes the profile webhook: when an embedded profile has units only for Flatcar, a run for it that succeeds only creates a profile that the webhook accepts, or updates the one it read to one that the webhook accepts in its place, whose version is another one *)
Theorem default_profiles_admitted name source t :
  defaultOSPs c !! name = Some source -> units_supported source -> run (reconcileOSP c name) t (Ok tt) ->
  readable_osp (desired c name source zero_OperatingSystemProfile) ->
  Forall (fun o => honest_obs o /\ read_can_be_updated name source o) t ->
  Forall (admitted_write t) (filter is_write t).
Proof.
  intros Hsource Hu Hrun Hzero Hread.
  assert (forall existing, OSP_Version (OSP_Spec existing) <> OSP_Version (OSP_Spec source) ->
    units_supported (desired c name source existing) /\
    OSP_Version (OSP_Spec (desired c name source existing)) <> OSP_Version (OSP_Spec existing)) as Hdes.
  { intros existing Hv. unfold desired, units_supported. cbn. by rewrite !decide_False by done. }
  destruct (reconcileOSP_writes c name source t Hsource Hrun) as [->|(existing & answer & Hin & Hw & Hsame)].
  - apply Forall_singleton. cbn. apply admit_osp_create; [done|]. unfold desired, units_supported. cbn.
    case_decide; [right; done|done].
  - rewrite Forall_forall in Hread. destruct (Hread _ Hin) as [Hkey [Hex Hdr]].
    destruct (decide (OSP_Version (OSP_Spec existing) = OSP_Version (OSP_Spec source))) as [Hv|Hv];
      [by rewrite (Hsame Hv Hkey)|].
    destruct Hw as [->| ->]; [done|]. apply Forall_singleton. cbn. eexists _, _, existing. split; [exact Hin|].
    destruct (Hdes existing Hv) as [Hu' Hv']. by apply admit_osp_version.
Qed.
End Defaults.

(** The files of [deploy/osps/default]. *)
Definition embedded_files : list string :=
  ["osp-amzn2.yaml"; "osp-flatcar-cloud-init.yaml"; "osp-flatcar.yaml"; "osp-rhel.yaml"; "osp-rockylinux.yaml";
   "osp-ubuntu.yaml"].

(** The names of Ubuntu, Flatcar, Amazon Linux 2, Rocky Linux and RHEL in the SDK. *)
Definition sdk_os_names : list string := ["ubuntu"; "flatcar"; "amzn2"; "rockylinux"; "rhel"].

(** a machine deployment that names no profile gets one that exists: the default profile that the webhook annotates is one of those that the profile controller loads from the embedded files *)
Theorem default_profile_is_loaded `{GeneratorLibs, !SDKGetConfig, EmbedFS} md md' profiles :
  FS_ReadDir ospsDefaultDirName = Ok embedded_files -> md_mutation.supported_os = sdk_os_names ->
  loadDefaultOSPs = Ok profiles ->
  map_get (MD_Annotations md) MachineDeploymentOSPAnnotation = "" -> md_mutation.MutateMachineDeployment md = Ok md' ->
  is_Some (profiles !! map_get (MD_Annotations md') MachineDeploymentOSPAnnotation).
Proof.
  intros Hdir Hnames Hload Hempty (pc & _ & [[Hne _]|(_ & p & Hp & ->)])%MutateMachineDeployment_Ok; [done|].
  rewrite annotate_get. unfold loadDefaultOSPs in Hload. rewrite Hdir in Hload. cbn [wrapR bindR] in Hload.
  apply load_files_spec in Hload as [_ Hf].
  assert (exists f, f ∈ embedded_files /\ osp_name f = p) as (f & Hin & <-); [|by apply Hf].
  destruct Hp as [[Hos ->]|[_ ->]].
  - rewrite Hnames in Hos. apply list_elem_of_In in Hos. cbn in Hos. destruct Hos as [<-|[<-|[<-|[<-|[<-|[]]]]]];
      [exists "osp-ubuntu.yaml"|exists "osp-flatcar.yaml"|exists "osp-amzn2.yaml"|exists "osp-rockylinux.yaml"
      |exists "osp-rhel.yaml"]; (split; [by apply (bool_decide_unpack _); vm_compute|vm_compute; reflexivity]).
  - exists "osp-flatcar-cloud-init.yaml". split; [by apply (bool_decide_unpack _); vm_compute|vm_compute; reflexivity].
Qed.

(** ** Evaluation on concrete inputs *)

Module Demo.
Import OSCController.Demo.
#[export] Existing Instances Admission.Demo.osc_equal Admission.Demo.osc_equal_laws
  Admission.Demo.osp_equal Admission.Demo.osp_equal_laws MemStore.content_laws.

(** The profile after an edit, with another version. *)
Definition osp2 : OperatingSystemProfile :=
  let spec := OSP_Spec osp in
  {| OSP_Meta := OSP_Meta osp;
     OSP_Spec := {| OSP_OSName := OSP_OSName spec; OSP_OSVersion := "24.04"; OSP_Version := "v2.0.0";
       SupportedCloudProviders := SupportedCloudProviders spec; OSP_BootstrapConfig := OSP_BootstrapConfig spec;
       OSP_ProvisioningConfig := OSP_BootstrapConfig spec; OSP_ProvisioningUtility := OSP_ProvisioningUtility spec |} |}.
Definition md_kept : MachineDeployment :=
  with_MD_Meta (AddFinalizer (MD_Meta md) [MachineDeploymentCleanupFinalizer]) md.
Definition md_released : MachineDeployment :=
  with_MD_Meta (RemoveFinalizer (MD_Meta md) [MachineDeploymentCleanupFinalizer]) md.

(** Documents are numbers of the objects that occur here. *)
Definition document (k : kind) : obj k -> string :=
  match k return obj k -> string with
  | KOperatingSystemProfile => fun o => if decide (o = osp) then "1" else if decide (o = osp2) then "2" else "?"
  | KMachineDeployment => fun o => if decide (o = md_kept) then "1" else if decide (o = md_released) then "2" else "?"
  | _ => fun _ => "?"
  end.
Definition parse {A} (one two : A) (doc : string) : result A :=
  if decide (doc = "1") then Ok one else if decide (doc = "2") then Ok two
  else Err (LibError "json.Unmarshal" doc "unknown").

#[export] Instance osc_decoder : AdmissionDecoder OperatingSystemConfig :=
  {| Decode req := Err (LibError "Decode" (req_Object req) "unknown");
     DecodeRaw doc := Err (LibError "DecodeRaw" doc "unknown") |}.
#[export] Instance osp_decoder : AdmissionDecoder OperatingSystemProfile :=
  {| Decode req := parse osp osp2 (req_Object req); DecodeRaw := parse osp osp2 |}.
#[export] Instance md_decoder : AdmissionDecoder MachineDeployment :=
  {| Decode req := parse md_kept md_released (req_Object req); DecodeRaw := parse md_kept md_released |}.
#[export] Instance md_marshal : JsonMarshal MachineDeployment := fun md => Ok (document KMachineDeployment md).
#[export] Instance get_config : SDKGetConfig := fun v =>
  match v with Some _ => Ok Generator.Demo.pc | None => Err (Errorf "ProviderSpec.Value is nil" []) end.
#[export] Instance webhooks : Webhooks := {| raw := document; request_UID _ _ := "uid" |}.

Lemma parse_document_osp (o o' : OperatingSystemProfile) :
  parse osp osp2 (document KOperatingSystemProfile o) = Ok o' -> o' = o.
Proof. unfold parse, document. repeat case_decide; by intros [= <-]. Qed.
Lemma parse_document_md (o o' : MachineDeployment) :
  parse md_kept md_released (document KMachineDeployment o) = Ok o' -> o' = o.
Proof. unfold parse, document. repeat case_decide; by intros [= <-]. Qed.

#[export] Instance webhook_laws : WebhookLaws.
Proof.
  split; try apply _; cbn; try done.
  - intros _ o _ o'. apply parse_document_osp.
  - intros _ o _ o'. apply parse_document_md.
  - apply parse_document_osp.
  - intros o doc o' [= <-]. apply parse_document_md.
Qed.

Definition server0 : MemStore.store Credentials := store0.
(** A machine deployment without a provider specification, marked for deletion. *)
Definition broken_md : MachineDeployment :=
  {| MD_Meta := MD_Meta marked_md; MD_ProviderSpec_Value := None; MD_Versions_Kubelet := "1.30.0" |}.
Definition broken_store : behind (MemStore.store Credentials) :=
  Behind (with_object (k := KMachineDeployment) WorkerClient broken_md store0).
End Demo.
Import OSCController.Demo Demo.

Lemma managed_md_demo : managed_md OSCController.Demo.md.
Proof.
  split; (split; [vm_compute; discriminate|]; split; [reflexivity|]; split; [intros old; vm_compute; reflexivity|]);
    eexists; (split; [reflexivity|vm_compute; reflexivity]).
Qed.

Lemma Reconcile_transparent_witness :
  length (trace handle (Reconcile OSCController.Demo.reconciler OSCController.Demo.md_key) (Behind Demo.server0)) = 22 /\
  (interp handle (Reconcile OSCController.Demo.reconciler OSCController.Demo.md_key) (Behind Demo.server0)).1 = Ok tt.
Proof.
  destruct (Reconcile_transparent OSCController.Demo.reconciler OSCController.Demo.md_key Demo.server0) as [Hi Ht].
  - intros md' Hmd. assert (md' = OSCController.Demo.md) as -> by (vm_compute in Hmd; by injection Hmd as <-).
    exact managed_md_demo.
  - rewrite Hi, Ht. split; vm_compute; reflexivity.
Defined.

Lemma unreadable_provider_never_released_witness :
  is_ok (interp handle (Reconcile OSCController.Demo.reconciler OSCController.Demo.md_key)
    (attempts OSCController.Demo.reconciler Demo.broken_md 3 Demo.broken_store)).1 = false.
Proof.
  apply (unreadable_provider_never_released OSCController.Demo.reconciler Demo.broken_md).
  - reflexivity.
  - vm_compute. reflexivity.
  - discriminate.
  - by left.
Defined.

(** The profile controller with the files of its demonstration, whose texts are
    versions. *)
Module ProfileDemo.
#[export] Existing Instances OSPController.Demo.reconciling OSPController.Demo.reconciling_laws.
#[export] Instance files : EmbedFS :=
  {| FS_ReadDir _ := Ok embedded_files; FS_ReadFile f := Ok "v2"; yaml_Unmarshal s := Ok (OSPController.Demo.profile s) |}.
Definition profiles : gmap string OperatingSystemProfile :=
  list_to_map (map (fun f => (osp_name f, OSPController.Demo.profile "v2")) embedded_files).

(** A decoder that knows the profiles of the run. *)
Definition texts : list (string * OperatingSystemProfile) :=
  [("old", OSPController.Demo.old); ("updated", OSPController.Demo.updated);
   ("zero", desired OSPController.Demo.controller "osp-ubuntu" (OSPController.Demo.profile "v2") zero_OperatingSystemProfile)].
Definition text (o : OperatingSystemProfile) : string :=
  from_option fst "?" (List.find (fun p => bool_decide (p.2 = o)) texts).
Definition read (doc : string) : result OperatingSystemProfile :=
  match List.find (fun p => bool_decide (p.1 = doc)) texts with
  | Some (_, o) => Ok o
  | None => Err (LibError "Decode" doc "unknown")
  end.
#[export] Instance decoder : AdmissionDecoder OperatingSystemProfile :=
  {| Decode req := read (req_Object req); DecodeRaw := read |}.
#[export] Instance webhooks : Webhooks :=
  {| wh_osp_decoder := decoder;
     raw k := match k return obj k -> string with KOperatingSystemProfile => text | k => Demo.document k end;
     request_UID _ _ := "uid" |}.

Lemma read_text o o' : read (text o) = Ok o' -> o' = o.
Proof. unfold read, text, texts. cbn [List.find snd]. repeat case_bool_decide; cbn; by intros [= <-]. Qed.

#[export] Instance webhook_laws : WebhookLaws.
Proof.
  split; try apply _; cbn; try done.
  - intros _ o _ o'. apply read_text.
  - intros _ o _ o'. apply Demo.parse_document_md.
  - apply read_text.
  - intros o doc o' [= <-]. apply Demo.parse_document_md.
Qed.

Lemma readable o : o ∈ texts.*2 -> readable_osp (H1 := webhooks) o.
Proof. intros Ho. apply list_elem_of_In in Ho as [<-|[<-|[<-|[]]]]; split; intros; vm_compute; reflexivity. Qed.
End ProfileDemo.
Import ProfileDemo.

Lemma default_profiles_admitted_witness :
  run (reconcileOSP OSPController.Demo.controller "osp-ubuntu") OSPController.Demo.update_run (Ok tt) /\
  Forall (admitted_write (H1 := ProfileDemo.webhooks) OSPController.Demo.update_run)
    (filter is_write OSPController.Demo.update_run).
Proof.
  assert (run (reconcileOSP OSPController.Demo.controller "osp-ubuntu") OSPController.Demo.update_run (Ok tt)) as Hrun.
  { exists (Ok OSPController.Demo.old). split; [reflexivity|]. exists (Ok OSPController.Demo.updated).
    split; [reflexivity|]. split; reflexivity. }
  split; [exact Hrun|].
  apply (default_profiles_admitted (H1 := ProfileDemo.webhooks) OSPController.Demo.controller "osp-ubuntu"
    (OSPController.Demo.profile "v2")).
  - vm_compute. reflexivity.
  - right. split; reflexivity.
  - exact Hrun.
  - apply ProfileDemo.readable. right; right; left.
  - apply Forall_cons. split; [split; [reflexivity|split; apply ProfileDemo.readable; [by left|by right; left]]|].
    apply Forall_singleton. by split.
Defined.

Lemma default_profile_is_loaded_witness :
  is_Some (ProfileDemo.profiles !! map_get (MD_Annotations Admission.Demo.mutated) MachineDeploymentOSPAnnotation).
Proof.
  apply (default_profile_is_loaded Admission.Demo.md Admission.Demo.mutated ProfileDemo.profiles).
  - reflexivity.
  - reflexivity.
  - vm_compute. reflexivity.
  - vm_compute. reflexivity.
  - vm_compute. reflexivity.
Defined.
