(* ===== verification/Freshness.v ===== *)
(** * From an edit of a profile to the user data of its machines

    The profile webhook accepts a new specification only with another version
    ([Admission]), the controller writes the version into the config it
    generates and rotates the config when the version differs
    ([OSCController]).  Together: between reconciliations anyone may edit the
    profile and the config through the webhooks ([Gate]); reconciliations may
    fail or be cut off ([Interruption]); after every one that succeeds, the
    config and both secrets are those of a profile that is semantically the
    current one.

    There is one gap.  A rotation deletes the config before its secrets, so one
    that fails in between leaves a state that is [half_rotated]; the reconciliation
    that starts there generates a new config and keeps the old secret, which is
    a finding ([half_rotated_keeps_secret] shows it on an example).  The histories
    of [life] include the failure, but no reconciliation that starts there. *)

From S2P Require Import Prelude GoStrings Encoding Sha256 Types SDK Effects Api ContainerRuntime.
From S2P Require Import Interruption Generator OSCResources Bootstrap Admission OSCController Convergence Gate.

(** ** What holds at every moment of a reconciliation *)

Section Interrupted.
Context `{WebhookLaws} {S : Type} `{ApiServerLaws Credentials S, !NamedServer Credentials S, !AtomicWrites Credentials S}.
Variable r : Reconciler.
Variable md : MachineDeployment.
Hypothesis Hkeys : rotation_keys.
Hypothesis Hsep : separate_names md.

(** A rotation that failed after it deleted the config leaves a secret without
    its config behind.  The next rotation does not look for it, and
    [ensureCloudConfigSecret] keeps what it finds. *)
Definition half_rotated (s : S) : Prop :=
  stored_osc r md s = None /\ exists T, T ∈ cloud_config_types /\ stored_secret s (cloud_config_name md T) <> None.

(** The annotations that the rotation compares. *)
Definition rotation_annotations (osc : OperatingSystemConfig) : list string :=
  map (map_get (Annotations (OSC_Meta osc)))
    [MachineDeploymentRevision; OperatingSystemConfigVersionAnnotation; OperatingSystemConfigMDHash].

(** The cloud config that a secret of type [T] is made from. *)
Definition cloud_config (T : string) (osc : OperatingSystemConfig) : OSCConfig :=
  if decide (T = ProvisioningCloudConfig) then OSC_ProvisioningConfig (OSC_Spec osc) else OSC_BootstrapConfig (OSC_Spec osc).

Lemma cloud_config_provisioning osc : cloud_config ProvisioningCloudConfig osc = OSC_ProvisioningConfig (OSC_Spec osc).
Proof. unfold cloud_config. by rewrite decide_True. Qed.
Lemma cloud_config_bootstrap osc : cloud_config BootstrapCloudConfig osc = OSC_BootstrapConfig (OSC_Spec osc).
Proof.
  unfold cloud_config. rewrite decide_False; [done|]. intros He. pose proof (types_separate md Hsep) as Hne.
  by rewrite He in Hne.
Qed.

(** The secret holds the user data of a config that is semantically [generated]. *)
Definition holds_user_data (s : S) (generated : OperatingSystemConfig) (version T : string) : Prop :=
  exists osc, deep_equal (OSC_Spec generated) (OSC_Spec osc) = true /\
    serves md s osc T (cloud_config T osc) version.

(** It does, if it is there. *)
Definition secret_from (s : S) (generated : OperatingSystemConfig) (version T : string) : Prop :=
  stored_secret s (cloud_config_name md T) = None \/ holds_user_data s generated version T.

(** The config was generated from [osp] and, possibly edited since, still has
    the annotations and semantically the specification; both secrets come from
    it. *)
Definition comes_from (s : S) (osc : OperatingSystemConfig) (osp : OperatingSystemProfile) : Prop :=
  exists generated, made_from r md osp generated /\ rotation_annotations osc = rotation_annotations generated /\
    deep_equal (OSC_Spec generated) (OSC_Spec osc) = true /\
    forall T, T ∈ cloud_config_types -> holds_user_data s generated (OSP_Version (OSP_Spec osp)) T.

(** The same while a secret may be missing. *)
Definition partly_from (s : S) (osc : OperatingSystemConfig) (osp : OperatingSystemProfile) : Prop :=
  exists generated, made_from r md osp generated /\ rotation_annotations osc = rotation_annotations generated /\
    deep_equal (OSC_Spec generated) (OSC_Spec osc) = true /\
    forall T, T ∈ cloud_config_types -> secret_from s generated (OSP_Version (OSP_Spec osp)) T.

(** A config that is there was generated from one of [profiles]. *)
Definition sound (profiles : list OperatingSystemProfile) (s : S) : Prop :=
  match stored_osc r md s with
  | None => True
  | Some osc => exists osp, osp ∈ profiles /\ partly_from s osc osp
  end.

(** Config and secrets as they were. *)
Definition untouched (s s' : S) : Prop :=
  stored_osc r md s' = stored_osc r md s /\
  forall T, T ∈ cloud_config_types ->
    stored_secret s' (cloud_config_name md T) = stored_secret s (cloud_config_name md T).

Definition elsewhere (w : write) : Prop :=
  ~ touches (R := Credentials) (S := S) (cluster_of ControlClient) KOperatingSystemConfig (osc_key r md) w /\
  forall T, T ∈ cloud_config_types ->
    ~ touches (R := Credentials) (S := S) (cluster_of WorkerClient) KSecret (settings_key (cloud_config_name md T)) w.

Lemma untouched_refl s : untouched s s.
Proof. by split. Qed.
Lemma untouched_trans s1 s2 s3 : untouched s1 s2 -> untouched s2 s3 -> untouched s1 s3.
Proof. intros [Ho Hs] [Ho' Hs']. split; [congruence|]. intros T HT. by rewrite Hs', Hs. Qed.

Lemma untouched_call X (e : ApiE Credentials X) s : only_writes elsewhere X e -> untouched s (handle _ e s).2.
Proof.
  intros He. unfold only_writes in He. split.
  - apply (handle_frame X e s _ KOperatingSystemConfig). intros w Hw. rewrite Hw in He. exact (proj1 He).
  - intros T HT. apply (handle_frame X e s _ KSecret). intros w Hw. rewrite Hw in He. by apply (proj2 He).
Qed.

Lemma untouched_Get s c k n got s' : handle _ (Get c k n) s = (got, s') -> untouched s s'.
Proof. intros Hg. pose proof (untouched_call _ (Get c k n) s I) as Hu. by rewrite Hg in Hu. Qed.

Lemma always_untouched {A} (m : prog (ApiE Credentials) A) s :
  valid s -> calls_when honest (only_writes elsewhere) m -> always handle (untouched s) m s.
Proof.
  intros Hv Hm. eapply always_mono; [|apply (always_calls_when handle (fun s' => valid s' /\ untouched s s')
    honest (only_writes elsewhere) m s); [..|exact Hm|exact (conj Hv (untouched_refl s))]]; cbn.
  - by intros s' [_ ?].
  - intros X e s' [Hv' _]. by apply valid_answer.
  - intros X e s' He [Hv' Hu]. split; [by apply valid_step|]. eapply untouched_trans; [exact Hu|by apply untouched_call].
Qed.

Lemma reads_elsewhere {A} (m : prog (ApiE Credentials) A) :
  all_calls (only_writes (fun _ => False)) m -> calls_when honest (only_writes elsewhere) m.
Proof. apply all_calls_when. intros X e. by apply only_writes_mono. Qed.

Lemma secret_from_same s s' generated v T :
  stored_secret s' (cloud_config_name md T) = stored_secret s (cloud_config_name md T) ->
  secret_from s generated v T -> secret_from s' generated v T.
Proof.
  intros Hs [Hn|(osc & He & data & h & Hg & Hh & Hst)]; [left; congruence|right].
  exists osc. split; [done|]. exists data, h. split_and!; [done..|congruence].
Qed.

Lemma untouched_partly s s' osc osp : untouched s s' -> partly_from s osc osp -> partly_from s' osc osp.
Proof.
  intros Hu (g & ? & ? & ? & Hs). exists g. split_and!; [done..|]. intros T HT.
  apply (secret_from_same s); [by apply (proj2 Hu)|by apply Hs].
Qed.

Lemma untouched_sound profiles s s' : untouched s s' -> sound profiles s -> sound profiles s'.
Proof.
  intros Hu. unfold sound. rewrite (proj1 Hu). destruct (stored_osc r md s); [|done].
  intros (osp & ? & ?). exists osp. split; [done|]. by apply (untouched_partly s).
Qed.

Lemma untouched_nothing s s' : untouched s s' -> nothing_generated r md s -> nothing_generated r md s'.
Proof. intros [Ho Hs]. by apply nothing_generated_eq. Qed.

Lemma nothing_sound profiles s : nothing_generated r md s -> sound profiles s.
Proof. intros [Ho _]. unfold sound. by rewrite Ho. Qed.

Lemma up_to_date_annotations osp osc osc' :
  rotation_annotations osc = rotation_annotations osc' -> up_to_date md osp osc -> up_to_date md osp osc'.
Proof.
  intros [= Hr Hv Hh] (h & ? & ? & ? & ?). exists h. split_and!; congruence.
Qed.

(** A config whose annotations pass the rotation has the version of its profile. *)
Lemma partly_version s osc osp cur :
  partly_from s osc osp -> up_to_date md cur osc -> OSP_Version (OSP_Spec osp) = OSP_Version (OSP_Spec cur).
Proof.
  intros (g & (? & ? & ? & ? & gen & h & _ & Hh & ->) & Ha & _) Hup.
  apply (up_to_date_annotations cur osc _ Ha), up_to_date_annotated in Hup as (_ & ? & _); done.
Qed.

(** A part of a program that does not touch config and secrets. *)
Lemma always_part {A B} (P : S -> Prop) (m : io (ApiE Credentials) A) (f : A -> io (ApiE Credentials) B) s :
  valid s -> calls_when honest (only_writes elsewhere) m -> (forall s', untouched s s' -> P s') ->
  (forall a s', interp handle m s = (Ok a, s') -> valid s' -> untouched s s' -> always handle P (f a) s') ->
  always handle P (bindIO m f) s.
Proof.
  intros Hv Hm HP Hf. pose proof (always_untouched m s Hv Hm) as Hu. apply always_bindIO.
  - eapply always_mono; [exact HP|exact Hu].
  - intros a s' Hi _. apply Hf; [done|by eapply interp_valid|exact (always_end handle _ m s _ s' Hu Hi)].
Qed.

(** *** The rotation *)

Lemma deletion_sound profiles s a s' :
  (forall osc, stored_osc r md s = Some osc -> Finalizers (OSC_Meta osc) = []) ->
  handle _ (Delete ControlClient KOperatingSystemConfig (osc_key r md)) s = (a, s') ->
  sound profiles s -> sound profiles s'.
Proof.
  intros Hfin Hd Hs. destruct (Delete_atomic s ControlClient KOperatingSystemConfig _ a s' Hd Hfin) as [Ho|Ho].
  - apply (untouched_sound profiles s); [|done]. split; [exact Ho|]. intros T _.
    apply (handle_stored _ _ s a s' _ KSecret _ Hd). by intros w [= <-] (_ & ? & _).
  - unfold sound. assert (stored_osc r md s' = None) as -> by exact Ho. done.
Qed.

Lemma rotation_sound cur profiles s :
  valid s -> deletable r md s -> sound profiles s ->
  always handle (sound profiles) (handleOSCAndSecretsRotation r md cur) s.
Proof.
  intros Hv [Hfin _] Hs. unfold handleOSCAndSecretsRotation. apply always_bind_trigger; [done|].
  destruct (handle _ _ s) as [got s1] eqn:Hget. cbn [fst snd].
  pose proof (untouched_Get s ControlClient KOperatingSystemConfig (osc_key r md) got s1 Hget) as Hu. pose proof (untouched_sound profiles s s1 Hu Hs) as Hs1.
  destruct got as [osc|e|w]; [|destruct (IsNotFound e); by apply always_Ret|by apply always_Ret].
  destruct (honest_answer _ (Get ControlClient KOperatingSystemConfig (osc_key r md)) s _ s1 Hv Hget) as [Hkey _]. cbn [honest on_ok meta_of] in Hkey.
  unfold pureIO, calculateAnnotationsHash. cbn [bindIO bind]. destruct (rotation_not_required _ _ _ _); [by apply always_Ret|].
  assert (forall osc, stored_osc r md s1 = Some osc -> Finalizers (OSC_Meta osc) = []) as Hfin1
    by (rewrite (proj1 Hu); exact Hfin).
  rewrite Hkey. apply always_bindIO.
  - apply always_wrapIO, always_trigger; [done|]. destruct (handle _ (Delete _ _ _) s1) as [a s2] eqn:Hd.
    by apply (deletion_sound profiles s1 a).
  - intros [] s2 Hd _. apply interp_wrapIO_Ok in Hd. rewrite interp_trigger in Hd.
    apply (always_mono handle (fun s' => stored_osc r md s' = None)); [by intros s' Hn; unfold sound; rewrite Hn|].
    apply (always_calls handle _ (only_writes writes_secrets)).
    + intros X e s3 He Hn. rewrite <- Hn. apply (handle_frame X e s3 _ KOperatingSystemConfig).
      intros w Hw (_ & Hk & _). unfold only_writes in He. rewrite Hw in He. unfold writes_secrets in He. congruence.
    + apply deleteGeneratedSecrets_secrets.
    + apply (Delete_ok s1 ControlClient KOperatingSystemConfig _ s2 Hd). exact Hfin1.
Qed.

(** A rotation that succeeds leaves nothing, or found a config that is current. *)
Lemma rotation_result cur s s' :
  valid s -> deletable r md s -> ~ half_rotated s ->
  interp handle (handleOSCAndSecretsRotation r md cur) s = (Ok tt, s') ->
  nothing_generated r md s' \/
  untouched s s' /\ exists osc, stored_osc r md s' = Some osc /\ up_to_date md cur osc.
Proof.
  intros Hv Hdel Hhalf Hi. destruct (stored_osc r md s) as [osc|] eqn:Hosc.
  - destruct (rotation_not_required md cur osc (hex_EncodeToString (Sum256 (json_map (MD_Annotations md))))) eqn:Hrot.
    + right. unfold handleOSCAndSecretsRotation in Hi. rewrite interp_bind_trigger in Hi.
      destruct (handle _ _ s) as [got s1] eqn:Hget. cbn [fst snd] in Hi.
      pose proof (Get_found s ControlClient KOperatingSystemConfig (osc_key r md) osc got s1 Hosc Hget) as ->.
      unfold pureIO, calculateAnnotationsHash in Hi. cbn [bindIO bind] in Hi. rewrite Hrot in Hi. injection Hi as <-.
      pose proof (untouched_Get s ControlClient KOperatingSystemConfig (osc_key r md) _ s1 Hget) as Hu. split; [done|]. exists osc. rewrite (proj1 Hu).
      split; [done|]. by apply rotation_not_required_spec in Hrot.
    + left. apply (rotation_clears r md cur s s'); [done..| |done|done]. unfold to_generate. rewrite Hosc. intros Hup.
      by rewrite (proj2 (rotation_not_required_spec _ _ _ _ eq_refl) Hup) in Hrot.
  - left. apply (rotation_clears r md cur s s'); [done..| |done|done]. unfold to_generate. rewrite Hosc. intros T HT.
    destruct (stored_secret s (cloud_config_name md T)) eqn:Hsec; [|done]. destruct Hhalf. split; [done|].
    exists T. split; [done|]. by rewrite Hsec.
Qed.

(** *** The config *)

(** Before and after the config is created: no secret is there. *)
Definition starting (cur : OperatingSystemProfile) (s : S) : Prop :=
  nothing_generated r md s \/
  (exists osc, stored_osc r md s = Some osc /\ made_from r md cur osc) /\
  forall T, T ∈ cloud_config_types -> stored_secret s (cloud_config_name md T) = None.

Lemma starting_sound cur past s : starting cur s -> sound (cur :: past) s.
Proof.
  intros [Hn|[(osc & Hosc & Hmade) Hs]]; [by apply nothing_sound|]. unfold sound. rewrite Hosc. exists cur.
  split; [by left|]. exists osc. split_and!; [done..|apply deep_equal_refl|]. intros T HT. left. by apply Hs.
Qed.

Lemma bootstrap_untouched :
  calls_when honest (only_writes elsewhere)
    (CreateBootstrapKubeconfig (R := Credentials) (bootstrap r) (machineDeploymentKey md)).
Proof.
  eapply calls_when_weaken; [..|apply CreateBootstrapKubeconfig_writes]; [by intros|].
  intros X e. apply only_writes_mono. intros w Hw. split.
  - intros (_ & Hk & _). apply bootstrap_write_kind in Hw. congruence.
  - intros T HT. by apply (bootstrap_write_elsewhere r).
Qed.

Lemma script_untouched {A} (m : prog (ApiE Credentials) A) :
  all_calls (only_writes (fun w => write_ref w = script_ref md)) m -> calls_when honest (only_writes elsewhere) m.
Proof.
  apply all_calls_when. intros X e. apply only_writes_mono. intros w Hw. unfold elsewhere, touches. rewrite Hw. split.
  - by intros (_ & ? & _).
  - intros T HT (_ & _ & Hk). by apply (script_separate md Hsep T HT).
Qed.

Lemma creation_starting cur osc s (a : result unit) s' :
  made_from r md cur osc -> key_of (OSC_Meta osc) = osc_key r md -> nothing_generated r md s ->
  handle _ (Create ControlClient KOperatingSystemConfig osc) s = (a, s') -> starting cur s'.
Proof.
  intros Hmade Hkey [Ho Hn] Hc.
  assert (forall T, T ∈ cloud_config_types ->
    stored_secret s' (cloud_config_name md T) = stored_secret s (cloud_config_name md T)) as Hs.
  { intros T _. apply (handle_stored _ _ s a s' _ KSecret _ Hc). by intros w [= <-] (_ & ? & _). }
  pose proof (Create_atomic s ControlClient KOperatingSystemConfig osc a s' ltac:(done) Hc) as Ha.
  cbn [meta_of] in Ha. rewrite Hkey in Ha. destruct Ha as [Ha|[_ Ha]]; [left|right].
  - split; [by rewrite <- Ho|]. intros T HT. by rewrite Hs, Hn.
  - split; [by exists osc|]. intros T HT. by rewrite Hs, Hn.
Qed.

Lemma starting_part cur {A B} (m : io (ApiE Credentials) A) (f : A -> io (ApiE Credentials) B) s :
  valid s -> nothing_generated r md s -> calls_when honest (only_writes elsewhere) m ->
  (forall a s', interp handle m s = (Ok a, s') -> valid s' -> nothing_generated r md s' ->
     always handle (starting cur) (f a) s') ->
  always handle (starting cur) (bindIO m f) s.
Proof.
  intros Hv Hn Hm Hf. apply always_part; [done..| |].
  - intros s' Hu. left. by apply (untouched_nothing s).
  - intros a s' Hi Hv' Hu. apply Hf; [done..|]. by apply (untouched_nothing s).
Qed.

Lemma create_osc_starting cur kc kcName s :
  valid s -> nothing_generated r md s -> always handle (starting cur) (create_osc r md cur kc kcName) s.
Proof.
  intros Hv Hn. unfold create_osc.
  apply starting_part; [done..|apply reads_elsewhere; repeat calls_step; exact I|]. intros provisioner s1 _ Hv1 Hn1.
  destruct (_ && _); [apply always_Ret; by left|].
  apply starting_part; [done..|apply reads_elsewhere; unfold GetContainerdAuthConfig; repeat calls_step; exact I|].
  intros [] s2 _ Hv2 Hn2.
  apply starting_part; [done..|apply reads_elsewhere; unfold ExtractAPIServerToken; repeat calls_step; exact I|].
  intros token s3 _ Hv3 Hn3. apply always_bind_trigger; [by left|].
  destruct (handle _ LoadField s3) as [creds s4] eqn:Hl. cbn [fst snd].
  pose proof (untouched_call _ LoadField s3 I) as Hu4. destruct (honest_answer _ LoadField s3 creds s4 Hv3 Hl) as [_ Hv4].
  rewrite Hl in Hu4. pose proof (untouched_nothing s3 s4 Hu4 Hn3) as Hn4.
  apply starting_part; [done..|apply reads_elsewhere; repeat calls_step; exact I|]. intros osc s5 Hgen Hv5 Hn5.
  apply interp_wrapIO_Ok in Hgen. cbn [pureIO interp] in Hgen. injection Hgen as Hgen _.
  apply starting_part; [done..|apply script_untouched; unfold generateEdgeScript; repeat calls_step; exact I || reflexivity|].
  intros [] s6 _ Hv6 Hn6. unfold pureIO, calculateAnnotationsHash. cbn [bindIO bind].
  apply always_wrapIO, always_trigger; [by left|].
  destruct (handle _ (Create _ _ _) s6) as [a s7] eqn:Hc. cbn [snd]. eapply (creation_starting cur); [..|exact Hn6|exact Hc].
  - eexists kc, kcName, token, _, osc, _. split; [exact Hgen|]. by split.
  - exact (f_equal key_of (GenerateOperatingSystemConfig_meta _ _ _ _ _ _ _ _ _ Hgen)).
Qed.

(** Nothing is generated, or the config is current. *)
Definition rotated (cur : OperatingSystemProfile) (s : S) : Prop :=
  nothing_generated r md s \/ exists osc, stored_osc r md s = Some osc /\ up_to_date md cur osc.

Lemma untouched_rotated cur s s' : untouched s s' -> rotated cur s -> rotated cur s'.
Proof. intros Hu [Hn|Ho]; [left; by apply (untouched_nothing s)|right]. by rewrite (proj1 Hu). Qed.

Lemma configs_sound cur past s :
  valid s -> rotated cur s -> sound (cur :: past) s ->
  always handle (sound (cur :: past)) (reconcileOperatingSystemConfigs r md cur) s.
Proof.
  intros Hv Hrot Hs. unfold reconcileOperatingSystemConfigs.
  apply always_part; [done|apply calls_when_wrapIO, bootstrap_untouched|intros s' Hu; by apply (untouched_sound _ s)|].
  intros [kc kcName] s1 _ Hv1 Hu1. pose proof (untouched_sound _ s s1 Hu1 Hs) as Hs1.
  pose proof (untouched_rotated cur s s1 Hu1 Hrot) as Hrot1. apply always_bind_trigger; [done|].
  destruct (handle _ _ s1) as [got s2] eqn:Hget. cbn [fst snd].
  pose proof (untouched_Get s1 ControlClient KOperatingSystemConfig (osc_key r md) got s2 Hget) as Hu2.
  pose proof (untouched_sound _ s1 s2 Hu2 Hs1) as Hs2. destruct got as [osc|e|w]; [by apply always_Ret| |by apply always_Ret].
  destruct (honest_answer _ (Get ControlClient KOperatingSystemConfig (osc_key r md)) s1 _ s2 Hv1 Hget) as [_ Hv2].
  destruct Hrot1 as [Hn1|(osc & Hosc & _)].
  - apply (always_mono handle (starting cur)); [apply starting_sound|].
    apply create_osc_starting; [done|]. by apply (untouched_nothing s1).
  - by pose proof (Get_found s1 ControlClient KOperatingSystemConfig (osc_key r md) osc _ s2 Hosc Hget).
Qed.

(** *** The secrets *)

Lemma ensure_partly osc osp T s :
  T ∈ cloud_config_types -> stored_osc r md s = Some osc -> partly_from s osc osp ->
  let spec := OSC_Spec osc in
  always handle (fun s' => stored_osc r md s' = Some osc /\ partly_from s' osc osp)
    (ensureCloudConfigSecret (cloud_config T osc) (OSC_ProvisioningUtility spec) T (OSC_OSName spec)
       (CloudProviderSpec_Name (OSC_CloudProvider spec)) md (OSP_Version (OSP_Spec osp))) s.
Proof.
  intros HT Hosc Hp. cbv zeta. unfold ensureCloudConfigSecret. apply always_bind_trigger; [done|].
  destruct (handle _ _ s) as [got s1] eqn:Hget. cbn [fst snd].
  pose proof (untouched_Get s WorkerClient KSecret (settings_key (cloud_config_name md T)) got s1 Hget) as Hu.
  assert (stored_osc r md s1 = Some osc /\ partly_from s1 osc osp) as Hs1
    by (rewrite (proj1 Hu); split; [done|by apply (untouched_partly s)]).
  destruct got as [secret|e|w]; [by apply always_Ret| |by apply always_Ret].
  destruct (Generate _ _ _ _ _ _) as [data|e'|w'] eqn:Hdata; cbn [pureIO wrapIO bindIO bind]; [|by apply always_Ret..].
  unfold calculateAnnotationsHash. cbn [bindIO bind]. apply always_wrapIO, always_trigger; [done|].
  destruct (handle _ (Create _ _ _) s1) as [a s2] eqn:Hc. cbn [snd]. destruct Hs1 as [Hosc1 (g & Hmade & Hann & Heq & Hsec)].
  split.
  { rewrite <- Hosc1. apply (handle_stored _ _ s1 a s2 _ KOperatingSystemConfig _ Hc). by intros w [= <-] (_ & ? & _). }
  exists g. split_and!; [done..|]. intros T' HT'. destruct (decide (T' = T)) as [->|Hne].
  - destruct (Create_atomic s1 WorkerClient KSecret _ a s2 ltac:(done) Hc) as [Hst|[_ Hst]].
    + apply (secret_from_same s1); [exact Hst|by apply Hsec].
    + right. exists osc. split; [done|]. eexists data, _. split_and!; [done..|exact Hst].
  - apply (secret_from_same s1); [|by apply Hsec].
    apply (handle_stored _ _ s1 a s2 _ KSecret _ Hc). intros w [= <-] (_ & _ & Hk). cbn in Hk. injection Hk as Hk.
    pose proof (types_separate md Hsep). unfold cloud_config_types in *. set_solver.
Qed.

Lemma secrets_sound cur profiles s :
  rotated cur s -> sound profiles s -> always handle (sound profiles) (reconcileSecrets r md cur) s.
Proof.
  intros Hrot Hs. unfold reconcileSecrets.
  apply always_bindIO.
  { apply always_wrapIO, always_trigger; [done|]. apply (untouched_sound profiles s); [by apply untouched_call|done]. }
  intros osc s1 Hget _. apply interp_wrapIO_Ok in Hget. rewrite interp_trigger in Hget.
  pose proof (untouched_Get s ControlClient KOperatingSystemConfig (osc_key r md) _ s1 Hget) as Hu.
  pose proof (Get_ok s ControlClient KOperatingSystemConfig (osc_key r md) osc s1 Hget) as Hosc.
  change (stored_osc r md s = Some osc) in Hosc. unfold sound in Hs. rewrite Hosc in Hs. destruct Hs as (osp & Hin & Hp).
  assert (OSP_Version (OSP_Spec cur) = OSP_Version (OSP_Spec osp)) as ->.
  { destruct Hrot as [[Hn _]|(o & Ho & Hup)]; [congruence|]. rewrite Hosc in Ho. injection Ho as <-. symmetry.
    by apply (partly_version s osc). }
  assert (stored_osc r md s1 = Some osc /\ partly_from s1 osc osp) as [Hosc1 Hp1]
    by (rewrite (proj1 Hu); split; [done|by apply (untouched_partly s)]).
  apply (always_mono handle (fun s' => stored_osc r md s' = Some osc /\ partly_from s' osc osp)).
  { intros s' [Ho Hp']. unfold sound. rewrite Ho. by exists osp. }
  assert (forall T s', T ∈ cloud_config_types -> stored_osc r md s' = Some osc /\ partly_from s' osc osp ->
    always handle _ _ s') as He by (intros T s' HT [Ho Hp']; exact (ensure_partly osc osp T s' HT Ho Hp')).
  pose proof (He ProvisioningCloudConfig s1 ltac:(by left) (conj Hosc1 Hp1)) as Hprov. rewrite cloud_config_provisioning in Hprov.
  apply always_bindIO; [by apply always_wrapIO|]. intros [] s2 _ Hs2.
  pose proof (He BootstrapCloudConfig s2 ltac:(by right; left) Hs2) as Hboot. rewrite cloud_config_bootstrap in Hboot.
  apply always_bindIO; [by apply always_wrapIO|]. intros [] s3 _ ?. by apply always_Ret.
Qed.

(** A reconciliation that does not start half rotated keeps what is there sound,
    whichever of its calls fails and wherever it is cut off. *)
Lemma reconcile_sound cur past s :
  valid s -> stored s (cluster_of ControlClient) KOperatingSystemProfile (profile_key r md) = Some cur ->
  deletable r md s -> ~ half_rotated s -> sound (cur :: past) s ->
  always handle (sound (cur :: past)) (reconcile r md) s.
Proof.
  intros Hv Hcur Hdel Hhalf Hs. unfold reconcile.
  apply always_part; [done|apply calls_when_wrapIO, reads_elsewhere, fetch_reads|intros s' Hu; by apply (untouched_sound _ s)|].
  intros osp s1 Hf Hv1 Hu1. apply interp_wrapIO_Ok, fetchOSP_post in Hf as [Hosp _]. rewrite Hcur in Hosp. injection Hosp as <-.
  pose proof (untouched_sound _ s s1 Hu1 Hs) as Hs1.
  apply always_part; [done|apply calls_when_wrapIO, reads_elsewhere, check_reads|intros s' Hu; by apply (untouched_sound _ s1)|].
  intros [] s2 _ Hv2 Hu2. pose proof (untouched_trans s s1 s2 Hu1 Hu2) as Hu. pose proof (untouched_sound _ s s2 Hu Hs) as Hs2.
  assert (deletable r md s2 /\ ~ half_rotated s2) as [Hdel2 Hhalf2].
  { destruct Hu as [Ho Hn]. split.
    - destruct Hdel as [Hfo Hfs]. split; [by rewrite Ho|]. intros T secret HT. rewrite Hn by done. by apply Hfs.
    - intros [Ho2 (T & HT & Hsec)]. apply Hhalf. split; [congruence|]. exists T. by rewrite <- Hn. }
  apply always_bindIO; [apply always_wrapIO; by apply rotation_sound|]. intros [] s3 Hrot Hs3. apply interp_wrapIO_Ok in Hrot.
  pose proof (interp_valid _ s2 _ s3 Hv2 Hrot) as Hv3.
  assert (rotated cur s3) as Hr3 by (destruct (rotation_result cur s2 s3 Hv2 Hdel2 Hhalf2 Hrot) as [?|[_ ?]]; [by left|by right]).
  apply always_bindIO; [apply always_wrapIO; by apply configs_sound|]. intros [] s4 Hosc Hs4. apply interp_wrapIO_Ok in Hosc.
  assert (rotated cur s4) as Hr4.
  { right. destruct Hr3 as [Hn3|(osc & Ho & Hup)].
    - destruct (reconcileOperatingSystemConfigs_generates r md cur s3 s4 Hsep Hv3 Hn3 Hosc) as [(osc & Ho & Hm) _].
      exists osc. split; [done|]. by apply (made_from_up_to_date r).
    - apply (reconcileOperatingSystemConfigs_post r md cur s3 s4 Hkeys); [|done]. intros o. congruence. }
  apply always_bindIO; [apply always_wrapIO; by apply secrets_sound|]. intros [] s5 _ Hs5. by apply always_Ret.
Qed.

(** One that succeeds leaves both secrets. *)
Lemma reconcile_complete cur past s s' :
  valid s -> stored s (cluster_of ControlClient) KOperatingSystemProfile (profile_key r md) = Some cur ->
  deletable r md s -> ~ half_rotated s -> sound (cur :: past) s ->
  interp handle (reconcile r md) s = (Ok tt, s') ->
  exists osc osp, stored_osc r md s' = Some osc /\ osp ∈ cur :: past /\
    OSP_Version (OSP_Spec osp) = OSP_Version (OSP_Spec cur) /\ up_to_date md cur osc /\ comes_from s' osc osp.
Proof.
  intros Hv Hcur Hdel Hhalf Hs Hi.
  pose proof (always_end handle _ _ s _ s' (reconcile_sound cur past s Hv Hcur Hdel Hhalf Hs) Hi) as Hs'.
  destruct (reconcile_post r md s s' Hkeys) as (osp' & Hosp' & (osc & Hosc & Hup) & [sp Hsp] & [sb Hsb]); [|done|].
  { intros o Ho. split; [exact (valid_stored _ KOperatingSystemConfig _ o s Hv Ho)|by apply (proj1 Hdel)]. }
  rewrite Hcur in Hosp'. injection Hosp' as <-. unfold sound in Hs'. rewrite Hosc in Hs'. destruct Hs' as (osp & Hin & Hp).
  exists osc, osp. split_and!; [done..|by apply (partly_version s' osc)|done|]. destruct Hp as (g & Hm & Ha & He & Hsec).
  exists g. split_and!; [done..|]. intros T HT. destruct (Hsec T HT) as [Hn|?]; [|done].
  apply list_elem_of_In in HT as [<-|[<-|[]]]; congruence.
Qed.
End Interrupted.

(** ** The life of a config *)

Section Freshness.
Context `{WebhookLaws} {S : Type} `{ApiServerLaws Credentials S, !NamedServer Credentials S, !ContentLaws Credentials S}.
Context `{!AtomicWrites Credentials S}.
Variable r : Reconciler.
Variable md : MachineDeployment.
Hypothesis Hkeys : rotation_keys.
Hypothesis Hsep : separate_names md.

Implicit Types s : behind S.

Definition profile_at (s : behind S) : option OperatingSystemProfile :=
  stored s (cluster_of ControlClient) KOperatingSystemProfile (profile_key r md).

(** A call of somebody else neither creates the config or its secrets, nor
    changes the secrets, nor forges the annotations of the config.  It may edit
    the profile and the config as far as the webhooks let it, and delete the
    config and the secrets. *)
Record foreign_call (s s' : behind S) : Prop := {
  secrets_alone T : T ∈ cloud_config_types ->
    stored_secret s' (cloud_config_name md T) = None \/
    stored_secret s' (cloud_config_name md T) = stored_secret s (cloud_config_name md T);
  config_kept osc' : stored_osc r md s' = Some osc' ->
    exists osc, stored_osc r md s = Some osc /\ rotation_annotations osc' = rotation_annotations osc
}.

(** A version that was given up does not come back. *)
Definition version_discipline (past : list OperatingSystemProfile) (old new : OperatingSystemProfile) : Prop :=
  OSP_Version (OSP_Spec new) = OSP_Version (OSP_Spec old) \/
  Forall (fun o => OSP_Version (OSP_Spec o) <> OSP_Version (OSP_Spec new)) (old :: past).

(** The states of a machine deployment, with the profiles that there were, the
    current one first.  It begins with nothing generated, or with a
    reconciliation that succeeds in replacing what there is.  From then on others
    make calls, and reconciliations run until they return, with success or an
    error, or are cut off after any of their calls; none starts half rotated. *)
Inductive life : list OperatingSystemProfile -> behind S -> Prop :=
| life_begin osp s : valid s -> profile_at s = Some osp -> nothing_generated r md s -> life [osp] s
| life_generated osp s s' :
    valid s -> deletable r md s -> profile_at s = Some osp -> to_generate r md osp s ->
    interp handle (reconcile r md) s = (Ok tt, s') -> life [osp] s'
| life_call past old new X (e : ApiE Credentials X) x s s' :
    life (old :: past) s -> handle _ e s = (x, s') -> foreign_call s s' ->
    profile_at s' = Some new -> version_discipline past old new -> life (new :: old :: past) s'
| life_reconciled past n s :
    life past s -> deletable r md s -> ~ half_rotated r md s -> life past (stopped handle n (reconcile r md) s).

(** What is always so. *)
Definition tracked (profiles : list OperatingSystemProfile) (s : behind S) : Prop :=
  exists cur past, profiles = cur :: past /\ valid s /\ profile_at s = Some cur /\
    Forall (fun o => OSP_Version (OSP_Spec o) = OSP_Version (OSP_Spec cur) ->
              deep_equal (OSP_Spec o) (OSP_Spec cur) = true) profiles /\
    sound r md profiles s.

Lemma same_osp_equal (old new : OperatingSystemProfile) :
  same_content (k := KOperatingSystemProfile) old new -> deep_equal (OSP_Spec old) (OSP_Spec new) = true.
Proof. intros ->%same_content_osp. apply deep_equal_refl. Qed.

(** The webhooks at work: a profile that was edited has another version, a
    config keeps its specification. *)
Lemma profile_edit X (e : ApiE Credentials X) s s' x old new :
  handle _ e s = (x, s') -> profile_at s = Some old -> profile_at s' = Some new ->
  deep_equal (OSP_Spec old) (OSP_Spec new) = true \/ OSP_Version (OSP_Spec new) <> OSP_Version (OSP_Spec old).
Proof.
  intros Hh Hold Hnew.
  destruct (gated_content X e s s' x _ KOperatingSystemProfile _ old new ltac:(done) Hh Hold Hnew) as [Hs|(o & Ho & Ha)].
  - left. by apply same_osp_equal.
  - apply admit_osp_update in Ha as [_ Hv]. by rewrite (same_content_osp o new Ho) in Hv.
Qed.

Lemma config_edit X (e : ApiE Credentials X) s s' x old new :
  handle _ e s = (x, s') -> stored_osc r md s = Some old -> stored_osc r md s' = Some new ->
  deep_equal (OSC_Spec old) (OSC_Spec new) = true.
Proof.
  intros Hh Hold Hnew.
  destruct (gated_content X e s s' x _ KOperatingSystemConfig _ old new ltac:(done) Hh Hold Hnew) as [Hs|(o & Ho & Ha)].
  - rewrite (same_content_osc old new Hs). apply deep_equal_refl.
  - apply admit_osc_update in Ha. by rewrite (same_content_osc o new Ho) in Ha.
Qed.

Lemma tracked_first osp s : valid s -> profile_at s = Some osp -> sound r md [osp] s -> tracked [osp] s.
Proof.
  intros Hv Hosp Hs. exists osp, []. split_and!; [done..| |done]. apply Forall_singleton. intros _. apply deep_equal_refl.
Qed.

Lemma tracked_call past old new X (e : ApiE Credentials X) x s s' :
  tracked (old :: past) s -> handle _ e s = (x, s') -> foreign_call s s' ->
  profile_at s' = Some new -> version_discipline past old new -> tracked (new :: old :: past) s'.
Proof.
  intros (? & ? & [= <- <-] & Hv & Hcur & Heq & Hs) Hh Hf Hnew Hver.
  exists new, (old :: past). split_and!; [done|by destruct (honest_answer X e s x s' Hv Hh)|done|..].
  - apply Forall_cons. split; [intros _; apply deep_equal_refl|]. destruct Hver as [Hver|Hver].
    + destruct (profile_edit X e s s' x old new Hh Hcur Hnew) as [Hd|Hne]; [|done].
      eapply Forall_impl; [exact Heq|]. cbn. intros o Ho Hvo. eapply deep_equal_trans; [|exact Hd]. apply Ho. congruence.
    + eapply Forall_impl; [exact Hver|]. by intros o Ho ?.
  - unfold sound. destruct (stored_osc r md s') as [osc'|] eqn:Hosc'; [|done].
    destruct (config_kept _ _ Hf osc' Hosc') as (osc & Hosc & Hann').
    unfold sound in Hs. rewrite Hosc in Hs. destruct Hs as (osp & Hin & g & Hmade & Hann & Hspec & Hsec).
    exists osp. split; [by right|]. exists g. split_and!; [done|congruence|..].
    + eapply deep_equal_trans; [exact Hspec|]. by apply (config_edit X e s s' x osc osc').
    + intros T HT. destruct (secrets_alone _ _ Hf T HT) as [Hn|Hsame]; [by left|].
      apply (secret_from_same md s); [exact Hsame|by apply Hsec].
Qed.

Lemma tracked_stopped profiles n s :
  tracked profiles s -> deletable r md s -> ~ half_rotated r md s ->
  tracked profiles (stopped handle n (reconcile r md) s).
Proof.
  intros (cur & past & -> & Hv & Hcur & Heq & Hs) Hdel Hhalf.
  assert (valid (stopped handle n (reconcile r md) s) /\ profile_at (stopped handle n (reconcile r md) s) = Some cur) as [? ?].
  { apply (always_calls handle (fun s' => valid s' /\ profile_at s' = Some cur)
      (only_writes (fun w => ref_kind (write_ref w) <> KOperatingSystemProfile))); [|apply reconcile_no_profile|done].
    intros X e s' He [Hv' <-]. split; [by apply valid_step|]. apply (handle_frame X e s' _ KOperatingSystemProfile).
    intros w Hw (_ & Hk & _). unfold only_writes in He. by rewrite Hw in He. }
  exists cur, past. split_and!; [done..|]. by apply reconcile_sound.
Qed.

Lemma life_tracked profiles s : life profiles s -> tracked profiles s.
Proof.
  intros Hlife. induction Hlife as [osp s Hv Hosp Hn|osp s s' Hv Hdel Hosp Hgen Hi|past old new X e x s s' _ IH Hh Hf Hnew Hver
    |past n s _ IH Hdel Hhalf].
  - by apply tracked_first, nothing_sound.
  - destruct (reconcile_regenerates r md osp s s' Hsep Hv Hdel Hosp Hgen Hi) as (osc & Hosc & Hmade & Hserved).
    apply tracked_first; [by eapply interp_valid|..].
    + rewrite <- Hosp. pose proof (reconcile_keeps_profiles r md (cluster_of ControlClient) (profile_key r md) s) as Hk.
      by rewrite Hi in Hk.
    + unfold sound. rewrite Hosc. exists osp. split; [by left|]. exists osc. split_and!; [done..|apply deep_equal_refl|].
      intros T HT. right. exists osc. split; [apply deep_equal_refl|]. destruct Hserved as [Hp Hb].
      apply list_elem_of_In in HT as [<-|[<-|[]]];
        [rewrite cloud_config_provisioning|rewrite (cloud_config_bootstrap md Hsep)]; done.
  - by eapply tracked_call.
  - by apply tracked_stopped.
Qed.

Lemma life_profile cur past s : life (cur :: past) s -> profile_at s = Some cur.
Proof. intros Hl. by destruct (life_tracked _ s Hl) as (? & ? & [= <- <-] & _ & Hcur & _). Qed.

Lemma life_served profiles s s' :
  life profiles s -> deletable r md s -> ~ half_rotated r md s -> interp handle (reconcile r md) s = (Ok tt, s') ->
  exists osc osp cur, stored_osc r md s' = Some osc /\ profile_at s' = Some cur /\ profile_at s = Some cur /\
    deep_equal (OSP_Spec osp) (OSP_Spec cur) = true /\ up_to_date md cur osc /\ comes_from r md s' osc osp.
Proof.
  intros Hlife Hdel Hhalf Hi. destruct (life_tracked profiles s Hlife) as (cur & past & -> & Hv & Hcur & Heq & Hs).
  destruct (reconcile_complete r md Hkeys Hsep cur past s s' Hv Hcur Hdel Hhalf Hs Hi)
    as (osc & osp & Hosc & Hin & Hver & Hup & Hfrom).
  exists osc, osp, cur. split_and!; [done| |done| |done..].
  - rewrite <- Hcur. pose proof (reconcile_keeps_profiles r md (cluster_of ControlClient) (profile_key r md) s) as Hk.
    by rewrite Hi in Hk.
  - rewrite Forall_forall in Heq. by apply Heq.
Qed.
End Freshness.

(** C3: no machine is provisioned from a profile that was edited.  Reconciliations of the machine deployment succeed, fail, or are cut off after any of their calls, and between them others edit the profile and the config as far as the webhooks let them and delete the config and its secrets; a version that was given up does not come back, and nobody else makes the config, its annotations or its secrets.  A reconciliation that then succeeds leaves a config that is current, whose specification is semantically the one generated from a profile whose specification is semantically that of the profile stored now, and two secrets that hold the user data of that specification.  It must not start half rotated, and none before it may have: the config gone and one of its secrets still there, as a rotation leaves them whose deletion of a secret failed; there the controller takes the old secret for a current one.  No finalizer may hold the config or a secret back *)
Theorem user_data_follows_profile `{WebhookLaws} {S : Type}
    `{ApiServerLaws Credentials S, !NamedServer Credentials S, !ContentLaws Credentials S, !AtomicWrites Credentials S}
    r md profiles (s s' : behind S) :
  rotation_keys -> separate_names md -> life r md profiles s -> deletable r md s -> ~ half_rotated r md s ->
  interp handle (reconcile r md) s = (Ok tt, s') ->
  exists osc osp cur, stored_osc r md s' = Some osc /\ profile_at r md s' = Some cur /\
    deep_equal (OSP_Spec osp) (OSP_Spec cur) = true /\ up_to_date md cur osc /\ comes_from r md s' osc osp.
Proof.
  intros Hkeys Hsep Hlife Hdel Hhalf Hi.
  destruct (life_served r md Hkeys Hsep profiles s s' Hlife Hdel Hhalf Hi) as (osc & osp & cur & ? & ? & _ & ?).
  by exists osc, osp, cur.
Qed.

Section Reuse.
Context `{Webhooks}.
Variable r : Reconciler.
Variable md : MachineDeployment.

(** C22: a version that comes back defeats the rotation: a profile may go to another version and from there, with any specification, back to the version it had; the webhook allows both edits, and the config that was generated from the first specification passes for one of the last: the rotation reads it and changes nothing *)
Theorem version_reuse_undetected osp other osp' osc :
  rotation_keys -> made_from r md osp osc -> units_supported other -> units_supported osp' ->
  OSP_Version (OSP_Spec other) <> OSP_Version (OSP_Spec osp) -> OSP_Version (OSP_Spec osp') = OSP_Version (OSP_Spec osp) ->
  osp_validation.validateUpdate other osp = Ok tt /\ osp_validation.validateUpdate osp' other = Ok tt /\
  run (handleOSCAndSecretsRotation r md osp')
    [Obs (Get ControlClient KOperatingSystemConfig (osc_key r md)) (Ok osc)] (Ok tt).
Proof.
  intros Hkeys (? & ? & ? & ? & gen & h & _ & Hh & ->) Hother Hosp' Hne Heq. split_and!.
  - apply osp_validateUpdate_spec. by split; [|right].
  - apply osp_validateUpdate_spec. split; [done|right]. congruence.
  - exists (Ok (annotated_osc md osp h gen)). split; [done|]. cbn [bind]. unfold pureIO, calculateAnnotationsHash in *.
    cbn [bindIO bind]. rewrite (proj2 (rotation_not_required_spec md osp' _ _ eq_refl)); [done|].
    by apply (up_to_date_annotated md osp h gen).
Qed.
End Reuse.

(** ** Evaluation on concrete inputs *)

Module Demo.
Import OSCController.Demo Gate.Demo.
Definition store0 : behind (MemStore.store Credentials) := Behind OSCController.Demo.store0.
(** A reconciliation, an edit of the profile by somebody else, and another. *)
Definition generated : behind (MemStore.store Credentials) := (interp handle (reconcile reconciler md) store0).2.
Definition edit : ApiE Credentials (result OperatingSystemProfile) :=
  Update ControlClient KOperatingSystemProfile osp2.
Definition edited : behind (MemStore.store Credentials) := (handle _ edit generated).2.
(** The next reconciliation stops after the first of the two new secrets. *)
Definition interrupted : behind (MemStore.store Credentials) := stopped handle 19 (reconcile reconciler md) edited.
Definition refreshed : behind (MemStore.store Credentials) := (interp handle (reconcile reconciler md) interrupted).2.
End Demo.
Import OSCController.Demo Gate.Demo Demo.

Lemma Demo_deletable (s : behind (MemStore.store Credentials)) :
  option_map (fun o => Finalizers (OSC_Meta o)) (stored_osc reconciler md s) ∈ [None; Some []] ->
  (forall T, T ∈ cloud_config_types ->
    option_map (fun o => Finalizers (Secret_Meta o)) (stored_secret s (cloud_config_name md T)) ∈ [None; Some []]) ->
  deletable reconciler md s.
Proof.
  intros Ho Hs. split.
  - intros osc Hosc. rewrite Hosc in Ho. cbn in Ho. set_solver.
  - intros T secret HT Hsec. specialize (Hs T HT). rewrite Hsec in Hs. cbn in Hs. set_solver.
Qed.

Lemma start_valid : valid Demo.store0.
Proof. exact store0_valid. Qed.

Lemma store0_deletable : deletable reconciler md Demo.store0.
Proof.
  apply Demo_deletable; [vm_compute; by left|]. intros T [<-|[<-|[]]]%list_elem_of_In; vm_compute; by left.
Qed.

Lemma store0_to_generate : to_generate reconciler md OSCController.Demo.osp Demo.store0.
Proof.
  unfold to_generate. assert (stored_osc reconciler md Demo.store0 = None) as -> by (vm_compute; reflexivity).
  intros T [<-|[<-|[]]]%list_elem_of_In; vm_compute; reflexivity.
Qed.

Lemma generated_ok : interp handle (reconcile reconciler md) Demo.store0 = (Ok tt, Demo.generated).
Proof. apply (interp_fst_Ok handle (reconcile reconciler md) Demo.store0 tt). vm_compute. reflexivity. Qed.
Lemma refreshed_ok : interp handle (reconcile reconciler md) Demo.interrupted = (Ok tt, Demo.refreshed).
Proof. apply (interp_fst_Ok handle (reconcile reconciler md) Demo.interrupted tt). vm_compute. reflexivity. Qed.

Lemma edit_keeps cl k n :
  k <> KOperatingSystemProfile -> stored Demo.edited cl k n = stored Demo.generated cl k n.
Proof. intros Hk. refine (handle_frame _ Demo.edit Demo.generated cl k n _). intros w [= <-] (_ & Hw & _). by apply Hk. Qed.

Lemma generated_life : life reconciler md [OSCController.Demo.osp] Demo.generated.
Proof.
  apply (life_generated reconciler md OSCController.Demo.osp Demo.store0).
  - exact start_valid.
  - exact store0_deletable.
  - vm_compute. reflexivity.
  - exact store0_to_generate.
  - exact generated_ok.
Qed.

Lemma Demo_life : life reconciler md [Gate.Demo.osp2; OSCController.Demo.osp] Demo.edited.
Proof.
  apply (life_call reconciler md [] OSCController.Demo.osp Gate.Demo.osp2 _ Demo.edit
    (handle _ Demo.edit Demo.generated).1 Demo.generated Demo.edited generated_life).
  - unfold Demo.edited. by destruct (handle _ Demo.edit Demo.generated).
  - split.
    + intros T _. right.
      exact (edit_keeps (cluster_of WorkerClient) KSecret (settings_key (cloud_config_name md T)) ltac:(done)).
    + intros osc Hosc. exists osc. split; [|done]. rewrite <- Hosc. symmetry.
      exact (edit_keeps (cluster_of ControlClient) KOperatingSystemConfig (osc_key reconciler md) ltac:(done)).
  - vm_compute. reflexivity.
  - right. apply Forall_singleton. discriminate.
Qed.

Lemma whole (s : behind (MemStore.store Credentials)) :
  is_Some (stored_osc reconciler md s) -> ~ half_rotated reconciler md s.
Proof. intros [osc Hosc] [Hn _]. congruence. Qed.

Lemma edited_deletable : deletable reconciler md Demo.edited.
Proof.
  apply Demo_deletable; [vm_compute; by right; left|]. intros T [<-|[<-|[]]]%list_elem_of_In; vm_compute; by right; left.
Qed.

Lemma interrupted_deletable : deletable reconciler md Demo.interrupted.
Proof.
  apply Demo_deletable; [vm_compute; by right; left|].
  intros T [<-|[<-|[]]]%list_elem_of_In; vm_compute; (by left) || (by right; left).
Qed.

Lemma user_data_follows_profile_witness :
  stored_secret Demo.interrupted (cloud_config_name OSCController.Demo.md BootstrapCloudConfig) = None /\
  profile_at OSCController.Demo.reconciler OSCController.Demo.md Demo.interrupted = Some Gate.Demo.osp2 /\
  exists osc osp cur, stored_osc OSCController.Demo.reconciler OSCController.Demo.md Demo.refreshed = Some osc /\
    deep_equal (OSP_Spec osp) (OSP_Spec cur) = true /\
    comes_from OSCController.Demo.reconciler OSCController.Demo.md Demo.refreshed osc osp.
Proof.
  split; [vm_compute; reflexivity|]. split; [vm_compute; reflexivity|].
  destruct (user_data_follows_profile OSCController.Demo.reconciler OSCController.Demo.md
    [Gate.Demo.osp2; OSCController.Demo.osp] Demo.interrupted Demo.refreshed Demo_keys Demo_separate)
    as (osc & osp & cur & Hosc & _ & Heq & _ & Hfrom).
  - apply (life_reconciled OSCController.Demo.reconciler OSCController.Demo.md _ 19 Demo.edited Demo_life).
    + exact edited_deletable.
    + apply whole. vm_compute. eexists. reflexivity.
  - exact interrupted_deletable.
  - apply whole. vm_compute. eexists. reflexivity.
  - exact refreshed_ok.
  - exists osc, osp, cur. split; [exact Hosc|]. split; [exact Heq|exact Hfrom].
Defined.

(** The gap: a reconciliation that is cut off between the deletion of the config
    and those of the secrets.  The next one succeeds, with a config of the new
    version and a secret of the old one. *)
Definition secret_version (s : behind (MemStore.store Credentials)) : string :=
  from_option (fun secret => map_get (Annotations (Secret_Meta secret)) OperatingSystemConfigVersionAnnotation) ""
    (stored_secret s (cloud_config_name md ProvisioningCloudConfig)).

Lemma half_rotated_keeps_secret :
  let s := stopped handle 3 (reconcile reconciler md) Demo.edited in
  half_rotated reconciler md s /\
  let '(a, s') := interp handle (reconcile reconciler md) s in
  a = Ok tt /\
  option_map (fun osc => map_get (Annotations (OSC_Meta osc)) OperatingSystemConfigVersionAnnotation)
    (stored_osc reconciler md s') = Some "v2.0.0" /\
  secret_version s' = "v1.0.0".
Proof.
  cbv zeta. split.
  - split; [vm_compute; reflexivity|]. exists ProvisioningCloudConfig. split; [by left|]. vm_compute. discriminate.
  - vm_compute. by split_and!.
Qed.

Lemma version_reuse_undetected_witness :
  exists osc, stored_osc OSCController.Demo.reconciler OSCController.Demo.md Demo.generated = Some osc /\
    run (handleOSCAndSecretsRotation OSCController.Demo.reconciler OSCController.Demo.md OSCController.Demo.osp)
      [Obs (Get ControlClient KOperatingSystemConfig (osc_key OSCController.Demo.reconciler OSCController.Demo.md)) (Ok osc)]
      (Ok tt).
Proof.
  destruct (reconcile_regenerates OSCController.Demo.reconciler OSCController.Demo.md OSCController.Demo.osp
    Demo.store0 Demo.generated Demo_separate start_valid) as (osc & Hosc & Hmade & _).
  - exact store0_deletable.
  - vm_compute. reflexivity.
  - exact store0_to_generate.
  - exact generated_ok.
  - exists osc. split; [exact Hosc|].
    apply (version_reuse_undetected OSCController.Demo.reconciler OSCController.Demo.md OSCController.Demo.osp
      Gate.Demo.osp2 OSCController.Demo.osp osc Demo_keys Hmade).
    + right. split; reflexivity.
    + right. split; reflexivity.
    + discriminate.
    + reflexivity.
Defined.
