(* ===== verification/Upgrade.v ===== *)
(** * From a new release to the user data of the machines

    A new release of the operating system manager embeds its default profiles
    with new versions.  The profile controller ([OSPController]) replaces the
    specification that is stored, through the profile webhook ([Gate]), and the
    config controller ([OSCController]) notices the version and generates the
    config and the secrets again ([Freshness]).  Here both controllers run on the
    same server, one after the other, after a history of [Freshness.life]: with
    its conditions on other clients and its gap. *)

From S2P Require Import Prelude GoStrings Types Effects Api ContainerRuntime Admission OSPController OSCController.
From S2P Require Import Interruption Convergence Gate Freshness.

(** ** Runs against a server, state by state *)

Section Follows.
Context {R S : Type} `{ApiServerLaws R S}.

Fixpoint follows (s : S) (t : list (obs (ApiE R))) (s' : S) : Prop :=
  match t with
  | [] => s' = s
  | Obs e x :: t => exists s1, handle _ e s = (x, s1) /\ follows s1 t s'
  end.

Lemma follows_trace {A} (m : prog (ApiE R) A) s : follows s (trace handle m s) (interp handle m s).2.
Proof.
  revert s. induction m as [a|X e k IH]; intros s; cbn; [done|].
  destruct (handle X e s) as [x s1] eqn:Hh. cbn. exists s1. by split.
Qed.

Lemma follows_app s t1 t2 s' : follows s (t1 ++ t2) s' <-> exists s1, follows s t1 s1 /\ follows s1 t2 s'.
Proof.
  revert s. induction t1 as [|[X e x] t1 IH]; intros s; cbn.
  - split; [intros Ht; by exists s|by intros (s1 & -> & Ht)].
  - setoid_rewrite IH. naive_solver.
Qed.

(** A call without a write leaves every object alone. *)
Lemma read_stored X (e : ApiE R X) x s s1 cl k n :
  ~ is_write (Obs e x) -> handle _ e s = (x, s1) -> stored s1 cl k n = stored s cl k n.
Proof.
  intros Hw Hh. apply (handle_stored X e s x s1 cl k n Hh). intros w Hw'. exfalso. apply Hw. exists w. exact Hw'.
Qed.

Lemma reads_follow s t s' cl k n : follows s t s' -> filter is_write t = [] -> stored s' cl k n = stored s cl k n.
Proof.
  revert s. induction t as [|[X e x] t IH]; intros s; cbn [follows]; [by intros ->|].
  intros (s1 & Hh & Ht). rewrite filter_cons. destruct (decide (is_write _)) as [|Hw]; [done|]. intros Hf.
  rewrite (IH s1 Ht Hf). by apply (read_stored X e x).
Qed.
End Follows.

Lemma filter_is_write_single {R} (t : list (obs (ApiE R))) o :
  filter is_write t = [o] -> exists t1 t2, t = t1 ++ o :: t2 /\ filter is_write t1 = [] /\ filter is_write t2 = [].
Proof.
  induction t as [|o' t IH]; [done|]. rewrite filter_cons. destruct (decide (is_write o')) as [Hw|Hw].
  - intros [= -> Ht]. by exists [], t.
  - intros (t1 & t2 & -> & H1 & H2)%IH. exists (o' :: t1), t2. split; [done|]. by rewrite filter_cons, decide_False.
Qed.

Section Upgrade.
Context `{WebhookLaws} {S : Type} `{ApiServerLaws Credentials S, !NamedServer Credentials S, !ContentLaws Credentials S}.
Context `{!AtomicWrites Credentials S}.
Context `{ReconcilingLaws Credentials}.
Variable r : Reconciler.
Variable md : MachineDeployment.
Hypothesis Hkeys : rotation_keys.
Hypothesis Hsep : separate_names md.
Variable c : OSPController.Reconciler.
Variable name : string.
Variable source : OperatingSystemProfile.
Hypothesis Hsource : defaultOSPs c !! name = Some source.
(** The machine deployment uses this default profile. *)
Hypothesis Hprofile : profile_key r md = {| NN_Namespace := namespace c; NN_Name := name |}.

Implicit Types s : behind S.

(** A call that leaves the secrets and the config alone. *)
Lemma frame_foreign X (e : ApiE Credentials X) s x s1 :
  handle _ e s = (x, s1) ->
  (forall w, writes e = Some w -> ref_kind (write_ref w) = KOperatingSystemProfile) -> foreign_call r md s s1.
Proof.
  intros Hh Hw. split; unfold stored_osc, stored_secret.
  - intros T _. right. apply (handle_stored X e s x s1 _ KSecret _ Hh). intros w Hw' (_ & Hk & _). by rewrite (Hw w Hw') in Hk.
  - intros osc Hosc. exists osc. split; [|done]. rewrite <- Hosc. symmetry.
    apply (handle_stored X e s x s1 _ KOperatingSystemConfig _ Hh). intros w Hw' (_ & Hk & _). by rewrite (Hw w Hw') in Hk.
Qed.

Lemma life_reads cur past s t s' :
  life r md (cur :: past) s -> follows s t s' -> filter is_write t = [] ->
  exists past', life r md (cur :: past') s' /\ past' ⊆ cur :: past.
Proof.
  revert past s. induction t as [|[X e x] t IH]; intros past s Hl; cbn [follows].
  - intros -> _. exists past. split; [done|set_solver].
  - intros (s1 & Hh & Ht). rewrite filter_cons. destruct (decide (is_write _)) as [|Hw]; [done|]. intros Hf.
    destruct (IH (cur :: past) s1) as (past' & Hl' & Hsub); [|done|done|exists past'; split; [done|set_solver]].
    apply (life_call r md past cur cur X e x s s1 Hl Hh).
    + apply (frame_foreign X e s x s1 Hh). intros w Hw'. exfalso. apply Hw. by exists w.
    + unfold profile_at. rewrite (read_stored X e x s s1 _ _ _ Hw Hh). by eapply (life_profile r md Hkeys Hsep).
    + by left.
Qed.

(** The update that the profile controller makes. *)
Lemma update_stored o answer s s1 new :
  handle _ (Update ControlClient KOperatingSystemProfile o) s = (Ok answer, s1) ->
  key_of (OSP_Meta o) = profile_key r md -> profile_at r md s1 = Some new -> OSP_Spec new = OSP_Spec o.
Proof.
  intros Hh%gated_handle Hk Hnew. unfold profile_at in Hnew. cbn [stored gated gate] in *. rewrite <- Hk in Hnew.
  destruct (stored (base s) (cluster_of ControlClient) KOperatingSystemProfile (key_of (meta_of o))) as [old|].
  - destruct (admission OpUpdate KOperatingSystemProfile (Some old) o) as [o'|err] eqn:Ha; [|done].
    apply admission_same in Ha as ->; [|done].
    destruct (Update_content _ _ _ o _ _ new Hh Hnew) as [[? _]|Hs]; [done|]. by rewrite (same_content_osp o new Hs).
  - destruct (Update_content _ _ _ o _ _ new Hh Hnew) as [[? _]|Hs]; [done|]. by rewrite (same_content_osp o new Hs).
Qed.

Lemma desired_key existing : key_of (OSP_Meta (desired c name source existing)) = profile_key r md.
Proof. by rewrite Hprofile. Qed.

(** The three ways a run of the profile controller goes: a profile that is there
    is not created again, is left alone, or is replaced. *)
Lemma reconcileOSP_follows old past s s1 :
  life r md (old :: past) s -> interp handle (reconcileOSP c name) s = (Ok tt, s1) ->
  exists t, follows s t s1 /\
    ((filter is_write t = [] /\ OSP_Version (OSP_Spec old) = OSP_Version (OSP_Spec source)) \/
     exists answer, filter is_write t =
       [Obs (Update ControlClient KOperatingSystemProfile (desired c name source old)) (Ok answer)]).
Proof.
  intros Hl Hi. exists (trace handle (reconcileOSP c name) s).
  pose proof (follows_trace (reconcileOSP c name) s) as Hfol. rewrite Hi in Hfol. cbn [snd] in Hfol. split; [done|].
  pose proof (run_trace handle (reconcileOSP c name) s) as Hrun. rewrite Hi in Hrun. cbn [fst] in Hrun.
  pose proof (life_profile r md Hkeys Hsep old past s Hl) as Hold. unfold profile_at in Hold.
  destruct (reconcileOSP_ensured c name source _ Hsource Hrun) as (f & Hf & [? ? ? o _ _ _ Ho Hw|t1 t2 existing o answer Ht Hw1 Ho Hw]).
  - exfalso. apply filter_is_write_single in Hw as (t1 & t2 & Ht & Hw1 & _). rewrite Ht in Hfol.
    apply follows_app in Hfol as (s2 & Hf1 & s3 & Hh & _). apply Create_ok in Hh as [Hnone _]; [|done].
    rewrite <- (reads_follow s t1 s2 _ _ _ Hf1 Hw1) in Hold. apply Hf in Ho as ->.
    change (meta_of ?o) with (OSP_Meta o) in Hnone. rewrite desired_key in Hnone.
    pose proof (eq_trans (eq_sym Hnone) Hold). done.
  - rewrite Ht in Hfol. apply follows_app in Hfol as (s2 & Hf1 & s3 & Hh & _). apply Get_ok in Hh.
    rewrite <- Hprofile, (reads_follow s t1 s2 _ _ _ Hf1 Hw1) in Hh. pose proof (eq_trans (eq_sym Hold) Hh) as [= <-].
    apply Hf in Ho as ->. destruct (compare_DeepEqual _ _ _) eqn:Hc; [left|right; by exists answer].
    split; [done|]. apply compare_DeepEqual_version in Hc. by rewrite <- Hc, desired_version.
Qed.

(** The profile controller takes the life of the profile one edit further, to
    the embedded version. *)
Lemma upgrade_life old past s s1 cur :
  life r md (old :: past) s -> version_discipline past old source ->
  interp handle (reconcileOSP c name) s = (Ok tt, s1) -> profile_at r md s1 = Some cur ->
  exists past', life r md (cur :: past') s1 /\ OSP_Version (OSP_Spec cur) = OSP_Version (OSP_Spec source) /\
    (OSP_Version (OSP_Spec old) <> OSP_Version (OSP_Spec source) -> OSP_Spec cur = OSP_Spec source).
Proof.
  intros Hl Hdisc Hi Hcur. destruct (reconcileOSP_follows old past s s1 Hl Hi) as (t & Hfol & [[Hw Hv]|[answer Hw]]).
  - destruct (life_reads old past s t s1 Hl Hfol Hw) as (past' & Hl1 & _).
    pose proof (life_profile r md Hkeys Hsep _ _ _ Hl1) as Hold. rewrite Hcur in Hold. injection Hold as <-. by exists past'.
  - apply filter_is_write_single in Hw as (t1 & t2 & -> & Hw1 & Hw2). apply follows_app in Hfol as (s2 & Hf1 & s3 & Hh & Hf2).
    destruct (life_reads old past s t1 s2 Hl Hf1 Hw1) as (past1 & Hl2 & Hsub).
    unfold profile_at in Hcur. rewrite (reads_follow s3 t2 s1 _ _ _ Hf2 Hw2) in Hcur.
    pose proof (update_stored _ _ s2 s3 cur Hh (desired_key old) Hcur) as Hspec.
    assert (OSP_Version (OSP_Spec cur) = OSP_Version (OSP_Spec source)) as Hv by (by rewrite Hspec, desired_version).
    assert (life r md (cur :: old :: past1) s3) as Hl3.
    { apply (life_call r md past1 old cur _ _ _ s2 s3 Hl2 Hh).
      - apply (frame_foreign _ _ s2 _ s3 Hh). by intros w [= <-].
      - exact Hcur.
      - destruct Hdisc as [Hd|Hd]; [left; congruence|right]. rewrite Hv. rewrite !Forall_forall in *. set_solver. }
    destruct (life_reads cur _ s3 t2 s1 Hl3 Hf2 Hw2) as (past' & Hl1 & _). exists past'. split_and!; [done..|].
    intros Hne. rewrite Hspec. unfold desired. cbn. by rewrite decide_False.
Qed.

(** C4: a new release reaches the machines: when the profile controller of a release succeeds on a stored default profile, and then a reconciliation of a machine deployment that uses it does, the stored profile has the embedded version, the embedded specification as well if it had another version before, the config is current, and config and secrets are generated from a specification that is semantically the stored one.  Before, the machine deployment may have had any [life]: reconciliations that succeed, fail or are cut off, edits of the profile and the config by others through the webhooks, where no version that was given up comes back, not even by the release, and nobody else makes the config, its annotations or its secrets.  As for [life], no reconciliation may start half rotated, with the config gone and one of its secrets still there, and no finalizer may hold the config or a secret back; the profile may not be deleted while the controllers run *)
Theorem upgrade_reaches_machines old past s s1 s2 :
  life r md (old :: past) s -> version_discipline past old source ->
  interp handle (OSPController.Reconcile c {| NN_Namespace := namespace c; NN_Name := name |}) s = (Ok tt, s1) ->
  profile_at r md s1 <> None -> deletable r md s1 -> ~ half_rotated r md s1 -> interp handle (reconcile r md) s1 = (Ok tt, s2) ->
  exists osc osp cur, stored_osc r md s2 = Some osc /\ profile_at r md s2 = Some cur /\
    OSP_Version (OSP_Spec cur) = OSP_Version (OSP_Spec source) /\
    (OSP_Version (OSP_Spec old) <> OSP_Version (OSP_Spec source) -> OSP_Spec cur = OSP_Spec source) /\
    deep_equal (OSP_Spec osp) (OSP_Spec cur) = true /\ up_to_date md cur osc /\ comes_from r md s2 osc osp.
Proof.
  intros Hl Hdisc Hosp Hthere Hdel Hhalf Hi. apply interp_bindIO_Ok in Hosp as ([] & s1' & Hosp & [= ->]).
  destruct (profile_at r md s1) as [cur|] eqn:Hcur; [|done].
  destruct (upgrade_life old past s s1 cur Hl Hdisc Hosp Hcur) as (past' & Hl1 & Hv & Hspec).
  destruct (life_served r md Hkeys Hsep _ s1 s2 Hl1 Hdel Hhalf Hi)
    as (osc & osp & cur' & Hosc & Hcur2 & Hcur1 & Heq & Hup & Hfrom).
  rewrite Hcur in Hcur1. injection Hcur1 as <-. by exists osc, osp, cur.
Qed.
End Upgrade.

(** ** Evaluation on concrete inputs *)

Module Demo.
Import OSCController.Demo Gate.Demo Freshness.Demo.
#[export] Existing Instances OSPController.Demo.reconciling OSPController.Demo.reconciling_laws.
(** The release embeds the profile with its next version. *)
Definition release : OSPController.Reconciler := {| defaultOSPs := {[ "osp-ubuntu" := osp2 ]}; namespace := "osm" |}.
Definition request : NamespacedName := {| NN_Namespace := "osm"; NN_Name := "osp-ubuntu" |}.
Definition upgrade : io (ApiE Credentials) unit := OSPController.Reconcile release request.
Definition released : behind (MemStore.store Credentials) := (interp handle upgrade generated).2.
Definition provisioned : behind (MemStore.store Credentials) := (interp handle (reconcile reconciler md) released).2.
End Demo.

Import OSCController.Demo Gate.Demo Freshness.Demo Demo.

Lemma released_ok : interp handle Demo.upgrade Freshness.Demo.generated = (Ok tt, Demo.released).
Proof. apply (interp_fst_Ok handle Demo.upgrade Freshness.Demo.generated tt). vm_compute. reflexivity. Qed.
Lemma provisioned_ok :
  interp handle (reconcile OSCController.Demo.reconciler OSCController.Demo.md) Demo.released = (Ok tt, Demo.provisioned).
Proof.
  apply (interp_fst_Ok handle (reconcile OSCController.Demo.reconciler OSCController.Demo.md) Demo.released tt).
  vm_compute. reflexivity.
Qed.
Lemma released_deletable : deletable OSCController.Demo.reconciler OSCController.Demo.md Demo.released.
Proof.
  apply Demo_deletable; [vm_compute; by right; left|]. intros T [<-|[<-|[]]]%list_elem_of_In; vm_compute; by right; left.
Qed.

Lemma upgrade_reaches_machines_witness :
  exists osc osp cur, stored_osc OSCController.Demo.reconciler OSCController.Demo.md Demo.provisioned = Some osc /\
    profile_at OSCController.Demo.reconciler OSCController.Demo.md Demo.provisioned = Some cur /\
    OSP_Spec cur = OSP_Spec Gate.Demo.osp2 /\
    comes_from OSCController.Demo.reconciler OSCController.Demo.md Demo.provisioned osc osp.
Proof.
  destruct (upgrade_reaches_machines OSCController.Demo.reconciler OSCController.Demo.md Demo_keys Demo_separate
    Demo.release "osp-ubuntu" Gate.Demo.osp2 eq_refl eq_refl OSCController.Demo.osp [] Freshness.Demo.generated
    Demo.released Demo.provisioned generated_life)
    as (osc & osp & cur & Hosc & Hcur & _ & Hspec & _ & _ & Hfrom).
  - right. apply Forall_singleton. discriminate.
  - exact released_ok.
  - vm_compute. discriminate.
  - exact released_deletable.
  - apply whole. vm_compute. eexists. reflexivity.
  - exact provisioned_ok.
  - exists osc, osp, cur. split; [exact Hosc|]. split; [exact Hcur|]. split; [|exact Hfrom]. apply Hspec. discriminate.
Defined.
