(* ===== verification/GoHeap.v ===== *)
(** * Go memory: pointers, slices and maps

    Go values that hold references: the part of the program where it matters
    which of two values share memory is modelled on a heap of cells.  A pointer
    or a map is an address or nil, a slice is nil or a window of an array.
    [GoCopy] is the contract of a generated [DeepCopyInto]: the copy represents
    the same value as the original, in memory that did not exist before. *)

From S2P Require Import Prelude GoStrings.

(** ** Memory *)

Abbreviation loc := positive.
Abbreviation heap C := (gmap loc C).

Section Memory.
Context {C : Type}.

(** A computation on a heap; [None] is a run-time panic. *)
Definition M (A : Type) := heap C -> option (A * heap C).

Definition retM {A} (a : A) : M A := fun h => Some (a, h).
Definition bindM {A B} (m : M A) (f : A -> M B) : M B := fun h => m h ≫= fun p => f p.1 p.2.

(** What a cell can hold. *)
Class Cell (B : Type) := {
  cell_of : B -> C;
  of_cell : C -> option B;
  of_cell_of b : of_cell (cell_of b) = Some b
}.

Definition alloc `{Cell B} (b : B) : M loc := fun h =>
  let l := fresh (dom h) in Some (l, <[l := cell_of b]> h).
Definition load `{Cell B} (l : loc) : M B := fun h =>
  (h !! l ≫= of_cell) ≫= fun b => Some (b, h).
Definition store `{Cell B} (l : loc) (b : B) : M () := fun h =>
  match h !! l with Some _ => Some ((), <[l := cell_of b]> h) | None => None end.
Definition index {A} (l : list A) (i : nat) : M A := fun h => l !! i ≫= fun a => Some (a, h).
End Memory.
Arguments M C A : clear implicits.
Arguments Cell C B : clear implicits.

Notation "x <~ m ; k" := (bindM m (fun x => k)) (at level 100, m at next level, right associativity).

(** A window of [len] elements of an array, from [off]. *)
Record slice := { arr : loc; off : nat; len : nat }.

(** ** Values and their copies *)

(** [T] is how a Go value lies in memory, [A] what it represents. *)
Class GoCopy (C T A : Type) := {
  DeepCopyInto : T -> M C T;
  view : heap C -> T -> option A
}.

(** Strings, booleans and numbers are copied by assignment. *)
Definition flat {C T} : GoCopy C T T := {| DeepCopyInto := retM; view _ v := Some v |}.

Section Copies.
Context {C : Type}.
Implicit Types h : heap C.

(** [new(T)] and [DeepCopyInto] behind a pointer. *)
Definition copy_pointer `{GoCopy C T A, !Cell C T} (zero : T) (p : option loc) : M C (option loc) :=
  match p with
  | None => retM None
  | Some l =>
      out <~ alloc zero;
      v <~ load l;
      v' <~ DeepCopyInto v;
      _ <~ store out v';
      retM (Some out)
  end.
Definition view_pointer `{GoCopy C T A, !Cell C T} h (p : option loc) : option (option A) :=
  match p with
  | None => Some None
  | Some l => v ← h !! l ≫= of_cell; x ← view h v; Some (Some x)
  end.

(** [make([]T, len)], then one element after the other. *)
Fixpoint copy_elements `{GoCopy C T A, !Cell C (list T)} (s : slice) (out : loc) (i n : nat) : M C () :=
  match n with
  | O => retM ()
  | Datatypes.S n =>
      a <~ load s.(arr);
      e <~ index a (off s + i);
      e' <~ DeepCopyInto e;
      b <~ load out;
      _ <~ store out (<[i := e']> b);
      copy_elements s out (Datatypes.S i) n
  end.
Definition copy_slice `{GoCopy C T A, !Cell C (list T)} (zero : T) (p : option slice) : M C (option slice) :=
  match p with
  | None => retM None
  | Some s =>
      out <~ alloc (repeat zero (len s));
      _ <~ copy_elements s out 0 (len s);
      retM (Some {| arr := out; off := 0; len := len s |})
  end.

Definition window {T} (s : slice) (a : list T) : option (list T) :=
  if (off s + len s <=? List.length a)%nat then Some (take (len s) (drop (off s) a)) else None.
(** Nil and empty slices represent the same list. *)
Definition view_slice `{GoCopy C T A, !Cell C (list T)} h (p : option slice) : option (list A) :=
  match p with
  | None => Some []
  | Some s => a ← h !! arr s ≫= of_cell; l ← window s a; mapM (view h) l
  end.

(** [make([]string, len)] and [copy]. *)
Definition copy_flat_slice {T} `{!Cell C (list T)} (zero : T) (p : option slice) : M C (option slice) :=
  match p with
  | None => retM None
  | Some s =>
      out <~ alloc (repeat zero (len s));
      a <~ load s.(arr);
      l <~ (fun h => window s a ≫= fun l => Some (l, h));
      _ <~ store out l;
      retM (Some {| arr := out; off := 0; len := len s |})
  end.

(** A slice of values without references represents its elements. *)
Definition view_flat_slice {T} `{!Cell C (list T)} h (p : option slice) : option (list T) :=
  match p with
  | None => Some []
  | Some s => (h !! arr s ≫= of_cell) ≫= window s
  end.

(** [make(map[string]V, len)], then one entry after the other. *)
Fixpoint copy_entries `{GoCopy C V A, !Cell C (gmap string V)} (out : loc) (l : list (string * V)) : M C () :=
  match l with
  | [] => retM ()
  | (key, val) :: l =>
      outVal <~ DeepCopyInto val;
      b <~ load out;
      _ <~ store out (<[key := outVal]> b);
      copy_entries out l
  end.
Definition copy_map `{MapRange, GoCopy C V A, !Cell C (gmap string V)} (p : option loc) : M C (option loc) :=
  match p with
  | None => retM None
  | Some l =>
      out <~ alloc (∅ : gmap string V);
      m <~ load l;
      _ <~ copy_entries out (range m);
      retM (Some out)
  end.

Definition view_entries `{GoCopy C V A} h (m : gmap string V) : option (gmap string A) :=
  if decide (map_Forall (fun _ v => is_Some (view h v)) m) then Some (omap (view h) m) else None.
(** Nil and empty maps represent the same map. *)
Definition view_map `{GoCopy C V A, !Cell C (gmap string V)} h (p : option loc) : option (gmap string A) :=
  match p with
  | None => Some ∅
  | Some l => m ← h !! l ≫= of_cell; view_entries h m
  end.
End Copies.

(** ** Reading a value in another heap *)

Section Steady.
Context {C : Type}.
Implicit Types h g : heap C.

(** [g] has the cells of [h] that satisfy [keep]. *)
Definition keeps (keep : C -> Prop) h g : Prop := forall l c, h !! l = Some c -> keep c -> g !! l = Some c.

Lemma keeps_all h g : keeps (fun _ => True) h g <-> h ⊆ g.
Proof. rewrite map_subseteq_spec. unfold keeps. naive_solver. Qed.

(** The cells of a type are kept; a value is read from kept cells only. *)
Class Kept (keep : C -> Prop) (B : Type) `{Cell C B} : Prop := kept c (b : B) : of_cell c = Some b -> keep c.
Class Steady (keep : C -> Prop) {T A} (read : heap C -> T -> option A) : Prop :=
  steady h g v x : keeps keep h g -> read h v = Some x -> read g v = Some x.

#[export] Instance kept_all `{Cell C B} : Kept (fun _ => True) B.
Proof. done. Qed.

Context (keep : C -> Prop).

Lemma kept_cell `{Cell C B, !Kept keep B} h g l (b : B) :
  keeps keep h g -> h !! l ≫= of_cell = Some b -> g !! l ≫= of_cell = Some b.
Proof. intros Hk (c & Hc & Hb)%bind_Some. rewrite (Hk l c Hc (kept c b Hb)). exact Hb. Qed.

#[export] Instance pointer_steady `{GoCopy C T A, !Cell C T, !Kept keep T, !Steady keep view} :
  Steady keep view_pointer.
Proof.
  intros h g [l|] x Hk; cbn; [|done]. intros (v & Hl & (y & Hv & [= <-])%bind_Some)%bind_Some.
  rewrite (kept_cell h g l v Hk Hl). cbn. by rewrite (steady h g v y Hk Hv).
Qed.

#[export] Instance slice_steady `{GoCopy C T A, !Cell C (list T), !Kept keep (list T), !Steady keep view} :
  Steady keep view_slice.
Proof.
  intros h g [s|] x Hk; cbn; [|done]. intros (a & Ha & (l & Hl & Hx)%bind_Some)%bind_Some.
  rewrite (kept_cell h g (arr s) a Hk Ha). cbn. rewrite Hl. cbn. apply mapM_Some. apply mapM_Some in Hx.
  eapply Forall2_impl; [exact Hx|]. intros v y. by apply steady.
Qed.

#[export] Instance flat_slice_steady {T} `{!Cell C (list T), !Kept keep (list T)} : Steady keep view_flat_slice.
Proof.
  intros h g [s|] x Hk; cbn; [|done]. intros (a & Ha & Hl)%bind_Some. by rewrite (kept_cell h g (arr s) a Hk Ha).
Qed.

Lemma view_entries_Some `{GoCopy C V A} h (m : gmap string V) (x : gmap string A) :
  view_entries h m = Some x <-> forall k, view h <$> m !! k = Some <$> x !! k.
Proof.
  unfold view_entries. split.
  - intros Hx k. destruct (decide _) as [Hall|]; [|done]. injection Hx as <-. rewrite lookup_omap.
    destruct (m !! k) as [v|] eqn:Hk; cbn; [|done]. destruct (Hall k v Hk) as [y Hy]. by rewrite Hy.
  - intros Hx. rewrite decide_True.
    + f_equal. apply map_eq. intros k. rewrite lookup_omap. specialize (Hx k).
      destruct (m !! k) as [v|], (x !! k); cbn in *; naive_solver.
    + intros k v Hk. specialize (Hx k). rewrite Hk in Hx. cbn in Hx. destruct (x !! k); cbn in Hx; naive_solver.
Qed.

#[export] Instance map_steady `{GoCopy C V A, !Cell C (gmap string V), !Kept keep (gmap string V), !Steady keep view} :
  Steady keep view_map.
Proof.
  intros h g [l|] x Hk; cbn; [|done]. intros (m & Hl & Hx)%bind_Some.
  rewrite (kept_cell h g l m Hk Hl). cbn. rewrite view_entries_Some in Hx |- *. intros k. specialize (Hx k).
  destruct (m !! k) as [v|], (x !! k) as [y|]; cbn in *; try done. injection Hx as Hx.
  f_equal. by eapply steady.
Qed.
End Steady.

(** A value that is readable stays readable in a larger heap. *)
Abbreviation Reader := (Steady (fun _ => True)).
Lemma reader_mono {C T A} (read : heap C -> T -> option A) `{!Reader read} h h' v x :
  h ⊆ h' -> read h v = Some x -> read h' v = Some x.
Proof. rewrite <- keeps_all. apply steady. Qed.
Lemma larger_cell {C} `{Cell C B} (h h' : heap C) l (b : B) :
  h ⊆ h' -> h !! l ≫= of_cell = Some b -> h' !! l ≫= of_cell = Some b.
Proof. rewrite <- keeps_all. apply kept_cell, _. Qed.

(** A copy succeeds on every well-formed value, changes no cell that existed,
    and is readable from the new cells alone. *)
Class GoCopyLaws (C T A : Type) `{GoCopy C T A} := {
  #[global] view_reader :: Reader view;
  DeepCopyInto_ok h v x : view h v = Some x ->
    exists v' h', DeepCopyInto v h = Some (v', h') /\ h ⊆ h' /\ view (h' ∖ h) v' = Some x
}.

Lemma flat_laws {C T} : @GoCopyLaws C T T flat.
Proof.
  split; [by intros ?????|]. intros h v x Hv. exists v, h. split; [done|]. split; [done|exact Hv].
Qed.

(** ** What holds of every copy *)

(** [m] succeeds on [h], keeps its cells, and its result satisfies [P] in the
    new cells. *)
Definition copies {C T} (h : heap C) (m : M C T) (P : heap C -> T -> Prop) : Prop :=
  exists v h', m h = Some (v, h') /\ h ⊆ h' /\ P (h' ∖ h) v.

Section Laws.
Context {C : Type}.
Implicit Types h : heap C.

Lemma new_cells_mono h h1 h2 : h ⊆ h1 -> h1 ⊆ h2 -> h1 ∖ h ⊆ h2 ∖ h.
Proof.
  intros Hs H12. apply map_subseteq_spec. intros l c. rewrite !lookup_difference_Some.
  intros [Hl Hn]. split; [|done]. by eapply lookup_weaken.
Qed.
Lemma later_cells h h1 h2 : h ⊆ h1 -> h1 ⊆ h2 -> h2 ∖ h1 ⊆ h2 ∖ h.
Proof.
  intros Hs H12. apply map_subseteq_spec. intros l c. rewrite !lookup_difference_Some.
  intros [Hl Hn]. split; [done|]. by eapply lookup_weaken_None.
Qed.

Lemma copies_ret {T} h (v : T) (P : heap C -> T -> Prop) : P ∅ v -> copies h (retM v) P.
Proof. intros HP. exists v, h. split; [done|]. split; [done|]. by rewrite map_difference_diag. Qed.

(** Two steps: what the first one copied stays readable. *)
Lemma copies_bind {T U} h (m : M C T) (f : T -> M C U) (P : heap C -> T -> Prop) (Q : heap C -> U -> Prop) :
  copies h m P -> (forall g g' v, g ⊆ g' -> P g v -> P g' v) ->
  (forall h1 v, h ⊆ h1 -> copies h1 (f v) (fun g u => forall g', g ⊆ g' -> P g' v -> Q g' u)) ->
  copies h (bindM m f) Q.
Proof.
  intros (v & h1 & Hm & H1 & HP) Hmono Hf. destruct (Hf h1 v H1) as (u & h2 & Hu & H2 & HQ).
  exists u, h2. unfold bindM. rewrite Hm. cbn. split; [done|]. split; [by etrans|].
  apply (HQ (h2 ∖ h)); [by apply later_cells|]. eapply Hmono; [|exact HP]. by apply new_cells_mono.
Qed.

Lemma alloc_ok `{Cell C B} h (b : B) :
  exists l, alloc b h = Some (l, <[l := cell_of b]> h) /\ h !! l = None.
Proof. eexists. split; [reflexivity|]. apply not_elem_of_dom, is_fresh. Qed.

Lemma load_ok `{Cell C B} h l (b : B) : h !! l ≫= of_cell = Some b -> load l h = Some (b, h).
Proof. intros Hl. unfold load. by rewrite Hl. Qed.

(** *** Filling new memory *)

(** The cells that are new since [h0], without the one that is being filled. *)
Definition aside h0 (out : loc) h : heap C := delete out (h ∖ h0).

Lemma aside_mono h0 out h h' : h0 ⊆ h -> h ⊆ h' -> aside h0 out h ⊆ aside h0 out h'.
Proof. intros. by apply delete_mono, new_cells_mono. Qed.

Lemma aside_store h0 out h c : aside h0 out (<[out := c]> h) = aside h0 out h.
Proof.
  apply map_eq. intros l. unfold aside. destruct (decide (l = out)) as [->|Hne].
  - by rewrite !lookup_delete_eq.
  - by rewrite !lookup_delete_ne, !lookup_difference, lookup_insert_ne by done.
Qed.

Lemma aside_filled h0 out h c : h0 !! out = None -> h !! out = Some c -> <[out := c]> (aside h0 out h) ⊆ h ∖ h0.
Proof.
  intros Hn Hc. unfold aside. rewrite insert_delete_id; [done|]. by apply lookup_difference_Some.
Qed.

Lemma store_ok `{Cell C B} h0 h out (b b' : B) :
  h0 !! out = None -> h0 ⊆ h -> h !! out = Some (cell_of b) ->
  store out b' h = Some ((), <[out := cell_of b']> h) /\ h0 ⊆ <[out := cell_of b']> h.
Proof.
  intros Hn Hs Ho. unfold store. rewrite Ho. split; [done|]. apply insert_subseteq_r; done.
Qed.

(** Copying one part while [out] is being filled. *)
Lemma copy_part `{GoCopyLaws C T A} h0 h out c v x :
  h0 ⊆ h -> h0 !! out = None -> h !! out = Some c -> view h0 v = Some x ->
  exists v' h', DeepCopyInto v h = Some (v', h') /\ h ⊆ h' /\ h0 ⊆ h' /\ h' !! out = Some c /\
    view (aside h0 out h') v' = Some x.
Proof.
  intros Hs Hn Ho Hv. destruct (DeepCopyInto_ok h v x) as (v' & h' & Hc & H1 & Hv').
  { by eapply (reader_mono view). }
  exists v', h'. split; [done|]. split; [done|]. split; [by etrans|]. split; [by eapply lookup_weaken|].
  eapply (reader_mono view); [|exact Hv']. unfold aside. apply map_subseteq_spec. intros l c'.
  rewrite lookup_difference_Some. intros [Hl Hl']. rewrite lookup_delete_ne by (intros ->; congruence).
  apply lookup_difference_Some. split; [done|]. by eapply lookup_weaken_None.
Qed.

(** *** Pointers *)

Lemma view_pointer_Some `{GoCopy C T A, !Cell C T} h l x :
  view_pointer h (Some l) = Some (Some x) <-> exists v, h !! l ≫= of_cell = Some v /\ view h v = Some x.
Proof.
  unfold view_pointer. rewrite bind_Some. setoid_rewrite bind_Some. naive_solver.
Qed.

Lemma view_new_pointer `{GoCopy C T A, !Cell C T, !Reader view} h l v x :
  h !! l = None -> view h v = Some x -> view_pointer (<[l := cell_of v]> h) (Some l) = Some (Some x).
Proof.
  intros Hl Hv. apply view_pointer_Some. exists v. split; [rewrite lookup_insert_eq; apply of_cell_of|].
  eapply (reader_mono view); [by apply insert_subseteq|done].
Qed.

Lemma copy_pointer_ok `{GoCopyLaws C T A, !Cell C T} zero h p x :
  view_pointer h p = Some x -> copies h (copy_pointer zero p) (fun g p' => view_pointer g p' = Some x).
Proof.
  destruct p as [l|]; cbn [view_pointer copy_pointer]; [|intros Hx; by apply copies_ret].
  intros (v & Hl & (y & Hv & [= <-])%bind_Some)%bind_Some.
  destruct (alloc_ok h zero) as (out & Halloc & Hn).
  set (h1 := <[out := cell_of zero]> h) in Halloc.
  assert (h ⊆ h1) as H1 by (by apply insert_subseteq).
  destruct (copy_part h h1 out (cell_of zero) v y) as (v' & h2 & Hc & H12 & H2 & Ho & Hv'); [done..|by apply lookup_insert_eq|done|].
  destruct (store_ok h h2 out zero v' Hn H2 Ho) as [Hst H3].
  exists (Some out), (<[out := cell_of v']> h2). unfold bindM. rewrite Halloc. cbn.
  rewrite (load_ok h1 l v) by (by eapply larger_cell). cbn. rewrite Hc. cbn. rewrite Hst. cbn.
  split; [done|]. split; [done|]. unfold bindM, view_pointer.
  assert ((<[out := cell_of v']> h2 ∖ h) !! out ≫= of_cell = Some v') as ->.
  { rewrite (proj2 (lookup_difference_Some _ _ _ (cell_of v'))); [apply of_cell_of|].
    split; [apply lookup_insert_eq|done]. }
  cbn. rewrite (reader_mono view (aside h out h2) (<[out := cell_of v']> h2 ∖ h) v' y); [done| |done].
  rewrite <- (aside_store h out h2 (cell_of v')). apply delete_subseteq.
Qed.

(** *** Slices *)

(** The elements from [i] on are copied, the ones before stay copied. *)
Lemma copy_elements_ok `{GoCopyLaws C T A, !Cell C (list T)} s out h0 a xs n : forall i h b,
  h0 ⊆ h -> h0 !! out = None -> h !! out = Some (cell_of b) -> length b = len s ->
  h0 !! arr s ≫= of_cell = Some a ->
  Forall2 (fun v x => view h0 v = Some x) (take (len s) (drop (off s) a)) xs -> length xs = len s ->
  i + n = len s ->
  Forall2 (fun v x => view (aside h0 out h) v = Some x) (take i b) (take i xs) ->
  exists h' b', copy_elements s out i n h = Some ((), h') /\ h0 ⊆ h' /\ h' !! out = Some (cell_of b') /\
    Forall2 (fun v x => view (aside h0 out h') v = Some x) b' xs.
Proof.
  induction n as [|n IH]; intros i h b Hs Hn Ho Hb Ha Hl Hxs Hi Hdone; cbn [copy_elements].
  { exists h, b. rewrite !take_ge in Hdone by lia. done. }
  assert (i < length xs) as Hlt by lia. apply lookup_lt_is_Some in Hlt as [x Hx].
  destruct (Forall2_lookup_r _ _ _ _ _ Hl Hx) as (v & Hv & Hview).
  assert (a !! (off s + i) = Some v) as Hav.
  { rewrite lookup_take_Some, lookup_drop in Hv. tauto. }
  destruct (copy_part h0 h out (cell_of b) v x Hs Hn Ho Hview) as (v' & h1 & Hc & H1 & H01 & Ho1 & Hv').
  destruct (store_ok h0 h1 out b (<[i := v']> b) Hn H01 Ho1) as [Hst H2].
  set (h2 := <[out := cell_of (<[i := v']> b)]> h1) in *.
  destruct (IH (Datatypes.S i) h2 (<[i := v']> b)) as (h' & b' & Hrec & Hfin);
    [done|done|apply lookup_insert_eq|by rewrite length_insert|done..|lia| |].
  - rewrite (take_S_r _ i v'), (take_S_r _ i x); [|done|apply list_lookup_insert_eq; lia].
    rewrite take_insert, decide_False by lia. unfold h2. rewrite aside_store. apply Forall2_app; [|by repeat constructor].
    eapply Forall2_impl; [exact Hdone|]. intros w y. apply (reader_mono view). by apply aside_mono.
  - exists h', b'. split; [|done]. unfold bindM. rewrite (load_ok h (arr s) a) by (by eapply larger_cell). cbn.
    unfold index. rewrite Hav. cbn. rewrite Hc. cbn.
    rewrite (load_ok h1 out b) by (by rewrite Ho1; cbn; rewrite of_cell_of). cbn. rewrite Hst. exact Hrec.
Qed.

Lemma copy_slice_ok `{GoCopyLaws C T A, !Cell C (list T)} zero h p xs :
  view_slice h p = Some xs -> copies h (copy_slice zero p) (fun g p' => view_slice g p' = Some xs).
Proof.
  destruct p as [s|]; cbn [view_slice copy_slice]; [|intros Hx; by apply copies_ret].
  intros (a & Ha & (l & Hl & Hxs%mapM_Some)%bind_Some)%bind_Some.
  unfold window in Hl. destruct (Nat.leb_spec (off s + len s) (length a)) as [Hle|]; [|done]. injection Hl as <-.
  assert (length xs = len s) as Hlen.
  { rewrite <- (Forall2_length _ _ _ Hxs), length_take, length_drop. lia. }
  destruct (alloc_ok h (repeat zero (len s))) as (out & Halloc & Hn).
  set (h1 := <[out := _]> h) in Halloc.
  destruct (copy_elements_ok s out h a xs (len s) 0 h1 (repeat zero (len s))) as (h' & b' & Hc & Hs & Ho & Hb');
    [by apply insert_subseteq|done|apply lookup_insert_eq|apply repeat_length|done..|constructor|].
  exists (Some {| arr := out; off := 0; len := len s |}), h'. unfold bindM. rewrite Halloc. cbn. rewrite Hc. cbn.
  split; [done|]. split; [done|]. unfold view_slice. cbn [arr].
  assert ((h' ∖ h) !! out ≫= of_cell = Some b') as ->.
  { rewrite (proj2 (lookup_difference_Some _ _ _ (cell_of b'))); [apply of_cell_of|done]. }
  cbn. unfold window. cbn [off len]. pose proof (Forall2_length _ _ _ Hb') as Hlb.
  rewrite (proj2 (Nat.leb_le _ _)) by lia. cbn. rewrite drop_0, take_ge by lia. apply mapM_Some.
  eapply Forall2_impl; [exact Hb'|]. intros v x. apply (reader_mono view). apply delete_subseteq.
Qed.

Lemma copy_flat_slice_ok {T} `{!Cell C (list T)} (zero : T) h p l :
  view_flat_slice h p = Some l -> copies h (copy_flat_slice zero p) (fun g p' => view_flat_slice g p' = Some l).
Proof.
  destruct p as [s|]; cbn [view_flat_slice copy_flat_slice]; [|intros Hx; by apply copies_ret].
  intros (a & Ha & Hl)%bind_Some.
  destruct (alloc_ok h (repeat zero (len s))) as (out & Halloc & Hn).
  set (h1 := <[out := _]> h) in Halloc. assert (h ⊆ h1) as H1 by (by apply insert_subseteq).
  destruct (store_ok h h1 out (repeat zero (len s)) l Hn H1 (lookup_insert_eq _ _ _)) as [Hst H2].
  exists (Some {| arr := out; off := 0; len := len s |}), (<[out := cell_of l]> h1). unfold bindM. rewrite Halloc. cbn.
  rewrite (load_ok h1 (arr s) a) by (by eapply larger_cell). cbn. rewrite Hl. cbn. rewrite Hst. cbn.
  split; [done|]. split; [done|]. unfold view_flat_slice. cbn [arr].
  assert ((<[out := cell_of l]> h1 ∖ h) !! out ≫= of_cell = Some l) as ->.
  { rewrite (proj2 (lookup_difference_Some _ _ _ (cell_of l))); [apply of_cell_of|].
    split; [apply lookup_insert_eq|done]. }
  cbn. unfold window in *. destruct (Nat.leb_spec (off s + len s) (length a)) as [Hle|]; [|done]. injection Hl as <-.
  cbn [off len]. rewrite length_take, length_drop, (proj2 (Nat.leb_le _ _)) by lia.
  by rewrite drop_0, take_ge by (rewrite length_take, length_drop; lia).
Qed.

(** *** Maps *)

(** What is in the new map is a copy; no key is lost. *)
Lemma copy_entries_ok `{GoCopyLaws C V A, !Cell C (gmap string V)} out h0 (x : gmap string A) l : forall h b,
  h0 ⊆ h -> h0 !! out = None -> h !! out = Some (cell_of b) ->
  (forall k v, (k, v) ∈ l -> exists y, x !! k = Some y /\ view h0 v = Some y) ->
  (forall k v, b !! k = Some v -> exists y, x !! k = Some y /\ view (aside h0 out h) v = Some y) ->
  exists h' b', copy_entries out l h = Some ((), h') /\ h0 ⊆ h' /\ h' !! out = Some (cell_of b') /\
    (forall k v, b' !! k = Some v -> exists y, x !! k = Some y /\ view (aside h0 out h') v = Some y) /\
    (forall k, k ∈ l.*1 \/ is_Some (b !! k) -> is_Some (b' !! k)).
Proof.
  induction l as [|[key val] l IH]; intros h b Hs Hn Ho Hl Hb; cbn [copy_entries].
  { exists h, b. split_and!; try done. by intros k [Hk%elem_of_nil|]. }
  destruct (Hl key val) as (y & Hy & Hview); [by left|].
  destruct (copy_part h0 h out (cell_of b) val y Hs Hn Ho Hview) as (v' & h1 & Hc & H1 & H01 & Ho1 & Hv').
  destruct (store_ok h0 h1 out b (<[key := v']> b) Hn H01 Ho1) as [Hst H2].
  set (h2 := <[out := cell_of (<[key := v']> b)]> h1) in *.
  destruct (IH h2 (<[key := v']> b)) as (h' & b' & Hrec & Hs' & Ho' & Hb' & Hk');
    [done|done|apply lookup_insert_eq|intros k v Hkv; apply Hl; by right| |].
  - unfold h2. rewrite aside_store. intros k v [[<- <-]|[_ Hkv]]%lookup_insert_Some; [by exists y|].
    destruct (Hb k v Hkv) as (z & Hz & Hvz). exists z. split; [done|]. eapply (reader_mono view); [|exact Hvz].
    by apply aside_mono.
  - exists h', b'. split_and!; [|done..|].
    + unfold bindM. rewrite Hc. cbn.
      rewrite (load_ok h1 out b) by (by rewrite Ho1; cbn; rewrite of_cell_of). cbn. rewrite Hst. exact Hrec.
    + intros k Hk. apply Hk'. rewrite fmap_cons in Hk. cbn in Hk. rewrite elem_of_cons in Hk.
      destruct (decide (k = key)) as [->|Hne]; [right; rewrite lookup_insert_eq; by eexists|].
      rewrite lookup_insert_ne by done. naive_solver.
Qed.

Lemma copy_map_ok `{MapRange, GoCopyLaws C V A, !Cell C (gmap string V)} h p x :
  view_map h p = Some x -> copies h (copy_map p) (fun g p' => view_map g p' = Some x).
Proof.
  destruct p as [l|]; cbn [view_map copy_map]; [|intros Hx; by apply copies_ret].
  intros (m & Hm & Hx)%bind_Some. rewrite view_entries_Some in Hx.
  destruct (alloc_ok h (∅ : gmap string V)) as (out & Halloc & Hn).
  set (h1 := <[out := _]> h) in Halloc. assert (h ⊆ h1) as Hh1 by (by apply insert_subseteq).
  destruct (copy_entries_ok out h x (range m) h1 ∅) as (h' & b' & Hc & Hs & Ho & Hb & Hk);
    [done|done|apply lookup_insert_eq| |by intros k v ?|].
  { intros k v Hkv%elem_of_range. specialize (Hx k). rewrite Hkv in Hx. cbn in Hx.
    destruct (x !! k) as [y|]; cbn in Hx; [|done]. exists y. split; [done|]. by injection Hx. }
  exists (Some out), h'. unfold bindM. rewrite Halloc. cbn. rewrite (load_ok h1 l m) by (by eapply larger_cell). cbn.
  rewrite Hc. cbn. split; [done|]. split; [done|].
  assert ((h' ∖ h) !! out ≫= of_cell = Some b') as ->.
  { rewrite (proj2 (lookup_difference_Some _ _ _ (cell_of b'))); [apply of_cell_of|done]. }
  cbn. apply view_entries_Some. intros k. destruct (b' !! k) as [v|] eqn:Hbk; cbn.
  - destruct (Hb k v Hbk) as (y & -> & Hy). cbn. f_equal. eapply (reader_mono view); [|exact Hy]. apply delete_subseteq.
  - destruct (x !! k) as [y|] eqn:Hxk; [exfalso|done]. specialize (Hx k). rewrite Hxk in Hx.
    destruct (m !! k) as [v|] eqn:Hmk; [|done]. destruct (Hk k) as [w Hw]; [|congruence].
    left. apply list_elem_of_fmap. exists (k, v). split; [done|]. by apply elem_of_range.
Qed.
End Laws.

(** ** Copying a struct field by field *)

(** A copy function that preserves what a field represents. *)
Class Copier {C T A} (copy : T -> M C T) (read : heap C -> T -> option A) : Prop :=
  copier_ok h v x : read h v = Some x -> copies h (copy v) (fun g v' => read g v' = Some x).

#[export] Instance value_copier `{GoCopyLaws C T A} : Copier DeepCopyInto view := DeepCopyInto_ok.
#[export] Instance pointer_copier `{GoCopyLaws C T A, !Cell C T} zero :
  Copier (copy_pointer zero) view_pointer := copy_pointer_ok zero.
#[export] Instance slice_copier `{GoCopyLaws C T A, !Cell C (list T)} zero :
  Copier (copy_slice zero) view_slice := copy_slice_ok zero.
#[export] Instance flat_slice_copier {C T} `{!Cell C (list T)} (zero : T) :
  Copier (copy_flat_slice zero) view_flat_slice := copy_flat_slice_ok zero.
#[export] Instance map_copier `{MapRange, GoCopyLaws C V A, !Cell C (gmap string V)} :
  Copier copy_map view_map := copy_map_ok.

(** Whoever keeps the cells of the original still reads it, whatever happens to
    the copy, and the other way round. *)
Lemma copy_independent {C T A} (copy : T -> M C T) (read : heap C -> T -> option A) `{!Copier copy read, !Reader read}
    (h : heap C) v x :
  read h v = Some x ->
  exists v' h', copy v h = Some (v', h') /\ h ⊆ h' /\
    (forall g, h ⊆ g -> read g v = Some x) /\ (forall g, h' ∖ h ⊆ g -> read g v' = Some x).
Proof.
  intros Hv. destruct (copier_ok h v x Hv) as (v' & h' & Hc & Hs & Hv'). exists v', h'.
  split_and!; [done..|intros g Hg|intros g Hg]; by eapply (reader_mono read).
Qed.

Section Structs.
Context {C : Type}.
Implicit Types h base : heap C.

(** [copies] with the cells counted from an earlier heap. *)
Definition copies_from {T} base h (m : M C T) (P : heap C -> T -> Prop) : Prop :=
  exists v h', m h = Some (v, h') /\ h ⊆ h' /\ P (h' ∖ base) v.

Lemma copies_from_ret {T} base h (v : T) (P : heap C -> T -> Prop) :
  P (h ∖ base) v -> copies_from base h (retM v) P.
Proof. intros HP. by exists v, h. Qed.

Lemma copies_from_field {T A U} (copy : T -> M C T) (read : heap C -> T -> option A) `{!Copier copy read, !Reader read}
    base h v x (f : T -> M C U) Q :
  base ⊆ h -> read base v = Some x ->
  (forall h1 v', h ⊆ h1 -> base ⊆ h1 -> (forall h2, h1 ⊆ h2 -> read (h2 ∖ base) v' = Some x) ->
     copies_from base h1 (f v') Q) ->
  copies_from base h (bindM (copy v) f) Q.
Proof.
  intros Hb Hv Hf. destruct (copier_ok h v x) as (v' & h1 & Hc & H1 & Hv').
  { by eapply (reader_mono read). }
  destruct (Hf h1 v' H1) as (u & h2 & Hu & H2 & HQ); [by etrans| |].
  - intros h2 H2. eapply (reader_mono read); [|exact Hv']. etrans; [by apply new_cells_mono|].
    apply later_cells; [done|by etrans].
  - exists u, h2. unfold bindM. rewrite Hc. split; [done|]. split; [by etrans|done].
Qed.
End Structs.

(** Walks along inclusions of heaps. *)
Ltac later_heap := solve [repeat first [reflexivity | eassumption | etrans; [eassumption|]]].

(** The values of the fields of a struct that is read successfully. *)
Ltac read_fields H :=
  repeat (let x := fresh "x" in let Hx := fresh "Hx" in apply bind_Some in H as (x & Hx & H));
  injection H as <-.

(** The laws of a struct: every field is read again in the other heap, every
    field is copied by its copier. *)
Tactic Notation "struct_steady" reference(inst) reference(read) :=
  let h := fresh "h" in let h' := fresh "h'" in let v := fresh "v" in let x := fresh "x" in
  let Hs := fresh "Hs" in let Hv := fresh "Hv" in
  intros h h' v x Hs Hv; cbn [view inst] in Hv |- *; unfold read in *; read_fields Hv;
  repeat match goal with
  | Hx : _ = Some _ |- _ => rewrite (steady _ _ _ _ Hs Hx); clear Hx; cbn [mbind option_bind]
  end; reflexivity.
Tactic Notation "struct_copy" reference(inst) reference(copy) reference(read) :=
  let h := fresh "h" in let v := fresh "v" in let x := fresh "x" in let Hv := fresh "Hv" in
  intros h v x Hv; lazymatch goal with |- exists v' h', ?m = _ /\ _ /\ ?P =>
    change (copies_from h h (DeepCopyInto v) (fun g v' => view g v' = Some x)) end;
  cbn [DeepCopyInto view inst] in Hv |- *; unfold copy; unfold read in *; read_fields Hv;
  repeat (eapply copies_from_field;
    [typeclasses eauto|typeclasses eauto|later_heap|eassumption|intros ? ? ? ? ?]);
  apply copies_from_ret; cbn -[view];
  repeat match goal with Hx : forall h2, _ ⊆ h2 -> _ = Some _ |- _ =>
    rewrite Hx by later_heap; clear Hx; cbn [mbind option_bind] end;
  reflexivity.
