(* ===== verification/DeepCopy.v ===== *)
(** * The generated copies ([pkg/crd/osm/v1alpha1/zz_generated.deepcopy.go])

    The types of the CRDs as they lie in memory, with pointers, slices and maps
    as references ([Mem]), and their [DeepCopyInto] and [DeepCopy].  What a value
    in memory represents is a value of [Types].  The memory of
    [runtime.RawExtension], [metav1.ObjectMeta] and [metav1.ListMeta], and their
    own copies, are an interface. *)

From S2P Require Import Prelude GoStrings Types ContainerRuntime GoHeap.

(** ** Types in memory *)

(** The types of the Kubernetes libraries: their memory, the cells they point
    to, their zero values; and [metav1.ListMeta] as a value. *)
Class ForeignMemory := {
  foreign_cell : Type;
  RawExtension_mem : Type;
  ObjectMeta_mem : Type;
  ListMeta_mem : Type;
  ListMeta : Type;
  zero_RawExtension : RawExtension_mem;
  zero_ObjectMeta : ObjectMeta_mem;
  zero_ListMeta : ListMeta_mem
}.

(** [metav1.TypeMeta] holds two strings. *)
Record TypeMeta := { TypeMeta_Kind : string; TypeMeta_APIVersion : string }.

Module Mem.
Section Types.
Context `{ForeignMemory}.

Record FileContent := { Inline : option loc }.
Record File := { Path : string; Permissions : Z; Content : FileContent }.
Record Unit := {
  Unit_Name : string; Enable : option loc; Mask : option loc; Unit_Content : option loc; DropIns : option slice }.
Record CloudProviderSpec := { CloudProviderSpec_Name : string; CloudProviderSpec_Spec : RawExtension_mem }.
Record ContainerRuntimeSpec := {
  ContainerRuntimeSpec_Name : string; Files : option slice; Templates : option loc }.
Record CloudInitModule := {
  BootCMD : option slice; RHSubscription : option loc; RunCMD : option slice; YumRepos : option loc;
  YumRepoDir : string }.
Record OSPConfig := {
  SupportedContainerRuntimes : option slice; OSPConfig_Templates : option loc; OSPConfig_Units : option slice;
  OSPConfig_Files : option slice; OSPConfig_CloudInitModules : option loc }.
Record OSCConfig := {
  OSCConfig_Units : option slice; OSCConfig_Files : option slice; UserSSHKeys : option slice;
  OSCConfig_CloudInitModules : option loc }.
Record OperatingSystemProfileSpec := {
  OSP_OSName : string; OSP_OSVersion : string; OSP_Version : string; SupportedCloudProviders : option slice;
  OSP_BootstrapConfig : OSPConfig; OSP_ProvisioningConfig : OSPConfig; OSP_ProvisioningUtility : string }.
Record OperatingSystemProfile := {
  OSP_TypeMeta : TypeMeta; OSP_ObjectMeta : ObjectMeta_mem; OSP_Spec : OperatingSystemProfileSpec }.
Record OperatingSystemConfigSpec := {
  OSC_OSName : string; OSC_OSVersion : string; OSC_CloudProvider : CloudProviderSpec;
  OSC_BootstrapConfig : OSCConfig; OSC_ProvisioningConfig : OSCConfig; OSC_ProvisioningUtility : string }.
Record OperatingSystemConfig := {
  OSC_TypeMeta : TypeMeta; OSC_ObjectMeta : ObjectMeta_mem; OSC_Spec : OperatingSystemConfigSpec }.
Record OSPList := { OSPList_TypeMeta : TypeMeta; OSPList_ListMeta : ListMeta_mem; OSPList_Items : option slice }.
Record OSCList := { OSCList_TypeMeta : TypeMeta; OSCList_ListMeta : ListMeta_mem; OSCList_Items : option slice }.

(** What an address can point to: a variable, an array or a map. *)
Inductive cell :=
| CForeign (c : foreign_cell)
| CBool (b : bool)
| CString (s : string)
| CStrings (l : list string)
| CStringMap (m : gmap string string)
| CMaps (m : gmap string (option loc))
| CDropIn (x : DropIn)
| CDropIns (l : list DropIn)
| CInline (x : FileContentInline)
| CFileContent (x : FileContent)
| CFile (x : File)
| CFiles (l : list File)
| CUnit (x : Unit)
| CUnits (l : list Unit)
| CCloudProviderSpec (x : CloudProviderSpec)
| CCloudProviderSpecs (l : list CloudProviderSpec)
| CContainerRuntimeSpec (x : ContainerRuntimeSpec)
| CContainerRuntimeSpecs (l : list ContainerRuntimeSpec)
| CCloudInitModule (x : CloudInitModule)
| COSPConfig (x : OSPConfig)
| COSCConfig (x : OSCConfig)
| COSPSpec (x : OperatingSystemProfileSpec)
| COSCSpec (x : OperatingSystemConfigSpec)
| COSP (x : OperatingSystemProfile)
| COSPs (l : list OperatingSystemProfile)
| COSC (x : OperatingSystemConfig)
| COSCs (l : list OperatingSystemConfig)
| COSPList (x : OSPList)
| COSCList (x : OSCList).

#[global] Instance CBool_cell : Cell cell bool :=
  {| cell_of := CBool; of_cell c := match c with CBool x => Some x | _ => None end; of_cell_of _ := eq_refl |}.
#[global] Instance CString_cell : Cell cell string :=
  {| cell_of := CString; of_cell c := match c with CString x => Some x | _ => None end; of_cell_of _ := eq_refl |}.
#[global] Instance CStrings_cell : Cell cell (list string) :=
  {| cell_of := CStrings; of_cell c := match c with CStrings x => Some x | _ => None end; of_cell_of _ := eq_refl |}.
#[global] Instance CStringMap_cell : Cell cell (gmap string string) :=
  {| cell_of := CStringMap; of_cell c := match c with CStringMap x => Some x | _ => None end; of_cell_of _ := eq_refl |}.
#[global] Instance CMaps_cell : Cell cell (gmap string (option loc)) :=
  {| cell_of := CMaps; of_cell c := match c with CMaps x => Some x | _ => None end; of_cell_of _ := eq_refl |}.
#[global] Instance CDropIn_cell : Cell cell DropIn :=
  {| cell_of := CDropIn; of_cell c := match c with CDropIn x => Some x | _ => None end; of_cell_of _ := eq_refl |}.
#[global] Instance CDropIns_cell : Cell cell (list DropIn) :=
  {| cell_of := CDropIns; of_cell c := match c with CDropIns x => Some x | _ => None end; of_cell_of _ := eq_refl |}.
#[global] Instance CInline_cell : Cell cell FileContentInline :=
  {| cell_of := CInline; of_cell c := match c with CInline x => Some x | _ => None end; of_cell_of _ := eq_refl |}.
#[global] Instance CFileContent_cell : Cell cell FileContent :=
  {| cell_of := CFileContent; of_cell c := match c with CFileContent x => Some x | _ => None end; of_cell_of _ := eq_refl |}.
#[global] Instance CFile_cell : Cell cell File :=
  {| cell_of := CFile; of_cell c := match c with CFile x => Some x | _ => None end; of_cell_of _ := eq_refl |}.
#[global] Instance CFiles_cell : Cell cell (list File) :=
  {| cell_of := CFiles; of_cell c := match c with CFiles x => Some x | _ => None end; of_cell_of _ := eq_refl |}.
#[global] Instance CUnit_cell : Cell cell Unit :=
  {| cell_of := CUnit; of_cell c := match c with CUnit x => Some x | _ => None end; of_cell_of _ := eq_refl |}.
#[global] Instance CUnits_cell : Cell cell (list Unit) :=
  {| cell_of := CUnits; of_cell c := match c with CUnits x => Some x | _ => None end; of_cell_of _ := eq_refl |}.
#[global] Instance CCloudProviderSpec_cell : Cell cell CloudProviderSpec :=
  {| cell_of := CCloudProviderSpec; of_cell c := match c with CCloudProviderSpec x => Some x | _ => None end; of_cell_of _ := eq_refl |}.
#[global] Instance CCloudProviderSpecs_cell : Cell cell (list CloudProviderSpec) :=
  {| cell_of := CCloudProviderSpecs; of_cell c := match c with CCloudProviderSpecs x => Some x | _ => None end; of_cell_of _ := eq_refl |}.
#[global] Instance CContainerRuntimeSpec_cell : Cell cell ContainerRuntimeSpec :=
  {| cell_of := CContainerRuntimeSpec; of_cell c := match c with CContainerRuntimeSpec x => Some x | _ => None end; of_cell_of _ := eq_refl |}.
#[global] Instance CContainerRuntimeSpecs_cell : Cell cell (list ContainerRuntimeSpec) :=
  {| cell_of := CContainerRuntimeSpecs; of_cell c := match c with CContainerRuntimeSpecs x => Some x | _ => None end; of_cell_of _ := eq_refl |}.
#[global] Instance CCloudInitModule_cell : Cell cell CloudInitModule :=
  {| cell_of := CCloudInitModule; of_cell c := match c with CCloudInitModule x => Some x | _ => None end; of_cell_of _ := eq_refl |}.
#[global] Instance COSPConfig_cell : Cell cell OSPConfig :=
  {| cell_of := COSPConfig; of_cell c := match c with COSPConfig x => Some x | _ => None end; of_cell_of _ := eq_refl |}.
#[global] Instance COSCConfig_cell : Cell cell OSCConfig :=
  {| cell_of := COSCConfig; of_cell c := match c with COSCConfig x => Some x | _ => None end; of_cell_of _ := eq_refl |}.
#[global] Instance COSPSpec_cell : Cell cell OperatingSystemProfileSpec :=
  {| cell_of := COSPSpec; of_cell c := match c with COSPSpec x => Some x | _ => None end; of_cell_of _ := eq_refl |}.
#[global] Instance COSCSpec_cell : Cell cell OperatingSystemConfigSpec :=
  {| cell_of := COSCSpec; of_cell c := match c with COSCSpec x => Some x | _ => None end; of_cell_of _ := eq_refl |}.
#[global] Instance COSP_cell : Cell cell OperatingSystemProfile :=
  {| cell_of := COSP; of_cell c := match c with COSP x => Some x | _ => None end; of_cell_of _ := eq_refl |}.
#[global] Instance COSPs_cell : Cell cell (list OperatingSystemProfile) :=
  {| cell_of := COSPs; of_cell c := match c with COSPs x => Some x | _ => None end; of_cell_of _ := eq_refl |}.
#[global] Instance COSC_cell : Cell cell OperatingSystemConfig :=
  {| cell_of := COSC; of_cell c := match c with COSC x => Some x | _ => None end; of_cell_of _ := eq_refl |}.
#[global] Instance COSCs_cell : Cell cell (list OperatingSystemConfig) :=
  {| cell_of := COSCs; of_cell c := match c with COSCs x => Some x | _ => None end; of_cell_of _ := eq_refl |}.
#[global] Instance COSPList_cell : Cell cell OSPList :=
  {| cell_of := COSPList; of_cell c := match c with COSPList x => Some x | _ => None end; of_cell_of _ := eq_refl |}.
#[global] Instance COSCList_cell : Cell cell OSCList :=
  {| cell_of := COSCList; of_cell c := match c with COSCList x => Some x | _ => None end; of_cell_of _ := eq_refl |}.
End Types.
End Mem.

(** ** The functions *)

Section DeepCopy.
Context `{ForeignMemory, MapRange}.
Import Mem.

#[local] Abbreviation heap := (gmap loc cell).
#[local] Abbreviation M := (GoHeap.M cell).

(** [DeepCopyInto] of the Kubernetes types, with what their memory represents. *)
Class ForeignCopy := {
  #[global] RawExtension_copy :: GoCopy cell RawExtension_mem RawExtension;
  #[global] ObjectMeta_copy :: GoCopy cell ObjectMeta_mem ObjectMeta;
  #[global] ListMeta_copy :: GoCopy cell ListMeta_mem ListMeta
}.
Context `{ForeignCopy}.

#[export] Instance bool_copy : GoCopy cell bool bool := flat.
#[export] Instance string_copy : GoCopy cell string string := flat.
#[export] Instance strings_copy : GoCopy cell (option loc) (gmap string string) :=
  {| DeepCopyInto := copy_map; view := view_map |}.

(** [*out = *in] is all there is. *)
Definition FileContentInline_DeepCopyInto (in_ : FileContentInline) : M FileContentInline := retM in_.
#[export] Instance FileContentInline_copy : GoCopy cell FileContentInline FileContentInline :=
  {| DeepCopyInto := FileContentInline_DeepCopyInto; view _ v := Some v |}.
Definition DropIn_DeepCopyInto (in_ : DropIn) : M DropIn := retM in_.
#[export] Instance DropIn_copy : GoCopy cell DropIn DropIn :=
  {| DeepCopyInto := DropIn_DeepCopyInto; view _ v := Some v |}.

Definition zero_Inline : FileContentInline := {| Inline_Encoding := ""; Inline_Data := "" |}.
Definition zero_DropIn : DropIn := {| DropIn_Name := ""; DropIn_Content := "" |}.

Definition FileContent_DeepCopyInto (in_ : FileContent) : M FileContent :=
  inline <~ copy_pointer zero_Inline (Inline in_);
  retM {| Inline := inline |}.
Definition FileContent_view (h : heap) (v : FileContent) : option Types.FileContent :=
  inline ← view_pointer h (Inline v);
  Some {| Types.Inline := inline |}.
#[export] Instance FileContent_copy : GoCopy cell FileContent Types.FileContent :=
  {| DeepCopyInto := FileContent_DeepCopyInto; view := FileContent_view |}.
Definition zero_FileContent : FileContent := {| Inline := None |}.

Definition File_DeepCopyInto (in_ : File) : M File :=
  content <~ DeepCopyInto (Content in_);
  retM {| Path := Path in_; Permissions := Permissions in_; Content := content |}.
Definition File_view (h : heap) (v : File) : option Types.File :=
  content ← view h (Content v);
  Some {| File_Path := Path v; File_Permissions := Permissions v; File_Content := content |}.
#[export] Instance File_copy : GoCopy cell File Types.File :=
  {| DeepCopyInto := File_DeepCopyInto; view := File_view |}.
Definition zero_File : File := {| Path := ""; Permissions := 0; Content := zero_FileContent |}.

Definition Unit_DeepCopyInto (in_ : Unit) : M Unit :=
  enable <~ copy_pointer false (Enable in_);
  mask <~ copy_pointer false (Mask in_);
  content <~ copy_pointer "" (Unit_Content in_);
  dropIns <~ copy_flat_slice zero_DropIn (DropIns in_);
  retM {| Unit_Name := Unit_Name in_; Enable := enable; Mask := mask; Unit_Content := content; DropIns := dropIns |}.
Definition Unit_view (h : heap) (v : Unit) : option Types.Unit :=
  enable ← view_pointer h (Enable v);
  mask ← view_pointer h (Mask v);
  content ← view_pointer h (Unit_Content v);
  dropIns ← view_flat_slice h (DropIns v);
  Some {| Types.Unit_Name := Unit_Name v; Unit_Enable := enable; Unit_Mask := mask; Types.Unit_Content := content;
          Unit_DropIns := dropIns |}.
#[export] Instance Unit_copy : GoCopy cell Unit Types.Unit :=
  {| DeepCopyInto := Unit_DeepCopyInto; view := Unit_view |}.
Definition zero_Unit : Unit :=
  {| Unit_Name := ""; Enable := None; Mask := None; Unit_Content := None; DropIns := None |}.

Definition CloudProviderSpec_DeepCopyInto (in_ : CloudProviderSpec) : M CloudProviderSpec :=
  spec <~ DeepCopyInto (CloudProviderSpec_Spec in_);
  retM {| CloudProviderSpec_Name := CloudProviderSpec_Name in_; CloudProviderSpec_Spec := spec |}.
Definition CloudProviderSpec_view (h : heap) (v : CloudProviderSpec) : option Types.CloudProviderSpec :=
  spec ← view h (CloudProviderSpec_Spec v);
  Some {| Types.CloudProviderSpec_Name := CloudProviderSpec_Name v; Types.CloudProviderSpec_Spec := spec |}.
#[export] Instance CloudProviderSpec_copy : GoCopy cell CloudProviderSpec Types.CloudProviderSpec :=
  {| DeepCopyInto := CloudProviderSpec_DeepCopyInto; view := CloudProviderSpec_view |}.
Definition zero_CloudProviderSpec : CloudProviderSpec :=
  {| CloudProviderSpec_Name := ""; CloudProviderSpec_Spec := zero_RawExtension |}.

Definition ContainerRuntimeSpec_DeepCopyInto (in_ : ContainerRuntimeSpec) : M ContainerRuntimeSpec :=
  files <~ copy_slice zero_File (Files in_);
  templates <~ copy_map (V := string) (Templates in_);
  retM {| ContainerRuntimeSpec_Name := ContainerRuntimeSpec_Name in_; Files := files; Templates := templates |}.
Definition ContainerRuntimeSpec_view (h : heap) (v : ContainerRuntimeSpec) : option Types.ContainerRuntimeSpec :=
  files ← view_slice h (Files v);
  templates ← view_map (V := string) h (Templates v);
  Some {| Types.ContainerRuntimeSpec_Name := ContainerRuntimeSpec_Name v; ContainerRuntimeSpec_Files := files;
          ContainerRuntimeSpec_Templates := templates |}.
#[export] Instance ContainerRuntimeSpec_copy : GoCopy cell ContainerRuntimeSpec Types.ContainerRuntimeSpec :=
  {| DeepCopyInto := ContainerRuntimeSpec_DeepCopyInto; view := ContainerRuntimeSpec_view |}.
Definition zero_ContainerRuntimeSpec : ContainerRuntimeSpec :=
  {| ContainerRuntimeSpec_Name := ""; Files := None; Templates := None |}.

Definition CloudInitModule_DeepCopyInto (in_ : CloudInitModule) : M CloudInitModule :=
  bootCMD <~ copy_flat_slice "" (BootCMD in_);
  rhSubscription <~ copy_map (V := string) (RHSubscription in_);
  runCMD <~ copy_flat_slice "" (RunCMD in_);
  yumRepos <~ copy_map (V := option loc) (YumRepos in_);
  retM {| BootCMD := bootCMD; RHSubscription := rhSubscription; RunCMD := runCMD; YumRepos := yumRepos;
          YumRepoDir := YumRepoDir in_ |}.
Definition CloudInitModule_view (h : heap) (v : CloudInitModule) : option Types.CloudInitModule :=
  bootCMD ← view_flat_slice h (BootCMD v);
  rhSubscription ← view_map (V := string) h (RHSubscription v);
  runCMD ← view_flat_slice h (RunCMD v);
  yumRepos ← view_map (V := option loc) h (YumRepos v);
  Some {| Types.BootCMD := bootCMD; Types.RHSubscription := rhSubscription; Types.RunCMD := runCMD;
          Types.YumRepos := yumRepos; Types.YumRepoDir := YumRepoDir v |}.
#[export] Instance CloudInitModule_copy : GoCopy cell CloudInitModule Types.CloudInitModule :=
  {| DeepCopyInto := CloudInitModule_DeepCopyInto; view := CloudInitModule_view |}.
Definition zero_CloudInitModule : CloudInitModule :=
  {| BootCMD := None; RHSubscription := None; RunCMD := None; YumRepos := None; YumRepoDir := "" |}.

Definition OSPConfig_DeepCopyInto (in_ : OSPConfig) : M OSPConfig :=
  runtimes <~ copy_slice zero_ContainerRuntimeSpec (SupportedContainerRuntimes in_);
  templates <~ copy_map (V := string) (OSPConfig_Templates in_);
  units <~ copy_slice zero_Unit (OSPConfig_Units in_);
  files <~ copy_slice zero_File (OSPConfig_Files in_);
  modules <~ copy_pointer zero_CloudInitModule (OSPConfig_CloudInitModules in_);
  retM {| SupportedContainerRuntimes := runtimes; OSPConfig_Templates := templates; OSPConfig_Units := units;
          OSPConfig_Files := files; OSPConfig_CloudInitModules := modules |}.
Definition OSPConfig_view (h : heap) (v : OSPConfig) : option Types.OSPConfig :=
  runtimes ← view_slice h (SupportedContainerRuntimes v);
  templates ← view_map (V := string) h (OSPConfig_Templates v);
  units ← view_slice h (OSPConfig_Units v);
  files ← view_slice h (OSPConfig_Files v);
  modules ← view_pointer h (OSPConfig_CloudInitModules v);
  Some {| Types.SupportedContainerRuntimes := runtimes; Types.OSPConfig_Templates := templates;
          Types.OSPConfig_Units := units; Types.OSPConfig_Files := files;
          Types.OSPConfig_CloudInitModules := modules |}.
#[export] Instance OSPConfig_copy : GoCopy cell OSPConfig Types.OSPConfig :=
  {| DeepCopyInto := OSPConfig_DeepCopyInto; view := OSPConfig_view |}.
Definition zero_OSPConfig : OSPConfig :=
  {| SupportedContainerRuntimes := None; OSPConfig_Templates := None; OSPConfig_Units := None;
     OSPConfig_Files := None; OSPConfig_CloudInitModules := None |}.

Definition OSCConfig_DeepCopyInto (in_ : OSCConfig) : M OSCConfig :=
  units <~ copy_slice zero_Unit (OSCConfig_Units in_);
  files <~ copy_slice zero_File (OSCConfig_Files in_);
  userSSHKeys <~ copy_flat_slice "" (UserSSHKeys in_);
  modules <~ copy_pointer zero_CloudInitModule (OSCConfig_CloudInitModules in_);
  retM {| OSCConfig_Units := units; OSCConfig_Files := files; UserSSHKeys := userSSHKeys;
          OSCConfig_CloudInitModules := modules |}.
Definition OSCConfig_view (h : heap) (v : OSCConfig) : option Types.OSCConfig :=
  units ← view_slice h (OSCConfig_Units v);
  files ← view_slice h (OSCConfig_Files v);
  userSSHKeys ← view_flat_slice h (UserSSHKeys v);
  modules ← view_pointer h (OSCConfig_CloudInitModules v);
  Some {| Types.OSCConfig_Units := units; Types.OSCConfig_Files := files; Types.UserSSHKeys := userSSHKeys;
          Types.OSCConfig_CloudInitModules := modules |}.
#[export] Instance OSCConfig_copy : GoCopy cell OSCConfig Types.OSCConfig :=
  {| DeepCopyInto := OSCConfig_DeepCopyInto; view := OSCConfig_view |}.
Definition zero_OSCConfig : OSCConfig :=
  {| OSCConfig_Units := None; OSCConfig_Files := None; UserSSHKeys := None; OSCConfig_CloudInitModules := None |}.

Definition OperatingSystemProfileSpec_DeepCopyInto (in_ : OperatingSystemProfileSpec) : M OperatingSystemProfileSpec :=
  providers <~ copy_slice zero_CloudProviderSpec (SupportedCloudProviders in_);
  bootstrapConfig <~ DeepCopyInto (OSP_BootstrapConfig in_);
  provisioningConfig <~ DeepCopyInto (OSP_ProvisioningConfig in_);
  retM {| OSP_OSName := OSP_OSName in_; OSP_OSVersion := OSP_OSVersion in_; OSP_Version := OSP_Version in_;
          SupportedCloudProviders := providers; OSP_BootstrapConfig := bootstrapConfig;
          OSP_ProvisioningConfig := provisioningConfig; OSP_ProvisioningUtility := OSP_ProvisioningUtility in_ |}.
Definition OperatingSystemProfileSpec_view (h : heap) (v : OperatingSystemProfileSpec)
    : option Types.OperatingSystemProfileSpec :=
  providers ← view_slice h (SupportedCloudProviders v);
  bootstrapConfig ← view h (OSP_BootstrapConfig v);
  provisioningConfig ← view h (OSP_ProvisioningConfig v);
  Some {| Types.OSP_OSName := OSP_OSName v; Types.OSP_OSVersion := OSP_OSVersion v; Types.OSP_Version := OSP_Version v;
          Types.SupportedCloudProviders := providers; Types.OSP_BootstrapConfig := bootstrapConfig;
          Types.OSP_ProvisioningConfig := provisioningConfig;
          Types.OSP_ProvisioningUtility := OSP_ProvisioningUtility v |}.
#[export] Instance OperatingSystemProfileSpec_copy :
    GoCopy cell OperatingSystemProfileSpec Types.OperatingSystemProfileSpec :=
  {| DeepCopyInto := OperatingSystemProfileSpec_DeepCopyInto; view := OperatingSystemProfileSpec_view |}.
Definition zero_OSPSpec : OperatingSystemProfileSpec :=
  {| OSP_OSName := ""; OSP_OSVersion := ""; OSP_Version := ""; SupportedCloudProviders := None;
     OSP_BootstrapConfig := zero_OSPConfig; OSP_ProvisioningConfig := zero_OSPConfig; OSP_ProvisioningUtility := "" |}.

Definition OperatingSystemConfigSpec_DeepCopyInto (in_ : OperatingSystemConfigSpec) : M OperatingSystemConfigSpec :=
  cloudProvider <~ DeepCopyInto (OSC_CloudProvider in_);
  bootstrapConfig <~ DeepCopyInto (OSC_BootstrapConfig in_);
  provisioningConfig <~ DeepCopyInto (OSC_ProvisioningConfig in_);
  retM {| OSC_OSName := OSC_OSName in_; OSC_OSVersion := OSC_OSVersion in_; OSC_CloudProvider := cloudProvider;
          OSC_BootstrapConfig := bootstrapConfig; OSC_ProvisioningConfig := provisioningConfig;
          OSC_ProvisioningUtility := OSC_ProvisioningUtility in_ |}.
Definition OperatingSystemConfigSpec_view (h : heap) (v : OperatingSystemConfigSpec)
    : option Types.OperatingSystemConfigSpec :=
  cloudProvider ← view h (OSC_CloudProvider v);
  bootstrapConfig ← view h (OSC_BootstrapConfig v);
  provisioningConfig ← view h (OSC_ProvisioningConfig v);
  Some {| Types.OSC_OSName := OSC_OSName v; Types.OSC_OSVersion := OSC_OSVersion v;
          Types.OSC_CloudProvider := cloudProvider; Types.OSC_BootstrapConfig := bootstrapConfig;
          Types.OSC_ProvisioningConfig := provisioningConfig;
          Types.OSC_ProvisioningUtility := OSC_ProvisioningUtility v |}.
#[export] Instance OperatingSystemConfigSpec_copy :
    GoCopy cell OperatingSystemConfigSpec Types.OperatingSystemConfigSpec :=
  {| DeepCopyInto := OperatingSystemConfigSpec_DeepCopyInto; view := OperatingSystemConfigSpec_view |}.
Definition zero_OSCSpec : OperatingSystemConfigSpec :=
  {| OSC_OSName := ""; OSC_OSVersion := ""; OSC_CloudProvider := zero_CloudProviderSpec;
     OSC_BootstrapConfig := zero_OSCConfig; OSC_ProvisioningConfig := zero_OSCConfig; OSC_ProvisioningUtility := "" |}.
Definition zero_TypeMeta : TypeMeta := {| TypeMeta_Kind := ""; TypeMeta_APIVersion := "" |}.

Definition OperatingSystemProfile_DeepCopyInto (in_ : OperatingSystemProfile) : M OperatingSystemProfile :=
  meta <~ DeepCopyInto (OSP_ObjectMeta in_);
  spec <~ DeepCopyInto (OSP_Spec in_);
  retM {| OSP_TypeMeta := OSP_TypeMeta in_; OSP_ObjectMeta := meta; OSP_Spec := spec |}.
Definition OperatingSystemProfile_view (h : heap) (v : OperatingSystemProfile)
    : option (TypeMeta * Types.OperatingSystemProfile) :=
  meta ← view h (OSP_ObjectMeta v);
  spec ← view h (OSP_Spec v);
  Some (OSP_TypeMeta v, {| OSP_Meta := meta; Types.OSP_Spec := spec |}).
#[export] Instance OperatingSystemProfile_copy :
    GoCopy cell OperatingSystemProfile (TypeMeta * Types.OperatingSystemProfile) :=
  {| DeepCopyInto := OperatingSystemProfile_DeepCopyInto; view := OperatingSystemProfile_view |}.
Definition zero_OSP : OperatingSystemProfile :=
  {| OSP_TypeMeta := zero_TypeMeta; OSP_ObjectMeta := zero_ObjectMeta; OSP_Spec := zero_OSPSpec |}.

Definition OperatingSystemConfig_DeepCopyInto (in_ : OperatingSystemConfig) : M OperatingSystemConfig :=
  meta <~ DeepCopyInto (OSC_ObjectMeta in_);
  spec <~ DeepCopyInto (OSC_Spec in_);
  retM {| OSC_TypeMeta := OSC_TypeMeta in_; OSC_ObjectMeta := meta; OSC_Spec := spec |}.
Definition OperatingSystemConfig_view (h : heap) (v : OperatingSystemConfig)
    : option (TypeMeta * Types.OperatingSystemConfig) :=
  meta ← view h (OSC_ObjectMeta v);
  spec ← view h (OSC_Spec v);
  Some (OSC_TypeMeta v, {| OSC_Meta := meta; Types.OSC_Spec := spec |}).
#[export] Instance OperatingSystemConfig_copy :
    GoCopy cell OperatingSystemConfig (TypeMeta * Types.OperatingSystemConfig) :=
  {| DeepCopyInto := OperatingSystemConfig_DeepCopyInto; view := OperatingSystemConfig_view |}.
Definition zero_OSC : OperatingSystemConfig :=
  {| OSC_TypeMeta := zero_TypeMeta; OSC_ObjectMeta := zero_ObjectMeta; OSC_Spec := zero_OSCSpec |}.

Definition OperatingSystemProfileList_DeepCopyInto (in_ : OSPList) : M OSPList :=
  meta <~ DeepCopyInto (OSPList_ListMeta in_);
  items <~ copy_slice zero_OSP (OSPList_Items in_);
  retM {| OSPList_TypeMeta := OSPList_TypeMeta in_; OSPList_ListMeta := meta; OSPList_Items := items |}.
Definition OperatingSystemProfileList_view (h : heap) (v : OSPList)
    : option (TypeMeta * ListMeta * list (TypeMeta * Types.OperatingSystemProfile)) :=
  meta ← view h (OSPList_ListMeta v);
  items ← view_slice h (OSPList_Items v);
  Some (OSPList_TypeMeta v, meta, items).
#[export] Instance OperatingSystemProfileList_copy :
    GoCopy cell OSPList (TypeMeta * ListMeta * list (TypeMeta * Types.OperatingSystemProfile)) :=
  {| DeepCopyInto := OperatingSystemProfileList_DeepCopyInto; view := OperatingSystemProfileList_view |}.
Definition zero_OSPList : OSPList :=
  {| OSPList_TypeMeta := zero_TypeMeta; OSPList_ListMeta := zero_ListMeta; OSPList_Items := None |}.

Definition OperatingSystemConfigList_DeepCopyInto (in_ : OSCList) : M OSCList :=
  meta <~ DeepCopyInto (OSCList_ListMeta in_);
  items <~ copy_slice zero_OSC (OSCList_Items in_);
  retM {| OSCList_TypeMeta := OSCList_TypeMeta in_; OSCList_ListMeta := meta; OSCList_Items := items |}.
Definition OperatingSystemConfigList_view (h : heap) (v : OSCList)
    : option (TypeMeta * ListMeta * list (TypeMeta * Types.OperatingSystemConfig)) :=
  meta ← view h (OSCList_ListMeta v);
  items ← view_slice h (OSCList_Items v);
  Some (OSCList_TypeMeta v, meta, items).
#[export] Instance OperatingSystemConfigList_copy :
    GoCopy cell OSCList (TypeMeta * ListMeta * list (TypeMeta * Types.OperatingSystemConfig)) :=
  {| DeepCopyInto := OperatingSystemConfigList_DeepCopyInto; view := OperatingSystemConfigList_view |}.
Definition zero_OSCList : OSCList :=
  {| OSCList_TypeMeta := zero_TypeMeta; OSCList_ListMeta := zero_ListMeta; OSCList_Items := None |}.

(** [DeepCopy] of each type: nil for nil, else [new] and [DeepCopyInto]. *)
Definition CloudInitModule_DeepCopy : option loc -> M (option loc) := copy_pointer zero_CloudInitModule.
Definition CloudProviderSpec_DeepCopy : option loc -> M (option loc) := copy_pointer zero_CloudProviderSpec.
Definition ContainerRuntimeSpec_DeepCopy : option loc -> M (option loc) := copy_pointer zero_ContainerRuntimeSpec.
Definition DropIn_DeepCopy : option loc -> M (option loc) := copy_pointer zero_DropIn.
Definition File_DeepCopy : option loc -> M (option loc) := copy_pointer zero_File.
Definition FileContent_DeepCopy : option loc -> M (option loc) := copy_pointer zero_FileContent.
Definition FileContentInline_DeepCopy : option loc -> M (option loc) := copy_pointer zero_Inline.
Definition OSCConfig_DeepCopy : option loc -> M (option loc) := copy_pointer zero_OSCConfig.
Definition OSPConfig_DeepCopy : option loc -> M (option loc) := copy_pointer zero_OSPConfig.
Definition OperatingSystemConfig_DeepCopy : option loc -> M (option loc) := copy_pointer zero_OSC.
Definition OperatingSystemConfigList_DeepCopy : option loc -> M (option loc) := copy_pointer zero_OSCList.
Definition OperatingSystemConfigSpec_DeepCopy : option loc -> M (option loc) := copy_pointer zero_OSCSpec.
Definition OperatingSystemProfile_DeepCopy : option loc -> M (option loc) := copy_pointer zero_OSP.
Definition OperatingSystemProfileList_DeepCopy : option loc -> M (option loc) := copy_pointer zero_OSPList.
Definition OperatingSystemProfileSpec_DeepCopy : option loc -> M (option loc) := copy_pointer zero_OSPSpec.
Definition Unit_DeepCopy : option loc -> M (option loc) := copy_pointer zero_Unit.

(** [DeepCopyObject]: an interface that is nil when the copy is. *)
Inductive Object := OfOSP (l : loc) | OfOSC (l : loc) | OfOSPList (l : loc) | OfOSCList (l : loc).
Definition OperatingSystemConfig_DeepCopyObject (in_ : option loc) : M (option Object) :=
  c <~ OperatingSystemConfig_DeepCopy in_; retM (OfOSC <$> c).
Definition OperatingSystemConfigList_DeepCopyObject (in_ : option loc) : M (option Object) :=
  c <~ OperatingSystemConfigList_DeepCopy in_; retM (OfOSCList <$> c).
Definition OperatingSystemProfile_DeepCopyObject (in_ : option loc) : M (option Object) :=
  c <~ OperatingSystemProfile_DeepCopy in_; retM (OfOSP <$> c).
Definition OperatingSystemProfileList_DeepCopyObject (in_ : option loc) : M (option Object) :=
  c <~ OperatingSystemProfileList_DeepCopy in_; retM (OfOSPList <$> c).
End DeepCopy.

(** ** Their laws *)

Section Laws.
Import Mem.
Context `{ForeignMemory, MapRange, !ForeignCopy,
  !GoCopyLaws cell RawExtension_mem RawExtension, !GoCopyLaws cell ObjectMeta_mem ObjectMeta,
  !GoCopyLaws cell ListMeta_mem ListMeta}.

#[export] Instance bool_laws : GoCopyLaws cell bool bool := flat_laws.
#[export] Instance string_laws : GoCopyLaws cell string string := flat_laws.
#[export] Instance FileContentInline_laws : GoCopyLaws cell FileContentInline FileContentInline := flat_laws.
#[export] Instance DropIn_laws : GoCopyLaws cell DropIn DropIn := flat_laws.
#[export] Instance strings_laws : GoCopyLaws cell (option loc) (gmap string string).
Proof. split; [exact (map_steady (V := string) _)|exact (copy_map_ok (V := string))]. Qed.

#[export] Instance FileContent_laws : GoCopyLaws cell FileContent Types.FileContent.
Proof.
  split; [struct_steady FileContent_copy FileContent_view|].
  struct_copy FileContent_copy FileContent_DeepCopyInto FileContent_view.
Qed.
#[export] Instance File_laws : GoCopyLaws cell File Types.File.
Proof.
  split; [struct_steady File_copy File_view|].
  struct_copy File_copy File_DeepCopyInto File_view.
Qed.
#[export] Instance Unit_laws : GoCopyLaws cell Unit Types.Unit.
Proof.
  split; [struct_steady Unit_copy Unit_view|].
  struct_copy Unit_copy Unit_DeepCopyInto Unit_view.
Qed.
#[export] Instance CloudProviderSpec_laws : GoCopyLaws cell CloudProviderSpec Types.CloudProviderSpec.
Proof.
  split; [struct_steady CloudProviderSpec_copy CloudProviderSpec_view|].
  struct_copy CloudProviderSpec_copy CloudProviderSpec_DeepCopyInto CloudProviderSpec_view.
Qed.
#[export] Instance ContainerRuntimeSpec_laws : GoCopyLaws cell ContainerRuntimeSpec Types.ContainerRuntimeSpec.
Proof.
  split; [struct_steady ContainerRuntimeSpec_copy ContainerRuntimeSpec_view|].
  struct_copy ContainerRuntimeSpec_copy ContainerRuntimeSpec_DeepCopyInto ContainerRuntimeSpec_view.
Qed.
#[export] Instance CloudInitModule_laws : GoCopyLaws cell CloudInitModule Types.CloudInitModule.
Proof.
  split; [struct_steady CloudInitModule_copy CloudInitModule_view|].
  struct_copy CloudInitModule_copy CloudInitModule_DeepCopyInto CloudInitModule_view.
Qed.
#[export] Instance OSPConfig_laws : GoCopyLaws cell OSPConfig Types.OSPConfig.
Proof.
  split; [struct_steady OSPConfig_copy OSPConfig_view|].
  struct_copy OSPConfig_copy OSPConfig_DeepCopyInto OSPConfig_view.
Qed.
#[export] Instance OSCConfig_laws : GoCopyLaws cell OSCConfig Types.OSCConfig.
Proof.
  split; [struct_steady OSCConfig_copy OSCConfig_view|].
  struct_copy OSCConfig_copy OSCConfig_DeepCopyInto OSCConfig_view.
Qed.
#[export] Instance OperatingSystemProfileSpec_laws : GoCopyLaws cell OperatingSystemProfileSpec Types.OperatingSystemProfileSpec.
Proof.
  split; [struct_steady OperatingSystemProfileSpec_copy OperatingSystemProfileSpec_view|].
  struct_copy OperatingSystemProfileSpec_copy OperatingSystemProfileSpec_DeepCopyInto OperatingSystemProfileSpec_view.
Qed.
#[export] Instance OperatingSystemConfigSpec_laws : GoCopyLaws cell OperatingSystemConfigSpec Types.OperatingSystemConfigSpec.
Proof.
  split; [struct_steady OperatingSystemConfigSpec_copy OperatingSystemConfigSpec_view|].
  struct_copy OperatingSystemConfigSpec_copy OperatingSystemConfigSpec_DeepCopyInto OperatingSystemConfigSpec_view.
Qed.
#[export] Instance OperatingSystemProfile_laws : GoCopyLaws cell OperatingSystemProfile (TypeMeta * Types.OperatingSystemProfile).
Proof.
  split; [struct_steady OperatingSystemProfile_copy OperatingSystemProfile_view|].
  struct_copy OperatingSystemProfile_copy OperatingSystemProfile_DeepCopyInto OperatingSystemProfile_view.
Qed.
#[export] Instance OperatingSystemConfig_laws : GoCopyLaws cell OperatingSystemConfig (TypeMeta * Types.OperatingSystemConfig).
Proof.
  split; [struct_steady OperatingSystemConfig_copy OperatingSystemConfig_view|].
  struct_copy OperatingSystemConfig_copy OperatingSystemConfig_DeepCopyInto OperatingSystemConfig_view.
Qed.
#[export] Instance OperatingSystemProfileList_laws : GoCopyLaws cell OSPList (TypeMeta * ListMeta * list (TypeMeta * Types.OperatingSystemProfile)).
Proof.
  split; [struct_steady OperatingSystemProfileList_copy OperatingSystemProfileList_view|].
  struct_copy OperatingSystemProfileList_copy OperatingSystemProfileList_DeepCopyInto OperatingSystemProfileList_view.
Qed.
#[export] Instance OperatingSystemConfigList_laws : GoCopyLaws cell OSCList (TypeMeta * ListMeta * list (TypeMeta * Types.OperatingSystemConfig)).
Proof.
  split; [struct_steady OperatingSystemConfigList_copy OperatingSystemConfigList_view|].
  struct_copy OperatingSystemConfigList_copy OperatingSystemConfigList_DeepCopyInto OperatingSystemConfigList_view.
Qed.
End Laws.

(** ** Copies are independent *)

(** [copy] returns a pointer to new memory: whatever is done to the memory of
    either afterwards, the other one represents what the original did. *)
Definition independent `{ForeignMemory} {A} (copy : option loc -> M Mem.cell (option loc))
    (read : gmap loc Mem.cell -> option loc -> option A) : Prop :=
  forall h p x, read h p = Some x ->
    exists p' h', copy p h = Some (p', h') /\ h ⊆ h' /\
      (forall g, h ⊆ g -> read g p = Some x) /\ (forall g, h' ∖ h ⊆ g -> read g p' = Some x).

Section Independence.
Context `{ForeignMemory, MapRange, !ForeignCopy}.

(** C25: [DeepCopy] of a profile, a config and of lists of them, of files, units and modules: as long as the copies of the Kubernetes types keep their promise, the copy represents the same value as the original, the cells of the original are untouched, and later writes to the memory of the one never show in the other, for every heap, nil pointers, nil and empty slices and maps and shared memory included *)
Theorem DeepCopy_independent
    (Hraw : GoCopyLaws Mem.cell RawExtension_mem RawExtension) (Hmeta : GoCopyLaws Mem.cell ObjectMeta_mem ObjectMeta)
    (Hlist : GoCopyLaws Mem.cell ListMeta_mem ListMeta) :
  independent OperatingSystemProfile_DeepCopy (view_pointer (A := TypeMeta * OperatingSystemProfile)) /\
  independent OperatingSystemConfig_DeepCopy (view_pointer (A := TypeMeta * OperatingSystemConfig)) /\
  independent OperatingSystemProfileList_DeepCopy
    (view_pointer (A := TypeMeta * ListMeta * list (TypeMeta * OperatingSystemProfile))) /\
  independent OperatingSystemConfigList_DeepCopy
    (view_pointer (A := TypeMeta * ListMeta * list (TypeMeta * OperatingSystemConfig))) /\
  independent File_DeepCopy (view_pointer (A := File)) /\
  independent Unit_DeepCopy (view_pointer (A := Types.Unit)) /\
  independent CloudInitModule_DeepCopy (view_pointer (A := CloudInitModule)).
Proof. split_and!; intros h p x; apply (copy_independent (copy_pointer _) view_pointer). Qed.
End Independence.

(** ** Evaluation on concrete inputs *)

Module Demo.
#[export] Existing Instances ContainerRuntime.Demo.entries.
(** Values of the Kubernetes types without references. *)
#[export] Instance foreign : ForeignMemory :=
  {| foreign_cell := Empty_set; RawExtension_mem := RawExtension; ObjectMeta_mem := ObjectMeta; ListMeta_mem := ();
     ListMeta := (); zero_RawExtension := {| Raw := None |}; zero_ObjectMeta := object_meta "" ""; zero_ListMeta := () |}.
#[export] Instance foreign_copy : ForeignCopy :=
  {| RawExtension_copy := flat; ObjectMeta_copy := flat; ListMeta_copy := flat |}.
#[export] Instance raw_laws : GoCopyLaws Mem.cell RawExtension_mem RawExtension := flat_laws.
#[export] Instance meta_laws : GoCopyLaws Mem.cell ObjectMeta_mem ObjectMeta := flat_laws.
#[export] Instance list_laws : GoCopyLaws Mem.cell ListMeta_mem ListMeta := flat_laws.

(** A profile at address 1: both sections point to the module at address 2. *)
Definition section : Mem.OSPConfig :=
  {| Mem.SupportedContainerRuntimes := None; Mem.OSPConfig_Templates := None; Mem.OSPConfig_Units := None;
     Mem.OSPConfig_Files := Some {| arr := 3%positive; off := 1; len := 1 |};
     Mem.OSPConfig_CloudInitModules := Some 2%positive |}.
Definition profile : Mem.OperatingSystemProfile :=
  {| Mem.OSP_TypeMeta := zero_TypeMeta; Mem.OSP_ObjectMeta := object_meta "osp-rhel" "osm";
     Mem.OSP_Spec := {| Mem.OSP_OSName := "rhel"; Mem.OSP_OSVersion := "8"; Mem.OSP_Version := "v1.0.0";
       Mem.SupportedCloudProviders := None; Mem.OSP_BootstrapConfig := section;
       Mem.OSP_ProvisioningConfig := section; Mem.OSP_ProvisioningUtility := "" |} |}.
Definition modules : Mem.CloudInitModule :=
  {| Mem.BootCMD := Some {| arr := 5%positive; off := 0; len := 2 |}; Mem.RHSubscription := Some 6%positive;
     Mem.RunCMD := None; Mem.YumRepos := Some 7%positive; Mem.YumRepoDir := "" |}.
Definition file : Mem.File :=
  {| Mem.Path := "/etc/motd"; Mem.Permissions := 0; Mem.Content := {| Mem.Inline := Some 4%positive |} |}.
Definition memory : gmap loc Mem.cell := list_to_map
  [(1%positive, Mem.COSP profile); (2%positive, Mem.CCloudInitModule modules);
   (3%positive, Mem.CFiles [zero_File; file; zero_File]);
   (4%positive, Mem.CInline {| Inline_Encoding := "b64"; Inline_Data := "hello" |});
   (5%positive, Mem.CStrings ["a"; "b"]); (6%positive, Mem.CStringMap {[ "org" := "1" ]});
   (7%positive, Mem.CMaps {[ "repo" := Some 6%positive; "none" := None ]})].
Definition profile_value : option (option (TypeMeta * OperatingSystemProfile)) :=
  view_pointer (T := Mem.OperatingSystemProfile) memory (Some 1%positive).
End Demo.
Import Demo.

Lemma DeepCopy_independent_witness :
  exists x p' h', Demo.profile_value = Some (Some x) /\
    OperatingSystemProfile_DeepCopy (Some 1%positive) Demo.memory = Some (p', h') /\
    forall g, h' ∖ Demo.memory ⊆ g -> view_pointer (T := Mem.OperatingSystemProfile) g p' = Some (Some x).
Proof.
  destruct (DeepCopy_independent Demo.raw_laws Demo.meta_laws Demo.list_laws) as (Hosp & _).
  destruct Demo.profile_value as [[x|]|] eqn:Hx; [|vm_compute in Hx; discriminate Hx..].
  destruct (Hosp Demo.memory (Some 1%positive) (Some x) Hx) as (p' & h' & Hc & _ & _ & Hg).
  exists x, p', h'. split; [reflexivity|]. split; [exact Hc|exact Hg].
Defined.
