(* ===== verification/Aliasing.v ===== *)
(** * Where the generator of configs relies on copies

    [operating_system_config.go] writes through pointers twice: into the file it
    has just copied, and into the profile it was given, after keeping a copy of
    it.  Both are translated here to the memory of [DeepCopy] and shown to be
    what [OSCResources] computes with values. *)

From S2P Require Import Prelude GoStrings Types SDK GoHeap DeepCopy ProviderConfig OSCResources.

Section Aliasing.
Context `{ResourceLibs, ForeignMemory, !ForeignCopy}.

#[local] Abbreviation heap := (gmap loc Mem.cell).
#[local] Abbreviation M := (GoHeap.M Mem.cell).

(** [*p]: a nil pointer panics. *)
Definition target {A} (p : option A) : M A := fun h => p ≫= fun l => Some (l, h).

(** ** The loop body of [populateFilesList], from [file.DeepCopy()] on *)

Definition with_permissions (permissions : Z) (f : Mem.File) : Mem.File :=
  {| Mem.Path := Mem.Path f; Mem.Permissions := permissions; Mem.Content := Mem.Content f |}.

Definition fill_file (file : Mem.File) (buff : string) : M Mem.File :=
  variable <~ alloc file;
  copied <~ File_DeepCopy (Some variable);
  pfile <~ target copied;
  f <~ load (B := Mem.File) pfile;
  inline <~ target (Mem.Inline (Mem.Content f));
  data <~ load (B := FileContentInline) inline;
  _ <~ store inline {| Inline_Encoding := Inline_Encoding data; Inline_Data := buff |};
  f <~ load (B := Mem.File) pfile;
  _ <~ (if (Mem.Permissions f =? 0)%Z then store pfile (with_permissions defaultFilePermissions f) else retM ());
  load (B := Mem.File) pfile.

(** ** [configureRHELSubscription] *)

(** The two sections of a profile. *)
Inductive section := Bootstrap | Provisioning.
Definition section_of (w : section) (spec : Mem.OperatingSystemProfileSpec) : Mem.OSPConfig :=
  match w with Bootstrap => Mem.OSP_BootstrapConfig spec | Provisioning => Mem.OSP_ProvisioningConfig spec end.
Definition modules_of (w : section) (osp : Mem.OperatingSystemProfile) : option loc :=
  Mem.OSPConfig_CloudInitModules (section_of w (Mem.OSP_Spec osp)).

Definition with_modules_mem (m : option loc) (c : Mem.OSPConfig) : Mem.OSPConfig :=
  {| Mem.SupportedContainerRuntimes := Mem.SupportedContainerRuntimes c;
     Mem.OSPConfig_Templates := Mem.OSPConfig_Templates c; Mem.OSPConfig_Units := Mem.OSPConfig_Units c;
     Mem.OSPConfig_Files := Mem.OSPConfig_Files c; Mem.OSPConfig_CloudInitModules := m |}.
(** [osp.Spec.<section>.CloudInitModules = m] *)
Definition set_modules (w : section) (m : option loc) (osp : Mem.OperatingSystemProfile) : Mem.OperatingSystemProfile :=
  let spec := Mem.OSP_Spec osp in
  let set v c := match w, v with
                 | Bootstrap, Bootstrap | Provisioning, Provisioning => with_modules_mem m c
                 | _, _ => c
                 end in
  {| Mem.OSP_TypeMeta := Mem.OSP_TypeMeta osp; Mem.OSP_ObjectMeta := Mem.OSP_ObjectMeta osp;
     Mem.OSP_Spec :=
       {| Mem.OSP_OSName := Mem.OSP_OSName spec; Mem.OSP_OSVersion := Mem.OSP_OSVersion spec;
          Mem.OSP_Version := Mem.OSP_Version spec; Mem.SupportedCloudProviders := Mem.SupportedCloudProviders spec;
          Mem.OSP_BootstrapConfig := set Bootstrap (Mem.OSP_BootstrapConfig spec);
          Mem.OSP_ProvisioningConfig := set Provisioning (Mem.OSP_ProvisioningConfig spec);
          Mem.OSP_ProvisioningUtility := Mem.OSP_ProvisioningUtility spec |} |}.
Definition with_subscription (sub : loc) (x : Mem.CloudInitModule) : Mem.CloudInitModule :=
  {| Mem.BootCMD := Mem.BootCMD x; Mem.RHSubscription := Some sub; Mem.RunCMD := Mem.RunCMD x;
     Mem.YumRepos := Mem.YumRepos x; Mem.YumRepoDir := Mem.YumRepoDir x |}.

(** The statements for one section. *)
Definition set_subscription (w : section) (sub osp : loc) : M () :=
  o <~ load (B := Mem.OperatingSystemProfile) osp;
  _ <~ match modules_of w o with
       | None => m <~ alloc zero_CloudInitModule; store osp (set_modules w (Some m) o)
       | Some _ => retM ()
       end;
  o <~ load (B := Mem.OperatingSystemProfile) osp;
  m <~ target (modules_of w o);
  x <~ load (B := Mem.CloudInitModule) m;
  store m (with_subscription sub x).

Definition configure_rhel (providerConfig : ProviderConfig) (osp : loc) (data : filesData) : M () :=
  if negb (bool_decide (PC_OperatingSystem providerConfig = OS_RHEL)) then retM ()
  else
    sub <~ alloc (rhel.RHSubscription (RhelConfig (fd_operatingSystemConfig data)));
    _ <~ set_subscription Bootstrap sub osp;
    set_subscription Provisioning sub osp.

(** [GenerateOperatingSystemConfig]: the copy is taken before the profile is changed. *)
Definition keep_original (providerConfig : ProviderConfig) (osp : loc) (data : filesData) : M (option loc) :=
  ospOriginal <~ OperatingSystemProfile_DeepCopy (Some osp);
  _ <~ configure_rhel providerConfig osp data;
  retM ospOriginal.
End Aliasing.

(** ** What they compute *)

(** A cell that is neither a profile nor a module. *)
Definition unmodified `{ForeignMemory} (c : Mem.cell) : Prop :=
  match c with Mem.COSP _ | Mem.CCloudInitModule _ => False | _ => True end.

Section AliasingProps.
Context `{ResourceLibs, ForeignMemory, !ForeignCopy,
  !GoCopyLaws Mem.cell RawExtension_mem RawExtension, !GoCopyLaws Mem.cell ObjectMeta_mem ObjectMeta,
  !GoCopyLaws Mem.cell ListMeta_mem ListMeta}.
Implicit Types h g : gmap loc Mem.cell.

(** A cell read as one type is not read as another. *)
Lemma store_other {B B'} `{!Cell Mem.cell B, !Cell Mem.cell B'} h l l' (b : B) (b' : B') :
  (forall c, of_cell (B := B) c = None \/ of_cell (B := B') c = None) ->
  h !! l ≫= of_cell = Some b -> h !! l' ≫= of_cell = Some b' -> l <> l'.
Proof.
  intros Hd (c & Hc & Hb)%bind_Some (c' & Hc' & Hb')%bind_Some ->. rewrite Hc in Hc'. injection Hc' as <-.
  destruct (Hd c); congruence.
Qed.

Lemma store_run `{!Cell Mem.cell B} h l (b b' : B) :
  h !! l ≫= of_cell = Some b -> store l b' h = Some ((), <[l := cell_of b']> h).
Proof. intros (c & Hc & _)%bind_Some. unfold store. by rewrite Hc. Qed.

Lemma new_cell `{!Cell Mem.cell B} h h' l (b : B) :
  (h' ∖ h) !! l ≫= of_cell = Some b -> h' !! l ≫= of_cell = Some b /\ h !! l = None.
Proof. intros (c & [Hc Hn]%lookup_difference_Some & Hb)%bind_Some. by rewrite Hc. Qed.

(** after rendering, the loop of [populateFilesList] yields, in memory, the file that the value-level translation yields, and writes to no cell that existed: the files of the profile and everything else keep their values *)
Theorem fill_file_refines h file x inline buff :
  view h file = Some x -> Types.Inline (File_Content x) = Some inline ->
  exists pfile h', fill_file file buff h = Some (pfile, h') /\
    view h' pfile = Some (populated x inline buff) /\ h ⊆ h'.
Proof.
  intros Hx Hin. destruct (alloc_ok h file) as (variable & Halloc & Hnew).
  set (h0 := <[variable := cell_of file]> h) in *. assert (h ⊆ h0) as H0' by (by apply insert_subseteq).
  assert (view_pointer h0 (Some variable) = Some (Some x)) as Hv by (by apply view_new_pointer).
  destruct (copier_ok (copy := copy_pointer zero_File) h0 (Some variable) (Some x) Hv) as (p' & h1 & Hcopy & H01 & Hp).
  destruct p' as [l|]; [|done]. apply view_pointer_Some in Hp as (f & Hf & Hy).
  cbn [view File_copy] in Hy. unfold File_view in Hy. apply bind_Some in Hy as (content & Hcontent & [= <-]).
  cbn [File_Content] in Hin. cbn [view FileContent_copy] in Hcontent. unfold FileContent_view in Hcontent.
  apply bind_Some in Hcontent as (i & Hi & [= <-]). cbn [Types.Inline] in Hin. subst i.
  destruct (Mem.Inline (Mem.Content f)) as [li|] eqn:Hli; [|done].
  apply view_pointer_Some in Hi as (data & Hdata & [= ->]).
  destruct (new_cell h0 h1 l f Hf) as [Hf1 Hl0], (new_cell h0 h1 li inline Hdata) as [Hd1 Hli0].
  assert (li <> l) as Hne by (apply (store_other h1 li l inline f); [by intros []; auto|done..]).
  set (h2 := <[li := cell_of {| Inline_Encoding := Inline_Encoding inline; Inline_Data := buff |}]> h1).
  assert (h0 ⊆ h2) as H02 by (by apply insert_subseteq_r).
  assert (h2 !! l ≫= of_cell = Some f) as Hf2 by (unfold h2; by rewrite lookup_insert_ne).
  assert (forall h3, h3 !! li = h2 !! li -> forall perms, view h3 (with_permissions perms f) =
    Some {| File_Path := Mem.Path f; File_Permissions := perms; File_Content := {| Types.Inline := Some
      {| Inline_Encoding := Inline_Encoding inline; Inline_Data := buff |} |} |}) as Hview.
  { intros h3 H3 perms. cbn [view File_copy]. unfold File_view. cbn [Mem.Content with_permissions view FileContent_copy].
    unfold FileContent_view. rewrite Hli. cbn -[lookup]. rewrite H3. unfold h2. by rewrite lookup_insert_eq. }
  unfold fill_file, bindM. rewrite Halloc. cbn [mbind option_bind fst snd]. unfold File_DeepCopy. rewrite Hcopy.
  cbn [mbind option_bind fst snd target]. rewrite (load_ok h1 l f Hf1). cbn [mbind option_bind fst snd]. rewrite Hli.
  cbn [mbind option_bind fst snd target]. rewrite (load_ok h1 li inline Hd1). cbn [mbind option_bind fst snd].
  rewrite (store_run h1 li inline _ Hd1). cbn [mbind option_bind fst snd]. fold h2.
  rewrite (load_ok h2 l f Hf2). cbn [mbind option_bind fst snd]. unfold populated. cbn [File_Permissions File_Path].
  destruct (Z.eqb_spec (Mem.Permissions f) 0) as [He|He].
  - rewrite (store_run h2 l f _ Hf2). cbn [mbind option_bind fst snd]. eexists _, _.
    rewrite (load_ok _ l (with_permissions defaultFilePermissions f));
      [|rewrite lookup_insert_eq; cbn [mbind option_bind]; by rewrite of_cell_of].
    split; [reflexivity|]. split; [|etrans; [exact H0'|by apply insert_subseteq_r]].
    apply Hview. by rewrite lookup_insert_ne.
  - cbn [retM mbind option_bind fst snd]. exists f, h2. rewrite (load_ok h2 l f Hf2). split; [done|].
    split; [|by etrans]. rewrite <- (Hview h2 eq_refl (Mem.Permissions f)). by destruct f.
Qed.

(** *** The profile and its copy *)

#[local] Instance flat_steady {T} keep : Steady keep (fun (_ : gmap loc Mem.cell) (v : T) => Some v).
Proof. by intros ?????. Qed.

Context `{!Steady unmodified (view (T := RawExtension_mem) (A := RawExtension)),
  !Steady unmodified (view (T := ObjectMeta_mem) (A := ObjectMeta))}.

#[local] Instance kept_Inline : Kept unmodified FileContentInline.
Proof. by intros []. Qed.
#[local] Instance kept_bool : Kept unmodified bool.
Proof. by intros []. Qed.
#[local] Instance kept_string : Kept unmodified string.
Proof. by intros []. Qed.
#[local] Instance kept_strings : Kept unmodified (list string).
Proof. by intros []. Qed.
#[local] Instance kept_DropIns : Kept unmodified (list DropIn).
Proof. by intros []. Qed.
#[local] Instance kept_Files : Kept unmodified (list Mem.File).
Proof. by intros []. Qed.
#[local] Instance kept_Units : Kept unmodified (list Mem.Unit).
Proof. by intros []. Qed.
#[local] Instance kept_runtimes : Kept unmodified (list Mem.ContainerRuntimeSpec).
Proof. by intros []. Qed.
#[local] Instance kept_providers : Kept unmodified (list Mem.CloudProviderSpec).
Proof. by intros []. Qed.
#[local] Instance kept_map : Kept unmodified (gmap string string).
Proof. by intros []. Qed.
#[local] Instance kept_maps : Kept unmodified (gmap string (option loc)).
Proof. by intros []. Qed.

#[local] Instance strings_steady : Steady unmodified (view (T := option loc) (A := gmap string string)).
Proof. exact (map_steady (V := string) _). Qed.
#[local] Instance FileContent_steady : Steady unmodified (view (T := Mem.FileContent) (A := FileContent)).
Proof. struct_steady FileContent_copy FileContent_view. Qed.
#[local] Instance File_steady : Steady unmodified (view (T := Mem.File) (A := File)).
Proof. struct_steady File_copy File_view. Qed.
#[local] Instance Unit_steady : Steady unmodified (view (T := Mem.Unit) (A := Types.Unit)).
Proof. struct_steady Unit_copy Unit_view. Qed.
#[local] Instance CloudProviderSpec_steady : Steady unmodified (view (T := Mem.CloudProviderSpec) (A := CloudProviderSpec)).
Proof. struct_steady CloudProviderSpec_copy CloudProviderSpec_view. Qed.
#[local] Instance ContainerRuntimeSpec_steady :
  Steady unmodified (view (T := Mem.ContainerRuntimeSpec) (A := ContainerRuntimeSpec)).
Proof. struct_steady ContainerRuntimeSpec_copy ContainerRuntimeSpec_view. Qed.
#[local] Instance CloudInitModule_steady : Steady unmodified (view (T := Mem.CloudInitModule) (A := CloudInitModule)).
Proof. struct_steady CloudInitModule_copy CloudInitModule_view. Qed.

Lemma load_profile g l o : g !! l = Some (Mem.COSP o) -> load (B := Mem.OperatingSystemProfile) l g = Some (o, g).
Proof. intros Hl. unfold load. by rewrite Hl. Qed.
Lemma store_profile g l o o' : g !! l = Some (Mem.COSP o) -> store l o' g = Some ((), <[l := Mem.COSP o']> g).
Proof. intros Hl. unfold store. by rewrite Hl. Qed.
Lemma load_module g l x : g !! l = Some (Mem.CCloudInitModule x) -> load (B := Mem.CloudInitModule) l g = Some (x, g).
Proof. intros Hl. unfold load. by rewrite Hl. Qed.

#[local] Abbreviation view_module := (view_pointer (T := Mem.CloudInitModule) (A := CloudInitModule)).
#[local] Abbreviation view_profile :=
  (view_pointer (T := Mem.OperatingSystemProfile) (A := TypeMeta * OperatingSystemProfile)).

(** Up to the last statement: the module to write to exists. *)
Lemma set_subscription_module w sub subs osp o g mo :
  g !! osp = Some (Mem.COSP o) -> g !! sub = Some (Mem.CStringMap subs) ->
  view_module g (modules_of w o) = Some mo ->
  exists m x g1, set_subscription w sub osp g = store m (with_subscription sub x) g1 /\ m <> osp /\ m <> sub /\
    g1 !! osp = Some (Mem.COSP (set_modules w (Some m) o)) /\ g1 !! m = Some (Mem.CCloudInitModule x) /\
    g1 !! sub = Some (Mem.CStringMap subs) /\
    view g1 x = Some (default empty_CloudInitModule mo) /\ (modules_of w o = Some m \/ g !! m = None) /\
    (forall l c, g !! l = Some c -> l <> osp -> l <> m -> g1 !! l = Some c).
Proof.
  intros Ho Hsub Hmo. unfold set_subscription, bindM. rewrite (load_profile g osp o Ho).
  cbn [mbind option_bind fst snd]. destruct (modules_of w o) as [m|] eqn:Hm.
  - destruct mo as [y|]; [|by cbn in Hmo; apply bind_Some in Hmo as (? & _ & (? & _ & ?)%bind_Some)].
    apply view_pointer_Some in Hmo as (x & (c & Hc & Hx)%bind_Some & Hv). destruct c; try done. injection Hx as ->.
    exists m, x, g. cbn [retM mbind option_bind fst snd].
    rewrite (load_profile g osp o Ho).
    cbn [mbind option_bind fst snd]. rewrite Hm. cbn [target mbind option_bind fst snd].
    rewrite (load_module g m x Hc).
    split; [done|]. split_and!; try done; try congruence; [|by left].
    assert (set_modules w (Some m) o = o) as ->; [|done].
    destruct o as [tm om [? ? ? ? [] [] ?]], w; cbn in Hm |- *; by rewrite Hm.
  - injection Hmo as <-. destruct (alloc_ok g zero_CloudInitModule) as (m & Halloc & Hnew).
    exists m, zero_CloudInitModule, (<[osp := Mem.COSP (set_modules w (Some m) o)]>
      (<[m := Mem.CCloudInitModule zero_CloudInitModule]> g)).
    assert (m <> osp) by congruence. assert (m <> sub) by congruence. assert (osp <> sub) by congruence.
    rewrite Halloc. cbn [mbind option_bind fst snd cell_of Mem.CCloudInitModule_cell].
    rewrite (store_profile _ osp o) by (by rewrite lookup_insert_ne). cbn [mbind option_bind fst snd].
    rewrite (load_profile _ osp (set_modules w (Some m) o)) by apply lookup_insert_eq.
    cbn [mbind option_bind fst snd].
    assert (modules_of w (set_modules w (Some m) o) = Some m) as -> by (by destruct w).
    cbn [target mbind option_bind fst snd].
    rewrite (load_module _ m zero_CloudInitModule) by (by rewrite lookup_insert_ne, lookup_insert_eq).
    split; [done|]. split_and!; try done; [apply lookup_insert_eq|..|by right|].
    + by rewrite lookup_insert_ne, lookup_insert_eq.
    + by rewrite !lookup_insert_ne.
    + intros l c Hl Hl1 Hl2. by rewrite !lookup_insert_ne.
Qed.

Lemma view_with_subscription g sub subs x y :
  g !! sub = Some (Mem.CStringMap subs) -> view g x = Some y ->
  view g (with_subscription sub x) = Some (with_RHSubscription subs (Some y)).
Proof.
  intros Hs Hx. cbn [view CloudInitModule_copy] in Hx |- *. unfold CloudInitModule_view in *.
  cbn [with_subscription Mem.BootCMD Mem.RHSubscription Mem.RunCMD Mem.YumRepos Mem.YumRepoDir].
  apply bind_Some in Hx as (boot & -> & Hx). apply bind_Some in Hx as (rh & _ & Hx).
  apply bind_Some in Hx as (run & -> & Hx). apply bind_Some in Hx as (yum & -> & [= <-]).
  assert (view_map (V := string) g (Some sub) = Some subs) as ->; [|done].
  cbn. rewrite Hs. cbn. apply view_entries_Some. intros k. by destruct (subs !! k).
Qed.

Lemma module_cell g p mo :
  view_module g p = Some mo -> forall m, p = Some m -> exists x, g !! m = Some (Mem.CCloudInitModule x).
Proof.
  intros Hp m ->. cbn in Hp. apply bind_Some in Hp as (x & (c & Hc & Hx)%bind_Some & _). destruct c; try done. by exists x0.
Qed.

(** What the statements for one section change: the profile points to a module
    that has the subscription, and only these two cells are written. *)
Lemma set_subscription_ok w sub subs osp o g mo :
  g !! osp = Some (Mem.COSP o) -> g !! sub = Some (Mem.CStringMap subs) ->
  view_module g (modules_of w o) = Some mo ->
  exists m g', set_subscription w sub osp g = Some ((), g') /\ m <> sub /\
    g' !! osp = Some (Mem.COSP (set_modules w (Some m) o)) /\
    view_module g' (Some m) = Some (Some (with_RHSubscription subs mo)) /\
    (modules_of w o = Some m \/ g !! m = None) /\
    (forall l c, g !! l = Some c -> l <> osp -> l <> m -> g' !! l = Some c) /\
    keeps unmodified g g'.
Proof.
  intros Ho Hsub Hmo.
  destruct (set_subscription_module w sub subs osp o g mo Ho Hsub Hmo)
    as (m & x & g1 & Hrun & Hmosp & Hmsub & Ho1 & Hm1 & Hs1 & Hx & Hcase & Hkeep).
  set (g2 := <[m := Mem.CCloudInitModule (with_subscription sub x)]> g1).
  assert (keeps unmodified g1 g2) as Hk.
  { intros l c Hl Hu. unfold g2. rewrite lookup_insert_ne; [done|]. intros <-. rewrite Hm1 in Hl. by simplify_eq. }
  assert (forall l c, g !! l = Some c -> l <> osp -> l <> m -> g2 !! l = Some c) as Hkeep2.
  { intros l c Hl Hl1 Hl2. unfold g2. rewrite lookup_insert_ne by done. by apply Hkeep. }
  exists m, g2. split; [rewrite Hrun; unfold store; by rewrite Hm1|]. split; [done|].
  split; [unfold g2; by rewrite lookup_insert_ne|].
  split; [|split_and!; [done|done|]].
  - apply view_pointer_Some. exists (with_subscription sub x). split; [unfold g2; by rewrite lookup_insert_eq|].
    rewrite (view_with_subscription g2 sub subs x (default empty_CloudInitModule mo)); [by destruct mo| |].
    + unfold g2. by rewrite lookup_insert_ne.
    + by apply (steady g1 g2).
  - intros l c Hl Hu. apply Hkeep2; [done| |]; intros ->; [rewrite Ho in Hl; by injection Hl as <-|].
    destruct Hcase as [Hm|Hm]; [|congruence]. destruct (module_cell g _ _ Hmo m Hm) as [y Hy].
    rewrite Hy in Hl. by injection Hl as <-.
Qed.

(** Another module pointer, after the statements for one section. *)
Lemma other_module w osp o g g' m p mo mo' y :
  g !! osp = Some (Mem.COSP o) -> view_module g p = Some mo' ->
  view_module g (modules_of w o) = Some mo ->
  (modules_of w o = Some m \/ g !! m = None) -> view_module g' (Some m) = Some (Some y) ->
  (forall l c, g !! l = Some c -> l <> osp -> l <> m -> g' !! l = Some c) -> keeps unmodified g g' ->
  view_module g' p = Some mo' \/ (p = Some m /\ mo' = mo /\ view_module g' p = Some (Some y)).
Proof.
  intros Ho Hp Hmo Hcase Hy Hkeep Hk. destruct p as [l|]; [|by left].
  destruct (module_cell g _ _ Hp l eq_refl) as [x Hl]. destruct (decide (l = m)) as [->|Hne]; [right|left].
  - split; [done|]. split; [|done]. destruct Hcase as [Hm|Hm]; [|congruence]. rewrite Hm in Hmo. congruence.
  - destruct mo' as [z|]; [|by cbn in Hp; apply bind_Some in Hp as (? & _ & (? & _ & ?)%bind_Some)].
    apply view_pointer_Some in Hp as (v & Hv & Hz). rewrite Hl in Hv. injection Hv as ->.
    apply view_pointer_Some. exists v. split; [|by apply (steady g g')].
    rewrite (Hkeep l (Mem.CCloudInitModule v) Hl); [done| |done]. intros ->. by rewrite Ho in Hl.
Qed.

Lemma view_with_modules g g' c x m y :
  view g c = Some x -> keeps unmodified g g' -> view_module g' (Some m) = Some (Some y) ->
  view g' (with_modules_mem (Some m) c) = Some (with_modules (Some y) x).
Proof.
  intros Hx Hk Hm. cbn [view OSPConfig_copy] in Hx |- *. unfold OSPConfig_view in *.
  cbn [with_modules_mem Mem.SupportedContainerRuntimes Mem.OSPConfig_Templates Mem.OSPConfig_Units
    Mem.OSPConfig_Files Mem.OSPConfig_CloudInitModules].
  read_fields Hx. rewrite (steady _ _ _ _ Hk Hx0), (steady _ _ _ _ Hk Hx1), (steady _ _ _ _ Hk Hx2),
    (steady _ _ _ _ Hk Hx3), Hm. done.
Qed.

Lemma view_modules g c x :
  view g c = Some x -> view_module g (Mem.OSPConfig_CloudInitModules c) = Some (OSPConfig_CloudInitModules x).
Proof. cbn [view OSPConfig_copy]. unfold OSPConfig_view. intros Hx. read_fields Hx. done. Qed.

(** Both sections, whether or not they share a module. *)
Lemma set_both sub subs osp o g mob mop :
  g !! osp = Some (Mem.COSP o) -> g !! sub = Some (Mem.CStringMap subs) ->
  view_module g (modules_of Bootstrap o) = Some mob -> view_module g (modules_of Provisioning o) = Some mop ->
  exists m1 m2 g', bindM (set_subscription Bootstrap sub osp) (fun _ => set_subscription Provisioning sub osp) g =
      Some ((), g') /\
    g' !! osp = Some (Mem.COSP (set_modules Provisioning (Some m2) (set_modules Bootstrap (Some m1) o))) /\
    view_module g' (Some m1) = Some (Some (with_RHSubscription subs mob)) /\
    view_module g' (Some m2) = Some (Some (with_RHSubscription subs mop)) /\
    keeps unmodified g g' /\
    (forall l c, g !! l = Some c -> l <> osp -> modules_of Bootstrap o <> Some l -> modules_of Provisioning o <> Some l ->
       g' !! l = Some c).
Proof.
  intros Ho Hs Hb Hp.
  destruct (set_subscription_ok Bootstrap sub subs osp o g mob Ho Hs Hb)
    as (m1 & g1 & Hr1 & Hne1 & Ho1 & Hv1 & Hc1 & Hk1 & Hu1).
  assert (g1 !! sub = Some (Mem.CStringMap subs)) as Hs1 by (by apply Hu1).
  assert (exists mop', view_module g1 (modules_of Provisioning (set_modules Bootstrap (Some m1) o)) = Some mop' /\
    with_RHSubscription subs mop' = with_RHSubscription subs mop) as (mop' & Hp1 & Hmop).
  { change (modules_of Provisioning (set_modules Bootstrap (Some m1) o)) with (modules_of Provisioning o).
    destruct (other_module Bootstrap osp o g g1 m1 _ mob mop _ Ho Hp Hb Hc1 Hv1 Hk1 Hu1) as [Hl|(_ & -> & Hl)]; by eexists. }
  destruct (set_subscription_ok Provisioning sub subs osp _ g1 mop' Ho1 Hs1 Hp1)
    as (m2 & g2 & Hr2 & Hne2 & Ho2 & Hv2 & Hc2 & Hk2 & Hu2).
  exists m1, m2, g2. split_and!.
  - unfold bindM. by rewrite Hr1.
  - done.
  - destruct (other_module Provisioning osp _ g1 g2 m2 (Some m1) mop' _ _ Ho1 Hv1 Hp1 Hc2 Hv2 Hk2 Hu2)
      as [Hl|([= ->] & <- & Hl)]; [exact Hl|]. by rewrite Hl.
  - by rewrite Hv2, Hmop.
  - intros l c Hl Hu. apply (Hu2 l c); [by apply (Hu1 l c)|done].
  - intros l c Hl Hlo Hlb Hlp. assert (l <> m1) as Hl1 by (destruct Hc1; congruence).
    assert (g1 !! l = Some c) as Hl' by (by apply Hk1). apply Hk2; [done..|].
    destruct Hc2 as [Hc2|Hc2]; [|congruence]. intros ->. by apply Hlp.
Qed.

(** C24: [GenerateOperatingSystemConfig] writes into the profile it is given only after it has copied it: in memory, the copy still represents the profile as it was, and the profile itself represents what the value-level translation computes, even when its two sections share memory *)
Theorem configure_rhel_refines providerConfig osp data h tm x :
  view_profile h (Some osp) = Some (Some (tm, x)) ->
  exists ospOriginal g, keep_original providerConfig osp data h = Some (ospOriginal, g) /\
    view_profile g ospOriginal = Some (Some (tm, x)) /\
    view_profile g (Some osp) = Some (Some (tm,
      {| OSP_Meta := OSP_Meta x; OSP_Spec := configureRHELSubscription providerConfig (OSP_Spec x) data |})).
Proof.
  intros Hx. destruct (copy_independent (copy_pointer zero_OSP) view_profile h (Some osp) _ Hx)
    as (orig & h1 & Hcopy & Hh1 & Hold & Hnew).
  unfold keep_original, OperatingSystemProfile_DeepCopy, bindM at 1. rewrite Hcopy. cbn [mbind option_bind fst snd].
  unfold bindM at 1. unfold configure_rhel, configureRHELSubscription. destruct (negb _).
  { exists orig, h1. split; [done|]. split; [by apply Hnew, map_subseteq_difference_l|]. destruct x. by apply Hold. }
  set (subs := rhel.RHSubscription _). destruct (alloc_ok h1 subs) as (sub & Halloc & Hfresh).
  set (h2 := <[sub := cell_of subs]> h1) in *. assert (h1 ⊆ h2) as Hh12 by (by apply insert_subseteq).
  assert (h ⊆ h2) as Hh2 by (by etrans).
  apply view_pointer_Some in Hx as (o & (c & Hc & Ho)%bind_Some & Hview). destruct c; try done. injection Ho as ->.
  cbn [view OperatingSystemProfile_copy] in Hview. unfold OperatingSystemProfile_view in Hview.
  apply bind_Some in Hview as (meta & Hmeta & Hview). apply bind_Some in Hview as (spec & Hspec & [= <- <-]).
  cbn [view OperatingSystemProfileSpec_copy] in Hspec. unfold OperatingSystemProfileSpec_view in Hspec.
  apply bind_Some in Hspec as (providers & Hproviders & Hspec). apply bind_Some in Hspec as (b & Hb & Hspec).
  apply bind_Some in Hspec as (p & Hp & [= <-]).
  assert (view_module h (modules_of Bootstrap o) = Some (OSPConfig_CloudInitModules b)) as Hbm by (by apply view_modules).
  assert (view_module h (modules_of Provisioning o) = Some (OSPConfig_CloudInitModules p)) as Hpm by (by apply view_modules).
  destruct (set_both sub subs osp o h2 (OSPConfig_CloudInitModules b) (OSPConfig_CloudInitModules p))
    as (m1 & m2 & g & Hrun & Hog & Hv1 & Hv2 & Hk & Hkeep).
  - by eapply lookup_weaken.
  - apply lookup_insert_eq.
  - by eapply (reader_mono view_module).
  - by eapply (reader_mono view_module).
  - exists orig, g. split; [unfold bindM at 1; rewrite Halloc; cbn [mbind option_bind fst snd]; by rewrite Hrun|]. split.
    + apply Hnew. apply map_subseteq_spec. intros l c [Hl Hn]%lookup_difference_Some.
      apply Hkeep; [by eapply lookup_weaken|congruence|..]; intros Hm.
      * destruct (module_cell h _ _ Hbm l Hm) as [y Hy]. congruence.
      * destruct (module_cell h _ _ Hpm l Hm) as [y Hy]. congruence.
    + assert (keeps unmodified h g) as Hkh.
      { intros l c Hl Hu. apply (Hk l c); [by eapply lookup_weaken|done]. }
      apply view_pointer_Some. eexists. split; [by rewrite Hog|]. cbn [view OperatingSystemProfile_copy].
      unfold OperatingSystemProfile_view.
      cbn [set_modules Mem.OSP_TypeMeta Mem.OSP_ObjectMeta Mem.OSP_Spec]. rewrite (steady _ _ _ _ Hkh Hmeta).
      cbn [mbind option_bind view OperatingSystemProfileSpec_copy]. unfold OperatingSystemProfileSpec_view.
      cbn [Mem.SupportedCloudProviders Mem.OSP_BootstrapConfig Mem.OSP_ProvisioningConfig].
      rewrite (steady _ _ _ _ Hkh Hproviders). cbn [mbind option_bind].
      rewrite (view_with_modules h g _ b m1 _ Hb Hkh Hv1). cbn [mbind option_bind].
      by rewrite (view_with_modules h g _ p m2 _ Hp Hkh Hv2).
Qed.
End AliasingProps.

(** ** Evaluation on concrete inputs *)

Module Demo.
#[export] Existing Instances DemoSDK.sdk OSCResources.Demo.libs DeepCopy.Demo.foreign DeepCopy.Demo.foreign_copy
  DeepCopy.Demo.raw_laws DeepCopy.Demo.meta_laws DeepCopy.Demo.list_laws.
Definition rhel_config : ProviderConfig :=
  {| PC_SSHPublicKeys := []; PC_CloudProvider := "aws"; PC_CloudProviderSpec := {| Raw := None |};
     PC_OperatingSystem := "rhel"; PC_OperatingSystemSpec := {| Raw := None |}; PC_Network := None;
     PC_OverwriteCloudConfig := None |}.
#[export] Instance raw_steady : Steady unmodified (view (T := RawExtension_mem) (A := RawExtension)).
Proof. by intros ?????. Qed.
#[export] Instance meta_steady : Steady unmodified (view (T := ObjectMeta_mem) (A := ObjectMeta)).
Proof. by intros ?????. Qed.
End Demo.
Import Demo.

Lemma fill_file_refines_witness :
  exists x inline pfile h', view DeepCopy.Demo.memory DeepCopy.Demo.file = Some x /\
    fill_file DeepCopy.Demo.file "rendered" DeepCopy.Demo.memory = Some (pfile, h') /\
    view h' pfile = Some (populated x inline "rendered").
Proof.
  set (inline := {| Inline_Encoding := "b64"; Inline_Data := "hello" |}).
  set (x := {| File_Path := "/etc/motd"; File_Permissions := 0; File_Content := {| Types.Inline := Some inline |} |}).
  assert (view DeepCopy.Demo.memory DeepCopy.Demo.file = Some x) as Hx by (vm_compute; reflexivity).
  destruct (fill_file_refines DeepCopy.Demo.memory DeepCopy.Demo.file x inline "rendered" Hx eq_refl)
    as (pfile & h' & Hrun & Hview & _).
  exists x, inline, pfile, h'. split; [exact Hx|]. split; [exact Hrun|exact Hview].
Defined.

Lemma configure_rhel_refines_witness :
  exists x ospOriginal g, DeepCopy.Demo.profile_value = Some (Some x) /\
    keep_original Demo.rhel_config 1%positive OSCResources.Demo.data DeepCopy.Demo.memory = Some (ospOriginal, g) /\
    view_pointer (T := Mem.OperatingSystemProfile) g ospOriginal = Some (Some x).
Proof.
  destruct DeepCopy.Demo.profile_value as [[[tm x]|]|] eqn:Hx; [|vm_compute in Hx; discriminate Hx..].
  destruct (configure_rhel_refines Demo.rhel_config 1%positive OSCResources.Demo.data DeepCopy.Demo.memory tm x Hx)
    as (orig & g & Hrun & Hview & _).
  exists (tm, x), orig, g. split; [reflexivity|]. split; [exact Hrun|exact Hview].
Defined.
