(* ===== verification/TestUtil.v ===== *)
(** * Golden files ([pkg/test/util])

    [helper.go]: the comparison of an output with a file of [testdata], as the
    tests of the repository use it.  Paths, files and the differ are interfaces;
    a test that is stopped with [Fatalf] is an error, one that goes on after
    [Errorf] is only marked. *)

From S2P Require Import Prelude GoStrings.

(** [filepath.Join], [filepath.Abs], [os.WriteFile] and [os.ReadFile] over the
    contents [FS] of a file system. *)
Class FileSystem (FS : Type) := {
  filepath_Join : string -> string -> string;
  filepath_Abs : string -> result string;
  WriteFile : string -> string -> FS -> result FS;
  ReadFile : string -> FS -> result string
}.

(** What was written is read back. *)
Class FileSystemLaws (FS : Type) `{FileSystem FS} :=
  Read_Write path data fs fs' : WriteFile path data fs = Ok fs' -> ReadFile path fs' = Ok data.

(** [difflib.UnifiedDiff]: the two texts in lines, their names and the context. *)
Record UnifiedDiff := {
  A : list string;
  B : list string;
  FromFile : string;
  ToFile : string;
  Context : nat
}.

Class Difflib := {
  SplitLines : string -> list string;
  GetUnifiedDiffString : UnifiedDiff -> result string
}.

(** The lines preserve the text, and a difference is empty when there is none. *)
Class DifflibLaws `{Difflib} := {
  SplitLines_inj s s' : SplitLines s = SplitLines s' -> s = s';
  diff_total d : exists s, GetUnifiedDiffString d = Ok s;
  diff_empty d : GetUnifiedDiffString d = Ok "" <-> A d = B d
}.

(** What a test has come to: its name and whether it was marked as failed. *)
Record T := { T_Name : string; failed : bool }.

(** [t.Errorf] *)
Definition Errorf_T (t : T) : T := {| T_Name := T_Name t; failed := true |}.

Definition fsName (t : T) (ext : list string) : string := Join (ReplaceAll (T_Name t) "/" "-" :: ext) "".
Definition FSGoldenName (t : T) : string := fsName t [".golden"].

Section Compare.
Context {FS : Type} `{FileSystem FS, Difflib}.

Definition CompareOutput (t : T) (name output : string) (update : bool) (fs : FS) : result (T * FS) :=
  let! golden := wrapR "failed to get absolute path to testdata file: %v" []
    (filepath_Abs (filepath_Join "testdata" name)) in
  let! fs :=
    (if update then wrapR "failed to write updated fixture: %v" [] (WriteFile golden output fs) else Ok fs) in
  let! expected := wrapR "failed to read testdata file: %v" [] (ReadFile golden fs) in
  let diff := {| A := SplitLines expected; B := SplitLines output; FromFile := "Fixture"; ToFile := "Current";
                 Context := 3 |} in
  let! diffStr := GetUnifiedDiffString diff in
  Ok (if decide (diffStr = "") then t else Errorf_T t, fs).
Context `{!FileSystemLaws FS, !DifflibLaws}.

(** Without an update the files are left alone, and a test is marked exactly when
    the file differs from the output. *)
Theorem CompareOutput_spec t name output (fs : FS) golden expected :
  filepath_Abs (filepath_Join "testdata" name) = Ok golden -> ReadFile golden fs = Ok expected ->
  CompareOutput t name output false fs = Ok (if decide (expected = output) then t else Errorf_T t, fs).
Proof.
  intros Hg Hr. unfold CompareOutput. rewrite Hg. cbn [bindR wrapR]. rewrite Hr. cbn [bindR wrapR].
  set (d := {| A := _ |}). destruct (diff_total d) as [diff Hd]. rewrite Hd. cbn [bindR].
  pose proof (diff_empty d) as He. rewrite Hd in He. cbn [A B d] in He.
  destruct (decide (diff = "")) as [->|Hne], (decide (expected = output)) as [->|Ho]; try done; exfalso.
  - apply Ho, SplitLines_inj. by apply He.
  - apply Hne. assert (Ok diff = Ok "") as [= ->] by (by apply He). done.
Qed.

(** A golden file that was just updated is what the next comparison expects. *)
Theorem CompareOutput_updated t name output (fs fs' : FS) t' :
  CompareOutput t name output true fs = Ok (t', fs') ->
  t' = t /\ CompareOutput t name output false fs' = Ok (t, fs').
Proof.
  unfold CompareOutput at 1. intros (golden & Hg%wrapR_Ok & Hc)%bindR_Ok.
  apply bindR_Ok in Hc as (fs1 & Hw%wrapR_Ok & Hc). apply bindR_Ok in Hc as (expected & Hr%wrapR_Ok & Hc).
  rewrite (Read_Write golden output fs fs1 Hw) in Hr. injection Hr as <-.
  set (d := {| A := _ |}) in Hc. assert (GetUnifiedDiffString d = Ok "") as Hd by (by apply diff_empty).
  rewrite Hd in Hc. cbn [bindR] in Hc. rewrite decide_True in Hc by done. injection Hc as <- <-. split; [done|].
  rewrite (CompareOutput_spec t name output fs1 golden output Hg (Read_Write golden output fs fs1 Hw)).
  by rewrite decide_True.
Qed.
End Compare.

(** ** Evaluation on concrete inputs *)

Module Demo.
#[export] Instance files : FileSystem (gmap string string) :=
  {| filepath_Join a b := a +:+ "/" +:+ b; filepath_Abs p := Ok ("/src/" +:+ p);
     WriteFile p data fs := Ok (<[p := data]> fs);
     ReadFile p fs := from_option Ok (Err (LibError "os.ReadFile" p "no such file or directory")) (fs !! p) |}.
#[export] Instance files_laws : FileSystemLaws (gmap string string).
Proof. intros path data fs fs' [= <-]. cbn. by rewrite lookup_insert_eq. Qed.

(** The whole text as one line. *)
#[export] Instance whole : Difflib :=
  {| SplitLines s := [s]; GetUnifiedDiffString d := Ok (if decide (A d = B d) then "" else "@@ -1 +1 @@") |}.
#[export] Instance whole_laws : DifflibLaws.
Proof.
  split; cbn; [by intros s s' [= ->]|by intros d; eexists|].
  intros d. destruct (decide (A d = B d)); naive_solver.
Qed.

Definition test : T := {| T_Name := "TestFlags/mirrors"; failed := false |}.

(** The file is written on an update, expected without one, and compared. *)
Example golden_update :
  option_map (fun p => failed p.1) (ok_value (CompareOutput test (FSGoldenName test) "out" true ∅)) = Some false /\
  (let written := {[ "/src/testdata/TestFlags-mirrors.golden" := "out" ]} in
   option_map (fun p => failed p.1) (ok_value (CompareOutput test (FSGoldenName test) "out" false written)) = Some false /\
   option_map (fun p => failed p.1) (ok_value (CompareOutput test (FSGoldenName test) "other" false written)) = Some true).
Proof. repeat split; vm_compute; reflexivity. Qed.
End Demo.
