(* ===== verification/Main.v ===== *)
(** * Start-up and utilities ([cmd/osm-controller], [pkg/log], [pkg/util])

    The flags of the controller and what they are turned into, and the small
    packages that every part uses.  Files, PEM certificates, kubeconfigs and the
    encoders of template functions are interfaces; the managers, servers and
    signal handlers that [main] wires together are not modelled. *)

From S2P Require Import Prelude GoStrings CommandLine NetURL Types SDK Effects.
From S2P Require Import Api ContainerRuntime OSCResources Bootstrap OSPController OSCController.

(** ** [pkg/log/zap.go] *)

Module log.

Abbreviation Format := string.
Definition FormatJSON : Format := "JSON".
Definition FormatConsole : Format := "Console".

Record Options := { Debug : bool; Options_Format : Format }.
Definition NewDefaultOptions : Options := {| Debug := false; Options_Format := FormatJSON |}.

Definition Format_Type : string := "string".
Definition Format_String (f : Format) : string := f.

Definition Format_Set (s : string) : result Format :=
  if decide (ToLower s = "json") then Ok FormatJSON
  else if decide (ToLower s = "console") then Ok FormatConsole
  else Err (Errorf "invalid format '%s'" [s]).

Abbreviation Formats := (list Format).
Definition AvailableFormats : Formats := [FormatJSON; FormatConsole].

Definition Formats_String (f : Formats) : string :=
  let separator := ", " in
  TrimPrefix (fold_left (fun s format => s +:+ separator +:+ format) f "") separator.

Fixpoint Formats_Contains (f : Formats) (s : Format) : bool :=
  match f with
  | [] => false
  | format :: f' => if decide (s = format) then true else Formats_Contains f' s
  end.

Definition Validate (o : Options) : result unit :=
  if Formats_Contains AvailableFormats (Options_Format o) then Ok tt
  else Err (Errorf "invalid log-format specified %q; available: %s"
              [Options_Format o; Formats_String AvailableFormats]).

(** [AddFlags] (and [AddPFlags]): the fields as they are give the defaults;
    [upd] changes them inside the state of the command line. *)
Definition with_Debug (b : bool) (o : Options) : Options := {| Debug := b; Options_Format := Options_Format o |}.
Definition with_Format (f : Format) (o : Options) : Options := {| Debug := Debug o; Options_Format := f |}.
Definition AddFlags {O} (upd : (Options -> Options) -> O -> O) (o : Options) : list (Flag O) :=
  [BoolVar (fun b => upd (with_Debug b)) "log-debug" (Debug o);
   Var (fun s st => let! f := Format_Set s in Ok (upd (with_Format f) st)) "log-format"].

(** The logger of [zap]: what [New] chooses.  The other fields of the production
    configuration of the encoder are the library's. *)
Inductive TimeEncoder := ISO8601TimeEncoder.
Inductive DurationEncoder := StringDurationEncoder.
Class Zap := { OtherSettings : Type; production_settings : OtherSettings }.
Record EncoderConfig `{Zap} := {
  TimeKey : string;
  EncodeTime : TimeEncoder;
  EncodeDuration : DurationEncoder;
  other_settings : OtherSettings
}.
Inductive Encoder `{Zap} := JSONEncoder (c : EncoderConfig) | ConsoleEncoder (c : EncoderConfig).
Inductive Level := DebugLevel | InfoLevel.
Inductive Sink := Stderr.
Record Logger `{Zap} := {
  Logger_Encoder : Encoder;
  Logger_Sink : Sink;
  Logger_Level : Level;
  Logger_Caller : bool;
  Logger_ErrorOutput : Sink
}.

Section New.
Context `{Zap}.
Definition encCfg : EncoderConfig :=
  {| TimeKey := "time"; EncodeTime := ISO8601TimeEncoder; EncodeDuration := StringDurationEncoder;
     other_settings := production_settings |}.
Definition New (debug : bool) (format : Format) : Logger :=
  {| Logger_Encoder := if decide (format = FormatJSON) then JSONEncoder encCfg else ConsoleEncoder encCfg;
     Logger_Sink := Stderr; Logger_Level := if debug then DebugLevel else InfoLevel;
     Logger_Caller := true; Logger_ErrorOutput := Stderr |}.
Definition NewFromOptions (o : Options) : Logger := New (Debug o) (Options_Format o).
Definition NewDefault : Logger := New false FormatJSON.
End New.
End log.

(** ** [pkg/util/predicate] *)

Module predicate.

(** An event of a watch; [Funcs] tells which ones are let through. *)
Inductive event :=
| CreateEvent (o : ObjectMeta)
| UpdateEvent (old new : ObjectMeta)
| DeleteEvent (o : ObjectMeta)
| GenericEvent (o : ObjectMeta).

(** [predicate.Funcs]: a function that is not set lets everything through. *)
Definition Factory (filter : option (ObjectMeta -> bool)) (e : event) : bool :=
  match filter with
  | None => true
  | Some f =>
      match e with
      | CreateEvent o => f o
      | UpdateEvent old new => f old || f new
      | DeleteEvent o => f o
      | GenericEvent _ => true
      end
  end.

Definition ByNamespace (namespace : string) : event -> bool :=
  Factory (Some (fun o => bool_decide (Namespace o = namespace))).
End predicate.

(** ** [pkg/util/ini/duration.go] *)

Section Duration.
Context `{Durations} (Duration_String : Z -> string).

(** The duration after the call; an error leaves it alone. *)
Definition UnmarshalText (d : Z) (text : string) : result Z :=
  let! res := ParseDuration text in Ok res.
Definition MarshalText (d : Z) : string := Duration_String d.
End Duration.

(** ** [pkg/util/funcmap/extra_funcs.go] *)

Module funcmap.

Inductive TxtFunc :=
| SprigFunc (name : string)
| ToToml | FromToml | ToYaml | FromYaml | FromYamlArray | ToJson | FromJson | FromJsonArray.

Definition extraFuncs : list (string * TxtFunc) :=
  [("toToml", ToToml); ("fromToml", FromToml); ("toYaml", ToYaml); ("fromYaml", FromYaml);
   ("fromYamlArray", FromYamlArray); ("toJson", ToJson); ("fromJson", FromJson);
   ("fromJsonArray", FromJsonArray)].

(** The functions of sprig, by name, then the extra ones over them. *)
Definition ExtraTxtFuncMap (sprig : list string) : gmap string TxtFunc :=
  fold_left (fun m kv => <[kv.1 := kv.2]> m) extraFuncs (list_to_map (map (fun n => (n, SprigFunc n)) sprig)).

(** An encoding of Go values [V]: [yaml.v3], [BurntSushi/toml] or
    [encoding/json].  A decoder may change its target, even to nil, before it
    fails; [Value] is the [interface{}] of a text. *)
Record Codec (V : Type) := {
  Marshal : V -> result string;
  UnmarshalMap : string -> gmap string V -> option (gmap string V) * option error;
  UnmarshalArray : string -> list V -> list V * option error
}.
Arguments Marshal {V} _ _.
Arguments UnmarshalMap {V} _ _ _.
Arguments UnmarshalArray {V} _ _ _.
Class Codecs (V : Type) := {
  yaml : Codec V;
  toml : Codec V;
  json : Codec V;
  Value : string -> V;
  error_Error : error -> string
}.

Section Funcs.
Context {V : Type} `{Codecs V}.

(** The body of [fromYAML], [fromTOML] and [fromJSON]. *)
Definition from_map (c : Codec V) (str : string) : result (gmap string V) :=
  match UnmarshalMap c str ∅ with
  | (Some m, Some err) => Ok (<["Error" := Value (error_Error err)]> m)
  | (None, Some _) => Panic "assignment to entry in nil map"
  | (m, None) => Ok (default ∅ m)
  end.

(** The body of [fromYAMLArray] and [fromJSONArray]. *)
Definition from_array (c : Codec V) (str : string) : list V :=
  match UnmarshalArray c str [] with
  | (_, Some err) => [Value (error_Error err)]
  | (a, None) => a
  end.

(** [swallow]: an error of an encoder becomes a text. *)
Definition swallow (on_error : error -> string) (r : result string) : result string :=
  match r with Err err => Ok (on_error err) | r => r end.

Definition toYAML (v : V) : result string :=
  swallow (fun _ => "") (let! data := Marshal yaml v in Ok (TrimSuffix data NL)).
Definition fromYAML : string -> result (gmap string V) := from_map yaml.
Definition fromYAMLArray : string -> list V := from_array yaml.
(** Unlike the other two encoders, the text of the error. *)
Definition toTOML (v : V) : result string := swallow error_Error (Marshal toml v).
Definition fromTOML : string -> result (gmap string V) := from_map toml.
Definition toJSON (v : V) : result string := swallow (fun _ => "") (Marshal json v).
Definition fromJSON : string -> result (gmap string V) := from_map json.
Definition fromJSONArray : string -> list V := from_array json.
End Funcs.
End funcmap.

(** ** [pkg/util/certificate] *)

Class Files := {
  os_ReadFile : string -> result string;
  clientcmd_LoadFromFile : string -> result Kubeconfig;
  AppendCertsFromPEM : string -> bool
}.

(** [rest.Config], the fields that are read. *)
Record RestConfig := { CAData : string; CAFile : string }.

Section Certificates.
Context `{Files, MapRange}.

Definition getCACertFromKubeconfigPath (kubeconfigPath : string) : result string :=
  let! kubeconfig := clientcmd_LoadFromFile kubeconfigPath in
  match range (Clusters kubeconfig) with
  | [(_, clusterConfig)] =>
      let! cluster := deref "clusterConfig.CertificateAuthorityData" clusterConfig in
      Ok (CertificateAuthorityData cluster)
  | _ => Err (Errorf "kubeconfig does not contain exactly one cluster, can not extract server address" [])
  end.

Definition GetCACert (kubeconfigPath : string) (config : option RestConfig) : result string :=
  if decide (kubeconfigPath <> "") then getCACertFromKubeconfigPath kubeconfigPath
  else
    match config with
    | Some c =>
        if decide (CAData c <> "") then Ok (CAData c)
        else if decide (CAFile c <> "") then
          wrapR "failed to load CA certificate %w" [] (os_ReadFile (CAFile c))
        else Err (Errorf "no CA certificate found" [])
    | None => Err (Errorf "no CA certificate found" [])
    end.

(** ** [cmd/osm-controller/main.go] *)

Definition retrieveCustomCACertificate (filepath : string) : result string :=
  let! cert := wrapR "failed to read file %q: %w" [filepath] (os_ReadFile filepath) in
  if AppendCertsFromPEM cert then Ok cert
  else Err (Errorf "file does not contain valid PEM-encoded certificates" []).
End Certificates.

Section Flags.
Context `{NetIP}.

Fixpoint parse_ips (l : list string) : result (list IP) :=
  match l with
  | [] => Ok []
  | sip :: l' =>
      match ParseIP (TrimSpace sip) with
      | None => Err (Errorf "unable to parse ip %s" [sip])
      | Some ip => let! ips := parse_ips l' in Ok (ip :: ips)
      end
  end.
Definition parseClusterDNSIPs (s : string) : result (list IP) := parse_ips (Split s ",").
End Flags.

Definition RotateKubeletServerCertificate : string := "RotateKubeletServerCertificate".

Definition parse_feature_gate (featureGate : string) : result (string * bool) :=
  match Split featureGate "=" with
  | [name; value] =>
      match ParseBool value with
      | Ok featureGateEnabled => Ok (name, featureGateEnabled)
      | _ => Err (Errorf "failed to parse kubelet feature gate: %q" [featureGate])
      end
  | _ => Err (Errorf "invalid kubelet feature gate: %q" [featureGate])
  end.

Fixpoint parse_feature_gates (featureGates : gmap string bool) (l : list string) : result (gmap string bool) :=
  match l with
  | [] => Ok featureGates
  | featureGate :: l' =>
      let! (name, enabled) := parse_feature_gate featureGate in
      parse_feature_gates (<[name := enabled]> featureGates) l'
  end.

Definition parseKubeletFeatureGates (s : string) : result (gmap string bool) :=
  let! featureGates := parse_feature_gates ∅ (Split s ",") in
  match featureGates !! RotateKubeletServerCertificate with
  | None => Ok (<[RotateKubeletServerCertificate := true]> featureGates)
  | Some _ => Ok featureGates
  end.

(** The variables behind the flags, in the order of the source. *)
Record options := {
  opt_workerCount : Z;
  opt_namespace : string;
  opt_containerRuntime : string;
  opt_externalCloudProvider : bool;
  opt_pauseImage : string;
  opt_initialTaints : string;
  opt_enableLeaderElection : bool;
  opt_clusterDNSIPs : string;
  opt_workerClusterKubeconfig : string;
  opt_kubeconfig : string;
  opt_kubeletFeatureGates : string;
  opt_disableDefaultOSPs : bool;
  opt_healthProbeAddress : string;
  opt_metricsAddress : string;
  opt_workerHealthProbeAddress : string;
  opt_workerMetricsAddress : string;
  opt_nodeInsecureRegistries : string;
  opt_nodeRegistryMirrors : string;
  opt_nodeRegistryCredentialsSecret : string;
  opt_nodeContainerdRegistryMirrors : RegistryMirrorsFlags;
  opt_deviceOwnershipFromSecurityContext : bool;
  opt_nodeHTTPProxy : string;
  opt_nodeNoProxy : string;
  opt_overrideBootstrapKubeletAPIServer : string;
  opt_bootstrapTokenServiceAccountName : string;
  opt_kubernetesCABundleFile : string;
  opt_caBundleFile : string
}.

Section Setup.
Context `{OSCLibs, Files, EmbedFS, NetURL}.

Definition service_account (name : string) : result (option NamespacedName) :=
  if decide (name = "") then Ok None
  else
    match Split name "/" with
    | [namespace; name] => Ok (Some {| NN_Namespace := namespace; NN_Name := name |})
    | parts => Err (Errorf "splitting the bootstrap-token-service-account-name flag value in '/' returned %d parts, expected exactly two"
                      [Itoa (Z.of_nat (length parts))])
    end.

Definition custom_ca (what file : string) : result string :=
  if decide (file = "") then Ok ""
  else wrapR what [] (retrieveCustomCACertificate file).

Definition containerRuntimeOpts (opt : options) : Opts :=
  {| Opts_ContainerRuntime := opt_containerRuntime opt; Opts_ContainerdVersion := "";
     Opts_InsecureRegistries := opt_nodeInsecureRegistries opt;
     Opts_RegistryMirrors := opt_nodeRegistryMirrors opt;
     Opts_RegistryCredentialsSecret := opt_nodeRegistryCredentialsSecret opt;
     Opts_PauseImage := opt_pauseImage opt;
     Opts_ContainerdRegistryMirrors := opt_nodeContainerdRegistryMirrors opt;
     Opts_DeviceOwnershipFromSecurityContext := opt_deviceOwnershipFromSecurityContext opt |}.

(** From the flags to the two reconcilers: a [log.Fatal] is an error.  [rest]
    is the configuration of the manager's cluster.  The kubeconfig flag is
    replaced by the worker cluster's before the CA is looked up. *)
Definition setup (logFlags : log.Options) (opt : options) (rest : RestConfig)
    : result (option (OSPController.Reconciler * list NamespacedName) * OSCController.Reconciler) :=
  let! _ := wrapR "invalid options: %v" [] (log.Validate logFlags) in
  if decide (opt_namespace opt = "") then Err (Errorf "-namespace is required" [])
  else if decide (opt_containerRuntime opt <> "containerd") then
    Err (Errorf "%s not supported; containerd is the only supported container runtimes" [opt_containerRuntime opt])
  else
    let! kubernetesCustomCACert := custom_ca "-kubernetes-ca-bundle is invalid: %s" (opt_kubernetesCABundleFile opt) in
    let! hostCACert := custom_ca "-host-ca-bundle is invalid: %s" (opt_caBundleFile opt) in
    let! parsedClusterDNSIPs := wrapR "invalid cluster dns specified: %v" []
      (parseClusterDNSIPs (opt_clusterDNSIPs opt)) in
    let! parsedKubeletFeatureGates := wrapR "invalid kubelet feature gates specified: %v" []
      (parseKubeletFeatureGates (opt_kubeletFeatureGates opt)) in
    let! sa := service_account (opt_bootstrapTokenServiceAccountName opt) in
    let! containerRuntimeConfig := wrapR "failed to generate container runtime config: %v" []
      (BuildConfig (containerRuntimeOpts opt)) in
    let kubeconfig := if decide (opt_workerClusterKubeconfig opt = "") then opt_kubeconfig opt
                      else opt_workerClusterKubeconfig opt in
    let! caCert :=
      (if decide (opt_kubernetesCABundleFile opt = "") then
         wrapR "failed to load CA certificate" [] (GetCACert kubeconfig (Some rest))
       else Ok kubernetesCustomCACert) in
    let! osps := OSPController.Add (opt_namespace opt) (opt_disableDefaultOSPs opt) in
    Ok (osps,
        {| flags :=
             {| fl_namespace := opt_namespace opt; fl_caCert := caCert; fl_hostCACert := hostCACert;
                fl_clusterDNSIPs := parsedClusterDNSIPs; fl_containerRuntime := opt_containerRuntime opt;
                fl_externalCloudProvider := opt_externalCloudProvider opt;
                fl_initialTaints := opt_initialTaints opt; fl_nodeHTTPProxy := opt_nodeHTTPProxy opt;
                fl_nodeNoProxy := opt_nodeNoProxy opt; fl_kubeletFeatureGates := parsedKubeletFeatureGates |};
           bootstrap :=
             {| bootstrapTokenServiceAccountName := sa;
                overrideBootstrapKubeletAPIServer := opt_overrideBootstrapKubeletAPIServer opt;
                bootstrap_client := WorkerClient; provider_client := WorkerClient; provider_caCert := caCert |};
           nodeRegistryCredentialsSecret := opt_nodeRegistryCredentialsSecret opt;
           containerRuntimeConfig := containerRuntimeConfig |}).
End Setup.

(** ** Properties *)

Lemma parse_feature_gates_spec m0 l m :
  parse_feature_gates m0 l = Ok m ->
  Forall (fun gate => is_ok (parse_feature_gate gate) = true) l /\
  forall name b, m !! name = Some b <->
    (exists before gate after, l = before ++ gate :: after /\ parse_feature_gate gate = Ok (name, b) /\
       Forall (fun g => forall b', parse_feature_gate g <> Ok (name, b')) after) \/
    (Forall (fun g => forall b', parse_feature_gate g <> Ok (name, b')) l /\ m0 !! name = Some b).
Proof.
  revert m0. induction l as [|gate l IH]; intros m0 Hm; cbn in Hm.
  - simplify_eq. split; [constructor|]. intros name b. split; [by right|].
    intros [(before & gate & after & Heq & _)|[_ ?]]; [by destruct before|done].
  - destruct (parse_feature_gate gate) as [[n v]|e|w] eqn:Hg; cbn in Hm; [|done..].
    destruct (IH _ Hm) as [Hall Hspec]. split; [constructor; [by rewrite Hg|done]|].
    intros name b. rewrite Hspec. split.
    + intros [(before & g & after & -> & Hok & Haf)|[Hno Hlk]].
      * left. by exists (gate :: before), g, after.
      * apply lookup_insert_Some in Hlk as [[-> ->]|[Hne Hlk]].
        -- left. by exists [], gate, l.
        -- right. split; [|done]. constructor; [|done]. intros b'. rewrite Hg. congruence.
    + intros [(before & g & after & Heq & Hok & Haf)|[Hno Hlk]].
      * destruct before as [|g0 before]; injection Heq as -> ->.
        -- right. split; [done|]. rewrite Hok in Hg. injection Hg as -> ->. apply lookup_insert_eq.
        -- left. by exists before, g, after.
      * inversion_clear Hno as [|? ? Hn Hno']. right. split; [done|].
        rewrite lookup_insert_ne; [done|]. intros ->. by apply (Hn v).
Qed.

Lemma parse_feature_gates_Some m0 l m name :
  parse_feature_gates m0 l = Ok m ->
  is_Some (m0 !! name) \/ (exists g b, g ∈ l /\ parse_feature_gate g = Ok (name, b)) -> is_Some (m !! name).
Proof.
  revert m0. induction l as [|gate l IH]; intros m0 Hm; cbn in Hm.
  - simplify_eq. intros [?|(g & b & Hg & _)]; [done|by apply not_elem_of_nil in Hg].
  - destruct (parse_feature_gate gate) as [[n v]|e|w] eqn:Hg; cbn in Hm; [|done..].
    intros Hsome. apply (IH _ Hm). destruct (decide (n = name)) as [->|Hne]; [left; by rewrite lookup_insert_eq|].
    rewrite lookup_insert_ne by done. destruct Hsome as [?|(g & b & [->|Hin]%elem_of_cons & Hok)]; [by left| |right].
    + congruence.
    + by exists g, b.
Qed.

(** the feature gates that are accepted are those of the flag: every piece is a name and a boolean, the last piece of a name decides, no other gate is set, and RotateKubeletServerCertificate is on unless the flag says otherwise *)
Theorem parseKubeletFeatureGates_spec s gates :
  parseKubeletFeatureGates s = Ok gates ->
  Forall (fun gate => is_ok (parse_feature_gate gate) = true) (Split s ",") /\
  forall name b, gates !! name = Some b <->
    (exists before gate after, Split s "," = before ++ gate :: after /\ parse_feature_gate gate = Ok (name, b) /\
       Forall (fun g => forall b', parse_feature_gate g <> Ok (name, b')) after) \/
    (name = RotateKubeletServerCertificate /\ b = true /\
     Forall (fun g => forall b', parse_feature_gate g <> Ok (name, b')) (Split s ",")).
Proof.
  unfold parseKubeletFeatureGates. rewrite bindR_Ok. intros (m & Hp & Hm).
  destruct (parse_feature_gates_spec _ _ _ Hp) as [Hall Hspec]. split; [done|]. intros name b.
  assert (m !! RotateKubeletServerCertificate = None <->
    Forall (fun g => forall b', parse_feature_gate g <> Ok (RotateKubeletServerCertificate, b')) (Split s ",")) as Hnone.
  { split.
    - intros Hr. apply Forall_forall. intros g Hg b' Hok.
      destruct (parse_feature_gates_Some _ _ _ RotateKubeletServerCertificate Hp) as [v Hv]; [by eauto|congruence].
    - intros Hno. destruct (m !! _) as [v|] eqn:Hr; [|done].
      apply Hspec in Hr as [(before & g & after & Heq & Hok & _)|[_ Hr]]; [|done].
      rewrite Heq, Forall_app, Forall_cons in Hno. destruct Hno as (_ & Hno & _). by destruct (Hno v). }
  destruct (m !! RotateKubeletServerCertificate) as [v|] eqn:Hr; simplify_eq.
  - rewrite Hspec, lookup_empty. split; [naive_solver|]. intros [?|(-> & -> & Hno)]; [by left|].
    by apply Hnone in Hno.
  - rewrite lookup_insert_Some, Hspec, lookup_empty. split.
    + intros [[<- <-]|[Hne [?|[_ ?]]]]; [right|by left|done]. split_and!; [done..|]. by apply Hnone.
    + intros [Hex|(-> & -> & Hno)]; [right|by left]. split; [|by left]. intros <-.
      destruct Hex as (before & g & after & Heq & Hok & _).
      pose proof (proj1 Hnone eq_refl) as Hno. rewrite Heq, Forall_app, Forall_cons in Hno.
      destruct Hno as (_ & Hno & _). by destruct (Hno b).
Qed.

Section SetupProps.
Context `{OSCLibs, Files, EmbedFS, NetURL}.

Lemma parse_ips_spec l ips :
  parse_ips l = Ok ips -> Forall2 (fun piece ip => ParseIP (TrimSpace piece) = Some ip) l ips.
Proof.
  revert ips. induction l as [|sip l IH]; intros ips Hips; cbn in Hips; [by simplify_eq|].
  destruct (ParseIP _) as [ip|] eqn:Hip; [|done]. inv_bind Hips. constructor; auto.
Qed.

Lemma service_account_spec name sa :
  service_account name = Ok sa ->
  match sa with
  | None => name = ""
  | Some n => name = NN_Namespace n +:+ "/" +:+ NN_Name n
  end.
Proof.
  unfold service_account. destruct (decide (name = "")) as [->|]; [by intros [= <-]|].
  pose proof (Join_Split name "/") as Hj. destruct (Split name "/") as [|a [|b [|c l]]]; try done.
  intros [= <-]. cbn in *. by rewrite <- Hj.
Qed.

Lemma Add_spec ns disabled (osps : option (OSPController.Reconciler * list NamespacedName)) :
  OSPController.Add ns disabled = Ok osps ->
  match osps with
  | None => disabled = true
  | Some (c, requests) =>
      disabled = false /\ loadDefaultOSPs = Ok (defaultOSPs c) /\ OSPController.namespace c = ns /\
      requests ≡ₚ map (fun name => {| NN_Namespace := ns; NN_Name := name |}) (elements (dom (defaultOSPs c)))
  end.
Proof.
  unfold OSPController.Add. destruct disabled; [by intros [= <-]|]. intros Hadd. inv_bind Hadd.
  split_and!; [done..|]. rewrite range_perm.
  rewrite <- (List.map_map fst (fun name => {| NN_Namespace := ns; NN_Name := name |})).
  apply Permutation_map, NoDup_Permutation; [apply NoDup_fst_map_to_list|apply NoDup_elements|].
  intros name. rewrite elem_of_elements, elem_of_dom. split.
  - intros ([k v] & -> & Hin%elem_of_map_to_list)%list_elem_of_fmap. by exists v.
  - intros [v Hv]. apply list_elem_of_fmap. exists (name, v). by rewrite elem_of_map_to_list.
Qed.

(** flags that are accepted give two controllers that agree: the same non-empty namespace, containerd, one address per piece of the DNS flag, the gates and the registry configuration of their parsers, the same CA for the nodes and for the bootstrap kubeconfig, and the service account of the flag; the profile controller starts with one request for each embedded profile, unless it is disabled *)
Theorem setup_spec logFlags opt rest osps r :
  setup logFlags opt rest = Ok (osps, r) ->
  let ns := opt_namespace opt in
  (ns <> "" /\ fl_namespace (flags r) = ns /\ fl_containerRuntime (flags r) = "containerd") /\
  Forall2 (fun piece ip => ParseIP (TrimSpace piece) = Some ip) (Split (opt_clusterDNSIPs opt) ",")
    (fl_clusterDNSIPs (flags r)) /\
  parseKubeletFeatureGates (opt_kubeletFeatureGates opt) = Ok (fl_kubeletFeatureGates (flags r)) /\
  BuildConfig (containerRuntimeOpts opt) = Ok (containerRuntimeConfig r) /\
  provider_caCert (bootstrap r) = fl_caCert (flags r) /\
  match bootstrapTokenServiceAccountName (bootstrap r) with
  | None => opt_bootstrapTokenServiceAccountName opt = ""
  | Some n => opt_bootstrapTokenServiceAccountName opt = NN_Namespace n +:+ "/" +:+ NN_Name n
  end /\
  match osps with
  | None => opt_disableDefaultOSPs opt = true
  | Some (c, requests) =>
      opt_disableDefaultOSPs opt = false /\ loadDefaultOSPs = Ok (defaultOSPs c) /\
      OSPController.namespace c = ns /\
      requests ≡ₚ map (fun name => {| NN_Namespace := ns; NN_Name := name |}) (elements (dom (defaultOSPs c)))
  end.
Proof.
  unfold setup. intros Hs. apply bindR_Ok in Hs as ([] & _ & Hs).
  destruct (decide (opt_namespace opt = "")); [done|].
  destruct (decide (opt_containerRuntime opt <> "containerd")) as [|Hcr%dec_stable]; [done|].
  inv_bind Hs. cbn. split_and!; try done.
  - by apply parse_ips_spec.
  - by eapply service_account_spec.
  - by apply Add_spec.
Qed.
End SetupProps.

(** ** Evaluation on concrete inputs *)

Module Demo.
#[export] Existing Instances DemoSDK.sdk OSCController.Demo.libs OSPController.Demo.files SplitURL.splitter.

#[export] Instance file_system : Files :=
  {| os_ReadFile f := Ok "PEM"; clientcmd_LoadFromFile f := Err (LibError "clientcmd.LoadFromFile" f "no such file");
     AppendCertsFromPEM s := bool_decide (s = "PEM") |}.

Definition opt : options :=
  {| opt_workerCount := 10; opt_enableLeaderElection := true; opt_healthProbeAddress := "127.0.0.1:8085";
     opt_metricsAddress := "127.0.0.1:8080"; opt_workerHealthProbeAddress := "127.0.0.1:8086";
     opt_workerMetricsAddress := "127.0.0.1:8081"; opt_namespace := "osm"; opt_containerRuntime := "containerd"; opt_externalCloudProvider := true;
     opt_pauseImage := ""; opt_initialTaints := ""; opt_clusterDNSIPs := "10.10.10.10, 10.10.10.11";
     opt_workerClusterKubeconfig := ""; opt_kubeconfig := "";
     opt_kubeletFeatureGates := "GracefulNodeShutdown=true,GracefulNodeShutdown=false";
     opt_disableDefaultOSPs := false; opt_nodeInsecureRegistries := ""; opt_nodeRegistryMirrors := "";
     opt_nodeRegistryCredentialsSecret := ""; opt_nodeContainerdRegistryMirrors := ∅;
     opt_deviceOwnershipFromSecurityContext := false; opt_nodeHTTPProxy := ""; opt_nodeNoProxy := "";
     opt_overrideBootstrapKubeletAPIServer := ""; opt_bootstrapTokenServiceAccountName := "kube-system/boot";
     opt_kubernetesCABundleFile := "/ca.pem"; opt_caBundleFile := "" |}.
Definition gates : gmap string bool :=
  default ∅ (ok_value (parseKubeletFeatureGates (opt_kubeletFeatureGates opt))).
Definition zero_setup : option (OSPController.Reconciler * list NamespacedName) * @OSCController.Reconciler DemoSDK.sdk OSCController.Demo.libs :=
  (None, OSCController.Demo.reconciler).
Definition rest : RestConfig := {| CAData := ""; CAFile := "" |}.
Definition started := setup log.NewDefaultOptions opt rest.
Definition result_of : option (OSPController.Reconciler * list NamespacedName) * @OSCController.Reconciler DemoSDK.sdk OSCController.Demo.libs :=
  default zero_setup (ok_value started).
End Demo.
Import Demo.

Lemma parseKubeletFeatureGates_spec_witness :
  Demo.gates !! "GracefulNodeShutdown" = Some false /\
  Forall (fun gate => is_ok (parse_feature_gate gate) = true) (Split (opt_kubeletFeatureGates Demo.opt) ",").
Proof.
  assert (parseKubeletFeatureGates (opt_kubeletFeatureGates Demo.opt) = Ok Demo.gates) as Hok
    by (apply ok_default; vm_compute; reflexivity).
  split; [vm_compute; reflexivity|]. apply (parseKubeletFeatureGates_spec _ _ Hok).
Defined.

Lemma setup_spec_witness :
  bootstrapTokenServiceAccountName (bootstrap Demo.result_of.2) =
    Some {| NN_Namespace := "kube-system"; NN_Name := "boot" |} /\
  fl_namespace (flags Demo.result_of.2) = opt_namespace Demo.opt.
Proof.
  split; [vm_compute; reflexivity|].
  assert (Demo.started = Ok (Demo.result_of.1, Demo.result_of.2)) as Hok.
  { rewrite <- surjective_pairing. apply ok_default. vm_compute. reflexivity. }
  destruct (setup_spec log.NewDefaultOptions Demo.opt Demo.rest _ _ Hok) as [(_ & H & _) _]. exact H.
Defined.
