(* ===== verification/Startup.v ===== *)
(** * Start-up of the two binaries ([cmd/osm-controller], [cmd/webhook])

    Command lines are parsed by the flag sets that the binaries register.  The
    managers, clients and servers that [main] wires together are controller-runtime's:
    each call to them is an effect with any answer, so a theorem over [run] covers
    every way in which the start can fail.  What is prepared from the options alone is
    [setup] of [Main]; [started_run] shows that a controller that comes up runs with it. *)

From S2P Require Import Prelude GoStrings CommandLine NetURL Types SDK Effects.
From S2P Require Import Api ContainerRuntime OSCResources Bootstrap Admission OSPController OSCController Main.

(** ** Setting one field of a record

    [eta o] rebuilds [o] from its fields; the field [f] is replaced by [v]. *)
Ltac set_field eta f v o :=
  let t := eval cbv beta delta [eta] in (eta o) in
  let p := eval pattern (f o) in t in
  match p with ?g _ => let r := eval cbv beta in (g v) in exact r end.

(** ** [pkg/crd/osm/v1alpha1/register.go] *)

Record GroupVersionKind := { gvk_Group : string; gvk_Version : string; gvk_Kind : string }.
#[export] Instance GroupVersionKind_eq_dec : EqDecision GroupVersionKind.
Proof. solve_decision. Defined.
#[export] Instance GroupVersionKind_countable : Countable GroupVersionKind.
Proof.
  refine (inj_countable' (fun g => (gvk_Group g, gvk_Version g, gvk_Kind g))
    (fun t => {| gvk_Group := t.1.1; gvk_Version := t.1.2; gvk_Kind := t.2 |}) _). by intros [].
Defined.

(** [runtime.Scheme]: the kinds it knows. *)
Abbreviation Scheme := (gset GroupVersionKind).

Module v1alpha1.
Definition GroupName : string := "operatingsystemmanager.k8c.io".
Definition GroupVersion : string := "v1alpha1".
Definition WithKind (kind : string) : GroupVersionKind :=
  {| gvk_Group := GroupName; gvk_Version := GroupVersion; gvk_Kind := kind |}.
(** [schema.GroupResource] *)
Definition Resource (resource : string) : string * string := (GroupName, resource).
Definition kinds : list string :=
  ["OperatingSystemProfile"; "OperatingSystemProfileList"; "OperatingSystemConfig"; "OperatingSystemConfigList"].
Definition addKnownTypes (AddToGroupVersion : string -> string -> Scheme -> Scheme) (scheme : Scheme) : Scheme :=
  AddToGroupVersion GroupName GroupVersion (scheme ∪ list_to_set (map WithKind kinds)).
End v1alpha1.

(** The registrations of the libraries. *)
Class SchemeLibs := {
  AddToGroupVersion : string -> string -> Scheme -> Scheme;
  clientgoscheme_AddToScheme : Scheme -> result Scheme;
  clusterv1alpha1_AddToScheme : Scheme -> result Scheme
}.

(** [utilruntime.Must]: an error is a panic. *)
Definition Must {A} (r : result A) : result A :=
  match r with Err _ => Panic "utilruntime.Must" | r => r end.

(** [init] of the controller. *)
Definition init `{SchemeLibs} : result Scheme :=
  let! scheme := Must (clientgoscheme_AddToScheme ∅) in
  let! scheme := Must (Ok (v1alpha1.addKnownTypes AddToGroupVersion scheme)) in
  Must (clusterv1alpha1_AddToScheme scheme).

(** ** [pkg/providerconfig/config]

    The global that holds the resolver: nil until the start-up sets it, which it does
    once; the namespace that is passed is not used.  The cloud providers read it. *)

Module config.
Section Instance.
Context {Client Resolver : Type} (NewResolver : Client -> Resolver).
Definition SetConfigVarResolver (client : Client) (namespace : string) (instance : option Resolver) : option Resolver :=
  Some (NewResolver client).
Definition GetConfigVarResolver (instance : option Resolver) : option Resolver := instance.
End Instance.
End config.

(** ** The flags of [cmd/osm-controller] *)

Module osm.

Definition zero_options : options :=
  {| opt_workerCount := 0; opt_namespace := ""; opt_containerRuntime := ""; opt_externalCloudProvider := false;
     opt_pauseImage := ""; opt_initialTaints := ""; opt_enableLeaderElection := false; opt_clusterDNSIPs := "";
     opt_workerClusterKubeconfig := ""; opt_kubeconfig := ""; opt_kubeletFeatureGates := "";
     opt_disableDefaultOSPs := false; opt_healthProbeAddress := ""; opt_metricsAddress := "";
     opt_workerHealthProbeAddress := ""; opt_workerMetricsAddress := ""; opt_nodeInsecureRegistries := "";
     opt_nodeRegistryMirrors := ""; opt_nodeRegistryCredentialsSecret := "";
     opt_nodeContainerdRegistryMirrors := ∅; opt_deviceOwnershipFromSecurityContext := false;
     opt_nodeHTTPProxy := ""; opt_nodeNoProxy := ""; opt_overrideBootstrapKubeletAPIServer := "";
     opt_bootstrapTokenServiceAccountName := ""; opt_kubernetesCABundleFile := ""; opt_caBundleFile := "" |}.

Definition eta (o : options) : options :=
  {| opt_workerCount := opt_workerCount o; opt_namespace := opt_namespace o;
     opt_containerRuntime := opt_containerRuntime o; opt_externalCloudProvider := opt_externalCloudProvider o;
     opt_pauseImage := opt_pauseImage o; opt_initialTaints := opt_initialTaints o;
     opt_enableLeaderElection := opt_enableLeaderElection o; opt_clusterDNSIPs := opt_clusterDNSIPs o;
     opt_workerClusterKubeconfig := opt_workerClusterKubeconfig o; opt_kubeconfig := opt_kubeconfig o;
     opt_kubeletFeatureGates := opt_kubeletFeatureGates o; opt_disableDefaultOSPs := opt_disableDefaultOSPs o;
     opt_healthProbeAddress := opt_healthProbeAddress o; opt_metricsAddress := opt_metricsAddress o;
     opt_workerHealthProbeAddress := opt_workerHealthProbeAddress o;
     opt_workerMetricsAddress := opt_workerMetricsAddress o;
     opt_nodeInsecureRegistries := opt_nodeInsecureRegistries o;
     opt_nodeRegistryMirrors := opt_nodeRegistryMirrors o;
     opt_nodeRegistryCredentialsSecret := opt_nodeRegistryCredentialsSecret o;
     opt_nodeContainerdRegistryMirrors := opt_nodeContainerdRegistryMirrors o;
     opt_deviceOwnershipFromSecurityContext := opt_deviceOwnershipFromSecurityContext o;
     opt_nodeHTTPProxy := opt_nodeHTTPProxy o; opt_nodeNoProxy := opt_nodeNoProxy o;
     opt_overrideBootstrapKubeletAPIServer := opt_overrideBootstrapKubeletAPIServer o;
     opt_bootstrapTokenServiceAccountName := opt_bootstrapTokenServiceAccountName o;
     opt_kubernetesCABundleFile := opt_kubernetesCABundleFile o; opt_caBundleFile := opt_caBundleFile o |}.

(** The variables of [main]: [logFlags] and [*opt]. *)
Record variables := { logFlags : log.Options; opt : options }.
Definition on_log (f : log.Options -> log.Options) (st : variables) : variables :=
  {| logFlags := f (logFlags st); opt := opt st |}.
Definition on_opt (f : options -> options) (st : variables) : variables :=
  {| logFlags := logFlags st; opt := f (opt st) |}.

(** [&opt.field] *)
Notation "'&opt.' f" := (fun v => on_opt (fun o => ltac:(set_field eta f v o))) (at level 10, f at level 9, only parsing).

(** The calls of [main] that register flags, in order.  [-kubeconfig] may have been
    registered by controller-runtime already, with the same default; [main] reads it
    back with [flag.Lookup], so its value is taken for the field.  The variable behind
    [-ca-bundle] is not read. *)
Definition flags : list (Flag variables) :=
  log.AddFlags on_log log.NewDefaultOptions ++
  [StringVar (&opt. opt_kubeconfig) "kubeconfig" "";
   StringVar (&opt. opt_workerClusterKubeconfig) "worker-cluster-kubeconfig" "";
   IntVar (&opt. opt_workerCount) "worker-count" 10;
   StringVar (&opt. opt_namespace) "namespace" "";
   StringVar (&opt. opt_containerRuntime) "container-runtime" "containerd";
   BoolVar (&opt. opt_externalCloudProvider) "external-cloud-provider" false;
   StringVar (&opt. opt_clusterDNSIPs) "cluster-dns" "10.10.10.10";
   StringVar (&opt. opt_pauseImage) "pause-image" "";
   StringVar (&opt. opt_initialTaints) "initial-taints" "";
   BoolVar (&opt. opt_disableDefaultOSPs) "disable-default-osps" false;
   StringVar (&opt. opt_kubeletFeatureGates) "node-kubelet-feature-gates" "RotateKubeletServerCertificate=true";
   StringVar (&opt. opt_nodeHTTPProxy) "node-http-proxy" "";
   StringVar (&opt. opt_nodeNoProxy) "node-no-proxy" ".svc,.cluster.local,localhost,127.0.0.1";
   StringVar (&opt. opt_nodeInsecureRegistries) "node-insecure-registries" "";
   StringVar (&opt. opt_nodeRegistryMirrors) "node-registry-mirrors" "";
   BoolVar (&opt. opt_deviceOwnershipFromSecurityContext) "device-ownership-from-security-context" false;
   Var (fun s st =>
          let! fl := RegistryMirrorsFlags_Set (opt_nodeContainerdRegistryMirrors (opt st)) s in
          Ok ((&opt. opt_nodeContainerdRegistryMirrors) fl st)) "node-containerd-registry-mirrors";
   StringVar (&opt. opt_nodeRegistryCredentialsSecret) "node-registry-credentials-secret" "";
   StringVar (&opt. opt_healthProbeAddress) "health-probe-address" "127.0.0.1:8085";
   StringVar (&opt. opt_metricsAddress) "metrics-address" "127.0.0.1:8080";
   StringVar (&opt. opt_workerHealthProbeAddress) "worker-health-probe-address" "127.0.0.1:8086";
   StringVar (&opt. opt_workerMetricsAddress) "worker-metrics-address" "127.0.0.1:8081";
   BoolVar (&opt. opt_enableLeaderElection) "leader-elect" true;
   StringVar (&opt. opt_overrideBootstrapKubeletAPIServer) "override-bootstrap-kubelet-apiserver" "";
   StringVar (&opt. opt_bootstrapTokenServiceAccountName) "bootstrap-token-service-account-name" "";
   StringVar (&opt. opt_kubernetesCABundleFile) "kubernetes-ca-bundle" "";
   StringVar (&opt. opt_caBundleFile) "host-ca-bundle" "";
   StringVar (fun _ st => st) "ca-bundle" ""].

Definition parse_command_line (args : list string) : result (variables * list string) :=
  let! (fs, st) := register flags ∅ {| logFlags := log.NewDefaultOptions; opt := zero_options |} in
  Parse fs args st.
End osm.

(** ** Managers and the calls to them *)

(** [manager.Options] and [webhook.Options]; a nil list of namespaces caches all. *)
Record WebhookServer := { CertDir : string; Port : Z }.
Record ManagerOptions := {
  mo_Scheme : Scheme;
  mo_LeaderElection : bool;
  mo_LeaderElectionID : string;
  mo_LeaderElectionNamespace : string;
  mo_HealthProbeBindAddress : string;
  mo_MetricsBindAddress : string;
  mo_DefaultNamespaces : option (list string);
  mo_WebhookServer : option WebhookServer
}.

(** The three handlers of the webhook server. *)
Inductive webhook := OSCValidation | OSPValidation | MDMutation.

(** What stands behind a client in the start-up. *)
Inductive client_of (Mgr Direct : Type) := ManagerClient (m : Mgr) | DirectClient (d : Direct).
Arguments ManagerClient {Mgr Direct} m.
Arguments DirectClient {Mgr Direct} d.

(** controller-runtime: [Mgr] are managers, [Direct] clients that are made without one. *)
Class Runtime := { Mgr : Type; Direct : Type; GetConfig : Mgr -> RestConfig }.

Section Controllers.
Context `{OSCLibs, Files, EmbedFS, NetURL, log.Zap, Runtime}.

(** A reconciler with the clients it is given. *)
Inductive reconciler :=
| OSPReconciler (client : client_of Mgr Direct) (r : OSPController.Reconciler)
| OSCReconciler (client worker_client bootstrap_client : client_of Mgr Direct) (r : OSCController.Reconciler).

(** What [builder.ControllerManagedBy] is told: the objects that are watched, with a
    filter, and the requests of the channel source. *)
Record controller := {
  ctrl_Name : string;
  ctrl_MaxConcurrentReconciles : Z;
  ctrl_For : kind;
  ctrl_Predicate : ObjectMeta -> bool;
  ctrl_Channel : list NamespacedName;
  ctrl_Reconciler : reconciler
}.

Inductive StartE : Type -> Type :=
| SetLogger (l : log.Logger) (callerSkip : Z) : StartE unit
| Configure (l : log.Logger) : StartE unit
| GetConfigOrDie : StartE (result RestConfig)
| ClientConfig (kubeconfig : string) : StartE (result RestConfig)
| client_New (c : RestConfig) (scheme : Scheme) : StartE (result Direct)
| manager_New (c : RestConfig) (o : ManagerOptions) : StartE (result Mgr)
| AddHealthzCheck (m : Mgr) (name : string) : StartE (result unit)
| AddReadyzCheck (m : Mgr) (name : string) : StartE (result unit)
| manager_Add (m runnable : Mgr) : StartE (result unit)
| SetConfigVarResolver (c : client_of Mgr Direct) : StartE unit
| Build (m : Mgr) (c : controller) : StartE (result unit)
| Register (m : Mgr) (path : string) (h : webhook) : StartE unit
| manager_Start (m : Mgr) : StartE (result unit).

Abbreviation start A := (io StartE A).

(** ** [Add] of the two controllers *)

Definition osp_Add (mgr : Mgr) (namespace : string) (workerCount : Z) (disableDefaultOSPs : bool) : start unit :=
  do! added <- pureIO (OSPController.Add namespace disableDefaultOSPs);
  match added with
  | None => Ret (Ok tt)
  | Some (r, bootstrapping) =>
      trigger (Build mgr
        {| ctrl_Name := "OperatingSystemProfileController"; ctrl_MaxConcurrentReconciles := workerCount;
           ctrl_For := KOperatingSystemProfile;
           ctrl_Predicate o := bool_decide (Namespace o = namespace);
           ctrl_Channel := bootstrapping; ctrl_Reconciler := OSPReconciler (ManagerClient mgr) r |})
  end.

Definition osc_controller (client workerClient : client_of Mgr Direct) (workerCount : Z)
    (r : OSCController.Reconciler) : controller :=
  {| ctrl_Name := "operating-system-config-controller"; ctrl_MaxConcurrentReconciles := workerCount;
     ctrl_For := KMachineDeployment; ctrl_Predicate := filterMachineDeploymentPredicate; ctrl_Channel := [];
     ctrl_Reconciler := OSCReconciler client workerClient workerClient r |}.

Definition osc_Add (mgr : Mgr) (workerClient client : client_of Mgr Direct) (bootstrappingManager : BootstrapManager)
    (caCert hostCACert namespace : string) (workerCount : Z) (clusterDNSIPs : list IP)
    (containerRuntime : string) (externalCloudProvider : bool)
    (initialTaints nodeHTTPProxy nodeNoProxy : string) (containerRuntimeConfig : Config)
    (nodeRegistryCredentialsSecret : string) (kubeletFeatureGates : gmap string bool) : start unit :=
  trigger (Build mgr (osc_controller client workerClient workerCount
    {| flags :=
         {| fl_namespace := namespace; fl_caCert := caCert; fl_hostCACert := hostCACert;
            fl_clusterDNSIPs := clusterDNSIPs; fl_containerRuntime := containerRuntime;
            fl_externalCloudProvider := externalCloudProvider; fl_initialTaints := initialTaints;
            fl_nodeHTTPProxy := nodeHTTPProxy; fl_nodeNoProxy := nodeNoProxy;
            fl_kubeletFeatureGates := kubeletFeatureGates |};
       bootstrap := bootstrappingManager;
       nodeRegistryCredentialsSecret := nodeRegistryCredentialsSecret;
       containerRuntimeConfig := containerRuntimeConfig |})).

(** [clusterinfo.New] and [bootstrap.New] with the client of the worker cluster. *)
Definition clusterinfo_New (client : Api.client) (caCert : string) : Api.client * string := (client, caCert).
Definition bootstrap_New (client : Api.client) (kubeconfigProvider : Api.client * string)
    (sa : option NamespacedName) (override : string) : BootstrapManager :=
  {| bootstrapTokenServiceAccountName := sa; overrideBootstrapKubeletAPIServer := override;
     bootstrap_client := client; provider_client := kubeconfigProvider.1;
     provider_caCert := kubeconfigProvider.2 |}.

(** ** [main] of the controller *)

Definition manager_options (scheme : Scheme) (opt : options) : ManagerOptions :=
  {| mo_Scheme := scheme; mo_LeaderElection := opt_enableLeaderElection opt;
     mo_LeaderElectionID := "operating-system-manager"; mo_LeaderElectionNamespace := opt_namespace opt;
     mo_HealthProbeBindAddress := opt_healthProbeAddress opt; mo_MetricsBindAddress := opt_metricsAddress opt;
     mo_DefaultNamespaces := if decide (opt_workerClusterKubeconfig opt = "") then None else Some [opt_namespace opt];
     mo_WebhookServer := None |}.

Definition createManager (scheme : Scheme) (opt : options) : start Mgr :=
  do! config <- trigger GetConfigOrDie;
  do! mgr <- wrapIO "error building ctrlruntime manager: %w" [] (trigger (manager_New config (manager_options scheme opt)));
  do! _ <- wrapIO "failed to add health check: %w" [] (trigger (AddHealthzCheck mgr "healthz"));
  do! _ <- wrapIO "failed to add readiness check: %w" [] (trigger (AddReadyzCheck mgr "readyz"));
  Ret (Ok mgr).

Definition worker_manager_options (scheme : Scheme) (opt : options) : ManagerOptions :=
  {| mo_Scheme := scheme; mo_LeaderElection := opt_enableLeaderElection opt;
     mo_LeaderElectionID := "operating-system-manager-worker-manager";
     mo_LeaderElectionNamespace := "kube-system";
     mo_HealthProbeBindAddress := opt_workerHealthProbeAddress opt;
     mo_MetricsBindAddress := opt_workerMetricsAddress opt;
     mo_DefaultNamespaces := None; mo_WebhookServer := None |}.

(** The manager and the client of the worker cluster, and the kubeconfig that the CA is
    looked up in. *)
Definition worker_cluster (scheme : Scheme) (opt : options) (mgr : Mgr) : start (Mgr * client_of Mgr Direct * string) :=
  if decide (opt_workerClusterKubeconfig opt = "") then
    Ret (Ok (mgr, ManagerClient mgr, opt_kubeconfig opt))
  else
    do! workerClusterConfig <- trigger (ClientConfig (opt_workerClusterKubeconfig opt));
    do! workerClient <- wrapIO "failed to build worker client: %v" [] (trigger (client_New workerClusterConfig scheme));
    do! workerMgr <- trigger (manager_New workerClusterConfig (worker_manager_options scheme opt));
    do! _ <- wrapIO "failed to add workers cluster mgr to main mgr" [] (trigger (manager_Add mgr workerMgr));
    Ret (Ok (workerMgr, DirectClient workerClient, opt_workerClusterKubeconfig opt)).

(** The part between the flags and the managers. *)
Record prepared := {
  prep_kubernetesCustomCACert : string;
  prep_hostCACert : string;
  prep_clusterDNSIPs : list IP;
  prep_kubeletFeatureGates : gmap string bool;
  prep_serviceAccount : option NamespacedName;
  prep_containerRuntimeConfig : Config
}.
Definition prepare (opt : options) : result prepared :=
  if decide (opt_namespace opt = "") then Err (Errorf "-namespace is required" [])
  else if decide (opt_containerRuntime opt <> "containerd") then
    Err (Errorf "%s not supported; containerd is the only supported container runtimes" [opt_containerRuntime opt])
  else
    let! kubernetesCustomCACert := custom_ca "-kubernetes-ca-bundle is invalid: %s" (opt_kubernetesCABundleFile opt) in
    let! hostCACert := custom_ca "-host-ca-bundle is invalid: %s" (opt_caBundleFile opt) in
    let! parsedClusterDNSIPs := wrapR "invalid cluster dns specified: %v" []
      (parseClusterDNSIPs (opt_clusterDNSIPs opt)) in
    let! parsedKubeletFeatureGates := wrapR "invalid kubelet feature gates specified: %v" []
      (parseKubeletFeatureGates (opt_kubeletFeatureGates opt)) in
    let! sa := service_account (opt_bootstrapTokenServiceAccountName opt) in
    let! containerRuntimeConfig := wrapR "failed to generate container runtime config: %v" []
      (BuildConfig (containerRuntimeOpts opt)) in
    Ok {| prep_kubernetesCustomCACert := kubernetesCustomCACert; prep_hostCACert := hostCACert;
          prep_clusterDNSIPs := parsedClusterDNSIPs; prep_kubeletFeatureGates := parsedKubeletFeatureGates;
          prep_serviceAccount := sa; prep_containerRuntimeConfig := containerRuntimeConfig |}.

(** From the managers on. *)
Definition start_controllers (opt : options) (p : prepared) (mgr workerMgr : Mgr)
    (workerClient : client_of Mgr Direct) (kubeconfig : string) : start unit :=
  do! caCert <-
    (if decide (opt_kubernetesCABundleFile opt = "") then
       wrapIO "failed to load CA certificate" [] (pureIO (GetCACert kubeconfig (Some (GetConfig mgr))))
     else Ret (Ok (prep_kubernetesCustomCACert p)));
  let kubeconfigProvider := clusterinfo_New WorkerClient caCert in
  let bootstrappingManager := bootstrap_New WorkerClient kubeconfigProvider (prep_serviceAccount p)
    (opt_overrideBootstrapKubeletAPIServer opt) in
  do _ <- trigger (SetConfigVarResolver (ManagerClient workerMgr));
  do! _ <- osp_Add mgr (opt_namespace opt) (opt_workerCount opt) (opt_disableDefaultOSPs opt);
  do! _ <- osc_Add workerMgr workerClient (ManagerClient mgr) bootstrappingManager caCert (prep_hostCACert p)
    (opt_namespace opt) (opt_workerCount opt) (prep_clusterDNSIPs p) (opt_containerRuntime opt)
    (opt_externalCloudProvider opt) (opt_initialTaints opt) (opt_nodeHTTPProxy opt) (opt_nodeNoProxy opt)
    (prep_containerRuntimeConfig p) (opt_nodeRegistryCredentialsSecret opt) (prep_kubeletFeatureGates p);
  wrapIO "Failed to start OSC controller: %v" [] (trigger (manager_Start mgr)).

(** [os.Args[1:]] are the arguments; a [log.Fatal] or an exit is an error. *)
Definition controller_main `{SchemeLibs} (args : list string) : start unit :=
  do! scheme <- pureIO init;
  do! (vars, _) <- pureIO (osm.parse_command_line args);
  let logFlags := osm.logFlags vars in
  let opt := osm.opt vars in
  do! _ <- wrapIO "invalid options: %v" [] (pureIO (log.Validate logFlags));
  let rawLog := log.New (log.Debug logFlags) (log.Options_Format logFlags) in
  do _ <- trigger (SetLogger rawLog 1);
  do _ <- trigger (Configure rawLog);
  do! p <- pureIO (prepare opt);
  do! mgr <- wrapIO "failed to create runtime manager: %v" [] (createManager scheme opt);
  do! (workerMgr, workerClient, kubeconfig) <- worker_cluster scheme opt mgr;
  start_controllers opt p mgr workerMgr workerClient kubeconfig.
End Controllers.

(** ** [cmd/webhook] *)

Module webhooks.

Record options := {
  opt_namespace : string;
  opt_metricsAddr : string;
  opt_enableLeaderElection : bool;
  opt_probeAddr : string;
  opt_certDir : string
}.
Definition zero_options : options :=
  {| opt_namespace := ""; opt_metricsAddr := ""; opt_enableLeaderElection := false; opt_probeAddr := "";
     opt_certDir := "" |}.
Definition eta (o : options) : options :=
  {| opt_namespace := opt_namespace o; opt_metricsAddr := opt_metricsAddr o;
     opt_enableLeaderElection := opt_enableLeaderElection o; opt_probeAddr := opt_probeAddr o;
     opt_certDir := opt_certDir o |}.

Record variables := { logFlags : log.Options; opt : options }.
Definition on_log (f : log.Options -> log.Options) (st : variables) : variables :=
  {| logFlags := f (logFlags st); opt := opt st |}.
Definition on_opt (f : options -> options) (st : variables) : variables :=
  {| logFlags := logFlags st; opt := f (opt st) |}.
Notation "'&opt.' f" := (fun v => on_opt (fun o => ltac:(set_field eta f v o))) (at level 10, f at level 9, only parsing).

Definition flags : list (Flag variables) :=
  log.AddFlags on_log log.NewDefaultOptions ++
  [StringVar (&opt. opt_metricsAddr) "metrics-bind-address" ":8080";
   StringVar (&opt. opt_probeAddr) "health-probe-bind-address" ":8081";
   BoolVar (&opt. opt_enableLeaderElection) "leader-elect" false;
   StringVar (&opt. opt_namespace) "namespace" "";
   StringVar (&opt. opt_certDir) "cert-dir" "/tmp/k8s-webhook-server/serving-certs"].

Definition parse_command_line (args : list string) : result (variables * list string) :=
  let! (fs, st) := register flags ∅ {| logFlags := log.NewDefaultOptions; opt := zero_options |} in
  Parse fs args st.

(** [init] of the webhook server: the same kinds as the controller. *)
Definition init `{SchemeLibs} : result Scheme :=
  let! scheme := Must (clientgoscheme_AddToScheme ∅) in
  let! scheme := Must (Ok (v1alpha1.addKnownTypes AddToGroupVersion scheme)) in
  Must (clusterv1alpha1_AddToScheme scheme).

Section Webhooks.
Context `{OSCLibs, log.Zap, Runtime}.
Abbreviation start A := (io StartE A).

(** [SetupWebhookWithManager] of the three packages. *)
Definition oscvalidation_SetupWebhookWithManager (mgr : Mgr) : prog StartE unit :=
  trigger (Register mgr "/operatingsystemconfig" OSCValidation).
Definition ospvalidation_SetupWebhookWithManager (mgr : Mgr) : prog StartE unit :=
  trigger (Register mgr "/operatingsystemprofile" OSPValidation).
Definition mdmutation_SetupWebhookWithManager (mgr : Mgr) : prog StartE unit :=
  trigger (Register mgr "/mutate-v1alpha1-machinedeployment" MDMutation).

Definition manager_options (scheme : Scheme) (opt : options) : ManagerOptions :=
  {| mo_Scheme := scheme; mo_LeaderElection := opt_enableLeaderElection opt;
     mo_LeaderElectionID := "operating-system-manager-leader-lock";
     mo_LeaderElectionNamespace := opt_namespace opt; mo_HealthProbeBindAddress := opt_probeAddr opt;
     mo_MetricsBindAddress := opt_metricsAddr opt; mo_DefaultNamespaces := None;
     mo_WebhookServer := Some {| CertDir := opt_certDir opt; Port := 9443 |} |}.

Definition webhook_main `{SchemeLibs} (args : list string) : start unit :=
  do! scheme <- pureIO init;
  do! (vars, _) <- pureIO (parse_command_line args);
  let opt := opt vars in
  do! _ <- wrapIO "Invalid options: %v" [] (pureIO (log.Validate (logFlags vars)));
  let rawLog := log.New (log.Debug (logFlags vars)) (log.Options_Format (logFlags vars)) in
  do _ <- trigger (SetLogger rawLog 1);
  if decide (opt_namespace opt = "") then Ret (Err (Errorf "-namespace is required" []))
  else
    do! config <- trigger GetConfigOrDie;
    do! mgr <- wrapIO "failed to create the manager" [] (trigger (manager_New config (manager_options scheme opt)));
    do _ <- oscvalidation_SetupWebhookWithManager mgr;
    do _ <- ospvalidation_SetupWebhookWithManager mgr;
    do _ <- mdmutation_SetupWebhookWithManager mgr;
    do! _ <- wrapIO "failed to add health check: %v" [] (trigger (AddHealthzCheck mgr "healthz"));
    do! _ <- wrapIO "failed to add readiness check: %v" [] (trigger (AddReadyzCheck mgr "readyz"));
    wrapIO "failed to start OSC controller: %v" [] (trigger (manager_Start mgr)).
End Webhooks.
End webhooks.

(** ** Properties *)

(** *** Command lines *)

(** The flag set after the registrations, and what each variable holds when no flag is
    given. *)
Definition osm_flagset : gmap string (Flag osm.variables) := after_register osm.flags ∅.
Definition osm_defaults : osm.variables :=
  fold_left (fun st f => Flag_Init f st) osm.flags {| osm.logFlags := log.NewDefaultOptions; osm.opt := osm.zero_options |}.

Definition osm_names : list string := Eval vm_compute in map Flag_Name osm.flags.
Lemma osm_names_flags : map Flag_Name osm.flags = osm_names.
Proof. reflexivity. Qed.
Lemma osm_names_registrable : forallb registrable osm_names = true.
Proof. vm_compute. reflexivity. Qed.
Lemma osm_names_distinct : bool_decide (NoDup osm_names) = true.
Proof. vm_compute. reflexivity. Qed.

Lemma osm_flags_register :
  register osm.flags ∅ {| osm.logFlags := log.NewDefaultOptions; osm.opt := osm.zero_options |} =
  Ok (osm_flagset, osm_defaults).
Proof.
  unfold osm_flagset, osm_defaults. apply register_ok; rewrite osm_names_flags.
  - apply Forall_forall. intros name Hname. pose proof osm_names_registrable as Hall.
    rewrite forallb_forall in Hall. apply Hall. by apply list_elem_of_In.
  - apply (bool_decide_eq_true_1 _ osm_names_distinct).
  - intros. apply lookup_empty.
Qed.

Lemma osm_flags_speakable : Forall (fun f => speakable (Flag_Name f)) osm.flags.
Proof. repeat constructor. Qed.

(** *** The options as they are documented

    A table apart from the registrations: the name, the default and the variable of
    every option, and what a setting makes of its value. *)

Definition string_option (name value : string) (get : options -> string) : Described osm.variables :=
  {| d_name := name; d_bool := false; d_type := string; d_default := value;
     d_step := fun _ => Ok; d_get := fun st => get (osm.opt st) |}.
Definition bool_option (name : string) (value : bool) (get : options -> bool) : Described osm.variables :=
  {| d_name := name; d_bool := true; d_type := bool; d_default := value;
     d_step := fun _ => ParseBool; d_get := fun st => get (osm.opt st) |}.

Definition osm_options : list (Described osm.variables) :=
  [{| d_name := "log-debug"; d_bool := true; d_type := bool; d_default := false;
      d_step := fun _ => ParseBool; d_get := fun st => log.Debug (osm.logFlags st) |};
   {| d_name := "log-format"; d_bool := false; d_type := string; d_default := "JSON";
      d_step := fun _ => log.Format_Set; d_get := fun st => log.Options_Format (osm.logFlags st) |};
   {| d_name := "worker-count"; d_bool := false; d_type := Z; d_default := 10%Z;
      d_step := fun _ => ParseInt0; d_get := fun st => opt_workerCount (osm.opt st) |};
   {| d_name := "node-containerd-registry-mirrors"; d_bool := false; d_type := RegistryMirrorsFlags; d_default := ∅;
      d_step := RegistryMirrorsFlags_Set; d_get := fun st => opt_nodeContainerdRegistryMirrors (osm.opt st) |};
   {| d_name := "ca-bundle"; d_bool := false; d_type := unit; d_default := tt;
      d_step := fun _ _ => Ok tt; d_get := fun _ => tt |};
   bool_option "external-cloud-provider" false opt_externalCloudProvider;
   bool_option "disable-default-osps" false opt_disableDefaultOSPs;
   bool_option "device-ownership-from-security-context" false opt_deviceOwnershipFromSecurityContext;
   bool_option "leader-elect" true opt_enableLeaderElection;
   string_option "kubeconfig" "" opt_kubeconfig;
   string_option "worker-cluster-kubeconfig" "" opt_workerClusterKubeconfig;
   string_option "namespace" "" opt_namespace;
   string_option "container-runtime" "containerd" opt_containerRuntime;
   string_option "cluster-dns" "10.10.10.10" opt_clusterDNSIPs;
   string_option "pause-image" "" opt_pauseImage;
   string_option "initial-taints" "" opt_initialTaints;
   string_option "node-kubelet-feature-gates" "RotateKubeletServerCertificate=true" opt_kubeletFeatureGates;
   string_option "node-http-proxy" "" opt_nodeHTTPProxy;
   string_option "node-no-proxy" ".svc,.cluster.local,localhost,127.0.0.1" opt_nodeNoProxy;
   string_option "node-insecure-registries" "" opt_nodeInsecureRegistries;
   string_option "node-registry-mirrors" "" opt_nodeRegistryMirrors;
   string_option "node-registry-credentials-secret" "" opt_nodeRegistryCredentialsSecret;
   string_option "health-probe-address" "127.0.0.1:8085" opt_healthProbeAddress;
   string_option "metrics-address" "127.0.0.1:8080" opt_metricsAddress;
   string_option "worker-health-probe-address" "127.0.0.1:8086" opt_workerHealthProbeAddress;
   string_option "worker-metrics-address" "127.0.0.1:8081" opt_workerMetricsAddress;
   string_option "override-bootstrap-kubelet-apiserver" "" opt_overrideBootstrapKubeletAPIServer;
   string_option "bootstrap-token-service-account-name" "" opt_bootstrapTokenServiceAccountName;
   string_option "kubernetes-ca-bundle" "" opt_kubernetesCABundleFile;
   string_option "host-ca-bundle" "" opt_caBundleFile].

(** The description of a registered flag. *)
Definition description (f : Flag osm.variables) : option (Described osm.variables) :=
  List.find (fun d => bool_decide (d_name d = Flag_Name f)) osm_options.

Lemma osm_options_distinct : bool_decide (NoDup (map d_name osm_options)) = true.
Proof. vm_compute. reflexivity. Qed.

(** No option is missing from the registrations. *)
Lemma osm_options_registered : forallb (fun name => bool_decide (name ∈ osm_names)) (map d_name osm_options) = true.
Proof. vm_compute. reflexivity. Qed.

Lemma osm_options_complete (o o' : osm.variables) : Forall (fun d => d_get d o = d_get d o') osm_options -> o = o'.
Proof.
  intros Hall. unfold osm_options in Hall. repeat apply Forall_cons_1 in Hall as [? Hall].
  destruct o as [[] []], o' as [[] []]. cbn in *. by subst.
Qed.

Lemma osm_options_default : Forall (fun d => d_get d osm_defaults = d_default d) osm_options.
Proof. repeat constructor. Qed.

Lemma osm_flags_implement :
  Forall (fun f => match description f with Some d => implements osm_options f d | None => False end) osm.flags.
Proof.
  unfold osm.flags, log.AddFlags. cbn [app]. repeat apply Forall_cons_2; [..|apply Forall_nil_2].
  all: match goal with |- match ?x with _ => _ end => let d := eval hnf in x in change x with d end; cbv iota.
  all: split; [reflexivity|split; [reflexivity|]]; intros v st; cbn.
  all: repeat match goal with |- match ?x with _ => _ end => destruct x; cbn end; try reflexivity.
  all: eexists; split; [reflexivity|]; split; [reflexivity|].
  all: unfold osm_options; repeat apply Forall_cons_2; try apply Forall_nil_2; intros Hne; first [reflexivity|by destruct Hne].
Qed.

Lemma osm_flagset_implemented : implemented osm_options osm_flagset.
Proof.
  pose proof osm_flags_implement as Himpl. rewrite Forall_forall in Himpl.
  assert (forall name f, osm_flagset !! name = Some f <-> f ∈ osm.flags /\ Flag_Name f = name) as Hfs.
  { intros name f. rewrite (register_lookup _ _ _ _ _ name f osm_flags_register), lookup_empty. naive_solver. }
  assert (forall f d, description f = Some d -> d ∈ osm_options /\ d_name d = Flag_Name f) as Hdesc.
  { intros f d [Hin Hd]%List.find_some. split; [by apply list_elem_of_In|]. by apply bool_decide_eq_true in Hd. }
  split.
  - intros name f [Hf <-]%Hfs. specialize (Himpl f Hf). destruct (description f) as [d|] eqn:Hd; [|done].
    apply Hdesc in Hd as [??]. by exists d.
  - intros d Hd. assert (d_name d ∈ map Flag_Name osm.flags) as (f & Hn & Hf)%list_elem_of_fmap.
    { rewrite osm_names_flags. apply (list_elem_of_fmap_2 d_name), list_elem_of_In in Hd.
      pose proof osm_options_registered as Hall. rewrite forallb_forall in Hall. by apply (bool_decide_eq_true_1 _ (Hall _ Hd)). }
    exists f. split; [by apply Hfs|]. specialize (Himpl f Hf). destruct (description f) as [d'|] eqn:Hd'; [|done].
    apply Hdesc in Hd' as [Hin Hn']. rewrite (same_option osm_options (bool_decide_eq_true_1 _ osm_options_distinct) d d'); [done..|].
    congruence.
Qed.

(** C39: the registrations of the controller do not panic, and a command line is accepted when, and only when, its arguments up to the first that is not a flag, or to two dashes, are settings of the documented options, each with one or two dashes and with its value after an equals sign, in the next argument unless the option is a boolean, or left out for a boolean, and every value can be read; then every option has its own value: the last that was given or its default, and for the registry mirrors all that were given *)
Theorem command_line_spec args vars rest :
  osm.parse_command_line args = Ok (vars, rest) <-> means osm_options args vars rest.
Proof.
  unfold osm.parse_command_line. rewrite osm_flags_register. apply Parse_means.
  - apply (bool_decide_eq_true_1 _ osm_options_distinct).
  - exact osm_options_complete.
  - apply (register_well_named _ _ _ _ osm_flags_register osm_flags_speakable).
  - exact osm_flagset_implemented.
  - exact osm_options_default.
Qed.

(** *** The controller *)

Section Started.
Context `{OSCLibs, Files, EmbedFS, NetURL, log.Zap, Runtime, SchemeLibs}.

(** The calls for the worker cluster: none without its kubeconfig. *)
Inductive worker_calls (scheme : Scheme) (opt : options) (mgr : Mgr)
    : list (obs StartE) -> Mgr -> client_of Mgr Direct -> Prop :=
| same_cluster : opt_workerClusterKubeconfig opt = "" -> worker_calls scheme opt mgr [] mgr (ManagerClient mgr)
| other_cluster config client workerMgr :
    opt_workerClusterKubeconfig opt <> "" ->
    worker_calls scheme opt mgr
      [Obs (ClientConfig (opt_workerClusterKubeconfig opt)) (Ok config); Obs (client_New config scheme) (Ok client);
       Obs (manager_New config (worker_manager_options scheme opt)) (Ok workerMgr);
       Obs (manager_Add mgr workerMgr) (Ok tt)]
      workerMgr (DirectClient client).

Definition osp_calls (mgr : Mgr) (opt : options) (osps : option (OSPController.Reconciler * list NamespacedName))
    : list (obs StartE) :=
  match osps with
  | None => []
  | Some (c, bootstrapping) =>
      [Obs (Build mgr
         {| ctrl_Name := "OperatingSystemProfileController"; ctrl_MaxConcurrentReconciles := opt_workerCount opt;
            ctrl_For := KOperatingSystemProfile;
            ctrl_Predicate o := bool_decide (Namespace o = opt_namespace opt);
            ctrl_Channel := bootstrapping; ctrl_Reconciler := OSPReconciler (ManagerClient mgr) c |}) (Ok tt)]
  end.

#[local] Opaque osm.parse_command_line webhooks.parse_command_line.

Definition is_start X (e : StartE X) : Prop := match e with manager_Start _ => True | _ => False end.
Definition starts (t : list (obs StartE)) : Prop :=
  Exists (fun o => match o with Obs e _ => is_start _ e end) t.

Lemma pureIO_past {A B} (m : result A) (f : A -> io StartE B) t b :
  run (bindIO (pureIO m) f) t b -> starts t -> exists a, m = Ok a /\ run (f a) t b.
Proof.
  unfold pureIO, bindIO. cbn. destruct m as [a|e|w]; cbn; [by exists a|intros [-> _] Hs; inversion Hs..].
Qed.

Lemma setup_prepared logFlags opt rest p kubeconfig caCert osps :
  log.Validate logFlags = Ok tt -> prepare opt = Ok p ->
  kubeconfig = (if decide (opt_workerClusterKubeconfig opt = "") then opt_kubeconfig opt
                else opt_workerClusterKubeconfig opt) ->
  (if decide (opt_kubernetesCABundleFile opt = "") then GetCACert kubeconfig (Some rest)
   else Ok (prep_kubernetesCustomCACert p)) = Ok caCert ->
  OSPController.Add (opt_namespace opt) (opt_disableDefaultOSPs opt) = Ok osps ->
  setup logFlags opt rest = Ok (osps,
    {| flags :=
         {| fl_namespace := opt_namespace opt; fl_caCert := caCert; fl_hostCACert := prep_hostCACert p;
            fl_clusterDNSIPs := prep_clusterDNSIPs p; fl_containerRuntime := opt_containerRuntime opt;
            fl_externalCloudProvider := opt_externalCloudProvider opt; fl_initialTaints := opt_initialTaints opt;
            fl_nodeHTTPProxy := opt_nodeHTTPProxy opt; fl_nodeNoProxy := opt_nodeNoProxy opt;
            fl_kubeletFeatureGates := prep_kubeletFeatureGates p |};
       bootstrap := bootstrap_New WorkerClient (clusterinfo_New WorkerClient caCert) (prep_serviceAccount p)
         (opt_overrideBootstrapKubeletAPIServer opt);
       nodeRegistryCredentialsSecret := opt_nodeRegistryCredentialsSecret opt;
       containerRuntimeConfig := prep_containerRuntimeConfig p |}).
Proof.
  intros Hlog Hp -> Hca Hosps. unfold prepare in Hp. unfold setup. rewrite Hlog. cbn.
  destruct (decide (opt_namespace opt = "")); [done|].
  destruct (decide (opt_containerRuntime opt <> "containerd")); [done|].
  inv_bind Hp. cbn in Hca. rewrite Hx, Hx0, Hx1, Hx2, Hx3, Hx4. cbn.
  destruct (decide (opt_kubernetesCABundleFile opt = "")); [rewrite Hca|injection Hca as ->]; cbn; by rewrite Hosps.
Qed.

(** Splitting off the first part of a program whose run makes the call that starts the
    managers, when that part does not make it. *)
Tactic Notation "past" ident(H) ident(Hs) "as" simple_intropattern(a) ident(Ha) :=
  let t1 := fresh "t" in let t2 := fresh "t" in let Hr := fresh in let Hs' := fresh in
  apply (run_bindIO_past is_start) in H as (t1 & t2 & a & -> & Ha & Hr & Hs'); 
    [|unfold createManager, worker_cluster, osp_Add, osc_Add; repeat calls_step; by intros []|exact Hs];
  clear Hs; rename Hr into H, Hs' into Hs.

Lemma createManager_run scheme opt t mgr :
  run (createManager scheme opt) t (Ok mgr) ->
  exists config,
    t = [Obs GetConfigOrDie (Ok config); Obs (manager_New config (manager_options scheme opt)) (Ok mgr);
         Obs (AddHealthzCheck mgr "healthz") (Ok tt); Obs (AddReadyzCheck mgr "readyz") (Ok tt)].
Proof.
  unfold createManager. intros Hr.
  apply run_bindIO_Ok in Hr as (t1 & t2 & config & -> & ->%run_trigger & Hr).
  apply run_bindIO_Ok in Hr as (t3 & t4 & m & -> & ->%run_wrapIO_Ok%run_trigger & Hr).
  apply run_bindIO_Ok in Hr as (t5 & t6 & [] & -> & ->%run_wrapIO_Ok%run_trigger & Hr).
  apply run_bindIO_Ok in Hr as (t7 & t8 & [] & -> & ->%run_wrapIO_Ok%run_trigger & Hr).
  destruct Hr as [-> [= ->]]. by exists config.
Qed.

Lemma worker_cluster_run scheme opt mgr t workerMgr workerClient kubeconfig :
  run (worker_cluster scheme opt mgr) t (Ok (workerMgr, workerClient, kubeconfig)) ->
  worker_calls scheme opt mgr t workerMgr workerClient /\
  kubeconfig = (if decide (opt_workerClusterKubeconfig opt = "") then opt_kubeconfig opt
                else opt_workerClusterKubeconfig opt).
Proof.
  unfold worker_cluster. destruct (decide _) as [Hsame|Hother]; intros Hr.
  - destruct Hr as [-> [= -> -> ->]]. split; [by constructor|done].
  - apply run_bindIO_Ok in Hr as (t1 & t2 & config & -> & ->%run_trigger & Hr).
    apply run_bindIO_Ok in Hr as (t3 & t4 & d & -> & ->%run_wrapIO_Ok%run_trigger & Hr).
    apply run_bindIO_Ok in Hr as (t5 & t6 & m & -> & ->%run_trigger & Hr).
    apply run_bindIO_Ok in Hr as (t7 & t8 & [] & -> & ->%run_wrapIO_Ok%run_trigger & Hr).
    destruct Hr as [-> [= -> -> ->]]. split; [by constructor|done].
Qed.

Lemma osp_Add_run mgr opt t :
  run (osp_Add mgr (opt_namespace opt) (opt_workerCount opt) (opt_disableDefaultOSPs opt)) t (Ok tt) ->
  exists osps, OSPController.Add (opt_namespace opt) (opt_disableDefaultOSPs opt) = Ok osps /\
    t = osp_calls mgr opt osps.
Proof.
  unfold osp_Add. intros (t1 & t2 & osps & -> & [-> Hadd]%run_pureIO & Hr)%run_bindIO_Ok.
  exists osps. split; [done|]. destruct osps as [[c reqs]|]; [by apply run_trigger in Hr as ->|by destruct Hr as [-> _]].
Qed.

Lemma start_controllers_run logFlags opt p mgr workerMgr workerClient kubeconfig t b :
  log.Validate logFlags = Ok tt -> prepare opt = Ok p ->
  kubeconfig = (if decide (opt_workerClusterKubeconfig opt = "") then opt_kubeconfig opt
                else opt_workerClusterKubeconfig opt) ->
  run (start_controllers opt p mgr workerMgr workerClient kubeconfig) t b -> starts t ->
  exists osps r answer,
    setup logFlags opt (GetConfig mgr) = Ok (osps, r) /\
    t = Obs (SetConfigVarResolver (ManagerClient workerMgr)) tt ::
        osp_calls mgr opt osps ++
        [Obs (Build workerMgr (osc_controller (ManagerClient mgr) workerClient (opt_workerCount opt) r)) (Ok tt);
         Obs (manager_Start mgr) answer] /\
    b = wrapR "Failed to start OSC controller: %v" [] answer.
Proof.
  intros Hlog Hp Hk Hr Hs. unfold start_controllers in Hr. past Hr Hs as caCert Hca.
  assert (t0 = [] /\ (if decide (opt_kubernetesCABundleFile opt = "") then GetCACert kubeconfig (Some (GetConfig mgr))
   else Ok (prep_kubernetesCustomCACert p)) = Ok caCert) as [-> Hca'].
  { destruct (decide (opt_kubernetesCABundleFile opt = "")); [by apply run_wrapIO_Ok, run_pureIO in Hca|]. by destruct Hca as [-> [= ->]]. }
  apply (run_bind_past is_start) in Hr as ([] & t2 & -> & Hr & Hs'); [|by intros []|done]. clear Hs.
  past Hr Hs' as [] Hosp. past Hr Hs' as [] Hosc.
  apply osp_Add_run in Hosp as (osps & Hadd & ->). apply run_trigger in Hosc as ->.
  apply run_wrapIO in Hr as (answer & ->%run_trigger & ->).
  eexists osps, _, answer. split; [by eapply setup_prepared|]. by rewrite app_nil_l.
Qed.

(** C37: a controller that starts runs with what its flags say: from a command line the grammar accepts, in every run that gets as far as starting the manager, the calls are exactly the logger, the manager with its election and probes, the worker cluster's client and manager when a worker kubeconfig is given, the variable resolver on the worker cluster, the profile controller unless it is disabled, and the config controller with the reconciler that the pure set-up computes from the options, on the worker manager; starting the main manager is the last call and its error the only one left *)
Theorem started_run args t b :
  run (controller_main args) t b -> starts t ->
  exists scheme vars rest, init = Ok scheme /\ osm.parse_command_line args = Ok (vars, rest) /\
  let opt := osm.opt vars in
  let rawLog := log.New (log.Debug (osm.logFlags vars)) (log.Options_Format (osm.logFlags vars)) in
  exists config mgr workerMgr workerClient worker osps r answer,
    worker_calls scheme opt mgr worker workerMgr workerClient /\
    setup (osm.logFlags vars) opt (GetConfig mgr) = Ok (osps, r) /\
    t = [Obs (SetLogger rawLog 1) tt; Obs (Configure rawLog) tt; Obs GetConfigOrDie (Ok config);
         Obs (manager_New config (manager_options scheme opt)) (Ok mgr);
         Obs (AddHealthzCheck mgr "healthz") (Ok tt); Obs (AddReadyzCheck mgr "readyz") (Ok tt)] ++ worker ++
        [Obs (SetConfigVarResolver (ManagerClient workerMgr)) tt] ++ osp_calls mgr opt osps ++
        [Obs (Build workerMgr (osc_controller (ManagerClient mgr) workerClient (opt_workerCount opt) r)) (Ok tt);
         Obs (manager_Start mgr) answer] /\
    b = wrapR "Failed to start OSC controller: %v" [] answer.
Proof.
  unfold controller_main. intros Hr Hs.
  apply pureIO_past in Hr as (scheme & Hscheme & Hr); [|done].
  destruct (pureIO_past (osm.parse_command_line args) _ _ _ Hr Hs) as ([vars rest] & Hvars & Hr'). clear Hr. rename Hr' into Hr.
  past Hr Hs as [] Hlog. apply run_wrapIO_Ok, run_pureIO in Hlog as [-> Hlog].
  apply (run_bind_past is_start) in Hr as ([] & t2 & -> & Hr & Hs'); [|by intros []|done]. clear Hs.
  apply (run_bind_past is_start) in Hr as ([] & t3 & -> & Hr & Hs); [|by intros []|done]. clear Hs'.
  apply pureIO_past in Hr as (p & Hp & Hr); [|done].
  past Hr Hs as mgr Hmgr. apply run_wrapIO_Ok, createManager_run in Hmgr as (config & ->).
  past Hr Hs as [[workerMgr workerClient] kubeconfig] Hw. apply worker_cluster_run in Hw as [Hw Hk].
  destruct (start_controllers_run _ _ _ _ _ _ _ _ _ Hlog Hp Hk Hr Hs) as (osps & r & answer & Hsetup & -> & ->).
  exists scheme, vars, rest. split_and!; [done..|].
  exists config, mgr, workerMgr, workerClient. do 4 eexists. split_and!; [exact Hw|exact Hsetup|done|done].
Qed.

(** *** Options that are refused *)

Definition ca_file_valid (file : string) : Prop :=
  file = "" \/ exists cert, os_ReadFile file = Ok cert /\ AppendCertsFromPEM cert = true.

(** What a controller demands of its options. *)
Record valid_options (logFlags : log.Options) (opt : options) : Prop := {
  log_valid : log.Validate logFlags = Ok tt;
  namespace_given : opt_namespace opt <> "";
  runtime_supported : opt_containerRuntime opt = "containerd";
  kubernetes_ca_valid : ca_file_valid (opt_kubernetesCABundleFile opt);
  host_ca_valid : ca_file_valid (opt_caBundleFile opt);
  dns_valid : Forall (fun s => is_Some (ParseIP (TrimSpace s))) (Split (opt_clusterDNSIPs opt) ",");
  gates_valid : Forall (fun s => is_ok (parse_feature_gate s) = true) (Split (opt_kubeletFeatureGates opt) ",");
  account_valid : opt_bootstrapTokenServiceAccountName opt = "" \/
    exists namespace name, Split (opt_bootstrapTokenServiceAccountName opt) "/" = [namespace; name];
  runtime_config_valid : is_ok (BuildConfig (containerRuntimeOpts opt)) = true
}.

Lemma custom_ca_ok format file : is_ok (custom_ca format file) = true <-> ca_file_valid file.
Proof.
  unfold custom_ca, ca_file_valid, retrieveCustomCACertificate. destruct (decide (file = "")) as [->|Hne]; [by split; [left|]|].
  destruct (os_ReadFile file) as [cert|e|w]; cbn; [destruct (AppendCertsFromPEM cert) eqn:Ha; cbn|..]; split; try done.
  - right. by exists cert.
  - intros [|(c & [= ->] & Hc)]; [done|congruence].
  - by intros [|(c & ? & _)].
  - by intros [|(c & ? & _)].
Qed.

Lemma parse_ips_ok l : is_ok (parse_ips l) = true <-> Forall (fun s => is_Some (ParseIP (TrimSpace s))) l.
Proof.
  induction l as [|s l IH]; cbn; [by split|]. rewrite Forall_cons. destruct (ParseIP (TrimSpace s)) as [ip|].
  - rewrite <- IH. destruct (parse_ips l); cbn; split; try done; by intros [_ ?].
  - split; [done|]. by intros [[? ?] _].
Qed.

Lemma parse_gates_ok l gates :
  is_ok (parse_feature_gates gates l) = true <-> Forall (fun s => is_ok (parse_feature_gate s) = true) l.
Proof.
  revert gates. induction l as [|s l IH]; intros gates; cbn; [by split|]. rewrite Forall_cons.
  destruct (parse_feature_gate s) as [[name enabled]|e|w]; cbn; [rewrite IH; naive_solver|split; [done|by intros []]..].
Qed.

Lemma service_account_ok name :
  is_ok (service_account name) = true <-> name = "" \/ exists ns n, Split name "/" = [ns; n].
Proof.
  unfold service_account. destruct (decide (name = "")) as [->|Hne]; [by split; [left|]|].
  destruct (Split name "/") as [|a [|b [|c l]]]; cbn; split; try done; try (intros [|(? & ? & ?)]; done).
  intros _. right. by exists a, b.
Qed.

Lemma gates_ok gates : is_ok (parseKubeletFeatureGates gates) = true <->
  Forall (fun s => is_ok (parse_feature_gate s) = true) (Split gates ",").
Proof.
  rewrite <- (parse_gates_ok _ ∅). unfold parseKubeletFeatureGates.
  destruct (parse_feature_gates ∅ _) as [m|e|w]; cbn; [|done..]. by destruct (m !! _).
Qed.

(** One step of a chain of checks. *)
Lemma is_ok_check {A B} (m : result A) (f : A -> result B) (P : Prop) :
  (forall a, is_ok (f a) = true <-> P) -> is_ok (bindR m f) = true <-> is_ok m = true /\ P.
Proof. intros Hf. destruct m as [a|e|w]; cbn; [rewrite Hf; naive_solver|by split; [|intros []]..]. Qed.

Lemma prepare_ok logFlags opt :
  log.Validate logFlags = Ok tt /\ is_ok (prepare opt) = true <-> valid_options logFlags opt.
Proof.
  assert (is_ok (prepare opt) = true <-> opt_namespace opt <> "" /\ opt_containerRuntime opt = "containerd" /\
    ca_file_valid (opt_kubernetesCABundleFile opt) /\ ca_file_valid (opt_caBundleFile opt) /\
    Forall (fun s => is_Some (ParseIP (TrimSpace s))) (Split (opt_clusterDNSIPs opt) ",") /\
    Forall (fun s => is_ok (parse_feature_gate s) = true) (Split (opt_kubeletFeatureGates opt) ",") /\
    (opt_bootstrapTokenServiceAccountName opt = "" \/
     exists ns n, Split (opt_bootstrapTokenServiceAccountName opt) "/" = [ns; n]) /\
    is_ok (BuildConfig (containerRuntimeOpts opt)) = true) as ->.
  { rewrite <- (custom_ca_ok "-kubernetes-ca-bundle is invalid: %s"), <- (custom_ca_ok "-host-ca-bundle is invalid: %s"),
      <- parse_ips_ok, <- gates_ok, <- service_account_ok. unfold prepare.
    destruct (decide (opt_namespace opt = "")); [by split; [|intros []]|].
    destruct (decide (opt_containerRuntime opt <> "containerd")) as [|Hcr%dec_stable]; [by split; [|intros (_ & ? & _)]|].
    etransitivity; [repeat (apply is_ok_check; intros ?); instantiate (1 := True); by split|].
    rewrite !is_ok_wrapR. unfold parseClusterDNSIPs. split; intros; destruct_and?; by split_and!. }
  split; [by intros (? & ? & ? & ? & ? & ? & ? & ? & ?)|by intros []].
Qed.

(** The calls before the managers. *)
Definition local_call X (e : StartE X) : Prop :=
  match e with SetLogger _ _ | Configure _ => True | _ => False end.
Definition local_calls (t : list (obs StartE)) : Prop :=
  Forall (fun o => match o with Obs e _ => local_call _ e end) t.

(** C38: invalid options never reach a cluster: from a command line the grammar accepts, a run of the controller asks for the configuration of a cluster exactly when its options are valid: a known log format, a namespace, containerd as the runtime, readable certificates, cluster DNS addresses, feature gates and a service account that parse, and a container runtime configuration that can be built; otherwise it has only set the logger and ends with an error *)
Theorem invalid_options_refused args t b scheme vars rest :
  run (controller_main args) t b -> init = Ok scheme -> osm.parse_command_line args = Ok (vars, rest) ->
  (valid_options (osm.logFlags vars) (osm.opt vars) /\ exists config, Obs GetConfigOrDie config ∈ t) \/
  (~ valid_options (osm.logFlags vars) (osm.opt vars) /\ local_calls t /\ is_ok b = false).
Proof.
  intros Hr Hinit Hvars. rewrite <- prepare_ok. unfold controller_main in Hr. rewrite Hinit in Hr.
  unfold pureIO at 1 in Hr. cbn [bindIO bind] in Hr. rewrite Hvars in Hr. unfold pureIO at 1 in Hr. cbn [bindIO bind] in Hr.
  destruct (log.Validate (osm.logFlags vars)) as [[]|e|w]; cbn [pureIO wrapIO bindIO bind wrapR] in Hr.
  2,3: destruct Hr as [-> ->]; right; split_and!; [by intros []|by apply Forall_nil|done].
  do 2 (run_step Hr). destruct (prepare (osm.opt vars)) as [p|e|w]; cbn [pureIO bindIO bind] in Hr.
  2,3: destruct Hr as [-> ->]; right; split_and!; [by intros []|by repeat constructor|done].
  left. split; [exact (conj eq_refl eq_refl)|]. unfold createManager in Hr. run_step Hr. eexists. by right; right; left.
Qed.

(** *** The webhooks *)

(** A webhook server that starts serves the three handlers under their paths, with the certificates of its flag, a namespace and both probes; starting the manager is the last call. *)
Lemma webhook_started_run args t b :
  run (webhooks.webhook_main args) t b -> starts t ->
  exists scheme vars rest config mgr answer,
  let opt := webhooks.opt vars in
  init = Ok scheme /\ webhooks.parse_command_line args = Ok (vars, rest) /\
  log.Validate (webhooks.logFlags vars) = Ok tt /\ webhooks.opt_namespace opt <> "" /\
  t = [Obs (SetLogger (log.New (log.Debug (webhooks.logFlags vars)) (log.Options_Format (webhooks.logFlags vars))) 1) tt;
       Obs GetConfigOrDie (Ok config);
       Obs (manager_New config (webhooks.manager_options scheme opt)) (Ok mgr);
       Obs (Register mgr "/operatingsystemconfig" OSCValidation) tt;
       Obs (Register mgr "/operatingsystemprofile" OSPValidation) tt;
       Obs (Register mgr "/mutate-v1alpha1-machinedeployment" MDMutation) tt;
       Obs (AddHealthzCheck mgr "healthz") (Ok tt); Obs (AddReadyzCheck mgr "readyz") (Ok tt);
       Obs (manager_Start mgr) answer] /\
  b = wrapR "failed to start OSC controller: %v" [] answer.
Proof.
  unfold webhooks.webhook_main. intros Hr Hs.
  apply pureIO_past in Hr as (scheme & Hscheme & Hr); [|done]. cbv beta in Hr.
  apply pureIO_past in Hr as ([vars rest] & Hvars & Hr); [|done].
  past Hr Hs as [] Hlog. apply run_wrapIO_Ok, run_pureIO in Hlog as [-> Hlog].
  apply (run_bind_past is_start) in Hr as ([] & t2 & -> & Hr & Hs'); [|by intros []|done]. clear Hs.
  destruct (decide (webhooks.opt_namespace (webhooks.opt vars) = "")) as [|Hns]; [destruct Hr as [-> _]; inversion Hs'|].
  past Hr Hs' as config Hc. apply run_trigger in Hc as ->.
  past Hr Hs' as mgr Hm. apply run_wrapIO_Ok, run_trigger in Hm as ->.
  apply (run_bind_past is_start) in Hr as ([] & t3 & -> & Hr & Hs); [|by intros []|done]. clear Hs'.
  apply (run_bind_past is_start) in Hr as ([] & t4 & -> & Hr & Hs'); [|by intros []|done]. clear Hs.
  apply (run_bind_past is_start) in Hr as ([] & t5 & -> & Hr & Hs); [|by intros []|done]. clear Hs'.
  past Hr Hs as [] Hh. apply run_wrapIO_Ok, run_trigger in Hh as ->.
  past Hr Hs as [] Hh. apply run_wrapIO_Ok, run_trigger in Hh as ->.
  apply run_wrapIO in Hr as (answer & ->%run_trigger & ->).
  exists scheme, vars, rest, config, mgr, answer. by split_and!.
Qed.
End Started.
#[local] Transparent osm.parse_command_line webhooks.parse_command_line.

(** ** Evaluation on concrete inputs *)

Module Demo.
#[export] Existing Instances DemoSDK.sdk OSCController.Demo.libs OSPController.Demo.files SplitURL.splitter
  Main.Demo.file_system.

#[export] Instance zap : log.Zap := {| log.OtherSettings := unit; log.production_settings := tt |}.

(** Managers and clients are the configurations they are made from. *)
#[export] Instance runtime : Runtime := {| Mgr := RestConfig; Direct := RestConfig; GetConfig c := c |}.
#[export] Instance schemes : SchemeLibs :=
  {| AddToGroupVersion _ _ s := s; clientgoscheme_AddToScheme s := Ok s; clusterv1alpha1_AddToScheme s := Ok s |}.

(** Every call succeeds; the state counts them. *)
Definition handle X (e : StartE X) (n : nat) : X * nat :=
  match e with
  | SetLogger _ _ | Configure _ | SetConfigVarResolver _ | Register _ _ _ => (tt, S n)
  | GetConfigOrDie => (Ok Main.Demo.rest, S n)
  | ClientConfig _ => (Ok {| CAData := "CA"; CAFile := "" |}, S n)
  | client_New c _ => (Ok c, S n)
  | manager_New c _ => (Ok c, S n)
  | AddHealthzCheck _ _ | AddReadyzCheck _ _ | manager_Add _ _ | Build _ _ | manager_Start _ => (Ok tt, S n)
  end.

Definition args : list string :=
  ["-namespace=osm"; "--disable-default-osps"; "-worker-count"; "0x10"; "-cluster-dns=10.0.0.10";
   "-host-ca-bundle"; "/ca.pem"; "-kubernetes-ca-bundle=/ca.pem"; "--"; "ignored"].
Definition calls : list (obs StartE) := trace handle (controller_main args) 0.
Definition parsed : osm.variables * list string :=
  default (osm_defaults, []) (ok_value (osm.parse_command_line args)).

(** A container runtime that is not supported. *)
Definition bad_args : list string := ["-namespace=osm"; "-container-runtime=docker"].
Definition is_local (o : obs StartE) : bool :=
  match o with Obs e _ => match e with SetLogger _ _ | Configure _ => true | _ => false end end.
Lemma bad_local : forallb is_local (trace handle (controller_main bad_args) 0) = true.
Proof. vm_compute. reflexivity. Qed.
End Demo.
Import Demo.

Example demo_args :
  (opt_workerCount (osm.opt Demo.parsed.1), opt_disableDefaultOSPs (osm.opt Demo.parsed.1),
   opt_containerRuntime (osm.opt Demo.parsed.1), Demo.parsed.2) = (16%Z, true, "containerd", ["ignored"]).
Proof. vm_compute. reflexivity. Qed.

Lemma started_run_witness :
  length Demo.calls = 9 /\
  exists scheme vars rest, init = Ok scheme /\ osm.parse_command_line Demo.args = Ok (vars, rest).
Proof.
  split; [vm_compute; reflexivity|].
  destruct (started_run Demo.args Demo.calls _ (run_trace Demo.handle (controller_main Demo.args) 0))
    as (scheme & vars & rest & Hs & Hv & _).
  - unfold starts. apply List.Exists_exists. exists (List.nth 8 Demo.calls (Obs GetConfigOrDie (Err (Errorf "" [])))).
    split; [apply List.nth_In; vm_compute; lia|vm_compute; exact I].
  - exists scheme, vars, rest. by split.
Defined.

Lemma invalid_options_refused_witness :
  let t := trace Demo.handle (controller_main Demo.bad_args) 0 in length t = 2 /\ local_calls t.
Proof.
  cbn zeta. split; [vm_compute; reflexivity|].
  destruct (osm.parse_command_line Demo.bad_args) as [[vars rest]|e|w] eqn:Hvars;
    [|vm_compute in Hvars; discriminate Hvars..].
  destruct init as [scheme|e|w] eqn:Hinit; [|discriminate Hinit..].
  destruct (invalid_options_refused Demo.bad_args _ _ scheme vars rest
    (run_trace Demo.handle (controller_main Demo.bad_args) 0) Hinit Hvars) as [[_ [config Hin]]|(_ & Hlocal & _)];
    [exfalso|exact Hlocal].
  apply list_elem_of_In in Hin. apply (proj1 (forallb_forall Demo.is_local _) Demo.bad_local) in Hin. discriminate Hin.
Defined.
